(* ===== verification/_CoqProject ===== *)
-Q . S2P
Prelude.v
Crc.v
Messages.v
Stream.v
GoString.v
Utf8.v
Topic.v
Serial.v
Bus.v
Sha256.v
Float64.v
Json.v
JsonFacts.v
Schema.v
Decoded.v
Policy.v
GoTime.v
Dlq.v
Guard.v
DataMule.v
FloatRange.v
JsonNumber.v
JsonText.v
JsonValue.v
RoundTrip.v
FloatValid.v
Typed.v
Lines.v
RestClient.v
Trig.v
Bridge.v
Display.v
BenchCheck.v
Clients.v
VehicleSim.v
EdgeAgent.v
Http.v
Server.v
Hub.v
Gateway.v
GuardMain.v
System.v
Network.v
GatewayMain.v
AgentMain.v
