(* ===== verification/Prelude.v ===== *)
(** Blue Polar Bear: a verification of the edge-to-cloud command and telemetry system.

    The programs exchange security envelopes (JSON documents with a classification and
    a payload digest) over a publish/subscribe bus. Vehicles (cmd/edge-agent) report
    telemetry on [sec/<tier>/...] keys and obey commands; the C2 gateway
    (cmd/c2-gateway) keeps the fleet picture, serves the dashboards and dispatches
    commands; a data mule (pkg/zenohutil/datamule.go) buffers what goes upstream while
    the backhaul is down; the cross-domain guard (cmd/cds-guard) lets TIER-1 packets
    out, redacts TIER-2 packets and quarantines the rest; real autopilots are reached
    by MAVLink (pkg/mavlink) over UDP or a serial line; a desk sniffer
    (cmd/bench-check) watches such a line.

    * Files and the code they model

    Foundations, each a model of a part of the Go library the program relies on:
    - Prelude: results, machine integers, bytes, bits, lists and the shared tactics;
    - GoString, Utf8, Lines: byte strings, packages strings, strconv and unicode/utf8,
      valid texts, trimming;
    - Float64, FloatRange, FloatValid, Trig: binary64 with its rounding theory, the
      ranges of chains of operations, that rounding always yields a canonical float, and
      the Go library's Sin, Cos and Atan2;
    - Sha256: crypto/sha256 and encoding/hex; GoTime: time.Time and its JSON form;
    - Json, JsonFacts, JsonNumber, JsonText, JsonValue: encoding/json - the writer, the
      parser, when writing succeeds, and that what is written is read back;
    - Http and Server: requests, responses, body decoding and the multiplexer of
      net/http; Display: the number and column verbs of package fmt.

    MAVLink (src/pkg/mavlink):
    - Crc: crc.go; Messages: messages.go, framing and payload codecs;
    - Stream: stream.go, the decoder over a buffered reader of arbitrary fragments;
    - Bridge: bridge.go, the vehicle state, and the unit conversions of messages.go;
    - Serial: serial.go, serial_linux.go, serial_darwin.go;
    - Clients: udp.go and stream_client.go, both clients behind one interface.

    The mesh (src/pkg/zenohutil, src/pkg/schema, src/pkg/policy):
    - Topic: topic.go; Bus: client.go, selectors, the bus interface, the in-memory bus;
    - RestClient: client.go, the bus over HTTP and server-sent events;
    - Schema: telemetry.go, envelopes, digests and validation; Decoded, RoundTrip and
      Typed: what decoding can produce, the document that an envelope is on the wire,
      that envelopes survive it, what a digest binds, and forwarding;
    - Policy: policy.go; Dlq: dlq.go; DataMule: datamule.go.

    Programs (src/cmd):
    - Guard and GuardMain: cds-guard/main.go, the packet pipeline, and the main function
      with its start, inspection server and stop;
    - BenchCheck: bench-check/main.go;
    - VehicleSim, EdgeAgent and AgentMain: edge-agent/main.go, the simulated vehicle, the
      loops and relays around it, and what the flags launch;
    - Hub, Gateway and GatewayMain: c2-gateway/main.go, the fan-out to dashboards, the
      handlers, and the main function with its start, routes and stop;
    - System: the programs composed over one bus; Network: the same programs and an
      arbitrary attacker as a transition system of deliveries.

    * How state and operations correspond

    Structs are records with the names of their fields, methods are functions from the
    old state to results and the new state. A method that holds its mutex throughout is
    one step; where it does not (the hub, the UDP client, the mule's mode change) the
    steps between lock regions are separate and histories interleave them. Errors are
    values of [result] or, for a bare [error], an optional text; a panic is an
    [outcome]. The bus is the class [Bus], used by every program through its interface;
    [BusLog] observes what was acknowledged, [BusAlive] is a bus on which publishing
    keeps succeeding; the in-memory bus, the REST client and any recorded bus are
    instances. [AutopilotClient] with [AutopilotLaws] plays that part for the two
    MAVLink clients.

    Clock readings, system calls, disk writes and HTTP exchanges are arguments of the
    operations or classes over an unknown state, so every theorem holds for all their
    outcomes. The Unicode tables ([Unicode], with the laws of simple case folding on
    ASCII in [UnicodeLaws]) and the texts of JSON errors ([JsonErrors], [BodyErrors])
    are parameters. Map iteration has no order; theorems about it are up to
    permutation. The gateway and its data mule share one bus, so a call of the mule
    is made on the gateway's current bus.

    * What the theorems show

    - The guard (Schema, Policy, Guard): validation accepts exactly the well-formed
      envelopes, and an accepted digest binds the payload as it is after rounding (what
      rounding removes, the header, and a command beside telemetry are not bound); verdicts are exactly those of the
      tiers; a redaction is a valid TIER-1 envelope whose position is coarsened; only
      permitted packets leave, and the counters and the dead-letter queue account for
      every packet.
    - The wire (Crc, Messages, Stream, Topic, RoundTrip, Typed): frames, keys and
      envelopes round-trip; corruption of a frame is rejected; the stream decoder refines
      a function of the byte sequence and terminates; an envelope's text is the documented JSON
      document, and forwarding whatever decodes loses nothing but empty maps.
    - The bus (Bus, RestClient): the in-memory bus refines a list of subscriptions; the
      selector relation agrees with its inductive definition; a REST subscription
      delivers exactly the matching events of any router that follows the event-stream
      standard, strings unquoted and null as nothing; a REST publication succeeds
      exactly on a status of success.
    - Buffering (DataMule, Gateway): flushing sends the buffer in order and stops at the
      first failure; an outage loses nothing but what the capacity evicts.
    - Vehicles (VehicleSim, EdgeAgent, Bridge, Clients): flight invariants, addressing of
      commands, the reports of a tick, sequence numbers of a session, ingestion, and that
      an autopilot whose link is lost goes on being reported while its last angles are
      finite.
    - The gateway (Gateway, Hub): each handler branch by branch, the fleet map, and
      that a dashboard is written exactly the messages taken since its registration, in
      order.
    - The whole (System, Network): an authorized order reaches and moves exactly the
      vehicle it names; a vehicle's report becomes exactly its entry of the fleet
      picture; at the guard it leaves redacted or is quarantined, according to its tier;
      commands need no authority. Over any interleaving, orders on the bus were
      authorized, the TIER-1 zone holds only what the guard let through, and the fleet
      picture comes from the wire.
    - The running programs (GuardMain, GatewayMain, AgentMain, BenchCheck): the guard's
      inspection server shows its true counters and last rejected packets; requests
      change the gateway only where they are meant to; a restarted gateway abandons the
      backlog of its spool file, and TIER-2 reports leave by its backhaul unredacted; the
      vehicles of a swarm have names of their own, so that an order reaches one of them;
      and what the sniffer's screen says of position and battery is within half a unit of
      its last digit of what the autopilot sent.

    * Fuel and bounds

    The JSON parser has fuel 2 + 2n for a text of n bytes and a nesting limit of 10000,
    the limit of the Go library; JsonValue proves the fuel enough for everything that is
    written. The shortest decimal of a float is found within 800 digits, enough for any
    binary64 number (JsonNumber proves it correct). [NextFrame] has fuel for every byte
    that is buffered or still to come, and Stream proves that it never runs out. The
    read loops of the stream client and of the sniffer take one element of a list of
    clock readings per turn. The reduction constants of Trig are those of the Go
    library. The round trip of envelopes is for floats below 2^1013 in magnitude and
    non-empty maps (an empty map is left out by the encoder).

    * Assumptions and what is not modelled

    - Floating point is that of amd64, without fused multiply-add.
    - HTTP headers, URL syntax, TLS and time-outs belong to the HTTP stack.
    - Parsing of flags (their values and defaults are records), signal handling, the
      listeners and time-outs of the HTTP servers and the scheduling of goroutines are
      left to the Go library and the system; the websocket upgrade, the static files of
      the dashboard and the opening of sockets are inputs. Percent escapes in request
      paths are not decoded.
    - The refreshes of the sniffer's screen are given the metrics that its reader has
      left by then; the atomic counters and the other metrics are read together.
    - Log output is left out, except where evaluating its arguments can panic.
    - serial_other.go only reports an unsupported platform; reading and writing of an
      open serial port only call the file.
    - The browser console, container and router configuration and scripts are not Go
      code. *)

From Stdlib Require Export ZArith Lia.
From Stdlib Require Import Strings.Byte Strings.Ascii Strings.String.
From stdpp Require Export base list gmap strings.

(** * Results of fallible Go functions

    A Go function returning [(T, error)] is modelled by [result E T]; the error
    type [E] is chosen by each component. *)
Inductive result (E A : Type) : Type :=
| Ok (a : A)
| Err (e : E).
Arguments Ok {E A} a.
Arguments Err {E A} e.

Definition is_ok {E A} (r : result E A) : bool :=
  match r with Ok _ => true | Err _ => false end.

Definition is_Some_b {A} (o : option A) : bool := match o with Some _ => true | None => false end.

Declare Scope go_scope.
Delimit Scope go_scope with go.
Notation "'let?' x ':=' c 'in' k" :=
  (match c with Ok x => k | Err err => Err err end)
  (at level 10, x pattern, c at level 100, k at level 200) : go_scope.

(** * Machine integers

    Integers are [Z]; conversions between Go's integer types truncate to the
    width of the target ([uN]) and, for the signed types, re-interpret the top
    bit ([iN]). *)
Definition wrapU (w z : Z) : Z := (z mod 2 ^ w)%Z.
Definition wrapS (w z : Z) : Z := ((z + 2 ^ (w - 1)) mod 2 ^ w - 2 ^ (w - 1))%Z.

Abbreviation u8 := (wrapU 8).
Abbreviation u16 := (wrapU 16).
Abbreviation u32 := (wrapU 32).
Abbreviation u64 := (wrapU 64).
Abbreviation i8 := (wrapS 8).
Abbreviation i16 := (wrapS 16).
Abbreviation i32 := (wrapS 32).
Abbreviation i64 := (wrapS 64).

Definition in_u (w z : Z) : Prop := (0 <= z < 2 ^ w)%Z.
Definition in_s (w z : Z) : Prop := (- 2 ^ (w - 1) <= z < 2 ^ (w - 1))%Z.

Create HintDb width.

Section Width.
Local Open Scope Z_scope.

Lemma wrapU_small w z : in_u w z -> wrapU w z = z.
Proof. intros H. by apply Z.mod_small. Qed.

Lemma wrapU_range w z : 0 <= w -> in_u w (wrapU w z).
Proof. intros Hw. apply Z.mod_pos_bound. lia. Qed.

Lemma wrapS_range w z : 0 < w -> in_s w (wrapS w z).
Proof.
  intros Hw. unfold in_s, wrapS.
  assert (2 ^ w = 2 * 2 ^ (w - 1)) as E by (rewrite <- Z.pow_succ_r by lia; f_equal; lia).
  pose proof (Z.mod_pos_bound (z + 2 ^ (w - 1)) (2 ^ w)). lia.
Qed.

(** Converting a signed integer to the unsigned type of its width and back
    is the identity. *)
Lemma wrapS_wrapU w z : 0 < w -> in_s w z -> wrapS w (wrapU w z) = z.
Proof.
  intros Hw [Hl Hu]. unfold wrapS, wrapU.
  assert (2 ^ w = 2 * 2 ^ (w - 1)) as E by (rewrite <- Z.pow_succ_r by lia; f_equal; lia).
  rewrite Zplus_mod_idemp_l, Z.mod_small; lia.
Qed.

Lemma wrapU_wrapS w z : 0 < w -> in_u w z -> wrapU w (wrapS w z) = z.
Proof.
  intros Hw [Hl Hu]. unfold wrapS, wrapU.
  rewrite Zminus_mod_idemp_l.
  replace (z + 2 ^ (w - 1) - 2 ^ (w - 1)) with z by lia. by apply Z.mod_small.
Qed.
End Width.

#[export] Hint Resolve wrapU_small wrapU_range wrapS_range wrapS_wrapU wrapU_wrapS : width.

(** Bitwise operators keep a value inside its width. *)
Section Bitwise.
Local Open Scope Z_scope.

Lemma in_u_bits w z :
  0 <= w -> in_u w z <-> 0 <= z /\ forall i, w <= i -> Z.testbit z i = false.
Proof.
  intros Hw. split.
  - intros [Hl Hu]. split; [done|]. intros i Hi.
    rewrite <- (Z.mod_small z (2 ^ w)) by done. by apply Z.mod_pow2_bits_high.
  - intros [Hl Hb]. split; [done|].
    replace z with (Z.land z (Z.ones w)).
    { rewrite Z.land_ones by done. apply Z.mod_pos_bound. lia. }
    apply Z.bits_inj'. intros i Hi. rewrite Z.land_spec.
    destruct (decide (i < w)) as [H|H].
    + by rewrite Z.ones_spec_low, andb_true_r.
    + rewrite Hb; [done|lia].
Qed.

Lemma in_u_lxor w a b : 0 <= w -> in_u w a -> in_u w b -> in_u w (Z.lxor a b).
Proof.
  intros Hw [Ha Ha']%in_u_bits [Hb Hb']%in_u_bits; try done.
  apply in_u_bits; [done|]. split; [by apply Z.lxor_nonneg|].
  intros i Hi. by rewrite Z.lxor_spec, Ha', Hb'.
Qed.

Lemma in_u_shiftr w a n : 0 <= w -> 0 <= n -> in_u (w + n) a -> in_u w (Z.shiftr a n).
Proof.
  intros Hw Hn [Ha Ha']%in_u_bits; [|lia].
  apply in_u_bits; [done|]. split; [by apply Z.shiftr_nonneg|].
  intros i Hi. rewrite Z.shiftr_spec by lia. apply Ha'. lia.
Qed.

Lemma in_u_land_l w a b : 0 <= w -> in_u w b -> in_u w (Z.land a b).
Proof.
  intros Hw [Hb Hb']%in_u_bits; [|done].
  apply in_u_bits; [done|]. split; [apply Z.land_nonneg; by right|].
  intros i Hi. by rewrite Z.land_spec, Hb', andb_false_r.
Qed.

(** Or-ing a shifted word above a narrower one is an addition. *)
Lemma lor_shiftl w a b : 0 <= w -> in_u w a -> Z.lor a (Z.shiftl b w) = a + b * 2 ^ w.
Proof.
  intros Hw [Ha Ha']%in_u_bits; [|done].
  rewrite <- Z.shiftl_mul_pow2 by done.
  assert (Z.land a (Z.shiftl b w) = 0) as E.
  { apply Z.bits_inj'. intros i Hi. rewrite Z.land_spec, Z.bits_0.
    destruct (decide (i < w)) as [H|H].
    - by rewrite Z.shiftl_spec_low, andb_false_r.
    - rewrite Ha'; [done|lia]. }
  by rewrite Z.add_nocarry_lxor, Z.lxor_lor.
Qed.

Lemma land_255 z : Z.land z 0xFF = z mod 256.
Proof. change 0xFF with (Z.ones 8). rewrite Z.land_ones by lia. done. Qed.

Lemma in_u_mono w w' a : 0 <= w <= w' -> in_u w a -> in_u w' a.
Proof. intros Hw [Ha Hb]. split; [done|]. pose proof (Z.pow_le_mono_r 2 w w'). lia. Qed.
End Bitwise.

(** * Bytes *)
Abbreviation byte := Init.Byte.byte.

Definition bz (b : byte) : Z := Z.of_N (Byte.to_N b).
Definition zb (z : Z) : byte :=
  match Byte.of_N (Z.to_N (z mod 256)) with Some b => b | None => x00 end.

Section Bytes.
Local Open Scope Z_scope.

Lemma bz_range b : 0 <= bz b < 256.
Proof. unfold bz. pose proof (Byte.to_N_bounded b). lia. Qed.

Lemma bz_in_u8 b : in_u 8 (bz b).
Proof. apply bz_range. Qed.

Lemma bz_zb z : bz (zb z) = z mod 256.
Proof.
  unfold bz, zb. pose proof (Z.mod_pos_bound z 256 eq_refl) as H.
  destruct (Byte.of_N (Z.to_N (z mod 256))) as [b|] eqn:E.
  - apply Byte.to_of_N in E. rewrite E. lia.
  - apply Byte.of_N_None_iff in E. lia.
Qed.

Lemma bz_inj b1 b2 : bz b1 = bz b2 -> b1 = b2.
Proof.
  unfold bz. intros H%N2Z.inj.
  pose proof (Byte.of_to_N b1). pose proof (Byte.of_to_N b2). congruence.
Qed.

Lemma zb_bz b : zb (bz b) = b.
Proof. apply bz_inj. rewrite bz_zb. apply Z.mod_small, bz_range. Qed.

Lemma zb_mod z : zb (z mod 256) = zb z.
Proof. apply bz_inj. rewrite !bz_zb. by rewrite Z.mod_mod. Qed.

Lemma bz_zb_small z : 0 <= z < 256 -> bz (zb z) = z.
Proof. intros H. rewrite bz_zb. by apply Z.mod_small. Qed.
End Bytes.

#[export] Instance byte_eq_dec : EqDecision byte := Byte.byte_eq_dec.

#[export] Hint Resolve bz_range bz_in_u8 : width.
Create Rewrite HintDb bytes.
#[export] Hint Rewrite zb_bz bz_zb : bytes.

(** A property of all byte values is decided by evaluating it on the 256 of
    them. *)
Definition all_bytes : list byte := zb ∘ Z.of_nat <$> seq 0 256.

Lemma forall_bytes (P : byte -> bool) :
  forallb P all_bytes = true -> forall b, P b = true.
Proof.
  intros H b. rewrite forallb_forall in H. apply H.
  apply list_elem_of_In, list_elem_of_fmap. exists (Z.to_nat (bz b)).
  pose proof (bz_range b). split.
  - simpl. rewrite Z2Nat.id by lia. by rewrite zb_bz.
  - apply elem_of_seq. lia.
Qed.

(** * Little-endian integers (encoding/binary) *)
Fixpoint le_decode (l : list byte) : Z :=
  match l with
  | [] => 0
  | b :: l => bz b + 256 * le_decode l
  end.

Fixpoint le_encode (n : nat) (z : Z) : list byte :=
  match n with
  | O => []
  | S n => zb z :: le_encode n (z / 256)
  end.

Section LittleEndian.
Local Open Scope Z_scope.

Lemma length_le_encode n z : length (le_encode n z) = n.
Proof. revert z; induction n as [|n IH]; intros z; simpl; [done|]. by rewrite IH. Qed.

Lemma le_decode_range l : 0 <= le_decode l < 2 ^ (8 * Z.of_nat (length l)).
Proof.
  induction l as [|b l IH]; [simpl; lia|].
  pose proof (bz_range b). cbn [le_decode length].
  replace (8 * Z.of_nat (S (length l))) with (8 + 8 * Z.of_nat (length l)) by lia.
  rewrite Z.pow_add_r by lia. change (2 ^ 8) with 256. lia.
Qed.

Lemma le_decode_encode n z : le_decode (le_encode n z) = z mod 2 ^ (8 * Z.of_nat n).
Proof.
  revert z; induction n as [|n IH]; intros z; [simpl; by rewrite Z.mod_1_r|].
  cbn [le_decode le_encode]. rewrite IH, bz_zb.
  replace (8 * Z.of_nat (S n)) with (8 + 8 * Z.of_nat n) by lia.
  rewrite Z.pow_add_r by lia. change (2 ^ 8) with 256.
  rewrite Z.rem_mul_r by lia. done.
Qed.

Lemma le_encode_decode l n : length l = n -> le_encode n (le_decode l) = l.
Proof.
  intros <-. induction l as [|b l IH]; [done|].
  cbn [le_decode length le_encode]. pose proof (bz_range b). f_equal.
  - apply bz_inj. rewrite bz_zb.
    rewrite Z.mul_comm, Z.mod_add by lia. by apply Z.mod_small.
  - rewrite Z.mul_comm, Z.div_add, Z.div_small by lia. exact IH.
Qed.

Lemma le_decode_encode_small n z :
  in_u (8 * Z.of_nat n) z -> le_decode (le_encode n z) = z.
Proof. intros H. rewrite le_decode_encode. by apply Z.mod_small. Qed.

Lemma le_encode_wrap n z : le_encode n (wrapU (8 * Z.of_nat n) z) = le_encode n z.
Proof.
  unfold wrapU. rewrite <- le_decode_encode. apply le_encode_decode, length_le_encode.
Qed.
End LittleEndian.

(** * Slices *)
Definition slice {A} (i j : nat) (l : list A) : list A := take (j - i) (drop i l).

Lemma length_slice {A} i j (l : list A) :
  (j <= length l)%nat -> length (slice i j l) = (j - i)%nat.
Proof. intros H. unfold slice. rewrite length_take, length_drop. lia. Qed.

(** Reading a field of a concatenation of encoded fields. *)
Lemma slice_app_r {A} i j (l1 l2 : list A) :
  (length l1 <= i)%nat -> slice i j (l1 ++ l2) = slice (i - length l1) (j - length l1) l2.
Proof.
  intros H. unfold slice. rewrite drop_app_ge by lia. f_equal. lia.
Qed.

Lemma slice_app_l {A} i j (l1 l2 : list A) :
  i = 0%nat -> j = length l1 -> slice i j (l1 ++ l2) = l1.
Proof. intros -> ->. unfold slice. by rewrite drop_0, Nat.sub_0_r, take_app_length. Qed.

Lemma slice_app_prefix {A} i j (l1 l2 : list A) :
  (j <= length l1)%nat -> slice i j (l1 ++ l2) = slice i j l1.
Proof.
  intros H. unfold slice. destruct (decide (i <= length l1)%nat) as [Hi|Hi].
  - rewrite drop_app_le by lia. apply take_app_le. rewrite length_drop. lia.
  - by replace (j - i)%nat with 0%nat by lia.
Qed.

Lemma slice_all {A} j (l : list A) : length l = j -> slice 0 j l = l.
Proof. intros <-. unfold slice. rewrite drop_0, Nat.sub_0_r. apply take_ge. lia. Qed.

Lemma slice_take {A} j (l : list A) : slice 0 j l = take j l.
Proof. unfold slice. by rewrite drop_0, Nat.sub_0_r. Qed.

(** Adjacent slices concatenate. *)
Lemma slice_slice_app {A} i j k (l : list A) :
  (i <= j <= k)%nat -> slice i j l ++ slice j k l = slice i k l.
Proof.
  intros H. unfold slice. replace (k - i)%nat with ((j - i) + (k - j))%nat by lia.
  rewrite <- take_take_drop.
  rewrite drop_drop. by replace (i + (j - i))%nat with j by lia.
Qed.

(** [byte_at l i] is the Go expression [l[i]] for an index already known to
    be in range; [x00] is never reached there. *)
Definition byte_at (l : list byte) (i : nat) : byte := nth i l x00.

(** * Bounded queues: the last elements of a list *)

Definition lastn {A} (n : nat) (l : list A) : list A := drop (length l - n) l.

Lemma length_lastn {A} n (l : list A) : length (lastn n l) = Nat.min n (length l).
Proof. unfold lastn. rewrite length_drop. lia. Qed.

Lemma lastn_all {A} n (l : list A) : (length l <= n)%nat -> lastn n l = l.
Proof. intros H. unfold lastn. by replace (length l - n)%nat with 0%nat by lia. Qed.

Lemma lastn_app_full {A} n (l k : list A) : (n <= length k)%nat -> lastn n (l ++ k) = lastn n k.
Proof.
  intros H. unfold lastn. rewrite length_app, drop_app_ge by lia. f_equal. lia.
Qed.

Lemma lastn_snoc {A} n (l : list A) x :
  lastn (S n) (l ++ [x]) = (lastn n l ++ [x])%list.
Proof.
  unfold lastn. rewrite length_app. cbn [length].
  rewrite drop_app_le by lia. do 2 f_equal. lia.
Qed.

Lemma tail_drop {A} n (l : list A) : tail (drop n l) = drop (S n) l.
Proof. revert l. induction n as [|n IH]; intros [|x l]; try done. cbn [drop]. by rewrite IH. Qed.

Lemma tail_lastn {A} n (l : list A) : (n <= length l)%nat -> tail (lastn n l) = lastn (n - 1) l.
Proof.
  intros H. unfold lastn. rewrite tail_drop. destruct n as [|n].
  - rewrite !drop_ge by lia. done.
  - f_equal. lia.
Qed.
