(* ===== verification/Crc.v ===== *)
(** The X.25 checksum of pkg/mavlink/crc.go: the byte-wise accumulator, the
    table of CRC-extra seeds, its equivalence with the bit-serial definition of
    the polynomial and the error patterns it is guaranteed to detect. *)
From S2P Require Import Prelude.

Local Open Scope Z_scope.

(** * The code *)

(** [X25CRC.crc], a uint16. *)
Definition X25CRC := Z.

Definition NewX25CRC : X25CRC := 0xFFFF.

(** [ch ^ (ch << 4)] on a byte: Go's shift of a byte drops the bits above 7. *)
Definition mix (ch : Z) : Z := Z.lxor ch (u8 (Z.shiftl ch 4)).

Definition Accumulate (crc : X25CRC) (b : byte) : X25CRC :=
  let ch := Z.lxor (bz b) (u8 (Z.land crc 0xFF)) in
  let ch := mix ch in
  Z.lxor (Z.lxor (Z.lxor (Z.shiftr crc 8) (u16 (Z.shiftl ch 8))) (u16 (Z.shiftl ch 3)))
         (Z.shiftr ch 4).

Definition AccumulateBytes (crc : X25CRC) (data : list byte) : X25CRC :=
  fold_left Accumulate data crc.

Definition Value (crc : X25CRC) : Z := crc.

Definition MsgIDHeartbeat : Z := 0.
Definition MsgIDSysStatus : Z := 1.
Definition MsgIDAttitude : Z := 30.
Definition MsgIDGlobalPositionInt : Z := 33.
Definition MsgIDCommandLong : Z := 76.
Definition MsgIDCommandAck : Z := 77.

Definition CRCExtraHeartbeat : byte := zb 50.
Definition CRCExtraSysStatus : byte := zb 124.
Definition CRCExtraAttitude : byte := zb 39.
Definition CRCExtraGlobalPositionInt : byte := zb 104.
Definition CRCExtraCommandLong : byte := zb 152.
Definition CRCExtraCommandAck : byte := zb 143.

(** The Go function returns [(byte, bool)]; [None] is [(0, false)]. *)
Definition GetCRCExtra (msgID : Z) : option byte :=
  if msgID =? MsgIDHeartbeat then Some CRCExtraHeartbeat
  else if msgID =? MsgIDSysStatus then Some CRCExtraSysStatus
  else if msgID =? MsgIDAttitude then Some CRCExtraAttitude
  else if msgID =? MsgIDGlobalPositionInt then Some CRCExtraGlobalPositionInt
  else if msgID =? MsgIDCommandLong then Some CRCExtraCommandLong
  else if msgID =? MsgIDCommandAck then Some CRCExtraCommandAck
  else None.

(** * Reference: the bit-serial CRC

    The checksum is the remainder by x^16 + x^12 + x^5 + 1, least significant
    bit first; 0x8408 is the reflected polynomial. *)
Definition bit_step (x : Z) : Z :=
  Z.lxor (Z.shiftr x 1) (if Z.testbit x 0 then 0x8408 else 0).

Definition bit_steps (n : nat) (x : Z) : Z := Nat.iter n bit_step x.

Definition crc_ref_byte (crc : Z) (b : byte) : Z := bit_steps 8 (Z.lxor crc (bz b)).

Definition crc_ref (crc : Z) (data : list byte) : Z := fold_left crc_ref_byte data crc.

(** The table-driven view of [Accumulate]: what the low byte contributes. *)
Definition table (i : Z) : Z :=
  let ch := mix i in
  Z.lxor (Z.lxor (u16 (Z.shiftl ch 8)) (u16 (Z.shiftl ch 3))) (Z.shiftr ch 4).

(** * Lemmas *)

(** The value of the low byte of a 16-bit word. *)
Abbreviation low x := (Z.land x 0xFF).

Lemma in_u_low x : in_u 8 (low x).
Proof. apply in_u_land_l; [lia|]. split; vm_compute; congruence. Qed.

Lemma Accumulate_table crc b :
  Accumulate crc b = Z.lxor (Z.shiftr crc 8) (table (Z.lxor (bz b) (low crc))).
Proof.
  unfold Accumulate, table. rewrite (wrapU_small 8 (low crc)) by apply in_u_low.
  by rewrite !Z.lxor_assoc.
Qed.

(** A boolean fact about all values of a byte, checked by evaluation. *)
Lemma forall_u8 (P : Z -> bool) :
  forallb P (bz <$> all_bytes) = true -> forall i, in_u 8 i -> P i = true.
Proof.
  intros H i Hi. rewrite <- (bz_zb_small i) by exact Hi.
  apply (forall_bytes (fun b => P (bz b))). rewrite <- H.
  clear. induction all_bytes as [|b l IH]; [done|]. cbn. by rewrite IH.
Qed.

Definition in_u16b (z : Z) : bool := (0 <=? z) && (z <? 65536).

Lemma table_range i : in_u 8 i -> in_u 16 (table i).
Proof.
  intros H.
  assert (in_u16b (table i) = true) as E
    by (apply (forall_u8 (fun i => in_u16b (table i))); [by vm_compute | done]).
  unfold in_u16b in E. unfold in_u. change (2 ^ 16) with 65536. lia.
Qed.

(** The index is recovered from the high byte of a table entry. *)
Definition table_index (hi : Z) : Z :=
  default 0 (List.find (fun i => Z.shiftr (table i) 8 =? hi) (bz <$> all_bytes)).

Lemma table_index_correct i : in_u 8 i -> table_index (Z.shiftr (table i) 8) = i.
Proof.
  intros H. apply Z.eqb_eq.
  apply (forall_u8 (fun i => table_index (Z.shiftr (table i) 8) =? i)); [by vm_compute | done].
Qed.

Lemma index_range crc b : in_u 8 (Z.lxor (bz b) (low crc)).
Proof. apply in_u_lxor; [lia | apply bz_in_u8 | apply in_u_low]. Qed.

Lemma Accumulate_range crc b : in_u 16 crc -> in_u 16 (Accumulate crc b).
Proof.
  intros H. rewrite Accumulate_table. apply in_u_lxor; [lia| |].
  - apply in_u_shiftr; [lia..|]. by apply (in_u_mono 16); [lia|].
  - apply table_range, index_range.
Qed.

Lemma AccumulateBytes_range crc l : in_u 16 crc -> in_u 16 (AccumulateBytes crc l).
Proof.
  revert crc; induction l as [|b l IH]; intros crc H; [done|].
  apply IH. by apply Accumulate_range.
Qed.

Lemma AccumulateBytes_app crc l1 l2 :
  AccumulateBytes crc (l1 ++ l2) = AccumulateBytes (AccumulateBytes crc l1) l2.
Proof. apply fold_left_app. Qed.

(** The high byte of the new state determines the table index ... *)
Lemma Accumulate_high crc b :
  in_u 16 crc ->
  table_index (Z.shiftr (Accumulate crc b) 8) = Z.lxor (bz b) (low crc).
Proof.
  intros H. rewrite Accumulate_table, Z.shiftr_lxor, Z.shiftr_shiftr by lia.
  rewrite (Z.shiftr_div_pow2 crc) by lia. rewrite Z.div_small by exact H.
  rewrite Z.lxor_0_l. apply table_index_correct, index_range.
Qed.

(** ... hence also the high byte of the old state. *)
Lemma Accumulate_shift crc b :
  in_u 16 crc ->
  Z.shiftr crc 8 =
    Z.lxor (Accumulate crc b) (table (table_index (Z.shiftr (Accumulate crc b) 8))).
Proof.
  intros H. rewrite Accumulate_high by done. rewrite Accumulate_table at 1.
  by rewrite Z.lxor_assoc, Z.lxor_nilpotent, Z.lxor_0_r.
Qed.

Lemma lxor_cancel_l a b c : Z.lxor a b = Z.lxor a c -> b = c.
Proof.
  intros H. apply (f_equal (Z.lxor a)) in H.
  by rewrite <- !Z.lxor_assoc, Z.lxor_nilpotent, !Z.lxor_0_l in H.
Qed.

Lemma u16_split x : x = Z.lxor (Z.shiftl (Z.shiftr x 8) 8) (low x).
Proof.
  apply Z.bits_inj'. intros i Hi. rewrite Z.lxor_spec, Z.land_spec.
  change 0xFF with (Z.ones 8). destruct (decide (i < 8)) as [H|H].
  - rewrite Z.shiftl_spec_low, Z.ones_spec_low by lia. by rewrite andb_true_r, xorb_false_l.
  - rewrite Z.shiftl_spec_high, Z.shiftr_spec, Z.ones_spec_high by lia.
    rewrite andb_false_r, xorb_false_r. f_equal. lia.
Qed.

(** For a fixed byte, [Accumulate] is injective in the state ... *)
Lemma Accumulate_inj_crc c1 c2 b :
  in_u 16 c1 -> in_u 16 c2 -> Accumulate c1 b = Accumulate c2 b -> c1 = c2.
Proof.
  intros H1 H2 E. rewrite (u16_split c1), (u16_split c2). f_equal.
  - f_equal. rewrite (Accumulate_shift c1 b), (Accumulate_shift c2 b) by done. by rewrite E.
  - apply (lxor_cancel_l (bz b)).
    rewrite <- (Accumulate_high c1 b), <- (Accumulate_high c2 b) by done. by rewrite E.
Qed.

(** ... and for a fixed state, in the byte. *)
Lemma Accumulate_inj_byte c b1 b2 :
  in_u 16 c -> Accumulate c b1 = Accumulate c b2 -> b1 = b2.
Proof.
  intros H E. apply bz_inj, (lxor_cancel_l (low c)).
  rewrite !(Z.lxor_comm (low c)), <- (Accumulate_high c b1), <- (Accumulate_high c b2) by done.
  by rewrite E.
Qed.

Lemma AccumulateBytes_inj_crc c1 c2 l :
  in_u 16 c1 -> in_u 16 c2 -> AccumulateBytes c1 l = AccumulateBytes c2 l -> c1 = c2.
Proof.
  revert c1 c2; induction l as [|b l IH]; intros c1 c2 H1 H2 E; [done|].
  apply (Accumulate_inj_crc c1 c2 b); try done.
  apply IH; try done; by apply Accumulate_range.
Qed.

(** Two steps from one state: the high byte of the intermediate state is the
    high byte of a table entry, so the final state determines both bytes. *)
Lemma Accumulate2_inj c a1 a2 b1 b2 :
  in_u 16 c ->
  Accumulate (Accumulate c a1) a2 = Accumulate (Accumulate c b1) b2 -> a1 = b1 /\ a2 = b2.
Proof.
  intros H E.
  assert (a1 = b1) as ->.
  { apply bz_inj, (lxor_cancel_l (low c)).
    rewrite !(Z.lxor_comm (low c)), <- (Accumulate_high c a1), <- (Accumulate_high c b1) by done.
    rewrite (Accumulate_shift (Accumulate c a1) a2) by by apply Accumulate_range.
    rewrite (Accumulate_shift (Accumulate c b1) b2) by by apply Accumulate_range.
    by rewrite E. }
  split; [done|]. apply (Accumulate_inj_byte (Accumulate c b1)); [by apply Accumulate_range | done].
Qed.

Lemma AccumulateBytes_adjacent_inj crc p a1 a2 b1 b2 s :
  in_u 16 crc ->
  AccumulateBytes crc (p ++ [a1; a2] ++ s) = AccumulateBytes crc (p ++ [b1; b2] ++ s) ->
  a1 = b1 /\ a2 = b2.
Proof.
  intros H E. rewrite !AccumulateBytes_app in E.
  apply AccumulateBytes_inj_crc in E; [|by repeat apply AccumulateBytes_range..].
  apply (Accumulate2_inj (AccumulateBytes crc p)); [by apply AccumulateBytes_range | done].
Qed.

(** * The bit-serial reference *)

Lemma bit_step_lxor x y : bit_step (Z.lxor x y) = Z.lxor (bit_step x) (bit_step y).
Proof.
  unfold bit_step. rewrite Z.shiftr_lxor, Z.lxor_spec.
  apply Z.bits_inj'. intros i Hi. rewrite !Z.lxor_spec.
  destruct (Z.testbit x 0), (Z.testbit y 0); rewrite ?Z.bits_0; cbn [xorb];
    repeat match goal with |- context [Z.testbit ?a i] => destruct (Z.testbit a i) end; done.
Qed.

Lemma bit_steps_lxor n x y : bit_steps n (Z.lxor x y) = Z.lxor (bit_steps n x) (bit_steps n y).
Proof. induction n as [|n IH]; [done|]. cbn. rewrite <- bit_step_lxor. by f_equal. Qed.

(** Shifting out zero bits only shifts. *)
Lemma bit_steps_shiftl n x :
  bit_steps n (Z.shiftl x (Z.of_nat n)) = x.
Proof.
  revert x; induction n as [|n IH]; intros x; [apply Z.shiftl_0_r|].
  unfold bit_steps in *. rewrite Nat.iter_succ_r. rewrite <- (IH x) at 2. f_equal.
  unfold bit_step. rewrite Z.shiftl_spec_low by lia. rewrite Z.lxor_0_r.
  rewrite Z.shiftr_shiftl_l by lia. f_equal. lia.
Qed.

Lemma table_bit_serial i : in_u 8 i -> bit_steps 8 i = table i.
Proof.
  intros H. apply Z.eqb_eq.
  apply (forall_u8 (fun i => bit_steps 8 i =? table i)); [by vm_compute | done].
Qed.

Lemma Accumulate_ref crc b : Accumulate crc b = crc_ref_byte crc b.
Proof.
  unfold crc_ref_byte. rewrite (u16_split crc) at 2.
  rewrite Z.lxor_assoc, bit_steps_lxor, (bit_steps_shiftl 8), (Z.lxor_comm (low crc)).
  rewrite table_bit_serial by apply index_range. apply Accumulate_table.
Qed.

(** * Properties *)

(** C37. The byte-wise accumulator computes the bit-serial CRC-16 with reflected
    polynomial 0x8408, on every state and every input. *)
Theorem AccumulateBytes_is_crc16 crc data :
  AccumulateBytes crc data = crc_ref crc data.
Proof.
  revert crc. induction data as [|b l IH]; intros crc; [done|].
  transitivity (AccumulateBytes (Accumulate crc b) l); [done|].
  rewrite IH, Accumulate_ref. done.
Qed.

(** Every corruption confined to two adjacent bytes (so every error burst of
    up to nine bits, and every single corrupted byte) changes the checksum. *)
Theorem crc_detects_adjacent_bytes crc p a1 a2 b1 b2 s :
  in_u 16 crc -> (a1, a2) <> (b1, b2) ->
  AccumulateBytes crc (p ++ [a1; a2] ++ s) <> AccumulateBytes crc (p ++ [b1; b2] ++ s).
Proof.
  intros H Hne E. apply Hne. by destruct (AccumulateBytes_adjacent_inj crc p a1 a2 b1 b2 s) as [-> ->].
Qed.

Lemma crc_detects_adjacent_bytes_witness :
  AccumulateBytes 0xFFFF ([zb 1] ++ [zb 2; zb 3] ++ [zb 4])
    <> AccumulateBytes 0xFFFF ([zb 1] ++ [zb 2; zb 7] ++ [zb 4]).
Proof. apply crc_detects_adjacent_bytes; [split; vm_compute; congruence | discriminate]. Defined.

(** The check value of the catalogue entry for this CRC on "123456789". *)
Example crc_check_value :
  AccumulateBytes NewX25CRC (zb <$> [49; 50; 51; 52; 53; 54; 55; 56; 57]) = 0x6F91.
Proof. reflexivity. Qed.
