(* ===== verification/Messages.v ===== *)
(** MAVLink v2 framing and message payloads: pkg/mavlink/messages.go.  Bytes on
    the wire are [list byte]; struct fields are integers of the width of the Go
    field, a [float32] being its bit pattern. *)
From S2P Require Import Prelude Crc.

Local Open Scope nat_scope.

(** * Data *)

Definition MagicV1 : byte := zb 0xFE.
Definition MagicV2 : byte := zb 0xFD.
Definition HeaderLenV2 : nat := 10.
Definition ChecksumLen : nat := 2.

Definition MavCmdNavReturnToLaunch : Z := 20.
Definition MavCmdNavLand : Z := 21.
Definition MavCmdNavTakeoff : Z := 22.
Definition MavCmdDoSetMode : Z := 176.
Definition MavCmdComponentArmDisarm : Z := 400.

Record Frame := mkFrame {
  Magic : byte; PayloadLength : byte; IncompatFlags : byte; CompatFlags : byte;
  Sequence : byte; SystemID : byte; ComponentID : byte;
  MessageID : Z; Payload : list byte; Checksum : Z }.

(** [float32] values are only stored, copied and re-encoded by this package:
    [math.Float32bits] and [math.Float32frombits] are inverse bijections between
    them and [uint32], so a [float32] is represented by its bits. *)
Definition float32 := Z.
Definition Float32bits (f : float32) : Z := f.
Definition Float32frombits (z : Z) : float32 := z.

Record Heartbeat := mkHeartbeat {
  CustomMode : Z; Type_ : byte; Autopilot : byte; BaseMode : byte;
  SystemStatus : byte; MavlinkVersion : byte }.

Record GlobalPositionInt := mkGlobalPositionInt {
  gpi_TimeBootMs : Z; Lat : Z; Lon : Z; Alt : Z; RelativeAlt : Z;
  Vx : Z; Vy : Z; Vz : Z; Hdg : Z }.

Record SysStatus := mkSysStatus {
  SensorsPresent : Z; SensorsEnabled : Z; SensorsHealth : Z; Load_ : Z;
  VoltageBattery : Z; CurrentBattery : Z; BatteryRemaining : Z;
  DropRateComm : Z; ErrorsComm : Z;
  ErrorsCount1 : Z; ErrorsCount2 : Z; ErrorsCount3 : Z; ErrorsCount4 : Z }.

Record Attitude := mkAttitude {
  att_TimeBootMs : Z; Roll : float32; Pitch : float32; Yaw : float32;
  RollSpeed : float32; PitchSpeed : float32; YawSpeed : float32 }.

Record CommandLong := mkCommandLong {
  Param1 : float32; Param2 : float32; Param3 : float32; Param4 : float32;
  Param5 : float32; Param6 : float32; Param7 : float32;
  Command : Z; TargetSystem : byte; TargetComponent : byte; Confirmation : byte }.

(** The errors of this package, with what their messages print. *)
Inductive DecodeError :=
| PacketTooShort
| UnsupportedMagic (b : byte)
| ShorterThanExpected (got expected : nat)
| CrcMismatch (packet computed : Z)
| PayloadExceedsMax
| HeartbeatTooShort | GlobalPositionIntTooShort | SysStatusTooShort | AttitudeTooShort.

(** [h.BaseMode & 0x80 != 0]. *)
Definition IsArmed (h : Heartbeat) : bool := negb (Z.land (bz (BaseMode h)) 0x80 =? 0)%Z.

(** * Frames *)

Definition DecodeFrame (data : list byte) : result DecodeError Frame :=
  if length data <? HeaderLenV2 + ChecksumLen then Err PacketTooShort else
  if negb (bool_decide (byte_at data 0 = MagicV2)) then Err (UnsupportedMagic (byte_at data 0)) else
  let payloadLen := Z.to_nat (bz (byte_at data 1)) in
  let expectedTotalLen := HeaderLenV2 + payloadLen + ChecksumLen in
  if length data <? expectedTotalLen
  then Err (ShorterThanExpected (length data) expectedTotalLen) else
  let msgID := Z.lor (Z.lor (bz (byte_at data 7)) (Z.shiftl (bz (byte_at data 8)) 8))
                     (Z.shiftl (bz (byte_at data 9)) 16) in
  let frame :=
    {| Magic := byte_at data 0; PayloadLength := byte_at data 1;
       IncompatFlags := byte_at data 2; CompatFlags := byte_at data 3;
       Sequence := byte_at data 4; SystemID := byte_at data 5;
       ComponentID := byte_at data 6; MessageID := msgID;
       Payload := slice HeaderLenV2 (HeaderLenV2 + payloadLen) data;
       Checksum := le_decode (slice (HeaderLenV2 + payloadLen) expectedTotalLen data) |} in
  match GetCRCExtra msgID with
  | Some crcExtra =>
    let crc := AccumulateBytes NewX25CRC (slice 1 (HeaderLenV2 + payloadLen) data) in
    let crc := Accumulate crc crcExtra in
    if negb (Value crc =? Checksum frame)%Z
    then Err (CrcMismatch (Checksum frame) (Value crc)) else Ok frame
  | None => Ok frame
  end.

(** Bytes 0 to 9 of an encoded packet. *)
Definition header (sysID compID seq : byte) (msgID : Z) (payloadLen : nat) : list byte :=
  [ MagicV2; zb (Z.of_nat payloadLen); zb 0; zb 0; seq; sysID; compID;
    zb (Z.land msgID 0xFF); zb (Z.land (Z.shiftr msgID 8) 0xFF);
    zb (Z.land (Z.shiftr msgID 16) 0xFF) ].

Definition EncodeFrame (sysID compID seq : byte) (msgID : Z) (payload : list byte)
  : result DecodeError (list byte) :=
  let payloadLen := length payload in
  if 255 <? payloadLen then Err PayloadExceedsMax else
  let buf := header sysID compID seq msgID payloadLen ++ payload in
  let crc := AccumulateBytes NewX25CRC (slice 1 (HeaderLenV2 + payloadLen) buf) in
  let crc := match GetCRCExtra msgID with Some e => Accumulate crc e | None => crc end in
  Ok (buf ++ le_encode 2 (Value crc)).

(** * Payloads *)

(** [binary.LittleEndian.Uint32(payload[i:i+4])] and [Uint16(payload[i:i+2])]. *)
Definition Uint32 (p : list byte) (i : nat) : Z := le_decode (slice i (i + 4) p).
Definition Uint16 (p : list byte) (i : nat) : Z := le_decode (slice i (i + 2) p).

Definition DecodeHeartbeat (payload : list byte) : result DecodeError Heartbeat :=
  if length payload <? 9 then Err HeartbeatTooShort else
  Ok {| CustomMode := Uint32 payload 0; Type_ := byte_at payload 4;
        Autopilot := byte_at payload 5; BaseMode := byte_at payload 6;
        SystemStatus := byte_at payload 7; MavlinkVersion := byte_at payload 8 |}.

Definition EncodeHeartbeat (h : Heartbeat) : list byte :=
  le_encode 4 (CustomMode h)
  ++ [Type_ h; Autopilot h; BaseMode h; SystemStatus h; MavlinkVersion h].

Definition DecodeGlobalPositionInt (payload : list byte) : result DecodeError GlobalPositionInt :=
  if length payload <? 28 then Err GlobalPositionIntTooShort else
  Ok {| gpi_TimeBootMs := Uint32 payload 0;
        Lat := i32 (Uint32 payload 4); Lon := i32 (Uint32 payload 8);
        Alt := i32 (Uint32 payload 12); RelativeAlt := i32 (Uint32 payload 16);
        Vx := i16 (Uint16 payload 20); Vy := i16 (Uint16 payload 22);
        Vz := i16 (Uint16 payload 24); Hdg := Uint16 payload 26 |}.

Definition EncodeGlobalPositionInt (g : GlobalPositionInt) : list byte :=
  le_encode 4 (gpi_TimeBootMs g) ++ le_encode 4 (u32 (Lat g)) ++ le_encode 4 (u32 (Lon g))
  ++ le_encode 4 (u32 (Alt g)) ++ le_encode 4 (u32 (RelativeAlt g))
  ++ le_encode 2 (u16 (Vx g)) ++ le_encode 2 (u16 (Vy g)) ++ le_encode 2 (u16 (Vz g))
  ++ le_encode 2 (Hdg g).

Definition DecodeSysStatus (payload : list byte) : result DecodeError SysStatus :=
  if length payload <? 31 then Err SysStatusTooShort else
  Ok {| SensorsPresent := Uint32 payload 0; SensorsEnabled := Uint32 payload 4;
        SensorsHealth := Uint32 payload 8; Load_ := Uint16 payload 12;
        VoltageBattery := Uint16 payload 14; CurrentBattery := i16 (Uint16 payload 16);
        BatteryRemaining := i8 (bz (byte_at payload 18));
        DropRateComm := Uint16 payload 19; ErrorsComm := Uint16 payload 21;
        ErrorsCount1 := Uint16 payload 23; ErrorsCount2 := Uint16 payload 25;
        ErrorsCount3 := Uint16 payload 27; ErrorsCount4 := Uint16 payload 29 |}.

Definition EncodeSysStatus (s : SysStatus) : list byte :=
  le_encode 4 (SensorsPresent s) ++ le_encode 4 (SensorsEnabled s)
  ++ le_encode 4 (SensorsHealth s) ++ le_encode 2 (Load_ s) ++ le_encode 2 (VoltageBattery s)
  ++ le_encode 2 (u16 (CurrentBattery s)) ++ [zb (u8 (BatteryRemaining s))]
  ++ le_encode 2 (DropRateComm s) ++ le_encode 2 (ErrorsComm s)
  ++ le_encode 2 (ErrorsCount1 s) ++ le_encode 2 (ErrorsCount2 s)
  ++ le_encode 2 (ErrorsCount3 s) ++ le_encode 2 (ErrorsCount4 s).

Definition DecodeAttitude (payload : list byte) : result DecodeError Attitude :=
  if length payload <? 28 then Err AttitudeTooShort else
  Ok {| att_TimeBootMs := Uint32 payload 0;
        Roll := Float32frombits (Uint32 payload 4);
        Pitch := Float32frombits (Uint32 payload 8);
        Yaw := Float32frombits (Uint32 payload 12);
        RollSpeed := Float32frombits (Uint32 payload 16);
        PitchSpeed := Float32frombits (Uint32 payload 20);
        YawSpeed := Float32frombits (Uint32 payload 24) |}.

Definition EncodeAttitude (a : Attitude) : list byte :=
  le_encode 4 (att_TimeBootMs a) ++ le_encode 4 (Float32bits (Roll a))
  ++ le_encode 4 (Float32bits (Pitch a)) ++ le_encode 4 (Float32bits (Yaw a))
  ++ le_encode 4 (Float32bits (RollSpeed a)) ++ le_encode 4 (Float32bits (PitchSpeed a))
  ++ le_encode 4 (Float32bits (YawSpeed a)).

Definition EncodeCommandLong (c : CommandLong) : list byte :=
  le_encode 4 (Float32bits (Param1 c)) ++ le_encode 4 (Float32bits (Param2 c))
  ++ le_encode 4 (Float32bits (Param3 c)) ++ le_encode 4 (Float32bits (Param4 c))
  ++ le_encode 4 (Float32bits (Param5 c)) ++ le_encode 4 (Float32bits (Param6 c))
  ++ le_encode 4 (Float32bits (Param7 c)) ++ le_encode 2 (Command c)
  ++ [TargetSystem c; TargetComponent c; Confirmation c].

(** * Well-formed values: every field within the width of its Go type *)

Definition gpi_wf (g : GlobalPositionInt) : Prop :=
  in_u 32 (gpi_TimeBootMs g) /\ in_s 32 (Lat g) /\ in_s 32 (Lon g) /\ in_s 32 (Alt g) /\
  in_s 32 (RelativeAlt g) /\ in_s 16 (Vx g) /\ in_s 16 (Vy g) /\ in_s 16 (Vz g) /\ in_u 16 (Hdg g).

Definition heartbeat_wf (h : Heartbeat) : Prop := in_u 32 (CustomMode h).

Definition sys_wf (s : SysStatus) : Prop :=
  in_u 32 (SensorsPresent s) /\ in_u 32 (SensorsEnabled s) /\ in_u 32 (SensorsHealth s) /\
  in_u 16 (Load_ s) /\ in_u 16 (VoltageBattery s) /\ in_s 16 (CurrentBattery s) /\
  in_s 8 (BatteryRemaining s) /\ in_u 16 (DropRateComm s) /\ in_u 16 (ErrorsComm s) /\
  in_u 16 (ErrorsCount1 s) /\ in_u 16 (ErrorsCount2 s) /\ in_u 16 (ErrorsCount3 s) /\
  in_u 16 (ErrorsCount4 s).

Definition attitude_wf (a : Attitude) : Prop :=
  in_u 32 (att_TimeBootMs a) /\ in_u 32 (Roll a) /\ in_u 32 (Pitch a) /\ in_u 32 (Yaw a) /\
  in_u 32 (RollSpeed a) /\ in_u 32 (PitchSpeed a) /\ in_u 32 (YawSpeed a).

(** * Lemmas on fields of a payload *)

Lemma Uint32_range p i : (i + 4 <= length p) -> in_u 32 (Uint32 p i).
Proof.
  intros H. pose proof (le_decode_range (slice i (i + 4) p)) as R.
  rewrite length_slice in R by done. replace (i + 4 - i) with 4 in R by lia. exact R.
Qed.

Lemma Uint16_range p i : (i + 2 <= length p) -> in_u 16 (Uint16 p i).
Proof.
  intros H. pose proof (le_decode_range (slice i (i + 2) p)) as R.
  rewrite length_slice in R by done. replace (i + 2 - i) with 2 in R by lia. exact R.
Qed.

Lemma encode_Uint32 p i : (i + 4 <= length p) -> le_encode 4 (Uint32 p i) = slice i (i + 4) p.
Proof. intros H. apply le_encode_decode. rewrite length_slice by done. lia. Qed.

Lemma encode_Uint16 p i : (i + 2 <= length p) -> le_encode 2 (Uint16 p i) = slice i (i + 2) p.
Proof. intros H. apply le_encode_decode. rewrite length_slice by done. lia. Qed.

Lemma byte_slice p i : (i + 1 <= length p) -> [byte_at p i] = slice i (S i) p.
Proof.
  replace (S i) with (i + 1) by lia. intros H. unfold slice, byte_at. replace (i + 1 - i) with 1 by lia.
  destruct (drop i p) as [|b r] eqn:E.
  - apply (f_equal length) in E. rewrite length_drop in E. simpl in E. lia.
  - assert (p !! i = Some b) as L.
    { rewrite <- (Nat.add_0_r i), <- lookup_drop, E. done. }
    rewrite nth_lookup, L. done.
Qed.

(** A field of [4] (or [2]) bytes that was just encoded decodes to its value. *)
Lemma decode_encode_u32 z : in_u 32 z -> le_decode (le_encode 4 z) = z.
Proof. apply (le_decode_encode_small 4). Qed.
Lemma decode_encode_u16 z : in_u 16 z -> le_decode (le_encode 2 z) = z.
Proof. apply (le_decode_encode_small 2). Qed.
Lemma decode_encode_i32 z : in_s 32 z -> i32 (le_decode (le_encode 4 (u32 z))) = z.
Proof.
  intros H. rewrite decode_encode_u32 by (apply wrapU_range; lia). apply wrapS_wrapU; [lia|done].
Qed.
Lemma decode_encode_i16 z : in_s 16 z -> i16 (le_decode (le_encode 2 (u16 z))) = z.
Proof.
  intros H. rewrite decode_encode_u16 by (apply wrapU_range; lia). apply wrapS_wrapU; [lia|done].
Qed.
Lemma decode_encode_i8 z : in_s 8 z -> i8 (bz (zb (u8 z))) = z.
Proof.
  intros H. rewrite bz_zb_small by (apply (wrapU_range 8); lia). apply wrapS_wrapU; [lia|done].
Qed.
Lemma encode_i32 z : in_u 32 z -> le_encode 4 (u32 (i32 z)) = le_encode 4 z.
Proof. intros H. rewrite wrapU_wrapS; [done|lia|done]. Qed.
Lemma encode_i16 z : in_u 16 z -> le_encode 2 (u16 (i16 z)) = le_encode 2 z.
Proof. intros H. rewrite wrapU_wrapS; [done|lia|done]. Qed.
Lemma encode_i8 b : zb (u8 (i8 (bz b))) = b.
Proof. rewrite wrapU_wrapS; [apply zb_bz|lia|apply bz_in_u8]. Qed.

(** Decoding a payload that was just encoded: the fields are at the offsets the
    decoder reads. *)
Ltac decode_encoded :=
  intros; repeat match goal with
          | H : _ /\ _ |- _ => destruct H
          | x : GlobalPositionInt |- _ => destruct x
          | x : SysStatus |- _ => destruct x
          | x : Attitude |- _ => destruct x
          | x : Heartbeat |- _ => destruct x
          end;
  unfold DecodeHeartbeat, DecodeGlobalPositionInt, DecodeSysStatus, DecodeAttitude,
    Uint32, Uint16, slice, byte_at;
  cbn -[le_decode wrapU wrapS zb bz] in *; f_equal; f_equal;
  first [ by apply decode_encode_u32 | by apply decode_encode_u16 | by apply decode_encode_i32
        | by apply decode_encode_i16 | by apply decode_encode_i8 ].

(** Re-encoding a decoded payload: adjacent slices are glued together. *)
Ltac glue_slices :=
  repeat first
    [ rewrite encode_i32 by (apply Uint32_range; lia)
    | rewrite encode_i16 by (apply Uint16_range; lia)
    | rewrite encode_i8
    | rewrite encode_Uint32 by lia | rewrite encode_Uint16 by lia
    | rewrite byte_slice by lia ];
  cbn [Nat.add]; repeat (rewrite slice_slice_app by lia);
  cbn [Nat.add]; rewrite ?slice_take; try done.

Lemma Heartbeat_tail p :
  9 <= length p ->
  [byte_at p 4; byte_at p 5; byte_at p 6; byte_at p 7; byte_at p 8] = slice 4 9 p.
Proof.
  intros H. rewrite <- (slice_slice_app 4 5 9), <- (slice_slice_app 5 6 9),
    <- (slice_slice_app 6 7 9), <- (slice_slice_app 7 8 9) by lia.
  by rewrite <- (byte_slice p 4), <- (byte_slice p 5), <- (byte_slice p 6),
    <- (byte_slice p 7), <- (byte_slice p 8) by lia.
Qed.

(** * Payload round trips *)

Lemma DecodeHeartbeat_Encode h rest :
  heartbeat_wf h -> DecodeHeartbeat (EncodeHeartbeat h ++ rest) = Ok h.
Proof. unfold heartbeat_wf. decode_encoded. Qed.

Lemma DecodeGlobalPositionInt_Encode g rest :
  gpi_wf g -> DecodeGlobalPositionInt (EncodeGlobalPositionInt g ++ rest) = Ok g.
Proof. unfold gpi_wf. decode_encoded. Qed.

Lemma DecodeSysStatus_Encode s rest :
  sys_wf s -> DecodeSysStatus (EncodeSysStatus s ++ rest) = Ok s.
Proof. unfold sys_wf. decode_encoded. Qed.

Lemma DecodeAttitude_Encode a rest :
  attitude_wf a -> DecodeAttitude (EncodeAttitude a ++ rest) = Ok a.
Proof. unfold attitude_wf. decode_encoded. Qed.

Ltac invert_decode :=
  match goal with
  | H : (if ?c then _ else _) = Ok _ |- _ =>
      let E := fresh "Hlen" in
      destruct c eqn:E; [discriminate|]; injection H as <-; apply Nat.ltb_ge in E
  end.

Lemma EncodeHeartbeat_Decode p h :
  DecodeHeartbeat p = Ok h -> EncodeHeartbeat h = take 9 p /\ heartbeat_wf h.
Proof.
  unfold DecodeHeartbeat. intros H. invert_decode. split.
  - unfold EncodeHeartbeat. cbn [CustomMode Type_ Autopilot BaseMode SystemStatus MavlinkVersion].
    rewrite Heartbeat_tail by done. glue_slices.
  - apply Uint32_range. lia.
Qed.

Lemma EncodeGlobalPositionInt_Decode p g :
  DecodeGlobalPositionInt p = Ok g -> EncodeGlobalPositionInt g = take 28 p /\ gpi_wf g.
Proof.
  unfold DecodeGlobalPositionInt. intros H. invert_decode. split.
  - unfold EncodeGlobalPositionInt. cbn -[le_encode Uint32 Uint16 wrapU wrapS zb bz byte_at app]. glue_slices.
  - unfold gpi_wf; cbn -[in_u in_s Uint32 Uint16 wrapU wrapS bz byte_at]. repeat split_and; first
      [apply wrapS_range; lia | apply Uint32_range; lia | apply Uint16_range; lia].
Qed.

Lemma EncodeSysStatus_Decode p s :
  DecodeSysStatus p = Ok s -> EncodeSysStatus s = take 31 p /\ sys_wf s.
Proof.
  unfold DecodeSysStatus. intros H. invert_decode. split.
  - unfold EncodeSysStatus. cbn -[le_encode Uint32 Uint16 wrapU wrapS zb bz byte_at app]. glue_slices.
  - unfold sys_wf; cbn -[in_u in_s Uint32 Uint16 wrapU wrapS bz byte_at]. repeat split_and; first
      [apply wrapS_range; lia | apply Uint32_range; lia | apply Uint16_range; lia].
Qed.

Lemma EncodeAttitude_Decode p a :
  DecodeAttitude p = Ok a -> EncodeAttitude a = take 28 p /\ attitude_wf a.
Proof.
  unfold DecodeAttitude. intros H. invert_decode. split.
  - unfold EncodeAttitude, Float32bits, Float32frombits. cbn -[le_encode Uint32 Uint16 wrapU wrapS zb bz byte_at app]. glue_slices.
  - unfold attitude_wf, Float32frombits; cbn -[in_u in_s Uint32 Uint16]. repeat split_and; apply Uint32_range; lia.
Qed.

(** * Frames: lemmas *)

(** The three message-id bytes are the little-endian encoding of the id. *)
Lemma header_msgid id :
  [zb (Z.land id 0xFF); zb (Z.land (Z.shiftr id 8) 0xFF); zb (Z.land (Z.shiftr id 16) 0xFF)]
  = le_encode 3 id.
Proof.
  rewrite !land_255, !zb_mod, !Z.shiftr_div_pow2 by lia. cbn -[zb Z.div].
  by rewrite Z.div_div by lia.
Qed.

Lemma frame_msgid b0 b1 b2 :
  Z.lor (Z.lor (bz b0) (Z.shiftl (bz b1) 8)) (Z.shiftl (bz b2) 16) = le_decode [b0; b1; b2].
Proof.
  pose proof (bz_range b0). pose proof (bz_range b1). pose proof (bz_range b2).
  rewrite (lor_shiftl 8) by (done || lia).
  rewrite (lor_shiftl 16) by (try lia; unfold in_u; change (2 ^ 16)%Z with 65536%Z;
    change (2 ^ 8)%Z with 256%Z; lia).
  cbn -[bz]. lia.
Qed.

(** The checksum a packet with message id [id] must carry, over the bytes from
    the length byte to the end of the payload. *)
Definition packet_crc (id : Z) (body : list byte) : Z :=
  let crc := AccumulateBytes NewX25CRC body in
  match GetCRCExtra id with Some e => Accumulate crc e | None => crc end.

Lemma packet_crc_range id body : in_u 16 (packet_crc id body).
Proof.
  unfold packet_crc.
  assert (in_u 16 (AccumulateBytes NewX25CRC body)).
  { apply AccumulateBytes_range. split; vm_compute; congruence. }
  destruct (GetCRCExtra id); [by apply Accumulate_range | done].
Qed.

(** [packet_crc] separates bodies whose running checksums differ. *)
Lemma packet_crc_inj id l1 l2 :
  packet_crc id l1 = packet_crc id l2 ->
  AccumulateBytes NewX25CRC l1 = AccumulateBytes NewX25CRC l2.
Proof.
  unfold packet_crc. destruct (GetCRCExtra id) as [e|]; [|done].
  apply Accumulate_inj_crc; apply AccumulateBytes_range; split; vm_compute; congruence.
Qed.

(** The fields of a packet, whatever its checksum. *)
Definition frame_of (data : list byte) : Frame :=
  let n := Z.to_nat (bz (byte_at data 1)) in
  {| Magic := byte_at data 0; PayloadLength := byte_at data 1;
     IncompatFlags := byte_at data 2; CompatFlags := byte_at data 3;
     Sequence := byte_at data 4; SystemID := byte_at data 5; ComponentID := byte_at data 6;
     MessageID := le_decode [byte_at data 7; byte_at data 8; byte_at data 9];
     Payload := slice 10 (10 + n) data;
     Checksum := le_decode (slice (10 + n) (12 + n) data) |}.

(** [DecodeFrame] on a packet that is long enough is decided by its magic byte
    and its checksum. *)
Lemma DecodeFrame_full data :
  byte_at data 0 = MagicV2 ->
  12 + Z.to_nat (bz (byte_at data 1)) <= length data ->
  let f := frame_of data in
  let crc := packet_crc (MessageID f) (slice 1 (10 + length (Payload f)) data) in
  DecodeFrame data =
    if is_Some_b (GetCRCExtra (MessageID f)) && negb (crc =? Checksum f)%Z
    then Err (CrcMismatch (Checksum f) crc) else Ok f.
Proof.
  intros Hm Hlen f crc. unfold DecodeFrame, HeaderLenV2, ChecksumLen.
  rewrite (proj2 (Nat.ltb_ge _ _)) by lia.
  rewrite Hm, bool_decide_true by done. cbn [negb].
  rewrite (proj2 (Nat.ltb_ge _ _)) by lia.
  rewrite frame_msgid. unfold crc, packet_crc.
  assert (length (Payload f) = Z.to_nat (bz (byte_at data 1))) as ->.
  { unfold f, frame_of, Payload. rewrite length_slice by lia. lia. }
  unfold f, frame_of. cbn [MessageID Checksum]. rewrite <- Hm.
  replace (10 + Z.to_nat (bz (byte_at data 1)) + 2)
    with (12 + Z.to_nat (bz (byte_at data 1))) by lia.
  destruct (GetCRCExtra _) as [e|]; cbn [is_Some_b andb]; done.
Qed.

(** The bytes the checksum covers, and the whole packet. *)
Definition covered (s c q : byte) (id : Z) (payload : list byte) : list byte :=
  drop 1 (header s c q id (length payload)) ++ payload.

Definition packet (s c q : byte) (id : Z) (payload : list byte) : list byte :=
  header s c q id (length payload) ++ payload
  ++ le_encode 2 (packet_crc id (covered s c q id payload)).

Lemma EncodeFrame_packet s c q id payload :
  EncodeFrame s c q id payload =
    if 255 <? length payload then Err PayloadExceedsMax else Ok (packet s c q id payload).
Proof.
  unfold EncodeFrame. destruct (255 <? length payload); [done|]. f_equal.
  unfold packet. rewrite <- app_assoc. f_equal. f_equal. f_equal.
  unfold packet_crc, covered, HeaderLenV2, Value, slice. cbn [header app drop].
  rewrite take_ge by (cbn; lia). done.
Qed.

Lemma length_packet s c q id payload : length (packet s c q id payload) = 12 + length payload.
Proof. unfold packet. rewrite !length_app, length_le_encode. cbn. lia. Qed.

Lemma packet_byte1 s c q id payload rest :
  length payload <= 255 ->
  Z.to_nat (bz (byte_at (packet s c q id payload ++ rest) 1)) = length payload.
Proof.
  intros H. cbn -[bz zb Z.of_nat]. rewrite bz_zb_small by lia. lia.
Qed.

Lemma slice_covered s c q id payload rest :
  slice 1 (10 + length payload) (packet s c q id payload ++ rest) = covered s c q id payload.
Proof.
  unfold packet, covered. rewrite <- !app_assoc, (app_assoc (header _ _ _ _ _)).
  rewrite slice_app_prefix by (rewrite length_app; cbn; lia).
  unfold slice. cbn [header app drop]. apply take_ge. cbn. lia.
Qed.

(** The frame a well-formed packet decodes to. *)
Definition frame_for (s c q : byte) (id : Z) (payload : list byte) : Frame :=
  {| Magic := MagicV2; PayloadLength := zb (Z.of_nat (length payload));
     IncompatFlags := zb 0; CompatFlags := zb 0; Sequence := q; SystemID := s;
     ComponentID := c; MessageID := id; Payload := payload;
     Checksum := packet_crc id (covered s c q id payload) |}.

Lemma frame_of_packet s c q id payload rest :
  length payload <= 255 -> in_u 24 id ->
  frame_of (packet s c q id payload ++ rest) = frame_for s c q id payload.
Proof.
  intros Hn Hid. unfold frame_of. rewrite packet_byte1 by done.
  unfold packet. rewrite <- !app_assoc. cbn [header app byte_at nth].
  unfold frame_for. f_equal.
  - rewrite header_msgid. by apply (le_decode_encode_small 3).
  - unfold slice. cbn [drop]. rewrite Nat.add_comm, Nat.add_sub. by apply take_app_length.
  - assert (forall r, slice (10 + length payload) (12 + length payload)
      ([MagicV2; zb (Z.of_nat (length payload)); zb 0; zb 0; q; s; c;
        zb (Z.land id 0xFF); zb (Z.land (Z.shiftr id 8) 0xFF);
        zb (Z.land (Z.shiftr id 16) 0xFF)] ++ payload ++ r) = take 2 r) as E.
    { intros r. rewrite app_assoc, slice_app_r by (rewrite length_app; cbn; lia).
      rewrite length_app. cbn [length]. unfold slice.
      replace (12 + _ - _ - _) with 2 by lia. by replace (10 + _ - _) with 0 by lia. }
    cbn [app] in E. rewrite E, take_app_le by (rewrite length_le_encode; lia).
    rewrite take_ge by (rewrite length_le_encode; lia).
    apply decode_encode_u16, packet_crc_range.
Qed.

Lemma DecodeFrame_packet s c q id payload rest :
  length payload <= 255 -> in_u 24 id ->
  DecodeFrame (packet s c q id payload ++ rest) = Ok (frame_for s c q id payload).
Proof.
  intros Hn Hid. rewrite DecodeFrame_full; [|done|].
  - rewrite frame_of_packet by done. cbn [MessageID Payload Checksum frame_for].
    rewrite slice_covered, Z.eqb_refl. by rewrite andb_false_r.
  - rewrite packet_byte1, length_app, length_packet by done. lia.
Qed.

(** * Frames: properties *)

(** C8. Framing round trip: a payload of at most 255 bytes with a 24-bit message
    id is encoded, and the packet, followed by any bytes, decodes to the frame
    with exactly the fields that were encoded. *)
Theorem DecodeFrame_EncodeFrame s c q id payload rest :
  length payload <= 255 -> in_u 24 id ->
  exists buf, EncodeFrame s c q id payload = Ok buf /\
    length buf = 12 + length payload /\
    DecodeFrame (buf ++ rest) =
      Ok {| Magic := MagicV2; PayloadLength := zb (Z.of_nat (length payload));
            IncompatFlags := zb 0; CompatFlags := zb 0; Sequence := q; SystemID := s;
            ComponentID := c; MessageID := id; Payload := payload;
            Checksum := le_decode (drop (10 + length payload) buf) |}.
Proof.
  intros Hn Hid. exists (packet s c q id payload). repeat split.
  - rewrite EncodeFrame_packet, (proj2 (Nat.ltb_ge _ _)) by lia. done.
  - apply length_packet.
  - rewrite DecodeFrame_packet by done. unfold frame_for. do 2 f_equal.
    unfold packet. rewrite app_assoc, drop_app_ge by (rewrite length_app; cbn; lia).
    rewrite length_app. cbn [length header].
    replace (10 + length payload - (10 + length payload)) with 0 by lia.
    symmetry. apply decode_encode_u16, packet_crc_range.
Qed.

Lemma DecodeFrame_EncodeFrame_witness :
  exists buf, EncodeFrame (zb 1) (zb 1) (zb 42) MsgIDHeartbeat [zb 7; zb 8] = Ok buf /\
    length buf = 12 + length [zb 7; zb 8] /\
    DecodeFrame (buf ++ [zb 9]) =
      Ok {| Magic := MagicV2; PayloadLength := zb (Z.of_nat (length [zb 7; zb 8]));
            IncompatFlags := zb 0; CompatFlags := zb 0; Sequence := zb 42; SystemID := zb 1;
            ComponentID := zb 1; MessageID := MsgIDHeartbeat; Payload := [zb 7; zb 8];
            Checksum := le_decode (drop (10 + length [zb 7; zb 8]) buf) |}.
Proof.
  apply (DecodeFrame_EncodeFrame (zb 1) (zb 1) (zb 42) MsgIDHeartbeat [zb 7; zb 8] [zb 9]).
  - cbn. lia.
  - split; vm_compute; congruence.
Defined.

(** What a successful decode says about the bytes it read. *)
Lemma DecodeFrame_Ok_inv data f :
  DecodeFrame data = Ok f ->
  byte_at data 0 = MagicV2 /\ 12 + length (Payload f) <= length data /\
  length (Payload f) = Z.to_nat (bz (byte_at data 1)) /\ f = frame_of data /\
  (is_Some (GetCRCExtra (MessageID f)) ->
   packet_crc (MessageID f) (slice 1 (10 + length (Payload f)) data) = Checksum f).
Proof.
  intros H.
  assert (byte_at data 0 = MagicV2 /\ 12 + Z.to_nat (bz (byte_at data 1)) <= length data)
    as [Hm Hlen].
  { revert H. unfold DecodeFrame, HeaderLenV2, ChecksumLen.
    destruct (length data <? 10 + 2) eqn:E1; [done|].
    case_bool_decide as E2; [|done]. cbn [negb].
    destruct (length data <? 10 + Z.to_nat (bz (byte_at data 1)) + 2) eqn:E3; [done|].
    apply Nat.ltb_ge in E3. intros _. split; [done|lia]. }
  rewrite DecodeFrame_full in H by done.
  destruct (_ && _) eqn:E in H; [done|]. injection H as <-.
  assert (length (Payload (frame_of data)) = Z.to_nat (bz (byte_at data 1))) as Hp.
  { unfold frame_of, Payload. rewrite length_slice; lia. }
  rewrite Hp in *. split_and!; try done. intros [e He].
  rewrite He in E. cbn in E. apply negb_false_iff, Z.eqb_eq in E. done.
Qed.

(** The first ten bytes of a packet, in order. *)
Lemma take_10_bytes data :
  10 <= length data ->
  take 10 data = [byte_at data 0; byte_at data 1; byte_at data 2; byte_at data 3; byte_at data 4;
                  byte_at data 5; byte_at data 6; byte_at data 7; byte_at data 8; byte_at data 9].
Proof.
  intros H. do 10 (destruct data as [|? data]; [cbn in H; lia|]). cbn. by rewrite take_0.
Qed.

Lemma take_packet (data : list byte) n :
  12 + n <= length data ->
  take (12 + n) data = take 10 data ++ slice 10 (10 + n) data ++ slice (10 + n) (12 + n) data.
Proof.
  intros H. by rewrite <- (slice_take (12 + n)), <- (slice_take 10), !slice_slice_app by lia.
Qed.

(** Decoding is canonical for the supported messages: the bytes of an
    accepted packet without incompatibility or compatibility flags are exactly
    the bytes [EncodeFrame] produces for the decoded fields. *)
Theorem EncodeFrame_DecodeFrame data f :
  DecodeFrame data = Ok f -> is_Some (GetCRCExtra (MessageID f)) ->
  IncompatFlags f = zb 0 -> CompatFlags f = zb 0 ->
  EncodeFrame (SystemID f) (ComponentID f) (Sequence f) (MessageID f) (Payload f)
    = Ok (take (12 + length (Payload f)) data).
Proof.
  intros H Hex Hi Hc.
  destruct (DecodeFrame_Ok_inv data f H) as (Hm & Hlen & Hp & Hf & Hcrc).
  specialize (Hcrc Hex). pose proof (bz_range (byte_at data 1)).
  rewrite EncodeFrame_packet, (proj2 (Nat.ltb_ge _ _)) by lia. f_equal.
  set (n := length (Payload f)) in *. rewrite take_packet by done.
  assert (header (SystemID f) (ComponentID f) (Sequence f) (MessageID f) n = take 10 data) as Hh.
  { rewrite take_10_bytes by lia. unfold header. rewrite header_msgid.
    rewrite Hf in Hi, Hc |- *. cbn [SystemID ComponentID Sequence MessageID frame_of] in *.
    cbn [IncompatFlags CompatFlags frame_of] in Hi, Hc.
    rewrite (le_encode_decode _ 3) by done. rewrite Hm, Hi, Hc, Hp.
    by rewrite Z2Nat.id, zb_bz by lia. }
  assert (Payload f = slice 10 (10 + n) data) as Hpay by (rewrite Hp, Hf; done).
  unfold packet, covered. fold n. rewrite Hh.
  rewrite Hpay at 1 2. f_equal. f_equal.
  replace (drop 1 (take 10 data)) with (slice 1 10 data).
  2: { unfold slice. by rewrite take_drop_commute. }
  rewrite slice_slice_app, Hcrc by lia. rewrite Hf. cbn [Checksum frame_of]. rewrite <- Hp.
  apply le_encode_decode. rewrite length_slice; lia.
Qed.

Lemma EncodeFrame_DecodeFrame_witness :
  let data := packet (zb 1) (zb 190) (zb 3) MsgIDHeartbeat (zb <$> [4; 0; 0; 0; 2; 12; 128; 4; 3]%Z) in
  let f := frame_of data in
  EncodeFrame (SystemID f) (ComponentID f) (Sequence f) (MessageID f) (Payload f)
    = Ok (take (12 + length (Payload f)) data).
Proof.
  apply EncodeFrame_DecodeFrame; [by vm_compute | eexists; reflexivity | reflexivity | reflexivity].
Defined.

(** [buf] with the two bytes at [i] and [i + 1] replaced. *)
Definition corrupt (i : nat) (b1 b2 : byte) (buf : list byte) : list byte :=
  take i buf ++ [b1; b2] ++ drop (i + 2) buf.

Section Corrupt.
Context (i : nat) (b1 b2 : byte) (buf rest : list byte) (Hi : i + 2 <= length buf).

Lemma length_corrupt : length (corrupt i b1 b2 buf) = length buf.
Proof using Hi.
  unfold corrupt. rewrite !length_app, length_take, length_drop. cbn. lia.
Qed.

Lemma slice_corrupt_before j k :
  j <= k <= i -> slice j k (corrupt i b1 b2 buf ++ rest) = slice j k buf.
Proof using Hi.
  intros H. unfold corrupt.
  rewrite <- !app_assoc, slice_app_prefix by (rewrite length_take; lia).
  rewrite <- (take_drop i buf) at 2. rewrite slice_app_prefix; [done|]. rewrite length_take. lia.
Qed.

Lemma slice_corrupt_at : slice i (i + 2) (corrupt i b1 b2 buf ++ rest) = [b1; b2].
Proof using Hi.
  unfold corrupt. assert (length (take i buf) = i) as E by (rewrite length_take; lia).
  rewrite <- !app_assoc, slice_app_r by lia. rewrite E.
  replace (i + 2 - i) with 2 by lia. by rewrite Nat.sub_diag.
Qed.

Lemma slice_corrupt_after j k :
  i + 2 <= j <= k -> k <= length buf ->
  slice j k (corrupt i b1 b2 buf ++ rest) = slice j k buf.
Proof using Hi.
  intros H Hk. rewrite slice_app_prefix by (rewrite length_corrupt; lia).
  assert (length (take i buf ++ [b1; b2]) = i + 2) as E.
  { rewrite length_app, length_take. cbn. lia. }
  unfold corrupt. rewrite app_assoc, slice_app_r by lia. rewrite E.
  unfold slice. rewrite drop_drop. f_equal; [lia|]. f_equal. lia.
Qed.

Lemma byte_at_corrupt j :
  j < i \/ i + 2 <= j -> j < length buf ->
  byte_at (corrupt i b1 b2 buf ++ rest) j = byte_at buf j.
Proof using Hi.
  intros H Hj.
  assert ([byte_at (corrupt i b1 b2 buf ++ rest) j] = [byte_at buf j]) as [= E]; [|done].
  rewrite !byte_slice by (rewrite ?length_app, ?length_corrupt; lia).
  destruct H; [apply slice_corrupt_before | apply slice_corrupt_after]; lia.
Qed.
End Corrupt.

Lemma packet_as_app_nil s c q id payload :
  packet s c q id payload = packet s c q id payload ++ [].
Proof. by rewrite app_nil_r. Qed.

(** The header fields the parser needs survive a corruption elsewhere. *)
Lemma frame_of_corrupt s c q id payload i b1 b2 rest :
  length payload <= 255 -> in_u 24 id ->
  2 <= i -> i + 2 <= 7 \/ 10 <= i -> i + 2 <= 10 + length payload ->
  let f := frame_of (corrupt i b1 b2 (packet s c q id payload) ++ rest) in
  MessageID f = id /\ length (Payload f) = length payload /\
  Checksum f = packet_crc id (covered s c q id payload).
Proof.
  intros Hn Hid Hi Hi' Hin f. set (buf := packet s c q id payload) in *.
  assert (length buf = 12 + length payload) as Hbuf by apply length_packet.
  assert (forall j, j < i \/ i + 2 <= j -> j < length buf ->
    byte_at (corrupt i b1 b2 buf ++ rest) j = byte_at buf j) as Hb.
  { intros j. apply byte_at_corrupt. lia. }
  pose proof (frame_of_packet s c q id payload [] Hn Hid) as Hf.
  rewrite <- packet_as_app_nil in Hf. fold buf in Hf.
  pose proof (packet_byte1 s c q id payload [] Hn) as H1.
  rewrite <- packet_as_app_nil in H1. fold buf in H1.
  unfold f, frame_of. cbn [MessageID Payload Checksum].
  rewrite !Hb, H1 by lia. repeat split.
  - pose proof (f_equal MessageID Hf) as HM. exact HM.
  - rewrite length_slice; [lia|]. rewrite length_app, length_corrupt; lia.
  - pose proof (f_equal Checksum Hf) as HC. unfold frame_of in HC. cbn [Checksum] in HC.
    rewrite H1 in HC. rewrite slice_corrupt_after by lia. exact HC.
Qed.

Lemma list_len2 {A} (l : list A) : length l = 2 -> exists a b, l = [a; b].
Proof. destruct l as [|a [|b [|]]]; try done. eauto. Qed.

(** C9. No false acceptance: overwriting any two adjacent bytes of the flags,
    sequence, system and component ids, or of the payload, of an encoded packet
    of a supported message makes [DecodeFrame] report a checksum mismatch. *)
Theorem DecodeFrame_rejects_corruption s c q id payload buf i b1 b2 rest :
  EncodeFrame s c q id payload = Ok buf ->
  in_u 24 id -> is_Some (GetCRCExtra id) ->
  2 <= i -> i + 2 <= 7 \/ 10 <= i -> i + 2 <= 10 + length payload ->
  slice i (i + 2) buf <> [b1; b2] ->
  exists got computed,
    DecodeFrame (corrupt i b1 b2 buf ++ rest) = Err (CrcMismatch got computed).
Proof.
  rewrite EncodeFrame_packet. destruct (255 <? length payload) eqn:Hn; [done|].
  apply Nat.ltb_ge in Hn. intros [= <-] Hid Hex Hi Hi' Hin Hne.
  set (buf := packet s c q id payload) in *.
  assert (length buf = 12 + length payload) as Hbuf by apply length_packet.
  destruct (frame_of_corrupt s c q id payload i b1 b2 rest) as (HM & HP & HC); try done.
  fold buf in HM, HP, HC.
  rewrite DecodeFrame_full; cycle 1.
  { rewrite byte_at_corrupt by lia. done. }
  { rewrite byte_at_corrupt, length_app, length_corrupt by lia.
    unfold buf at 1. rewrite packet_as_app_nil, packet_byte1 by done. lia. }
  rewrite HM, HP, HC. destruct Hex as [e He]. rewrite He. cbn [is_Some_b andb].
  destruct (_ =? _)%Z eqn:E; [|cbn; eauto].
  exfalso. apply Z.eqb_eq, packet_crc_inj in E. apply Hne.
  pose proof (slice_covered s c q id payload []) as Hcov.
  rewrite <- packet_as_app_nil in Hcov. fold buf in Hcov. rewrite <- Hcov in E.
  destruct (list_len2 (slice i (i + 2) buf)) as (a1 & a2 & Ha).
  { rewrite length_slice; lia. }
  rewrite <- !(slice_slice_app 1 i (10 + length payload)) in E by lia.
  rewrite <- !(slice_slice_app i (i + 2) (10 + length payload)) in E by lia.
  rewrite slice_corrupt_before, slice_corrupt_at, slice_corrupt_after, Ha in E by lia.
  apply AccumulateBytes_adjacent_inj in E as [-> ->]; [done|]. split; vm_compute; congruence.
Qed.

Lemma DecodeFrame_rejects_corruption_witness :
  exists got computed,
    DecodeFrame (corrupt 10 (zb 9) (zb 0) (packet (zb 1) (zb 1) (zb 3) 0 (zb <$> [1;2;3]%Z)) ++ [])
      = Err (CrcMismatch got computed).
Proof.
  apply (DecodeFrame_rejects_corruption (zb 1) (zb 1) (zb 3) 0 (zb <$> [1;2;3]%Z)).
  - by vm_compute.
  - split; vm_compute; congruence.
  - eexists; reflexivity.
  - lia.
  - right; lia.
  - cbn; lia.
  - by vm_compute.
Defined.

(** One error of the decoder against its condition. *)
Ltac error_branch :=
  intros; repeat split; intros; destruct_and?;
  first [ done | lia | congruence | match goal with H : Err _ = Err _ |- _ => injection H; lia || congruence end ].

(** [DecodeFrame] rejects for exactly three structural reasons; every other
    packet is accepted or fails its checksum, and a packet whose message id has
    no CRC seed is accepted without looking at its checksum. *)
Theorem DecodeFrame_branches data :
  let n := Z.to_nat (bz (byte_at data 1)) in
  let id := MessageID (frame_of data) in
  (DecodeFrame data = Err PacketTooShort <-> length data < 12) /\
  (forall b, DecodeFrame data = Err (UnsupportedMagic b) <->
     12 <= length data /\ b = byte_at data 0 /\ b <> MagicV2) /\
  (forall g e, DecodeFrame data = Err (ShorterThanExpected g e) <->
     12 <= length data /\ byte_at data 0 = MagicV2 /\ g = length data /\ e = 12 + n /\ g < e) /\
  (12 + n <= length data -> byte_at data 0 = MagicV2 -> GetCRCExtra id = None ->
     DecodeFrame data = Ok (frame_of data)).
Proof.
  intros n id. unfold DecodeFrame, HeaderLenV2, ChecksumLen.
  replace (10 + Z.to_nat (bz (byte_at data 1)) + 2) with (12 + n) by (unfold n; lia).
  destruct (length data <? 10 + 2) eqn:E1; [apply Nat.ltb_lt in E1|apply Nat.ltb_ge in E1].
  { split_and!; error_branch. }
  case_bool_decide as E2; cbn [negb]; [|split_and!; error_branch].
  destruct (length data <? 12 + n) eqn:E3; [apply Nat.ltb_lt in E3|apply Nat.ltb_ge in E3].
  { split_and!; error_branch. }
  assert (MessageID (frame_of data) = id) as Hid by done.
  unfold frame_of in Hid. cbn [MessageID] in Hid. rewrite frame_msgid, Hid.
  split_and!; [| | |by intros _ _ ->];
    intros; (split; [destruct (GetCRCExtra id); [destruct (negb _)|]; done | error_branch]).
Qed.

(** [EncodeFrame] fails exactly on payloads of more than 255 bytes. *)
Theorem EncodeFrame_fails_iff s c q id payload :
  EncodeFrame s c q id payload = Err PayloadExceedsMax <-> 255 < length payload.
Proof.
  rewrite EncodeFrame_packet. destruct (255 <? length payload) eqn:E.
  - apply Nat.ltb_lt in E. done.
  - apply Nat.ltb_ge in E. split; [done|lia].
Qed.

(** Message payload round trip: decoding an encoded message, followed by
    any trailing bytes, gives the message back, for every message whose fields
    are within their Go widths. *)
Theorem message_decode_encode rest :
  (forall h, heartbeat_wf h -> DecodeHeartbeat (EncodeHeartbeat h ++ rest) = Ok h) /\
  (forall g, gpi_wf g -> DecodeGlobalPositionInt (EncodeGlobalPositionInt g ++ rest) = Ok g) /\
  (forall s, sys_wf s -> DecodeSysStatus (EncodeSysStatus s ++ rest) = Ok s) /\
  (forall a, attitude_wf a -> DecodeAttitude (EncodeAttitude a ++ rest) = Ok a).
Proof.
  split_and!; intros; [apply DecodeHeartbeat_Encode | apply DecodeGlobalPositionInt_Encode
    | apply DecodeSysStatus_Encode | apply DecodeAttitude_Encode]; done.
Qed.

(** Conversely every accepted payload decodes to fields within their Go
    widths, and re-encoding them gives back the bytes that were read. *)
Theorem message_encode_decode p :
  (forall h, DecodeHeartbeat p = Ok h -> EncodeHeartbeat h = take 9 p /\ heartbeat_wf h) /\
  (forall g, DecodeGlobalPositionInt p = Ok g ->
     EncodeGlobalPositionInt g = take 28 p /\ gpi_wf g) /\
  (forall s, DecodeSysStatus p = Ok s -> EncodeSysStatus s = take 31 p /\ sys_wf s) /\
  (forall a, DecodeAttitude p = Ok a -> EncodeAttitude a = take 28 p /\ attitude_wf a).
Proof.
  split_and!; intros; [by apply EncodeHeartbeat_Decode | by apply EncodeGlobalPositionInt_Decode
    | by apply EncodeSysStatus_Decode | by apply EncodeAttitude_Decode].
Qed.
