(* ===== verification/Stream.v ===== *)
(** The stream framer of pkg/mavlink/stream.go: [StreamDecoder.NextFrame] over a
    [bufio.Reader] over an [io.Reader] that delivers its bytes in arbitrary
    fragments, a specification of it on the plain byte sequence, and the
    refinement between the two. *)
From S2P Require Import Prelude Crc Messages.

Local Open Scope nat_scope.

(** * Readers of the standard library *)

Inductive IOError :=
| EOF
| ErrNoProgress
| ErrBufferFull
| ErrOther (msg : string).

#[export] Instance IOError_eq_dec : EqDecision IOError.
Proof. solve_decision. Defined.

(** An [io.Reader] is the list of the results its [Read] calls will have: some
    bytes and possibly an error.  A result with more bytes than the caller's
    buffer is delivered in pieces; a reader that is exhausted reports [EOF]. *)
Abbreviation source := (list (list byte * option IOError)).

Definition Read (k : nat) (s : source) : list byte * option IOError * source :=
  match s with
  | [] => ([], Some EOF, [])
  | (bs, e) :: s' =>
    if length bs <=? k then (bs, e, s') else (take k bs, None, (drop k bs, e) :: s')
  end.

(** [bufio.Reader]: the buffered bytes [b.buf[b.r:b.w]], the pending error
    [b.err] and the underlying reader. *)
Record Reader := mkReader { unread : list byte; rerr : option IOError; rd : source }.

Definition bufSize : nat := 4096.
#[global] Arguments bufSize : simpl never.
Definition maxConsecutiveEmptyReads : nat := 100.

(** [fill] reads once, or again while the reader returns neither bytes nor an
    error. *)
Fixpoint fill_loop (i : nat) (r : Reader) : Reader :=
  match i with
  | O => mkReader (unread r) (Some ErrNoProgress) (rd r)
  | S i =>
    let '(bs, e, s) := Read (bufSize - length (unread r)) (rd r) in
    let r' := mkReader (unread r ++ bs) (rerr r) s in
    match e with
    | Some err => mkReader (unread r') (Some err) (rd r')
    | None => if 0 <? length bs then r' else fill_loop i r'
    end
  end.

Definition fill (r : Reader) : Reader := fill_loop maxConsecutiveEmptyReads r.
#[global] Arguments fill : simpl never.

Definition clearErr (r : Reader) : Reader := mkReader (unread r) None (rd r).

(** The loop of [Peek]: fill while too few bytes are buffered.  Each round
    buffers a byte or records an error, so [n + 1] rounds are enough. *)
Fixpoint peek_loop (fuel n : nat) (r : Reader) : Reader :=
  match fuel with
  | O => r
  | S fuel =>
    if (length (unread r) <? n) && (length (unread r) <? bufSize)
         && negb (is_Some_b (rerr r))
    then peek_loop fuel n (fill r) else r
  end.

Definition Peek (n : nat) (r : Reader) : result IOError (list byte) * Reader :=
  let r := peek_loop (S n) n r in
  if bufSize <? n then (Err ErrBufferFull, r) else
  if length (unread r) <? n
  then (Err (default ErrBufferFull (rerr r)), clearErr r)
  else (Ok (take n (unread r)), r).

(** [for b.r == b.w { if b.err != nil { return b.readErr() }; b.fill() }]: one
    fill buffers a byte or records an error. *)
Fixpoint ReadByte_loop (fuel : nat) (r : Reader) : result IOError byte * Reader :=
  match unread r with
  | c :: u => (Ok c, mkReader u (rerr r) (rd r))
  | [] =>
    match rerr r with
    | Some e => (Err e, clearErr r)
    | None =>
      match fuel with
      | O => (Err ErrNoProgress, r)
      | S fuel => ReadByte_loop fuel (fill r)
      end
    end
  end.

Definition ReadByte (r : Reader) : result IOError byte * Reader := ReadByte_loop 1 r.

(** [Discard] of bytes that are already buffered. *)
Definition Discard (n : nat) (r : Reader) : Reader :=
  mkReader (drop n (unread r)) (rerr r) (rd r).

(** * The code *)

Definition NewStreamDecoder (s : source) : Reader := mkReader [] None s.

(** [NextFrame] loops for as long as the stream holds bytes that do not start a
    packet; [None] means the fuel ran out. *)
Fixpoint NextFrame_loop (fuel : nat) (r : Reader) : option (result IOError Frame * Reader) :=
  match fuel with
  | O => None
  | S fuel =>
    match ReadByte r with
    | (Err e, r) => Some (Err e, r)
    | (Ok b, r) =>
      if negb (bool_decide (b = MagicV2)) then NextFrame_loop fuel r else
      match Peek (HeaderLenV2 - 1) r with
      | (Err e, r) => Some (Err e, r)
      | (Ok headerRest, r) =>
        let payloadLen := Z.to_nat (bz (byte_at headerRest 0)) in
        let totalPacketLen := HeaderLenV2 + payloadLen + ChecksumLen in
        let needed := totalPacketLen - 1 in
        match Peek needed r with
        | (Err e, r) => Some (Err e, r)
        | (Ok packetRest, r) =>
          match DecodeFrame (MagicV2 :: packetRest) with
          | Err _ => NextFrame_loop fuel r
          | Ok frame => Some (Ok frame, Discard needed r)
          end
        end
      end
    end
  end.

(** Bytes not yet consumed: buffered, then still in the reader. *)
Definition stream (r : Reader) : list byte := unread r ++ concat (rd r).*1.

(** Each turn of the loop consumes a byte or returns. *)
Definition NextFrame (r : Reader) : option (result IOError Frame * Reader) :=
  NextFrame_loop (S (length (stream r))) r.

Definition ReadSingleFrame (s : source) : option (result IOError Frame) :=
  fst <$> NextFrame (NewStreamDecoder s).

(** Calling [NextFrame] until it fails, as the read loops do: the frames in
    order and the error that ends them. *)
Fixpoint read_frames (fuel : nat) (r : Reader) : option (list Frame * IOError * Reader) :=
  match fuel with
  | O => None
  | S fuel =>
    match NextFrame r with
    | None => None
    | Some (Err e, r) => Some ([], e, r)
    | Some (Ok f, r) =>
      match read_frames fuel r with
      | Some (fs, e, r) => Some (f :: fs, e, r)
      | None => None
      end
    end
  end.

(** * Specification on the byte sequence *)

(** The next frame of a byte sequence and what is left of it; [None] when the
    sequence ends first. *)
Fixpoint next_frame (l : list byte) : option Frame * list byte :=
  match l with
  | [] => (None, [])
  | b :: l =>
    if negb (bool_decide (b = MagicV2)) then next_frame l else
    if length l <? 9 then (None, l) else
    let needed := 11 + Z.to_nat (bz (byte_at l 0)) in
    if length l <? needed then (None, l) else
    match DecodeFrame (MagicV2 :: take needed l) with
    | Err _ => next_frame l
    | Ok f => (Some f, drop needed l)
    end
  end.

(** * Readers without transport errors

    [clean] readers deliver non-empty fragments of any size and end with [EOF],
    reported with the last bytes or after them. *)
Fixpoint clean_src (s : source) : Prop :=
  match s with
  | [] => True
  | (bs, None) :: s => bs <> [] /\ clean_src s
  | (_, Some e) :: s => e = EOF /\ s = []
  end.

Definition clean (r : Reader) : Prop :=
  length (unread r) <= bufSize /\
  match rerr r with None => clean_src (rd r) | Some e => e = EOF /\ rd r = [] end.

Lemma Read_clean k s bs e s' :
  0 < k -> clean_src s -> Read k s = (bs, e, s') ->
  concat s.*1 = bs ++ concat s'.*1 /\ length bs <= k /\
  match e with None => bs <> [] /\ clean_src s' | Some e => e = EOF /\ s' = [] end.
Proof.
  intros Hk Hs H. destruct s as [|[b [e0|]] s]; cbn in *.
  - injection H as <- <- <-. cbn. split_and!; done || lia.
  - destruct Hs as [-> ->]. destruct (length b <=? k) eqn:E.
    + injection H as <- <- <-. apply Nat.leb_le in E. done.
    + injection H as <- <- <-. apply Nat.leb_gt in E. cbn.
      rewrite length_take, app_assoc, take_drop. split_and!; try done; [lia|].
      destruct b, k; cbn in *; done || lia.
  - destruct Hs as [Hb Hs]. destruct (length b <=? k) eqn:E.
    + injection H as <- <- <-. apply Nat.leb_le in E. done.
    + injection H as <- <- <-. apply Nat.leb_gt in E. cbn.
      rewrite length_take, app_assoc, take_drop. split_and!; try done; [lia| |].
      * destruct b, k; cbn in *; done || lia.
      * intros Hd%(f_equal length). rewrite length_drop in Hd. cbn in Hd. lia.
Qed.

Lemma small_bufSize n : n <= 300 -> n <= bufSize.
Proof. unfold bufSize. lia. Qed.

Lemma Read_stream k s bs e s' :
  Read k s = (bs, e, s') -> concat s.*1 = bs ++ concat s'.*1.
Proof.
  destruct s as [|[b e0] s]; cbn; [by intros [= <- <- <-]|].
  destruct (length b <=? k); intros [= <- <- <-]; [done|].
  cbn. by rewrite app_assoc, take_drop.
Qed.

Lemma fill_loop_stream i r : stream (fill_loop i r) = stream r.
Proof.
  revert r. induction i as [|i IH]; intros r; [done|]. cbn [fill_loop].
  destruct (Read _ (rd r)) as [[bs e] s'] eqn:ER. apply Read_stream in ER.
  assert (stream (mkReader (unread r ++ bs) (rerr r) s') = stream r) as E.
  { unfold stream. cbn. by rewrite ER, app_assoc. }
  destruct e; [exact E|]. destruct (0 <? length bs); [exact E|]. by rewrite IH.
Qed.

Lemma fill_stream r : stream (fill r) = stream r.
Proof. apply fill_loop_stream. Qed.

Lemma some_empty_reads : exists i, maxConsecutiveEmptyReads = S i.
Proof. by exists 99. Qed.
#[local] Opaque maxConsecutiveEmptyReads.

(** One [fill] of a clean reader keeps its stream and makes progress. *)
Lemma fill_clean r :
  clean r -> rerr r = None -> length (unread r) < bufSize ->
  clean (fill r) /\ stream (fill r) = stream r /\
  (rerr (fill r) = None -> length (unread r) < length (unread (fill r))).
Proof.
  intros [Hl Hc] He Hb. rewrite He in Hc. unfold fill.
  destruct some_empty_reads as [i ->].
  cbn [fill_loop]. destruct (Read (bufSize - length (unread r)) (rd r)) as [[bs e] s'] eqn:ER.
  apply Read_clean in ER as (Hs & Hbs & Hcase); [|lia|done].
  unfold clean, stream. rewrite Hs, app_assoc. destruct e as [e|].
  - destruct Hcase as [-> ->]. cbn. rewrite length_app. split_and!; done || lia.
  - destruct Hcase as [Hne Hc']. destruct bs as [|b bs]; [done|]. cbn in *.
    rewrite He, length_app. cbn. split_and!; try done; lia.
Qed.

#[local] Opaque fill bufSize.

(** [Peek] on a clean reader: the buffer is extended with bytes of the stream
    until it holds [n] of them or the stream has ended. *)
Lemma peek_loop_clean n fuel r :
  n <= bufSize -> clean r -> n < fuel + length (unread r) ->
  let r' := peek_loop fuel n r in
  clean r' /\ stream r' = stream r /\
  (length (unread r') < n -> rerr r' = Some EOF /\ rd r' = []).
Proof.
  intros Hn. revert r. induction fuel as [|fuel IH]; intros r Hc Hf; cbn [peek_loop].
  { cbn in *. split_and!; try done. lia. }
  destruct (length (unread r) <? n) eqn:E1; [apply Nat.ltb_lt in E1|apply Nat.ltb_ge in E1].
  2: { cbn. split_and!; try done. lia. }
  rewrite (proj2 (Nat.ltb_lt _ _)) by lia. destruct (rerr r) as [e|] eqn:Ee; cbn.
  { pose proof Hc as [_ Hc']. rewrite Ee in Hc'. destruct Hc' as [-> Hr]. rewrite Ee. done. }
  destruct (fill_clean r) as (Hc' & Hs' & Hp'); [done..|lia|].
  revert Hc' Hs' Hp'. generalize (fill r) as r1. intros r1 Hc' Hs' Hp'. rewrite <- Hs'.
  destruct (rerr r1) as [e|] eqn:Ee'.
  - pose proof Hc' as [Hl' Hc'']. rewrite Ee' in Hc''. destruct Hc'' as [-> Hr'].
    replace (peek_loop fuel n r1) with r1; [done|].
    destruct fuel; [done|]. cbn. by rewrite Ee', andb_false_r.
  - specialize (Hp' eq_refl). apply IH; [done|lia].
Qed.

Lemma clean_ended r : clean r -> rd r = [] -> stream r = unread r /\ clean (clearErr r) /\
  stream (clearErr r) = stream r.
Proof.
  intros [Hl Hc] Hr. unfold stream, clean, clearErr. cbn. rewrite Hr. cbn. by rewrite app_nil_r.
Qed.

Lemma Peek_clean n r :
  n <= bufSize -> clean r ->
  exists r', clean r' /\ stream r' = stream r /\
    if length (stream r) <? n then Peek n r = (Err EOF, r')
    else Peek n r = (Ok (take n (stream r)), r') /\ n <= length (unread r').
Proof.
  intros Hn Hc. unfold Peek. rewrite (proj2 (Nat.ltb_ge bufSize n)) by lia.
  destruct (peek_loop_clean n (S n) r) as (Hc' & Hs' & Hend); [done|done|lia|].
  set (r' := peek_loop (S n) n r) in *.
  destruct (length (unread r') <? n) eqn:E; [apply Nat.ltb_lt in E|apply Nat.ltb_ge in E].
  - destruct (Hend E) as [He Hr]. destruct (clean_ended r') as (Hst & Hcc & Hcs); [done..|].
    exists (clearErr r'). rewrite Hcs, Hs', He.
    rewrite <- Hs', Hst, (proj2 (Nat.ltb_lt _ _)) by done. done.
  - exists r'. split_and!; [done..|]. rewrite <- Hs'. unfold stream.
    rewrite length_app, (proj2 (Nat.ltb_ge _ _)) by lia. by rewrite take_app_le.
Qed.

Lemma ReadByte_clean r :
  clean r ->
  exists r', clean r' /\
    match stream r with
    | [] => ReadByte r = (Err EOF, r') /\ stream r' = []
    | b :: l => ReadByte r = (Ok b, r') /\ stream r' = l
    end.
Proof.
  intros Hc. unfold ReadByte. cbn [ReadByte_loop].
  destruct (unread r) as [|c u] eqn:Eu.
  2: { unfold stream. rewrite Eu. exists (mkReader u (rerr r) (rd r)).
       destruct Hc as [Hl Hc]. rewrite Eu in Hl. cbn in *. repeat split; try done; cbn; lia. }
  destruct (rerr r) as [e|] eqn:Ee.
  { pose proof Hc as [_ Hc']. rewrite Ee in Hc'. destruct Hc' as [-> Hr].
    destruct (clean_ended r) as (Hst & Hcc & Hcs); [done..|].
    exists (clearErr r). rewrite Hcs, Hst, Eu. done. }
  destruct (fill_clean r) as (Hc' & Hs' & Hp'); [done..|rewrite Eu; by apply (small_bufSize 1), le_n_S, Nat.le_0_l|].
  rewrite <- Hs'. clear Hs'. revert Hc' Hp'. generalize (fill r) as r1. intros r1 Hc' Hp'.
  destruct (unread r1) as [|c u] eqn:Eu'.
  - destruct (rerr r1) as [e|] eqn:Ee'.
    + pose proof Hc' as [_ Hc'']. rewrite Ee' in Hc''. destruct Hc'' as [-> Hr].
      destruct (clean_ended r1) as (Hst & Hcc & Hcs); [done..|].
      exists (clearErr r1). rewrite Hcs, Hst, Eu'. done.
    + specialize (Hp' eq_refl). rewrite Eu in Hp'. cbn in Hp'. lia.
  - exists (mkReader u (rerr r1) (rd r1)). unfold stream. rewrite Eu'.
    destruct Hc' as [Hl Hc']. rewrite Eu' in Hl. cbn in *. repeat split; try done; cbn; lia.
Qed.

Lemma Discard_clean n r :
  clean r -> n <= length (unread r) ->
  clean (Discard n r) /\ stream (Discard n r) = drop n (stream r).
Proof.
  intros [Hl Hc] Hn. unfold clean, stream, Discard. cbn.
  rewrite length_drop, drop_app_le by lia. split_and!; done || lia.
Qed.

(** * Refinement: the framer over fragments is the framer over the bytes *)

Lemma next_frame_cons b l :
  next_frame (b :: l) =
    if negb (bool_decide (b = MagicV2)) then next_frame l else
    if length l <? 9 then (None, l) else
    let needed := 11 + Z.to_nat (bz (byte_at l 0)) in
    if length l <? needed then (None, l) else
    match DecodeFrame (MagicV2 :: take needed l) with
    | Err _ => next_frame l
    | Ok f => (Some f, drop needed l)
    end.
Proof. done. Qed.

Definition frame_result (o : option Frame) : result IOError Frame :=
  match o with Some f => Ok f | None => Err EOF end.

Lemma NextFrame_loop_refines fuel r :
  clean r -> length (stream r) < fuel ->
  exists r', clean r' /\
    NextFrame_loop fuel r = Some (frame_result (next_frame (stream r)).1, r') /\
    stream r' = (next_frame (stream r)).2.
Proof.
  revert r. induction fuel as [|fuel IH]; intros r Hc Hf; [lia|]. cbn [NextFrame_loop].
  destruct (ReadByte_clean r Hc) as (r1 & Hc1 & H1).
  destruct (stream r) as [|b l] eqn:Es.
  { destruct H1 as [-> Hs1]. exists r1. by rewrite Hs1. }
  destruct H1 as [-> Hs1]. rewrite next_frame_cons. cbn in Hf.
  case_bool_decide as Hb; cbn [negb]; [|rewrite <- Hs1; apply IH; [done|rewrite Hs1; lia]].
  destruct (Peek_clean (HeaderLenV2 - 1) r1) as (r2 & Hc2 & Hs2 & H2); [|done|].
  { apply small_bufSize. cbn. lia. }
  rewrite Hs1 in Hs2, H2. change (HeaderLenV2 - 1) with 9 in *.
  destruct (length l <? 9) eqn:E9; [rewrite H2; eauto|]. apply Nat.ltb_ge in E9.
  destruct H2 as [-> _].
  assert (byte_at (take 9 l) 0 = byte_at l 0) as -> by (destruct l; [cbn in E9; lia|done]).
  pose proof (bz_range (byte_at l 0)). set (n := Z.to_nat (bz (byte_at l 0))) in *.
  replace (HeaderLenV2 + n + ChecksumLen - 1) with (11 + n) by (unfold HeaderLenV2, ChecksumLen; lia).
  destruct (Peek_clean (11 + n) r2) as (r3 & Hc3 & Hs3 & H3); [|done|].
  { apply small_bufSize. lia. }
  rewrite Hs2 in Hs3, H3. cbv zeta.
  destruct (length l <? 11 + n) eqn:E11; [rewrite H3; eauto|]. destruct H3 as [-> Hn].
  destruct (DecodeFrame (MagicV2 :: take (11 + n) l)) as [f|e].
  - destruct (Discard_clean (11 + n) r3) as [Hc4 Hs4]; [done..|].
    exists (Discard (11 + n) r3). by rewrite Hs4, Hs3.
  - rewrite <- Hs3. apply IH; [done|rewrite Hs3; lia].
Qed.

Lemma NextFrame_refines r :
  clean r ->
  exists r', clean r' /\
    NextFrame r = Some (frame_result (next_frame (stream r)).1, r') /\
    stream r' = (next_frame (stream r)).2.
Proof. intros Hc. apply NextFrame_loop_refines; [done|lia]. Qed.

(** * The specification: synchronisation, soundness, progress *)

(** Bytes other than the magic byte are skipped. *)
Lemma next_frame_noise noise l :
  Forall (.≠ MagicV2) noise -> next_frame (noise ++ l) = next_frame l.
Proof.
  induction 1 as [|b noise Hb _ IH]; [done|].
  cbn [app]. rewrite next_frame_cons, bool_decide_false by done. done.
Qed.

Lemma next_frame_packet s c q id payload rest :
  length payload <= 255 -> in_u 24 id ->
  next_frame (packet s c q id payload ++ rest) = (Some (frame_for s c q id payload), rest).
Proof.
  intros Hn Hid. pose proof (length_packet s c q id payload) as Hl.
  pose proof (packet_byte1 s c q id payload rest Hn) as H1.
  pose proof (DecodeFrame_packet s c q id payload [] Hn Hid) as HD. rewrite app_nil_r in HD.
  destruct (packet s c q id payload) as [|b pk] eqn:E; [done|]. rewrite ?E in Hl, H1, HD.
  assert (b = MagicV2) as -> by (unfold packet, header in E; cbn in E; congruence).
  cbn [app length] in *. rewrite next_frame_cons, bool_decide_true by done. cbn [negb].
  assert (byte_at (pk ++ rest) 0 = byte_at (MagicV2 :: pk ++ rest) 1) as -> by done.
  rewrite H1. cbv zeta.
  rewrite !(proj2 (Nat.ltb_ge _ _)) by (rewrite length_app; lia).
  replace (11 + length payload) with (length pk) by lia.
  by rewrite take_app_length, HD, drop_app_length.
Qed.

(** A frame found in a byte sequence is a packet of it that decodes. *)
Lemma next_frame_sound l f rest :
  next_frame l = (Some f, rest) ->
  exists pre pkt, l = pre ++ pkt ++ rest /\ DecodeFrame pkt = Ok f /\
    length pkt = 12 + length (Payload f).
Proof.
  induction l as [|b l IH]; [done|]. rewrite next_frame_cons.
  assert (next_frame l = (Some f, rest) ->
    exists pre pkt, b :: l = pre ++ pkt ++ rest /\ DecodeFrame pkt = Ok f /\
      length pkt = 12 + length (Payload f)) as IH'.
  { intros (pre & pkt & -> & Hd)%IH. by exists (b :: pre), pkt. }
  case_bool_decide as Hb; cbn [negb]; [|done]. subst b.
  destruct (length l <? 9); [done|]. cbv zeta.
  set (n := Z.to_nat (bz (byte_at l 0))).
  destruct (length l <? 11 + n) eqn:E; [done|]. apply Nat.ltb_ge in E.
  destruct (DecodeFrame (MagicV2 :: take (11 + n) l)) as [f'|e] eqn:HD; [|done].
  intros [= -> <-]. exists [], (MagicV2 :: take (11 + n) l). cbn [app].
  split_and!; [by rewrite take_drop|done|].
  destruct (DecodeFrame_Ok_inv _ _ HD) as (_ & _ & HP & _ & _). rewrite HP.
  assert (byte_at (MagicV2 :: take (11 + n) l) 1 = byte_at l 0) as ->
    by (destruct l; [cbn in E; lia|done]).
  fold n. cbn [length]. rewrite length_take. lia.
Qed.

Lemma next_frame_shorter l f rest :
  next_frame l = (Some f, rest) -> length rest < length l.
Proof.
  intros (pre & pkt & -> & _ & Hl)%next_frame_sound. rewrite !length_app. lia.
Qed.

(** All frames of a byte sequence, with what is left when it ends. *)
Fixpoint frames_of (fuel : nat) (l : list byte) : list Frame * list byte :=
  match fuel with
  | O => ([], l)
  | S fuel =>
    match next_frame l with
    | (None, l) => ([], l)
    | (Some f, l) => let '(fs, l) := frames_of fuel l in (f :: fs, l)
    end
  end.

Lemma read_frames_refines fuel r :
  clean r -> length (stream r) < fuel ->
  exists r', read_frames fuel r = Some ((frames_of fuel (stream r)).1, EOF, r') /\ clean r' /\
    stream r' = (frames_of fuel (stream r)).2.
Proof.
  revert r. induction fuel as [|fuel IH]; intros r Hc Hf; [lia|]. cbn [read_frames frames_of].
  destruct (NextFrame_refines r Hc) as (r1 & Hc1 & -> & Hs1).
  destruct (next_frame (stream r)) as [[f|] l] eqn:En; cbn in *; [|by eauto].
  apply next_frame_shorter in En as Hlt.
  destruct (IH r1) as (r2 & -> & Hc2 & Hs2); [done|rewrite Hs1; lia|].
  rewrite Hs1 in *. destruct (frames_of fuel l) as [fs l'] eqn:Ef. cbn in *. eauto.
Qed.

(** One transmission: line noise, then a packet. *)
Record transmission := mkTransmission {
  noise : list byte; t_sys : byte; t_comp : byte; t_seq : byte; t_id : Z; t_payload : list byte }.

Definition t_wf (t : transmission) : Prop :=
  Forall (.≠ MagicV2) (noise t) /\ in_u 24 (t_id t) /\ length (t_payload t) <= 255.

Definition t_packet (t : transmission) : list byte :=
  packet (t_sys t) (t_comp t) (t_seq t) (t_id t) (t_payload t).
Definition t_frame (t : transmission) : Frame :=
  frame_for (t_sys t) (t_comp t) (t_seq t) (t_id t) (t_payload t).

Definition wire (ts : list transmission) (tail : list byte) : list byte :=
  concat ((fun t => noise t ++ t_packet t) <$> ts) ++ tail.

Lemma frames_of_wire fuel ts tail :
  Forall t_wf ts -> Forall (.≠ MagicV2) tail -> length ts < fuel ->
  frames_of fuel (wire ts tail) = (t_frame <$> ts, []).
Proof.
  intros Hts Htail. revert fuel. induction Hts as [|t ts (Hn & Hid & Hp) _ IH]; intros fuel Hf;
    (destruct fuel as [|fuel]; [cbn in Hf; lia|]); cbn [frames_of].
  - unfold wire. cbn. rewrite <- (app_nil_r tail), next_frame_noise by done. done.
  - unfold wire. cbn [fmap list_fmap concat]. rewrite <- !app_assoc, next_frame_noise by done.
    unfold t_packet at 1. rewrite next_frame_packet by done.
    specialize (IH fuel). unfold wire in IH. rewrite IH by (cbn in Hf; lia). done.
Qed.

(** * Termination for every reader, errors included *)

Lemma Peek_stream n r : stream (Peek n r).2 = stream r.
Proof.
  unfold Peek. assert (forall m fuel, stream (peek_loop fuel m r) = stream r) as E.
  { intros m fuel. revert r. induction fuel as [|fuel IH]; intros r; [done|]. cbn [peek_loop].
    destruct (_ && _); [|done]. rewrite IH. apply fill_stream. }
  destruct (bufSize <? n); [apply E|]. destruct (_ <? n); apply E.
Qed.

Lemma ReadByte_stream r b r' : ReadByte r = (Ok b, r') -> stream r = b :: stream r'.
Proof.
  unfold ReadByte. generalize 1 as fuel. intros fuel. revert r.
  induction fuel as [|fuel IH]; intros r; cbn [ReadByte_loop];
    (destruct (unread r) as [|c u] eqn:Eu;
      [|intros [= <- <-]; unfold stream; by rewrite Eu]);
    (destruct (rerr r); [done|]); [done|].
  intros H%IH. by rewrite <- H, fill_stream.
Qed.

Lemma NextFrame_loop_total fuel r :
  length (stream r) < fuel -> is_Some (NextFrame_loop fuel r).
Proof.
  revert r. induction fuel as [|fuel IH]; intros r Hf; [lia|]. cbn [NextFrame_loop].
  destruct (ReadByte r) as [[b|e] r1] eqn:E1; [|by eexists].
  apply ReadByte_stream in E1. rewrite E1 in Hf. cbn in Hf.
  destruct (negb _); [apply IH; lia|].
  pose proof (Peek_stream (HeaderLenV2 - 1) r1) as H2.
  destruct (Peek (HeaderLenV2 - 1) r1) as [[hr|e] r2]; [|by eexists]. cbn in H2. cbv zeta.
  match goal with |- context [Peek ?n r2] =>
    pose proof (Peek_stream n r2) as H3; destruct (Peek n r2) as [[pr|e] r3]; [|by eexists] end.
  cbn in H3. destruct (DecodeFrame _); [by eexists|]. apply IH. rewrite H3, H2. lia.
Qed.

(** * Properties *)

(** C39. [NextFrame] returns for every reader, whatever fragments and errors the
    transport delivers: it never spins on a finite stream. *)
Theorem NextFrame_terminates r : exists res r', NextFrame r = Some (res, r').
Proof.
  destruct (NextFrame_loop_total (S (length (stream r))) r) as [[res r'] H]; [lia|]. eauto.
Qed.

(** C10. Packet fragmentation is invisible: over any reader without transport
    errors, [NextFrame] returns what the specification [next_frame] returns on
    the bytes of the stream, and leaves the bytes the specification leaves. *)
Theorem NextFrame_refines_next_frame r :
  clean r ->
  exists r', clean r' /\
    NextFrame r =
      Some (match (next_frame (stream r)).1 with Some f => Ok f | None => Err EOF end, r') /\
    stream r' = (next_frame (stream r)).2.
Proof. apply NextFrame_refines. Qed.

Definition two_fragments : Reader :=
  NewStreamDecoder [(take 5 (packet (zb 0) (zb 0) (zb 0) 0 [zb 1]), None); (drop 5 (packet (zb 0) (zb 0) (zb 0) 0 [zb 1]), Some EOF)].

Lemma NextFrame_refines_next_frame_witness :
  exists r', clean r' /\
    NextFrame two_fragments =
      Some (match (next_frame (stream two_fragments)).1 with Some f => Ok f | None => Err EOF end, r') /\
    stream r' = (next_frame (stream two_fragments)).2.
Proof.
  apply NextFrame_refines_next_frame. split; [cbn; lia|]. cbn. done.
Defined.

(** Lossless reception: when the bytes of a stream are encoded packets of
    at most 255 payload bytes separated by noise without magic bytes, however
    they are fragmented, the read loop obtains exactly the frames sent, in
    order, and then [EOF]. *)
Theorem read_frames_delivers_all s ts tail :
  clean_src s -> concat s.*1 = wire ts tail ->
  Forall t_wf ts -> Forall (.≠ MagicV2) tail ->
  exists fuel r',
    read_frames fuel (NewStreamDecoder s) = Some (t_frame <$> ts, EOF, r') /\ stream r' = [].
Proof.
  intros Hs Hw Hts Htail. set (fuel := S (length (wire ts tail) + length ts)). exists fuel.
  assert (stream (NewStreamDecoder s) = wire ts tail) as Hst by done.
  destruct (read_frames_refines fuel (NewStreamDecoder s)) as (r' & Hr & _ & Hr').
  - split; [cbn; lia|done].
  - rewrite Hst. lia.
  - exists r'. rewrite Hst, frames_of_wire in Hr, Hr' by (done || lia). done.
Qed.

Lemma read_frames_delivers_all_witness :
  exists fuel r',
    read_frames fuel (NewStreamDecoder
      [([zb 0x55], None); (packet (zb 1) (zb 1) (zb 7) 0 [zb 3], Some EOF)])
      = Some (t_frame <$> [mkTransmission [zb 0x55] (zb 1) (zb 1) (zb 7) 0 [zb 3]], EOF, r') /\
    stream r' = [].
Proof.
  apply (read_frames_delivers_all _ [mkTransmission [zb 0x55] (zb 1) (zb 1) (zb 7) 0 [zb 3]] []).
  - cbn. done.
  - by vm_compute.
  - repeat constructor; cbn; try lia; by vm_compute.
  - constructor.
Defined.

(** No invented frames: a frame obtained from a reader without transport
    errors is the decoding of a packet that occurs contiguously in its stream,
    and the reader continues just after it. *)
Theorem NextFrame_sound r f r' :
  clean r -> NextFrame r = Some (Ok f, r') ->
  exists pre pkt, stream r = pre ++ pkt ++ stream r' /\ DecodeFrame pkt = Ok f /\
    length pkt = 12 + length (Payload f).
Proof.
  intros Hc H. destruct (NextFrame_refines r Hc) as (r1 & _ & Hr & Hs).
  rewrite Hr in H. injection H as Hf ->. rewrite Hs.
  apply next_frame_sound. destruct (next_frame (stream r)) as [[g|] l]; cbn in *; congruence.
Qed.

Lemma NextFrame_sound_witness :
  exists pre pkt, stream two_fragments = pre ++ pkt ++ [] /\
    DecodeFrame pkt = Ok (frame_for (zb 0) (zb 0) (zb 0) 0 [zb 1]) /\
    length pkt = 12 + length (Payload (frame_for (zb 0) (zb 0) (zb 0) 0 [zb 1])).
Proof.
  apply (NextFrame_sound two_fragments _ (mkReader [] (Some EOF) [])).
  - split; [cbn; lia|]. cbn. done.
  - by vm_compute.
Defined.

(** A stray magic byte hides the frame that follows it when the stream ends
    there: although the packet is complete in the buffer, the call reports
    [EOF], because the bytes announced by the false header never arrive.  Only a
    further call, on the bytes that are left, returns the frame. *)
Theorem stray_magic_hides_last_frame r s c q id payload :
  clean r -> stream r = MagicV2 :: packet s c q id payload ->
  in_u 24 id -> length payload < 252 ->
  exists r1 r2, NextFrame r = Some (Err EOF, r1) /\
    NextFrame r1 = Some (Ok (frame_for s c q id payload), r2).
Proof.
  intros Hc Hst Hid Hp. pose proof (length_packet s c q id payload) as Hl.
  destruct (NextFrame_refines r Hc) as (r1 & Hc1 & Hr1 & Hs1).
  destruct (NextFrame_refines r1 Hc1) as (r2 & Hc2 & Hr2 & Hs2).
  assert (next_frame (stream r) = (None, packet s c q id payload)) as E.
  { rewrite Hst, next_frame_cons, bool_decide_true by done. cbn [negb].
    rewrite (proj2 (Nat.ltb_ge _ 9)) by lia.
    assert (byte_at (packet s c q id payload) 0 = MagicV2) as -> by done. cbv zeta.
    change (Z.to_nat (bz MagicV2)) with 253. rewrite (proj2 (Nat.ltb_lt _ _)) by lia. done. }
  exists r1, r2. rewrite Hr1, Hr2, Hs1, E. cbn [fst snd frame_result].
  rewrite (packet_as_app_nil s c q id payload), next_frame_packet by (done || lia). done.
Qed.

Lemma stray_magic_hides_last_frame_witness :
  exists r1 r2,
    NextFrame (NewStreamDecoder [(MagicV2 :: packet (zb 1) (zb 1) (zb 1) 0 (zb <$> [0;0;0;0;2;3;128;4;3]%Z), None)])
      = Some (Err EOF, r1) /\
    NextFrame r1 = Some (Ok (frame_for (zb 1) (zb 1) (zb 1) 0 (zb <$> [0;0;0;0;2;3;128;4;3]%Z)), r2).
Proof.
  apply stray_magic_hides_last_frame.
  - split; [cbn; lia|]. cbn. done.
  - by vm_compute.
  - split; vm_compute; congruence.
  - cbn. lia.
Defined.
