(* ===== verification/GoString.v ===== *)
(** Go strings: byte sequences ([string]), the functions of packages strings,
    strconv and unicode/utf8 that the program calls, and their lemmas. *)
From Stdlib Require Import Strings.Ascii Strings.String DecimalString.
From S2P Require Import Prelude.

Local Open Scope Z_scope.

#[global] Arguments String.append : simpl nomatch.

(** * Characters *)

Definition az (a : ascii) : Z := Z.of_N (N_of_ascii a).
Definition za (z : Z) : ascii := ascii_of_N (Z.to_N (z mod 256)).

(** A string of one byte. *)
Definition chr (z : Z) : string := String (za z) EmptyString.

Definition lower_ascii (a : ascii) : ascii :=
  if (65 <=? az a) && (az a <=? 90) then za (az a + 32) else a.
Definition upper_ascii_b (a : ascii) : bool := (65 <=? az a) && (az a <=? 90).

(** A predicate on all bytes of a string. *)
Fixpoint str_forall (P : ascii -> bool) (s : string) : bool :=
  match s with
  | EmptyString => true
  | String a s => P a && str_forall P s
  end.

Fixpoint str_map (f : ascii -> ascii) (s : string) : string :=
  match s with
  | EmptyString => EmptyString
  | String a s => String (f a) (str_map f s)
  end.

Fixpoint str_rev_app (s acc : string) : string :=
  match s with
  | EmptyString => acc
  | String a s => str_rev_app s (String a acc)
  end.
Definition str_rev (s : string) : string := str_rev_app s EmptyString.

Definition is_ascii (a : ascii) : bool := az a <? 128.

(** * UTF-8 *)

(** The tables of package unicode for runes outside ASCII are a parameter: the
    lower-case mapping, equivalence under simple folding, and printability. *)
Class Unicode := {
  rune_lower : Z -> Z;
  rune_fold : Z -> Z -> bool;
  rune_print : Z -> bool;
}.

(** What the code relies on: among the runes fold-equivalent to a rune outside
    ASCII only the letters k and s are in ASCII (the Kelvin sign and the long s). *)
Class UnicodeLaws (U : Unicode) := {
  rune_fold_ascii (r c : Z) : 128 <= r -> 0 <= c < 128 ->
    rune_fold r c = true -> c ∈ [75; 83; 107; 115];
}.

(** An instance for the concrete runs: runes outside ASCII without case. *)
Definition caseless : Unicode := {|
  rune_lower r := r;
  rune_fold r c := r =? c;
  rune_print r := true;
|}.

Definition caseless_laws : UnicodeLaws caseless.
Proof. split. cbn. intros r c Hr Hc H%Z.eqb_eq. lia. Defined.

Definition RuneError : Z := 0xFFFD.

Definition cont (lo hi : Z) (a : ascii) : bool := (lo <=? az a) && (az a <=? hi).
Definition low6 (a : ascii) : Z := Z.land (az a) 0x3F.

(** [utf8.DecodeRuneInString]: the first rune and its width; an invalid sequence
    is [RuneError] of width 1. *)
Definition decode_rune (s : string) : Z * nat :=
  match s with
  | EmptyString => (RuneError, 0%nat)
  | String a s1 =>
    let b0 := az a in
    if b0 <? 0x80 then (b0, 1%nat) else
    if (0xC2 <=? b0) && (b0 <=? 0xDF) then
      match s1 with
      | String b _ => if cont 0x80 0xBF b then (Z.land b0 0x1F * 2 ^ 6 + low6 b, 2%nat) else (RuneError, 1%nat)
      | _ => (RuneError, 1%nat)
      end
    else if (0xE0 <=? b0) && (b0 <=? 0xEF) then
      match s1 with
      | String b (String c _) =>
        if cont (if b0 =? 0xE0 then 0xA0 else 0x80) (if b0 =? 0xED then 0x9F else 0xBF) b && cont 0x80 0xBF c
        then (Z.land b0 0x0F * 2 ^ 12 + low6 b * 2 ^ 6 + low6 c, 3%nat) else (RuneError, 1%nat)
      | _ => (RuneError, 1%nat)
      end
    else if (0xF0 <=? b0) && (b0 <=? 0xF4) then
      match s1 with
      | String b (String c (String d _)) =>
        if cont (if b0 =? 0xF0 then 0x90 else 0x80) (if b0 =? 0xF4 then 0x8F else 0xBF) b
           && cont 0x80 0xBF c && cont 0x80 0xBF d
        then (Z.land b0 0x07 * 2 ^ 18 + low6 b * 2 ^ 12 + low6 c * 2 ^ 6 + low6 d, 4%nat)
        else (RuneError, 1%nat)
      | _ => (RuneError, 1%nat)
      end
    else (RuneError, 1%nat)
  end.

(** [utf8.AppendRune]: surrogates and out-of-range runes encode as [RuneError]. *)
Definition encode_rune (r : Z) : string :=
  let r := if (r <? 0) || (0x10FFFF <? r) || ((0xD800 <=? r) && (r <=? 0xDFFF)) then RuneError else r in
  if r <? 0x80 then chr r
  else if r <? 0x800 then chr (0xC0 + r / 2 ^ 6) +:+ chr (0x80 + r mod 2 ^ 6)
  else if r <? 0x10000 then
    chr (0xE0 + r / 2 ^ 12) +:+ chr (0x80 + r / 2 ^ 6 mod 2 ^ 6) +:+ chr (0x80 + r mod 2 ^ 6)
  else chr (0xF0 + r / 2 ^ 18) +:+ chr (0x80 + r / 2 ^ 12 mod 2 ^ 6)
    +:+ chr (0x80 + r / 2 ^ 6 mod 2 ^ 6) +:+ chr (0x80 + r mod 2 ^ 6).

Fixpoint str_drop (n : nat) (s : string) : string :=
  match n, s with
  | O, _ => s
  | S n, String _ s => str_drop n s
  | S _, EmptyString => EmptyString
  end.

(** The runes of a string with their widths, as [for _, r := range s] visits
    them; a string has at most as many runes as bytes. *)
Fixpoint runes_fuel (fuel : nat) (s : string) : list (Z * nat) :=
  match fuel, s with
  | S fuel, String _ _ =>
    let '(r, w) := decode_rune s in (r, w) :: runes_fuel fuel (str_drop w s)
  | _, _ => []
  end.
Definition runes (s : string) : list (Z * nat) := runes_fuel (String.length s) s.

Definition concat_str (l : list string) : string := foldr String.append EmptyString l.

(** * Package strings *)
Section Strings.
Context `{U : Unicode}.

(** [unicode.ToLower]. *)
Definition rune_to_lower (r : Z) : Z :=
  if r <? 128 then (if (65 <=? r) && (r <=? 90) then r + 32 else r) else rune_lower r.

Definition ToLower (s : string) : string :=
  if str_forall is_ascii s then str_map lower_ascii s
  else concat_str (map (fun '(r, _) => encode_rune (rune_to_lower r)) (runes s)).

(** One step of the general case of [strings.EqualFold]. *)
Definition rune_equal_fold (sr tr : Z) : bool :=
  if sr =? tr then true else
  if (sr <? 128) && (tr <? 128) then rune_to_lower sr =? rune_to_lower tr
  else rune_fold (Z.max sr tr) (Z.min sr tr).

Fixpoint runes_equal_fold (l1 l2 : list (Z * nat)) : bool :=
  match l1, l2 with
  | [], [] => true
  | (a, _) :: l1, (b, _) :: l2 => rune_equal_fold a b && runes_equal_fold l1 l2
  | _, _ => false
  end.

(** [strings.EqualFold]: bytewise while both strings are ASCII, then by runes. *)
Fixpoint EqualFold (s t : string) : bool :=
  match s, t with
  | EmptyString, EmptyString => true
  | EmptyString, String _ _ | String _ _, EmptyString => false
  | String a s', String b t' =>
    if negb (is_ascii a && is_ascii b) then runes_equal_fold (runes s) (runes t)
    else if Ascii.eqb (lower_ascii a) (lower_ascii b) then EqualFold s' t' else false
  end.

Fixpoint HasPrefix (s p : string) {struct p} : bool :=
  match p, s with
  | EmptyString, _ => true
  | String a p, String b s => Ascii.eqb a b && HasPrefix s p
  | String _ _, EmptyString => false
  end.

Definition HasSuffix (s p : string) : bool := HasPrefix (str_rev s) (str_rev p).

Definition TrimPrefix (s p : string) : string :=
  if HasPrefix s p then str_drop (String.length p) s else s.

Fixpoint Contains (s sub : string) : bool :=
  HasPrefix s sub || match s with String _ s => Contains s sub | EmptyString => false end.

(** [strings.Split] for a one-byte separator. *)
Fixpoint Split (s : string) (sep : ascii) : list string :=
  match s with
  | EmptyString => [EmptyString]
  | String a s =>
    if Ascii.eqb a sep then EmptyString :: Split s sep
    else match Split s sep with
         | h :: t => String a h :: t
         | [] => [String a EmptyString]
         end
  end.

(** [strings.TrimLeft] and friends for a one-byte cut set. *)
Fixpoint TrimLeft (s : string) (c : ascii) : string :=
  match s with
  | String a s' => if Ascii.eqb a c then TrimLeft s' c else s
  | EmptyString => EmptyString
  end.
Definition TrimRight (s : string) (c : ascii) : string := str_rev (TrimLeft (str_rev s) c).
Definition Trim (s : string) (c : ascii) : string := TrimRight (TrimLeft s c) c.

(** [unicode.IsSpace]. *)
Definition is_space (r : Z) : bool :=
  bool_decide (r ∈ [9; 10; 11; 12; 13; 32; 0x85; 0xA0; 0x1680; 0x2028; 0x2029; 0x202F; 0x205F; 0x3000])
  || ((0x2000 <=? r) && (r <=? 0x200A)).

(** [strings.TrimSpace]: leading white-space runes are dropped, then trailing
    ones; [last_kept] is the length of the prefix that ends with the last rune
    that is not white space. *)
Fixpoint skip_spaces (l : list (Z * nat)) (s : string) : string :=
  match l with
  | (r, w) :: l => if is_space r then skip_spaces l (str_drop w s) else s
  | [] => s
  end.
Fixpoint last_kept (l : list (Z * nat)) (pos kept : nat) : nat :=
  match l with
  | (r, w) :: l => last_kept l (pos + w) (if is_space r then kept else pos + w)
  | [] => kept
  end.
Fixpoint str_take (n : nat) (s : string) : string :=
  match n, s with
  | S n, String a s => String a (str_take n s)
  | _, _ => EmptyString
  end.
Definition TrimSpace (s : string) : string :=
  let s := skip_spaces (runes s) s in str_take (last_kept (runes s) 0 0) s.

(** [s == ""]. *)
Definition is_empty (s : string) : bool := String.eqb s "".
Lemma is_empty_spec s : is_empty s = false <-> s <> "".
Proof. apply String.eqb_neq. Qed.

(** * Formatting *)

(** [%d]. *)
Definition dec (n : Z) : string := NilZero.string_of_int (Z.to_int n).

Definition hex_digit (d : Z) : ascii := za (if d <? 10 then 48 + d else 87 + d).
Fixpoint hex_fixed (n : nat) (z : Z) : string :=
  match n with
  | O => EmptyString
  | S n => hex_fixed n (z / 16) +:+ String (hex_digit (z mod 16)) EmptyString
  end.

(** [%q]: strconv.Quote. *)
Definition quote_rune (r : Z) (w : nat) (raw : ascii) : string :=
  if (r =? RuneError) && (w =? 1)%nat then ("\x" +:+ hex_fixed 2 (az raw))%string else
  if r =? 34 then String (za 92) (chr 34) else
  if r =? 92 then "\\"%string else
  if (if r <? 128 then (32 <=? r) && (r <? 127) else rune_print r) then encode_rune r else
  if r =? 7 then "\a"%string else if r =? 8 then "\b"%string else if r =? 12 then "\f"%string else
  if r =? 10 then "\n"%string else if r =? 13 then "\r"%string else if r =? 9 then "\t"%string else
  if r =? 11 then "\v"%string else
  if (r <? 32) || (r =? 127) then ("\x" +:+ hex_fixed 2 r)%string else
  if r <? 0x10000 then ("\u" +:+ hex_fixed 4 r)%string else ("\U" +:+ hex_fixed 8 r)%string.

Fixpoint quote_body (fuel : nat) (s : string) : string :=
  match fuel, s with
  | S fuel, String a _ =>
    let '(r, w) := decode_rune s in quote_rune r w a +:+ quote_body fuel (str_drop w s)
  | _, _ => EmptyString
  end.
Definition quote (s : string) : string := chr 34 +:+ quote_body (String.length s) s +:+ chr 34.
End Strings.

(** * Lemmas *)

Lemma az_range a : 0 <= az a < 256.
Proof. unfold az. pose proof (N_ascii_bounded a). lia. Qed.

Lemma za_az a : za (az a) = a.
Proof.
  unfold za. rewrite Z.mod_small by apply az_range. unfold az.
  by rewrite N2Z.id, ascii_N_embedding.
Qed.

Lemma az_za z : az (za z) = z mod 256.
Proof.
  unfold az, za. pose proof (Z.mod_pos_bound z 256 eq_refl).
  rewrite N_ascii_embedding; lia.
Qed.

Lemma az_inj a b : az a = az b -> a = b.
Proof. intros H. by rewrite <- (za_az a), H, za_az. Qed.

(** A property of all characters is decided by evaluating it on the 256 of them. *)
Lemma forall_ascii (P : ascii -> bool) :
  forallb (fun n => P (za (Z.of_nat n))) (seq 0 256) = true -> forall a, P a = true.
Proof.
  intros H a. rewrite forallb_forall in H. specialize (H (Z.to_nat (az a))).
  pose proof (az_range a). rewrite Z2Nat.id, za_az in H by lia.
  apply H, in_seq. lia.
Qed.

Lemma str_app_nil_r s : s +:+ EmptyString = s.
Proof. induction s as [|a s IH]; [done|]. simpl. by rewrite IH. Qed.

Lemma str_app_assoc s1 s2 s3 : s1 +:+ (s2 +:+ s3) = (s1 +:+ s2) +:+ s3.
Proof. induction s1 as [|a s IH]; [done|]. simpl. by rewrite IH. Qed.

Lemma length_str_app s1 s2 : String.length (s1 +:+ s2) = (String.length s1 + String.length s2)%nat.
Proof. induction s1 as [|a s IH]; [done|]. simpl. by rewrite IH. Qed.

Lemma str_app_inj_l s a b : s +:+ a = s +:+ b -> a = b.
Proof. induction s as [|c s IH]; [done|]. simpl. intros [=]. auto. Qed.

Lemma str_forall_app P s1 s2 : str_forall P (s1 +:+ s2) = str_forall P s1 && str_forall P s2.
Proof. induction s1 as [|a s IH]; [done|]. simpl. by rewrite IH, andb_assoc. Qed.

Lemma str_forall_impl (P Q : ascii -> bool) s :
  (forall a, P a = true -> Q a = true) -> str_forall P s = true -> str_forall Q s = true.
Proof.
  intros HPQ. induction s as [|a s IH]; [done|]. simpl. intros [Ha Hs]%andb_prop.
  by rewrite HPQ, IH.
Qed.

Lemma str_map_app f s1 s2 : str_map f (s1 +:+ s2) = str_map f s1 +:+ str_map f s2.
Proof. induction s1 as [|a s IH]; [done|]. simpl. by rewrite IH. Qed.

Lemma str_map_id f s : str_forall (fun a => Ascii.eqb (f a) a) s = true -> str_map f s = s.
Proof.
  induction s as [|a s IH]; [done|]. simpl. intros [Ha%Ascii.eqb_eq Hs]%andb_prop.
  by rewrite Ha, IH.
Qed.

Lemma str_forall_map P f s : str_forall P (str_map f s) = str_forall (fun a => P (f a)) s.
Proof. induction s as [|a s IH]; [done|]. simpl. by rewrite IH. Qed.

Lemma str_rev_app_spec s acc : str_rev_app s acc = str_rev s +:+ acc.
Proof.
  unfold str_rev. revert acc. induction s as [|a s IH]; intros acc; [done|].
  simpl. rewrite (IH (String a acc)), (IH (String a EmptyString)), <- str_app_assoc. done.
Qed.

Lemma str_rev_cons a s : str_rev (String a s) = str_rev s +:+ String a EmptyString.
Proof. unfold str_rev at 1. simpl. apply str_rev_app_spec. Qed.

Lemma str_rev_app_distr s1 s2 : str_rev (s1 +:+ s2) = str_rev s2 +:+ str_rev s1.
Proof.
  induction s1 as [|a s IH]; simpl; [by rewrite str_app_nil_r|].
  by rewrite !str_rev_cons, IH, str_app_assoc.
Qed.

Lemma str_rev_involutive s : str_rev (str_rev s) = s.
Proof.
  induction s as [|a s IH]; [done|]. by rewrite str_rev_cons, str_rev_app_distr, IH.
Qed.

(** ** Case folding *)

Lemma lower_ascii_idem a : lower_ascii (lower_ascii a) = lower_ascii a.
Proof.
  apply Ascii.eqb_eq. revert a. apply forall_ascii. by vm_compute.
Qed.

Lemma lower_ascii_ascii a : is_ascii a = true -> is_ascii (lower_ascii a) = true.
Proof.
  intros H. assert (implb (is_ascii a) (is_ascii (lower_ascii a)) = true) as E.
  { revert a H. intros a _. revert a. apply forall_ascii. by vm_compute. }
  by rewrite H in E.
Qed.

Section Folding.
Context `{U : Unicode}.

Lemma ToLower_ascii s : str_forall is_ascii s = true -> ToLower s = str_map lower_ascii s.
Proof. intros H. unfold ToLower. by rewrite H. Qed.

Lemma ToLower_is_ascii s : str_forall is_ascii s = true -> str_forall is_ascii (ToLower s) = true.
Proof.
  intros H. rewrite ToLower_ascii, str_forall_map by done.
  revert H. apply str_forall_impl. apply lower_ascii_ascii.
Qed.

Lemma str_map_lower_idem s : str_map lower_ascii (str_map lower_ascii s) = str_map lower_ascii s.
Proof. induction s as [|a s IH]; [done|]. simpl. by rewrite lower_ascii_idem, IH. Qed.

Lemma ToLower_idem s : str_forall is_ascii s = true -> ToLower (ToLower s) = ToLower s.
Proof.
  intros H. rewrite (ToLower_ascii (ToLower s)) by by apply ToLower_is_ascii.
  rewrite ToLower_ascii by done. apply str_map_lower_idem.
Qed.

Lemma ToLower_app s1 s2 :
  str_forall is_ascii s1 = true -> str_forall is_ascii s2 = true ->
  ToLower (s1 +:+ s2) = ToLower s1 +:+ ToLower s2.
Proof.
  intros H1 H2. rewrite !ToLower_ascii; [apply str_map_app|done|done|].
  by rewrite str_forall_app, H1, H2.
Qed.

(** Lower case ASCII text: the image of [ToLower] on ASCII. *)
Definition is_lower (a : ascii) : bool := is_ascii a && negb (upper_ascii_b a).

Lemma ToLower_lower s : str_forall is_lower s = true -> ToLower s = s.
Proof.
  intros H. rewrite ToLower_ascii.
  - apply str_map_id. revert H. apply str_forall_impl. intros a [_ Hu]%andb_prop.
    unfold lower_ascii. unfold upper_ascii_b in Hu.
    rewrite (proj1 (negb_true_iff _) Hu). apply Ascii.eqb_refl.
  - revert H. apply str_forall_impl. by intros a [? _]%andb_prop.
Qed.

Lemma runes_equal_fold_refl l : runes_equal_fold l l = true.
Proof.
  induction l as [|[r w] l IH]; [done|]. simpl. unfold rune_equal_fold. by rewrite Z.eqb_refl, IH.
Qed.

Lemma EqualFold_refl s : EqualFold s s = true.
Proof.
  induction s as [|a s IH]; [done|]. cbn -[runes].
  rewrite Ascii.eqb_refl, IH, runes_equal_fold_refl. by destruct (negb _).
Qed.

Lemma EqualFold_ascii s t :
  str_forall is_ascii s = true -> str_forall is_ascii t = true ->
  EqualFold s t = true <-> str_map lower_ascii s = str_map lower_ascii t.
Proof.
  revert t. induction s as [|a s IH]; intros [|b t]; cbn -[runes]; try done.
  intros [Ha Hs]%andb_prop [Hb Ht]%andb_prop. rewrite Ha, Hb. cbn [negb andb].
  destruct (Ascii.eqb_spec (lower_ascii a) (lower_ascii b)) as [E|E].
  - rewrite IH by done. rewrite E. split; [intros ->|intros [=]]; done.
  - split; [done|]. intros [=]. done.
Qed.

(** Hexadecimal digests in lower case. *)
Definition is_hex_lower (a : ascii) : bool :=
  ((48 <=? az a) && (az a <=? 57)) || ((97 <=? az a) && (az a <=? 102)).

Lemma is_hex_lower_fix a : is_hex_lower a = true -> lower_ascii a = a /\ is_ascii a = true.
Proof.
  assert (implb (is_hex_lower a) (Ascii.eqb (lower_ascii a) a && is_ascii a) = true) as E.
  { revert a. apply forall_ascii. by vm_compute. }
  intros H. rewrite H in E. apply andb_prop in E as [E%Ascii.eqb_eq ?]. done.
Qed.

Lemma decode_rune_nonascii a s : is_ascii a = false -> 128 <= (decode_rune (String a s)).1.
Proof.
  unfold is_ascii. intros Ha%Z.ltb_ge. cbn [decode_rune].
  assert (0 <= RuneError - 128) as HR by done.
  assert (forall b, 0 <= low6 b) as Hl.
  { intros b. apply Z.land_nonneg. by right. }
  assert (forall m, 0 <= m -> 0 <= Z.land (az a) m) as Hm.
  { intros m Hm. apply Z.land_nonneg. by right. }
  rewrite (proj2 (Z.ltb_ge _ _)) by lia.
  assert (forall lo hi b, cont lo hi b = true -> lo <= az b <= hi) as Hc.
  { intros lo hi b. unfold cont. lia. }
  assert (forall b, 0x80 <= az b <= 0xBF -> low6 b = az b - 0x80) as Hlow.
  { intros b Hb. unfold low6. change 0x3F with (Z.ones 6). rewrite Z.land_ones by lia.
    symmetry. apply (Z.mod_unique _ _ 2); lia. }
  destruct ((0xC2 <=? az a) && (az a <=? 0xDF)) eqn:E1.
  { destruct s as [|b s]; [cbn; lia|]. destruct (cont 0x80 0xBF b); cbn [fst]; [|lia].
    assert (Z.land (az a) 0x1F = az a - 0xC0) as ->; [|pose proof (Hl b); lia].
    change 0x1F with (Z.ones 5). rewrite Z.land_ones by lia.
    symmetry. apply (Z.mod_unique _ _ 6); lia. }
  destruct ((0xE0 <=? az a) && (az a <=? 0xEF)) eqn:E2.
  { destruct s as [|b [|c s]]; [cbn; lia..|].
    match goal with |- _ <= (if ?x then _ else _).1 => destruct x eqn:E end; cbn [fst]; [|lia].
    pose proof (Hl b); pose proof (Hl c).
    assert (Z.land (az a) 0x0F = az a - 0xE0) as ->.
    { change 0x0F with (Z.ones 4). rewrite Z.land_ones by lia. symmetry. apply (Z.mod_unique _ _ 14); lia. }
    destruct (decide (az a = 0xE0)) as [Hz|]; [|lia]. rewrite Hz in E. cbn [Z.eqb] in E.
    apply andb_prop in E as [E _]. apply Hc in E. rewrite (Hlow b) by (simpl in E; lia).
    simpl in E. lia. }
  destruct ((0xF0 <=? az a) && (az a <=? 0xF4)) eqn:E3; [|cbn; lia].
  destruct s as [|b [|c [|d s]]]; [cbn; lia..|].
  match goal with |- _ <= (if ?x then _ else _).1 => destruct x eqn:E end; cbn [fst]; [|lia].
  pose proof (Hl b); pose proof (Hl c); pose proof (Hl d).
  assert (Z.land (az a) 0x07 = az a - 0xF0) as ->.
  { change 0x07 with (Z.ones 3). rewrite Z.land_ones by lia. symmetry. apply (Z.mod_unique _ _ 30); lia. }
  destruct (decide (az a = 0xF0)) as [Hz|]; [|lia]. rewrite Hz in E. cbn [Z.eqb] in E.
  apply andb_prop in E as [[E _]%andb_prop _]. apply Hc in E. simpl in E.
  rewrite (Hlow b) by lia. lia.
Qed.

Lemma runes_cons a s :
  runes (String a s) = let '(r, w) := decode_rune (String a s) in
    (r, w) :: runes_fuel (String.length s) (str_drop w (String a s)).
Proof. done. Qed.

Lemma runes_equal_fold_hex `{!UnicodeLaws U} a s b t :
  is_hex_lower b = true -> is_ascii a = false ->
  runes_equal_fold (runes (String a s)) (runes (String b t)) = false.
Proof.
  intros Hb Ha. rewrite !runes_cons.
  pose proof (decode_rune_nonascii a s Ha) as Hr.
  destruct (decode_rune (String a s)) as [r w]. cbn [fst] in Hr.
  destruct (is_hex_lower_fix b Hb) as [_ Hb'].
  assert (decode_rune (String b t) = (az b, 1%nat)) as ->.
  { cbn [decode_rune]. unfold is_ascii in Hb'. by rewrite Hb'. }
  cbn [runes_equal_fold]. unfold is_ascii in Hb'. apply Z.ltb_lt in Hb'.
  assert (rune_equal_fold r (az b) = false) as ->; [|done].
  unfold rune_equal_fold. rewrite (proj2 (Z.eqb_neq _ _)) by lia.
  rewrite (proj2 (Z.ltb_ge r 128)) by lia. cbn [andb].
  pose proof (az_range b).
  assert (az b ∉ [75; 83; 107; 115]) as Hn.
  { unfold is_hex_lower in Hb. rewrite !elem_of_cons, elem_of_nil. lia. }
  rewrite Z.max_l, Z.min_r by lia. apply not_true_is_false. intros H'.
  apply Hn. by apply (rune_fold_ascii r); [lia|lia|].
Qed.
End Folding.

(** A lower-case hexadecimal string is fold-equal exactly to the strings whose
    ASCII lower case it is. *)
Lemma EqualFold_hex `{!UnicodeLaws U} s t :
  str_forall is_hex_lower t = true ->
  EqualFold s t = true <-> str_map lower_ascii s = t.
Proof.
  revert t. induction s as [|a s IH]; intros [|b t]; cbn -[runes]; try done.
  intros [Hb Ht]%andb_prop. destruct (is_hex_lower_fix b Hb) as [Eb Ab]. rewrite Ab, andb_true_r.
  destruct (is_ascii a) eqn:Ea; cbn [negb].
  - rewrite Eb. destruct (Ascii.eqb_spec (lower_ascii a) b) as [->|E].
    + rewrite IH by done. split; [by intros ->|by intros [=]].
    + split; [done|by intros [=]].
  - rewrite runes_equal_fold_hex by done. split; [done|]. intros [= E _].
    assert (implb (negb (is_ascii a)) (negb (is_ascii (lower_ascii a))) = true) as H.
    { revert a Ea E. intros a _ _. revert a. apply forall_ascii. by vm_compute. }
    rewrite Ea, E, Ab in H. done.
Qed.

(** ** Split and join *)

Fixpoint join (sep : string) (l : list string) : string :=
  match l with
  | [] => EmptyString
  | [s] => s
  | s :: l => s +:+ sep +:+ join sep l
  end.

Definition free_of (c : ascii) (s : string) : bool := str_forall (fun a => negb (Ascii.eqb a c)) s.

Lemma join_cons sep s l : l <> [] -> join sep (s :: l) = s +:+ sep +:+ join sep l.
Proof. by destruct l. Qed.

Lemma Split_nonempty s c : Split s c <> [].
Proof. destruct s as [|a s]; cbn; [done|]. by destruct (Ascii.eqb a c), (Split s c). Qed.

Lemma join_Split s c : join (String c EmptyString) (Split s c) = s.
Proof.
  induction s as [|a s IH]; [done|]. cbn [Split].
  destruct (Ascii.eqb_spec a c) as [->|Hne].
  - rewrite join_cons, IH by apply Split_nonempty. done.
  - pose proof (Split_nonempty s c). destruct (Split s c) as [|h t]; [done|].
    destruct t as [|h' t]; simpl in IH |- *; by rewrite <- IH.
Qed.

Lemma Split_free s c : Forall (fun p => free_of c p = true) (Split s c).
Proof.
  induction s as [|a s IH]; cbn [Split]; [by constructor|].
  destruct (Ascii.eqb_spec a c) as [->|Hne]; [by constructor|].
  destruct (Split s c) as [|h t].
  - constructor; [|done]. cbn. by rewrite (proj2 (Ascii.eqb_neq _ _) Hne).
  - inversion IH as [|? ? Hh Ht]; subst. constructor; [|done].
    cbn. rewrite (proj2 (Ascii.eqb_neq _ _) Hne). done.
Qed.

Lemma Split_free_one p c : free_of c p = true -> Split p c = [p].
Proof.
  induction p as [|a p IH]; [done|]. cbn. intros [Ha Hp]%andb_prop.
  rewrite (proj1 (negb_true_iff _) Ha), IH; done.
Qed.

Lemma Split_app p c s : free_of c p = true -> Split (p +:+ String c s) c = p :: Split s c.
Proof.
  induction p as [|a p IH]; cbn.
  - by rewrite Ascii.eqb_refl.
  - intros [Ha Hp]%andb_prop. rewrite (proj1 (negb_true_iff _) Ha), IH; done.
Qed.

Lemma Split_join c l :
  l <> [] -> Forall (fun p => free_of c p = true) l ->
  Split (join (String c EmptyString) l) c = l.
Proof.
  intros Hne H. induction H as [|p l Hp Hl IH]; [done|].
  destruct l as [|q l]; [by apply Split_free_one|].
  rewrite join_cons by done. change (String c EmptyString +:+ ?x) with (String c x).
  rewrite Split_app by done. by rewrite IH.
Qed.

(** ** Trimming *)

Definition first_is (c : ascii) (s : string) : bool :=
  match s with String a _ => Ascii.eqb a c | EmptyString => false end.
Definition last_is (c : ascii) (s : string) : bool := first_is c (str_rev s).

Lemma TrimLeft_id s c : first_is c s = false -> TrimLeft s c = s.
Proof. destruct s as [|a s]; [done|]. cbn. by intros ->. Qed.

Lemma Trim_id s c : first_is c s = false -> last_is c s = false -> Trim s c = s.
Proof.
  intros Hf Hl. unfold Trim, TrimRight. rewrite (TrimLeft_id s) by done.
  rewrite TrimLeft_id by done. apply str_rev_involutive.
Qed.

Lemma str_forall_rev P s : str_forall P (str_rev s) = str_forall P s.
Proof.
  induction s as [|a s IH]; [done|]. rewrite str_rev_cons, str_forall_app, IH. cbn.
  by rewrite andb_true_r, andb_comm.
Qed.

Lemma TrimLeft_forall P s c : str_forall P s = true -> str_forall P (TrimLeft s c) = true.
Proof.
  induction s as [|a s IH]; [done|]. cbn. intros [Ha Hs]%andb_prop.
  destruct (Ascii.eqb a c); [auto|]. cbn. by rewrite Ha, Hs.
Qed.

Lemma Trim_forall P s c : str_forall P s = true -> str_forall P (Trim s c) = true.
Proof.
  intros H. unfold Trim, TrimRight. rewrite str_forall_rev.
  apply TrimLeft_forall. rewrite str_forall_rev. by apply TrimLeft_forall.
Qed.

Lemma free_of_app c s1 s2 : free_of c (s1 +:+ s2) = free_of c s1 && free_of c s2.
Proof. apply str_forall_app. Qed.

Lemma free_of_rev c s : free_of c (str_rev s) = free_of c s.
Proof. apply str_forall_rev. Qed.

Lemma last_is_app c s1 s2 : s2 <> EmptyString -> last_is c (s1 +:+ s2) = last_is c s2.
Proof.
  intros H. unfold last_is. rewrite str_rev_app_distr.
  destruct (str_rev s2) as [|a r] eqn:E; [|done].
  apply (f_equal str_rev) in E. rewrite str_rev_involutive in E. done.
Qed.

Lemma free_first c s : free_of c s = true -> first_is c s = false.
Proof. destruct s as [|a s]; [done|]. cbn. by intros [->%negb_true_iff _]%andb_prop. Qed.

Lemma free_last c s : free_of c s = true -> last_is c s = false.
Proof. intros H. apply free_first. by rewrite free_of_rev. Qed.

(** The ASCII lower-case map only produces a separator that is not a letter from
    itself. *)
Lemma lower_ascii_slash a : Ascii.eqb (lower_ascii a) "/" = Ascii.eqb a "/".
Proof.
  apply Bool.eqb_prop. revert a. apply forall_ascii. by vm_compute.
Qed.

Lemma free_slash_lower s : free_of "/" (str_map lower_ascii s) = free_of "/" s.
Proof.
  induction s as [|a s IH]; [done|]. cbn. unfold free_of in IH.
  by rewrite lower_ascii_slash, IH.
Qed.

(** ** Prefixes *)

Lemma HasPrefix_spec s p : HasPrefix s p = true <-> exists r, s = p +:+ r.
Proof.
  revert s. induction p as [|a p IH]; intros s; cbn.
  - split; [by exists s|done].
  - destruct s as [|b s]; [split; [done|]; by intros [r [=]]|].
    rewrite andb_true_iff, Ascii.eqb_eq, IH. split.
    + intros [<- [r ->]]. by exists r.
    + intros [r [= -> ->]]. split; [done|by exists r].
Qed.

Lemma HasPrefix_app p r : HasPrefix (p +:+ r) p = true.
Proof. apply HasPrefix_spec. by exists r. Qed.

Lemma HasSuffix_spec s p : HasSuffix s p = true <-> exists r, s = r +:+ p.
Proof.
  unfold HasSuffix. rewrite HasPrefix_spec. split; intros [r H].
  - exists (str_rev r). apply (f_equal str_rev) in H.
    by rewrite str_rev_app_distr, !str_rev_involutive in H.
  - exists (str_rev r). by rewrite H, str_rev_app_distr.
Qed.

Lemma str_drop_app p r : str_drop (String.length p) (p +:+ r) = r.
Proof. by induction p. Qed.

Lemma TrimPrefix_app p r : TrimPrefix (p +:+ r) p = r.
Proof. unfold TrimPrefix. by rewrite HasPrefix_app, str_drop_app. Qed.

Lemma Contains_app s1 sub s2 : Contains (s1 +:+ sub +:+ s2) sub = true.
Proof.
  induction s1 as [|a s IH]; cbn.
  - destruct (sub +:+ s2) as [|x y] eqn:E; cbn [Contains]; rewrite <- ?E, HasPrefix_app; done.
  - by rewrite IH, orb_true_r.
Qed.

Lemma Contains_spec s sub : Contains s sub = true <-> exists a b, s = a +:+ sub +:+ b.
Proof.
  split.
  - induction s as [|x s IH]; cbn [Contains]; intros [H|H]%orb_prop.
    + apply HasPrefix_spec in H as [r H]. by exists EmptyString, r.
    + done.
    + apply HasPrefix_spec in H as [r H]. by exists EmptyString, r.
    + destruct (IH H) as (a & b & ->). by exists (String x a), b.
  - intros (a & b & ->). apply Contains_app.
Qed.
