(* ===== verification/Utf8.v ===== *)
(** UTF-8: which byte sequences are the encodings of runes, that decoding and
    encoding are inverse on them, and texts without invalid bytes. *)
From Stdlib Require Import Strings.Ascii Strings.String.
From S2P Require Import Prelude GoString.

Local Open Scope Z_scope.

(** * Encoded runes *)
Definition in_cont (a : ascii) : Prop := 0x80 <= az a <= 0xBF.

Inductive encoded : Z -> string -> Prop :=
| encoded1 a : az a < 0x80 -> encoded (az a) (String a "")
| encoded2 a b : 0xC2 <= az a <= 0xDF -> in_cont b ->
    encoded ((az a - 0xC0) * 64 + (az b - 0x80)) (String a (String b ""))
| encoded3 a b c : 0xE0 <= az a <= 0xEF -> in_cont b -> in_cont c ->
    (az a = 0xE0 -> 0xA0 <= az b) -> (az a = 0xED -> az b <= 0x9F) ->
    encoded ((az a - 0xE0) * 4096 + (az b - 0x80) * 64 + (az c - 0x80)) (String a (String b (String c "")))
| encoded4 a b c d : 0xF0 <= az a <= 0xF4 -> in_cont b -> in_cont c -> in_cont d ->
    (az a = 0xF0 -> 0x90 <= az b) -> (az a = 0xF4 -> az b <= 0x8F) ->
    encoded ((az a - 0xF0) * 262144 + (az b - 0x80) * 4096 + (az c - 0x80) * 64 + (az d - 0x80))
      (String a (String b (String c (String d "")))).

Lemma encoded_nonempty r e : encoded r e -> e <> ""%string.
Proof. by destruct 1. Qed.

Lemma encoded_cases r e : encoded r e -> e = chr r /\ 0 <= r < 128 \/ 128 <= r.
Proof.
  destruct 1 as [a H| | |]; unfold in_cont in *; [|right; lia..]. left. pose proof (az_range a).
  split; [unfold chr; by rewrite za_az|lia].
Qed.

Lemma chr_az a z : z = az a -> chr z = String a "".
Proof. intros ->. unfold chr. by rewrite za_az. Qed.

Lemma encode_encoded r e : encoded r e -> encode_rune r = e.
Proof.
  intros H. unfold encode_rune.
  change (2 ^ 6) with 64. change (2 ^ 12) with 4096. change (2 ^ 18) with 262144.
  destruct H as [a H|a b Ha Hb|a b c Ha Hb Hc H1 H2|a b c d Ha Hb Hc Hd H1 H2]; unfold in_cont in *.
  - pose proof (az_range a).
    replace ((az a <? 0) || (0x10FFFF <? az a) || ((0xD800 <=? az a) && (az a <=? 0xDFFF))) with false by lia.
    replace (az a <? 0x80) with true by lia. by apply chr_az.
  - set (r := _ + _). assert (0x80 <= r < 0x800) by lia.
    replace ((r <? 0) || (0x10FFFF <? r) || ((0xD800 <=? r) && (r <=? 0xDFFF))) with false by lia.
    replace (r <? 0x80) with false by lia. replace (r <? 0x800) with true by lia.
    rewrite (chr_az a), (chr_az b); [done|unfold r..]; Z.to_euclidean_division_equations; lia.
  - set (r := _ + _). assert (0x800 <= r < 0x10000 /\ ~ (0xD800 <= r <= 0xDFFF)) as [? ?] by (unfold r; lia).
    replace ((r <? 0) || (0x10FFFF <? r) || ((0xD800 <=? r) && (r <=? 0xDFFF))) with false by lia.
    replace (r <? 0x80) with false by lia. replace (r <? 0x800) with false by lia.
    replace (r <? 0x10000) with true by lia.
    rewrite (chr_az a), (chr_az b), (chr_az c); [done|unfold r..]; Z.to_euclidean_division_equations; lia.
  - set (r := _ + _). assert (0x10000 <= r <= 0x10FFFF) by (unfold r; lia).
    replace ((r <? 0) || (0x10FFFF <? r) || ((0xD800 <=? r) && (r <=? 0xDFFF))) with false by lia.
    replace (r <? 0x80) with false by lia. replace (r <? 0x800) with false by lia.
    replace (r <? 0x10000) with false by lia.
    rewrite (chr_az a), (chr_az b), (chr_az c), (chr_az d); [done|unfold r..]; Z.to_euclidean_division_equations; lia.
Qed.

(** The masks of the decoder subtract the tag bits. *)
Lemma low6_cont a : in_cont a -> low6 a = az a - 0x80.
Proof.
  unfold in_cont, low6. intros Ha. change 0x3F with (Z.ones 6). rewrite Z.land_ones by lia.
  symmetry. apply (Z.mod_unique _ _ 2); lia.
Qed.
Lemma land_tag x mask n tag :
  mask = Z.ones n -> 0 <= n -> tag mod 2 ^ n = 0 -> tag <= x < tag + 2 ^ n -> Z.land x mask = x - tag.
Proof.
  intros -> Hn Ht Hx. rewrite Z.land_ones by done. symmetry. apply (Z.mod_unique _ _ (tag / 2 ^ n)); [lia|].
  pose proof (Z_div_mod_eq_full tag (2 ^ n)). lia.
Qed.

Lemma decode_encoded r e rest : encoded r e -> decode_rune (e +:+ rest) = (r, String.length e).
Proof.
  intros H. destruct H as [a H|a b Ha Hb|a b c Ha Hb Hc H1 H2|a b c d Ha Hb Hc Hd H1 H2];
    cbn [String.append decode_rune String.length].
  - by replace (az a <? 0x80) with true by lia.
  - rewrite (low6_cont b) by done. unfold in_cont, cont in *.
    rewrite (land_tag (az a) 0x1F 5 0xC0) by (done || lia).
    replace (az a <? 0x80) with false by lia. by repeat match goal with |- context [(?x && ?y)%bool] =>
      replace (x && y)%bool with true by lia end.
  - rewrite (low6_cont b), (low6_cont c) by done. unfold in_cont, cont in *.
    rewrite (land_tag (az a) 0x0F 4 0xE0) by (done || lia).
    replace (az a <? 0x80) with false by lia. replace ((0xC2 <=? az a) && (az a <=? 0xDF)) with false by lia.
    replace ((0xE0 <=? az a) && (az a <=? 0xEF)) with true by lia.
    destruct (az a =? 0xE0) eqn:?, (az a =? 0xED) eqn:?;
      match goal with |- context [if ?x then _ else (RuneError, _)] => replace x with true by lia end; done.
  - rewrite (low6_cont b), (low6_cont c), (low6_cont d) by done. unfold in_cont, cont in *.
    rewrite (land_tag (az a) 0x07 3 0xF0) by (done || lia).
    replace (az a <? 0x80) with false by lia. replace ((0xC2 <=? az a) && (az a <=? 0xDF)) with false by lia.
    replace ((0xE0 <=? az a) && (az a <=? 0xEF)) with false by lia.
    replace ((0xF0 <=? az a) && (az a <=? 0xF4)) with true by lia.
    destruct (az a =? 0xF0) eqn:?, (az a =? 0xF4) eqn:?;
      match goal with |- context [if ?x then _ else (RuneError, _)] => replace x with true by lia end; done.
Qed.

(** What the decoder finds is an invalid byte or an encoded rune. *)
Lemma decode_rune_inv a s :
  decode_rune (String a s) = (RuneError, 1%nat) \/
  exists r e rest, encoded r e /\ String a s = e +:+ rest.
Proof.
  cbn [decode_rune]. destruct (az a <? 0x80) eqn:E0.
  { right. exists (az a), (String a ""), s. split; [constructor; lia|done]. }
  destruct ((0xC2 <=? az a) && (az a <=? 0xDF)) eqn:E1.
  { destruct s as [|b s]; [by left|]. destruct (cont 0x80 0xBF b) eqn:Eb; [|by left]. right.
    eexists _, (String a (String b "")), s. split; [|done]. unfold cont in Eb. apply encoded2; unfold in_cont; lia. }
  destruct ((0xE0 <=? az a) && (az a <=? 0xEF)) eqn:E2.
  { destruct s as [|b [|c s]]; [by left..|].
    match goal with |- (if ?x then _ else _) = _ \/ _ => destruct x eqn:E end; [|by left]. right.
    eexists _, (String a (String b (String c ""))), s. split; [|done]. unfold cont in E.
    destruct (az a =? 0xE0) eqn:?, (az a =? 0xED) eqn:?; apply encoded3; unfold in_cont; lia. }
  destruct ((0xF0 <=? az a) && (az a <=? 0xF4)) eqn:E3; [|by left].
  destruct s as [|b [|c [|d s]]]; [by left..|].
  match goal with |- (if ?x then _ else _) = _ \/ _ => destruct x eqn:E end; [|by left]. right.
  eexists _, (String a (String b (String c (String d "")))), s. split; [|done]. unfold cont in E.
  destruct (az a =? 0xF0) eqn:?, (az a =? 0xF4) eqn:?; apply encoded4; unfold in_cont; lia.
Qed.

(** * Texts *)

(** The runes of a string, its invalid bytes marked. *)
Definition rune_ok (x : Z * nat) : Prop := x = (RuneError, 1%nat) \/ exists e, encoded x.1 e /\ x.2 = String.length e.

Lemma runes_fuel_ok n s : Forall rune_ok (runes_fuel n s).
Proof.
  revert s. induction n as [|n IH]; intros [|a s]; [constructor..|].
  cbn [runes_fuel]. destruct (decode_rune_inv a s) as [->|(r & e & rest & He & Hs)].
  - constructor; [by left|apply IH].
  - rewrite Hs, (decode_encoded _ _ _ He). constructor; [right; by exists e|apply IH].
Qed.

Lemma runes_ok s : Forall rune_ok (runes s).
Proof. apply runes_fuel_ok. Qed.

(** What a reader makes of a text: invalid bytes become U+FFFD. *)
Definition to_valid (s : string) : string := concat_str (map (fun x => encode_rune x.1) (runes s)).
Definition invalid_byte (x : Z * nat) : bool := bool_decide (x = (RuneError, 1%nat)).
Definition valid_utf8 (s : string) : bool := forallb (fun x => negb (invalid_byte x)) (runes s).

(** The same, as sequences of encoded runes. *)
Inductive is_text : string -> Prop :=
| text_nil : is_text ""
| text_cons r e s : encoded r e -> is_text s -> is_text (e +:+ s).

Lemma length_encoded r e : encoded r e -> (1 <= String.length e)%nat.
Proof. destruct 1; cbn; lia. Qed.

Lemma encoded_not_invalid r e : encoded r e -> invalid_byte (r, String.length e) = false.
Proof.
  intros He. unfold invalid_byte. apply bool_decide_eq_false. intros [= -> Hl].
  apply encode_encoded in He. subst e. vm_compute in Hl. done.
Qed.

Lemma runes_fuel_text n s :
  (String.length s <= n)%nat -> forallb (fun x => negb (invalid_byte x)) (runes_fuel n s) = true -> is_text s.
Proof.
  revert s. induction n as [|n IH]; intros [|a s] Hn; [constructor|cbn in Hn; lia|constructor|]. cbn [runes_fuel].
  destruct (decode_rune_inv a s) as [->|(r & e & rest & He & Hs)]; [done|].
  rewrite Hs, (decode_encoded _ _ _ He), str_drop_app. cbn [forallb]. intros [_ H]%andb_prop.
  apply (text_cons r); [done|]. apply IH; [|done]. pose proof (length_encoded _ _ He).
  apply (f_equal String.length) in Hs. rewrite length_str_app in Hs. cbn in Hs, Hn. lia.
Qed.

Lemma text_runes s n :
  is_text s -> (String.length s <= n)%nat ->
  forallb (fun x => negb (invalid_byte x)) (runes_fuel n s) = true /\
  concat_str (map (fun x => encode_rune x.1) (runes_fuel n s)) = s.
Proof.
  intros H. revert n. induction H as [|r e s He _ IH]; intros n Hn; [by destruct n|].
  pose proof (length_encoded _ _ He). rewrite length_str_app in Hn. destruct n as [|n]; [lia|].
  pose proof (decode_encoded _ _ s He) as Hd. destruct e as [|a e]; [by apply encoded_nonempty in He|].
  cbn [runes_fuel String.append] in *. rewrite Hd. change (String a (e +:+ s)) with (String a e +:+ s).
  rewrite str_drop_app. destruct (IH n) as [H1 H2]; [cbn in Hn; lia|]. split.
  - cbn [forallb]. by rewrite (encoded_not_invalid _ _ He), H1.
  - cbn [map concat_str foldr fst]. unfold concat_str in H2. by rewrite H2, (encode_encoded _ _ He).
Qed.

Lemma valid_utf8_text s : valid_utf8 s = true <-> is_text s.
Proof. split; [by apply runes_fuel_text|]. intros H. by apply text_runes. Qed.

Lemma to_valid_id s : valid_utf8 s = true -> to_valid s = s.
Proof. intros H%valid_utf8_text. by apply text_runes. Qed.

Lemma valid_utf8_app s t : valid_utf8 s = true -> valid_utf8 t = true -> valid_utf8 (s +:+ t) = true.
Proof.
  rewrite !valid_utf8_text. intros Hs Ht. induction Hs as [|r e s He _ IH]; [done|].
  rewrite <- str_app_assoc. by apply (text_cons r).
Qed.

Lemma valid_utf8_ascii s : str_forall is_ascii s = true -> valid_utf8 s = true.
Proof.
  intros H. apply valid_utf8_text. induction s as [|a s IH]; [constructor|].
  cbn [str_forall] in H. apply andb_prop in H as [Ha Hs]. unfold is_ascii in Ha.
  apply (text_cons (az a) (String a "")); [constructor; lia|by apply IH].
Qed.

Example mixed_texts :
  (valid_utf8 "alpha", valid_utf8 (chr 195 +:+ chr 169), valid_utf8 (chr 195), to_valid (chr 0xED +:+ chr 0xA0)) =
  (true, true, false, encode_rune RuneError +:+ encode_rune RuneError).
Proof. by vm_compute. Qed.
