(* ===== verification/Topic.v ===== *)
(** pkg/zenohutil/topic.go: the structured key expressions
    [sec/<tier>/<vehicle_type>/<team>/<unit_id>/<stream_type>] of the mesh. *)
From Stdlib Require Import Strings.Ascii Strings.String.
From S2P Require Import Prelude GoString.

Local Open Scope string_scope.

(** Classification constants of pkg/schema, on which the tables are keyed. *)
Definition Tier1Public : string := "TIER-1: PUBLIC".
Definition Tier2Restricted : string := "TIER-2: RESTRICTED".
Definition Tier3Critical : string := "TIER-3: CRITICAL".

Record TopicInfo := mkTopicInfo {
  TierKey : string;
  TopicVehicleType : string;
  TopicTeam : string;
  UnitID : string;
  StreamType : string;
}.

Definition TierToKey : gmap string string :=
  list_to_map [(Tier1Public, "tier1"); (Tier2Restricted, "tier2"); (Tier3Critical, "tier3")].

Definition KeyToTier : gmap string string :=
  list_to_map [("tier1", Tier1Public); ("tier2", Tier2Restricted); ("tier3", Tier3Critical)].

Definition slash : ascii := "/"%char.

Section Topic.
Context `{U : Unicode}.

Definition BuildKey (tierKey vehicleType team unitID streamType : string) : string :=
  "sec/" +:+ ToLower tierKey +:+ "/" +:+ ToLower vehicleType +:+ "/" +:+ ToLower team
  +:+ "/" +:+ ToLower unitID +:+ "/" +:+ ToLower streamType.

Definition BuildTelemetryKey (classification vehicleType team unitID : string)
  : result string string :=
  match TierToKey !! classification with
  | None => Err ("unknown classification for topic generation: " +:+ classification)
  | Some tierKey => Ok (BuildKey tierKey vehicleType team unitID "telemetry")
  end.

Definition ParseKey (key : string) : result string TopicInfo :=
  match Split (Trim key slash) slash with
  | [p0; p1; p2; p3; p4; p5] =>
    if negb (String.eqb p0 "sec") then
      Err ("invalid topic key format " +:+ quote key
           +:+ ": expected sec/<tier>/<vehicle_type>/<team>/<unit_id>/<stream_type>")
    else Ok (mkTopicInfo p1 p2 p3 p4 p5)
  | _ =>
    Err ("invalid topic key format " +:+ quote key
         +:+ ": expected sec/<tier>/<vehicle_type>/<team>/<unit_id>/<stream_type>")
  end.

(** * Properties *)

(** A component of a key: ASCII text without a separator. *)
Definition key_part (s : string) : bool := str_forall is_ascii s && free_of slash s.

Lemma key_part_lower s :
  key_part s = true -> ToLower s = str_map lower_ascii s /\ free_of slash (ToLower s) = true.
Proof.
  intros [Ha Hf]%andb_prop. rewrite ToLower_ascii by done.
  split; [done|]. unfold slash. by rewrite free_slash_lower.
Qed.

(** The key is the join of its components. *)
Lemma BuildKey_join t v te u s :
  BuildKey t v te u s =
    join "/" ["sec"; ToLower t; ToLower v; ToLower te; ToLower u; ToLower s].
Proof. done. Qed.

Lemma join_snoc_last sep l p : l <> [] -> exists r, join sep (l ++ [p])%list = r +:+ sep +:+ p.
Proof.
  intros Hl. induction l as [|a l IH]; [done|]. destruct l as [|b l].
  - by exists a.
  - destruct IH as [r Hr]; [done|]. exists (a +:+ sep +:+ r).
    change ((a :: b :: l) ++ [p])%list with (a :: ((b :: l) ++ [p]))%list.
    rewrite join_cons by done. rewrite Hr, <- !str_app_assoc. done.
Qed.

Lemma BuildKey_untrimmed t v te u s :
  key_part s = true -> s <> "" -> Trim (BuildKey t v te u s) slash = BuildKey t v te u s.
Proof.
  intros Hs Hne. apply Trim_id; [done|].
  rewrite BuildKey_join.
  destruct (join_snoc_last "/" ["sec"; ToLower t; ToLower v; ToLower te; ToLower u] (ToLower s))
    as [r Hr]; [done|]. cbn [app] in Hr. rewrite Hr.
  destruct (key_part_lower s Hs) as [El Ef].
  assert (ToLower s <> "") by (rewrite El; by destruct s).
  rewrite last_is_app by (by destruct (ToLower s)).
  change ("/" +:+ ToLower s) with (String slash "" +:+ ToLower s).
  rewrite last_is_app by done. by apply free_last.
Qed.

Lemma parse_built_key t v te u s :
  Forall (fun p => key_part p = true) [t; v; te; u; s] -> s <> "" ->
  ParseKey (BuildKey t v te u s) =
    Ok (mkTopicInfo (ToLower t) (ToLower v) (ToLower te) (ToLower u) (ToLower s)).
Proof.
  intros H Hne. rewrite !Forall_cons in H. destruct H as (Ht & Hv & Hte & Hu & Hs & _).
  unfold ParseKey. rewrite BuildKey_untrimmed by done. rewrite BuildKey_join.
  unfold slash. rewrite Split_join; [done|done|].
  repeat constructor; by apply key_part_lower.
Qed.

(** C38. Parsing a built key gives back its components in lower case: for ASCII
    components without a separator and a non-empty stream type, [ParseKey] is the
    inverse of [BuildKey] up to case. *)
Theorem ParseKey_BuildKey t v te u s :
  Forall (fun p => key_part p = true) [t; v; te; u; s] -> s <> "" ->
  ParseKey (BuildKey t v te u s) =
    Ok (mkTopicInfo (ToLower t) (ToLower v) (ToLower te) (ToLower u) (ToLower s)).
Proof. apply parse_built_key. Qed.

(** Rebuilding a parsed key: an accepted ASCII key, without its surrounding
    separators and in lower case, is the key built from its parsed components;
    so parsing loses nothing but case. *)
Theorem BuildKey_ParseKey key i :
  str_forall is_ascii key = true -> ParseKey key = Ok i ->
  BuildKey (TierKey i) (TopicVehicleType i) (TopicTeam i) (UnitID i) (StreamType i) =
    ToLower (Trim key slash).
Proof.
  intros Ha H. unfold ParseKey in H.
  pose proof (join_Split (Trim key slash) slash) as J.
  assert (str_forall is_ascii (Trim key slash) = true) as Ha' by by apply Trim_forall.
  destruct (Split (Trim key slash) slash) as [|p0 [|p1 [|p2 [|p3 [|p4 [|p5 [|? ?]]]]]]]; try done.
  destruct (String.eqb_spec p0 "sec") as [->|]; [|done]. injection H as <-. cbn [TierKey
    TopicVehicleType TopicTeam UnitID StreamType].
  rewrite <- J. rewrite <- J in Ha'. cbn [join] in *.
  rewrite !str_forall_app, !andb_true_iff in Ha'.
  destruct Ha' as (_ & _ & H1 & _ & H2 & _ & H3 & _ & H4 & _ & H5).
  rewrite !ToLower_app by (rewrite ?str_forall_app, ?H1, ?H2, ?H3, ?H4, ?H5; done).
  done.
Qed.

(** A telemetry key carries its classification: it is built exactly for the
    three tiers, and its parsed tier token maps back to the classification it was
    built from, with stream type [telemetry]. *)
Theorem BuildTelemetryKey_classification c v te u :
  Forall (fun p => key_part p = true) [v; te; u] ->
  match BuildTelemetryKey c v te u with
  | Ok key => exists i, ParseKey key = Ok i /\ KeyToTier !! TierKey i = Some c /\
      StreamType i = "telemetry" /\ UnitID i = ToLower u
  | Err _ => c ∉ [Tier1Public; Tier2Restricted; Tier3Critical]
  end.
Proof.
  intros H. rewrite !Forall_cons in H. destruct H as (Hv & Ht & Hu & _).
  unfold BuildTelemetryKey. destruct (TierToKey !! c) as [k|] eqn:E.
  - assert (ToLower k = k /\ key_part k = true /\ KeyToTier !! k = Some c) as (El & Hk & Hc).
    { apply elem_of_list_to_map_2 in E. rewrite !elem_of_cons, elem_of_nil in E.
      by destruct E as [[= -> ->]|[[= -> ->]|[[= -> ->]|[]]]]. }
    exists (mkTopicInfo k (ToLower v) (ToLower te) (ToLower u) "telemetry").
    rewrite parse_built_key by (by repeat constructor). by rewrite El.
  - rewrite !elem_of_cons, elem_of_nil. intros Hin.
    by destruct Hin as [->|[->|[->|[]]]].
Qed.
End Topic.

Lemma ParseKey_BuildKey_witness :
  @ParseKey caseless (@BuildKey caseless "TIER2" "drone" "blue" "Blue-Alpha" "telemetry") =
    Ok (mkTopicInfo "tier2" "drone" "blue" "blue-alpha" "telemetry").
Proof.
  apply (@ParseKey_BuildKey caseless "TIER2" "drone" "blue" "Blue-Alpha" "telemetry");
    [by repeat constructor|done].
Defined.

Lemma BuildKey_ParseKey_witness :
  @BuildKey caseless "tier2" "Drone" "blue" "bravo" "status" =
    @ToLower caseless (Trim "/sec/tier2/Drone/blue/bravo/status/" slash).
Proof.
  apply (@BuildKey_ParseKey caseless "/sec/tier2/Drone/blue/bravo/status/"
    (mkTopicInfo "tier2" "Drone" "blue" "bravo" "status")); by vm_compute.
Defined.

Lemma BuildTelemetryKey_classification_witness :
  match @BuildTelemetryKey caseless Tier3Critical "usv" "red" "r1" with
  | Ok key => exists i, @ParseKey caseless key = Ok i /\ KeyToTier !! TierKey i = Some Tier3Critical /\
      StreamType i = "telemetry" /\ UnitID i = @ToLower caseless "r1"
  | Err _ => Tier3Critical ∉ [Tier1Public; Tier2Restricted; Tier3Critical]
  end.
Proof.
  apply (@BuildTelemetryKey_classification caseless Tier3Critical "usv" "red" "r1").
  by repeat constructor.
Defined.
