(* ===== verification/Serial.v ===== *)
(** pkg/mavlink/serial.go, serial_linux.go and serial_darwin.go: opening a serial
    port, and the terminal settings that are applied to it on each platform. *)
From Stdlib Require Import Strings.String.
From S2P Require Import Prelude GoString.

Local Open Scope string_scope.
Local Open Scope Z_scope.
Local Open Scope go_scope.

(** * Terminal settings

    [syscall.Termios]: flag words and speeds are unsigned integers of the width of
    the platform, [Cc] is the array of control characters. *)
Record Termios := mkTermios {
  Iflag : Z; Oflag : Z; Cflag : Z; Lflag : Z; Cc : list Z; Ispeed : Z; Ospeed : Z }.

(** [x &^= clear; x |= set]. *)
Definition update_flags (clear set x : Z) : Z := Z.lor (Z.ldiff x clear) set.

(** The constants of package [syscall] that the configuration uses. *)
Record flag_set := mkFlags {
  ECHO : Z; ECHONL : Z; ICANON : Z; ISIG : Z; IEXTEN : Z;
  IGNBRK : Z; BRKINT : Z; PARMRK : Z; ISTRIP : Z; INLCR : Z; IGNCR : Z; ICRNL : Z; IXON : Z;
  OPOST : Z; CSIZE : Z; PARENB : Z; CSTOPB : Z; CS8 : Z; CREAD : Z; CLOCAL : Z;
  VMIN : nat; VTIME : nat }.

Definition linux_flags : flag_set :=
  mkFlags 0x8 0x40 0x2 0x1 0x8000 0x1 0x2 0x8 0x20 0x40 0x80 0x100 0x400
    0x1 0x30 0x100 0x40 0x30 0x80 0x800 6 5.
Definition darwin_flags : flag_set :=
  mkFlags 0x8 0x10 0x100 0x80 0x400 0x1 0x2 0x8 0x20 0x40 0x80 0x100 0x200
    0x1 0x300 0x1000 0x400 0x300 0x800 0x8000 16 17.

Definition disjunction (l : list Z) : Z := fold_right Z.lor 0 l.

Definition local_mask (p : flag_set) : Z := disjunction [ECHO p; ECHONL p; ICANON p; ISIG p; IEXTEN p].
Definition input_mask (p : flag_set) : Z :=
  disjunction [IGNBRK p; BRKINT p; PARMRK p; ISTRIP p; INLCR p; IGNCR p; ICRNL p; IXON p].
Definition framing_mask (p : flag_set) : Z := disjunction [CSIZE p; PARENB p; CSTOPB p].
Definition framing_bits (p : flag_set) : Z := disjunction [CS8 p; CREAD p; CLOCAL p].

(** The settings both platforms share: raw mode, 8N1, blocking reads; [hardware]
    is what else is cleared of the control flags. *)
Definition raw_8n1 (p : flag_set) (hardware : Z) (t : Termios) : Termios :=
  mkTermios (update_flags (input_mask p) 0 (Iflag t)) (update_flags (OPOST p) 0 (Oflag t))
    (update_flags (Z.lor (framing_mask p) hardware) (framing_bits p) (Cflag t))
    (update_flags (local_mask p) 0 (Lflag t))
    (<[VTIME p := 0]> (<[VMIN p := 1]> (Cc t))) (Ispeed t) (Ospeed t).

(** ** Linux: the speed is a code within the control flags *)
Definition cbaudMask : Z := 0x100F.

Definition linux_codes : list (Z * Z) :=
  [(9600, 0xD); (19200, 0xE); (38400, 0xF); (57600, 0x1001); (115200, 0x1002); (230400, 0x1003);
   (460800, 0x1004); (921600, 0x1007)].
Definition lookup_speed (table : list (Z * Z)) (default : Z) (baud : Z) : Z :=
  match find (fun e => e.1 =? baud) table with Some e => e.2 | None => default end.
Definition baudCode (baud : Z) : Z := lookup_speed linux_codes 0x1002 baud.

Definition linux_termios (baud : Z) (t : Termios) : Termios :=
  let t := raw_8n1 linux_flags 0 t in
  mkTermios (Iflag t) (Oflag t) (update_flags cbaudMask (baudCode baud) (Cflag t)) (Lflag t)
    (Cc t) (Ispeed t) (Ospeed t).

(** ** macOS: the speed is a number *)
Definition darwinCRTSCTS : Z := 0x30000.
Definition darwin_speed (baud : Z) : Z :=
  lookup_speed [(9600, 9600); (19200, 19200); (38400, 38400); (57600, 57600); (115200, 115200);
    (230400, 230400)] (wrapU 64 baud) baud.

Definition darwin_termios (baud : Z) (t : Termios) : Termios :=
  let t := raw_8n1 darwin_flags darwinCRTSCTS t in
  mkTermios (Iflag t) (Oflag t) (Cflag t) (Lflag t) (Cc t) (darwin_speed baud) (darwin_speed baud).

(** * Opening a port

    The outcomes of the system calls are inputs: what opening the path returns,
    the settings the port has ([TCGETS]) and whether it takes the new ones. *)
Section Open.
Context {file : Type}.

Record device := mkDevice {
  open_file : string -> result string file;
  get_settings : file -> result string Termios;
  put_settings : file -> Termios -> option string;
  file_name : file -> string;
}.

Record platform := mkPlatform {
  get_name : string; put_name : string; settings : Z -> Termios -> Termios }.
Definition linux : platform := mkPlatform "TCGETS" "TCSETS" linux_termios.
Definition darwin : platform := mkPlatform "TIOCGETA" "TIOCSETA" darwin_termios.

Definition ioctl_error (call name errno : string) : string :=
  "ioctl " +:+ call +:+ " on " +:+ name +:+ ": " +:+ errno.

Definition configureSerialPort (p : platform) (d : device) (f : file) (baud : Z) : result string Termios :=
  match get_settings d f with
  | Err e => Err (ioctl_error (get_name p) (file_name d f) e)
  | Ok t =>
    let t := settings p baud t in
    match put_settings d f t with
    | Some e => Err (ioctl_error (put_name p) (file_name d f) e)
    | None => Ok t
    end
  end.

(** [applied] is what the device was left with. *)
Record SerialPort := mkPort { port_file : file; Path : string; Baud : Z; applied : Termios }.

Definition effective_baud (baud : Z) : Z := if baud <=? 0 then 115200 else baud.

Definition OpenSerialPort (p : platform) (d : device) (path : string) (baud : Z) : result string SerialPort :=
  if is_empty path then Err "serial port path cannot be empty" else
  let baud := effective_baud baud in
  match open_file d path with
  | Err e => Err ("opening serial port " +:+ path +:+ ": " +:+ e)
  | Ok f =>
    match configureSerialPort p d f baud with
    | Err e => Err ("configuring serial port " +:+ path +:+ " at " +:+ dec baud +:+ " baud: " +:+ e)
    | Ok t => Ok (mkPort f path baud t)
    end
  end.
End Open.
Arguments device : clear implicits.
Arguments SerialPort : clear implicits.

(** * Facts *)

(** Bit-by-bit reasoning on flag words. *)
Ltac flag_bits :=
  apply Z.bits_inj'; intros ? ?; unfold update_flags;
  repeat first [rewrite Z.land_spec | rewrite Z.lor_spec | rewrite Z.ldiff_spec | rewrite Z.bits_0];
  repeat match goal with |- context [Z.testbit ?x ?n] => destruct (Z.testbit x n) eqn:? end;
  cbn in *; try congruence.

(** An update gives the cleared bits the values of [set] and keeps the others. *)
Lemma update_flags_within clear set m x :
  Z.land clear m = m -> Z.land (update_flags clear set x) m = Z.land set m.
Proof.
  intros H. rewrite <- H. flag_bits.
Qed.

Lemma update_flags_outside clear set x :
  Z.ldiff set clear = 0 -> Z.ldiff (update_flags clear set x) clear = Z.ldiff x clear.
Proof.
  intros H. apply Z.bits_inj'. intros n Hn. pose proof (f_equal (fun z => Z.testbit z n) H) as Hb.
  revert Hb. unfold update_flags. rewrite !Z.ldiff_spec, Z.lor_spec, Z.ldiff_spec, Z.bits_0.
  by destruct (Z.testbit clear n), (Z.testbit set n), (Z.testbit x n).
Qed.

Lemma update_flags_land_disjoint clear set m x :
  Z.land clear m = 0 -> Z.land set m = 0 -> Z.land (update_flags clear set x) m = Z.land x m.
Proof.
  intros H1 H2. apply Z.bits_inj'. intros n Hn.
  pose proof (f_equal (fun z => Z.testbit z n) H1) as B1.
  pose proof (f_equal (fun z => Z.testbit z n) H2) as B2. revert B1 B2. unfold update_flags.
  rewrite !Z.land_spec, Z.lor_spec, Z.ldiff_spec, Z.bits_0.
  by destruct (Z.testbit clear n), (Z.testbit set n), (Z.testbit x n), (Z.testbit m n).
Qed.

Lemma lookup_speed_in table d baud : lookup_speed table d baud = d \/ (baud, lookup_speed table d baud) ∈ table.
Proof.
  unfold lookup_speed. destruct (find _ table) as [e|] eqn:E; [|by left]. right.
  apply find_some in E as [Hin Heq]. apply Z.eqb_eq in Heq. subst baud. destruct e. by apply list_elem_of_In.
Qed.

(** Raw mode and 8N1 framing, whatever the settings were, and nothing else. *)
Record raw_port (p : flag_set) (mask : Z) (t0 t : Termios) : Prop := {
  raw_input : Z.land (Iflag t) (input_mask p) = 0;
  raw_output : Z.land (Oflag t) (OPOST p) = 0;
  raw_local : Z.land (Lflag t) (local_mask p) = 0;
  raw_framing : Z.land (Cflag t) (Z.lor (framing_mask p) (framing_bits p)) = framing_bits p;
  raw_blocking : Cc t !! VMIN p = Some 1 /\ Cc t !! VTIME p = Some 0;
  raw_kept_input : Z.ldiff (Iflag t) (input_mask p) = Z.ldiff (Iflag t0) (input_mask p);
  raw_kept_output : Z.ldiff (Oflag t) (OPOST p) = Z.ldiff (Oflag t0) (OPOST p);
  raw_kept_local : Z.ldiff (Lflag t) (local_mask p) = Z.ldiff (Lflag t0) (local_mask p);
  raw_kept_control : Z.ldiff (Cflag t) mask = Z.ldiff (Cflag t0) mask;
  raw_kept_cc : forall i, i <> VMIN p -> i <> VTIME p -> Cc t !! i = Cc t0 !! i;
}.

(** What the control flags a configuration may write are. *)
Definition control_mask (p : flag_set) (hardware : Z) : Z :=
  Z.lor (Z.lor (framing_mask p) hardware) (framing_bits p).

Lemma raw_8n1_raw p hardware t :
  (VMIN p < length (Cc t))%nat -> (VTIME p < length (Cc t))%nat -> VMIN p <> VTIME p ->
  raw_port p (control_mask p hardware) t (raw_8n1 p hardware t).
Proof.
  intros H1 H2 H3.
  constructor; cbn [Iflag Oflag Cflag Lflag Cc raw_8n1];
    try (rewrite update_flags_within, ?Z.land_0_l by apply Z.land_diag; done);
    try (apply update_flags_outside, Z.ldiff_0_l).
  - flag_bits.
  - split; [rewrite list_lookup_insert_ne by done|]; by apply list_lookup_insert_eq; rewrite ?length_insert.
  - unfold control_mask. flag_bits.
  - intros i Hi Ht. by rewrite !list_lookup_insert_ne by done.
Qed.

(** Setting the speed within the control flags keeps the rest of the settings. *)
Lemma raw_port_speed p hardware mask code t0 t :
  raw_port p (control_mask p hardware) t0 t ->
  Z.land mask (Z.lor (framing_mask p) (framing_bits p)) = 0 -> Z.ldiff code mask = 0 ->
  raw_port p (Z.lor (control_mask p hardware) mask) t0
    (mkTermios (Iflag t) (Oflag t) (update_flags mask code (Cflag t)) (Lflag t) (Cc t) (Ispeed t) (Ospeed t)).
Proof.
  intros [? ? ? Hf ? ? ? ? Hk ?] Hm Hc. constructor; cbn [Iflag Oflag Cflag Lflag Cc]; try done.
  - rewrite update_flags_land_disjoint; [done|done|].
    assert (Z.land code mask = code) as E by (rewrite <- (Z.lor_ldiff_and code mask) at 2; by rewrite Hc).
    by rewrite <- E, <- Z.land_assoc, Hm, Z.land_0_r.
  - rewrite <- !Z.ldiff_ldiff_l, <- Hk, !Z.ldiff_ldiff_l, (Z.lor_comm _ mask), <- !Z.ldiff_ldiff_l.
    by rewrite update_flags_outside.
Qed.

Lemma baudCode_speed baud : Z.land (baudCode baud) cbaudMask = baudCode baud /\ Z.ldiff (baudCode baud) cbaudMask = 0.
Proof.
  unfold baudCode. destruct (lookup_speed_in linux_codes 0x1002 baud) as [->|H]; [done|].
  revert H. generalize (lookup_speed linux_codes 4098 baud) as c. intros c. unfold linux_codes.
  rewrite !elem_of_cons, elem_of_nil. intros H. destruct_or?; by destruct_and?; simplify_eq.
Qed.

Lemma linux_termios_raw baud t :
  length (Cc t) = 32%nat ->
  raw_port linux_flags (Z.lor (control_mask linux_flags 0) cbaudMask) t (linux_termios baud t) /\
  Z.land (Cflag (linux_termios baud t)) cbaudMask = baudCode baud.
Proof.
  intros Hc. destruct (baudCode_speed baud) as [H1 H2]. split.
  - apply raw_port_speed; [|done|done]. apply raw_8n1_raw; cbn; lia.
  - unfold linux_termios. cbn [Cflag]. by rewrite update_flags_within.
Qed.

Section Opening.
Context {file : Type}.
Implicit Types (d : device file).

Lemma OpenSerialPort_ok p d path baud port :
  OpenSerialPort p d path baud = Ok port ->
  path <> "" /\ open_file d path = Ok (port_file port) /\
  Path port = path /\ Baud port = effective_baud baud /\
  exists t0, get_settings d (port_file port) = Ok t0 /\ applied port = settings p (Baud port) t0 /\
    put_settings d (port_file port) (applied port) = None.
Proof.
  unfold OpenSerialPort, configureSerialPort. destruct (is_empty path) eqn:Ep; [done|].
  apply is_empty_spec in Ep. destruct (open_file d path) as [f|]; [|done].
  destruct (get_settings d f) as [t0|] eqn:Eg; [|done]. destruct (put_settings d f _) eqn:Es; [done|].
  intros [= <-]. cbn. split_and!; try done. by exists t0.
Qed.

(** A port that opens on Linux is in raw 8N1 mode with blocking reads, whatever
    its settings were, at the speed of the rate it reports when the rate is one of
    the eight supported ones; every other bit of its settings is as it was. *)
Theorem OpenSerialPort_linux d path baud port :
  (forall f t, get_settings d f = Ok t -> length (Cc t) = 32%nat) ->
  OpenSerialPort linux d path baud = Ok port ->
  exists t0, get_settings d (port_file port) = Ok t0 /\
    put_settings d (port_file port) (applied port) = None /\
    raw_port linux_flags (Z.lor (control_mask linux_flags 0) cbaudMask) t0 (applied port) /\
    Baud port = effective_baud baud /\
    (forall code, (Baud port, code) ∈ linux_codes -> Z.land (Cflag (applied port)) cbaudMask = code).
Proof.
  intros Hcc H. destruct (OpenSerialPort_ok _ _ _ _ _ H) as (_ & _ & _ & Hb & t0 & Hg & Ha & Hp).
  destruct (linux_termios_raw (Baud port) t0 (Hcc _ _ Hg)) as [Hr Hs].
  exists t0. split; [done|]. split; [done|]. cbn [settings linux] in Ha. rewrite Ha.
  split; [done|]. split; [done|]. intros code Hin. rewrite Hs.
  revert Hin. unfold linux_codes. rewrite !elem_of_cons, elem_of_nil.
  intros Hin. by destruct_or?; simplify_eq; match goal with E : Baud port = _ |- _ => rewrite E end.
Qed.

(** A rate outside the table opens the port at 115200 while [Baud] reports what
    was asked for. *)
Theorem unsupported_rate_replaced d path baud port :
  (forall f t, get_settings d f = Ok t -> length (Cc t) = 32%nat) ->
  0 < baud -> forallb (fun e => negb (e.1 =? baud)) linux_codes = true ->
  OpenSerialPort linux d path baud = Ok port ->
  Baud port = baud /\ Z.land (Cflag (applied port)) cbaudMask = baudCode 115200.
Proof.
  intros Hcc Hpos Hno H. destruct (OpenSerialPort_ok _ _ _ _ _ H) as (_ & _ & _ & Hb & t0 & Hg & Ha & Hp).
  unfold effective_baud in Hb. rewrite (proj2 (Z.leb_gt _ _)) in Hb by done. split; [done|].
  rewrite Ha. cbn [settings linux]. rewrite (proj2 (linux_termios_raw _ t0 (Hcc _ _ Hg))), Hb.
  unfold baudCode, lookup_speed. destruct (find _ linux_codes) as [e|] eqn:E; [|done].
  apply find_some in E as [Hin He]. rewrite forallb_forall in Hno. specialize (Hno e Hin).
  by rewrite He in Hno.
Qed.
End Opening.

(** * Concrete ports *)
Module SerialSamples.
(** A terminal in canonical mode at 9600 baud. *)
Definition cooked : Termios := mkTermios 0x500 0x5 0xBD 0x8A3B (repeat 0 32) 0 0.
Definition modem : device nat :=
  mkDevice (fun path => if String.eqb path "/dev/ttyACM0" then Ok 3%nat else Err "no such file or directory")
    (fun _ => Ok cooked) (fun _ _ => None) (fun _ => "/dev/ttyACM0").

Example opened :
  (OpenSerialPort linux modem "/dev/ttyACM0" 57600, OpenSerialPort linux modem "/dev/null" 0,
   OpenSerialPort linux modem "" 0) =
  (Ok (mkPort 3%nat "/dev/ttyACM0" 57600
     (mkTermios 0 0x4 0x18B1 0xA30 (<[6%nat := 1]> (repeat 0 32)) 0 0)),
   Err "opening serial port /dev/null: no such file or directory", Err "serial port path cannot be empty").
Proof. by vm_compute. Qed.
End SerialSamples.

Lemma OpenSerialPort_linux_witness :
  exists port, OpenSerialPort linux SerialSamples.modem "/dev/ttyACM0" 921600 = Ok port /\
    raw_port linux_flags (Z.lor (control_mask linux_flags 0) cbaudMask) SerialSamples.cooked (applied port).
Proof.
  eexists. split; [vm_compute; reflexivity|].
  destruct (OpenSerialPort_linux SerialSamples.modem "/dev/ttyACM0" 921600 _
    ltac:(intros f t Ht; injection Ht as <-; reflexivity) eq_refl) as (t0 & Hg & _ & Hr & _).
  injection Hg as <-. exact Hr.
Defined.

Lemma unsupported_rate_replaced_witness :
  exists port, OpenSerialPort linux SerialSamples.modem "/dev/ttyACM0" 1500000 = Ok port /\
    Baud port = 1500000 /\ Z.land (Cflag (applied port)) cbaudMask = baudCode 115200.
Proof.
  eexists. split; [vm_compute; reflexivity|].
  by apply (unsupported_rate_replaced SerialSamples.modem "/dev/ttyACM0" 1500000 _
    ltac:(intros f t Ht; injection Ht as <-; reflexivity) ltac:(lia) eq_refl eq_refl).
Defined.
