(* ===== verification/Bus.v ===== *)
(** pkg/zenohutil/client.go, first half: selector matching, the [Bus] interface
    and the in-memory bus. *)
From Stdlib Require Import Strings.Ascii Strings.String Permutation.
From S2P Require Import Prelude GoString Topic.

Local Open Scope string_scope.

(** * Selectors *)

(** The matching loop: the two lists are the chunks from [sIdx] and [kIdx] on. *)
Fixpoint match_parts (sel key : list string) : bool :=
  match sel with
  | [] => match key with [] => true | _ :: _ => false end
  | s :: sel' =>
    match key with
    | [] => match sel' with [] => String.eqb s "**" | _ :: _ => false end
    | k :: key' =>
      if String.eqb s "**" then true
      else if String.eqb s "*" || String.eqb s k then match_parts sel' key'
      else false
    end
  end.

Definition MatchesSelector (selector key : string) : bool :=
  if String.eqb selector "**" || String.eqb selector key then true
  else match_parts (Split selector slash) (Split key slash).

(** The reference semantics of Zenoh's wild cards on chunks: [*] stands for one
    chunk, [**] for any number of chunks, wherever it occurs. *)
Inductive zenoh_matches : list string -> list string -> Prop :=
| zm_nil : zenoh_matches [] []
| zm_chunk s sel key : zenoh_matches sel key -> zenoh_matches (s :: sel) (s :: key)
| zm_star k sel key : zenoh_matches sel key -> zenoh_matches ("*" :: sel) (k :: key)
| zm_any_stop sel key : zenoh_matches sel key -> zenoh_matches ("**" :: sel) key
| zm_any_skip k sel key : zenoh_matches ("**" :: sel) key -> zenoh_matches ("**" :: sel) (k :: key).

(** Selectors in which [**] occurs only as the last chunk: every selector the
    program subscribes to. *)
Fixpoint tail_wildcard (sel : list string) : bool :=
  match sel with
  | [] => true
  | [s] => true
  | s :: sel => negb (String.eqb s "**") && tail_wildcard sel
  end.

Lemma tail_wildcard_tail s sel : tail_wildcard (s :: sel) = true -> tail_wildcard sel = true.
Proof. destruct sel; [done|]. by intros [_ H]%andb_prop. Qed.

Lemma zenoh_any key : zenoh_matches ["**"] key.
Proof. induction key; [apply zm_any_stop, zm_nil|by apply zm_any_skip]. Qed.

Lemma match_parts_refl l : match_parts l l = true.
Proof.
  induction l as [|s l IH]; [done|]. cbn [match_parts]. destruct (String.eqb s "**"); [done|].
  by rewrite String.eqb_refl, orb_true_r.
Qed.

(** The two shortcuts at the head of the function agree with the loop. *)
Lemma MatchesSelector_parts selector key :
  MatchesSelector selector key = match_parts (Split selector slash) (Split key slash).
Proof.
  unfold MatchesSelector. destruct (String.eqb_spec selector "**") as [->|].
  - pose proof (Split_nonempty key slash). cbn. by destruct (Split key slash).
  - destruct (String.eqb_spec selector key) as [->|]; [|done].
    by rewrite match_parts_refl.
Qed.

Lemma match_parts_sound sel key :
  tail_wildcard sel = true -> match_parts sel key = true -> zenoh_matches sel key.
Proof.
  revert key. induction sel as [|s sel IH]; intros [|k key]; cbn [match_parts]; try done.
  - intros _ _. apply zm_nil.
  - destruct sel; [|done]. intros _ ->%String.eqb_eq. apply zenoh_any.
  - intros Ht. destruct (String.eqb_spec s "**") as [->|Hs].
    + destruct sel; [intros _; apply zenoh_any|done].
    + assert (tail_wildcard sel = true) as Ht'
        by (by eapply tail_wildcard_tail).
      destruct (String.eqb_spec s "*") as [->|]; [intros; apply zm_star; auto|].
      destruct (String.eqb_spec s k) as [->|]; [intros; apply zm_chunk; auto|done].
Qed.

Lemma match_parts_complete sel key :
  tail_wildcard sel = true -> zenoh_matches sel key -> match_parts sel key = true.
Proof.
  intros Ht H. induction H as [|s sel key H IH|k sel key H IH|sel key H IH|k sel key H IH];
    [done|..].
  1,2: assert (tail_wildcard sel = true) as Ht' by (by eapply tail_wildcard_tail).
  - cbn [match_parts]. destruct (String.eqb s "**"); [done|].
    rewrite String.eqb_refl, orb_true_r. auto.
  - cbn [match_parts]. simpl. auto.
  - destruct sel; [|done]. by destruct key.
  - done.
Qed.

(** C36. Selector matching implements Zenoh's wild cards: for every selector whose
    only [**] is its last chunk, a key matches exactly when its chunks match
    under the reference semantics, so the two early returns change nothing. *)
Theorem MatchesSelector_zenoh selector key :
  tail_wildcard (Split selector slash) = true ->
  MatchesSelector selector key = true <->
  zenoh_matches (Split selector slash) (Split key slash).
Proof.
  intros Ht. rewrite MatchesSelector_parts. split.
  - by apply match_parts_sound.
  - by apply match_parts_complete.
Qed.

Lemma MatchesSelector_zenoh_witness :
  MatchesSelector "sec/tier2/**" "sec/tier2/drone/blue/bravo/telemetry" = true <->
  zenoh_matches (Split "sec/tier2/**" slash) (Split "sec/tier2/drone/blue/bravo/telemetry" slash).
Proof. apply (MatchesSelector_zenoh "sec/tier2/**"). by vm_compute. Defined.

(** Divergence from the wild cards for a [**] that is not last: the loop
    accepts every key that has the chunks before it, so the chunks after it are
    not checked. *)
Theorem MatchesSelector_ignores_suffix :
  MatchesSelector "sec/**/command" "sec/tier2/telemetry" = true /\
  ~ zenoh_matches (Split "sec/**/command" slash) (Split "sec/tier2/telemetry" slash).
Proof.
  split; [done|]. cbn. intros H.
  repeat match goal with
  | H : zenoh_matches (_ :: _) _ |- _ => inversion H; clear H; subst
  | H : zenoh_matches [] (_ :: _) |- _ => inversion H
  end.
Qed.

(** * The bus interface

    [H] is the type of message handlers. Contexts are not modelled: no operation
    of the in-memory bus looks at its context. A Go [error] is an optional text. *)
Class Bus (B H : Type) := {
  Publish : string -> string -> B -> option string * B;
  Subscribe : string -> H -> B -> option string * B;
  Close : B -> option string * B;
}.

(** What a client observes of a bus: the publications that were acknowledged, in
    order. *)
Class BusLog (B : Type) {H} `{Bus B H} := {
  acked : B -> list (string * string);
  acked_ok k p b b' : Publish k p b = (None, b') -> acked b' = (acked b ++ [(k, p)])%list;
  acked_err k p b b' e : Publish k p b = (Some e, b') -> acked b' = acked b;
}.

(** Every bus can be observed by recording its acknowledgements. *)
Record Recorded (B : Type) := mkRecorded { inner : B; record : list (string * string) }.
Arguments mkRecorded {B}. Arguments inner {B}. Arguments record {B}.

#[export] Instance Recorded_Bus {B H} `{Bus B H} : Bus (Recorded B) H := {
  Publish k p r :=
    let '(e, b) := Publish k p (inner r) in
    (e, mkRecorded b (match e with None => record r ++ [(k, p)] | Some _ => record r end)%list);
  Subscribe s h r := let '(e, b) := Subscribe s h (inner r) in (e, mkRecorded b (record r));
  Close r := let '(e, b) := Close (H:=H) (inner r) in (e, mkRecorded b (record r));
}.

#[export] Instance Recorded_BusLog {B H} `{Bus B H} : BusLog (Recorded B).
Proof.
  refine {| acked := record |}; intros k p b b'; cbn; intros;
    destruct (Publish k p (inner b)) as [[e'|] b1]; simplify_eq; done.
Defined.

(** A bus on which publications succeed, and keep succeeding. *)
Class BusAlive (B : Type) {H} `{Bus B H} := {
  alive : B -> Prop;
  alive_publish k p b : alive b -> (Publish k p b).1 = None /\ alive (Publish k p b).2;
}.

#[export] Instance Recorded_BusAlive {B H} `{BI : Bus B H} `{!BusAlive B} : BusAlive (Recorded B).
Proof.
  refine {| alive r := alive (inner r) |}. intros k p b Hb. cbn.
  destruct (alive_publish k p (inner b) Hb) as [E Hb'].
  by destruct (Publish k p (inner b)) as [[e|] b'].
Defined.

(** * The in-memory bus

    [spawned] are the goroutines started by [go h(key, payload)] so far; the map
    is iterated in an unspecified order and the goroutines run in any order, so
    only its content up to permutation means something. *)
Section MemoryBus.
Context {H : Type}.

Record MemoryBus := mkMemoryBus {
  subscribers : gmap string (list H);
  closed : bool;
  spawned : list (H * string * string);
}.

Definition NewMemoryBus : MemoryBus := mkMemoryBus ∅ false [].

Definition matching (m : gmap string (list H)) (key : string) : list H :=
  map_to_list m ≫= fun '(selector, handlers) =>
    if MatchesSelector selector key then handlers else [].

Definition MemoryBus_Publish (key payload : string) (m : MemoryBus) : option string * MemoryBus :=
  if closed m then (Some "bus is closed", m) else
  (None, mkMemoryBus (subscribers m) (closed m)
    (spawned m ++ ((fun h => (h, key, payload)) <$> matching (subscribers m) key))%list).

Definition MemoryBus_Subscribe (selector : string) (handler : H) (m : MemoryBus)
  : option string * MemoryBus :=
  if closed m then (Some "bus is closed", m) else
  (None, mkMemoryBus
    (<[selector := (default [] (subscribers m !! selector) ++ [handler])%list]> (subscribers m))
    (closed m) (spawned m)).

Definition MemoryBus_Close (m : MemoryBus) : option string * MemoryBus :=
  (None, mkMemoryBus ∅ true (spawned m)).

#[export] Instance MemoryBus_Bus : Bus MemoryBus H := {
  Publish := MemoryBus_Publish;
  Subscribe := MemoryBus_Subscribe;
  Close := MemoryBus_Close;
}.

#[export] Instance MemoryBus_BusAlive : BusAlive MemoryBus.
Proof.
  refine {| alive m := closed m = false |}. intros k p b Hb. cbn.
  unfold MemoryBus_Publish. by rewrite Hb.
Defined.

(** ** Specification: a list of subscriptions *)
Record AbsBus := mkAbsBus {
  abs_subs : list (string * H);
  abs_closed : bool;
  abs_delivered : list (H * string * string);
}.

Definition abs_Publish (key payload : string) (a : AbsBus) : option string * AbsBus :=
  if abs_closed a then (Some "bus is closed", a) else
  (None, mkAbsBus (abs_subs a) (abs_closed a)
    (abs_delivered a ++
      ((fun s => (s.2, key, payload)) <$> filter (fun s => MatchesSelector s.1 key = true) (abs_subs a)))%list).

Definition abs_Subscribe (selector : string) (h : H) (a : AbsBus) : option string * AbsBus :=
  if abs_closed a then (Some "bus is closed", a) else
  (None, mkAbsBus ((selector, h) :: abs_subs a) (abs_closed a) (abs_delivered a)).

Definition abs_Close (a : AbsBus) : option string * AbsBus :=
  (None, mkAbsBus [] true (abs_delivered a)).

#[local] Instance AbsBus_Bus : Bus AbsBus H := {
  Publish := abs_Publish;
  Subscribe := abs_Subscribe;
  Close := abs_Close;
}.

(** ** Operations and executions of any bus *)
Inductive bus_op := OpPublish (key payload : string) | OpSubscribe (selector : string) (h : H) | OpClose.

Definition bus_step {B} `{Bus B H} (op : bus_op) (b : B) : option string * B :=
  match op with
  | OpPublish k p => Publish k p b
  | OpSubscribe s h => Subscribe s h b
  | OpClose => Close (H:=H) b
  end.

Fixpoint bus_run {B} `{Bus B H} (ops : list bus_op) (b : B) : list (option string) * B :=
  match ops with
  | [] => ([], b)
  | op :: ops =>
    let '(e, b) := bus_step op b in
    let '(es, b) := bus_run ops b in (e :: es, b)
  end.

(** ** Refinement *)
Definition pairs (m : gmap string (list H)) : list (string * H) :=
  map_to_list m ≫= fun '(s, hs) => (s,.) <$> hs.

Definition bus_rel (m : MemoryBus) (a : AbsBus) : Prop :=
  closed m = abs_closed a /\ pairs (subscribers m) ≡ₚ abs_subs a /\ spawned m ≡ₚ abs_delivered a.

Lemma matching_pairs m key :
  matching m key = snd <$> filter (fun s => MatchesSelector s.1 key = true) (pairs m).
Proof.
  unfold matching, pairs. induction (map_to_list m) as [|[s hs] l IH]; [done|].
  cbn. rewrite IH, filter_app, fmap_app. f_equal.
  destruct (MatchesSelector s key) eqn:E.
  - induction hs as [|h hs IHhs]; [done|]. cbn. rewrite decide_True by done. cbn. by f_equal.
  - induction hs as [|h hs IHhs]; [done|]. cbn. rewrite decide_False by (cbn; congruence). done.
Qed.

Lemma pairs_insert m s h :
  pairs (<[s := (default [] (m !! s) ++ [h])%list]> m) ≡ₚ (s, h) :: pairs m.
Proof.
  unfold pairs. rewrite <- insert_delete_eq, map_to_list_insert by apply lookup_delete_eq.
  cbn. rewrite fmap_app. cbn. rewrite <- app_assoc. cbn. rewrite <- Permutation_middle.
  apply perm_skip. destruct (m !! s) as [hs|] eqn:E; cbn.
  - rewrite <- (insert_delete_id m s hs) at 2 by done.
    rewrite map_to_list_insert by apply lookup_delete_eq. done.
  - by rewrite delete_id.
Qed.

Lemma bus_step_refines op m a :
  bus_rel m a ->
  (bus_step op m).1 = (bus_step op a).1 /\ bus_rel (bus_step op m).2 (bus_step op a).2.
Proof.
  intros (Hc & Hp & Hs). destruct op as [k p|s h|]; cbn.
  - unfold MemoryBus_Publish, abs_Publish. rewrite <- Hc. destruct (closed m) eqn:Em.
    { split; [done|]. split; [cbn; congruence|done]. }
    split; [done|]. split; [cbn; congruence|]. split; [done|]. cbn. apply Permutation_app; [done|].
    rewrite matching_pairs, Hp, <- list_fmap_compose. done.
  - unfold MemoryBus_Subscribe, abs_Subscribe. rewrite <- Hc. destruct (closed m) eqn:Em.
    { split; [done|]. split; [cbn; congruence|done]. }
    split; [done|]. split; [cbn; congruence|]. split; [|done]. cbn. by rewrite pairs_insert, Hp.
  - split; [done|]. by split.
Qed.

(** C35. The in-memory bus implements the specification that keeps a plain list of
    subscriptions: every sequence of operations gives the same errors, and the
    same deliveries up to order; a message is delivered once per subscription
    whose selector matches it, and to nobody else. *)
Theorem MemoryBus_refines ops :
  (bus_run ops NewMemoryBus).1 = (bus_run ops (mkAbsBus [] false [])).1 /\
  spawned (bus_run ops NewMemoryBus).2 ≡ₚ abs_delivered (bus_run ops (mkAbsBus [] false [])).2.
Proof.
  assert (forall m a, bus_rel m a ->
    (bus_run ops m).1 = (bus_run ops a).1 /\ bus_rel (bus_run ops m).2 (bus_run ops a).2) as Hrun.
  { induction ops as [|op ops IH]; intros m a HR; [done|]. cbn.
    destruct (bus_step_refines op m a HR) as [He HR'].
    destruct (bus_step op m) as [e m'], (bus_step op a) as [e' a']. cbn in He, HR'. subst e'.
    destruct (IH m' a' HR') as [Hes HR''].
    destruct (bus_run ops m') as [es m''], (bus_run ops a') as [es' a''].
    cbn in *. by subst. }
  destruct (Hrun NewMemoryBus (mkAbsBus [] false [])) as [He (_ & _ & Hs)]; [done|by split].
Qed.
End MemoryBus.
Arguments MemoryBus : clear implicits.
