(* ===== verification/Sha256.v ===== *)
(** crypto/sha256 and encoding/hex: the hash of FIPS 180-4 on byte strings,
    executable, with its published test vectors, and its hexadecimal form. *)
From Stdlib Require Import Strings.Ascii Strings.String.
From S2P Require Import Prelude GoString.

Local Open Scope Z_scope.

(** * Constants: the fractional parts of cube and square roots of primes

    The 32 bits after the point of the cube roots of the first 64 primes, and of
    the square roots of the first eight, computed from that definition. *)
Definition divides_none (ps : list Z) (n : Z) : bool := forallb (fun p => negb (n mod p =? 0)) ps.

Fixpoint primes_upto (fuel : nat) (n : Z) (found : list Z) : list Z :=
  match fuel with
  | O => found
  | S fuel => primes_upto fuel (n + 1) (if divides_none found n then found ++ [n] else found)
  end.

Definition primes : list Z := primes_upto 310 2 [].

(** The greatest [r] below [2 ^ bits] with [r ^ 3 <= n], bit by bit. *)
Fixpoint cube_root (bits : nat) (n r : Z) : Z :=
  match bits with
  | O => r
  | S b => let r' := r + 2 ^ Z.of_nat b in cube_root b n (if r' * r' * r' <=? n then r' else r)
  end.

Definition K256 : list Z :=
  Eval vm_compute in map (fun p => cube_root 40 (p * 2 ^ 96) 0 mod 2 ^ 32) primes.

Definition init256 : list Z :=
  Eval vm_compute in map (fun p => Z.sqrt (p * 2 ^ 64) mod 2 ^ 32) (take 8 primes).

Example constants_known :
  length K256 = 64%nat /\ nth 0 K256 0 = 0x428a2f98 /\ nth 63 K256 0 = 0xc67178f2 /\
  nth 0 init256 0 = 0x6a09e667 /\ nth 7 init256 0 = 0x5be0cd19.
Proof. by vm_compute. Qed.

(** * Words *)
Definition rotr (x n : Z) : Z := Z.lor (Z.shiftr x n) (u32 (Z.shiftl x (32 - n))).
Definition add32 (l : list Z) : Z := u32 (foldr Z.add 0 l).

Definition Ch (x y z : Z) : Z := Z.lxor (Z.land x y) (Z.land (2 ^ 32 - 1 - x) z).
Definition Maj (x y z : Z) : Z := Z.lxor (Z.lxor (Z.land x y) (Z.land x z)) (Z.land y z).
Definition Sigma0 (x : Z) : Z := Z.lxor (Z.lxor (rotr x 2) (rotr x 13)) (rotr x 22).
Definition Sigma1 (x : Z) : Z := Z.lxor (Z.lxor (rotr x 6) (rotr x 11)) (rotr x 25).
Definition sigma0 (x : Z) : Z := Z.lxor (Z.lxor (rotr x 7) (rotr x 18)) (Z.shiftr x 3).
Definition sigma1 (x : Z) : Z := Z.lxor (Z.lxor (rotr x 17) (rotr x 19)) (Z.shiftr x 10).

(** * Message schedule: the last sixteen words, newest first *)
Definition next_word (w : list Z) : Z :=
  add32 [sigma1 (nth 1 w 0); nth 6 w 0; sigma0 (nth 14 w 0); nth 15 w 0].

Fixpoint schedule (n : nat) (w : list Z) : list Z :=
  match n with
  | O => []
  | S n => nth 15 w 0 :: schedule n (next_word w :: removelast w)
  end.

(** * Compression *)
Definition round (s : list Z) (kw : Z * Z) : list Z :=
  match s with
  | [a; b; c; d; e; f; g; h] =>
    let t1 := add32 [h; Sigma1 e; Ch e f g; kw.1; kw.2] in
    let t2 := add32 [Sigma0 a; Maj a b c] in
    [add32 [t1; t2]; a; b; c; add32 [d; t1]; e; f; g]
  | _ => s
  end.

Fixpoint be_words (l : list Z) : list Z :=
  match l with
  | a :: b :: c :: d :: l => a * 2 ^ 24 + b * 2 ^ 16 + c * 2 ^ 8 + d :: be_words l
  | _ => []
  end.

Definition compress (h : list Z) (block : list Z) : list Z :=
  let w := schedule 64 (rev (be_words block)) in
  zip_with (fun x y => add32 [x; y]) h (fold_left round (zip K256 w) h).

(** * Padding and the hash *)
Fixpoint be_bytes (n : nat) (z : Z) : list Z :=
  match n with
  | O => []
  | S n => (z / 2 ^ (8 * Z.of_nat n)) mod 256 :: be_bytes n z
  end.

Definition pad (m : list Z) : list Z :=
  let len := Z.of_nat (length m) in
  m ++ [0x80] ++ replicate (Z.to_nat ((55 - len) mod 64)) 0 ++ be_bytes 8 (8 * len).

Fixpoint blocks (fuel : nat) (l : list Z) : list (list Z) :=
  match fuel, l with
  | S fuel, _ :: _ => take 64 l :: blocks fuel (drop 64 l)
  | _, _ => []
  end.

Fixpoint str_bytes (s : string) : list Z :=
  match s with EmptyString => [] | String a s => az a :: str_bytes s end.

(** [sha256.New], [Write], [Sum(nil)]: the 32 bytes of the hash. *)
Definition sha256 (s : string) : list Z :=
  let m := pad (str_bytes s) in
  concat (be_bytes 4 <$> fold_left compress (blocks (length m) m) init256).

(** [hex.EncodeToString]. *)
Fixpoint EncodeToString (l : list Z) : string :=
  match l with
  | [] => EmptyString
  | b :: l => String (hex_digit (b / 16)) (String (hex_digit (b mod 16)) (EncodeToString l))
  end.

(** The test vectors of FIPS 180-4: no block, one block, two blocks. *)
Example sha256_empty : EncodeToString (sha256 "") =
  "e3b0c44298fc1c149afbf4c8996fb92427ae41e4649b934ca495991b7852b855"%string.
Proof. by vm_compute. Qed.
Example sha256_abc : EncodeToString (sha256 "abc") =
  "ba7816bf8f01cfea414140de5dae2223b00361a396177a9cb410ff61f20015ad"%string.
Proof. by vm_compute. Qed.
Example sha256_two_blocks :
  EncodeToString (sha256 "abcdbcdecdefdefgefghfghighijhijkijkljklmklmnlmnomnopnopq") =
  "248d6a61d20638b8e5c026930c3e6039a33ce45964ff2167f6ecedd419db06c1"%string.
Proof. by vm_compute. Qed.

(** * Lemmas *)
Definition is_byte (b : Z) : Prop := 0 <= b < 256.

Lemma be_bytes_bytes n z : Forall is_byte (be_bytes n z).
Proof.
  induction n as [|n IH]; cbn [be_bytes]; constructor; [|done].
  apply Z.mod_pos_bound. lia.
Qed.

Lemma sha256_bytes s : Forall is_byte (sha256 s).
Proof.
  unfold sha256. apply Forall_concat, Forall_fmap, Forall_true. intros z. apply be_bytes_bytes.
Qed.

Lemma hex_digit_lower d : 0 <= d < 16 -> is_hex_lower (hex_digit d) = true.
Proof.
  intros Hd. unfold is_hex_lower, hex_digit. rewrite !az_za.
  destruct (Z.ltb_spec d 10); rewrite !Z.mod_small by lia; lia.
Qed.

Lemma hex_digit_inj d d' : 0 <= d < 16 -> 0 <= d' < 16 -> hex_digit d = hex_digit d' -> d = d'.
Proof.
  intros Hd Hd' H%(f_equal az). unfold hex_digit in H. rewrite !az_za in H.
  destruct (Z.ltb_spec d 10), (Z.ltb_spec d' 10); rewrite !Z.mod_small in H by lia; lia.
Qed.

(** Digests are lower-case hexadecimal, and determine the bytes. *)
Lemma EncodeToString_hex l : Forall is_byte l -> str_forall is_hex_lower (EncodeToString l) = true.
Proof.
  induction 1 as [|b l Hb Hl IH]; [done|]. cbn. unfold is_byte in Hb.
  rewrite !hex_digit_lower, IH; [done| |].
  - apply Z.mod_pos_bound. lia.
  - split; [apply Z.div_pos; lia|apply Z.div_lt_upper_bound; lia].
Qed.

Lemma EncodeToString_inj l l' :
  Forall is_byte l -> Forall is_byte l' -> EncodeToString l = EncodeToString l' -> l = l'.
Proof.
  intros H. revert l'. induction H as [|b l Hb Hl IH]; intros l' H' E.
  - by destruct H'.
  - destruct H' as [|b' l' Hb' Hl']; [done|]. cbn in E. injection E as E1 E2 E3.
    unfold is_byte in *. assert (forall x, 0 <= x < 256 -> 0 <= x / 16 < 16) as Hd.
    { intros x Hx. split; [apply Z.div_pos; lia|apply Z.div_lt_upper_bound; lia]. }
    apply hex_digit_inj in E1; [|auto..].
    apply hex_digit_inj in E2; [|apply Z.mod_pos_bound; lia..].
    f_equal; [|auto]. rewrite (Z.div_mod b 16), (Z.div_mod b' 16) by lia. congruence.
Qed.

(** The state keeps its eight words, so the hash has 32 bytes. *)
Lemma round_length s kw : length s = 8%nat -> length (round s kw) = 8%nat.
Proof. intros H. by destruct s as [|? [|? [|? [|? [|? [|? [|? [|? [|? ?]]]]]]]]]. Qed.

Lemma fold_round_length l s : length s = 8%nat -> length (fold_left round l s) = 8%nat.
Proof. revert s. induction l as [|kw l IH]; intros s H; [done|]. cbn [fold_left]. by apply IH, round_length. Qed.

Lemma fold_compress_length l h : length h = 8%nat -> length (fold_left compress l h) = 8%nat.
Proof.
  revert h. induction l as [|b l IH]; intros h H; [done|]. cbn [fold_left]. apply IH.
  unfold compress. rewrite length_zip_with, fold_round_length by done. by rewrite H.
Qed.

Lemma length_be_bytes n z : length (be_bytes n z) = n.
Proof. induction n as [|n IH]; [done|]. cbn [be_bytes length]. by rewrite IH. Qed.

Lemma sha256_length s : length (sha256 s) = 32%nat.
Proof.
  unfold sha256. set (h := fold_left compress _ init256).
  assert (length h = 8%nat) as Hh by by apply fold_compress_length.
  destruct h as [|? [|? [|? [|? [|? [|? [|? [|? [|? ?]]]]]]]]]; try done.
Qed.

Lemma digest_nonempty s : EncodeToString (sha256 s) <> EmptyString.
Proof. pose proof (sha256_length s) as H. by destruct (sha256 s). Qed.
