(* ===== verification/Float64.v ===== *)
(** Go's [float64]: IEEE binary64 numbers and the operations of the math package
    the program uses, executable on [spec_float], with the rounding-error theory
    of multiplication and division that the decimal rounding helpers need. *)
From Stdlib Require Import SpecFloat Znumtheory.
From S2P Require Import Prelude.

Local Open Scope Z_scope.

(** * Numbers *)

Definition f64 := spec_float.

Definition prec : Z := 53.
Definition emax : Z := 1024.
Definition emin64 : Z := -1074.

Definition fadd : f64 -> f64 -> f64 := SFadd 53 1024.
Definition fsub : f64 -> f64 -> f64 := SFsub 53 1024.
Definition fmul : f64 -> f64 -> f64 := SFmul 53 1024.
Definition fdiv : f64 -> f64 -> f64 := SFdiv 53 1024.
Definition fsqrt : f64 -> f64 := SFsqrt 53 1024.
Definition fneg : f64 -> f64 := SFopp.
Definition fabs : f64 -> f64 := SFabs.

(** Go's comparisons: all false on NaN, except [!=]. *)
Definition flt (x y : f64) : bool := SFltb x y.
Definition fle (x y : f64) : bool := SFleb x y.
Definition fgt (x y : f64) : bool := SFltb y x.
Definition fge (x y : f64) : bool := SFleb y x.
Definition feq (x y : f64) : bool := SFeqb x y.

Definition fzero : f64 := S754_zero false.

(** [float64(n)] for an integer [n]: the nearest float. *)
Definition of_Z (n : Z) : f64 := binary_normalize 53 1024 n 0 false.

(** The literal [n / 10^k]: correctly rounded, since both operands are exact for
    the literals of the program. *)
Definition lit (n : Z) (k : Z) : f64 := fdiv (of_Z n) (of_Z (10 ^ k)).

#[export] Instance f64_eq_dec : EqDecision f64.
Proof. intros x y. unfold f64 in *. unfold Decision. decide equality; try apply Pos.eq_dec;
  try apply Z.eq_dec; apply bool_dec. Defined.

(** [math.Pi]. *)
Definition Pi : f64 := S754_finite false 7074237752028440 (-51).

(** The float with the given sign and integer magnitude. *)
Definition signed_of_Z (s : bool) (n : Z) : f64 :=
  match n with
  | Zpos p => if s then fneg (of_Z (Zpos p)) else of_Z (Zpos p)
  | _ => S754_zero s
  end.

(** * Package math *)

(** [math.Round]: half away from zero. *)
Definition Round (x : f64) : f64 :=
  match x with
  | S754_finite s m e =>
    if 0 <=? e then x else signed_of_Z s ((Zpos m + 2 ^ (- e - 1)) / 2 ^ (- e))
  | _ => x
  end.

(** [math.Floor]. *)
Definition Floor (x : f64) : f64 :=
  match x with
  | S754_finite s m e =>
    if 0 <=? e then x else
    if s then signed_of_Z true (- ((- Zpos m) / 2 ^ (- e)))
    else signed_of_Z false (Zpos m / 2 ^ (- e))
  | _ => x
  end.

(** [math.Max] and [math.Min], with their special cases. *)
Definition Max (x y : f64) : f64 :=
  match x, y with
  | S754_infinity false, _ | _, S754_infinity false => S754_infinity false
  | S754_nan, _ | _, S754_nan => S754_nan
  | S754_zero sx, S754_zero _ => if sx then y else x
  | _, _ => if fgt x y then x else y
  end.

Definition Min (x y : f64) : f64 :=
  match x, y with
  | S754_infinity true, _ | _, S754_infinity true => S754_infinity true
  | S754_nan, _ | _, S754_nan => S754_nan
  | S754_zero sx, S754_zero _ => if sx then x else y
  | _, _ => if flt x y then x else y
  end.

(** [math.Mod]: the remainder of truncated division, exact. *)
Definition Mod (x y : f64) : f64 :=
  match x, y with
  | S754_finite sx mx ex, S754_finite _ my ey =>
    let e := Z.min ex ey in
    let r := (Zpos mx * 2 ^ (ex - e)) mod (Zpos my * 2 ^ (ey - e)) in
    match r with
    | Zpos p => binary_round 53 1024 sx p e
    | _ => S754_zero sx
    end
  | S754_zero _, S754_finite _ _ _ => x
  | S754_finite _ _ _, S754_infinity _ | S754_zero _, S754_infinity _ => x
  | _, _ => S754_nan
  end.

(** [math.Pow10] for [0 <= n <= 308]: a product of two table entries. *)
Definition Pow10 (n : Z) : f64 :=
  fmul (of_Z (10 ^ (n / 32 * 32))) (of_Z (10 ^ (n mod 32))).

(** [math.Pow 10 y] for an integer [y >= 0]: repeated squaring of the fraction
    0.625 = 10 / 2^4, exponents kept apart. *)
Fixpoint pow_loop (fuel : nat) (i : Z) (a1 : f64) (ae : Z) (x1 : f64) (xe : Z) : f64 * Z :=
  match fuel with
  | O => (a1, ae)
  | S fuel =>
    if i =? 0 then (a1, ae) else
    if (xe <? - 2 ^ 12) || (2 ^ 12 <? xe) then (a1, ae + xe) else
    let '(a1, ae) := if Z.odd i then (fmul a1 x1, ae + xe) else (a1, ae) in
    let x1 := fmul x1 x1 in
    let xe := 2 * xe in
    let '(x1, xe) := if flt x1 (lit 5 1) then (fadd x1 x1, xe - 1) else (x1, xe) in
    pow_loop fuel (i / 2) a1 ae x1 xe
  end.

Definition Pow_10 (y : Z) : f64 :=
  if y =? 0 then of_Z 1 else if y =? 1 then of_Z 10 else
  let '(a1, ae) := pow_loop 64 y (of_Z 1) 0 (lit 625 3) 4 in
  SFldexp 53 1024 a1 ae.

(** Concrete values, as the Go toolchain computes them. *)
Example lit_tenth : lit 1 1 = S754_finite false 7205759403792794 (-56).
Proof. reflexivity. Qed.
Example Pow_10_2 : Pow_10 2 = of_Z 100.
Proof. reflexivity. Qed.
Example Pow_10_exact : forallb (fun n => bool_decide (Pow_10 n = of_Z (10 ^ n)))
  (Z.of_nat <$> seq 0 23) = true.
Proof. by vm_compute. Qed.
Example Round_half : Round (lit 25 1) = of_Z 3 /\ Round (lit (-25) 1) = of_Z (-3).
Proof. done. Qed.
Example Floor_neg : Floor (lit (-25) 1) = of_Z (-3) /\ Floor (lit 25 1) = of_Z 2.
Proof. done. Qed.
Example Mod_angle : Mod (lit 4505 1) (of_Z 360) = lit 905 1.
Proof. by vm_compute. Qed.

(** * Rounding theory

    Exact results are fractions [N / D]; [rep mrs N D] says that a shift record
    holds the integer part of [N / D] and the position of the fractional part
    with respect to one half. *)

Lemma digits2_pos_bounds p :
  2 ^ (Zpos (digits2_pos p) - 1) <= Zpos p < 2 ^ Zpos (digits2_pos p).
Proof.
  induction p as [p IH|p IH|]; cbn [digits2_pos]; [..|by cbn];
    rewrite Pos2Z.inj_succ; set (d := Zpos (digits2_pos p)) in *;
    assert (0 < d) by (unfold d; lia);
    rewrite Z.pow_succ_r by lia; replace (Z.succ d - 1) with (Z.succ (d - 1)) by lia;
    rewrite Z.pow_succ_r by lia; lia.
Qed.

Lemma digits2_pos_unique p d :
  0 < d -> 2 ^ (d - 1) <= Zpos p < 2 ^ d -> Zpos (digits2_pos p) = d.
Proof.
  intros Hd H. pose proof (digits2_pos_bounds p) as B.
  destruct (Z.lt_trichotomy (Zpos (digits2_pos p)) d) as [L|[E|L]]; [|done|].
  - pose proof (Z.pow_le_mono_r 2 (Zpos (digits2_pos p)) (d - 1)). lia.
  - pose proof (Z.pow_le_mono_r 2 d (Zpos (digits2_pos p) - 1)). lia.
Qed.

Definition rep (mrs : shr_record) (N D : Z) : Prop :=
  let r := N mod D in
  shr_m mrs = N / D /\
  shr_r mrs = (D <=? 2 * r) /\
  shr_s mrs = negb ((r =? 0) || (2 * r =? D)).

(** Dropping the low bit halves the number. *)
Lemma rep_shr_1 mrs N D : 0 < D -> 0 <= N -> rep mrs N D -> rep (shr_1 mrs) N (2 * D).
Proof.
  intros HD HN. destruct mrs as [m r s]. unfold rep. cbn [shr_m shr_r shr_s].
  intros (Hm & Hr & Hs).
  pose proof (Z.div_mod N D). pose proof (Z.mod_pos_bound N D HD) as HR.
  set (q := N / D) in *. set (t := N mod D) in *.
  assert (0 <= q) by (unfold q; apply Z.div_pos; lia).
  assert (forall k b, (b = 0 \/ b = 1) -> q = 2 * k + b ->
    N / (2 * D) = k /\ N mod (2 * D) = D * b + t) as Hk.
  { intros k b Hb Hq. assert (0 <= D * b + t < 2 * D) by (destruct Hb; subst b; lia).
    assert (N = 2 * D * k + (D * b + t)) as E by (destruct Hb; subst b; nia).
    split; symmetry; [by apply (Z.div_unique_pos _ _ _ (D * b + t)) | by apply (Z.mod_unique_pos _ _ k)]. }
  assert (forall k b, (b = 0 \/ b = 1) -> q = 2 * k + b ->
    shr_1 {| shr_m := m; shr_r := r; shr_s := s |}
    = {| shr_m := k; shr_r := (b =? 1); shr_s := r || s |}) as Hshr.
  { intros k b Hb Hq. rewrite Hm, Hq in *. assert (0 <= k) by (destruct Hb; lia).
    destruct Hb as [-> | ->]; destruct k as [|k|k]; try done; lia. }
  assert (exists k b, (b = 0 \/ b = 1) /\ q = 2 * k + b) as (k & b & Hb & Hq).
  { exists (q / 2), (q mod 2). pose proof (Z.mod_pos_bound q 2). pose proof (Z.div_mod q 2). lia. }
  rewrite (Hshr k b Hb Hq). destruct (Hk k b Hb Hq) as [-> ->]. cbn [shr_m shr_r shr_s].
  split; [done|]. rewrite Hr, Hs. destruct Hb as [-> | ->]; split; lia.
Qed.

Lemma rep_iter n mrs N D :
  0 < D -> 0 <= N -> rep mrs N D -> rep (SpecFloat.iter_pos shr_1 n mrs) N (2 ^ Zpos n * D).
Proof.
  intros HD HN. revert mrs D HD. induction n as [n IH|n IH|]; intros mrs D HD H; cbn [iter_pos].
  - replace (2 ^ Zpos n~1 * D) with (2 ^ Zpos n * (2 ^ Zpos n * (2 * D))).
    + apply IH; [|apply IH; [lia|by apply rep_shr_1]].
      pose proof (Z.pow_pos_nonneg 2 (Zpos n)). nia.
    + replace (Zpos n~1) with (Zpos n + Zpos n + 1) by lia.
      rewrite !Z.pow_add_r by lia. lia.
  - replace (2 ^ Zpos n~0 * D) with (2 ^ Zpos n * (2 ^ Zpos n * D)).
    + apply IH; [|by apply IH]. pose proof (Z.pow_pos_nonneg 2 (Zpos n)). nia.
    + replace (Zpos n~0) with (Zpos n + Zpos n) by lia. rewrite !Z.pow_add_r by lia. lia.
  - by apply rep_shr_1.
Qed.

(** [shr] by a non-negative amount. *)
Lemma rep_shr n mrs N D e :
  0 < D -> 0 <= N -> 0 <= n -> rep mrs N D ->
  rep (shr mrs e n).1 N (2 ^ n * D) /\ (shr mrs e n).2 = e + n.
Proof.
  intros HD HN Hn H. destruct n as [|n|n]; cbn [shr fst snd]; [|by split; [apply rep_iter|]|lia].
  replace (2 ^ 0 * D) with D by lia. split; [done|lia].
Qed.

(** Rounding to nearest moves by at most half a unit, and not at all from an
    integer. *)
Lemma round_nearest_even_spec mrs N D :
  0 < D -> 0 <= N -> rep mrs N D ->
  let R := round_nearest_even (shr_m mrs) (loc_of_shr_record mrs) in
  Z.abs (2 * R * D - 2 * N) <= D /\ (N mod D = 0 -> R * D = N) /\ 0 <= R.
Proof.
  intros HD HN. destruct mrs as [m r s]. unfold rep. cbn [shr_m shr_r shr_s loc_of_shr_record].
  intros (Hm & Hr & Hs). pose proof (Z.div_mod N D). pose proof (Z.mod_pos_bound N D HD).
  assert (0 <= N / D) by (apply Z.div_pos; lia).
  set (q := N / D) in *. set (t := N mod D) in *.
  destruct r, s; cbn [round_nearest_even];
    try (destruct (Z.even m)); subst m; (split_and!; [nia|nia|lia]) || (split_and!; nia).
Qed.

Definition mkf (s : bool) (m e : Z) : f64 :=
  match m with Zpos p => S754_finite s p e | _ => S754_zero s end.

Lemma fexp_eq e : fexp 53 1024 e = Z.max (e - 53) (-1074).
Proof. done. Qed.

(** A mantissa of at most 53 bits is left alone by the second normalisation. *)
Lemma shr_fexp_short R e l :
  0 <= R < 2 ^ 53 -> -1074 <= e -> shr_fexp 53 1024 R e l = (shr_record_of_loc R l, e).
Proof.
  intros HR He. unfold shr_fexp. rewrite fexp_eq.
  assert (Zdigits2 R <= 53) as Hd.
  { destruct R as [|p|p]; cbn; [lia| |lia]. pose proof (digits2_pos_bounds p) as B.
    destruct (decide (Zpos (digits2_pos p) <= 53)); [done|].
    pose proof (Z.pow_le_mono_r 2 53 (Zpos (digits2_pos p) - 1)). lia. }
  destruct (Z.max (Zdigits2 R + e - 53) (-1074) - e) eqn:E; [done|lia|done].
Qed.

(** A rounded mantissa in range becomes the float, renormalised when rounding
    carried into a 54th bit. *)
Lemma finish_round s R e :
  0 <= R <= 2 ^ 53 -> -1074 <= e -> e + 1 <= 971 ->
  (let '(mrs, e') := shr_fexp 53 1024 R e loc_Exact in
   match shr_m mrs with
   | Z0 => S754_zero s
   | Zpos m => if e' <=? 1024 - 53 then S754_finite s m e' else S754_infinity s
   | _ => S754_nan
   end) = if R =? 2 ^ 53 then mkf s (2 ^ 52) (e + 1) else mkf s R e.
Proof.
  intros HR He He'. destruct (R =? 2 ^ 53) eqn:E.
  - apply Z.eqb_eq in E. subst R. unfold shr_fexp. rewrite fexp_eq.
    change (Zdigits2 (2 ^ 53)) with 54.
    replace (Z.max (54 + e - 53) (-1074) - e) with 1 by lia. cbn [shr fst].
    change (SpecFloat.iter_pos shr_1 1 (shr_record_of_loc (2 ^ 53) loc_Exact))
      with {| shr_m := 2 ^ 52; shr_r := false; shr_s := false |}. cbn [shr_m].
    change (2 ^ 52) with (Zpos (2 ^ 52)). rewrite (proj2 (Z.leb_le _ _)) by lia. done.
  - apply Z.eqb_neq in E. rewrite shr_fexp_short by lia. cbn [shr_record_of_loc shr_m].
    destruct R as [|p|p]; [done| |lia]. rewrite (proj2 (Z.leb_le _ _)) by lia. done.
Qed.

(** Correct rounding: in the absence of overflow, the float computed for the
    exact value [N / D * 2 ^ ex] is within half a unit in its last place, has a
    full mantissa or the least exponent, and is exact when it can be. *)
Lemma binary_round_aux_spec s mx ex l N D :
  0 < D -> 0 <= N -> rep (shr_record_of_loc (Zpos mx) l) N D ->
  let e1 := fexp 53 1024 (Zpos (digits2_pos mx) + ex) in
  ex <= e1 -> e1 + 1 <= 971 ->
  exists m e, binary_round_aux 53 1024 s (Zpos mx) ex l = mkf s m e /\
    (e = e1 \/ e = e1 + 1 /\ m = 2 ^ 52) /\ 0 <= m < 2 ^ 53 /\ (2 ^ 52 <= m \/ e = -1074) /\
    Z.abs (2 * m * 2 ^ (e - ex) * D - 2 * N) <= D * 2 ^ (e - ex) /\
    (N mod (2 ^ (e1 - ex) * D) = 0 -> m * 2 ^ (e - ex) * D = N).
Proof.
  intros HD HN Hrep e1 Hex He1.
  assert (-1074 <= e1) as Hmin by (unfold e1; rewrite fexp_eq; lia).
  unfold binary_round_aux.
  assert (shr_fexp 53 1024 (Zpos mx) ex l = shr (shr_record_of_loc (Zpos mx) l) ex (e1 - ex))
    as -> by done.
  destruct (rep_shr (e1 - ex) (shr_record_of_loc (Zpos mx) l) N D ex) as [Hrep1 Hee];
    [lia..|done|].
  destruct (shr _ ex (e1 - ex)) as [mrs e']. cbn [fst snd] in Hrep1, Hee.
  replace e' with e1 by lia. clear e' Hee.
  set (D1 := 2 ^ (e1 - ex) * D) in *.
  assert (0 < 2 ^ (e1 - ex)) as Hp by (apply Z.pow_pos_nonneg; lia).
  assert (0 < D1) as HD1 by (unfold D1; nia).
  destruct (round_nearest_even_spec mrs N D1) as (Herr & Hexact & HR0); [done..|].
  set (R := round_nearest_even (shr_m mrs) (loc_of_shr_record mrs)) in *.
  assert (Zpos mx = N / D) as Hmx by (destruct Hrep as [H _]; destruct l as [|[]]; exact H).
  assert (N / D1 = Zpos mx / 2 ^ (e1 - ex)) as Hq.
  { unfold D1. rewrite Hmx, Z.div_div by lia. f_equal. lia. }
  pose proof (digits2_pos_bounds mx) as [Hlo Hhi].
  assert (N / D1 < 2 ^ 53) as Hqhi.
  { rewrite Hq. apply Z.div_lt_upper_bound; [lia|]. rewrite <- Z.pow_add_r by lia.
    eapply Z.lt_le_trans; [exact Hhi|]. apply Z.pow_le_mono_r; [lia|].
    unfold e1. rewrite fexp_eq. lia. }
  assert (2 ^ 52 <= N / D1 \/ e1 = -1074) as Hqlo.
  { destruct (decide (e1 = -1074)) as [|Hne]; [by right|left]. rewrite Hq.
    apply Z.div_le_lower_bound; [lia|]. rewrite <- Z.pow_add_r by lia.
    eapply Z.le_trans; [|exact Hlo]. apply Z.pow_le_mono_r; [lia|].
    unfold e1 in *. rewrite fexp_eq in *. lia. }
  pose proof (Z.div_mod N D1) as Hdm. pose proof (Z.mod_pos_bound N D1 HD1).
  assert (N / D1 <= R <= N / D1 + 1) as HR by nia.
  pose proof (finish_round s R e1) as Hfin. destruct (shr_fexp 53 1024 R e1 loc_Exact) as [mrs2 e2].
  rewrite Hfin by lia. clear Hfin mrs2 e2.
  destruct (R =? 2 ^ 53) eqn:E; [apply Z.eqb_eq in E|apply Z.eqb_neq in E].
  - exists (2 ^ 52), (e1 + 1). replace (e1 + 1 - ex) with (e1 - ex + 1) by lia.
    rewrite Z.pow_add_r by lia. change (2 ^ 1) with 2. rewrite E in *.
    change (2 ^ 53) with (2 * 2 ^ 52) in *.
    split_and!; [done|by right|lia|lia|by left|unfold D1 in *; nia|].
    intros Hz. specialize (Hexact Hz). unfold D1 in *. nia.
  - exists R, e1. split_and!; [done|by left|lia|lia| |unfold D1 in *; nia|].
    + destruct Hqlo; [left; lia|by right].
    + intros Hz. specialize (Hexact Hz). unfold D1 in *. nia.
Qed.

(** ** The operations on normal operands *)

(** A full 53-bit mantissa. *)
Definition full (m : positive) : Prop := 2 ^ 52 <= Zpos m < 2 ^ 53.

Lemma full_digits m : full m -> Zpos (digits2_pos m) = 53.
Proof. intros H. apply digits2_pos_unique; [lia|exact H]. Qed.

Lemma rep_exact m : rep (shr_record_of_loc (Zpos m) loc_Exact) (Zpos m) 1.
Proof. unfold rep. cbn [shr_record_of_loc shr_m shr_r shr_s]. by rewrite Z.mod_1_r, Z.div_1_r. Qed.

Lemma rep_new_location N D :
  0 < D -> rep (shr_record_of_loc (N / D) (new_location D (N mod D))) N D.
Proof.
  intros HD. pose proof (Z.mod_pos_bound N D HD). unfold rep, new_location.
  set (r := N mod D) in *. pose proof (Z.mod_pos_bound D 2). pose proof (Z.div_mod D 2).
  rewrite Zeven_mod. unfold new_location_even, new_location_odd.
  destruct (D mod 2 =? 0) eqn:E; [apply Z.eqb_eq in E|apply Z.eqb_neq in E];
    (destruct (r =? 0) eqn:Er; [apply Z.eqb_eq in Er|apply Z.eqb_neq in Er]);
    try (cbn; split_and!; done || lia).
  - destruct (Z.compare_spec (2 * r) D); cbn [shr_record_of_loc shr_m shr_r shr_s];
      split_and!; done || lia.
  - destruct (Z.compare_spec (2 * r + 1) D); cbn [shr_record_of_loc shr_m shr_r shr_s];
      split_and!; done || lia.
Qed.

(** [d + 1] digits of a product with a small factor. *)
Lemma digits_le p k : Zpos p < 2 ^ k -> 0 <= k -> Zpos (digits2_pos p) <= k.
Proof.
  intros H Hk. pose proof (digits2_pos_bounds p).
  destruct (decide (Zpos (digits2_pos p) <= k)); [done|].
  pose proof (Z.pow_le_mono_r 2 k (Zpos (digits2_pos p) - 1)). lia.
Qed.

Lemma digits_ge p k : 2 ^ k <= Zpos p -> 0 <= k -> k + 1 <= Zpos (digits2_pos p).
Proof.
  intros H Hk. pose proof (digits2_pos_bounds p).
  destruct (decide (k + 1 <= Zpos (digits2_pos p))); [done|].
  pose proof (Z.pow_le_mono_r 2 (Zpos (digits2_pos p)) k). lia.
Qed.

(** Rounding a normal result: the statement both operations use.  Exact values
    of the form [k * 2 ^ j] with a 53-bit [k] are returned unchanged. *)
Lemma round_normal s mx ex l N D :
  0 < D -> 0 <= N -> rep (shr_record_of_loc (Zpos mx) l) N D ->
  53 <= Zpos (digits2_pos mx) -> -1000 <= ex <= 800 -> Zpos (digits2_pos mx) <= 106 ->
  exists m e, binary_round_aux 53 1024 s (Zpos mx) ex l = S754_finite s m e /\ full m /\
    ex + Zpos (digits2_pos mx) - 53 <= e <= ex + Zpos (digits2_pos mx) - 52 /\
    Z.abs (2 * Zpos m * 2 ^ (e - ex) * D - 2 * N) <= D * 2 ^ (e - ex) /\
    (forall k j, 0 < k < 2 ^ 53 -> 0 <= j -> N = k * 2 ^ j * D -> Zpos m * 2 ^ (e - ex) * D = N).
Proof.
  intros HD HN Hrep Hd Hex Hd2. set (d := Zpos (digits2_pos mx)) in *.
  assert (fexp 53 1024 (d + ex) = d + ex - 53) as He by (rewrite fexp_eq; lia).
  destruct (binary_round_aux_spec s mx ex l N D) as (m & e & -> & Hcase & Hm & Hm' & Herr & Hx);
    fold d; rewrite ?He; [done..|lia|lia|]. fold d in Hcase, Hx. rewrite He in Hcase, Hx.
  assert (2 ^ 52 <= m) as Hlo by (destruct Hm' as [|Hm']; [done|destruct Hcase; lia]).
  destruct m as [|m|m]; [lia| |lia]. exists m, e.
  split_and!; [done|split; lia|lia|lia|exact Herr|].
  intros k j Hk Hj E. apply Hx. rewrite E.
  assert (Zpos mx = k * 2 ^ j) as Emx.
  { assert (Zpos mx = N / D) as -> by (destruct Hrep as [H _]; destruct l as [|[]]; exact H).
    rewrite E. apply Z.div_mul. lia. }
  assert (d <= 53 + j) as Hdj.
  { apply digits_le; [|lia]. rewrite Emx, Z.pow_add_r by lia.
    pose proof (Z.pow_pos_nonneg 2 j). nia. }
  replace (d + ex - 53 - ex) with (d - 53) by lia.
  replace j with ((d - 53) + (j - (d - 53))) by lia. rewrite Z.pow_add_r by lia.
  replace (k * (2 ^ (d - 53) * 2 ^ (j - (d - 53))) * D)
    with (k * 2 ^ (j - (d - 53)) * (2 ^ (d - 53) * D)) by ring.
  apply Z.mod_mul. pose proof (Z.pow_pos_nonneg 2 (d - 53)). nia.
Qed.

Lemma fmul_spec s1 m1 e1 s2 m2 e2 :
  full m1 -> full m2 -> -400 <= e1 <= 400 -> -400 <= e2 <= 400 ->
  exists m e, fmul (S754_finite s1 m1 e1) (S754_finite s2 m2 e2) = S754_finite (xorb s1 s2) m e /\
    full m /\ e1 + e2 + 52 <= e <= e1 + e2 + 54 /\
    Z.abs (2 * Zpos m * 2 ^ (e - (e1 + e2)) - 2 * (Zpos m1 * Zpos m2)) <= 2 ^ (e - (e1 + e2)) /\
    (forall k j, 0 < k < 2 ^ 53 -> 0 <= j -> Zpos m1 * Zpos m2 = k * 2 ^ j ->
       Zpos m * 2 ^ (e - (e1 + e2)) = Zpos m1 * Zpos m2).
Proof.
  intros [L1 H1] [L2 H2] He1 He2. unfold fmul, SFmul.
  assert (105 <= Zpos (digits2_pos (m1 * m2)) <= 106) as Hd.
  { assert (2 ^ 104 <= Zpos (m1 * m2) < 2 ^ 106).
    { change (2 ^ 104) with (2 ^ 52 * 2 ^ 52). change (2 ^ 106) with (2 ^ 53 * 2 ^ 53).
      rewrite Pos2Z.inj_mul. split; [apply Z.mul_le_mono_nonneg | apply Z.mul_lt_mono_nonneg]; lia. }
    split; [apply (digits_ge _ 104) | apply digits_le]; lia. }
  destruct (round_normal (xorb s1 s2) (m1 * m2) (e1 + e2) loc_Exact (Zpos (m1 * m2)) 1)
    as (m & e & -> & Hf & He & Herr & Hx); [lia|lia|apply rep_exact|lia..|].
  exists m, e. rewrite Pos2Z.inj_mul in *. split_and!; try done; try lia.
  intros k j Hk Hj E. specialize (Hx k j Hk Hj). lia.
Qed.

Lemma fdiv_spec s1 m1 e1 s2 m2 e2 :
  full m1 -> full m2 -> -400 <= e1 <= 400 -> -400 <= e2 <= 400 ->
  exists m e, fdiv (S754_finite s1 m1 e1) (S754_finite s2 m2 e2) = S754_finite (xorb s1 s2) m e /\
    full m /\ e1 - e2 - 53 <= e <= e1 - e2 - 51 /\
    Z.abs (2 * Zpos m * 2 ^ (e - (e1 - e2 - 53)) * Zpos m2 - 2 * (Zpos m1 * 2 ^ 53))
      <= Zpos m2 * 2 ^ (e - (e1 - e2 - 53)) /\
    (forall k j, 0 < k < 2 ^ 53 -> 0 <= j -> Zpos m1 * 2 ^ 53 = k * 2 ^ j * Zpos m2 ->
       Zpos m * 2 ^ (e - (e1 - e2 - 53)) * Zpos m2 = Zpos m1 * 2 ^ 53).
Proof.
  intros F1 F2 He1 He2. pose proof (full_digits m1 F1) as D1. pose proof (full_digits m2 F2) as D2.
  destruct F1 as [L1 H1], F2 as [L2 H2].
  assert (SFdiv_core_binary 53 1024 (Zpos m1) e1 (Zpos m2) e2 =
    ((Zpos m1 * 2 ^ 53) / Zpos m2, e1 - e2 - 53,
     new_location (Zpos m2) ((Zpos m1 * 2 ^ 53) mod Zpos m2))) as Hcore.
  { unfold SFdiv_core_binary. cbn [Zdigits2]. rewrite D1, D2, fexp_eq.
    replace (Z.min (Z.max (53 + e1 - (53 + e2) - 53) (-1074)) (e1 - e2)) with (e1 - e2 - 53) by lia.
    replace (e1 - e2 - (e1 - e2 - 53)) with 53 by lia. rewrite Z.shiftl_mul_pow2 by lia.
    unfold Z.div, Z.modulo. by destruct (Z.div_eucl _ _). }
  assert (2 ^ 52 <= (Zpos m1 * 2 ^ 53) / Zpos m2) as Qlo.
  { apply Z.div_le_lower_bound; lia. }
  assert ((Zpos m1 * 2 ^ 53) / Zpos m2 < 2 ^ 54) as Qhi by (apply Z.div_lt_upper_bound; lia).
  unfold fdiv, SFdiv. rewrite Hcore. pose proof (rep_new_location (Zpos m1 * 2 ^ 53) (Zpos m2)) as Hr.
  destruct ((Zpos m1 * 2 ^ 53) / Zpos m2) as [|q|q]; [lia| |lia].
  assert (53 <= Zpos (digits2_pos q) <= 54) as Hd.
  { split; [apply (digits_ge q 52) | apply digits_le]; lia. }
  specialize (Hr ltac:(lia)).
  destruct (round_normal (xorb s1 s2) q (e1 - e2 - 53) _ _ _ (Pos2Z.is_pos m2)
    (Z.lt_le_incl _ _ (Z.mul_pos_pos _ _ (Pos2Z.is_pos m1) (Z.pow_pos_nonneg 2 53 eq_refl ltac:(lia)))) Hr)
    as (m & e & -> & Hf & He & Herr & Hx); [lia..|].
  exists m, e. split_and!; try done; lia.
Qed.

(** Integers below 2^53 are exact. *)
Lemma of_Z_spec n :
  0 < n < 2 ^ 53 ->
  exists m e, of_Z n = S754_finite false m e /\ full m /\ -52 <= e <= 0 /\ Zpos m = n * 2 ^ (- e).
Proof.
  intros Hn. destruct n as [|p|p]; [lia| |lia]. unfold of_Z, binary_normalize, binary_round.
  pose proof (digits2_pos_bounds p) as [Lp Hp]. set (d := Zpos (digits2_pos p)) in *.
  assert (1 <= d) by (unfold d; lia).
  assert (d <= 53) as Hd by (apply digits_le; lia).
  rewrite Z.add_0_r, fexp_eq. replace (Z.max (d - 53) (-1074)) with (d - 53) by lia.
  assert (exists q, shl_align p 0 (d - 53) = (q, d - 53) /\ Zpos q = Zpos p * 2 ^ (53 - d))
    as (q & -> & Hq).
  { unfold shl_align. destruct (d - 53 - 0) as [|k|k] eqn:E.
    - exists p. replace d with 53 by lia. split; [f_equal; lia|lia].
    - lia.
    - eexists. split; [done|].
      replace (53 - d) with (Zpos k) by lia.
      clear.
      induction k as [|k IH] using Pos.peano_ind; [cbn; lia|].
      rewrite Pos.iter_succ, Pos2Z.inj_succ, Z.pow_succ_r by lia. lia. }
  assert (full q) as Hf.
  { unfold full. rewrite Hq. split.
    - replace 52 with ((d - 1) + (53 - d)) by lia. rewrite Z.pow_add_r by lia.
      apply Z.mul_le_mono_nonneg_r; [apply Z.pow_nonneg; lia|lia].
    - replace 53 with (d + (53 - d)) at 2 by lia. rewrite Z.pow_add_r by lia.
      apply Z.mul_lt_mono_pos_r; [apply Z.pow_pos_nonneg; lia|lia]. }
  destruct (round_normal false q (d - 53) loc_Exact (Zpos q) 1) as (m & e & -> & Hfm & He & _ & Hx);
    [lia|lia|apply rep_exact|rewrite ?(full_digits q Hf); lia..|].
  rewrite (full_digits q Hf) in He.
  specialize (Hx (Zpos q) 0). destruct Hf as [Lq Uq], Hfm as [Lm Um].
  assert (e = d - 53 /\ m = q) as [-> ->].
  { destruct (decide (e = d - 53)) as [->|Hne].
    - split; [done|]. rewrite Z.sub_diag in Hx. lia.
    - replace (e - (d - 53)) with 1 in Hx by lia. lia. }
  exists q, (d - 53). split_and!; try done; try lia. rewrite Hq. do 2 f_equal. lia.
Qed.

(** * Decimal rounding

    [roundTo p x] is [math.Round(x*p)/p], the body of the [roundFloat] helpers. *)
Definition roundTo (p : Z) (x : f64) : f64 := fdiv (Round (fmul x (of_Z p))) (of_Z p).

(** Every Go [float64] is [valid]: the pair of mantissa and exponent is the
    canonical one. *)
Definition valid (x : f64) : Prop := valid_binary 53 1024 x = true.

(** [|x| <= B]. *)
Definition in_range (B : Z) (x : f64) : bool :=
  match x with
  | S754_zero _ => true
  | S754_finite _ m e => if 0 <=? e then Zpos m * 2 ^ e <=? B else Zpos m <=? B * 2 ^ (- e)
  | _ => false
  end.

Lemma valid_finite s m e : valid (S754_finite s m e) -> full m \/ (e = -1074 /\ Zpos m < 2 ^ 53).
Proof.
  unfold valid. cbn [valid_binary]. unfold bounded, canonical_mantissa. rewrite fexp_eq.
  intros [H _]%andb_prop. apply Z.eqb_eq in H. pose proof (digits2_pos_bounds m) as [L U].
  destruct (decide (Zpos (digits2_pos m) = 53)) as [E|E].
  - left. rewrite E in *. split; lia.
  - right. pose proof (Z.pow_le_mono_r 2 (Zpos (digits2_pos m)) 53). split; lia.
Qed.

Lemma in_range_mono B B' x : B <= B' -> in_range B x = true -> in_range B' x = true.
Proof.
  intros HB. destruct x as [s|s| |s m e]; try done. cbn [in_range].
  destruct (0 <=? e) eqn:E; intros H%Z.leb_le; apply Z.leb_le; [lia|].
  apply Z.leb_gt in E. pose proof (Z.pow_pos_nonneg 2 (- e)). nia.
Qed.

(** The divisors in use are powers of ten up to 10^6. *)
Definition small_divisor (p : Z) : Prop := 0 < p <= 2 ^ 20.

(** The quotient of two integers, as a normal float with a negative exponent. *)
Lemma fdiv_integers_wide n p :
  0 < n <= 2 ^ 50 -> 0 < p <= 2 ^ 24 ->
  exists m a, fdiv (of_Z n) (of_Z p) = S754_finite false m (- a) /\ full m /\ 1 <= a <= 200 /\
    Z.abs (2 * Zpos m * p - 2 * (n * 2 ^ a)) <= p /\
    (forall k, n = k * p -> Zpos m = k * 2 ^ a).
Proof.
  intros Hn Hp.
  destruct (of_Z_spec n) as (m1 & e1 & -> & F1 & E1 & V1); [lia|].
  destruct (of_Z_spec p) as (m2 & e2 & -> & F2 & E2 & V2); [lia|].
  assert (e1 <= -2) as He1.
  { destruct (decide (e1 <= -2)); [done|]. exfalso. destruct F1 as [F1 _].
    pose proof (Z.pow_le_mono_r 2 (- e1) 1). rewrite V1 in F1. nia. }
  destruct (fdiv_spec false m1 e1 false m2 e2) as (m & e & -> & F & He & Herr & Hx);
    [done|done|lia|lia|].
  exists m, (- e). rewrite Z.opp_involutive. split_and!; [done|done|lia|lia|..].
  all: set (ex := e1 - e2 - 53) in *; set (K := 2 ^ (e - ex) * 2 ^ (- e2)).
  all: assert (0 < K) as HK by (unfold K; rewrite <- Z.pow_add_r by lia; apply Z.pow_pos_nonneg; lia).
  all: assert (Zpos m1 * 2 ^ 53 = n * 2 ^ (- e) * K) as HN
    by (rewrite V1; unfold K; rewrite <- !Z.mul_assoc, <- !Z.pow_add_r by lia; do 2 f_equal; lia).
  all: rewrite HN, V2 in Herr, Hx.
  - replace (2 * Zpos m * 2 ^ (e - ex) * (p * 2 ^ (- e2)) - 2 * (n * 2 ^ (- e) * K))
      with ((2 * Zpos m * p - 2 * (n * 2 ^ (- e))) * K) in Herr by (unfold K; ring).
    replace (p * 2 ^ (- e2) * 2 ^ (e - ex)) with (p * K) in Herr by (unfold K; ring).
    rewrite Z.abs_mul, (Z.abs_eq K) in Herr by lia. by apply Z.mul_le_mono_pos_r in Herr.
  - intros k Hk.
    assert (Zpos m * 2 ^ (e - ex) * (p * 2 ^ (- e2)) = n * 2 ^ (- e) * K) as Hm.
    { apply (Hx k (- e + (e - ex))); [nia|lia|].
      rewrite Hk, Z.pow_add_r by lia. unfold K. ring. }
    assert (Zpos m * (p * K) = k * 2 ^ (- e) * (p * K)) as Hm'
      by (rewrite Hk in Hm; unfold K in *; lia).
    apply Z.mul_cancel_r in Hm'; [done|]. nia.
Qed.

Lemma fdiv_integers n p :
  0 < n <= 2 ^ 50 -> small_divisor p ->
  exists m a, fdiv (of_Z n) (of_Z p) = S754_finite false m (- a) /\ full m /\ 1 <= a <= 200 /\
    Z.abs (2 * Zpos m * p - 2 * (n * 2 ^ a)) <= p /\
    (forall k, n = k * p -> Zpos m = k * 2 ^ a).
Proof. unfold small_divisor. intros Hn Hp. apply fdiv_integers_wide; lia. Qed.

(** Multiplying a float close to [n / p] by [p] and rounding gives [n]. *)
Lemma Round_fmul_near s m a n p :
  full m -> 1 <= a <= 200 -> 0 < n <= 2 ^ 50 -> small_divisor p ->
  Z.abs (2 * Zpos m * p - 2 * (n * 2 ^ a)) <= p ->
  Round (fmul (S754_finite s m (- a)) (of_Z p)) = signed_of_Z s n.
Proof.
  intros F Ha Hn Hp Hnear. unfold small_divisor in Hp.
  destruct (of_Z_spec p) as (m2 & e2 & -> & F2 & E2 & V2); [lia|].
  destruct (fmul_spec s m (- a) false m2 e2) as (mz & e & -> & Fz & He & Herr & _);
    [done|done|lia|lia|].
  set (t := e - (- a + e2)) in *. rewrite xorb_false_r.
  destruct F as [Fl _], F2 as [_ F2u], Fz as [Fzl _]. rewrite V2 in *.
  assert (0 < 2 ^ (- e2)) as HP by (apply Z.pow_pos_nonneg; lia).
  assert (2 ^ 52 <= 2 ^ t) as Ht by (apply Z.pow_le_mono_r; lia).
  assert (0 < 2 ^ a) as HA by (apply Z.pow_pos_nonneg; lia).
  assert (e <= -2) as Hb.
  { destruct (decide (e <= -2)); [done|]. exfalso.
    assert (2 ^ a * 2 ^ (- e2) <= 2 * 2 ^ t) as Hle.
    { rewrite <- Z.pow_add_r by lia. change 2 with (2 ^ 1) at 2.
      rewrite <- Z.pow_add_r by lia. apply Z.pow_le_mono_r; lia. }
    assert (2 ^ 52 * 2 ^ t <= Zpos mz * 2 ^ t) by (apply Z.mul_le_mono_nonneg_r; lia).
    assert (n * 2 ^ a <= 2 ^ 50 * 2 ^ a) by (apply Z.mul_le_mono_nonneg_r; lia).
    assert (2 * (Zpos m * p) <= 2 * (2 ^ 50 * 2 ^ a) + p) as Hmp by lia.
    assert (2 * (Zpos m * p) * 2 ^ (- e2) <= (2 * (2 ^ 50 * 2 ^ a) + p) * 2 ^ (- e2))
      by (apply Z.mul_le_mono_nonneg_r; lia).
    replace (Zpos m * (p * 2 ^ (- e2))) with (Zpos m * p * 2 ^ (- e2)) in Herr by ring. lia. }
  assert (2 ^ t * 2 ^ (- e) = 2 ^ a * 2 ^ (- e2)) as HtB.
  { rewrite <- !Z.pow_add_r by lia. f_equal. unfold t. lia. }
  assert (4 <= 2 ^ (- e)) as HB by (change 4 with (2 ^ 2); apply Z.pow_le_mono_r; lia).
  assert (Z.abs (2 * Zpos mz * 2 ^ a - 2 * Zpos m * p * 2 ^ (- e)) <= 2 ^ a) as Hz.
  { apply (Z.mul_le_mono_pos_r _ _ (2 ^ (- e2))); [done|].
    rewrite <- (Z.abs_eq (2 ^ (- e2))) at 1 by lia. rewrite <- Z.abs_mul.
    replace ((2 * Zpos mz * 2 ^ a - 2 * Zpos m * p * 2 ^ (- e)) * 2 ^ (- e2))
      with ((2 * Zpos mz * 2 ^ t - 2 * (Zpos m * (p * 2 ^ (- e2)))) * 2 ^ (- e)) by nia.
    rewrite Z.abs_mul, (Z.abs_eq (2 ^ (- e))), <- HtB by lia.
    apply Z.mul_le_mono_nonneg_r; lia. }
  assert (3 * p <= 2 ^ a) as Hpa.
  { assert (2 ^ 52 * p <= Zpos m * p) by (apply Z.mul_le_mono_nonneg_r; lia).
    assert (n * 2 ^ a <= 2 ^ 50 * 2 ^ a) by (apply Z.mul_le_mono_nonneg_r; lia). lia. }
  assert (Z.abs (2 * Zpos mz - 2 * n * 2 ^ (- e)) < 2 ^ (- e)) as Hfin.
  { apply (Z.mul_lt_mono_pos_r (2 ^ a)); [done|].
    rewrite <- (Z.abs_eq (2 ^ a)) at 1 by lia. rewrite <- Z.abs_mul.
    assert (Z.abs (2 * Zpos m * p - 2 * (n * 2 ^ a)) * 2 ^ (- e) <= p * 2 ^ (- e)) as Hn'
      by (apply Z.mul_le_mono_nonneg_r; lia).
    rewrite <- (Z.abs_eq (2 ^ (- e))) in Hn' at 1 by lia. rewrite <- Z.abs_mul in Hn'.
    assert (3 * p * 2 ^ (- e) <= 2 ^ a * 2 ^ (- e)) by (apply Z.mul_le_mono_nonneg_r; lia).
    assert (4 * 2 ^ a <= 2 ^ (- e) * 2 ^ a) by (apply Z.mul_le_mono_nonneg_r; lia). lia. }
  unfold Round. rewrite (proj2 (Z.leb_gt _ _)) by lia. f_equal.
  symmetry. apply (Z.div_unique_pos _ _ _ (Zpos mz + 2 ^ (- e - 1) - 2 ^ (- e) * n)); [|lia].
  assert (2 ^ (- e) = 2 * 2 ^ (- e - 1)) by (rewrite <- Z.pow_succ_r by lia; f_equal; lia). lia.
Qed.

(** A product with an operand far below the units is far below the units. *)
Lemma fmul_tiny s m1 e1 p :
  full m1 \/ (e1 = -1074 /\ Zpos m1 < 2 ^ 53) -> e1 < -400 -> -1074 <= e1 -> small_divisor p ->
  exists m e, fmul (S754_finite s m1 e1) (of_Z p) = mkf s m e /\ 0 <= m < 2 ^ 53 /\ e <= -300.
Proof.
  intros Hm1 He1 Hmin Hp. unfold small_divisor in Hp.
  destruct (of_Z_spec p) as (m2 & e2 & -> & F2 & E2 & V2); [lia|].
  unfold fmul, SFmul. rewrite xorb_false_r. destruct F2 as [L2 U2].
  assert (Zpos m1 < 2 ^ 53) as U1 by (destruct Hm1 as [[_ ?]|[_ ?]]; done).
  assert (Zpos (digits2_pos (m1 * m2)) <= 106) as Hd.
  { apply digits_le; [|lia]. change (2 ^ 106) with (2 ^ 53 * 2 ^ 53). rewrite Pos2Z.inj_mul.
    apply Z.mul_lt_mono_nonneg; lia. }
  assert (53 <= Zpos (digits2_pos (m1 * m2)) \/ e1 = -1074) as Hd'.
  { destruct Hm1 as [[L1 _]|[-> _]]; [left|by right]. apply (digits_ge _ 52); [|lia].
    rewrite Pos2Z.inj_mul. nia. }
  pose proof (digits_ge (m1 * m2) 0) as Hd0.
  destruct (binary_round_aux_spec s (m1 * m2) (e1 + e2) loc_Exact (Zpos (m1 * m2)) 1)
    as (m & e & -> & Hcase & Hm & _); [lia|lia|apply rep_exact|rewrite fexp_eq; lia..|].
  exists m, e. rewrite fexp_eq in Hcase. split_and!; try done; lia.
Qed.

(** The sign of a float, and the exponent of a valid one. *)
Definition sign (x : f64) : bool :=
  match x with
  | S754_zero s | S754_infinity s | S754_finite s _ _ => s
  | S754_nan => false
  end.

Lemma valid_exponent s m e : valid (S754_finite s m e) -> -1074 <= e.
Proof.
  unfold valid. cbn [valid_binary]. unfold bounded, canonical_mantissa. rewrite fexp_eq. lia.
Qed.

(** A float whose value [m * 2^e] is within half a unit of a value at most [K]
    rounds to at most [K]. *)
Lemma round_le_bound m e K :
  e < 0 -> 2 * m <= 2 * K * 2 ^ (- e) + 1 -> 0 <= m -> 0 <= (m + 2 ^ (- e - 1)) / 2 ^ (- e) <= K.
Proof.
  intros He Hm H0.
  assert (2 ^ (- e) = 2 * 2 ^ (- e - 1)) as Hh by (rewrite <- Z.pow_succ_r by lia; f_equal; lia).
  assert (0 < 2 ^ (- e - 1)) by (apply Z.pow_pos_nonneg; lia).
  split; [apply Z.div_pos; lia|]. apply Z.lt_succ_r, Z.div_lt_upper_bound; nia.
Qed.

(** Rounding the product of a float of the normal range. *)
Lemma Round_fmul_normal s m e p B :
  full m -> -400 <= e -> in_range B (S754_finite s m e) = true -> 0 < B <= 2 ^ 29 -> small_divisor p ->
  exists n, Round (fmul (S754_finite s m e) (of_Z p)) = signed_of_Z s n /\ 0 <= n <= B * p.
Proof.
  intros [L U] He Hr HB Hp. unfold small_divisor in Hp. cbn [in_range] in Hr.
  destruct (0 <=? e) eqn:E0; [apply Z.leb_le in E0|apply Z.leb_gt in E0].
  { exfalso. apply Z.leb_le in Hr. pose proof (Z.pow_pos_nonneg 2 e). nia. }
  apply Z.leb_le in Hr. destruct (of_Z_spec p) as (m2 & e2 & -> & F2 & E2 & V2); [lia|].
  destruct (fmul_spec s m e false m2 e2) as (mz & ez & -> & Fz & Hez & Herr & _);
    [by split|done|lia|lia|]. rewrite xorb_false_r.
  set (t := ez - (e + e2)) in *. destruct Fz as [Lz Uz]. rewrite V2 in Herr.
  assert (0 < 2 ^ (- e)) by (apply Z.pow_pos_nonneg; lia).
  assert (0 < 2 ^ (- e2)) by (apply Z.pow_pos_nonneg; lia).
  assert (2 ^ 52 <= 2 ^ t) by (apply Z.pow_le_mono_r; lia).
  assert (Zpos m * (p * 2 ^ (- e2)) <= B * p * 2 ^ (- e + - e2)) as Hprod.
  { rewrite Z.pow_add_r by lia.
    replace (B * p * (2 ^ (- e) * 2 ^ (- e2))) with (B * 2 ^ (- e) * (p * 2 ^ (- e2))) by ring.
    apply Z.mul_le_mono_nonneg_r; [nia|lia]. }
  assert (B * p <= 2 ^ 49) as HBp
    by (change (2 ^ 49) with (2 ^ 29 * 2 ^ 20); apply Z.mul_le_mono_nonneg; lia).
  assert (ez < 0) as Hneg.
  { destruct (decide (ez < 0)); [done|]. exfalso.
    assert (2 ^ (- e + - e2) <= 2 ^ t) by (apply Z.pow_le_mono_r; lia).
    assert (2 ^ 52 * 2 ^ t <= Zpos mz * 2 ^ t) by (apply Z.mul_le_mono_nonneg_r; lia). nia. }
  replace (- e + - e2) with (t + - ez) in Hprod by (unfold t; lia).
  rewrite Z.pow_add_r in Hprod by lia.
  assert (2 * Zpos mz <= 2 * (B * p) * 2 ^ (- ez) + 1) as Hmz
    by (apply (Z.mul_le_mono_pos_r _ _ (2 ^ t)); lia).
  cbn [Round]. rewrite (proj2 (Z.leb_gt _ _)) by lia. eexists. split; [done|].
  by apply round_le_bound.
Qed.

(** Rounding a bounded product gives an integer within the scaled bound. *)
Lemma Round_fmul_bounded x p B :
  valid x -> in_range B x = true -> 0 < B <= 2 ^ 29 -> small_divisor p ->
  exists n, Round (fmul x (of_Z p)) = signed_of_Z (sign x) n /\ 0 <= n <= B * p.
Proof.
  intros Hv Hr HB Hp. pose proof Hp as Hp'. unfold small_divisor in Hp'.
  destruct x as [s|s| |s m e]; try done.
  { destruct (of_Z_spec p) as (m2 & e2 & -> & _); [lia|]. exists 0.
    split; [|nia]. cbn. by rewrite xorb_false_r. }
  apply valid_finite in Hv as Hc. apply valid_exponent in Hv as Hmin.
  destruct (decide (e < -400)) as [Htiny|Hnt].
  - destruct (fmul_tiny s m e p) as (m' & e' & -> & Hm' & He'); [done..|].
    exists 0. split; [|nia]. destruct m' as [|m'|m']; [done| |lia].
    cbn [mkf Round]. rewrite (proj2 (Z.leb_gt _ _)) by lia. f_equal. apply Z.div_small.
    assert (2 ^ (- e') = 2 * 2 ^ (- e' - 1)) by (rewrite <- Z.pow_succ_r by lia; f_equal; lia).
    pose proof (Z.pow_le_mono_r 2 53 (- e' - 1)). lia.
  - destruct Hc as [F|[? _]]; [|lia]. by apply Round_fmul_normal; [|lia|..].
Qed.

(** Signs factor out of the operations. *)
Lemma fdiv_signed_wide s n p :
  0 < n <= 2 ^ 50 -> 0 < p <= 2 ^ 24 ->
  fdiv (signed_of_Z s n) (of_Z p) =
    match fdiv (of_Z n) (of_Z p) with S754_finite _ m e => S754_finite s m e | x => x end.
Proof.
  intros Hn Hp.
  destruct (of_Z_spec n) as (m1 & e1 & E1 & F1 & B1 & _); [lia|].
  destruct (of_Z_spec p) as (m2 & e2 & E2 & F2 & B2 & _); [lia|].
  assert (signed_of_Z s n = S754_finite s m1 e1) as ->.
  { destruct n as [|q|q]; [lia| |lia]. unfold signed_of_Z. rewrite E1. by destruct s. }
  rewrite E1, E2.
  destruct (fdiv_spec false m1 e1 false m2 e2) as (m & e & H & _); [done|done|lia|lia|].
  revert H. unfold fdiv, SFdiv. destruct (SFdiv_core_binary _ _ _ _ _ _) as [[q eq] l].
  unfold binary_round_aux. destruct (shr_fexp 53 1024 q eq l) as [mrs e'].
  destruct (shr_fexp 53 1024 _ e' loc_Exact) as [mrs' e''].
  rewrite !xorb_false_r. destruct (shr_m mrs') as [|k|k]; try done.
  by destruct (e'' <=? 1024 - 53).
Qed.

Lemma fdiv_signed s n p :
  0 < n <= 2 ^ 50 -> small_divisor p ->
  fdiv (signed_of_Z s n) (of_Z p) =
    match fdiv (of_Z n) (of_Z p) with S754_finite _ m e => S754_finite s m e | x => x end.
Proof. unfold small_divisor. intros Hn Hp. apply fdiv_signed_wide; lia. Qed.

(** [n / p] is a fixed point of rounding to multiples of [1 / p]. *)
Lemma roundTo_quotient s n p :
  0 <= n <= 2 ^ 50 -> small_divisor p ->
  roundTo p (fdiv (signed_of_Z s n) (of_Z p)) = fdiv (signed_of_Z s n) (of_Z p).
Proof.
  intros Hn Hp. unfold roundTo. f_equal. destruct (decide (n = 0)) as [->|Hne].
  - destruct (of_Z_spec p) as (m2 & e2 & -> & _); [unfold small_divisor in *; lia|].
    cbn. by rewrite !xorb_false_r.
  - rewrite fdiv_signed by (done || lia).
    destruct (fdiv_integers n p) as (m & a & -> & F & Ha & Hnear & _); [lia|done|].
    by apply Round_fmul_near; [..|lia|done|].
Qed.

(** Decimal rounding yields a quotient of integers of the same sign. *)
Lemma roundTo_as_quotient B p x :
  valid x -> in_range B x = true -> 0 < B <= 2 ^ 29 -> small_divisor p ->
  exists n, roundTo p x = fdiv (signed_of_Z (sign x) n) (of_Z p) /\ 0 <= n <= B * p.
Proof.
  intros Hv Hr HB Hp. destruct (Round_fmul_bounded x p B Hv Hr HB Hp) as (n & E & Hn).
  exists n. split; [|done]. unfold roundTo. by rewrite E.
Qed.

Lemma roundTo_idem p x :
  valid x -> in_range (2 ^ 29) x = true -> small_divisor p ->
  roundTo p (roundTo p x) = roundTo p x.
Proof.
  intros Hv Hr Hp. destruct (roundTo_as_quotient (2 ^ 29) p x Hv Hr) as (n & -> & Hn); [lia|done|].
  apply roundTo_quotient; [|done]. unfold small_divisor in Hp. lia.
Qed.

(** Rounding to six decimals keeps a multiple of [1 / 100]: the coarsened values
    are fixed points of the finer rounding. *)
Lemma roundTo_finer s n p c :
  0 < n -> n * c <= 2 ^ 50 -> 0 < c -> small_divisor (p * c) -> small_divisor p ->
  Round (fmul (fdiv (signed_of_Z s n) (of_Z p)) (of_Z (p * c))) = signed_of_Z s (n * c).
Proof.
  intros Hn Hnc Hc Hpc Hp. rewrite fdiv_signed by (done || nia).
  destruct (fdiv_integers n p) as (m & a & -> & F & Ha & Hnear & _); [nia|done|].
  apply Round_fmul_near; try done; [nia|].
  replace (2 * Zpos m * (p * c) - 2 * (n * c * 2 ^ a)) with ((2 * Zpos m * p - 2 * (n * 2 ^ a)) * c) by ring.
  rewrite Z.abs_mul, (Z.abs_eq c) by lia. apply Z.mul_le_mono_nonneg_r; lia.
Qed.

(** Decimal rounding of a bounded float is finite. *)
Definition is_finite (x : f64) : bool :=
  match x with S754_zero _ | S754_finite _ _ _ => true | _ => false end.

Lemma roundTo_is_finite p x :
  valid x -> in_range (2 ^ 29) x = true -> small_divisor p -> is_finite (roundTo p x) = true.
Proof.
  intros Hv Hr Hp. destruct (roundTo_as_quotient (2 ^ 29) p x Hv Hr) as (n & -> & Hn); [lia|done|].
  unfold small_divisor in Hp. destruct (decide (n = 0)) as [->|Hne].
  - destruct (of_Z_spec p) as (m2 & e2 & -> & _); [unfold small_divisor in *; lia|done].
  - rewrite fdiv_signed by (done || lia).
    by destruct (fdiv_integers n p) as (m & a & -> & _); [lia|done|].
Qed.

Lemma gcd_pow2_odd k q : Z.gcd (2 ^ Z.of_nat k) (2 * q + 1) = 1.
Proof.
  apply Z.coprime_pow_l; [lia|]. unfold Z.coprime.
  rewrite Z.add_comm, Z.mul_comm, Z.gcd_add_mult_diag_r. apply Z.gcd_1_r.
Qed.

(** ** Uniqueness of the quotient

    Two full mantissas within half a unit of the same quotient of integers
    coincide, far enough from the precision limit. *)
Lemma near_cancel p x y X :
  0 < p -> Z.abs (2 * x * p - X) <= p -> Z.abs (2 * y * p - X) <= p -> Z.abs (x - y) <= 1.
Proof.
  intros Hp Hx Hy. assert (Z.abs (x - y) * p <= 1 * p) as H.
  { rewrite <- (Z.abs_eq p) at 1 by lia. rewrite <- Z.abs_mul, Z.mul_sub_distr_r. lia. }
  by apply Z.mul_le_mono_pos_r in H.
Qed.

Lemma quotient_unique_le n p m a m' a' :
  0 < n <= 2 ^ 30 -> 0 < p <= 2 ^ 20 -> full m -> full m' -> 1 <= a <= a' ->
  Z.abs (2 * Zpos m * p - 2 * (n * 2 ^ a)) <= p ->
  Z.abs (2 * Zpos m' * p - 2 * (n * 2 ^ a')) <= p ->
  a = a' /\ m = m'.
Proof.
  intros Hn Hp [L U] [L' U'] Ha H H'.
  assert (0 < 2 ^ a) by (apply Z.pow_pos_nonneg; lia).
  assert (2 ^ 52 * p <= Zpos m * p) as Lp by (apply Z.mul_le_mono_nonneg_r; lia).
  assert (Zpos m' * p <= (2 ^ 53 - 1) * p) as Up by (apply Z.mul_le_mono_nonneg_r; lia).
  assert (22 <= a) as Ha22.
  { destruct (decide (22 <= a)); [done|]. exfalso.
    pose proof (Z.pow_le_mono_r 2 a 21).
    assert (n * 2 ^ a <= 2 ^ 30 * 2 ^ 21) by (apply Z.mul_le_mono_nonneg; lia). lia. }
  assert (2 ^ a = 2 ^ 22 * 2 ^ (a - 22)) as Ea by (rewrite <- Z.pow_add_r by lia; f_equal; lia).
  set (w := 2 ^ (a - 22)) in *. assert (0 < w) by (apply Z.pow_pos_nonneg; lia).
  destruct (decide (a = a')) as [<-|Hne].
  - split; [done|]. apply Pos2Z.inj.
    assert (Z.abs (Zpos m - Zpos m') <= 1) as Hd by (apply (near_cancel p _ _ (2 * (n * 2 ^ a))); lia).
    destruct (decide (Zpos m = Zpos m')) as [|Hd']; [done|]. exfalso.
    assert (exists q, (2 * q + 1) * p = 2 * (n * 2 ^ a) /\ (Zpos m = q \/ Zpos m' = q)) as (q & Hq & Hqm).
    { destruct (decide (Zpos m = Zpos m' + 1)) as [E|E]; [exists (Zpos m'); rewrite E in *|
        exists (Zpos m); replace (Zpos m') with (Zpos m + 1) in * by lia]; split; lia. }
    assert ((2 ^ 22 | p)) as [k Hk].
    { apply (Z.gauss _ (2 * q + 1)); [exists (2 * n * w); lia|].
      apply (gcd_pow2_odd 22). }
    lia.
  - exfalso. assert (2 ^ a' = 2 ^ (a + 1) * 2 ^ (a' - a - 1)) as Ea'
      by (rewrite <- Z.pow_add_r by lia; f_equal; lia).
    assert (1 <= 2 ^ (a' - a - 1)) by (pose proof (Z.pow_pos_nonneg 2 (a' - a - 1)); lia).
    rewrite Z.pow_add_r in Ea' by lia. set (v := 2 ^ (a' - a - 1)) in *.
    assert (0 < n * 2 ^ a) by (apply Z.mul_pos_pos; lia).
    assert (n * 2 ^ a * 1 <= n * 2 ^ a * v) by (apply Z.mul_le_mono_nonneg_l; lia).
    assert (4 * (n * 2 ^ a) <= 2 * (n * 2 ^ a')) by (rewrite Ea'; lia).
    (* the value is just below a power of two, by a multiple of 2^22 units *)
    assert (2 ^ 53 * p - 2 * (n * 2 ^ a) = 2 ^ 22 * (2 ^ 31 * p - 2 * (n * w))) as Hg by (rewrite Ea; ring).
    lia.
Qed.

(** Quotients are in lowest terms up to rounding: a common factor cancels. *)
Lemma fdiv_cancel n p c :
  0 < n -> 0 < c -> n * c <= 2 ^ 30 -> 0 < p -> p * c <= 2 ^ 20 ->
  fdiv (of_Z (n * c)) (of_Z (p * c)) = fdiv (of_Z n) (of_Z p).
Proof.
  intros Hn Hc Hnc Hp Hpc.
  destruct (fdiv_integers n p) as (m & a & -> & F & Ha & H & _); [nia|unfold small_divisor; nia|].
  destruct (fdiv_integers (n * c) (p * c)) as (m' & a' & -> & F' & Ha' & H' & _);
    [nia|unfold small_divisor; nia|].
  replace (2 * Zpos m' * (p * c) - 2 * (n * c * 2 ^ a'))
    with ((2 * Zpos m' * p - 2 * (n * 2 ^ a')) * c) in H' by ring.
  rewrite Z.abs_mul, (Z.abs_eq c) in H' by lia. apply Z.mul_le_mono_pos_r in H'; [|done].
  destruct (decide (a <= a')).
  - by destruct (quotient_unique_le n p m a m' a') as [-> ->]; [nia|nia|done|done|lia|done..|].
  - by destruct (quotient_unique_le n p m' a' m a) as [-> ->]; [nia|nia|done|done|lia|done..|].
Qed.

(** Rounding to more decimals changes nothing after rounding to fewer. *)
Lemma roundTo_coarse p c B x :
  valid x -> in_range B x = true -> 0 < p -> 0 < c -> 0 < B <= 2 ^ 29 -> B * (p * c) <= 2 ^ 30 -> p * c <= 2 ^ 20 ->
  roundTo (p * c) (roundTo p x) = roundTo p x.
Proof.
  intros Hv Hr Hp Hc HB HBpc Hpc.
  assert (small_divisor p) by (unfold small_divisor; nia).
  assert (small_divisor (p * c)) by (unfold small_divisor; nia).
  destruct (roundTo_as_quotient B p x) as (n & E & Hn); [done..|]. rewrite E.
  destruct (decide (n = 0)) as [->|Hne].
  - cbn [signed_of_Z]. unfold roundTo.
    destruct (of_Z_spec p) as (m2 & e2 & -> & _); [unfold small_divisor in *; lia|].
    destruct (of_Z_spec (p * c)) as (m3 & e3 & -> & _); [unfold small_divisor in *; lia|].
    cbn. by rewrite !xorb_false_r.
  - assert (n * c <= 2 ^ 30) by nia. assert (n <= n * c) by nia. assert (0 < n * c) by lia.
    unfold roundTo. rewrite (roundTo_finer (sign x) n p c) by (done || lia).
    rewrite !fdiv_signed by (done || lia). rewrite fdiv_cancel by (lia || nia). done.
Qed.

(** ** Comparisons and ranges *)

Lemma full_valid s m a : full m -> 1 <= a <= 1074 -> valid (S754_finite s m (- a)).
Proof.
  intros F Ha. unfold valid. cbn [valid_binary]. unfold bounded, canonical_mantissa.
  rewrite full_digits, fexp_eq by done.
  apply andb_true_intro. split; [apply Z.eqb_eq; lia|apply Z.leb_le; lia].
Qed.

(** The magnitude bound agrees with Go's comparisons. *)
Lemma in_range_fle_pos B m e :
  valid (S754_finite false m e) -> 0 < B <= 2 ^ 29 ->
  in_range B (S754_finite false m e) = fle (S754_finite false m e) (of_Z B).
Proof.
  intros Hv HB. apply valid_finite in Hv as Hc.
  destruct (of_Z_spec B) as (m2 & e2 & -> & [L2 U2] & E2 & V2); [lia|].
  assert (e2 < 0 /\ e2 > -1074) as He2.
  { split; [|lia]. destruct (decide (e2 < 0)); [done|]. replace e2 with 0 in V2 by lia. lia. }
  assert (Zpos m < 2 ^ 53) by (destruct Hc as [[_ ?]|[_ ?]]; done).
  unfold fle, SFleb. cbn [SFcompare in_range].
  destruct (Z.compare_spec e e2) as [->|Hlt|Hgt].
  - rewrite (proj2 (Z.leb_gt _ _)) by lia. rewrite <- V2.
    destruct (Pos.compare_cont Eq m m2) eqn:E; change (Pos.compare_cont Eq m m2) with (m ?= m2)%positive in E.
    + apply Pos.compare_eq in E as ->. apply Z.leb_refl.
    + apply Pos.compare_lt_iff in E. apply Z.leb_le. by apply Z.lt_le_incl.
    + apply Pos.compare_gt_iff in E. by apply Z.leb_gt.
  - rewrite (proj2 (Z.leb_gt _ _)) by lia. apply Z.leb_le.
    replace (- e) with (- e2 + (e2 - e)) by lia. rewrite Z.pow_add_r by lia.
    pose proof (Z.pow_le_mono_r 2 1 (e2 - e)). nia.
  - destruct Hc as [[L _]|[? _]]; [|lia]. destruct (0 <=? e) eqn:E0.
    + apply Z.leb_le in E0. apply Z.leb_gt. pose proof (Z.pow_pos_nonneg 2 e). nia.
    + apply Z.leb_gt in E0. apply Z.leb_gt.
      replace (- e2) with (- e + (e - e2)) in V2 by lia. rewrite Z.pow_add_r in V2 by lia.
      pose proof (Z.pow_le_mono_r 2 1 (e - e2)). pose proof (Z.pow_pos_nonneg 2 (- e)). nia.
Qed.

(** [|x| <= B] as two comparisons, for the bounds whose negation is exact. *)
Lemma in_range_fle B x :
  valid x -> 0 < B <= 2 ^ 29 -> of_Z (- B) = fneg (of_Z B) ->
  in_range B x = fle (of_Z (- B)) x && fle x (of_Z B).
Proof.
  intros Hv HB Hneg. rewrite Hneg.
  destruct (of_Z_spec B) as (m2 & e2 & E2 & _); [lia|].
  destruct x as [s|s| |s m e]; try (rewrite E2; by destruct s); [by rewrite E2|].
  assert (in_range B (S754_finite s m e) = fle (S754_finite false m e) (of_Z B)) as ->
    by (by rewrite <- in_range_fle_pos by done).
  rewrite E2. unfold fle, SFleb. cbn [SFcompare fneg SFopp]. destruct s; cbn.
  - rewrite andb_true_r, (Z.compare_antisym e e2). destruct (e ?= e2); cbn; try done.
    rewrite (Pos.compare_cont_antisym m2 m Eq). cbn. by destruct (Pos.compare_cont _ _ _).
  - done.
Qed.

(** Decimal rounding keeps bounds and signs, and stays valid. *)
Lemma roundTo_in_range p x B :
  valid x -> in_range B x = true -> 0 < B <= 2 ^ 29 -> small_divisor p ->
  valid (roundTo p x) /\ in_range B (roundTo p x) = true /\ sign (roundTo p x) = sign x.
Proof.
  intros Hv Hr HB Hp. pose proof Hp as Hp'. unfold small_divisor in Hp'.
  destruct (roundTo_as_quotient B p x) as (n & -> & Hn); [done..|].
  destruct (decide (n = 0)) as [->|Hne].
  - destruct (of_Z_spec p) as (m2 & e2 & -> & _); [lia|]. cbn. by rewrite xorb_false_r.
  - rewrite fdiv_signed by (done || nia).
    destruct (fdiv_integers n p) as (m & a & -> & F & Ha & H & _); [nia|done|].
    assert (forall s, valid (S754_finite s m (- a))) as Hval by (intros s; apply full_valid; [done|lia]).
    split; [apply Hval|]. split; [|done]. cbn [in_range].
    rewrite (proj2 (Z.leb_gt _ _)) by lia. apply Z.leb_le. rewrite Z.opp_involutive.
    pose proof (Z.pow_pos_nonneg 2 a). nia.
Qed.

(** ** Exact operations on integers *)

Lemma of_Z_unique n m a : 0 < n <= 2 ^ 50 -> full m -> 0 <= a -> Zpos m = n * 2 ^ a ->
  of_Z n = S754_finite false m (- a).
Proof.
  intros Hn [L U] Ha E. destruct (of_Z_spec n) as (m2 & e2 & -> & [L2 U2] & E2 & V2); [lia|].
  assert (a = - e2) as ->.
  { destruct (Z.lt_trichotomy a (- e2)) as [H|[H|H]]; [|done|]; exfalso.
    - replace (- e2) with (a + (- e2 - a)) in V2 by lia. rewrite Z.pow_add_r in V2 by lia.
      pose proof (Z.pow_le_mono_r 2 1 (- e2 - a)). nia.
    - replace a with (- e2 + (a + e2)) in E by lia. rewrite Z.pow_add_r in E by lia.
      pose proof (Z.pow_le_mono_r 2 1 (a + e2)). nia. }
  rewrite Z.opp_involutive. f_equal. lia.
Qed.

Lemma signed_of_Z_finite s n m e :
  of_Z n = S754_finite false m e -> 0 < n -> signed_of_Z s n = S754_finite s m e.
Proof. intros E Hn. destruct n as [|q|q]; [lia| |lia]. unfold signed_of_Z. rewrite E. by destruct s. Qed.

Lemma fdiv_exact s k p :
  0 <= k -> k * p <= 2 ^ 50 -> small_divisor p ->
  fdiv (signed_of_Z s (k * p)) (of_Z p) = signed_of_Z s k.
Proof.
  intros Hk Hkp Hp. unfold small_divisor in Hp. destruct (decide (k = 0)) as [->|Hne].
  { destruct (of_Z_spec p) as (m2 & e2 & -> & _); [lia|]. rewrite Z.mul_0_l. cbn. by rewrite ?xorb_false_r. }
  rewrite fdiv_signed by (done || nia).
  destruct (fdiv_integers (k * p) p) as (m & a & -> & F & Ha & _ & Hx); [nia|done|].
  specialize (Hx k eq_refl). symmetry. apply signed_of_Z_finite; [|lia].
  by apply of_Z_unique; [nia|done|lia|].
Qed.

Lemma fmul_exact s k p :
  0 <= k -> k * p <= 2 ^ 50 -> small_divisor p ->
  fmul (signed_of_Z s k) (of_Z p) = signed_of_Z s (k * p).
Proof.
  intros Hk Hkp Hp. unfold small_divisor in Hp. destruct (decide (k = 0)) as [->|Hne].
  { destruct (of_Z_spec p) as (m2 & e2 & -> & _); [lia|]. cbn. by rewrite xorb_false_r. }
  destruct (of_Z_spec k) as (m1 & e1 & E1 & F1 & B1 & V1); [nia|].
  destruct (of_Z_spec p) as (m2 & e2 & -> & F2 & B2 & V2); [nia|].
  rewrite (signed_of_Z_finite s k m1 e1) by (done || lia).
  destruct (fmul_spec s m1 e1 false m2 e2) as (m & e & -> & F & He & _ & Hx); [done..|lia|lia|].
  rewrite xorb_false_r. specialize (Hx (k * p) (- e1 + - e2)).
  assert (Zpos m * 2 ^ (e - (e1 + e2)) = k * p * 2 ^ (- e1 + - e2)) as Hm.
  { rewrite Hx; [|nia|lia|]; rewrite V1, V2, Z.pow_add_r by lia; ring. }
  assert (e < 0) as He0.
  { destruct (decide (e < 0)); [done|]. exfalso. destruct F as [L _].
    pose proof (Z.pow_le_mono_r 2 (- e1 + - e2) (e - (e1 + e2))).
    pose proof (Z.pow_pos_nonneg 2 (- e1 + - e2)). nia. }
  symmetry. apply signed_of_Z_finite; [|nia].
  rewrite <- (Z.opp_involutive e). apply of_Z_unique; [nia|done|lia|].
  replace (- e1 + - e2) with (- e + (e - (e1 + e2))) in Hm by lia.
  rewrite Z.pow_add_r in Hm by lia. pose proof (Z.pow_pos_nonneg 2 (e - (e1 + e2))). nia.
Qed.

Lemma Round_signed s n : 0 <= n <= 2 ^ 50 -> Round (signed_of_Z s n) = signed_of_Z s n.
Proof.
  intros Hn. destruct (decide (n = 0)) as [->|Hne]; [done|].
  destruct (of_Z_spec n) as (m & e & E & [L U] & B & V); [lia|].
  rewrite (signed_of_Z_finite s n m e) by (done || lia). cbn [Round].
  destruct (0 <=? e) eqn:E0; [done|]. apply Z.leb_gt in E0.
  rewrite <- (signed_of_Z_finite s n m e) by (done || lia). f_equal. rewrite V.
  assert (2 ^ (- e) = 2 * 2 ^ (- e - 1)) as Hh by (rewrite <- Z.pow_succ_r by lia; f_equal; lia).
  pose proof (Z.pow_pos_nonneg 2 (- e - 1)).
  symmetry. apply (Z.div_unique_pos _ _ _ (2 ^ (- e - 1))); lia.
Qed.

(** Integers are fixed points of decimal rounding. *)
Lemma roundTo_integer c s n :
  0 <= n -> n * c <= 2 ^ 50 -> small_divisor c -> roundTo c (signed_of_Z s n) = signed_of_Z s n.
Proof.
  intros Hn Hnc Hc. pose proof Hc as [Hc1 Hc2]. unfold roundTo. rewrite fmul_exact by done.
  rewrite Round_signed by nia. by apply fdiv_exact.
Qed.

Lemma signed_of_Z_sound s n B :
  0 <= n <= B -> B <= 2 ^ 49 -> valid (signed_of_Z s n) /\ in_range B (signed_of_Z s n) = true.
Proof.
  intros Hn HB. destruct (decide (n = 0)) as [->|Hne]; [done|].
  destruct (of_Z_spec n) as (m & e & E & F & Be & V); [lia|].
  assert (e < 0) as He.
  { destruct (decide (e < 0)); [done|]. exfalso. replace e with 0 in V by lia. destruct F. lia. }
  rewrite (signed_of_Z_finite s n m e) by (done || lia).
  split; [rewrite <- (Z.opp_involutive e); apply full_valid; [done|lia]|].
  cbn [in_range]. rewrite (proj2 (Z.leb_gt _ _)) by lia. apply Z.leb_le. rewrite V.
  apply Z.mul_le_mono_nonneg_r; [apply Z.pow_nonneg; lia|lia].
Qed.

(** ** Quantization to multiples of 50: [Floor(x / 50) * 50]. *)
Definition quantize50 (x : f64) : f64 := fmul (Floor (fdiv x (of_Z 50))) (of_Z 50).

Lemma Floor_bounded s m e B :
  e < 0 -> in_range B (S754_finite s m e) = true ->
  exists n, Floor (S754_finite s m e) = signed_of_Z s n /\ 0 <= n <= B.
Proof.
  intros He Hr. cbn [in_range] in Hr. rewrite (proj2 (Z.leb_gt _ _)) in Hr by lia.
  apply Z.leb_le in Hr. cbn [Floor]. rewrite (proj2 (Z.leb_gt _ _)) by lia.
  assert (0 < 2 ^ (- e)) by (apply Z.pow_pos_nonneg; lia).
  destruct s; eexists; (split; [done|]).
  - split.
    + pose proof (Z.div_lt_upper_bound (- Zpos m) (2 ^ (- e)) 0). lia.
    + pose proof (Z.div_le_lower_bound (- Zpos m) (2 ^ (- e)) (- B)). lia.
  - split; [apply Z.div_pos; lia|]. apply Z.div_le_upper_bound; lia.
Qed.

Lemma fdiv_50 s m a B :
  full m -> 1 <= a <= 200 -> 0 < B -> in_range B (S754_finite s m (- a)) = true ->
  exists m' e', fdiv (S754_finite s m (- a)) (of_Z 50) = S754_finite s m' e' /\ e' < 0 /\
    in_range B (S754_finite s m' e') = true.
Proof.
  intros F Ha HB Hr. cbn [in_range] in Hr. rewrite (proj2 (Z.leb_gt _ _)) in Hr by lia.
  apply Z.leb_le in Hr. rewrite Z.opp_involutive in Hr.
  assert (exists m2, of_Z 50 = S754_finite false m2 (-47) /\ Zpos m2 = 50 * 2 ^ 47) as (m2 & -> & V2)
    by (by eexists).
  assert (full m2) as F2 by (unfold full; lia).
  destruct (fdiv_spec s m (- a) false m2 (-47)) as (m' & e' & -> & F' & He & Herr & _); [done..|lia|lia|].
  rewrite xorb_false_r. exists m', e'. split; [done|]. split; [lia|].
  cbn [in_range]. rewrite (proj2 (Z.leb_gt _ _)) by lia. apply Z.leb_le.
  set (t := e' - (- a - -47 - 53)) in *.
  assert (2 ^ (- e') * 2 ^ t = 2 ^ a * 64) as Et.
  { change 64 with (2 ^ 6). rewrite <- !Z.pow_add_r by lia. f_equal. unfold t. lia. }
  assert (1 <= 2 ^ t <= 4) as Ht.
  { split; [change 1 with (2 ^ 0)|change 4 with (2 ^ 2)]; apply Z.pow_le_mono_r; lia. }
  rewrite V2 in Herr. pose proof (Z.pow_pos_nonneg 2 a).
  assert (Zpos m' * 2 ^ t <= B * 2 ^ a * 2 + 2) as H1 by lia.
  assert (Zpos m' * 2 ^ t <= B * (2 ^ (- e') * 2 ^ t)) as H2 by (rewrite Et; nia).
  apply (Z.mul_le_mono_pos_r _ _ (2 ^ t)); lia.
Qed.

Lemma quantize50_integer B p x :
  valid x -> in_range B x = true -> 0 < B <= 2 ^ 29 -> small_divisor p ->
  exists k, quantize50 (roundTo p x) = signed_of_Z (sign x) (k * 50) /\ 0 <= k <= B.
Proof.
  intros Hv Hr HB Hp. pose proof Hp as [Hp1 Hp2].
  destruct (roundTo_as_quotient B p x) as (k & E & Hk); [done..|].
  destruct (roundTo_in_range p x B) as (_ & Hr' & _); [done..|]. rewrite E in Hr' |- *.
  destruct (decide (k = 0)) as [->|Hne].
  - exists 0. split; [|lia]. destruct (of_Z_spec p) as (m2 & e2 & -> & _); [lia|].
    clear. by destruct (sign x).
  - rewrite fdiv_signed in Hr' |- * by (done || nia).
    destruct (fdiv_integers k p) as (m & a & Hd & F & Ha & _); [nia|done|]. rewrite Hd in Hr' |- *.
    destruct (fdiv_50 (sign x) m a B) as (m' & e' & Hd' & He & Hr''); [done..|lia|done|].
    unfold quantize50. rewrite Hd'. destruct (Floor_bounded _ _ _ _ He Hr'') as (n & -> & Hn).
    exists n. split; [|lia]. apply fmul_exact; [lia|lia|done].
Qed.

(** ** Signed integers *)
Lemma binary_round_aux_opp s m e l :
  SFopp (binary_round_aux 53 1024 s m e l) = binary_round_aux 53 1024 (negb s) m e l.
Proof.
  unfold binary_round_aux. destruct (shr_fexp 53 1024 m e l) as [mrs e'].
  destruct (shr_fexp 53 1024 _ e' loc_Exact) as [mrs' e''].
  destruct (shr_m mrs') as [|k|k]; try done. by destruct (e'' <=? 1024 - 53).
Qed.

Lemma of_Z_signed z : of_Z z = signed_of_Z (z <? 0) (Z.abs z).
Proof.
  destruct z as [|q|q]; [done|done|].
  change (of_Z (Zneg q) = SFopp (of_Z (Zpos q))). unfold of_Z, binary_normalize, binary_round.
  destruct (shl_align q 0 _) as [m e]. symmetry. apply binary_round_aux_opp.
Qed.

(** The quotient of an integer by a power of ten up to 10^7. *)
Lemma fdiv_int_sound s n p B :
  0 <= n <= B * p -> 0 < p <= 2 ^ 24 -> 0 < B <= 2 ^ 26 ->
  valid (fdiv (signed_of_Z s n) (of_Z p)) /\ in_range B (fdiv (signed_of_Z s n) (of_Z p)) = true.
Proof.
  intros Hn Hp HB. destruct (of_Z_spec p) as (m2 & e2 & -> & F2 & E2 & V2); [lia|].
  destruct (decide (n = 0)) as [->|Hne]; [done|].
  assert (n <= 2 ^ 50) as Hn50 by (change (2 ^ 50) with (2 ^ 26 * 2 ^ 24); nia).
  destruct (of_Z_spec n) as (m1 & e1 & E1' & F1 & E1 & V1); [lia|].
  rewrite (signed_of_Z_finite s n m1 e1) by (done || lia).
  destruct (fdiv_spec s m1 e1 false m2 e2) as (m & e & -> & F & He & Herr & _); [done..|lia|lia|].
  rewrite xorb_false_r.
  assert (e1 <= -2) as He1.
  { destruct (decide (e1 <= -2)); [done|]. exfalso. destruct F1 as [L1 _].
    pose proof (Z.pow_le_mono_r 2 (- e1) 1). rewrite V1 in L1. nia. }
  split; [rewrite <- (Z.opp_involutive e); apply full_valid; [done|lia]|].
  cbn [in_range]. rewrite (proj2 (Z.leb_gt _ _)) by lia. apply Z.leb_le.
  set (t := e - (e1 - e2 - 53)) in *.
  assert (2 ^ (- e1) * 2 ^ 53 = 2 ^ (- e) * 2 ^ t * 2 ^ (- e2)) as E
    by (rewrite <- !Z.pow_add_r by lia; f_equal; unfold t; lia).
  pose proof (Z.pow_pos_nonneg 2 (- e)). pose proof (Z.pow_pos_nonneg 2 t).
  assert (0 < Zpos m2) as H2 by lia.
  assert (Zpos m1 * 2 ^ 53 <= B * 2 ^ (- e) * 2 ^ t * Zpos m2) as Hle.
  { rewrite V1, V2, <- Z.mul_assoc, E.
    replace (n * (2 ^ (- e) * 2 ^ t * 2 ^ (- e2))) with (n * (2 ^ (- e) * 2 ^ t) * 2 ^ (- e2)) by ring.
    replace (B * 2 ^ (- e) * 2 ^ t * (p * 2 ^ (- e2))) with (B * p * (2 ^ (- e) * 2 ^ t) * 2 ^ (- e2)) by ring.
    pose proof (Z.pow_pos_nonneg 2 (- e2)). apply Z.mul_le_mono_nonneg_r; [lia|].
    apply Z.mul_le_mono_nonneg_r; [nia|lia]. }
  assert (2 * Zpos m * 2 ^ t * Zpos m2 <= (2 * (B * 2 ^ (- e)) + 1) * 2 ^ t * Zpos m2) as Hm by lia.
  apply Z.mul_le_mono_pos_r in Hm; [|done]. apply Z.mul_le_mono_pos_r in Hm; lia.
Qed.
