(* ===== verification/Json.v ===== *)
(** encoding/json as the program uses it: the text of strings and numbers that
    [Marshal] writes, the parser behind [Unmarshal], and the dynamic values
    ([any]) of [map[string]any]. Executable; the struct codecs of the program are
    built from these in Schema. *)
From Stdlib Require Import Strings.Ascii Strings.String SpecFloat DecimalString.
From S2P Require Import Prelude GoString Float64.

Set Warnings "-register-all".

Local Open Scope Z_scope.
Local Open Scope go_scope.

(** * Dynamic values

    A [map[string]any] is an association list with distinct keys in increasing
    order, so that equal maps are equal lists. *)
Inductive any :=
| ANil
| ABool (b : bool)
| ANum (x : f64)
| AStr (s : string)
| AList (l : list any)
| AMap (m : list (string * any)).

(** * Decimal conversion (strconv) *)

(** The float nearest to [c * 10^e10] for [c >= 0]. *)
Definition of_decimal (c e10 : Z) : f64 :=
  if 0 <=? e10 then of_Z (c * 10 ^ e10)
  else match c with
       | Zpos p => fdiv (S754_finite false p 0) (S754_finite false (Z.to_pos (10 ^ (- e10))) 0)
       | _ => fzero
       end.

(** A positive float as a fraction [N / D]. *)
Definition float_ratio (m : positive) (e : Z) : Z * Z :=
  if 0 <=? e then (Zpos m * 2 ^ e, 1) else (Zpos m, 2 ^ (- e)).

(** The position of the decimal point: the least [k] with [N / D < 10^k]. The
    search starts below the answer, from the position of the leading bit. *)
Definition below_pow10 (N D k : Z) : bool :=
  if 0 <=? k then N <? 10 ^ k * D else N * 10 ^ (- k) <? D.
Fixpoint find_point (fuel : nat) (N D k : Z) : Z :=
  match fuel with
  | O => k
  | S fuel => if below_pow10 N D k then k else find_point fuel N D (k + 1)
  end.
Definition dec_point (N D : Z) : Z :=
  find_point 8 N D ((Z.log2 N - Z.log2 D - 1) * 30103 / 100000 - 2).

Fixpoint strip_zeros (fuel : nat) (c e10 : Z) : Z * Z :=
  match fuel with
  | O => (c, e10)
  | S fuel => if c mod 10 =? 0 then strip_zeros fuel (c / 10) (e10 + 1) else (c, e10)
  end.

(** [x = S754_finite false m e] with [n] digits: the two neighbours with [n]
    digits are tried, the nearer one first (ties to even), in the form in which
    they are written. *)
Definition scaled (N D s : Z) : Z * Z := if 0 <=? s then (N * 10 ^ s, D) else (N, D * 10 ^ (- s)).
Definition candidate (x : f64) (N D k n : Z) : option Z :=
  let '(A, B) := scaled N D (n - k) in
  let q := A / B in
  let r := A mod B in
  let good c := let '(c, e10) := strip_zeros 800 c (k - n) in bool_decide (of_decimal c e10 = x) in
  let near_up := (B <? 2 * r) || ((B =? 2 * r) && Z.odd q) in
  let first := if near_up then q + 1 else q in
  let second := if near_up then q else q + 1 in
  if good first then Some first
  else if negb (r =? 0) && good second then Some second else None.

Fixpoint shortest_from (fuel : nat) (x : f64) (N D k n : Z) : Z * Z :=
  match fuel with
  | O => (0, 0)
  | S fuel =>
    match candidate x N D k n with
    | Some c => (c, k - n)
    | None => shortest_from fuel x N D k (n + 1)
    end
  end.

(** The shortest decimal [c * 10^e10] that parses back to the float. The search
    stops at 17 digits at the latest; the fuel covers the longest exact decimal
    expansion of a float. *)
Definition shortest (m : positive) (e : Z) : Z * Z :=
  let '(N, D) := float_ratio m e in
  let '(c, e10) := shortest_from 800 (S754_finite false m e) N D (dec_point N D) 1 in
  strip_zeros 800 c e10.

Fixpoint zeros (n : nat) : string :=
  match n with O => EmptyString | S n => String "0" (zeros n) end.

(** [strconv.AppendFloat(b, f, 'f', -1, 64)] and ['e'] with encoding/json's
    clean-up of the exponent, for [c * 10^e10]. *)
Definition format_f (c e10 : Z) : string :=
  let ds := dec c in
  let nd := Z.of_nat (String.length ds) in
  let dp := nd + e10 in
  if 0 <=? e10 then ds +:+ zeros (Z.to_nat e10)
  else if 0 <? dp then str_take (Z.to_nat dp) ds +:+ "." +:+ str_drop (Z.to_nat dp) ds
  else "0." +:+ zeros (Z.to_nat (- dp)) +:+ ds.

Definition format_e (c e10 : Z) : string :=
  let ds := dec c in
  let x := Z.of_nat (String.length ds) - 1 + e10 in
  match ds with
  | EmptyString => EmptyString
  | String d rest =>
    String d (match rest with EmptyString => EmptyString | _ => "." +:+ rest end)
    +:+ "e" +:+ (if x <? 0 then "-" else "+") +:+ dec (Z.abs x)
  end.

(** The encoder of [float64]; NaN and the infinities are errors. *)
Definition marshal_float (x : f64) : result string string :=
  match x with
  | S754_zero s => Ok (if s then "-0" else "0")
  | S754_finite s m e =>
    let '(c, e10) := shortest m e in
    let abs := S754_finite false m e in
    let txt := if flt abs (of_decimal 1 (-6)) || fge abs (of_Z (10 ^ 21))
               then format_e c e10 else format_f c e10 in
    Ok ((if s then "-" else "") +:+ txt)
  | S754_nan => Err "json: unsupported value: NaN"
  | S754_infinity s => Err (if s then "json: unsupported value: -Inf" else "json: unsupported value: +Inf")
  end%string.

(** * Strings *)

(** One rune of a string literal, HTML characters escaped. *)
Definition quote_char (a : ascii) : string := String (za 92) (String a EmptyString).
Definition json_rune (r : Z) (w : nat) : string :=
  if r <? 128 then
    if (r =? 34) || (r =? 92) then quote_char (za r)
    else if r =? 8 then quote_char "b" else if r =? 12 then quote_char "f"
    else if r =? 10 then quote_char "n" else if r =? 13 then quote_char "r"
    else if r =? 9 then quote_char "t"
    else if (r <? 32) || (r =? 60) || (r =? 62) || (r =? 38)
    then quote_char "u" +:+ hex_fixed 4 r
    else chr r
  else if (r =? RuneError) && (w =? 1)%nat then quote_char "u" +:+ "fffd"
  else if (r =? 0x2028) || (r =? 0x2029) then quote_char "u" +:+ hex_fixed 4 r
  else encode_rune r.

Definition marshal_string (s : string) : string :=
  chr 34 +:+ concat_str (map (fun '(r, w) => json_rune r w) (runes s)) +:+ chr 34.

(** * Objects and dynamic values *)
Fixpoint commas (l : list string) : string :=
  match l with
  | [] => EmptyString
  | [s] => s
  | s :: l => s +:+ "," +:+ commas l
  end.

Definition marshal_object (fields : list (string * string)) : string :=
  "{" +:+ commas (map (fun '(k, v) => marshal_string k +:+ ":" +:+ v) fields) +:+ "}".

(** Keys of maps are written in increasing byte order. *)
Fixpoint insert_key {A} (k : string) (v : A) (l : list (string * A)) : list (string * A) :=
  match l with
  | [] => [(k, v)]
  | (k', v') :: l' => if String.leb k k' then (k, v) :: l else (k', v') :: insert_key k v l'
  end.
Definition sort_keys {A} (l : list (string * A)) : list (string * A) :=
  foldr (fun '(k, v) => insert_key k v) [] l.

(** The first error of a sequence of encoders wins. *)
Fixpoint seq_results {E A} (l : list (result E A)) : result E (list A) :=
  match l with
  | [] => Ok []
  | r :: l => let? x := r in let? xs := seq_results l in Ok (x :: xs)
  end.
Definition seq_fields {E A} (l : list (string * result E A)) : result E (list (string * A)) :=
  seq_results (map (fun '(k, r) => let? x := r in Ok (k, x)) l).

Fixpoint marshal_any (v : any) : result string string :=
  match v with
  | ANil => Ok "null"%string
  | ABool b => Ok (if b then "true" else "false")%string
  | ANum x => marshal_float x
  | AStr s => Ok (marshal_string s)
  | AList l => let? l := seq_results (map marshal_any l) in Ok ("[" +:+ commas l +:+ "]")
  | AMap m =>
    let? fs := seq_fields (sort_keys (map (fun '(k, v) => (k, marshal_any v)) m)) in
    Ok (marshal_object fs)
  end.

(** * Parsing *)

(** A number literal: sign, integer digits, fraction digits, exponent. *)
Record number := mkNumber { num_neg : bool; num_int : string; num_frac : string; num_exp : option Z }.

Inductive jval :=
| JNull
| JBool (b : bool)
| JNum (n : number)
| JStr (s : string)
| JArr (l : list jval)
| JObj (l : list (string * jval)).

Definition is_ws (a : ascii) : bool :=
  (az a =? 32) || (az a =? 9) || (az a =? 13) || (az a =? 10).
Fixpoint skip_ws (s : string) : string :=
  match s with
  | String a s' => if is_ws a then skip_ws s' else s
  | EmptyString => EmptyString
  end.

Definition is_digit (a : ascii) : bool := (48 <=? az a) && (az a <=? 57).
Fixpoint take_digits (s : string) : string * string :=
  match s with
  | String a s' => if is_digit a then let '(d, r) := take_digits s' in (String a d, r) else (EmptyString, s)
  | EmptyString => (EmptyString, EmptyString)
  end.

Fixpoint digits_value (s : string) (acc : Z) : Z :=
  match s with
  | EmptyString => acc
  | String a s => digits_value s (10 * acc + (az a - 48))
  end.

Definition nonempty (s : string) : bool := match s with EmptyString => false | _ => true end.

Definition parse_exp (s : string) : option (option Z * string) :=
  match s with
  | String c s1 =>
    if (az c =? 101) || (az c =? 69) then
      let '(neg, s2) := match s1 with
        | String "-" s2 => (true, s2) | String "+" s2 => (false, s2) | _ => (false, s1) end in
      let '(d, r) := take_digits s2 in
      if nonempty d then Some (Some (if neg then - digits_value d 0 else digits_value d 0), r) else None
    else Some (None, s)
  | EmptyString => Some (None, s)
  end.

Definition parse_number (s : string) : option (number * string) :=
  let '(neg, s) := match s with String "-" s' => (true, s') | _ => (false, s) end in
  let '(i, s) := match s with
    | String "0" s' => ("0"%string, s')
    | _ => take_digits s end in
  if negb (nonempty i) then None else
  match (match s with
         | String "." s' => let '(d, r) := take_digits s' in if nonempty d then Some (d, r) else None
         | _ => Some (EmptyString, s) end) with
  | None => None
  | Some (f, s) =>
    '(e, r) ← parse_exp s; Some (mkNumber neg i f e, r)
  end.

(** ** Strings *)
Definition hex_value (a : ascii) : option Z :=
  if is_digit a then Some (az a - 48)
  else if (97 <=? az a) && (az a <=? 102) then Some (az a - 87)
  else if (65 <=? az a) && (az a <=? 70) then Some (az a - 55) else None.

(** The four digits of [\uXXXX], after the [u]. *)
Definition hex4 (s : string) : option (Z * string) :=
  match s with
  | String a (String b (String c (String d r))) =>
    x ← hex_value a; y ← hex_value b; z ← hex_value c; t ← hex_value d;
    Some (x * 4096 + y * 256 + z * 16 + t, r)
  | _ => None
  end.

(** The low half of a surrogate pair, when the text goes on with one. *)
Definition low_surrogate (s : string) : option (Z * string) :=
  match s with
  | String a (String "u" r) =>
    if az a =? 92 then
      '(z, r) ← hex4 r; if (0xDC00 <=? z) && (z <=? 0xDFFF) then Some (z, r) else None
    else None
  | _ => None
  end.

Definition parse_escape (a : ascii) (s : string) : option (string * string) :=
  let c := az a in
  if (c =? 34) || (c =? 92) || (c =? 47) then Some (chr c, s)
  else if c =? 98 then Some (chr 8, s) else if c =? 102 then Some (chr 12, s)
  else if c =? 110 then Some (chr 10, s) else if c =? 114 then Some (chr 13, s)
  else if c =? 116 then Some (chr 9, s)
  else if c =? 117 then
    '(z, r) ← hex4 s;
    if (0xD800 <=? z) && (z <=? 0xDFFF) then
      match low_surrogate r with
      | Some (z', r') =>
        if z <=? 0xDBFF then Some (encode_rune (0x10000 + (z - 0xD800) * 0x400 + (z' - 0xDC00)), r')
        else Some (encode_rune RuneError, r)
      | None => Some (encode_rune RuneError, r)
      end
    else Some (encode_rune z, r)
  else None.

(** The body of a string literal, after the opening quote. *)
Fixpoint parse_string (fuel : nat) (s : string) : option (string * string) :=
  match fuel, s with
  | S fuel, String a s1 =>
    if az a =? 34 then Some (EmptyString, s1)
    else if az a =? 92 then
      match s1 with
      | String b s2 =>
        '(t, r) ← parse_escape b s2; '(u, r) ← parse_string fuel r; Some (t +:+ u, r)
      | EmptyString => None
      end
    else if az a <? 32 then None
    else
      let '(c, w) := decode_rune s in
      '(u, r) ← parse_string fuel (str_drop w s); Some (encode_rune c +:+ u, r)
  | _, _ => None
  end.

(** ** Values

    [depth] is the number of open objects and arrays; beyond 10000 the scanner
    gives up. One unit of fuel per value, member or element. *)
Definition maxNestingDepth : Z := 10000.

Definition expect (lit : string) (v : jval) (s : string) : option (jval * string) :=
  if HasPrefix s lit then Some (v, str_drop (String.length lit) s) else None.

Fixpoint parse_value (fuel : nat) (depth : Z) (s : string) : option (jval * string) :=
  match fuel with
  | O => None
  | S fuel =>
    let s := skip_ws s in
    match s with
    | EmptyString => None
    | String a s1 =>
      let c := az a in
      if c =? 34 then '(t, r) ← parse_string (String.length s1) s1; Some (JStr t, r)
      else if c =? 123 then
        if maxNestingDepth <=? depth then None else
        match skip_ws s1 with
        | String "}" r => Some (JObj [], r)
        | s2 => '(l, r) ← parse_members fuel (depth + 1) s2; Some (JObj l, r)
        end
      else if c =? 91 then
        if maxNestingDepth <=? depth then None else
        match skip_ws s1 with
        | String "]" r => Some (JArr [], r)
        | s2 => '(l, r) ← parse_elements fuel (depth + 1) s2; Some (JArr l, r)
        end
      else if c =? 116 then expect "true" (JBool true) s
      else if c =? 102 then expect "false" (JBool false) s
      else if c =? 110 then expect "null" JNull s
      else '(n, r) ← parse_number s; Some (JNum n, r)
    end
  end
with parse_members (fuel : nat) (depth : Z) (s : string) : option (list (string * jval) * string) :=
  match fuel with
  | O => None
  | S fuel =>
    match skip_ws s with
    | String q s1 =>
      if az q =? 34 then
        '(k, r) ← parse_string (String.length s1) s1;
        match skip_ws r with
        | String ":" r1 =>
          '(v, r2) ← parse_value fuel depth r1;
          match skip_ws r2 with
          | String "," r3 => '(l, r4) ← parse_members fuel depth r3; Some ((k, v) :: l, r4)
          | String "}" r3 => Some ([(k, v)], r3)
          | _ => None
          end
        | _ => None
        end
      else None
    | EmptyString => None
    end
  end
with parse_elements (fuel : nat) (depth : Z) (s : string) : option (list jval * string) :=
  match fuel with
  | O => None
  | S fuel =>
    '(v, r) ← parse_value fuel depth s;
    match skip_ws r with
    | String "," r1 => '(l, r2) ← parse_elements fuel depth r1; Some (v :: l, r2)
    | String "]" r1 => Some ([v], r1)
    | _ => None
    end
  end.

(** A whole document: one value and white space. *)
Definition parse_json (s : string) : option jval :=
  '(v, r) ← parse_value (2 + 2 * String.length s) 0 s;
  match skip_ws r with EmptyString => Some v | _ => None end.

(** * Decoding of scalars *)

(** [strconv.ParseFloat], [ParseInt] and [ParseUint] on a number literal. *)
Definition number_float (n : number) : option f64 :=
  let digits := num_int n +:+ num_frac n in
  let x := of_decimal (digits_value digits 0)
             (default 0 (num_exp n) - Z.of_nat (String.length (num_frac n))) in
  match x with
  | S754_infinity _ | S754_nan => None
  | _ => Some (if num_neg n then fneg x else x)
  end.

Definition is_integer (n : number) : bool :=
  negb (nonempty (num_frac n)) && match num_exp n with None => true | Some _ => false end.

Definition number_int64 (n : number) : option Z :=
  let z := digits_value (num_int n) 0 in
  let z := if num_neg n then - z else z in
  if is_integer n && bool_decide (- 2 ^ 63 <= z < 2 ^ 63) then Some z else None.

Definition number_uint64 (n : number) : option Z :=
  let z := digits_value (num_int n) 0 in
  if is_integer n && negb (num_neg n) && (z <? 2 ^ 64) then Some z else None.

(** Storing into a map: a repeated key takes the new value. *)
Fixpoint assoc_set {A} (k : string) (v : A) (l : list (string * A)) : list (string * A) :=
  match l with
  | [] => [(k, v)]
  | (k', v') :: l' =>
    match String.compare k k' with
    | Eq => (k, v) :: l'
    | Lt => (k, v) :: l
    | Gt => (k', v') :: assoc_set k v l'
    end
  end.

Fixpoint to_any (v : jval) : option any :=
  match v with
  | JNull => Some ANil
  | JBool b => Some (ABool b)
  | JNum n => ANum <$> number_float n
  | JStr s => Some (AStr s)
  | JArr l =>
    AList <$> (fix go l := match l with
      | [] => Some []
      | v :: l => x ← to_any v; xs ← go l; Some (x :: xs)
      end) l
  | JObj l =>
    AMap <$> (fix go l acc := match l with
      | [] => Some acc
      | (k, v) :: l => x ← to_any v; go l (assoc_set k x acc)
      end) l []
  end.
