(* ===== verification/JsonFacts.v ===== *)
(** When marshalling succeeds: encoders of sequences and objects, and the values
    that decoding produces, which can always be written back. *)
From Stdlib Require Import Strings.String SpecFloat.
From stdpp Require Import sorting.
From S2P Require Import Prelude GoString Float64 Json.

Local Open Scope Z_scope.

(** An object is written only when every field is. *)
Lemma seq_results_ok {E A} (l : list (result E A)) :
  is_ok (seq_results l) = forallb is_ok l.
Proof.
  induction l as [|[a|e] l IH]; [done| |done]. cbn. rewrite <- IH. by destruct (seq_results l).
Qed.

Lemma seq_fields_ok {E A} (l : list (string * result E A)) :
  is_ok (seq_fields l) = forallb (fun f => is_ok f.2) l.
Proof.
  unfold seq_fields. rewrite seq_results_ok. induction l as [|[k [a|e]] l IH]; [done| |done].
  cbn. by rewrite IH.
Qed.

Lemma insert_key_perm {A} k (v : A) l : insert_key k v l ≡ₚ (k, v) :: l.
Proof.
  induction l as [|[k' v'] l IH]; [done|]. cbn. destruct (String.leb k k'); [done|].
  rewrite IH. apply perm_swap.
Qed.
Lemma sort_keys_perm {A} (l : list (string * A)) : sort_keys l ≡ₚ l.
Proof.
  induction l as [|[k v] l IH]; [done|]. cbn. by rewrite insert_key_perm, IH.
Qed.

Lemma forallb_perm {A} (f : A -> bool) l l' : l ≡ₚ l' -> forallb f l = forallb f l'.
Proof.
  induction 1 as [| |x y l|]; cbn; [done|by f_equal|by rewrite !andb_assoc, (andb_comm (f x))|congruence].
Qed.

Lemma marshal_float_ok x : is_ok (marshal_float x) = is_finite x.
Proof. destruct x as [s|s| |s m e]; [done..|]. cbn. by destruct (shortest m e). Qed.

Lemma marshal_map_ok m :
  is_ok (marshal_any (AMap m)) = forallb (fun kv => is_ok (marshal_any kv.2)) m.
Proof.
  cbn [marshal_any]. set (l := map _ m).
  assert (is_ok (seq_fields (sort_keys l)) = forallb (fun kv => is_ok (marshal_any kv.2)) m) as <-.
  { rewrite seq_fields_ok, (forallb_perm _ _ _ (sort_keys_perm l)). unfold l.
    clear. by induction m as [|[k v] m IH]; [|cbn; rewrite IH]. }
  by destruct (seq_fields (sort_keys l)).
Qed.

Lemma marshal_list_ok l : is_ok (marshal_any (AList l)) = forallb (fun v => is_ok (marshal_any v)) l.
Proof.
  cbn [marshal_any]. assert (is_ok (seq_results (map marshal_any l)) =
    forallb (fun v => is_ok (marshal_any v)) l) as <-.
  { rewrite seq_results_ok. clear. by induction l as [|v l IH]; [|cbn; rewrite IH]. }
  by destruct (seq_results _).
Qed.

(** The induction principle of parsed values. *)
Lemma jval_rect' (P : jval -> Prop) :
  P JNull -> (forall b, P (JBool b)) -> (forall n, P (JNum n)) -> (forall s, P (JStr s)) ->
  (forall l, Forall P l -> P (JArr l)) -> (forall l, Forall (fun kv => P kv.2) l -> P (JObj l)) ->
  forall v, P v.
Proof.
  intros Hn Hb Hnum Hs Ha Ho. fix IH 1. intros [|b|n|s|l|l]; [done|by apply Hb|by apply Hnum|by apply Hs| |].
  - apply Ha. induction l as [|v l IHl]; constructor; [apply IH|apply IHl].
  - apply Ho. induction l as [|[k v] l IHl]; constructor; [apply IH|apply IHl].
Qed.

Lemma number_float_finite n x : number_float n = Some x -> is_finite x = true.
Proof.
  unfold number_float. destruct (of_decimal _ _) as [s|s| |s m e]; intros [= <-];
    by destruct (num_neg n).
Qed.

Lemma forallb_assoc_set {A} (f : A -> bool) k x l :
  f x = true -> forallb (fun kv => f kv.2) l = true ->
  forallb (fun kv : string * A => f kv.2) (assoc_set k x l) = true.
Proof.
  intros Hx. induction l as [|[k' v] l IH]; cbn; [by rewrite Hx|]. intros [Hv Hl]%andb_prop.
  destruct (String.compare k k'); cbn; rewrite ?Hx, ?Hv, ?Hl; [done..|by rewrite IH].
Qed.

(** Whatever is decoded into an [any] can be marshalled again. *)
Lemma to_any_marshals v a : to_any v = Some a -> is_ok (marshal_any a) = true.
Proof.
  revert a. induction v as [|b|n|s|l IH|l IH] using jval_rect'; intros a Ha; cbn [to_any] in Ha.
  - by injection Ha as <-.
  - by injection Ha as <-.
  - destruct (number_float n) as [x|] eqn:E; cbn in Ha; [|done]. injection Ha as <-.
    cbn [marshal_any]. rewrite marshal_float_ok. by eapply number_float_finite.
  - by injection Ha as <-.
  - set (go := fix go l := match l with [] => Some [] | v :: l => _ end) in Ha.
    destruct (go l) as [xs|] eqn:E; cbn in Ha; [|done]. injection Ha as <-. rewrite marshal_list_ok.
    revert xs E. induction IH as [|v l Hv _ IHl]; cbn; intros xs E; [by injection E as <-|].
    destruct (to_any v) as [x|] eqn:Ev; [|done]. cbn in E. fold go in E.
    destruct (go l) as [xs'|] eqn:Eg; [|done]. cbn in E. injection E as <-. cbn.
    by rewrite (Hv x), IHl.
  - set (go := fix go l acc := match l with [] => Some acc | (k, v) :: l => _ end) in Ha.
    destruct (go l []) as [m|] eqn:E; cbn in Ha; [|done]. injection Ha as <-. rewrite marshal_map_ok.
    assert (forallb (fun kv => is_ok (marshal_any kv.2)) ([] : list (string * any)) = true) as H0 by done.
    revert H0 E. generalize ([] : list (string * any)) as acc.
    induction IH as [|[k v] l Hv _ IHl]; cbn; intros acc H0 E; [by injection E as <-|].
    destruct (to_any v) as [x|] eqn:Ev; [|done]. cbn in E. fold go in E. eapply IHl; [|exact E].
    apply (forallb_assoc_set (fun v => is_ok (marshal_any v))); [by apply Hv|done].
Qed.
