(* ===== verification/Schema.v ===== *)
(** pkg/schema/telemetry.go: the security envelope, its payloads, their JSON
    form, the payload digest, the constructors of envelopes and their
    validation. *)
From Stdlib Require Import Strings.Ascii Strings.String SpecFloat.
From S2P Require Import Prelude GoString Float64 Json JsonFacts Sha256 Topic.

Local Open Scope Z_scope.
Local Open Scope string_scope.
Local Open Scope go_scope.

(** * Data *)

Definition ValidTiers : gmap string bool :=
  list_to_map [(Tier1Public, true); (Tier2Restricted, true); (Tier3Critical, true)].
Definition valid_tier (c : string) : bool := default false (ValidTiers !! c).

(** A nil slice and an empty one are the same list. *)
Record SecurityHeader := mkHeader {
  Classification : string;
  OriginEnclave : string;
  TimestampNs : Z;
  MessageID : string;
  Digest : string;
  Caveats : list string;
}.

Record Coordinates := mkCoordinates { Latitude : f64; Longitude : f64; AltitudeM : f64 }.

Record Velocity := mkVelocity { VX : f64; VY : f64; VZ : f64; SpeedMps : f64 }.

(** The mission payload is [None] for a nil map. *)
Record TelemetryPayload := mkTelemetry {
  VehicleID : string;
  VehicleType : string;
  Team : string;
  State : string;
  BatteryPct : f64;
  Coords : Coordinates;
  Vel : Velocity;
  HeadingDeg : f64;
  MissionPayload : option (list (string * any));
  Sequence : Z;
}.

Record CommandPayload := mkCommand {
  CommandID : string;
  TargetVehicle : string;
  CommandType : string;
  Parameters_ : option (list (string * any));
  IssuedAtNs : Z;
  Issuer : string;
}.

Record SecurityEnvelope := mkEnvelope {
  Header : SecurityHeader;
  Telemetry : option TelemetryPayload;
  Command : option CommandPayload;
}.

(** * Normalization *)

Definition roundFloat (val : f64) (decimals : Z) : f64 :=
  let pow := Pow10 decimals in fdiv (Round (fmul val pow)) pow.

Definition Coordinates_Normalize (c : Coordinates) : Coordinates :=
  mkCoordinates (roundFloat (Latitude c) 6) (roundFloat (Longitude c) 6) (roundFloat (AltitudeM c) 2).

Definition Velocity_Normalize (v : Velocity) : Velocity :=
  mkVelocity (roundFloat (VX v) 2) (roundFloat (VY v) 2) (roundFloat (VZ v) 2)
    (roundFloat (SpeedMps v) 2).

Definition Normalize (t : TelemetryPayload) : TelemetryPayload :=
  mkTelemetry (VehicleID t) (VehicleType t) (Team t) (State t)
    (roundFloat (BatteryPct t) 1) (Coordinates_Normalize (Coords t)) (Velocity_Normalize (Vel t))
    (roundFloat (HeadingDeg t) 1) (MissionPayload t) (Sequence t).

(** * JSON encoding: the fields in the order and under the names of the tags *)

Definition str_field (k v : string) : string * result string string := (k, Ok (marshal_string v)).
Definition int_field (k : string) (v : Z) : string * result string string := (k, Ok (dec v)).
Definition float_field (k : string) (v : f64) : string * result string string := (k, marshal_float v).

Definition marshal_fields (l : list (string * result string string)) : result string string :=
  let? fs := seq_fields l in Ok (marshal_object fs).

(** [omitempty] leaves out a nil or empty map or slice, and a nil pointer. *)
Definition map_field (k : string) (m : option (list (string * any)))
  : list (string * result string string) :=
  match m with
  | None | Some [] => []
  | Some m => [(k, marshal_any (AMap m))]
  end.

Definition list_field (k : string) (l : list string) : list (string * result string string) :=
  match l with
  | [] => []
  | _ => [(k, Ok ("[" +:+ commas (map marshal_string l) +:+ "]"))]
  end.

Definition marshal_coordinates (c : Coordinates) : result string string :=
  marshal_fields [float_field "lat" (Latitude c); float_field "lon" (Longitude c);
    float_field "alt_m" (AltitudeM c)].

Definition marshal_velocity (v : Velocity) : result string string :=
  marshal_fields [float_field "vx" (VX v); float_field "vy" (VY v); float_field "vz" (VZ v);
    float_field "speed_mps" (SpeedMps v)].

Definition marshal_telemetry (t : TelemetryPayload) : result string string :=
  marshal_fields
    ([str_field "vehicle_id" (VehicleID t); str_field "vehicle_type" (VehicleType t);
      str_field "team" (Team t); str_field "state" (State t);
      float_field "battery_pct" (BatteryPct t);
      ("coordinates", marshal_coordinates (Coords t)); ("velocity", marshal_velocity (Vel t));
      float_field "heading_deg" (HeadingDeg t)]
     ++ map_field "mission_payload" (MissionPayload t)
     ++ [int_field "sequence" (Sequence t)])%list.

Definition marshal_command (c : CommandPayload) : result string string :=
  marshal_fields
    ([str_field "command_id" (CommandID c); str_field "target_vehicle" (TargetVehicle c);
      str_field "command_type" (CommandType c)]
     ++ map_field "parameters" (Parameters_ c)
     ++ [int_field "issued_at_ns" (IssuedAtNs c); str_field "issuer" (Issuer c)])%list.

Definition marshal_header (h : SecurityHeader) : result string string :=
  marshal_fields
    ([str_field "classification" (Classification h); str_field "origin_enclave" (OriginEnclave h);
      int_field "timestamp_ns" (TimestampNs h); str_field "message_id" (MessageID h);
      str_field "digest" (Digest h)]
     ++ list_field "caveats" (Caveats h))%list.

Definition marshal_envelope (e : SecurityEnvelope) : result string string :=
  marshal_fields
    ([("header", marshal_header (Header e))]
     ++ match Telemetry e with Some t => [("telemetry", marshal_telemetry t)] | None => [] end
     ++ match Command e with Some c => [("command", marshal_command c)] | None => [] end)%list.

(** * JSON decoding

    A key selects the field of its exact name, else the first field equal to it
    up to case; unknown keys are ignored. [null] leaves a scalar or a struct as
    it is and clears a pointer, a map or a slice; a repeated key decodes into the
    value already there. A value of the wrong type makes the whole call fail,
    whatever it has stored so far. *)
Section Decode.
Context `{U : Unicode}.

Definition find_field (names : list string) (key : string) : option string :=
  match List.find (fun n => String.eqb n key) names with
  | Some n => Some n
  | None => List.find (fun n => EqualFold key n) names
  end.

Fixpoint decode_fields {A} (names : list string) (set : string -> jval -> A -> option A)
  (l : list (string * jval)) (old : A) : option A :=
  match l with
  | [] => Some old
  | (k, v) :: l =>
    new ← (match find_field names k with Some n => set n v old | None => Some old end);
    decode_fields names set l new
  end.

(** A struct: an object, or [null]. *)
Definition decode_struct {A} (names : list string) (set : string -> jval -> A -> option A)
  (v : jval) (old : A) : option A :=
  match v with
  | JObj l => decode_fields names set l old
  | JNull => Some old
  | _ => None
  end.

(** A pointer to a struct: allocated when nil. *)
Definition decode_pointer {A} (names : list string) (set : string -> jval -> A -> option A)
  (zero : A) (v : jval) (old : option A) : option (option A) :=
  match v with
  | JNull => Some None
  | _ => Some <$> decode_struct names set v (default zero old)
  end.

Definition decode_string (v : jval) (old : string) : option string :=
  match v with JStr s => Some s | JNull => Some old | _ => None end.
Definition decode_float (v : jval) (old : f64) : option f64 :=
  match v with JNum n => number_float n | JNull => Some old | _ => None end.
Definition decode_int64 (v : jval) (old : Z) : option Z :=
  match v with JNum n => number_int64 n | JNull => Some old | _ => None end.
Definition decode_uint64 (v : jval) (old : Z) : option Z :=
  match v with JNum n => number_uint64 n | JNull => Some old | _ => None end.

(** [map[string]any]: entries are added to the map already there. *)
Fixpoint decode_entries (l : list (string * jval)) (old : list (string * any))
  : option (list (string * any)) :=
  match l with
  | [] => Some old
  | (k, v) :: l => x ← to_any v; decode_entries l (assoc_set k x old)
  end.
Definition decode_map (v : jval) (old : option (list (string * any)))
  : option (option (list (string * any))) :=
  match v with
  | JObj l => Some <$> decode_entries l (default [] old)
  | JNull => Some None
  | _ => None
  end.

(** [[]string]: elements overwrite the slice already there. *)
Fixpoint decode_elements (l : list jval) (old : list string) : option (list string) :=
  match l with
  | [] => Some []
  | v :: l =>
    s ← decode_string v (default "" (head old)); ss ← decode_elements l (tail old);
    Some (s :: ss)
  end.
Definition decode_list (v : jval) (old : list string) : option (list string) :=
  match v with
  | JArr l => decode_elements l old
  | JNull => Some []
  | _ => None
  end.

Definition set_coordinates (n : string) (v : jval) (c : Coordinates) : option Coordinates :=
  if String.eqb n "lat" then x ← decode_float v (Latitude c); Some (mkCoordinates x (Longitude c) (AltitudeM c))
  else if String.eqb n "lon" then x ← decode_float v (Longitude c); Some (mkCoordinates (Latitude c) x (AltitudeM c))
  else x ← decode_float v (AltitudeM c); Some (mkCoordinates (Latitude c) (Longitude c) x).

Definition set_velocity (n : string) (v : jval) (w : Velocity) : option Velocity :=
  if String.eqb n "vx" then x ← decode_float v (VX w); Some (mkVelocity x (VY w) (VZ w) (SpeedMps w))
  else if String.eqb n "vy" then x ← decode_float v (VY w); Some (mkVelocity (VX w) x (VZ w) (SpeedMps w))
  else if String.eqb n "vz" then x ← decode_float v (VZ w); Some (mkVelocity (VX w) (VY w) x (SpeedMps w))
  else x ← decode_float v (SpeedMps w); Some (mkVelocity (VX w) (VY w) (VZ w) x).

Definition telemetry_names : list string :=
  ["vehicle_id"; "vehicle_type"; "team"; "state"; "battery_pct"; "coordinates"; "velocity";
   "heading_deg"; "mission_payload"; "sequence"].

Definition set_telemetry (n : string) (v : jval) (t : TelemetryPayload) : option TelemetryPayload :=
  let '(mkTelemetry id ty te st ba co ve he mi se) := t in
  if String.eqb n "vehicle_id" then x ← decode_string v id; Some (mkTelemetry x ty te st ba co ve he mi se)
  else if String.eqb n "vehicle_type" then x ← decode_string v ty; Some (mkTelemetry id x te st ba co ve he mi se)
  else if String.eqb n "team" then x ← decode_string v te; Some (mkTelemetry id ty x st ba co ve he mi se)
  else if String.eqb n "state" then x ← decode_string v st; Some (mkTelemetry id ty te x ba co ve he mi se)
  else if String.eqb n "battery_pct" then x ← decode_float v ba; Some (mkTelemetry id ty te st x co ve he mi se)
  else if String.eqb n "coordinates" then
    x ← decode_struct ["lat"; "lon"; "alt_m"] set_coordinates v co; Some (mkTelemetry id ty te st ba x ve he mi se)
  else if String.eqb n "velocity" then
    x ← decode_struct ["vx"; "vy"; "vz"; "speed_mps"] set_velocity v ve; Some (mkTelemetry id ty te st ba co x he mi se)
  else if String.eqb n "heading_deg" then x ← decode_float v he; Some (mkTelemetry id ty te st ba co ve x mi se)
  else if String.eqb n "mission_payload" then x ← decode_map v mi; Some (mkTelemetry id ty te st ba co ve he x se)
  else x ← decode_uint64 v se; Some (mkTelemetry id ty te st ba co ve he mi x).

Definition command_names : list string :=
  ["command_id"; "target_vehicle"; "command_type"; "parameters"; "issued_at_ns"; "issuer"].

Definition set_command (n : string) (v : jval) (c : CommandPayload) : option CommandPayload :=
  let '(mkCommand id tv ct pa ia iss) := c in
  if String.eqb n "command_id" then x ← decode_string v id; Some (mkCommand x tv ct pa ia iss)
  else if String.eqb n "target_vehicle" then x ← decode_string v tv; Some (mkCommand id x ct pa ia iss)
  else if String.eqb n "command_type" then x ← decode_string v ct; Some (mkCommand id tv x pa ia iss)
  else if String.eqb n "parameters" then x ← decode_map v pa; Some (mkCommand id tv ct x ia iss)
  else if String.eqb n "issued_at_ns" then x ← decode_int64 v ia; Some (mkCommand id tv ct pa x iss)
  else x ← decode_string v iss; Some (mkCommand id tv ct pa ia x).

Definition header_names : list string :=
  ["classification"; "origin_enclave"; "timestamp_ns"; "message_id"; "digest"; "caveats"].

Definition set_header (n : string) (v : jval) (h : SecurityHeader) : option SecurityHeader :=
  let '(mkHeader cl oe ts mi di ca) := h in
  if String.eqb n "classification" then x ← decode_string v cl; Some (mkHeader x oe ts mi di ca)
  else if String.eqb n "origin_enclave" then x ← decode_string v oe; Some (mkHeader cl x ts mi di ca)
  else if String.eqb n "timestamp_ns" then x ← decode_int64 v ts; Some (mkHeader cl oe x mi di ca)
  else if String.eqb n "message_id" then x ← decode_string v mi; Some (mkHeader cl oe ts x di ca)
  else if String.eqb n "digest" then x ← decode_string v di; Some (mkHeader cl oe ts mi x ca)
  else x ← decode_list v ca; Some (mkHeader cl oe ts mi di x).

Definition zero_telemetry : TelemetryPayload :=
  mkTelemetry "" "" "" "" fzero (mkCoordinates fzero fzero fzero)
    (mkVelocity fzero fzero fzero fzero) fzero None 0.
Definition zero_command : CommandPayload := mkCommand "" "" "" None 0 "".
Definition zero_envelope : SecurityEnvelope := mkEnvelope (mkHeader "" "" 0 "" "" []) None None.

Definition set_envelope (n : string) (v : jval) (e : SecurityEnvelope) : option SecurityEnvelope :=
  if String.eqb n "header" then
    x ← decode_struct header_names set_header v (Header e); Some (mkEnvelope x (Telemetry e) (Command e))
  else if String.eqb n "telemetry" then
    x ← decode_pointer telemetry_names set_telemetry zero_telemetry v (Telemetry e);
    Some (mkEnvelope (Header e) x (Command e))
  else
    x ← decode_pointer command_names set_command zero_command v (Command e);
    Some (mkEnvelope (Header e) (Telemetry e) x).

(** [json.Unmarshal(payload, &env)] into a zero envelope. *)
Definition unmarshal_envelope (payload : string) : option SecurityEnvelope :=
  v ← parse_json payload;
  decode_struct ["header"; "telemetry"; "command"] set_envelope v zero_envelope.
End Decode.

(** * Digest *)

(** [ComputePayloadDigest]: the payload is a nil interface, or is given by the
    outcome of marshalling it. *)
Definition ComputePayloadDigest (payload : option (result string string)) : result string string :=
  match payload with
  | None => Err "cannot compute digest for nil payload"
  | Some (Err e) => Err ("marshalling payload for digest: " +:+ e)
  | Some (Ok bytes) => Ok (EncodeToString (sha256 bytes))
  end.

(** [%.2f]: exact, halves to even. *)
Definition fixed2 (m : positive) (e : Z) : string :=
  let '(N, D) := float_ratio m e in
  let q := 100 * N / D in
  let r := 100 * N mod D in
  let c := (if (D <? 2 * r) || ((D =? 2 * r) && Z.odd q) then q + 1 else q)%Z in
  dec (c / 100) +:+ "." +:+ dec (c mod 100 / 10) +:+ dec (c mod 10).
Definition format_2f (x : f64) : string :=
  match x with
  | S754_nan => "NaN"
  | S754_infinity s => if s then "-Inf" else "+Inf"
  | S754_zero s => if s then "-0.00" else "0.00"
  | S754_finite s m e => (if s then "-" else "") +:+ fixed2 m e
  end.

(** * Constructors

    [now1] and [now2] are the successive readings of the clock. *)
Section Envelope.
Context `{U : Unicode}.

Definition invalid_tier (c : string) : string :=
  "invalid synthetic classification tier: " +:+ quote c.

Definition NewTelemetryEnvelope (classification origin : string) (telemetry : TelemetryPayload)
  (caveats : list string) (now1 now2 : Z) : result string SecurityEnvelope :=
  if negb (valid_tier classification) then Err (invalid_tier classification) else
  let telemetry := Normalize telemetry in
  match ComputePayloadDigest (Some (marshal_telemetry telemetry)) with
  | Err err => Err ("computing telemetry digest: " +:+ err)
  | Ok digest =>
    let msgID := "msg-" +:+ dec now1 +:+ "-" +:+ VehicleID telemetry in
    Ok (mkEnvelope (mkHeader classification origin now2 msgID digest caveats) (Some telemetry) None)
  end.

Definition with_issued_at (cmd : CommandPayload) (t : Z) : CommandPayload :=
  mkCommand (CommandID cmd) (TargetVehicle cmd) (CommandType cmd) (Parameters_ cmd) t (Issuer cmd).

Definition NewCommandEnvelope (classification origin : string) (cmd : CommandPayload)
  (caveats : list string) (now1 now2 : Z) : result string SecurityEnvelope :=
  if negb (valid_tier classification) then Err (invalid_tier classification) else
  match ComputePayloadDigest (Some (marshal_command cmd)) with
  | Err err => Err ("computing command digest: " +:+ err)
  | Ok digest =>
    let cmd := if (IssuedAtNs cmd =? 0)%Z then with_issued_at cmd now1 else cmd in
    Ok (mkEnvelope (mkHeader classification origin now2 (CommandID cmd) digest caveats) None (Some cmd))
  end.

(** * Validation *)
Inductive ValidationError :=
| ErrNilEnvelope
| ErrMissingClassification
| ErrUnauthorizedTier (c : string)
| ErrMissingOrigin
| ErrMissingTimestamp
| ErrMissingDigest
| ErrNoPayload
| ErrMissingVehicleID
| ErrMissingVehicleType
| ErrMissingTeam
| ErrBattery (b : f64)
| ErrCoordinates (lat lon : f64)
| ErrMissingCommandID
| ErrMissingTargetVehicle
| ErrMissingCommandType
| ErrRecompute (e : string)
| ErrDigestMismatch (header computed : string).

Definition validation_text (e : ValidationError) : string :=
  match e with
  | ErrNilEnvelope => "security envelope is nil"
  | ErrMissingClassification => "security header missing classification"
  | ErrUnauthorizedTier c => "unauthorized classification tier: " +:+ quote c
  | ErrMissingOrigin => "security header missing origin enclave"
  | ErrMissingTimestamp => "security header missing timestamp_ns"
  | ErrMissingDigest => "security header missing cryptographic digest"
  | ErrNoPayload => "security envelope contains neither telemetry nor command payload"
  | ErrMissingVehicleID => "telemetry missing vehicle_id"
  | ErrMissingVehicleType => "telemetry missing vehicle_type"
  | ErrMissingTeam => "telemetry missing team"
  | ErrBattery b => "invalid battery percentage: " +:+ format_2f b
  | ErrCoordinates lat lon =>
    "coordinates out of bounds: lat=" +:+ format_2f lat +:+ " lon=" +:+ format_2f lon
  | ErrMissingCommandID => "command missing command_id"
  | ErrMissingTargetVehicle => "command missing target_vehicle"
  | ErrMissingCommandType => "command missing command_type"
  | ErrRecompute e => "recomputing digest for validation: " +:+ e
  | ErrDigestMismatch h c =>
    "cryptographic digest mismatch: header has " +:+ h +:+ ", computed " +:+ c
  end.

Definition is_digest_mismatch (e : option ValidationError) : bool :=
  match e with Some (ErrDigestMismatch _ _) => true | _ => false end.

(** The bounds checks, on the normalized telemetry. *)
Definition battery_violation (t : TelemetryPayload) : bool :=
  flt (BatteryPct t) (of_Z 0) || fgt (BatteryPct t) (of_Z 100).
Definition coordinates_violation (c : Coordinates) : bool :=
  flt (Latitude c) (of_Z (-90)) || fgt (Latitude c) (of_Z 90) ||
  flt (Longitude c) (of_Z (-180)) || fgt (Longitude c) (of_Z 180).

Definition check_header (h : SecurityHeader) : option ValidationError :=
  if is_empty (Classification h) then Some ErrMissingClassification
  else if negb (valid_tier (Classification h)) then Some (ErrUnauthorizedTier (Classification h))
  else if is_empty (OriginEnclave h) then Some ErrMissingOrigin
  else if (TimestampNs h =? 0)%Z then Some ErrMissingTimestamp
  else if is_empty (Digest h) then Some ErrMissingDigest
  else None.

Definition check_telemetry (t : TelemetryPayload) : option ValidationError :=
  if is_empty (VehicleID t) then Some ErrMissingVehicleID
  else if is_empty (VehicleType t) then Some ErrMissingVehicleType
  else if is_empty (Team t) then Some ErrMissingTeam
  else if battery_violation t then Some (ErrBattery (BatteryPct t))
  else if coordinates_violation (Coords t) then
    Some (ErrCoordinates (Latitude (Coords t)) (Longitude (Coords t)))
  else None.

Definition check_command (c : CommandPayload) : option ValidationError :=
  if is_empty (CommandID c) then Some ErrMissingCommandID
  else if is_empty (TargetVehicle c) then Some ErrMissingTargetVehicle
  else if is_empty (CommandType c) then Some ErrMissingCommandType
  else None.

Definition check_digest (header : string) (json : result string string) : option ValidationError :=
  match ComputePayloadDigest (Some json) with
  | Err e => Some (ErrRecompute e)
  | Ok expected => if EqualFold header expected then None else Some (ErrDigestMismatch header expected)
  end.

Definition first_error (a b : option ValidationError) : option ValidationError :=
  match a with Some e => Some e | None => b end.

(** [Validate] normalizes the telemetry in place, so the envelope it leaves
    behind is returned with its verdict. *)
Definition Validate_envelope (env : SecurityEnvelope) : option ValidationError * SecurityEnvelope :=
  match check_header (Header env) with
  | Some e => (Some e, env)
  | None =>
    match Telemetry env, Command env with
    | None, None => (Some ErrNoPayload, env)
    | Some t, _ =>
      let t := Normalize t in
      (first_error (check_telemetry t) (check_digest (Digest (Header env)) (marshal_telemetry t)),
       mkEnvelope (Header env) (Some t) (Command env))
    | None, Some c =>
      (first_error (check_command c) (check_digest (Digest (Header env)) (marshal_command c)), env)
    end
  end.

Definition Validate (env : option SecurityEnvelope)
  : option ValidationError * option SecurityEnvelope :=
  match env with
  | None => (Some ErrNilEnvelope, None)
  | Some env => let '(e, env') := Validate_envelope env in (e, Some env')
  end.
End Envelope.

(** * Properties *)

(** ** Decimal rounding *)

Lemma roundFloat_roundTo d x : d ∈ [1; 2; 6]%Z -> roundFloat x d = roundTo (10 ^ d) x.
Proof.
  intros H. unfold roundFloat, roundTo.
  assert (Pow10 d = of_Z (10 ^ d)) as ->; [|done].
  rewrite !elem_of_cons, elem_of_nil in H.
  destruct H as [->|[->|[->|[]]]]; by vm_compute.
Qed.

(** The values [Normalize] rounds, all of them within [2^29] in magnitude. *)
Definition sound_float (x : f64) : Prop := valid x /\ in_range (2 ^ 29) x = true.

Definition telemetry_floats (t : TelemetryPayload) : list f64 :=
  [BatteryPct t; HeadingDeg t;
   Latitude (Coords t); Longitude (Coords t); AltitudeM (Coords t);
   VX (Vel t); VY (Vel t); VZ (Vel t); SpeedMps (Vel t)].

Lemma roundFloat_idem d x :
  d ∈ [1; 2; 6]%Z -> sound_float x -> roundFloat (roundFloat x d) d = roundFloat x d.
Proof.
  intros Hd [Hv Hr]. rewrite !roundFloat_roundTo by done. apply roundTo_idem; [done..|].
  rewrite !elem_of_cons, elem_of_nil in Hd. by destruct Hd as [->|[->|[->|[]]]].
Qed.

Lemma small_decimals d : d ∈ [1; 2; 6]%Z -> small_divisor (10 ^ d).
Proof. rewrite !elem_of_cons, elem_of_nil. by intros [->|[->|[->|[]]]]. Qed.

Lemma roundFloat_sound d x : d ∈ [1; 2; 6]%Z -> sound_float x -> sound_float (roundFloat x d).
Proof.
  intros Hd [Hv Hr]. rewrite roundFloat_roundTo by done.
  destruct (roundTo_in_range (10 ^ d) x (2 ^ 29)) as (? & ? & _); [done..|by apply small_decimals|].
  by split.
Qed.

Lemma Normalize_idem t :
  Forall sound_float (telemetry_floats t) -> Normalize (Normalize t) = Normalize t.
Proof.
  unfold telemetry_floats. rewrite !Forall_cons.
  intros (Hb & Hh & Hla & Hlo & Hal & Hx & Hy & Hz & Hs & _).
  unfold Normalize, Coordinates_Normalize, Velocity_Normalize. cbn.
  rewrite !roundFloat_idem; [done|..]; try done; rewrite !elem_of_cons; auto.
Qed.

Lemma roundFloat_marshals d x :
  d ∈ [1; 2; 6]%Z -> sound_float x -> is_ok (marshal_float (roundFloat x d)) = true.
Proof.
  intros Hd [Hv Hr]. rewrite roundFloat_roundTo by done.
  assert (is_finite (roundTo (10 ^ d) x) = true) as Hf.
  { apply roundTo_is_finite; [done..|]. rewrite !elem_of_cons, elem_of_nil in Hd.
    by destruct Hd as [->|[->|[->|[]]]]. }
  destruct (roundTo (10 ^ d) x); try done. cbn. by destruct (shortest _ _).
Qed.

Definition within (lo hi : Z) (x : f64) : Prop :=
  fle (of_Z lo) x = true /\ fle x (of_Z hi) = true.

(** Rounding keeps the bounds that validation checks. *)
Lemma roundFloat_within d x B :
  d ∈ [1; 2; 6]%Z -> valid x -> B ∈ [90; 100; 180]%Z ->
  within (- B) B x -> within (- B) B (roundFloat x d).
Proof.
  intros Hd Hv HB [Hl Hh]. rewrite roundFloat_roundTo by done.
  assert (0 < B <= 2 ^ 29 /\ of_Z (- B) = fneg (of_Z B))%Z as [HB1 HB2].
  { rewrite !elem_of_cons, elem_of_nil in HB. by destruct HB as [->|[->|[->|[]]]]. }
  assert (in_range B x = true) as Hr by (by rewrite in_range_fle, Hl, Hh).
  destruct (roundTo_in_range (10 ^ d) x B) as (Hv' & Hr' & _); [done..|by apply small_decimals|].
  rewrite in_range_fle in Hr' by done. by apply andb_prop in Hr'.
Qed.

Lemma roundFloat_within_pos d x :
  d ∈ [1; 2; 6]%Z -> valid x -> within 0 100 x -> within 0 100 (roundFloat x d).
Proof.
  intros Hd Hv [Hl Hh].
  assert (within (-100) 100 x) as Hw.
  { split; [|done]. by destruct x as [[]|[]| |[] ? ?]. }
  pose proof (roundFloat_within d x 100 Hd Hv) as H. destruct H as [_ Hh'];
    [rewrite !elem_of_cons; auto|done|]. split; [|done]. clear Hh'.
  destruct Hw as [Hw1 Hw2]. assert (in_range 100 x = true) as Hr
    by (rewrite in_range_fle by done; change (- (100))%Z with (-100)%Z; by rewrite Hw1, Hw2).
  rewrite roundFloat_roundTo by done. pose proof (small_decimals d Hd) as Hs.
  destruct x as [s|s| |[] m e]; try done.
  - unfold roundTo. destruct (of_Z_spec (10 ^ d)) as (m2 & e2 & -> & _).
    { unfold small_divisor in Hs. lia. } by destruct s.
  - destruct (roundTo_in_range (10 ^ d) _ 100 Hv Hr) as (_ & Hr' & Hs'); [done|done|].
    cbn [sign] in Hs'. by destruct (roundTo _ _) as [[]|[]| |[] ? ?].
Qed.

(** ** Acceptance *)

Definition payload_text (env : SecurityEnvelope) : option (result string string) :=
  match Telemetry env, Command env with
  | Some t, _ => Some (marshal_telemetry (Normalize t))
  | None, Some c => Some (marshal_command c)
  | None, None => None
  end.

(** The JSON text of the payload that an envelope carries: its telemetry or, without
    one, its command. *)
Definition carried_text (env : SecurityEnvelope) : option (result string string) :=
  match Telemetry env, Command env with
  | Some t, _ => Some (marshal_telemetry t)
  | None, Some c => Some (marshal_command c)
  | None, None => None
  end.

(** The digest names the hash of a text, in either case of its letters. *)
Definition digest_of (digest text : string) : Prop :=
  str_map lower_ascii digest = EncodeToString (sha256 text).

(** What a vehicle may report: numbers of reasonable size, battery and position
    within their physical bounds. *)
Definition physical (t : TelemetryPayload) : Prop :=
  Forall sound_float (telemetry_floats t) /\
  within 0 100 (BatteryPct t) /\ within (-90) 90 (Latitude (Coords t)) /\
  within (-180) 180 (Longitude (Coords t)).

Lemma physical_Normalize t :
  physical t ->
  within 0 100 (BatteryPct (Normalize t)) /\ within (-90) 90 (Latitude (Coords (Normalize t))) /\
  within (-180) 180 (Longitude (Coords (Normalize t))).
Proof.
  intros (Hf & Hb & Hla & Hlo). unfold telemetry_floats in Hf. rewrite !Forall_cons in Hf.
  destruct Hf as ([Vb _] & _ & [Vla _] & [Vlo _] & _).
  unfold Normalize, Coordinates_Normalize. cbn [BatteryPct Coords Latitude Longitude].
  split; [|split]; [apply roundFloat_within_pos|apply (roundFloat_within 6 _ 90)|
    apply (roundFloat_within 6 _ 180)]; rewrite ?elem_of_cons; auto.
Qed.

Lemma physical_Normalize_physical t : physical t -> physical (Normalize t).
Proof.
  intros Hp. split; [|by apply physical_Normalize]. destruct Hp as [Hf _].
  unfold telemetry_floats in *. rewrite !Forall_cons in *. destruct Hf as (?&?&?&?&?&?&?&?&?&_).
  cbn -[roundFloat]. split_and!; try done; apply roundFloat_sound; rewrite ?elem_of_cons; auto.
Qed.

Definition payload_wf (env : SecurityEnvelope) : Prop :=
  match Telemetry env, Command env with
  | Some t, _ =>
    VehicleID t <> "" /\ VehicleType t <> "" /\ Team t <> "" /\
    within 0 100 (BatteryPct (Normalize t)) /\
    within (-90) 90 (Latitude (Coords (Normalize t))) /\
    within (-180) 180 (Longitude (Coords (Normalize t)))
  | None, Some c => CommandID c <> "" /\ TargetVehicle c <> "" /\ CommandType c <> ""
  | None, None => False
  end.

Record accepted (env : SecurityEnvelope) : Prop := {
  acc_tier : Classification (Header env) ∈ [Tier1Public; Tier2Restricted; Tier3Critical];
  acc_origin : OriginEnclave (Header env) <> "";
  acc_timestamp : TimestampNs (Header env) <> 0%Z;
  acc_payload : payload_wf env;
  acc_digest : exists text, payload_text env = Some (Ok text) /\ digest_of (Digest (Header env)) text;
}.

Lemma valid_tier_spec c : valid_tier c = true <-> c ∈ [Tier1Public; Tier2Restricted; Tier3Critical].
Proof.
  unfold valid_tier, ValidTiers. rewrite !elem_of_cons, elem_of_nil. split.
  - destruct (list_to_map _ !! c) as [b|] eqn:E; [|done]. intros _.
    apply elem_of_list_to_map_2 in E. rewrite !elem_of_cons, elem_of_nil in E.
    destruct E as [[= -> _]|[[= -> _]|[[= -> _]|[]]]]; auto.
  - by intros [->|[->|[->|[]]]].
Qed.

Lemma SFcompare_swap (x y : f64) : SFcompare y x = option_map CompOpp (SFcompare x y).
Proof.
  destruct x as [[]|[]| |[] m1 e1], y as [[]|[]| |[] m2 e2]; try done; cbn;
    rewrite (Z.compare_antisym e2 e1); destruct (e2 ?= e1)%Z; cbn; try done;
    rewrite (Pos.compare_cont_antisym _ _ Eq); cbn; by destruct (Pos.compare_cont _ _ _).
Qed.

Lemma not_lt_le (x y : f64) : x <> S754_nan -> y <> S754_nan -> flt x y = false -> fle y x = true.
Proof.
  unfold flt, fle, SFltb, SFleb. rewrite (SFcompare_swap x y). intros Hx Hy.
  destruct (SFcompare x y) as [[]|] eqn:E; cbn; try done.
  by destruct x as [[]|[]| |[] ? ?], y as [[]|[]| |[] ? ?].
Qed.

Lemma le_not_lt (x y : f64) : fle y x = true -> flt x y = false.
Proof.
  unfold flt, fle, SFltb, SFleb. rewrite (SFcompare_swap x y).
  by destruct (SFcompare x y) as [[]|].
Qed.

Lemma marshal_float_nan : is_ok (marshal_float S754_nan) = false.
Proof. done. Qed.

Lemma marshal_fields_ok l : is_ok (marshal_fields l) = forallb (fun f => is_ok f.2) l.
Proof. rewrite <- seq_fields_ok. unfold marshal_fields. by destruct (seq_fields l). Qed.

Definition payload_map_ok (m : option (list (string * any))) : bool :=
  forallb (fun f => is_ok f.2) (map_field "" m).

(** Telemetry is marshalled exactly when its numbers are finite and its mission
    payload can be marshalled. *)
Lemma marshal_telemetry_ok t :
  is_ok (marshal_telemetry t) =
    forallb (fun x => is_ok (marshal_float x)) (telemetry_floats t) && payload_map_ok (MissionPayload t).
Proof.
  unfold marshal_telemetry. rewrite marshal_fields_ok, !forallb_app. cbn.
  unfold marshal_coordinates, marshal_velocity. rewrite !marshal_fields_ok. cbn.
  assert (forallb (fun f => is_ok f.2) (map_field "mission_payload" (MissionPayload t)) =
    payload_map_ok (MissionPayload t)) as -> by (by destruct (MissionPayload t) as [[]|]).
  rewrite !andb_true_r, <- !andb_assoc.
  destruct (is_ok (marshal_float (HeadingDeg t))), (is_ok (marshal_float (BatteryPct t)));
    cbn; rewrite ?andb_false_r; try done.
Qed.

Lemma marshal_telemetry_not_nan t text x :
  marshal_telemetry t = Ok text -> x ∈ telemetry_floats t -> x <> S754_nan.
Proof.
  intros H Hx ->. assert (is_ok (marshal_telemetry t) = true) as Hok by by rewrite H.
  rewrite marshal_telemetry_ok in Hok. apply andb_prop in Hok as [Hf _].
  rewrite forallb_forall in Hf. apply list_elem_of_In, Hf in Hx. done.
Qed.

Lemma Normalize_marshals t :
  Forall sound_float (telemetry_floats t) -> payload_map_ok (MissionPayload t) = true ->
  is_ok (marshal_telemetry (Normalize t)) = true.
Proof.
  unfold telemetry_floats. rewrite !Forall_cons.
  intros (Hb & Hh & Hla & Hlo & Hal & Hx & Hy & Hz & Hs & _) Hm.
  rewrite marshal_telemetry_ok. cbn [MissionPayload Normalize]. rewrite Hm, andb_true_r.
  cbn -[marshal_float roundFloat].
  rewrite !roundFloat_marshals; [done|..]; try done; rewrite !elem_of_cons; auto.
Qed.

(** ** Validation *)
Section Properties.
Context `{U : Unicode} `{UL : !UnicodeLaws U}.

Lemma check_header_spec h :
  check_header h = None <->
  Classification h ∈ [Tier1Public; Tier2Restricted; Tier3Critical] /\
  OriginEnclave h <> "" /\ TimestampNs h <> 0%Z /\ Digest h <> "".
Proof.
  unfold check_header. rewrite <- valid_tier_spec, <- !is_empty_spec, <- Z.eqb_neq.
  destruct (is_empty (Classification h)) eqn:E.
  { apply String.eqb_eq in E. rewrite E. split; [done|]. by intros [? _]. }
  destruct (valid_tier (Classification h)), (is_empty (OriginEnclave h)), (TimestampNs h =? 0)%Z,
    (is_empty (Digest h)); cbn; intuition congruence.
Qed.

Lemma check_digest_spec d r :
  check_digest d r = None <-> exists text, r = Ok text /\ digest_of d text.
Proof.
  unfold check_digest, ComputePayloadDigest, digest_of. destruct r as [text|e].
  - pose proof (EqualFold_hex d (EncodeToString (sha256 text))
      (EncodeToString_hex _ (sha256_bytes text))) as HE.
    destruct (EqualFold _ _) eqn:E.
    + split; [|done]. intros _. exists text. by rewrite <- HE.
    + split; [done|]. intros (? & [= <-] & H). by apply HE in H.
  - split; [done|]. by intros (? & [=] & _).
Qed.

Lemma first_error_none a b : first_error a b = None <-> a = None /\ b = None.
Proof. destruct a; cbn; intuition congruence. Qed.

Lemma check_command_spec c :
  check_command c = None <-> CommandID c <> "" /\ TargetVehicle c <> "" /\ CommandType c <> "".
Proof.
  unfold check_command. rewrite <- !is_empty_spec.
  destruct (is_empty (CommandID c)), (is_empty (TargetVehicle c)), (is_empty (CommandType c));
    intuition congruence.
Qed.

Lemma within_spec lo hi (x : f64) :
  x <> S754_nan -> of_Z lo <> S754_nan -> of_Z hi <> S754_nan ->
  within lo hi x <-> flt x (of_Z lo) = false /\ fgt x (of_Z hi) = false.
Proof.
  intros Hx Hl Hh. unfold within, fgt. split.
  - intros [H1 H2]. split; by apply le_not_lt.
  - intros [H1 H2]. split; by apply not_lt_le.
Qed.

Lemma check_telemetry_spec t text :
  marshal_telemetry t = Ok text ->
  check_telemetry t = None <->
  VehicleID t <> "" /\ VehicleType t <> "" /\ Team t <> "" /\ within 0 100 (BatteryPct t) /\
  within (-90) 90 (Latitude (Coords t)) /\ within (-180) 180 (Longitude (Coords t)).
Proof.
  intros Hm. assert (forall x, x ∈ telemetry_floats t -> x <> S754_nan) as Hn
    by (intros x; by eapply marshal_telemetry_not_nan).
  rewrite !within_spec by (done || apply Hn; unfold telemetry_floats; rewrite !elem_of_cons; auto 10).
  unfold check_telemetry, battery_violation, coordinates_violation. rewrite <- !is_empty_spec.
  destruct (is_empty (VehicleID t)), (is_empty (VehicleType t)), (is_empty (Team t));
    [split; [done|]; intuition congruence..|].
  destruct (flt (BatteryPct t) (of_Z 0)), (fgt (BatteryPct t) (of_Z 100));
    [split; [done|]; intuition congruence..|].
  destruct (flt (Latitude (Coords t)) (of_Z (-90))), (fgt (Latitude (Coords t)) (of_Z 90)),
    (flt (Longitude (Coords t)) (of_Z (-180))), (fgt (Longitude (Coords t)) (of_Z 180));
    cbn [orb]; intuition congruence.
Qed.

Lemma digest_of_nonempty d text : digest_of d text -> d <> "".
Proof. intros Hd ->. by eapply digest_nonempty. Qed.

Lemma Validate_accepts env :
  (Validate (Some env)).1 = None <-> accepted env.
Proof.
  unfold Validate. destruct (Validate_envelope env) as [e env'] eqn:HV. cbn [fst].
  unfold Validate_envelope in HV. destruct (check_header (Header env)) as [he|] eqn:Hh.
  { injection HV as <- _. split; [done|]. intros [Ht Ho Hts Hp (text & _ & Hd)].
    apply digest_of_nonempty in Hd.
    assert (check_header (Header env) = None); [by apply check_header_spec|congruence]. }
  apply check_header_spec in Hh as (Ht & Ho & Hts & Hd).
  assert (e = None <-> payload_wf env /\
    exists text, payload_text env = Some (Ok text) /\ digest_of (Digest (Header env)) text) as ->.
  { unfold payload_wf, payload_text.
    destruct (Telemetry env) as [t|]; [|destruct (Command env) as [c|]]; injection HV as <- _.
    - rewrite first_error_none, check_digest_spec. split.
      + intros [Hc (text & Hm & Hdg)]. apply (check_telemetry_spec _ text Hm) in Hc.
        split; [exact Hc|]. exists text. by rewrite Hm.
      + intros (Hw & text & [= Hm] & Hdg). split; [|by exists text].
        by apply (check_telemetry_spec _ text Hm).
    - rewrite first_error_none, check_digest_spec, check_command_spec.
      split; intros (Hw & text & Hm & Hdg); (split; [done|]); exists text; split; congruence.
    - split; [done|]. by intros [[] _]. }
  split; [intros [Hw Hg]; by constructor|intros [? ? ? Hw Hg]; by split].
Qed.

(** C2. Validation accepts exactly the well-formed envelopes: an authorized tier,
    an origin, a timestamp, the mandatory fields of its payload, battery and
    coordinates of the normalized telemetry within their bounds (NaN is never
    within), and a digest that is, up to letter case, the SHA-256 of the JSON text
    of the normalized payload. *)
Theorem Validate_accepts_iff env :
  (Validate (Some env)).1 = None <-> accepted env.
Proof. apply Validate_accepts. Qed.

(** Validation leaves the envelope it accepted with the text that it hashed. *)
Lemma Validate_carried env env' : Validate (Some env) = (None, Some env') ->
  exists text, carried_text env' = Some (Ok text) /\ digest_of (Digest (Header env)) text.
Proof.
  intros HV. assert ((Validate (Some env)).1 = None) as [_ _ _ _ (text & Hp & Hd)]%Validate_accepts by by rewrite HV.
  exists text. split; [|exact Hd]. revert HV Hp. unfold Validate, Validate_envelope, payload_text, carried_text.
  destruct (check_header (Header env)); [done|].
  destruct (Telemetry env) as [t|] eqn:Et; [intros [= _ <-]; done|].
  destruct (Command env) as [c|] eqn:Ec; [|done]. intros [= _ <-]. by rewrite Et, Ec.
Qed.

(** What an accepted digest binds: the texts of the payloads that two accepted envelopes
    of one digest carry on, or else two texts of one SHA-256 hash are at hand. *)
Lemma digest_binds_text e1 e2 e1' e2' :
  Validate (Some e1) = (None, Some e1') -> Validate (Some e2) = (None, Some e2') ->
  str_map lower_ascii (Digest (Header e1)) = str_map lower_ascii (Digest (Header e2)) ->
  exists text1 text2, carried_text e1' = Some (Ok text1) /\ carried_text e2' = Some (Ok text2) /\
    sha256 text1 = sha256 text2.
Proof.
  intros (t1 & P1 & D1)%Validate_carried (t2 & P2 & D2)%Validate_carried HE. exists t1, t2. split; [done|]. split; [done|].
  apply EncodeToString_inj; try apply sha256_bytes. unfold digest_of in *. congruence.
Qed.

(** What it does not bind: anything that rounding removes from the telemetry. *)
Theorem Validate_rounding_unbound env t t' :
  (Validate (Some env)).1 = None -> Telemetry env = Some t -> Normalize t' = Normalize t ->
  Validate (Some (mkEnvelope (Header env) (Some t') (Command env))) = Validate (Some env).
Proof.
  intros HV Ht Hn. revert HV. unfold Validate, Validate_envelope. cbn [Header Telemetry Command].
  destruct (check_header (Header env)); [done|]. by rewrite Ht, Hn.
Qed.

Lemma digest_of_self text : digest_of (EncodeToString (sha256 text)) text.
Proof.
  unfold digest_of. apply str_map_id.
  pose proof (EncodeToString_hex _ (sha256_bytes text)) as Hx. revert Hx. apply str_forall_impl.
  intros a [-> _]%is_hex_lower_fix. apply Ascii.eqb_refl.
Qed.

(** Telemetry that normalization leaves alone and that is within the physical
    bounds validates under its own digest. *)
Lemma Validate_normalized h t cmd text :
  Classification h ∈ [Tier1Public; Tier2Restricted; Tier3Critical] -> OriginEnclave h <> "" ->
  TimestampNs h <> 0%Z -> VehicleID t <> "" -> VehicleType t <> "" -> Team t <> "" ->
  physical t -> Normalize t = t -> marshal_telemetry t = Ok text -> digest_of (Digest h) text ->
  Validate (Some (mkEnvelope h (Some t) cmd)) = (None, Some (mkEnvelope h (Some t) cmd)).
Proof.
  intros Hc Ho Hts Hid Hty Hte Hphys Hfix Hm Hd. set (env := mkEnvelope h (Some t) cmd).
  assert ((Validate (Some env)).1 = None) as Hv.
  { apply Validate_accepts. constructor; [done..| |].
    - apply physical_Normalize in Hphys. by split; [|split; [|split]].
    - exists text. unfold payload_text, env. cbn [Telemetry]. by rewrite Hfix, Hm. }
  rewrite (surjective_pairing (Validate (Some env))), Hv. f_equal.
  unfold Validate, Validate_envelope, env. cbn [Header Telemetry].
  destruct (check_header _); [done|]. by rewrite Hfix.
Qed.

Lemma new_telemetry_envelope_ok c o t cav now1 now2 :
  valid_tier c = true -> o <> "" -> now2 <> 0%Z ->
  VehicleID t <> "" -> VehicleType t <> "" -> Team t <> "" ->
  physical t -> payload_map_ok (MissionPayload t) = true ->
  exists env, NewTelemetryEnvelope c o t cav now1 now2 = Ok env /\
    Telemetry env = Some (Normalize t) /\ Command env = None /\ Classification (Header env) = c /\
    Validate (Some env) = (None, Some env).
Proof.
  intros Hc Ho Hn Hid Hty Hte Hphys Hm. pose proof Hphys as [Hf _].
  pose proof (Normalize_marshals t Hf Hm) as Hok.
  unfold NewTelemetryEnvelope. rewrite Hc. cbn [negb].
  destruct (marshal_telemetry (Normalize t)) as [text|] eqn:Ht; [|done]. cbn [ComputePayloadDigest].
  eexists. split; [done|]. split; [done|]. split; [done|]. split; [done|].
  apply (Validate_normalized _ _ _ text); try done;
    [by apply valid_tier_spec|by apply physical_Normalize_physical|by apply Normalize_idem|apply digest_of_self].
Qed.

(** An envelope built from telemetry within the physical bounds passes its own
    validation unchanged: for an authorized tier, the constructor succeeds and
    its digest is the one validation recomputes after normalizing the telemetry a
    second time, because the decimal rounding of floats is idempotent and stays
    within the bounds. *)
Theorem NewTelemetryEnvelope_valid c o t cav now1 now2 :
  valid_tier c = true -> o <> "" -> now2 <> 0%Z ->
  VehicleID t <> "" -> VehicleType t <> "" -> Team t <> "" ->
  physical t -> payload_map_ok (MissionPayload t) = true ->
  exists env, NewTelemetryEnvelope c o t cav now1 now2 = Ok env /\
    Telemetry env = Some (Normalize t) /\ Classification (Header env) = c /\
    Validate (Some env) = (None, Some env).
Proof.
  intros Hc Ho Hn Hid Hty Hte Hphys Hm.
  destruct (new_telemetry_envelope_ok c o t cav now1 now2) as (env & ? & ? & _ & ? & ?); [done..|].
  by exists env.
Qed.

(** An accepted envelope under another digest. *)
Definition with_digest (d : string) (env : SecurityEnvelope) : SecurityEnvelope :=
  let h := Header env in
  mkEnvelope (mkHeader (Classification h) (OriginEnclave h) (TimestampNs h) (MessageID h) d (Caveats h))
    (Telemetry env) (Command env).

Lemma Validate_with_digest d env :
  (Validate (Some env)).1 = None -> d <> "" ->
  exists text, payload_text env = Some (Ok text) /\
    (Validate (Some (with_digest d env))).1 =
      (if EqualFold d (EncodeToString (sha256 text)) then None
       else Some (ErrDigestMismatch d (EncodeToString (sha256 text)))).
Proof.
  intros Hv Hd. unfold Validate, Validate_envelope in *.
  destruct (check_header (Header env)) as [e|] eqn:Eh; [done|].
  assert (check_header (Header (with_digest d env)) = None) as ->.
  { apply check_header_spec in Eh as (? & ? & ? & _). by apply check_header_spec. }
  unfold payload_text, with_digest. cbn [Telemetry Command Header Digest].
  assert (forall r, check_digest (Digest (Header env)) r = None -> exists text, r = Ok text) as Hr.
  { intros r (text & -> & _)%check_digest_spec. by exists text. }
  destruct (Telemetry env) as [t|].
  - destruct (first_error _ _) eqn:Ef in Hv; [done|]. apply first_error_none in Ef as [Et Ed].
    destruct (Hr _ Ed) as [text Etext]. exists text. rewrite Etext, Et. split; [done|].
    cbn. by destruct (EqualFold _ _).
  - destruct (Command env) as [cm|]; [|done].
    destruct (first_error _ _) eqn:Ef in Hv; [done|]. apply first_error_none in Ef as [Et Ed].
    destruct (Hr _ Ed) as [text Etext]. exists text. rewrite Etext, Et. split; [done|].
    cbn. by destruct (EqualFold _ _).
Qed.

Lemma marshal_command_ok c : is_ok (marshal_command c) = payload_map_ok (Parameters_ c).
Proof.
  unfold marshal_command. rewrite marshal_fields_ok, !forallb_app. cbn. rewrite andb_true_r.
  unfold payload_map_ok. by destruct (Parameters_ c) as [[]|].
Qed.

Lemma new_command_envelope_ok c o cmd cav now1 now2 :
  valid_tier c = true -> o <> "" -> now2 <> 0%Z -> IssuedAtNs cmd <> 0%Z ->
  payload_map_ok (Parameters_ cmd) = true ->
  CommandID cmd <> "" -> TargetVehicle cmd <> "" -> CommandType cmd <> "" ->
  exists env, NewCommandEnvelope c o cmd cav now1 now2 = Ok env /\ Classification (Header env) = c /\
    Telemetry env = None /\ Command env = Some cmd /\
    Validate (Some env) = (None, Some env).
Proof.
  intros Hc Ho Hn Hi Hp H1 H2 H3. rewrite <- marshal_command_ok in Hp.
  unfold NewCommandEnvelope. rewrite Hc. cbn [negb].
  destruct (marshal_command cmd) as [text|] eqn:Ht; [|done]. cbn [ComputePayloadDigest].
  rewrite (proj2 (Z.eqb_neq _ _) Hi). set (env := mkEnvelope _ _ _).
  exists env. split; [done|]. split; [done|]. split; [done|]. split; [done|].
  assert ((Validate (Some env)).1 = None) as Hv.
  { apply Validate_accepts. constructor; [by apply valid_tier_spec|done..|].
    exists text. unfold payload_text, env. cbn. rewrite Ht. split; [done|apply digest_of_self]. }
  rewrite (surjective_pairing (Validate (Some env))), Hv. f_equal.
  unfold Validate, Validate_envelope. by destruct (check_header _).
Qed.

(** A command envelope whose command already carries its time of issue passes
    its own validation, unchanged. *)
Theorem NewCommandEnvelope_valid c o cmd cav now1 now2 :
  valid_tier c = true -> o <> "" -> now2 <> 0%Z -> IssuedAtNs cmd <> 0%Z ->
  payload_map_ok (Parameters_ cmd) = true ->
  CommandID cmd <> "" -> TargetVehicle cmd <> "" -> CommandType cmd <> "" ->
  exists env, NewCommandEnvelope c o cmd cav now1 now2 = Ok env /\ Command env = Some cmd /\
    Validate (Some env) = (None, Some env).
Proof.
  intros Hc Ho Hn Hi Hp H1 H2 H3.
  destruct (new_command_envelope_ok c o cmd cav now1 now2) as (env & ? & _ & _ & ? & ?); [done..|].
  by exists env.
Qed.

(** The digest does not cover the header: an accepted envelope stays accepted
    under any other authorized classification, origin, timestamp, message id and
    caveats; in particular a TIER-3 envelope relabelled TIER-1 validates. *)
Theorem Validate_header_unauthenticated env c o ts mid cav :
  (Validate (Some env)).1 = None -> valid_tier c = true -> o <> "" -> ts <> 0%Z ->
  (Validate (Some (mkEnvelope (mkHeader c o ts mid (Digest (Header env)) cav)
    (Telemetry env) (Command env)))).1 = None.
Proof.
  rewrite !Validate_accepts. intros [_ _ _ Hw Hd] Hc Ho Ht.
  constructor; [by apply valid_tier_spec|done..].
Qed.

(** When an envelope has telemetry, validation ignores its command: whatever
    command is attached to accepted telemetry, the envelope is accepted. *)
Theorem Validate_attached_command env t cmd :
  Telemetry env = Some t ->
  (Validate (Some (mkEnvelope (Header env) (Some t) cmd))).1 = (Validate (Some env)).1.
Proof.
  intros Ht. unfold Validate, Validate_envelope. cbn [Header Telemetry]. rewrite Ht.
  by destruct (check_header _).
Qed.
End Properties.

(** * Concrete runs *)
Module Samples.
Definition telem : TelemetryPayload := mkTelemetry "bravo" "drone" "blue" "AIRBORNE" (lit 985 1)
  (mkCoordinates (lit 31625123456 9) (lit (-8082) 3) (of_Z 135))
  (mkVelocity (lit 1234567 5) fzero fzero (of_Z 14)) (of_Z 90)
  (Some [("ok", ABool true); ("status", AStr "x")]) 7.
Definition cmd : CommandPayload :=
  mkCommand "cmd-1" "bravo" "HOVER" (Some [("alt", ANum (lit 125 1))]) 17 "operator".
Definition unissued : CommandPayload := with_issued_at cmd 0.

Definition envelope (r : result string SecurityEnvelope) : SecurityEnvelope :=
  match r with Ok e => e | Err _ => zero_envelope end.
Definition env2 : SecurityEnvelope :=
  envelope (@NewTelemetryEnvelope caseless Tier2Restricted "edge-node" telem ["A"] 100 200).
Definition env3 : SecurityEnvelope :=
  envelope (@NewTelemetryEnvelope caseless Tier3Critical "edge-node" telem [] 100 200).
Definition envc : SecurityEnvelope :=
  envelope (@NewCommandEnvelope caseless Tier2Restricted "gateway" cmd [] 100 200).

Lemma telem_physical : physical telem.
Proof. split; [repeat constructor; by vm_compute|]. split; [|split]; by split. Qed.

Lemma env2_valid : (@Validate caseless (Some env2)).1 = None.
Proof. by vm_compute. Qed.
Lemma env3_valid : (@Validate caseless (Some env3)).1 = None.
Proof. by vm_compute. Qed.
End Samples.

(** A command envelope built from a command without a time of issue does not
    pass its own validation: the digest is computed before the time is filled
    in, so it is not the digest of the command that is sent. *)
Theorem NewCommandEnvelope_unissued :
  match @NewCommandEnvelope caseless Tier2Restricted "gateway" Samples.unissued [] 100 200 with
  | Ok env => is_digest_mismatch (@Validate caseless (Some env)).1
  | Err _ => false
  end = true.
Proof. by vm_compute. Qed.

(** Two reports that differ, with a battery of 50 and of 50.04 percent, under one digest. *)
Example battery_unbound :
  let at_battery b := mkTelemetry "bravo" "drone" "blue" "AIRBORNE" b (mkCoordinates fzero fzero fzero)
    (mkVelocity fzero fzero fzero fzero) fzero None 7 in
  let env := Samples.envelope (@NewTelemetryEnvelope caseless Tier2Restricted "edge-node" (at_battery (of_Z 50)) [] 100 200) in
  let changed := mkEnvelope (Header env) (Some (at_battery (lit 5004 2))) None in
  (@Validate caseless (Some env)).1 = None /\ @Validate caseless (Some changed) = @Validate caseless (Some env) /\
  match marshal_envelope env, marshal_envelope changed with Ok s, Ok s' => negb (String.eqb s s') | _, _ => false end = true.
Proof. by vm_compute. Qed.

Lemma NewTelemetryEnvelope_valid_witness :
  exists env, @NewTelemetryEnvelope caseless Tier2Restricted "edge-node" Samples.telem [] 100 200 = Ok env /\
    Telemetry env = Some (Normalize Samples.telem) /\ Classification (Header env) = Tier2Restricted /\
    @Validate caseless (Some env) = (None, Some env).
Proof.
  apply (@NewTelemetryEnvelope_valid caseless caseless_laws);
    [done..|exact Samples.telem_physical|done].
Defined.

Lemma NewCommandEnvelope_valid_witness :
  exists env, @NewCommandEnvelope caseless Tier2Restricted "gateway" Samples.cmd [] 100 200 = Ok env /\
    Command env = Some Samples.cmd /\ @Validate caseless (Some env) = (None, Some env).
Proof. by apply (@NewCommandEnvelope_valid caseless caseless_laws). Defined.

Lemma Validate_header_unauthenticated_witness :
  (@Validate caseless (Some (mkEnvelope
    (mkHeader Tier1Public "elsewhere" 1 "m" (Digest (Header Samples.env3)) [])
    (Telemetry Samples.env3) (Command Samples.env3)))).1 = None.
Proof.
  apply (@Validate_header_unauthenticated caseless caseless_laws Samples.env3);
    [exact Samples.env3_valid|done..].
Defined.

Lemma Validate_attached_command_witness :
  (@Validate caseless (Some (mkEnvelope (Header Samples.env2) (Some (Normalize Samples.telem))
    (Some Samples.unissued)))).1 = (@Validate caseless (Some Samples.env2)).1.
Proof. apply (@Validate_attached_command caseless). by vm_compute. Defined.

Lemma Validate_accepts_iff_witness :
  (@Validate caseless (Some Samples.env2)).1 = None <-> accepted Samples.env2.
Proof. exact (@Validate_accepts_iff caseless caseless_laws Samples.env2). Defined.
