(* ===== verification/Decoded.v ===== *)
(** Facts about decoded values: an invariant of the zero value that every field
    setter keeps holds of whatever is decoded; in particular decoded envelopes and
    decoded maps can always be marshalled again. *)
From Stdlib Require Import Strings.String SpecFloat.
From S2P Require Import Prelude GoString Float64 Json JsonFacts Schema.

Local Open Scope string_scope.
Local Open Scope go_scope.

(** Undoing one [x ← r; k]. *)
Lemma bind_Some_inv {A B} (r : option A) (k : A -> option B) b :
  (x ← r; k x) = Some b -> exists x, r = Some x /\ k x = Some b.
Proof. destruct r as [x|]; [|done]. by exists x. Qed.

Ltac unbind H :=
  let x := fresh "x" in let E := fresh "E" in
  apply bind_Some_inv in H as (x & E & H).

(** The branches of a setter. *)
Ltac split_ifs H := repeat match type of H with (if ?b then _ else _) = _ => destruct b end.

Section Fields.
Context `{U : Unicode} {A : Type} (P : A -> Prop) (names : list string)
  (set : string -> jval -> A -> option A).
Hypothesis set_keeps : forall n v a a', P a -> set n v a = Some a' -> P a'.

Lemma decode_fields_inv l a a' : P a -> decode_fields names set l a = Some a' -> P a'.
Proof using set_keeps.
  revert a. induction l as [|[k v] l IH]; intros a Ha H; cbn in H; [by injection H as <-|].
  unbind H. destruct (find_field names k) as [n|]; [|injection E as <-; by eapply IH].
  eapply IH; [|exact H]. by eapply set_keeps.
Qed.

Lemma decode_struct_inv v a a' : P a -> decode_struct names set v a = Some a' -> P a'.
Proof using set_keeps.
  intros Ha H. destruct v; try done; cbn in H; [by injection H as <-|by eapply decode_fields_inv].
Qed.

Lemma decode_pointer_inv zero v o o' :
  P zero -> (forall a, o = Some a -> P a) -> decode_pointer names set zero v o = Some o' ->
  forall a', o' = Some a' -> P a'.
Proof using set_keeps.
  intros Hz Ho H a' ->. destruct v; cbn in H; try done.
  destruct (decode_fields _ _ _ _) as [x|] eqn:E; [|done]. cbn in H. injection H as ->.
  eapply decode_fields_inv; [|exact E]. destruct o; [by apply Ho|done].
Qed.
End Fields.

(** ** Maps *)
Lemma payload_map_ok_entries m :
  payload_map_ok (Some m) = forallb (fun kv => is_ok (marshal_any kv.2)) m.
Proof.
  unfold payload_map_ok. destruct m as [|kv m]; [done|]. cbn [map_field forallb snd].
  by rewrite andb_true_r, marshal_map_ok.
Qed.

Lemma decode_entries_ok l old new :
  payload_map_ok (Some old) = true -> decode_entries l old = Some new ->
  payload_map_ok (Some new) = true.
Proof.
  revert old. induction l as [|[k v] l IH]; intros old Hold H; cbn in H; [by injection H as <-|].
  unbind H. eapply IH; [|exact H]. rewrite payload_map_ok_entries in *.
  apply (forallb_assoc_set (fun v => is_ok (marshal_any v))); [by eapply to_any_marshals|done].
Qed.

Lemma decode_map_ok v old new :
  payload_map_ok old = true -> decode_map v old = Some new -> payload_map_ok new = true.
Proof.
  intros Hold H. destruct v; cbn in H; try done; [by injection H as <-|].
  destruct (decode_entries _ _) as [m|] eqn:E; [|done]. cbn in H. injection H as <-.
  eapply decode_entries_ok; [|exact E]. by destruct old.
Qed.

Lemma decode_float_finite v old new :
  is_finite old = true -> decode_float v old = Some new -> is_finite new = true.
Proof.
  intros Hold H. destruct v; cbn in H; try done; [by injection H as <-|by eapply number_float_finite].
Qed.

(** ** Envelopes *)
Definition coordinates_ok (c : Coordinates) : Prop := is_ok (marshal_coordinates c) = true.
Definition velocity_ok (v : Velocity) : Prop := is_ok (marshal_velocity v) = true.
Definition telemetry_ok (t : TelemetryPayload) : Prop := is_ok (marshal_telemetry t) = true.
Definition command_ok (c : CommandPayload) : Prop := is_ok (marshal_command c) = true.

Lemma coordinates_ok_spec c :
  coordinates_ok c <-> is_finite (Latitude c) = true /\ is_finite (Longitude c) = true /\ is_finite (AltitudeM c) = true.
Proof.
  unfold coordinates_ok, marshal_coordinates. rewrite marshal_fields_ok. cbn [forallb snd float_field].
  rewrite !marshal_float_ok, !andb_true_iff. tauto.
Qed.
Lemma velocity_ok_spec v :
  velocity_ok v <-> is_finite (VX v) = true /\ is_finite (VY v) = true /\ is_finite (VZ v) = true /\
    is_finite (SpeedMps v) = true.
Proof.
  unfold velocity_ok, marshal_velocity. rewrite marshal_fields_ok. cbn [forallb snd float_field].
  rewrite !marshal_float_ok, !andb_true_iff. tauto.
Qed.

Lemma set_coordinates_ok n v c c' : coordinates_ok c -> set_coordinates n v c = Some c' -> coordinates_ok c'.
Proof.
  rewrite !coordinates_ok_spec. intros (H1 & H2 & H3) H. unfold set_coordinates in H.
  destruct (String.eqb n "lat"); [|destruct (String.eqb n "lon")];
    unbind H; injection H as <-; (apply decode_float_finite in E; [by split_and!|done]).
Qed.
Lemma set_velocity_ok n v w w' : velocity_ok w -> set_velocity n v w = Some w' -> velocity_ok w'.
Proof.
  rewrite !velocity_ok_spec. intros (H1 & H2 & H3 & H4) H. unfold set_velocity in H.
  destruct (String.eqb n "vx"); [|destruct (String.eqb n "vy"); [|destruct (String.eqb n "vz")]];
    unbind H; injection H as <-; (apply decode_float_finite in E; [by split_and!|done]).
Qed.

Lemma telemetry_ok_spec t :
  telemetry_ok t <-> is_finite (BatteryPct t) = true /\ is_finite (HeadingDeg t) = true /\
    coordinates_ok (Coords t) /\ velocity_ok (Vel t) /\ payload_map_ok (MissionPayload t) = true.
Proof.
  unfold telemetry_ok. rewrite marshal_telemetry_ok, coordinates_ok_spec, velocity_ok_spec.
  unfold telemetry_floats. cbn [forallb]. rewrite !marshal_float_ok, !andb_true_iff. tauto.
Qed.
Lemma command_ok_spec c : command_ok c <-> payload_map_ok (Parameters_ c) = true.
Proof. unfold command_ok. by rewrite marshal_command_ok. Qed.

Section Envelope.
Context `{U : Unicode}.

Lemma set_telemetry_ok n v t t' : telemetry_ok t -> set_telemetry n v t = Some t' -> telemetry_ok t'.
Proof.
  rewrite !telemetry_ok_spec. destruct t as [id ty te st ba co ve he mi se].
  cbn. intros (H1 & H2 & H3 & H4 & H5) H. unfold set_telemetry in H.
  split_ifs H;
    unbind H; injection H as <-; cbn; try (by split_and!).
  - apply decode_float_finite in E; [|done]. by split_and!.
  - apply (decode_struct_inv coordinates_ok) in E; [|apply set_coordinates_ok|done]. by split_and!.
  - apply (decode_struct_inv velocity_ok) in E; [|apply set_velocity_ok|done]. by split_and!.
  - apply decode_float_finite in E; [|done]. by split_and!.
  - apply decode_map_ok in E; [|done]. by split_and!.
Qed.

Lemma set_command_ok n v c c' : command_ok c -> set_command n v c = Some c' -> command_ok c'.
Proof.
  rewrite !command_ok_spec. destruct c as [id tv ct pa ia iss]. cbn. intros Hp H. unfold set_command in H.
  split_ifs H;
    unbind H; injection H as <-; cbn; try done.
  by eapply decode_map_ok.
Qed.

Definition envelope_payloads_ok (e : SecurityEnvelope) : Prop :=
  (forall t, Telemetry e = Some t -> telemetry_ok t) /\ (forall c, Command e = Some c -> command_ok c).

Lemma set_envelope_ok n v e e' :
  envelope_payloads_ok e -> set_envelope n v e = Some e' -> envelope_payloads_ok e'.
Proof.
  intros [Ht Hc] H. unfold set_envelope in H.
  split_ifs H; unbind H; injection H as <-; split; cbn; try done.
  - refine (decode_pointer_inv _ _ _ set_telemetry_ok zero_telemetry v _ _ _ Ht E). by vm_compute.
  - refine (decode_pointer_inv _ _ _ set_command_ok zero_command v _ _ _ Hc E). by vm_compute.
Qed.

Lemma unmarshal_envelope_ok payload e :
  unmarshal_envelope payload = Some e -> envelope_payloads_ok e.
Proof.
  unfold unmarshal_envelope. intros H. unbind H.
  refine (decode_struct_inv _ _ _ set_envelope_ok x zero_envelope e _ H). by split; intros ? [=].
Qed.

Lemma marshal_header_ok h : is_ok (marshal_header h) = true.
Proof. unfold marshal_header. rewrite marshal_fields_ok. by destruct (Caveats h). Qed.

Lemma marshal_envelope_ok e : envelope_payloads_ok e -> is_ok (marshal_envelope e) = true.
Proof.
  intros [Ht Hc]. unfold marshal_envelope. rewrite marshal_fields_ok, !forallb_app.
  cbn [forallb snd]. rewrite marshal_header_ok. unfold telemetry_ok, command_ok in *.
  destruct (Telemetry e) as [t|]; destruct (Command e) as [c|]; cbn [forallb snd andb];
    rewrite ?Ht, ?Hc; done.
Qed.
End Envelope.
