(* ===== verification/Policy.v ===== *)
(** pkg/policy/policy.go: the cross-domain policy engine — the verdict on an
    envelope and the redaction of TIER-2 telemetry. *)
From Stdlib Require Import Strings.Ascii Strings.String SpecFloat DecimalString.
From S2P Require Import Prelude GoString Float64 Json Sha256 Topic Schema.

Local Open Scope string_scope.
Local Open Scope Z_scope.
Local Open Scope go_scope.

(** * Verdicts *)
Inductive EnforcementAction := ActionPass | ActionRedactPass | ActionQuarantine.

#[export] Instance EnforcementAction_eq_dec : EqDecision EnforcementAction.
Proof. solve_decision. Defined.

Definition ReasonMalformedJSON := "MALFORMED_JSON_PAYLOAD".
Definition ReasonSchemaViolation := "SCHEMA_VALIDATION_FAILURE".
Definition ReasonDigestMismatch := "CRYPTOGRAPHIC_INTEGRITY_COMPROMISED".
Definition ReasonUnauthorizedTier := "UNAUTHORIZED_SYNTHETIC_TIER".
Definition ReasonTier3EgressProhibited := "TIER3_CRITICAL_EGRESS_PROHIBITED".
Definition ReasonInvalidCoordinates := "COORDINATES_OUT_OF_BOUNDS".
Definition ReasonBatteryViolation := "INVALID_BATTERY_LEVEL".
Definition ReasonMissingSecurityHeader := "MISSING_SECURITY_HEADER".
Definition ReasonUnknownPolicyViolation := "POLICY_VIOLATION_UNKNOWN".

(** * The engine *)
Record PolicyEngine := mkEngine { GPSCoarsenDecimals : Z }.

Definition NewPolicyEngine (gpsDecimals : Z) : PolicyEngine :=
  mkEngine (if gpsDecimals <=? 0 then 2 else gpsDecimals).

Definition RoundFloat (val : f64) (precision : Z) : f64 :=
  let ratio := Pow_10 precision in fdiv (Round (fmul val ratio)) ratio.

(** The reason is read off the text of the validation error. *)
Definition reason_of_text (errStr : string) : string :=
  if Contains errStr "unauthorized" then ReasonUnauthorizedTier
  else if Contains errStr "missing" then ReasonSchemaViolation
  else if Contains errStr "battery" then ReasonBatteryViolation
  else if Contains errStr "coordinates out of bounds" then ReasonInvalidCoordinates
  else ReasonDigestMismatch.

Section Engine.
Context `{U : Unicode}.

(** The action, the reason and the error, and the envelope as validation leaves
    it. *)
Definition Evaluate (env : option SecurityEnvelope)
  : EnforcementAction * string * option string * option SecurityEnvelope :=
  match env with
  | None => (ActionQuarantine, ReasonSchemaViolation, Some "nil envelope", None)
  | Some env =>
    let '(err, env') := Validate_envelope env in
    match err with
    | Some err =>
      let errStr := validation_text err in
      (ActionQuarantine, reason_of_text errStr, Some ("integrity check failed: " +:+ errStr), Some env')
    | None =>
      let c := Classification (Header env') in
      if String.eqb c Tier1Public then (ActionPass, "", None, Some env')
      else if String.eqb c Tier2Restricted then (ActionRedactPass, "", None, Some env')
      else if String.eqb c Tier3Critical then
        (ActionQuarantine, ReasonTier3EgressProhibited,
         Some "TIER-3: CRITICAL payload cannot egress tactical boundary", Some env')
      else (ActionQuarantine, ReasonUnauthorizedTier,
            Some ("unrecognized classification tier: " +:+ c), Some env')
    end
  end.
End Engine.

(** The payload of [RedactAndSanitize]: coarse position, altitude in steps of 50
    metres, scrubbed mission payload. *)
Definition scrubbed : list (string * any) :=
  [("sanitized", ABool true); ("status", AStr "[REDACTED_BY_CDS]")].

Definition sanitize_telemetry (decimals : Z) (t : TelemetryPayload) : TelemetryPayload :=
  let c := Coords t in
  mkTelemetry (VehicleID t) (VehicleType t) (Team t) (State t) (BatteryPct t)
    (mkCoordinates (RoundFloat (Latitude c) decimals) (RoundFloat (Longitude c) decimals)
      (fmul (Floor (fdiv (AltitudeM c) (of_Z 50))) (of_Z 50)))
    (Vel t) (HeadingDeg t)
    (match MissionPayload t with None => None | Some _ => Some scrubbed end)
    (Sequence t).

Definition RedactAndSanitize (pe : PolicyEngine) (env : option SecurityEnvelope)
  : result string SecurityEnvelope :=
  match env with
  | None => Err "cannot sanitize nil or non-telemetry envelope"
  | Some env =>
    match Telemetry env with
    | None => Err "cannot sanitize nil or non-telemetry envelope"
    | Some t =>
      let sanitizedTelem := sanitize_telemetry (GPSCoarsenDecimals pe) t in
      let caveats := (Caveats (Header env) ++ ["REDACTED_FROM_TIER2"; "SANITIZED_BY_CDS"])%list in
      match ComputePayloadDigest (Some (marshal_telemetry sanitizedTelem)) with
      | Err err => Err ("recomputing digest after sanitization: " +:+ err)
      | Ok newDigest =>
        Ok (mkEnvelope
          (mkHeader Tier1Public (OriginEnclave (Header env) +:+ "-CDS-SANITIZED")
            (TimestampNs (Header env)) (MessageID (Header env) +:+ "-sanitized") newDigest caveats)
          (Some sanitizedTelem) None)
      end
    end
  end.

(** * Verdicts *)
Section Verdicts.
Context `{U : Unicode} `{UL : !UnicodeLaws U}.

Definition verdict (env : SecurityEnvelope) : EnforcementAction := (Evaluate (Some env)).1.1.1.

(** Validation never changes the header. *)
Lemma Validate_envelope_header env : Header (Validate_envelope env).2 = Header env.
Proof.
  unfold Validate_envelope. destruct (check_header _); [done|].
  by destruct (Telemetry env), (Command env).
Qed.

Lemma Evaluate_accepts env : accepted env <-> (Validate_envelope env).1 = None.
Proof.
  rewrite <- Validate_accepts. unfold Validate. by destruct (Validate_envelope env).
Qed.

Lemma Evaluate_verdict_raw env :
  (verdict env = ActionPass <-> accepted env /\ Classification (Header env) = Tier1Public) /\
  (verdict env = ActionRedactPass <-> accepted env /\ Classification (Header env) = Tier2Restricted) /\
  (verdict env = ActionQuarantine <-> ~ accepted env \/ Classification (Header env) = Tier3Critical).
Proof.
  unfold verdict, Evaluate. rewrite !Evaluate_accepts.
  pose proof (Validate_envelope_header env) as HH. pose proof (Evaluate_accepts env) as HA.
  destruct (Validate_envelope env) as [[e|] env']; cbn [fst snd] in *.
  { intuition congruence. }
  rewrite HH. destruct HA as [_ HA]. destruct (HA eq_refl) as [Ht _ _ _ _].
  rewrite !elem_of_cons, elem_of_nil in Ht.
  assert (Tier1Public <> Tier2Restricted /\ Tier2Restricted <> Tier3Critical /\
    Tier1Public <> Tier3Critical) as (D12 & D23 & D13) by done.
  set (c := Classification (Header env)) in *. clearbody c.
  destruct (String.eqb_spec c Tier1Public), (String.eqb_spec c Tier2Restricted),
    (String.eqb_spec c Tier3Critical); cbn [fst]; intuition congruence.
Qed.
(** C4. The verdict on an envelope is decided by acceptance and classification:
    only accepted TIER-1 envelopes pass, only accepted TIER-2 envelopes are
    redacted, and everything else, TIER-3 and every rejected envelope, is
    quarantined. *)
Theorem Evaluate_verdict env :
  (verdict env = ActionPass <-> accepted env /\ Classification (Header env) = Tier1Public) /\
  (verdict env = ActionRedactPass <-> accepted env /\ Classification (Header env) = Tier2Restricted) /\
  (verdict env = ActionQuarantine <-> ~ accepted env \/ Classification (Header env) = Tier3Critical).
Proof. apply Evaluate_verdict_raw. Qed.
End Verdicts.

(** * Reasons *)

Lemma Contains_free c s sub : free_of c s = true -> free_of c sub = false -> Contains s sub = false.
Proof.
  intros Hs Hsub. assert (forall s, free_of c s = true -> HasPrefix s sub = false) as HP.
  { clear s Hs. intros s Hs. apply not_true_iff_false. intros [r ->]%HasPrefix_spec.
    rewrite free_of_app, Hsub in Hs. done. }
  induction s as [|a s IH]; cbn [Contains].
  - by rewrite HP.
  - rewrite HP by done. cbn in Hs. apply andb_prop in Hs as [_ Hs]. by apply IH.
Qed.

(** The characters of formatted numbers. *)
Definition is_num (a : ascii) : bool :=
  ((48 <=? az a) && (az a <=? 57)) || bool_decide (az a ∈ [43; 45; 46; 73; 78; 97; 102; 110]).

Lemma is_num_free c s : is_num c = false -> str_forall is_num s = true -> free_of c s = true.
Proof.
  intros Hc. apply str_forall_impl. intros a Ha.
  destruct (Ascii.eqb_spec a c) as [->|]; [congruence|done].
Qed.

Lemma uint_num d : str_forall is_num (NilEmpty.string_of_uint d) = true.
Proof. induction d; cbn [NilEmpty.string_of_uint str_forall]; rewrite ?IHd; done. Qed.

Lemma dec_num n : str_forall is_num (dec n) = true.
Proof.
  assert (forall d, str_forall is_num (NilZero.string_of_uint d) = true) as H.
  { intros d. unfold NilZero.string_of_uint. destruct d; try done; apply (uint_num). }
  unfold dec, NilZero.string_of_int. destruct (Z.to_int n); [apply H|cbn; apply H].
Qed.

Lemma format_2f_num x : str_forall is_num (format_2f x) = true.
Proof.
  destruct x as [[]|[]| |s m e]; try done. cbn [format_2f]. unfold fixed2.
  destruct (float_ratio m e) as [N D].
  rewrite !str_forall_app, !dec_num. by destruct s.
Qed.

Lemma num_free_2f c x : is_num c = false -> free_of c (format_2f x) = true.
Proof. intros Hc. by apply is_num_free, format_2f_num. Qed.

(** The reason each validation error is meant to have. *)
Definition reason_of (e : ValidationError) : string :=
  match e with
  | ErrUnauthorizedTier _ => ReasonUnauthorizedTier
  | ErrBattery _ => ReasonBatteryViolation
  | ErrCoordinates _ _ => ReasonInvalidCoordinates
  | ErrNilEnvelope | ErrNoPayload | ErrRecompute _ | ErrDigestMismatch _ _ => ReasonDigestMismatch
  | _ => ReasonSchemaViolation
  end.

Lemma reason_of_text_free s :
  free_of "z" s = true -> free_of "m" s = true \/ free_of "g" s = true -> free_of "y" s = true ->
  free_of "b" s = true -> reason_of_text s = ReasonDigestMismatch.
Proof.
  intros Hz Hm Hy Hb. unfold reason_of_text.
  rewrite (Contains_free "z" s "unauthorized"), (Contains_free "y" s "battery"),
    (Contains_free "b" s "coordinates out of bounds") by done.
  assert (Contains s "missing" = false) as ->; [|done].
  destruct Hm; [by apply (Contains_free "m")|by apply (Contains_free "g")].
Qed.

(** An occurrence cannot start in a text without its first character. *)
Lemma Contains_skip c sub p s :
  free_of c p = true -> Contains (p +:+ s) (String c sub) = Contains s (String c sub).
Proof.
  induction p as [|a p IH]; [done|]. cbn. intros [Ha Hp]%andb_prop.
  rewrite Ascii.eqb_sym, (proj1 (negb_true_iff _) Ha). by apply IH.
Qed.

(** Hexadecimal text does not start an occurrence of [battery]. *)
Lemma Contains_battery_hex h s :
  str_forall is_hex_lower h = true -> first_is "a" s = false -> first_is "t" s = false ->
  Contains (h +:+ s) "battery" = Contains s "battery".
Proof.
  intros Hh Ha Ht. induction h as [|x h IH]; [done|].
  cbn [str_forall] in Hh. apply andb_prop in Hh as [Hx Hh].
  change (String x h +:+ s) with (String x (h +:+ s)).
  change (Contains (String x (h +:+ s)) "battery")
    with (HasPrefix (String x (h +:+ s)) "battery" || Contains (h +:+ s) "battery").
  rewrite (IH Hh). assert (HasPrefix (String x (h +:+ s)) "battery" = false) as ->; [|done].
  cbn [HasPrefix]. destruct (Ascii.eqb "b" x); [|done]. cbn [andb].
  destruct h as [|y h].
  { change ("" +:+ s) with s. destruct s as [|y s]; [done|]. cbn [first_is] in Ha.
    by rewrite Ascii.eqb_sym, Ha. }
  change (String y h +:+ s) with (String y (h +:+ s)). cbv beta iota.
  destruct (Ascii.eqb "a" y); [|done]. cbn [andb].
  destruct h as [|z h].
  { change ("" +:+ s) with s. destruct s as [|z s]; [done|]. cbn [first_is] in Ht.
    by rewrite Ascii.eqb_sym, Ht. }
  change (String z h +:+ s) with (String z (h +:+ s)). cbv beta iota.
  cbn [str_forall] in Hh. apply andb_prop in Hh as [_ [Hz _]%andb_prop].
  by destruct (Ascii.eqb_spec "t" z) as [<-|].
Qed.

Lemma hex_free x s : is_hex_lower x = false -> str_forall is_hex_lower s = true -> free_of x s = true.
Proof.
  intros Hx. apply str_forall_impl. intros a Ha.
  destruct (Ascii.eqb_spec a x) as [->|]; [congruence|done].
Qed.

Lemma Contains_prefix s sub : Contains (sub +:+ s) sub = true.
Proof. apply (Contains_app ""). Qed.

(** Apart from the two errors that quote foreign text, the reason recorded for
    a validation error is the one that goes with it; a digest mismatch has its own
    reason as long as the digest in the header is hexadecimal. *)
Theorem reason_of_text_correct `{U : Unicode} e :
  match e with
  | ErrNilEnvelope | ErrRecompute _ => True
  | ErrDigestMismatch h c => str_forall is_hex_lower h = true -> str_forall is_hex_lower c = true ->
      reason_of_text (validation_text e) = reason_of e
  | _ => reason_of_text (validation_text e) = reason_of e
  end.
Proof.
  destruct e as [| |c| | | | | | | |b|lat lon| | | |r|h c]; try done.
  - unfold reason_of_text. cbn [validation_text].
    rewrite (Contains_free "u" _ "unauthorized"), (Contains_free "m" _ "missing")
      by (done || rewrite free_of_app, (num_free_2f _ b); done).
    change ("invalid battery percentage: " +:+ format_2f b)
      with ("invalid " +:+ "battery" +:+ (" percentage: " +:+ format_2f b)).
    by rewrite Contains_app.
  - unfold reason_of_text. cbn [validation_text].
    rewrite (Contains_free "z" _ "unauthorized"), (Contains_free "m" _ "missing"),
      (Contains_free "y" _ "battery") by (done || rewrite !free_of_app, (num_free_2f _ lat), (num_free_2f _ lon); done).
    change ("coordinates out of bounds: lat=" +:+ ?x)
      with ("coordinates out of bounds" +:+ (": lat=" +:+ x)).
    by rewrite Contains_prefix.
  - intros Hh Hc. cbn [reason_of validation_text].
    change ("cryptographic digest mismatch: header has " +:+ h +:+ ", computed " +:+ c)
      with ("cryptographic digest mismatch: header has " +:+ (h +:+ (", computed " +:+ c))).
    unfold reason_of_text.
    rewrite (Contains_free "z" _ "unauthorized"), (Contains_free "n" _ "missing"),
      (Contains_free "n" _ "coordinates out of bounds")
      by (done || rewrite !free_of_app, (hex_free _ h), (hex_free _ c) by done; done).
    rewrite Contains_skip by done. rewrite Contains_battery_hex by done.
    rewrite Contains_skip by done. rewrite <- (str_app_nil_r c).
    by rewrite Contains_battery_hex.
Qed.

(** * Redaction *)

(** The altitude bound of the theorems below, 10 000 km, keeps the sanitized
    altitude among the numbers of reasonable size. *)
Definition low_altitude (t : TelemetryPayload) : Prop :=
  in_range (10 ^ 7) (AltitudeM (Coords t)) = true.

Lemma RoundFloat_roundTo d x : d ∈ [1; 2; 3; 4; 5; 6] -> RoundFloat x d = roundTo (10 ^ d) x.
Proof.
  intros H. unfold RoundFloat, roundTo.
  assert (Pow_10 d = of_Z (10 ^ d)) as ->; [|done].
  rewrite !elem_of_cons, elem_of_nil in H.
  by destruct H as [->|[->|[->|[->|[->|[->|[]]]]]]]; vm_compute.
Qed.

(** The coarsening precisions up to the six decimals of normalization, with the
    complementary factor. *)
Lemma decimals_factor d :
  d ∈ [1; 2; 3; 4; 5; 6] -> exists c, 0 < c /\ 10 ^ d * c = 10 ^ 6 /\ 0 < 10 ^ d.
Proof.
  rewrite !elem_of_cons, elem_of_nil.
  intros [->|[->|[->|[->|[->|[->|[]]]]]]];
    [exists 100000|exists 10000|exists 1000|exists 100|exists 10|exists 1]; done.
Qed.

(** Coarse coordinates are fixed points of the six-decimal normalization, and
    stay within the bounds. *)
Lemma coarse_fixed d x B :
  d ∈ [1; 2; 3; 4; 5; 6] -> valid x -> in_range B x = true -> 0 < B <= 180 ->
  roundFloat (RoundFloat x d) 6 = RoundFloat x d /\ valid (RoundFloat x d) /\
  in_range B (RoundFloat x d) = true.
Proof.
  intros Hd Hv Hr HB. rewrite RoundFloat_roundTo by done.
  destruct (decimals_factor d Hd) as (c & Hc & E & Hp).
  assert (small_divisor (10 ^ d)) by (split; [done|change (10 ^ 6) with 1000000 in E; nia]).
  destruct (roundTo_in_range (10 ^ d) x B) as (Hv' & Hr' & _); [done..|lia|done|].
  split; [|done]. rewrite roundFloat_roundTo by (rewrite !elem_of_cons; auto).
  rewrite <- E. change (10 ^ 6) with 1000000 in E.
  apply (roundTo_coarse _ _ B); try done; nia.
Qed.

Lemma in_range_within B x :
  valid x -> B ∈ [90; 180] -> within (- B) B x <-> in_range B x = true.
Proof.
  intros Hv HB.
  assert (0 < B <= 2 ^ 29 /\ of_Z (- B) = fneg (of_Z B)) as [H1 H2].
  { rewrite !elem_of_cons, elem_of_nil in HB. by destruct HB as [->|[->|[]]]. }
  rewrite in_range_fle by done. unfold within. by rewrite andb_true_iff.
Qed.

(** The quantized altitude of normalized telemetry. *)
Lemma quantize_fixed x :
  valid x -> in_range (10 ^ 7) x = true ->
  let a := quantize50 (roundFloat x 2) in roundFloat a 2 = a /\ sound_float a.
Proof.
  intros Hv Hr a. assert (2 ∈ [1; 2; 6]) as H2 by (rewrite !elem_of_cons; auto).
  assert (exists k, a = signed_of_Z (sign x) (k * 50) /\ 0 <= k <= 10 ^ 7) as (n & -> & Hn).
  { unfold a. rewrite roundFloat_roundTo by done. by apply quantize50_integer. }
  split.
  - rewrite roundFloat_roundTo by done. apply roundTo_integer; [lia|lia|done].
  - apply signed_of_Z_sound; lia.
Qed.

(** Sanitizing normalized telemetry gives telemetry that is normalized and within
    the physical bounds. *)
Lemma sanitize_fixed d u :
  d ∈ [1; 2; 3; 4; 5; 6] -> physical u -> Normalize u = u ->
  roundFloat (quantize50 (AltitudeM (Coords u))) 2 = quantize50 (AltitudeM (Coords u)) ->
  sound_float (quantize50 (AltitudeM (Coords u))) ->
  Normalize (sanitize_telemetry d u) = sanitize_telemetry d u /\ physical (sanitize_telemetry d u).
Proof.
  intros Hd (Hf & Hb & Hla & Hlo) Hfix Fal Sal.
  unfold telemetry_floats in Hf. rewrite !Forall_cons in Hf.
  destruct Hf as (Sb & Sh & [Vla _] & [Vlo _] & _ & Sx & Sy & Sz & Ss & _).
  assert (90 ∈ [90; 180] /\ 180 ∈ [90; 180]) as [I90 I180] by (rewrite !elem_of_cons; auto).
  apply (in_range_within 90) in Hla; [|done..]. apply (in_range_within 180) in Hlo; [|done..].
  destruct (coarse_fixed d _ 90 Hd Vla Hla) as (Fla & Vla' & Rla); [done|].
  destruct (coarse_fixed d _ 180 Hd Vlo Hlo) as (Flo & Vlo' & Rlo); [done|].
  pose proof (f_equal BatteryPct Hfix) as Fb. pose proof (f_equal HeadingDeg Hfix) as Fh.
  pose proof (f_equal Vel Hfix) as Fv. cbn [Normalize BatteryPct HeadingDeg Vel] in Fb, Fh, Fv.
  split.
  - unfold Normalize, sanitize_telemetry, Coordinates_Normalize.
    cbn [Coords Vel BatteryPct HeadingDeg MissionPayload VehicleID VehicleType Team State Sequence
      Latitude Longitude AltitudeM].
    rewrite Fb, Fh, Fv, Fla, Flo. fold (quantize50 (AltitudeM (Coords u))). by rewrite Fal.
  - assert (sound_float (RoundFloat (Latitude (Coords u)) d)) as Sla
      by (split; [done|by apply (in_range_mono 90)]).
    assert (sound_float (RoundFloat (Longitude (Coords u)) d)) as Slo
      by (split; [done|by apply (in_range_mono 180)]).
    split; [repeat (apply Forall_cons; split; [assumption|]); by apply Forall_nil|].
    split; [done|]. split; [by apply (in_range_within 90)|by apply (in_range_within 180)].
Qed.

Lemma sanitize_normalized d t :
  d ∈ [1; 2; 3; 4; 5; 6] -> physical t -> low_altitude t ->
  let t' := sanitize_telemetry d (Normalize t) in Normalize t' = t' /\ physical t'.
Proof.
  intros Hd Hp Ha. pose proof Hp as [Hf _].
  unfold telemetry_floats in Hf. rewrite !Forall_cons in Hf.
  destruct Hf as (_ & _ & _ & _ & [Val _] & _). destruct (quantize_fixed _ Val Ha) as [Fal Sal].
  apply sanitize_fixed; try done;
    [by apply physical_Normalize_physical|by apply Normalize_idem, Hp].
Qed.

Lemma redact_valid `{U : Unicode} `{UL : !UnicodeLaws U} d env t :
  d ∈ [1; 2; 3; 4; 5; 6] -> verdict env = ActionRedactPass ->
  Telemetry env = Some t -> physical t -> low_altitude t -> payload_map_ok (MissionPayload t) = true ->
  exists out,
    RedactAndSanitize (NewPolicyEngine d) (Validate (Some env)).2 = Ok out /\
    Classification (Header out) = Tier1Public /\ Command out = None /\
    Telemetry out = Some (sanitize_telemetry d (Normalize t)) /\
    Validate (Some out) = (None, Some out) /\ verdict out = ActionPass.
Proof.
  intros Hd Hv Ht Hp Ha Hm. pose proof (Evaluate_verdict_raw env) as (_ & HR & _).
  apply HR in Hv as [Hacc _]. clear HR. pose proof Hacc as [Hc Ho Hts Hw _].
  destruct (sanitize_normalized d t Hd Hp Ha) as [Hfix Hphys].
  set (t' := sanitize_telemetry d (Normalize t)) in *.
  assert (is_ok (marshal_telemetry t') = true) as Hok.
  { rewrite <- Hfix. apply Normalize_marshals; [apply Hphys|]. cbn. by destruct (MissionPayload t). }
  assert ((Validate (Some env)).2 = Some (mkEnvelope (Header env) (Some (Normalize t)) (Command env))) as ->.
  { apply Evaluate_accepts in Hacc. unfold Validate, Validate_envelope in *. rewrite Ht in *.
    by destruct (check_header _). }
  assert (GPSCoarsenDecimals (NewPolicyEngine d) = d) as Ed.
  { rewrite !elem_of_cons, elem_of_nil in Hd. by destruct Hd as [->|[->|[->|[->|[->|[->|[]]]]]]]. }
  unfold RedactAndSanitize. cbn [Telemetry Header]. rewrite Ed. fold t'.
  destruct (marshal_telemetry t') as [text|] eqn:Htext; [|done]. cbn [ComputePayloadDigest].
  eexists. split; [done|]. split; [done|]. split; [done|]. split; [done|].
  unfold payload_wf in Hw. rewrite Ht in Hw. destruct Hw as (H1 & H2 & H3 & _).
  match goal with |- Validate (Some ?o) = _ /\ _ =>
    assert (Validate (Some o) = (None, Some o)) as HV end.
  { apply (Validate_normalized _ _ _ text); try done; [by apply valid_tier_spec| |apply digest_of_self].
    cbn. by destruct (OriginEnclave (Header env)). }
  split; [done|]. apply Evaluate_verdict_raw. split; [|done].
  apply Validate_accepts. by rewrite HV.
Qed.

(** C5. Redaction of an accepted TIER-2 envelope succeeds and its result is itself
    a valid TIER-1 envelope with a digest of its own: for every coarsening
    precision of one to six decimals and every telemetry within the physical
    bounds, the coarsened and quantized payload is unchanged by the normalization
    that validation performs, so the next validator recomputes the same digest. *)
Theorem RedactAndSanitize_valid `{U : Unicode} `{UL : !UnicodeLaws U} d env t :
  d ∈ [1; 2; 3; 4; 5; 6] -> verdict env = ActionRedactPass ->
  Telemetry env = Some t -> physical t -> low_altitude t -> payload_map_ok (MissionPayload t) = true ->
  exists out,
    RedactAndSanitize (NewPolicyEngine d) (Validate (Some env)).2 = Ok out /\
    Classification (Header out) = Tier1Public /\ Command out = None /\
    Telemetry out = Some (sanitize_telemetry d (Normalize t)) /\
    Validate (Some out) = (None, Some out) /\ verdict out = ActionPass.
Proof. apply redact_valid. Qed.

(** C6. What a redacted payload still shows: latitude and longitude are multiples
    of the coarsening step, the altitude is a multiple of 50 metres, and of the
    mission payload only its presence is left. *)
Theorem RedactAndSanitize_coarse d env t out :
  d ∈ [1; 2; 3; 4; 5; 6] -> Telemetry env = Some (Normalize t) -> physical t -> low_altitude t ->
  RedactAndSanitize (NewPolicyEngine d) (Some env) = Ok out ->
  exists t' lat lon k,
    Telemetry out = Some t' /\
    Latitude (Coords t') = fdiv (signed_of_Z (sign (Latitude (Coords t))) lat) (of_Z (10 ^ d)) /\
    Longitude (Coords t') = fdiv (signed_of_Z (sign (Longitude (Coords t))) lon) (of_Z (10 ^ d)) /\
    AltitudeM (Coords t') = signed_of_Z (sign (AltitudeM (Coords t))) (k * 50) /\
    0 <= lat <= 90 * 10 ^ d /\ 0 <= lon <= 180 * 10 ^ d /\ 0 <= k <= 10 ^ 7 /\
    MissionPayload t' = match MissionPayload t with None => None | Some _ => Some scrubbed end.
Proof.
  intros Hd Ht Hp Ha HR. pose proof (physical_Normalize_physical t Hp) as (_ & _ & Hla & Hlo).
  destruct Hp as [Hf _]. unfold telemetry_floats in Hf. rewrite !Forall_cons in Hf.
  destruct Hf as (_ & _ & Sla & Slo & [Val _] & _).
  assert (6 ∈ [1; 2; 6] /\ 2 ∈ [1; 2; 6]) as [I6 I2] by (rewrite !elem_of_cons; auto).
  assert (90 ∈ [90; 180] /\ 180 ∈ [90; 180]) as [I90 I180] by (rewrite !elem_of_cons; auto).
  destruct (roundTo_in_range (10 ^ 6) _ _ (proj1 Sla) (proj2 Sla)) as (Vla & _ & Gla); [done|done|].
  destruct (roundTo_in_range (10 ^ 6) _ _ (proj1 Slo) (proj2 Slo)) as (Vlo & _ & Glo); [done|done|].
  rewrite <- roundFloat_roundTo in Vla, Gla, Vlo, Glo by done.
  apply (in_range_within 90) in Hla; [|done..]. apply (in_range_within 180) in Hlo; [|done..].
  destruct (decimals_factor d Hd) as (c & Hc & E & Hp10). change (10 ^ 6) with 1000000 in E.
  assert (small_divisor (10 ^ d)) as Hs by (split; [done|nia]).
  destruct (roundTo_as_quotient 90 (10 ^ d) _ Vla Hla) as (lat & Elat & Hlat); [done|done|].
  destruct (roundTo_as_quotient 180 (10 ^ d) _ Vlo Hlo) as (lon & Elon & Hlon); [done|done|].
  destruct (quantize50_integer (10 ^ 7) (10 ^ 2) _ Val Ha) as (k & Ek & Hk); [done|done|].
  assert (GPSCoarsenDecimals (NewPolicyEngine d) = d) as Ed.
  { rewrite !elem_of_cons, elem_of_nil in Hd. by destruct Hd as [->|[->|[->|[->|[->|[->|[]]]]]]]. }
  unfold RedactAndSanitize in HR. rewrite Ht, Ed in HR.
  destruct (ComputePayloadDigest _); [|done]. injection HR as <-.
  exists (sanitize_telemetry d (Normalize t)), lat, lon, k.
  split; [done|]. cbn -[Z.pow roundFloat RoundFloat fmul fdiv].
  rewrite !RoundFloat_roundTo, Elat, Elon, Gla, Glo by done.
  split_and!; try done; try lia.
Qed.

(** The recorded reason is chosen by whoever writes the header: a mismatching
    digest that contains the word [unauthorized] or [missing] is recorded as an
    unauthorized tier or a schema violation instead of a compromised digest; and an
    envelope without a payload is recorded as a compromised digest. *)
Theorem reason_forged `{U : Unicode} h c :
  (Contains h "unauthorized" = true ->
     reason_of_text (validation_text (ErrDigestMismatch h c)) = ReasonUnauthorizedTier) /\
  (Contains h "missing" = true -> Contains (validation_text (ErrDigestMismatch h c)) "unauthorized" = false ->
     reason_of_text (validation_text (ErrDigestMismatch h c)) = ReasonSchemaViolation) /\
  reason_of_text (validation_text ErrNoPayload) = ReasonDigestMismatch.
Proof.
  assert (forall sub, Contains h sub = true ->
    Contains (validation_text (ErrDigestMismatch h c)) sub = true) as HC.
  { intros sub Hsub. cbn [validation_text].
    change ("cryptographic digest mismatch: header has " +:+ h +:+ ", computed " +:+ c)
      with ("cryptographic digest mismatch: header has " +:+ (h +:+ (", computed " +:+ c))).
    apply Contains_spec in Hsub as (a & b & ->). apply Contains_spec. 
    exists ("cryptographic digest mismatch: header has " +:+ a), (b +:+ (", computed " +:+ c)).
    by rewrite <- !str_app_assoc. }
  unfold reason_of_text at 1 2. split_and!; [|intros H2 H1|done].
  - intros H. by rewrite (HC _ H).
  - by rewrite H1, (HC _ H2).
Qed.

(** * Concrete runs *)
Lemma Evaluate_verdict_witness :
  (@verdict caseless Samples.env3 = ActionPass <->
     accepted Samples.env3 /\ Classification (Header Samples.env3) = Tier1Public) /\
  (@verdict caseless Samples.env3 = ActionRedactPass <->
     accepted Samples.env3 /\ Classification (Header Samples.env3) = Tier2Restricted) /\
  (@verdict caseless Samples.env3 = ActionQuarantine <->
     ~ accepted Samples.env3 \/ Classification (Header Samples.env3) = Tier3Critical).
Proof. exact (@Evaluate_verdict caseless caseless_laws Samples.env3). Defined.

Lemma env2_redacted : @verdict caseless Samples.env2 = ActionRedactPass.
Proof. by vm_compute. Qed.
Lemma env2_telemetry : Telemetry Samples.env2 = Some (Normalize Samples.telem).
Proof. by vm_compute. Qed.

Definition redacted2 : SecurityEnvelope :=
  Samples.envelope (RedactAndSanitize (NewPolicyEngine 2) (Some Samples.env2)).
Lemma redacted2_ok : RedactAndSanitize (NewPolicyEngine 2) (Some Samples.env2) = Ok redacted2.
Proof. by vm_compute. Qed.

Lemma RedactAndSanitize_valid_witness :
  exists out,
    RedactAndSanitize (NewPolicyEngine 2) (@Validate caseless (Some Samples.env2)).2 = Ok out /\
    Classification (Header out) = Tier1Public /\ Command out = None /\
    Telemetry out = Some (sanitize_telemetry 2 (Normalize (Normalize Samples.telem))) /\
    @Validate caseless (Some out) = (None, Some out) /\ @verdict caseless out = ActionPass.
Proof.
  apply (@RedactAndSanitize_valid caseless caseless_laws 2 Samples.env2 (Normalize Samples.telem));
    [rewrite !elem_of_cons; auto|exact env2_redacted|exact env2_telemetry|
     exact (physical_Normalize_physical _ Samples.telem_physical)|by vm_compute|done].
Defined.

Lemma RedactAndSanitize_coarse_witness :
  exists t' lat lon k,
    Telemetry redacted2 = Some t' /\
    Latitude (Coords t') = fdiv (signed_of_Z (sign (Latitude (Coords Samples.telem))) lat) (of_Z (10 ^ 2)) /\
    Longitude (Coords t') = fdiv (signed_of_Z (sign (Longitude (Coords Samples.telem))) lon) (of_Z (10 ^ 2)) /\
    AltitudeM (Coords t') = signed_of_Z (sign (AltitudeM (Coords Samples.telem))) (k * 50) /\
    0 <= lat <= 90 * 10 ^ 2 /\ 0 <= lon <= 180 * 10 ^ 2 /\ 0 <= k <= 10 ^ 7 /\
    MissionPayload t' = match MissionPayload Samples.telem with None => None | Some _ => Some scrubbed end.
Proof.
  apply (RedactAndSanitize_coarse 2 Samples.env2 Samples.telem redacted2);
    [rewrite !elem_of_cons; auto|exact env2_telemetry|exact Samples.telem_physical|done|exact redacted2_ok].
Defined.
