(* ===== verification/GoTime.v ===== *)
(** time.Time as nanoseconds since the epoch, and its JSON form. *)
From Stdlib Require Import Strings.Ascii Strings.String.
From S2P Require Import Prelude GoString Float64 Json.

Local Open Scope string_scope.
Local Open Scope Z_scope.

(** Year, month and day of a day count (proleptic Gregorian calendar). *)
Definition civil (days : Z) : Z * Z * Z :=
  let z := days + 719468 in
  let era := z / 146097 in
  let doe := z mod 146097 in
  let yoe := (doe - doe / 1460 + doe / 36524 - doe / 146096) / 365 in
  let doy := doe - (365 * yoe + yoe / 4 - yoe / 100) in
  let mp := (5 * doy + 2) / 153 in
  let d := doy - (153 * mp + 2) / 5 + 1 in
  let m := if mp <? 10 then mp + 3 else mp - 9 in
  (yoe + era * 400 + (if m <=? 2 then 1 else 0), m, d).

(** Decimal digits, padded with zeros to a width. *)
Definition padded (n : nat) (z : Z) : string :=
  let s := dec z in zeros (n - String.length s) +:+ s.

Fixpoint drop_zeros (s : string) : string :=
  match s with
  | String "0" s' => drop_zeros s'
  | _ => s
  end.

(** The fraction of a second: nine digits without trailing zeros. *)
Definition fraction (ns : Z) : string :=
  if ns =? 0 then "" else "." +:+ str_rev (drop_zeros (str_rev (padded 9 ns))).

Definition zone (offset : Z) : string :=
  if offset =? 0 then "Z" else
  (if offset <? 0 then "-" else "+") +:+ padded 2 (Z.abs offset / 3600) +:+ ":"
  +:+ padded 2 (Z.abs offset / 60 mod 60).

(** RFC 3339 with nanoseconds, in a zone [offset] seconds east of UTC. *)
Definition rfc3339 (offset ns : Z) : string :=
  let secs := ns / 10 ^ 9 + offset in
  let '(y, m, d) := civil (secs / 86400) in
  let t := secs mod 86400 in
  padded 4 y +:+ "-" +:+ padded 2 m +:+ "-" +:+ padded 2 d +:+ "T" +:+ padded 2 (t / 3600) +:+ ":"
  +:+ padded 2 (t / 60 mod 60) +:+ ":" +:+ padded 2 (t mod 60) +:+ fraction (ns mod 10 ^ 9)
  +:+ zone offset.

(** [Time.MarshalJSON]. *)
Definition marshal_time (offset ns : Z) : result string string :=
  let '(y, _, _) := civil ((ns / 10 ^ 9 + offset) / 86400) in
  if (y <? 0) || (9999 <? y) then
    Err "json: error calling MarshalJSON for type time.Time: Time.MarshalJSON: year outside of range [0,9999]"
  else Ok (chr 34 +:+ rfc3339 offset ns +:+ chr 34).

Example rfc3339_sample :
  rfc3339 0 1700000000123450000 = "2023-11-14T22:13:20.12345Z".
Proof. by vm_compute. Qed.
Example rfc3339_zone :
  rfc3339 (-19800) 951782400000000000 = "2000-02-28T18:30:00-05:30".
Proof. by vm_compute. Qed.

(** [Duration.Seconds]. *)
Definition Seconds (d : Z) : f64 :=
  fadd (of_Z (Z.quot d (10 ^ 9))) (fdiv (of_Z (Z.rem d (10 ^ 9))) (of_Z (10 ^ 9))).
