(* ===== verification/Dlq.v ===== *)
(** pkg/policy/dlq.go: the dead-letter queue, a bounded list of quarantine records
    with an append-only audit log. Every method holds the mutex for its whole
    body, so a history is a sequence of calls. *)
From Stdlib Require Import Strings.Ascii Strings.String.
From S2P Require Import Prelude GoString Json GoTime Topic Schema Policy.

Local Open Scope string_scope.
Local Open Scope go_scope.

Record DLQRecord := mkRecord {
  RecordID : string;
  Timestamp : Z;
  SourceTopic : string;
  RejectionReason : string;
  ErrorDetails : string;
  SourceEnclave : string;
  RecClassification : string;
  RawPayload : string;
}.

(** The audit file, when there is one: the lines written to it, and whether the
    handle is open. *)
Record audit_file := mkAudit { audit_lines : list string; audit_open : bool }.

Record DeadLetterQueue := mkDlq {
  records : list DLQRecord;
  maxCapacity : nat;
  auditFilePath : string;
  auditFile : option audit_file;
}.

Definition marshal_record (r : DLQRecord) : result string string :=
  marshal_fields [str_field "record_id" (RecordID r); ("timestamp", marshal_time 0 (Timestamp r));
    str_field "source_topic" (SourceTopic r); str_field "rejection_reason" (RejectionReason r);
    str_field "error_details" (ErrorDetails r); str_field "source_enclave" (SourceEnclave r);
    str_field "classification" (RecClassification r); str_field "raw_payload" (RawPayload r)].

(** [open_error] is the outcome of opening the audit file. *)
Definition NewDeadLetterQueue `{U : Unicode} (capacity : Z) (path : string)
  (existing : list string) (open_error : option string) : result string DeadLetterQueue :=
  let cap := if (capacity <=? 0)%Z then 1000%nat else Z.to_nat capacity in
  if is_empty path then Ok (mkDlq [] cap path None)
  else match open_error with
       | Some e => Err ("opening audit log file " +:+ quote path +:+ ": " +:+ e)
       | None => Ok (mkDlq [] cap path (Some (mkAudit existing true)))
       end.

(** A quarantine call: its arguments, the two readings of the clock, and whether
    the audit line reaches the disk (write errors are ignored by the code). *)
Record call := mkCall {
  c_topic : string; c_reason : string; c_details : string; c_enclave : string;
  c_class : string; c_raw : string; c_now1 : Z; c_now2 : Z; c_disk : bool;
}.

Definition record_of (n : nat) (c : call) : DLQRecord :=
  mkRecord ("dlq-" +:+ dec (c_now1 c) +:+ "-" +:+ dec (Z.of_nat n + 1)) (c_now2 c)
    (c_topic c) (c_reason c) (c_details c) (c_enclave c) (c_class c) (c_raw c).

Definition evict (q : DeadLetterQueue) : list DLQRecord :=
  if (maxCapacity q <=? length (records q))%nat then tail (records q) else records q.

(** A write to a closed handle is an error, and errors are ignored. *)
Definition audit_line (q : DeadLetterQueue) (disk : bool) (rec : DLQRecord) : option audit_file :=
  match auditFile q, marshal_record rec with
  | Some f, Ok line => Some (if audit_open f && disk then mkAudit (audit_lines f ++ [line])%list true else f)
  | f, _ => f
  end.

Definition Quarantine (c : call) (q : DeadLetterQueue) : DLQRecord * DeadLetterQueue :=
  let rec := record_of (length (records q)) c in
  (rec, mkDlq (evict q ++ [rec])%list (maxCapacity q) (auditFilePath q) (audit_line q (c_disk c) rec)).

Definition GetRecords (limit : Z) (q : DeadLetterQueue) : list DLQRecord :=
  let n := length (records q) in
  let limit := if ((limit <=? 0) || (Z.of_nat n <? limit))%Z then n else Z.to_nat limit in
  drop (n - limit) (records q).

Definition Count (q : DeadLetterQueue) : nat := length (records q).

(** The error of closing the handle, which the second call gets, is dropped by the
    only caller. *)
Definition CloseDlq (q : DeadLetterQueue) : DeadLetterQueue :=
  mkDlq (records q) (maxCapacity q) (auditFilePath q)
    (match auditFile q with Some f => Some (mkAudit (audit_lines f) false) | None => None end).

(** * Histories *)
Fixpoint quarantine_all (cs : list call) (q : DeadLetterQueue) : list DLQRecord * DeadLetterQueue :=
  match cs with
  | [] => ([], q)
  | c :: cs =>
    let '(r, q) := Quarantine c q in
    let '(rs, q) := quarantine_all cs q in (r :: rs, q)
  end.

(** Adding a record keeps the last [maxCapacity] of the history, seen through any view
    of the records. *)
Lemma evict_lastn {A} (f : DLQRecord -> A) rec q h :
  (0 < maxCapacity q)%nat -> map f (records q) = lastn (maxCapacity q) h ->
  map f (evict q ++ [rec])%list = lastn (maxCapacity q) (h ++ [f rec])%list.
Proof.
  intros Hc Hr. rewrite map_app. cbn [map]. unfold evict.
  assert (length (records q) = Nat.min (maxCapacity q) (length h)) as Hl
    by (by rewrite <- (length_map f), Hr, length_lastn).
  destruct (maxCapacity q) as [|n] eqn:En; [lia|]. rewrite lastn_snoc, Hl.
  destruct (Nat.leb_spec (S n) (Nat.min (S n) (length h))) as [Hf|Hf].
  - assert (map f (tail (records q)) = tail (map f (records q))) as -> by (by destruct (records q)).
    rewrite Hr, tail_lastn by lia. do 2 f_equal. lia.
  - by rewrite Hr, !lastn_all by lia.
Qed.

(** One call keeps the last [maxCapacity] records of the history. *)
Lemma Quarantine_lastn c q h :
  (0 < maxCapacity q)%nat -> records q = lastn (maxCapacity q) h ->
  records (Quarantine c q).2 = lastn (maxCapacity q) (h ++ [(Quarantine c q).1]).
Proof.
  intros Hc Hr. pose proof (evict_lastn (fun r => r) (Quarantine c q).1 q h Hc) as E.
  rewrite !map_id in E. by apply E.
Qed.

(** The queue holds the most recent records: after any history of calls on a
    new queue it holds, in order, the last [maxCapacity] of the records it
    returned; its length never exceeds the capacity, and only the oldest records
    are evicted. *)
Theorem quarantine_all_lastn `{U : Unicode} capacity path existing cs q :
  NewDeadLetterQueue capacity path existing None = Ok q ->
  let '(rs, q') := quarantine_all cs q in
  records q' = lastn (maxCapacity q) rs /\ (Count q' <= maxCapacity q)%nat /\ (0 < maxCapacity q)%nat.
Proof.
  intros HN. assert ((0 < maxCapacity q)%nat /\ records q = []) as [Hc Hr].
  { unfold NewDeadLetterQueue in HN. destruct (is_empty path); injection HN as <-; cbn;
      (split; [|done]); destruct (Z.leb_spec capacity 0); lia. }
  assert (forall h q, (0 < maxCapacity q)%nat -> records q = lastn (maxCapacity q) h ->
    records (quarantine_all cs q).2 = lastn (maxCapacity q) (h ++ (quarantine_all cs q).1)) as HA.
  { clear. induction cs as [|c cs IH]; intros h q Hc Hr; cbn [quarantine_all].
    - cbn. by rewrite app_nil_r.
    - pose proof (Quarantine_lastn c q h Hc Hr) as HQ.
      assert (maxCapacity (Quarantine c q).2 = maxCapacity q) as Em by done.
      destruct (Quarantine c q) as [r q1]. cbn [fst snd] in *. specialize (IH (h ++ [r])%list q1).
      rewrite Em in IH. specialize (IH Hc HQ). destruct (quarantine_all cs q1) as [rs q2].
      cbn [fst snd] in *. by rewrite IH, <- app_assoc. }
  specialize (HA [] q Hc). rewrite Hr in HA. specialize (HA eq_refl).
  destruct (quarantine_all cs q) as [rs q']. cbn [fst snd app] in HA.
  split; [done|]. split; [|done]. unfold Count. rewrite HA, length_lastn. lia.
Qed.

(** [GetRecords] returns the most recent records, at most [limit] of them when
    the limit is positive, in the order they were quarantined. *)
Theorem GetRecords_recent limit q :
  GetRecords limit q =
    if (limit <=? 0)%Z then records q else lastn (Z.to_nat limit) (records q).
Proof.
  unfold GetRecords, lastn. set (n := length (records q)).
  destruct (Z.leb_spec limit 0); cbn [orb].
  - by rewrite Nat.sub_diag.
  - destruct (Z.ltb_spec (Z.of_nat n) limit); [|done].
    rewrite Nat.sub_diag. by replace (n - Z.to_nat limit)%nat with 0%nat by lia.
Qed.

(** The audit log is complete: when the writes reach the disk, it gains the
    JSON line of every record ever quarantined, in order, the evicted ones
    included, and what it held before is left alone. *)
Theorem audit_complete cs q existing :
  auditFile q = Some (mkAudit existing true) ->
  Forall (fun c => c_disk c = true /\ is_ok (marshal_time 0 (c_now2 c)) = true) cs ->
  exists lines, auditFile (quarantine_all cs q).2 = Some (mkAudit (existing ++ lines)%list true) /\
    Forall2 (fun r line => marshal_record r = Ok line) (quarantine_all cs q).1 lines.
Proof.
  intros Hf H. revert q existing Hf. induction H as [|c cs [Hd Ht] H IH]; intros q ex Hf.
  - exists []. cbn. by rewrite app_nil_r.
  - cbn [quarantine_all]. destruct (Quarantine c q) as [r q1] eqn:EQ.
    assert (is_ok (marshal_record r) = true) as Hok.
    { unfold Quarantine in EQ. injection EQ as <- _. unfold marshal_record.
      rewrite marshal_fields_ok. cbn -[marshal_time]. by rewrite Ht. }
    destruct (marshal_record r) as [line|] eqn:Hl; [|done].
    assert (auditFile q1 = Some (mkAudit (ex ++ [line])%list true)) as Hf1.
    { unfold Quarantine in EQ. injection EQ as Er <-. cbn [auditFile].
      unfold audit_line. by rewrite Hf, Er, Hl, Hd. }
    destruct (IH q1 _ Hf1) as (lines & HA & HF). destruct (quarantine_all cs q1) as [rs q2].
    cbn [fst snd] in *. exists (line :: lines). split.
    + by rewrite HA, <- app_assoc.
    + by constructor.
Qed.

(** After [Close] the log on disk stays as it was: records are still kept and
    returned, and none is written any more. *)
Definition log_closed (q : DeadLetterQueue) : Prop := forall f, auditFile q = Some f -> audit_open f = false.

Lemma closed_keeps_file cs q : log_closed q -> auditFile (quarantine_all cs q).2 = auditFile q.
Proof.
  revert q. induction cs as [|c cs IH]; intros q Hq; [done|]. cbn [quarantine_all].
  assert (auditFile (Quarantine c q).2 = auditFile q) as Hf.
  { unfold Quarantine. cbn [snd auditFile]. unfold audit_line. destruct (auditFile q) as [f|] eqn:E; [|done].
    rewrite (Hq f E). by destruct (marshal_record _). }
  destruct (Quarantine c q) as [r q1]. cbn [snd] in Hf. specialize (IH q1). unfold log_closed in *. rewrite Hf in IH.
  specialize (IH Hq). by destruct (quarantine_all cs q1).
Qed.

Lemma quarantine_all_records cs q1 q2 :
  records q1 = records q2 -> maxCapacity q1 = maxCapacity q2 ->
  (quarantine_all cs q1).1 = (quarantine_all cs q2).1.
Proof.
  revert q1 q2. induction cs as [|c cs IH]; intros q1 q2 Hr Hc; [done|]. cbn [quarantine_all Quarantine].
  unfold evict. rewrite Hr, Hc. match goal with |- context [quarantine_all cs ?q] => set (p1 := q) end.
  match goal with |- context [quarantine_all cs (mkDlq _ _ (auditFilePath q2) ?f)] =>
    set (p2 := mkDlq _ _ (auditFilePath q2) f) end.
  specialize (IH p1 p2 eq_refl eq_refl).
  destruct (quarantine_all cs p1), (quarantine_all cs p2). cbn [fst] in *. by rewrite IH.
Qed.

Theorem closed_log_is_final cs q :
  auditFile (quarantine_all cs (CloseDlq q)).2 = auditFile (CloseDlq q) /\
  (quarantine_all cs (CloseDlq q)).1 = (quarantine_all cs q).1.
Proof.
  split; [|by apply quarantine_all_records]. apply closed_keeps_file.
  intros f. cbn. destruct (auditFile q); [|done]. by intros [= <-].
Qed.

(** * Concrete runs *)
Definition sample_call (n : Z) : call :=
  mkCall "sec/tier2/drone/blue/bravo/telemetry" ReasonDigestMismatch "d" "e" Tier2Restricted "{}"
    (1700000000 + n) (1700000000 + n) true.

Lemma quarantine_all_lastn_witness :
  let '(rs, q') := quarantine_all (sample_call <$> [1; 2; 3]%Z) (mkDlq [] 2 "" None) in
  records q' = lastn 2 rs /\ (Count q' <= 2)%nat /\ (0 < 2)%nat.
Proof.
  apply (@quarantine_all_lastn caseless 2 "" [] (sample_call <$> [1; 2; 3]%Z) (mkDlq [] 2 "" None)).
  reflexivity.
Defined.

Lemma audit_complete_witness :
  exists lines, auditFile (quarantine_all [sample_call 1; sample_call 2] (mkDlq [] 1 "a" (Some (mkAudit ["x"] true)))).2
      = Some (mkAudit (["x"] ++ lines)%list true) /\
    Forall2 (fun r line => marshal_record r = Ok line)
      (quarantine_all [sample_call 1; sample_call 2] (mkDlq [] 1 "a" (Some (mkAudit ["x"] true)))).1 lines.
Proof. apply audit_complete; [done|repeat constructor]. Defined.
