(* ===== verification/Guard.v ===== *)
(** cmd/cds-guard/main.go: the guard's packet pipeline and its subscription
    filter, over any bus. *)
From Stdlib Require Import Strings.Ascii Strings.String.
From S2P Require Import Prelude GoString Json Topic Bus Schema Policy Dlq.

Local Open Scope string_scope.
Local Open Scope Z_scope.
Local Open Scope go_scope.

(** The texts of encoding/json's decoding errors are a parameter. *)
Class JsonErrors := json_error_text : string -> string.

(** pkg/zenohutil/client.go: the envelope parser. *)
Definition ParseJSONEnvelope `{U : Unicode} `{JE : JsonErrors} (payload : string)
  : result string SecurityEnvelope :=
  match unmarshal_envelope payload with
  | Some env => Ok env
  | None => Err ("unmarshalling envelope: " +:+ json_error_text payload)
  end.

(** Counters are 64-bit. *)
Record CDSStats := mkStats { IngressTotal : Z; Passed : Z; Redacted : Z; Quarantined : Z }.
Definition zero_stats : CDSStats := mkStats 0 0 0 0.
Definition add_ingress (s : CDSStats) := mkStats (u64 (IngressTotal s + 1)) (Passed s) (Redacted s) (Quarantined s).
Definition add_passed (s : CDSStats) := mkStats (IngressTotal s) (u64 (Passed s + 1)) (Redacted s) (Quarantined s).
Definition add_redacted (s : CDSStats) := mkStats (IngressTotal s) (Passed s) (u64 (Redacted s + 1)) (Quarantined s).
Definition add_quarantined (s : CDSStats) := mkStats (IngressTotal s) (Passed s) (Redacted s) (u64 (Quarantined s + 1)).

(** A handler returns, or the process dies on a nil dereference. *)
Inductive outcome := Returned | Panicked.

(** What a call reads from its surroundings: two clock readings and whether the
    audit line reaches the disk. *)
Record ambient := mkAmbient { a_now1 : Z; a_now2 : Z; a_disk : bool }.

Section Guard.
Context `{U : Unicode} `{JE : JsonErrors} {B H : Type} `{BI : Bus B H}.

Record CDSGuard := mkGuard {
  bus : B;
  engine : PolicyEngine;
  dlq : DeadLetterQueue;
  stats : CDSStats;
}.

Definition NewCDSGuard (b : B) (q : DeadLetterQueue) (gpsDecimals : Z) : CDSGuard :=
  mkGuard b (NewPolicyEngine gpsDecimals) q zero_stats.

Definition set_stats (s : CDSStats) (g : CDSGuard) : CDSGuard := mkGuard (bus g) (engine g) (dlq g) s.

Definition guard_quarantine (a : ambient) (key reason details enclave class raw : string)
  (g : CDSGuard) : CDSGuard :=
  let q := (Quarantine (mkCall key reason details enclave class raw (a_now1 a) (a_now2 a) (a_disk a))
              (dlq g)).2 in
  mkGuard (bus g) (engine g) q (add_quarantined (stats g)).

(** Publication errors are only logged. *)
Definition guard_publish (key payload : string) (g : CDSGuard) : CDSGuard :=
  mkGuard (Publish key payload (bus g)).2 (engine g) (dlq g) (stats g).

Definition egress_key (sourceKey vehicleID : string) : string :=
  match ParseKey sourceKey with
  | Ok i => BuildKey "tier1" (TopicVehicleType i) (TopicTeam i) (UnitID i) (StreamType i)
  | Err _ => "sec/tier1/redacted/" +:+ vehicleID
  end.

(** The PASS branch logs [env.Telemetry.VehicleID] before it publishes. *)
Definition pass_packet (sourceKey raw : string) (env : SecurityEnvelope) (g : CDSGuard)
  : outcome * CDSGuard :=
  let g := set_stats (add_passed (stats g)) g in
  match Telemetry env with
  | None => (Panicked, g)
  | Some _ => (Returned, guard_publish sourceKey raw g)
  end.

(** A redaction failure is quarantined on top of being counted as redacted. *)
Definition redact_packet (a : ambient) (sourceKey raw : string) (env : SecurityEnvelope) (g : CDSGuard)
  : outcome * CDSGuard :=
  let g := set_stats (add_redacted (stats g)) g in
  match RedactAndSanitize (engine g) (Some env) with
  | Err err =>
    (Returned, guard_quarantine a sourceKey ReasonUnknownPolicyViolation err
       (OriginEnclave (Header env)) (Classification (Header env)) raw g)
  | Ok sanitizedEnv =>
    match marshal_envelope sanitizedEnv, Telemetry env with
    | Ok sanitizedBytes, Some t =>
      (Returned, guard_publish (egress_key sourceKey (VehicleID t)) sanitizedBytes g)
    | _, _ => (Returned, g)
    end
  end.

Definition ProcessPacket (a : ambient) (sourceKey raw : string) (g : CDSGuard) : outcome * CDSGuard :=
  let g := set_stats (add_ingress (stats g)) g in
  match ParseJSONEnvelope raw with
  | Err err =>
    (Returned, guard_quarantine a sourceKey ReasonMalformedJSON ("JSON unmarshal error: " +:+ err)
       "unknown" "UNKNOWN" raw g)
  | Ok env =>
    let '(action, reason, err, env') := Evaluate (Some env) in
    let env := default env env' in
    match action with
    | ActionQuarantine =>
      (Returned, guard_quarantine a sourceKey reason
         ("Policy violation: " +:+ default "<nil>" err)
         (OriginEnclave (Header env)) (Classification (Header env)) raw g)
    | ActionPass => pass_packet sourceKey raw env g
    | ActionRedactPass => redact_packet a sourceKey raw env g
    end
  end.

(** The handler subscribed on [sec/**] in [main]. *)
Definition ingress_filtered (key : string) : bool :=
  HasPrefix key "sec/tier1/" || HasSuffix key "/command".

Definition ingress_handler (a : ambient) (key payload : string) (g : CDSGuard) : outcome * CDSGuard :=
  if ingress_filtered key then (Returned, g) else ProcessPacket a key payload g.
End Guard.
Arguments CDSGuard : clear implicits.

Definition ingressSelector : string := "sec/**".

(** * Properties *)
Section Properties.
Context `{U : Unicode} `{UL : !UnicodeLaws U} `{JE : JsonErrors}.
Context {B H : Type} `{BI : Bus B H} `{BL : !BusLog B}.
Implicit Types g : CDSGuard B.

(** What validation leaves of an envelope: its telemetry normalized. *)
Definition validated (env : SecurityEnvelope) : SecurityEnvelope := (Validate_envelope env).2.

Lemma Evaluate_shape env :
  exists reason err, Evaluate (Some env) = (verdict env, reason, err, Some (validated env)).
Proof.
  unfold verdict, validated, Evaluate. destruct (Validate_envelope env) as [[e|] env'].
  - by eexists _, _.
  - repeat (case_match; [by eexists _, _|]). by eexists _, _.
Qed.

Lemma validated_header env : Header (validated env) = Header env.
Proof. apply Validate_envelope_header. Qed.

Lemma acked_publish k p g :
  acked (bus (guard_publish k p g)) = acked (bus g) \/
  acked (bus (guard_publish k p g)) = (acked (bus g) ++ [(k, p)])%list.
Proof.
  unfold guard_publish. cbn [bus]. destruct (Publish k p (bus g)) as [[e|] b'] eqn:E.  cbn [snd].
  - left. by eapply acked_err.
  - right. by apply acked_ok.
Qed.

(** The one packet a call may send for an envelope. *)
Inductive permitted (pe : PolicyEngine) (sourceKey raw : string) (env : SecurityEnvelope)
  : string -> string -> Prop :=
| permitted_pass :
    accepted env -> Classification (Header env) = Tier1Public ->
    permitted pe sourceKey raw env sourceKey raw
| permitted_redacted out text t :
    accepted env -> Classification (Header env) = Tier2Restricted ->
    Telemetry (validated env) = Some t ->
    RedactAndSanitize pe (Some (validated env)) = Ok out -> marshal_envelope out = Ok text ->
    permitted pe sourceKey raw env (egress_key sourceKey (VehicleID t)) text.

(** C1. Fail-closed egress. Whatever bytes arrive, a call sends at most one packet,
    and only one of two kinds: the packet itself, when it decodes to an accepted
    TIER-1 envelope, or the redacted envelope, when it decodes to an accepted TIER-2
    one. Nothing leaves for malformed, rejected or TIER-3 packets. *)
Theorem ProcessPacket_egress a sourceKey raw g :
  let g' := (ProcessPacket a sourceKey raw g).2 in
  acked (bus g') = acked (bus g) \/
  exists env k p, unmarshal_envelope raw = Some env /\ permitted (engine g) sourceKey raw env k p /\
    acked (bus g') = (acked (bus g) ++ [(k, p)])%list.
Proof.
  unfold ProcessPacket, ParseJSONEnvelope. destruct (unmarshal_envelope raw) as [env|]; [|by left].
  destruct (Evaluate_shape env) as (reason & err & ->). cbn [from_option id].
  pose proof (Evaluate_verdict_raw env) as (HP & HR & _).
  destruct (verdict env); [| |by left].
  - destruct (proj1 HP eq_refl) as [Hacc Hc].
    unfold pass_packet. destruct (Telemetry (validated env)); [|by left].
    destruct (acked_publish sourceKey raw
      (set_stats (add_passed (stats (set_stats (add_ingress (stats g)) g)))
        (set_stats (add_ingress (stats g)) g))) as [E|E]; [by left|right].
    exists env, sourceKey, raw. split; [done|]. split; [by constructor|exact E].
  - destruct (proj1 HR eq_refl) as [Hacc Hc]. unfold redact_packet. cbn [engine set_stats].
    destruct (RedactAndSanitize (engine g) (Some (validated env))) as [out|e] eqn:HRS; [|by left].
    destruct (marshal_envelope out) as [text|] eqn:Hm; [|by left].
    destruct (Telemetry (validated env)) as [t|] eqn:Ht; [|by left].
    match goal with |- context [guard_publish ?k ?p ?x] =>
      destruct (acked_publish k p x) as [E|E] end; [by left|right].
    eexists env, _, _. split; [done|]. split; [by eapply permitted_redacted|exact E].
Qed.

(** C40. A packet makes the guard die exactly when it is an accepted TIER-1 envelope
    without telemetry: the PASS branch reads the vehicle of an envelope that may
    carry only a command. *)
Theorem ProcessPacket_panics a sourceKey raw g :
  (ProcessPacket a sourceKey raw g).1 = Panicked <->
  exists env, unmarshal_envelope raw = Some env /\ accepted env /\
    Classification (Header env) = Tier1Public /\ Telemetry env = None.
Proof.
  assert (forall env, Telemetry (validated env) = None <-> Telemetry env = None) as HT.
  { intros env. unfold validated, Validate_envelope. destruct (check_header _); [done|].
    destruct (Telemetry env) eqn:?, (Command env); cbn; split; congruence. }
  unfold ProcessPacket, ParseJSONEnvelope. destruct (unmarshal_envelope raw) as [env|].
  2: { split; [done|]. by intros (? & ? & _). }
  destruct (Evaluate_shape env) as (reason & err & ->). cbn [from_option id].
  pose proof (Evaluate_verdict_raw env) as (HP & HR & HQ).
  assert (Tier1Public <> Tier2Restricted /\ Tier1Public <> Tier3Critical) as [D12 D13] by done.
  destruct (verdict env) eqn:Ev.
  - destruct (proj1 HP eq_refl) as [Hacc Hc]. unfold pass_packet. specialize (HT env).
    destruct (Telemetry (validated env)) eqn:Et; cbn [fst].
    + split; [done|]. intros (env' & [= <-] & _ & _ & Hn). apply HT in Hn. done.
    + split; [|done]. intros _. exists env. by rewrite <- HT.
  - destruct (proj1 HR eq_refl) as [Hacc Hc]. split.
    + unfold redact_packet. repeat case_match; done.
    + intros (env' & [= <-] & _ & Hc' & _). congruence.
  - destruct (proj1 HQ eq_refl) as [Hn|Hc]; (split; [done|]); intros (env' & [= <-] & ? & ? & _);
      [done|congruence].
Qed.

(** Whether a call quarantines its packet. *)
Definition quarantines (pe : PolicyEngine) (raw : string) : bool :=
  match unmarshal_envelope raw with
  | None => true
  | Some env =>
    match verdict env with
    | ActionPass => false
    | ActionRedactPass => negb (is_ok (RedactAndSanitize pe (Some (validated env))))
    | ActionQuarantine => true
    end
  end.

Definition decodes_to (action : EnforcementAction) (raw : string) : bool :=
  match unmarshal_envelope raw with
  | Some env => bool_decide (verdict env = action)
  | None => false
  end.

Definition bump (b : bool) (n : Z) : Z := if b then u64 (n + 1) else n.

(** What a call adds to the counters and to the dead-letter queue. *)
Lemma ProcessPacket_counts a sourceKey raw g :
  let g' := (ProcessPacket a sourceKey raw g).2 in
  let q := quarantines (engine g) raw in
  stats g' = mkStats (u64 (IngressTotal (stats g) + 1))
    (bump (decodes_to ActionPass raw) (Passed (stats g)))
    (bump (decodes_to ActionRedactPass raw) (Redacted (stats g)))
    (bump q (Quarantined (stats g))) /\
  engine g' = engine g /\ maxCapacity (dlq g') = maxCapacity (dlq g) /\
  if q then exists rec, records (dlq g') = (evict (dlq g) ++ [rec])%list /\
    SourceTopic rec = sourceKey /\ RawPayload rec = raw
  else dlq g' = dlq g.
Proof.
  unfold ProcessPacket, ParseJSONEnvelope, quarantines, decodes_to.
  destruct (unmarshal_envelope raw) as [env|].
  2: { cbn. do 3 (split; [done|]). by eexists. }
  destruct (Evaluate_shape env) as (reason & err & ->). cbn [from_option id].
  destruct (verdict env) eqn:Ev; cbn [negb].
  - unfold pass_packet. rewrite !bool_decide_true, bool_decide_false by done.
    by destruct (Telemetry (validated env)).
  - unfold redact_packet. rewrite bool_decide_false, bool_decide_true by done. cbn [engine set_stats].
    destruct (RedactAndSanitize (engine g) (Some (validated env))) as [out|e]; cbn [is_ok negb].
    + by destruct (marshal_envelope out), (Telemetry (validated env)).
    + cbn. do 3 (split; [done|]). by eexists.
  - rewrite !bool_decide_false by done. cbn. do 3 (split; [done|]). by eexists.
Qed.

(** C7. Accounting. Every call counts one ingress packet and counts it as passed,
    redacted or quarantined by its verdict (a redaction that fails is counted as
    redacted and as quarantined); the dead-letter queue gains one record, with the
    packet's topic and bytes, exactly for the quarantined packets, and loses
    nothing but its oldest record when full. *)
Theorem ProcessPacket_accounting a sourceKey raw g :
  let g' := (ProcessPacket a sourceKey raw g).2 in
  let q := quarantines (engine g) raw in
  stats g' = mkStats (u64 (IngressTotal (stats g) + 1))
    (bump (decodes_to ActionPass raw) (Passed (stats g)))
    (bump (decodes_to ActionRedactPass raw) (Redacted (stats g)))
    (bump q (Quarantined (stats g))) /\
  engine g' = engine g /\
  if q then exists rec, records (dlq g') = (evict (dlq g) ++ [rec])%list /\
    SourceTopic rec = sourceKey /\ RawPayload rec = raw
  else dlq g' = dlq g.
Proof.
  destruct (ProcessPacket_counts a sourceKey raw g) as (H1 & H2 & _ & H3). by split_and!.
Qed.

(** Redacted packets do not come back: every key the guard redacts to is
    dropped by its own subscription filter. *)
Theorem egress_key_filtered sourceKey vehicleID a payload g :
  ingress_handler a (egress_key sourceKey vehicleID) payload g = (Returned, g).
Proof.
  unfold ingress_handler. assert (HasPrefix (egress_key sourceKey vehicleID) "sec/tier1/" = true) as HP.
  { unfold egress_key, BuildKey. by destruct (ParseKey sourceKey). }
  unfold ingress_filtered. by rewrite HP.
Qed.
End Properties.

(** * The guard on the in-memory bus *)
Section Loop.
Context `{U : Unicode} `{UL : !UnicodeLaws U} `{JE : JsonErrors} {H : Type}.

(** The guard's handler [h] is subscribed on an open bus. *)
Definition subscribed (h : H) (b : MemoryBus H) : Prop :=
  closed b = false /\ exists hs, subscribers b !! ingressSelector = Some hs /\ h ∈ hs.

Lemma MemoryBus_delivers (h : H) key payload b :
  subscribed h b -> MatchesSelector ingressSelector key = true ->
  let b' := (MemoryBus_Publish key payload b).2 in
  subscribed h b' /\ exists l, spawned b' = (spawned b ++ l)%list /\ (h, key, payload) ∈ l.
Proof.
  intros (Hc & hs & Hs & Hh) Hm. unfold MemoryBus_Publish. rewrite Hc. cbn [snd].
  split; [by split; [|exists hs]|]. eexists. split; [done|].
  apply list_elem_of_fmap. exists h. split; [done|]. unfold matching.
  apply list_elem_of_bind. exists (ingressSelector, hs). rewrite Hm. split; [done|].
  by apply elem_of_map_to_list.
Qed.

Lemma ingress_pass a (h : H) key raw (g : CDSGuard (MemoryBus H)) env t :
  ingress_filtered key = false -> unmarshal_envelope raw = Some env ->
  accepted env -> Classification (Header env) = Tier1Public -> Telemetry env = Some t ->
  bus (ingress_handler a key raw g).2 = (MemoryBus_Publish key raw (bus g)).2.
Proof.
  intros Hf Hu Hacc Hc Ht. unfold ingress_handler. rewrite Hf.
  unfold ProcessPacket, ParseJSONEnvelope. rewrite Hu.
  destruct (Evaluate_shape env) as (reason & err & ->). cbn [from_option id].
  assert (verdict env = ActionPass) as -> by by apply Evaluate_verdict_raw.
  unfold pass_packet. assert (Telemetry (validated env) = Some (Normalize t)) as ->; [|done].
  apply Evaluate_accepts in Hacc. unfold validated, Validate_envelope in *. rewrite Ht in *.
  by destruct (check_header _).
Qed.

(** Feedback loop. On the in-memory bus a TIER-1 telemetry packet that arrives
    on a key outside [sec/tier1/] is republished on the key it came from, which the
    guard itself subscribes to: each run of the handler schedules another run on
    the same packet, so [n] runs have scheduled at least [n] more. *)
Theorem pass_feedback_loop a (h : H) key raw (g : CDSGuard (MemoryBus H)) env t n :
  subscribed h (bus g) -> MatchesSelector ingressSelector key = true ->
  ingress_filtered key = false -> unmarshal_envelope raw = Some env ->
  accepted env -> Classification (Header env) = Tier1Public -> Telemetry env = Some t ->
  exists l, spawned (bus (Nat.iter n (fun g => (ingress_handler a key raw g).2) g)) =
      (spawned (bus g) ++ l)%list /\ replicate n (h, key, raw) ⊆+ l.
Proof.
  intros Hs Hm Hf Hu Hacc Hc Ht.
  assert (subscribed h (bus (Nat.iter n (fun g => (ingress_handler a key raw g).2) g)) /\
    exists l, spawned (bus (Nat.iter n (fun g => (ingress_handler a key raw g).2) g)) =
      (spawned (bus g) ++ l)%list /\ replicate n (h, key, raw) ⊆+ l) as [_ HL]; [|exact HL].
  induction n as [|n [IHs (l & IHl & IHn)]].
  - split; [done|]. exists []. by rewrite app_nil_r.
  - rewrite Nat.iter_succ. rewrite (ingress_pass a h key raw _ env t) by done.
    destruct (MemoryBus_delivers h key raw _ IHs Hm) as [Hs' (l' & Hl' & Hin)].
    split; [done|]. exists (l ++ l')%list. rewrite Hl', IHl, app_assoc. split; [done|].
    rewrite replicate_S_end. apply submseteq_app; [done|].
    apply singleton_submseteq_l. done.
Qed.
End Loop.

(** * Concrete runs *)
Module GuardSamples.
#[local] Existing Instance caseless.
#[local] Existing Instance caseless_laws.
#[local] Instance no_text : JsonErrors := fun _ => "syntax error".

Definition env1 : SecurityEnvelope :=
  Samples.envelope (NewTelemetryEnvelope Tier1Public "edge-node" Samples.telem [] 100 200).
Definition cmd1 : SecurityEnvelope :=
  Samples.envelope (NewCommandEnvelope Tier1Public "gateway" Samples.cmd [] 100 200).
Definition text (e : SecurityEnvelope) : string :=
  match marshal_envelope e with Ok s => s | Err _ => "" end.

Definition key2 : string := "sec/tier2/drone/blue/bravo/telemetry".
Definition now : ambient := mkAmbient 300 301 true.

Definition open_bus : MemoryBus nat := (MemoryBus_Subscribe ingressSelector 7%nat NewMemoryBus).2.
Definition guard0 : CDSGuard (MemoryBus nat) := NewCDSGuard open_bus (mkDlq [] 500 "" None) 2.
Definition guard1 : CDSGuard (Recorded (MemoryBus nat)) :=
  NewCDSGuard (mkRecorded open_bus []) (mkDlq [] 500 "" None) 2.

Lemma env1_decodes : unmarshal_envelope (text env1) = Some env1.
Proof. by vm_compute. Qed.
Lemma env1_accepted : accepted env1.
Proof. apply Validate_accepts. by vm_compute. Qed.
Lemma cmd1_decodes : unmarshal_envelope (text cmd1) = Some cmd1.
Proof. by vm_compute. Qed.
Lemma cmd1_accepted : accepted cmd1.
Proof. apply Validate_accepts. by vm_compute. Qed.
Lemma open_bus_subscribed : subscribed 7%nat (bus guard0).
Proof. split; [done|]. exists [7%nat]. split; [by vm_compute|by apply list_elem_of_singleton]. Qed.

(** The TIER-2 packet of the samples leaves redacted, under its TIER-1 key. *)
Example redacts_tier2 :
  fst <$> record (bus (ProcessPacket now key2 (text Samples.env2) guard1).2) =
    ["sec/tier1/drone/blue/bravo/telemetry"].
Proof. by vm_compute. Qed.
End GuardSamples.

Lemma ProcessPacket_egress_witness :
  let g' := (@ProcessPacket caseless GuardSamples.no_text _ nat _ GuardSamples.now GuardSamples.key2
    (GuardSamples.text Samples.env2) GuardSamples.guard1).2 in
  acked (bus g') = acked (bus GuardSamples.guard1) \/
  exists env k p, @unmarshal_envelope caseless (GuardSamples.text Samples.env2) = Some env /\
    @permitted caseless (engine GuardSamples.guard1) GuardSamples.key2 (GuardSamples.text Samples.env2) env k p /\
    acked (bus g') = (acked (bus GuardSamples.guard1) ++ [(k, p)])%list.
Proof. exact (@ProcessPacket_egress caseless caseless_laws GuardSamples.no_text _ nat _ _ _ _ _ _). Defined.

Lemma ProcessPacket_panics_witness :
  (@ProcessPacket caseless GuardSamples.no_text _ nat _ GuardSamples.now GuardSamples.key2
    (GuardSamples.text GuardSamples.cmd1) GuardSamples.guard1).1 = Panicked.
Proof.
  apply (@ProcessPacket_panics caseless caseless_laws GuardSamples.no_text _ nat _).
  exists GuardSamples.cmd1. split; [exact GuardSamples.cmd1_decodes|].
  split; [exact GuardSamples.cmd1_accepted|]. split; by vm_compute.
Defined.

Lemma pass_feedback_loop_witness :
  exists l, spawned (bus (Nat.iter 3 (fun g => (@ingress_handler caseless GuardSamples.no_text _ nat _
      GuardSamples.now GuardSamples.key2 (GuardSamples.text GuardSamples.env1) g).2) GuardSamples.guard0)) =
      (spawned (bus GuardSamples.guard0) ++ l)%list /\
    replicate 3 (7%nat, GuardSamples.key2, GuardSamples.text GuardSamples.env1) ⊆+ l.
Proof.
  apply (@pass_feedback_loop caseless caseless_laws GuardSamples.no_text nat GuardSamples.now 7%nat
    GuardSamples.key2 (GuardSamples.text GuardSamples.env1) GuardSamples.guard0 GuardSamples.env1
    (Normalize Samples.telem) 3);
    [exact GuardSamples.open_bus_subscribed|done|done|exact GuardSamples.env1_decodes|
     exact GuardSamples.env1_accepted|by vm_compute|by vm_compute].
Defined.
