(* ===== verification/DataMule.v ===== *)
(** pkg/zenohutil/datamule.go: the store-and-forward queue in front of the
    satellite backhaul. Every method holds the mutex while it touches the state
    ([SetSimulationMode] releases it before it flushes), so a history is a sequence
    of calls. *)
From Stdlib Require Import Strings.Ascii Strings.String.
From S2P Require Import Prelude GoString Json GoTime Schema Bus.

Local Open Scope string_scope.
Local Open Scope Z_scope.

(** * encoding/base64: the JSON form of a byte slice *)
Definition base64_char (n : Z) : ascii :=
  za (if n <? 26 then 65 + n else if n <? 52 then 71 + n else if n <? 62 then n - 4
      else if n =? 62 then 43 else 47).
Fixpoint base64 (s : string) : string :=
  match s with
  | String a (String b (String c s)) =>
    let n := az a * 65536 + az b * 256 + az c in
    String (base64_char (n / 262144)) (String (base64_char (n / 4096 mod 64))
      (String (base64_char (n / 64 mod 64)) (String (base64_char (n mod 64)) (base64 s))))
  | String a (String b EmptyString) =>
    let n := az a * 1024 + az b * 4 in
    String (base64_char (n / 4096)) (String (base64_char (n / 64 mod 64))
      (String (base64_char (n mod 64)) "="))
  | String a EmptyString =>
    String (base64_char (az a / 4)) (String (base64_char (az a mod 4 * 16)) "==")
  | EmptyString => EmptyString
  end.
Example base64_sample : base64 "light w" = "bGlnaHQgdw==".
Proof. by vm_compute. Qed.

(** * Data *)
Inductive BackhaulStatus := BackhaulOnline | BackhaulDegraded | BackhaulDDILBuffering.

Definition status_text (s : BackhaulStatus) : string :=
  match s with
  | BackhaulOnline => "ONLINE"
  | BackhaulDegraded => "DEGRADED"
  | BackhaulDDILBuffering => "DDIL_BUFFERING"
  end.

Record SpooledPacket := mkPacket { PktID : string; Topic : string; Payload : string; PktTimestamp : Z }.

Record BackhaulMetrics := mkMetrics {
  Status : BackhaulStatus;
  CloudTarget : string;
  LatencyMs : Z;
  SpooledPackets : nat;
  SpooledBytes : Z;
  SyncedTotal : Z;
  LastSyncTime : Z;
  SimulatedMode : bool;
}.

(** The spool file: its lines, and whether its handle is still open. *)
Record spool := mkSpool { spool_lines : list string; spool_open : bool }.

(** What a call reads from its surroundings: the clock, the local time zone, and
    whether writes to the spool file and its re-opening succeed. *)
Record surroundings := mkSurroundings { now1 : Z; now2 : Z; tz : Z; disk : bool; reopen : bool }.

Definition formatUpstreamTopic (topic : string) : string :=
  if HasPrefix topic "upstream/" then topic else "upstream/" +:+ topic.

Definition marshal_packet (tz : Z) (p : SpooledPacket) : result string string :=
  marshal_fields [str_field "id" (PktID p); str_field "topic" (Topic p);
    ("payload", Ok (chr 34 +:+ base64 (Payload p) +:+ chr 34));
    ("timestamp", marshal_time tz (PktTimestamp p))].

Section DataMule.
Context {B H : Type} `{BI : Bus B H}.

Record DataMule := mkMule {
  status : BackhaulStatus;
  cloudTarget : string;
  spoolFile : option spool;
  spoolFilePath : string;
  buffer : list SpooledPacket;
  maxBuffer : nat;
  latencyMs : Z;
  syncedTotal : Z;
  lastSyncTime : Z;
  simulatedDDIL : bool;
  upstreamBus : option B;
}.

(** [mkdir] and [open] are the errors of the two file operations; [existing] the
    lines already in the file. *)
Definition NewDataMule `{U : Unicode} (path dir cleanPath : string) (max : Z) (target : string)
  (up : option B) (now : Z) (existing : list string) (mkdir open : option string)
  : result string DataMule :=
  let dm f := mkMule BackhaulOnline target f path []
    (if max <=? 0 then 5000%nat else Z.to_nat max) 38 0 now false up in
  if is_empty path then Ok (dm None) else
  match mkdir, open with
  | Some e, _ => Err ("creating spool directory " +:+ quote dir +:+ ": " +:+ e)
  | None, Some e => Err ("opening spool log file " +:+ quote cleanPath +:+ ": " +:+ e)
  | None, None => Ok (dm (Some (mkSpool existing true)))
  end.

Definition set_status (s : BackhaulStatus) (dm : DataMule) : DataMule :=
  mkMule s (cloudTarget dm) (spoolFile dm) (spoolFilePath dm) (buffer dm) (maxBuffer dm)
    (latencyMs dm) (syncedTotal dm) (lastSyncTime dm) (simulatedDDIL dm) (upstreamBus dm).
Definition set_bus (b : B) (dm : DataMule) : DataMule :=
  mkMule (status dm) (cloudTarget dm) (spoolFile dm) (spoolFilePath dm) (buffer dm) (maxBuffer dm)
    (latencyMs dm) (syncedTotal dm) (lastSyncTime dm) (simulatedDDIL dm) (Some b).
Definition set_synced (n : Z) (dm : DataMule) : DataMule :=
  mkMule (status dm) (cloudTarget dm) (spoolFile dm) (spoolFilePath dm) (buffer dm) (maxBuffer dm)
    (latencyMs dm) n (lastSyncTime dm) (simulatedDDIL dm) (upstreamBus dm).
Definition set_lastSync (t : Z) (dm : DataMule) : DataMule :=
  mkMule (status dm) (cloudTarget dm) (spoolFile dm) (spoolFilePath dm) (buffer dm) (maxBuffer dm)
    (latencyMs dm) (syncedTotal dm) t (simulatedDDIL dm) (upstreamBus dm).
Definition set_buffer (l : list SpooledPacket) (dm : DataMule) : DataMule :=
  mkMule (status dm) (cloudTarget dm) (spoolFile dm) (spoolFilePath dm) l (maxBuffer dm)
    (latencyMs dm) (syncedTotal dm) (lastSyncTime dm) (simulatedDDIL dm) (upstreamBus dm).
Definition set_spool (f : option spool) (dm : DataMule) : DataMule :=
  mkMule (status dm) (cloudTarget dm) f (spoolFilePath dm) (buffer dm) (maxBuffer dm)
    (latencyMs dm) (syncedTotal dm) (lastSyncTime dm) (simulatedDDIL dm) (upstreamBus dm).
Definition set_simulation (ddil : bool) (s : BackhaulStatus) (latency : Z) (dm : DataMule) : DataMule :=
  mkMule s (cloudTarget dm) (spoolFile dm) (spoolFilePath dm) (buffer dm) (maxBuffer dm)
    latency (syncedTotal dm) (lastSyncTime dm) ddil (upstreamBus dm).

(** ** Ingest *)

(** Appending a line to the spool file; write errors are ignored. *)
Definition spool_write (s : surroundings) (p : SpooledPacket) (f : option spool) : option spool :=
  match f with
  | None => None
  | Some sp =>
    let raw := match marshal_packet (tz s) p with Ok raw => raw | Err _ => "" end in
    Some (if spool_open sp && disk s then mkSpool (spool_lines sp ++ [raw])%list true else sp)
  end.

Definition spool_packet (s : surroundings) (topic payload : string) (dm : DataMule) : DataMule :=
  let pkt := mkPacket ("mule-" +:+ dec (now1 s) +:+ "-" +:+ dec (Z.of_nat (length (buffer dm)) + 1))
               topic payload (now2 s) in
  let kept := if (maxBuffer dm <=? length (buffer dm))%nat then tail (buffer dm) else buffer dm in
  set_spool (spool_write s pkt (spoolFile dm)) (set_buffer (kept ++ [pkt])%list dm).

Definition is_online (s : BackhaulStatus) : bool :=
  match s with BackhaulOnline => true | _ => false end.

Definition Ingest (s : surroundings) (topic payload : string) (dm : DataMule) : DataMule :=
  match upstreamBus dm with
  | Some b =>
    if is_online (status dm) && negb (simulatedDDIL dm) then
      let '(err, b') := Publish (formatUpstreamTopic topic) payload b in
      let dm := set_bus b' dm in
      match err with
      | None => set_lastSync (now1 s) (set_synced (i64 (syncedTotal dm + 1)) dm)
      | Some _ => spool_packet s topic payload (set_status BackhaulDDILBuffering dm)
      end
    else spool_packet s topic payload dm
  | None => spool_packet s topic payload dm
  end.

(** ** Flush *)

(** The loop over the buffered packets: the number sent, the first error, and the
    state with the counter advanced once per packet. *)
Fixpoint flush_loop (pkts : list SpooledPacket) (flushed : nat) (dm : DataMule)
  : nat * option string * DataMule :=
  match pkts with
  | [] => (flushed, None, dm)
  | pkt :: pkts =>
    match upstreamBus dm with
    | None => flush_loop pkts (S flushed) (set_synced (i64 (syncedTotal dm + 1)) dm)
    | Some b =>
      let '(err, b') := Publish (formatUpstreamTopic (Topic pkt)) (Payload pkt) b in
      let dm := set_bus b' dm in
      match err with
      | Some e => (flushed, Some e, dm)
      | None => flush_loop pkts (S flushed) (set_synced (i64 (syncedTotal dm + 1)) dm)
      end
    end
  end.

(** The spool file is closed and re-opened empty. *)
Definition spool_truncate (s : surroundings) (f : option spool) : option spool :=
  match f with
  | None => None
  | Some sp => Some (if reopen s then mkSpool [] true else mkSpool (spool_lines sp) false)
  end.

Definition Flush (s : surroundings) (dm : DataMule) : nat * option string * DataMule :=
  match buffer dm with
  | [] => (0%nat, None, set_status BackhaulOnline dm)
  | _ =>
    let '(flushed, err, dm) := flush_loop (buffer dm) 0 dm in
    match err with
    | Some e => (flushed, Some e, dm)
    | None =>
      (flushed, None, set_spool (spool_truncate s (spoolFile dm))
        (set_status BackhaulOnline (set_lastSync (now1 s) (set_buffer [] dm))))
    end
  end.

Definition Metrics (dm : DataMule) : BackhaulMetrics :=
  mkMetrics (status dm) (cloudTarget dm) (latencyMs dm) (length (buffer dm))
    (foldl (fun n p => i64 (n + Z.of_nat (String.length (Payload p)))) 0 (buffer dm))
    (syncedTotal dm) (lastSyncTime dm) (simulatedDDIL dm).

Definition SetSimulationMode (s : surroundings) (ddilActive : bool) (dm : DataMule)
  : BackhaulMetrics * DataMule :=
  let dm :=
    if ddilActive then set_simulation true BackhaulDDILBuffering 9999 dm
    else (Flush s (set_simulation false BackhaulOnline 42 dm)).2 in
  (Metrics dm, dm).

Definition CloseMule (dm : DataMule) : DataMule :=
  set_spool (match spoolFile dm with Some sp => Some (mkSpool (spool_lines sp) false) | None => None end) dm.

(** Histories of ingested packets. *)
Fixpoint ingest_all (l : list (surroundings * string * string)) (dm : DataMule) : DataMule :=
  match l with
  | [] => dm
  | (s, topic, payload) :: l => ingest_all l (Ingest s topic payload dm)
  end.
End DataMule.
Arguments DataMule : clear implicits.

(** * Properties *)
Section Properties.
Context {B H : Type} `{BI : Bus B H} `{BL : !BusLog B} `{BA : !BusAlive B}.
Implicit Types dm : DataMule B.

(** What a packet looks like upstream, and what the upstream bus has
    acknowledged. *)
Definition sent (p : SpooledPacket) : string * string := (formatUpstreamTopic (Topic p), Payload p).
Definition mule_acked dm : list (string * string) :=
  match upstreamBus dm with Some b => acked b | None => [] end.

Definition count_synced (n : nat) (z : Z) : Z := Nat.iter n (fun x => i64 (x + 1)) z.

Lemma publish_cases k p b :
  ((Publish k p b).1 = None /\ acked (Publish k p b).2 = (acked b ++ [(k, p)])%list) \/
  (exists e, (Publish k p b).1 = Some e /\ acked (Publish k p b).2 = acked b).
Proof.
  destruct (Publish k p b) as [[e|] b'] eqn:E; cbn [fst snd].
  - right. exists e. split; [done|]. by eapply acked_err.
  - left. split; [done|]. by apply acked_ok.
Qed.

Lemma formatUpstreamTopic_prefix topic : HasPrefix (formatUpstreamTopic topic) "upstream/" = true.
Proof.
  unfold formatUpstreamTopic. destruct (HasPrefix topic "upstream/") eqn:E; [done|].
  apply HasPrefix_app.
Qed.

(** Forwarding a forwarded topic does not prefix it again. *)
Lemma formatUpstreamTopic_idem topic :
  formatUpstreamTopic (formatUpstreamTopic topic) = formatUpstreamTopic topic.
Proof. unfold formatUpstreamTopic at 1. by rewrite formatUpstreamTopic_prefix. Qed.

(** ** The flush loop *)
Lemma flush_loop_spec pkts n dm b :
  upstreamBus dm = Some b ->
  exists pre post dm' err, flush_loop pkts n dm = ((n + length pre)%nat, err, dm') /\
    pkts = (pre ++ post)%list /\ (err = None <-> post = []) /\
    mule_acked dm' = (mule_acked dm ++ (sent <$> pre))%list /\
    syncedTotal dm' = count_synced (length pre) (syncedTotal dm) /\
    buffer dm' = buffer dm /\ status dm' = status dm /\ maxBuffer dm' = maxBuffer dm /\
    simulatedDDIL dm' = simulatedDDIL dm /\ spoolFile dm' = spoolFile dm /\
    latencyMs dm' = latencyMs dm /\
    exists b', upstreamBus dm' = Some b' /\ (alive b -> err = None /\ alive b').
Proof.
  revert n dm b. induction pkts as [|p pkts IH]; intros n dm b Hb; cbn [flush_loop].
  - exists [], [], dm, None. rewrite Nat.add_0_r.
    split_and!; try done; [by rewrite app_nil_r|by exists b].
  - rewrite Hb. pose proof (publish_cases (formatUpstreamTopic (Topic p)) (Payload p) b) as HP.
    pose proof (alive_publish (formatUpstreamTopic (Topic p)) (Payload p) b) as HA.
    destruct (Publish _ _ b) as [[e|] b1]; cbn [fst snd] in *.
    + destruct HP as [[? _]|(e' & _ & Ha)]; [done|].
      exists [], (p :: pkts), (set_bus b1 dm), (Some e). rewrite Nat.add_0_r.
      split_and!; try done; [unfold mule_acked; cbn; by rewrite app_nil_r, Hb, Ha|].
      exists b1. split; [done|]. by intros [? _]%HA.
    + destruct HP as [[_ Ha]|(e' & ? & _)]; [|done].
      set (dm1 := set_synced _ _).
      destruct (IH (S n) dm1 b1 eq_refl) as (pre & post & dm' & err & E & Epkts & Herr & Hack &
        Hs & Hbuf & Hst & Hmax & Hsim & Hsp & Hlat & b' & Hb' & Hal).
      exists (p :: pre), post, dm', err. rewrite E. cbn [length]. split_and!; try done.
      * by rewrite Nat.add_succ_r.
      * by rewrite Epkts.
      * rewrite Hack. unfold mule_acked, dm1. cbn. by rewrite Hb, Ha, <- app_assoc.
      * rewrite Hs. unfold dm1, count_synced. exact (eq_sym (Nat.iter_succ_r (length pre) (fun x => i64 (x + 1)) _)).
      * exists b'. split; [done|]. intros [_ ?]%HA. by apply Hal.
Qed.

Lemma Flush_spec_raw s dm b :
  upstreamBus dm = Some b ->
  let '(n, err, dm') := Flush s dm in
  exists pre post, buffer dm = (pre ++ post)%list /\ n = length pre /\
    mule_acked dm' = (mule_acked dm ++ (sent <$> pre))%list /\
    syncedTotal dm' = count_synced (length pre) (syncedTotal dm) /\
    match err with
    | None => post = [] /\ buffer dm' = [] /\ status dm' = BackhaulOnline
    | Some _ => post <> [] /\ buffer dm' = buffer dm /\ status dm' = status dm
    end.
Proof.
  intros Hb. unfold Flush. destruct (buffer dm) as [|p pkts] eqn:Ebuf.
  - exists [], []. split_and!; try done. by rewrite app_nil_r.
  - destruct (flush_loop_spec (p :: pkts) 0 dm b Hb) as (pre & post & dm' & err & E & Epkts & Herr &
      Hack & Hs & Hbuf & Hst & _). rewrite E. destruct err as [e|].
    + exists pre, post. split_and!; try done. by intros ?%Herr. by rewrite Hbuf.
    + exists pre, post. split_and!; try done. by apply Herr.
Qed.

(** C27. A flush sends the buffered packets upstream in FIFO order, counting each
    acknowledged one. If all are acknowledged the buffer is emptied and the link is
    online; if one fails, exactly the packets before it have been sent, the error
    is reported, and the buffer still holds every packet, the sent ones included. *)
Theorem Flush_spec s dm b :
  upstreamBus dm = Some b ->
  let '(n, err, dm') := Flush s dm in
  exists pre post, buffer dm = (pre ++ post)%list /\ n = length pre /\
    mule_acked dm' = (mule_acked dm ++ (sent <$> pre))%list /\
    syncedTotal dm' = count_synced (length pre) (syncedTotal dm) /\
    match err with
    | None => post = [] /\ buffer dm' = [] /\ status dm' = BackhaulOnline
    | Some _ => post <> [] /\ buffer dm' = buffer dm /\ status dm' = status dm
    end.
Proof. apply Flush_spec_raw. Qed.

(** ** Ingest *)
Lemma spool_packet_buffer s topic payload dm :
  exists pkt, sent pkt = (formatUpstreamTopic topic, payload) /\
    buffer (spool_packet s topic payload dm) =
      ((if (maxBuffer dm <=? length (buffer dm))%nat then tail (buffer dm) else buffer dm) ++ [pkt])%list.
Proof. eexists. split; [|reflexivity]. done. Qed.

Lemma Ingest_shape s topic payload dm :
  let dm' := Ingest s topic payload dm in
  (is_online (status dm) = true /\ simulatedDDIL dm = false /\ status dm' = status dm /\
     mule_acked dm' = (mule_acked dm ++ [(formatUpstreamTopic topic, payload)])%list /\
     buffer dm' = buffer dm) \/
  (mule_acked dm' = mule_acked dm /\
     (status dm' = status dm \/ status dm' = BackhaulDDILBuffering) /\
     exists pkt, sent pkt = (formatUpstreamTopic topic, payload) /\
       buffer dm' = ((if (maxBuffer dm <=? length (buffer dm))%nat then tail (buffer dm)
                      else buffer dm) ++ [pkt])%list).
Proof.
  unfold Ingest. destruct (upstreamBus dm) as [b|] eqn:Hb.
  - destruct (is_online (status dm)) eqn:Eo, (simulatedDDIL dm) eqn:Es; cbn [negb andb];
      try (right; split; [done|]; split; [by left|]; apply spool_packet_buffer).
    pose proof (publish_cases (formatUpstreamTopic topic) payload b) as HP.
    destruct (Publish _ _ b) as [[e|] b1]; cbn [fst snd] in HP.
    + destruct HP as [[? _]|(e' & _ & Ha)]; [done|]. right.
      split; [unfold mule_acked; cbn; by rewrite Hb, Ha|]. split; [by right|].
      apply (spool_packet_buffer s topic payload (set_status BackhaulDDILBuffering (set_bus b1 dm))).
    + destruct HP as [[_ Ha]|(e' & ? & _)]; [|done]. left.
      split_and!; try done. unfold mule_acked. cbn. by rewrite Hb, Ha.
  - right. split; [done|]. split; [by left|]. apply spool_packet_buffer.
Qed.

(** No packet disappears on ingest: either the link is online and the packet is
    acknowledged upstream, leaving the buffer alone; or nothing is sent and the
    packet is the newest of the buffer, which only loses its oldest packet, and only
    when it is full. A failed publication puts the link into buffering mode. *)
Theorem Ingest_spec s topic payload dm :
  let dm' := Ingest s topic payload dm in
  (is_online (status dm) = true /\ simulatedDDIL dm = false /\ status dm' = status dm /\
     mule_acked dm' = (mule_acked dm ++ [(formatUpstreamTopic topic, payload)])%list /\
     buffer dm' = buffer dm) \/
  (mule_acked dm' = mule_acked dm /\
     (status dm' = status dm \/ status dm' = BackhaulDDILBuffering) /\
     exists pkt, sent pkt = (formatUpstreamTopic topic, payload) /\
       buffer dm' = ((if (maxBuffer dm <=? length (buffer dm))%nat then tail (buffer dm)
                      else buffer dm) ++ [pkt])%list).
Proof. apply Ingest_shape. Qed.

Lemma Ingest_bounded s topic payload dm :
  (0 < maxBuffer dm)%nat -> (length (buffer dm) <= maxBuffer dm)%nat ->
  (length (buffer (Ingest s topic payload dm)) <= maxBuffer dm)%nat.
Proof.
  intros Hm Hl. destruct (Ingest_shape s topic payload dm) as [(_ & _ & _ & _ & ->)|(_ & _ & pkt & _ & ->)];
    [done|]. rewrite length_app. cbn [length].
  destruct (Nat.leb_spec (maxBuffer dm) (length (buffer dm))); [|lia].
  destruct (buffer dm); cbn in *; lia.
Qed.

(** While the link is not online, nothing is sent and the buffer keeps the most
    recent packets. *)
Lemma Ingest_offline s topic payload dm h :
  is_online (status dm) = false \/ simulatedDDIL dm = true -> (0 < maxBuffer dm)%nat ->
  sent <$> buffer dm = lastn (maxBuffer dm) h ->
  let dm' := Ingest s topic payload dm in
  status dm' = status dm /\ simulatedDDIL dm' = simulatedDDIL dm /\ maxBuffer dm' = maxBuffer dm /\
  upstreamBus dm' = upstreamBus dm /\
  sent <$> buffer dm' = lastn (maxBuffer dm) (h ++ [(formatUpstreamTopic topic, payload)]).
Proof.
  intros Hoff Hm Hbuf dm'.
  assert (dm' = spool_packet s topic payload dm) as ->.
  { unfold dm', Ingest. destruct (upstreamBus dm); [|done].
    destruct Hoff as [->| ->]; [done|]. by rewrite andb_false_r. }
  split; [done|]. split; [done|]. split; [done|]. split; [done|].
  destruct (spool_packet_buffer s topic payload dm) as (pkt & Hpkt & ->).
  rewrite fmap_app. cbn. rewrite Hpkt.
  destruct (maxBuffer dm) as [|n] eqn:En; [lia|]. rewrite lastn_snoc.
  assert (length (buffer dm) = Nat.min (S n) (length h)) as Hlen
    by (rewrite <- length_lastn, <- Hbuf, length_fmap; done).
  destruct (Nat.leb_spec (S n) (length (buffer dm))) as [Hf|Hf].
  - assert (forall l : list SpooledPacket, sent <$> tail l = tail (sent <$> l)) as -> by (by intros []).
    rewrite Hbuf, tail_lastn by lia. do 2 f_equal. lia.
  - by rewrite Hbuf, !lastn_all by lia.
Qed.

Definition forwarded (l : list (surroundings * string * string)) : list (string * string) :=
  (fun '(_, topic, payload) => (formatUpstreamTopic topic, payload)) <$> l.

Lemma ingest_all_offline l dm h :
  is_online (status dm) = false \/ simulatedDDIL dm = true -> (0 < maxBuffer dm)%nat ->
  sent <$> buffer dm = lastn (maxBuffer dm) h ->
  let dm' := ingest_all l dm in
  status dm' = status dm /\ simulatedDDIL dm' = simulatedDDIL dm /\ maxBuffer dm' = maxBuffer dm /\
  upstreamBus dm' = upstreamBus dm /\
  sent <$> buffer dm' = lastn (maxBuffer dm) (h ++ forwarded l).
Proof.
  revert dm h. induction l as [|[[s topic] payload] l IH]; intros dm h Hoff Hm Hbuf; cbn [ingest_all].
  - split_and!; try done. by rewrite app_nil_r.
  - destruct (Ingest_offline s topic payload dm h Hoff Hm Hbuf) as (E1 & E2 & E3 & E4 & E5).
    rewrite <- E3 in E5. destruct (IH _ _ ltac:(by rewrite E1, E2) ltac:(by rewrite E3) E5)
      as (F1 & F2 & F3 & F4 & F5).
    split_and!; [congruence..|]. rewrite F5, E3. cbn. by rewrite <- app_assoc.
Qed.

(** Restoring the link on a working bus empties the buffer upstream, in order. *)
Lemma restore_flushes s dm b :
  upstreamBus dm = Some b -> alive b ->
  let dm' := (SetSimulationMode s false dm).2 in
  (exists b', upstreamBus dm' = Some b' /\ alive b' /\ acked b' = (acked b ++ (sent <$> buffer dm))%list) /\
  buffer dm' = [] /\ status dm' = BackhaulOnline /\ simulatedDDIL dm' = false.
Proof.
  intros Hb Hal. unfold SetSimulationMode, Flush. cbn [snd buffer set_simulation].
  destruct (buffer dm) as [|p pkts] eqn:Ebuf.
  - split; [|done]. exists b. split_and!; [done|done|by rewrite app_nil_r].
  - destruct (flush_loop_spec (p :: pkts) 0 (set_simulation false BackhaulOnline 42 dm) b Hb)
      as (pre & post & dm' & err & E & Epkts & Herr & Hack & _ & _ & _ & _ & Hsim & _ & _ & b' & Hb' & Hal').
    rewrite E. destruct (Hal' Hal) as [-> Halive]. cbn [snd fst].
    pose proof (proj1 Herr eq_refl) as ->. rewrite app_nil_r in Epkts. subst pre.
    split; [|done]. exists b'. split_and!; [done|done|].
    unfold mule_acked in Hack. cbn in Hack. by rewrite Hb', Hb in Hack.
Qed.

(** Store and forward over an outage: packets ingested while the link is down
    are not sent; when it is restored, with a working upstream bus, they are sent in
    the order they came, all of them up to the capacity of the buffer, and beyond it
    the most recent ones. *)
Theorem outage_delivery s1 s2 l dm b :
  upstreamBus dm = Some b -> alive b -> buffer dm = [] -> (0 < maxBuffer dm)%nat ->
  let down := ingest_all l (SetSimulationMode s1 true dm).2 in
  let up := (SetSimulationMode s2 false down).2 in
  mule_acked down = mule_acked dm /\
  mule_acked up = (mule_acked dm ++ lastn (maxBuffer dm) (forwarded l))%list /\
  buffer up = [] /\ status up = BackhaulOnline /\ simulatedDDIL up = false.
Proof.
  intros Hb Hal Hbuf Hm down up.
  destruct (ingest_all_offline l (SetSimulationMode s1 true dm).2 []) as (E1 & E2 & E3 & E4 & E5);
    [by left|done|cbn; by rewrite Hbuf|].
  fold down in E1, E2, E3, E4, E5. cbn [app] in E5.
  assert (upstreamBus down = Some b) as Hb' by by rewrite E4.
  change (maxBuffer (SetSimulationMode s1 true dm).2) with (maxBuffer dm) in E5.
  destruct (restore_flushes s2 down b Hb' Hal) as ((b' & Eb' & _ & Hack) & Hbuf' & Hst & Hsim).
  fold up in Eb', Hbuf', Hst, Hsim. rewrite E5 in Hack. unfold mule_acked.
  rewrite Hb', Hb, Eb'. by split_and!.
Qed.

(** A failed flush is not undone: the packets it sent are sent again by the next
    successful flush, and counted again as synchronized. *)
Theorem Flush_duplicates s1 s2 dm b n e dm1 n' dm2 :
  upstreamBus dm = Some b ->
  Flush s1 dm = (n, Some e, dm1) -> Flush s2 dm1 = (n', None, dm2) ->
  mule_acked dm2 = (mule_acked dm ++ take n (sent <$> buffer dm) ++ (sent <$> buffer dm))%list /\
  syncedTotal dm2 = count_synced (n + length (buffer dm)) (syncedTotal dm).
Proof.
  intros Hb H1 H2. pose proof (Flush_spec_raw s1 dm b Hb) as F1. rewrite H1 in F1.
  destruct F1 as (pre & post & Ebuf & -> & Hack & Hs & _ & Hbuf & _).
  assert (exists b1, upstreamBus dm1 = Some b1) as [b1 Hb1].
  { unfold Flush in H1. destruct (buffer dm) as [|p pkts] eqn:Eb; [done|].
    destruct (flush_loop_spec (p :: pkts) 0 dm b Hb)
      as (? & ? & ? & err & E & _ & _ & _ & _ & _ & _ & _ & _ & _ & _ & b1 & Hb1 & _).
    rewrite E in H1. destruct err; [|done]. injection H1 as _ _ <-. by exists b1. }
  pose proof (Flush_spec_raw s2 dm1 b1 Hb1) as F2. rewrite H2 in F2.
  destruct F2 as (pre2 & post2 & Ebuf2 & _ & Hack2 & Hs2 & -> & _).
  rewrite app_nil_r in Ebuf2. rewrite Hbuf in Ebuf2. subst pre2. split.
  - rewrite Hack2, Hack, <- app_assoc. do 2 f_equal.
    rewrite Ebuf, fmap_app, take_app_length'; [done|by rewrite length_fmap].
  - rewrite Hs2, Hs. unfold count_synced. by rewrite <- Nat.iter_add, Nat.add_comm.
Qed.

(** No recovery by itself: once buffering, the link stays buffering and nothing
    is sent upstream however many packets are ingested, even when the upstream bus
    works again; only a flush or the simulation switch brings it back. *)
Theorem buffering_persists l dm :
  status dm = BackhaulDDILBuffering -> (0 < maxBuffer dm)%nat ->
  (length (buffer dm) <= maxBuffer dm)%nat ->
  let dm' := ingest_all l dm in
  status dm' = BackhaulDDILBuffering /\ mule_acked dm' = mule_acked dm /\
  sent <$> buffer dm' = lastn (maxBuffer dm) ((sent <$> buffer dm) ++ forwarded l).
Proof.
  intros Hs Hm Hlen dm'.
  destruct (ingest_all_offline l dm (sent <$> buffer dm)) as (E1 & _ & _ & E4 & E5);
    [left; by rewrite Hs|done|rewrite lastn_all; [done|by rewrite length_fmap]|].
  split; [by rewrite <- Hs|]. split; [|done]. unfold mule_acked, dm'. by rewrite E4.
Qed.

(** Overtaking. When restoring the link fails to flush, the mule is nevertheless
    online: the next packet is sent at once, ahead of the packets still buffered. *)
Theorem restore_overtakes s1 s2 dm b b1 topic payload :
  upstreamBus dm = Some b ->
  let dm1 := (SetSimulationMode s1 false dm).2 in
  buffer dm1 <> [] -> upstreamBus dm1 = Some b1 -> alive b1 ->
  buffer dm1 = buffer dm /\
  mule_acked (Ingest s2 topic payload dm1) = (mule_acked dm1 ++ [(formatUpstreamTopic topic, payload)])%list /\
  buffer (Ingest s2 topic payload dm1) = buffer dm.
Proof.
  intros Hb dm1 Hne Hb1 Hal.
  assert (status dm1 = BackhaulOnline /\ simulatedDDIL dm1 = false /\ buffer dm1 = buffer dm)
    as (Es & Ed & Ebuf).
  { revert Hne. unfold dm1, SetSimulationMode, Flush. cbn [snd buffer set_simulation].
    destruct (buffer dm) as [|p pkts] eqn:Eb; [by intros ?|].
    destruct (flush_loop_spec (p :: pkts) 0 (set_simulation false BackhaulOnline 42 dm) b Hb)
      as (pre & post & dm' & err & -> & _ & _ & _ & _ & Hbuf & Hst & _ & Hsim & _).
    destruct err; [|done]. cbn in *. intros _. rewrite Hbuf, Eb. done. }
  clearbody dm1. split; [done|]. unfold Ingest. rewrite Hb1, Es, Ed. cbn [is_online negb andb].
  destruct (alive_publish (formatUpstreamTopic topic) payload b1 Hal) as [HP _].
  pose proof (publish_cases (formatUpstreamTopic topic) payload b1) as HC.
  destruct (Publish _ _ b1) as [err b2]. cbn [fst snd] in *. subst err.
  destruct HC as [[_ Ha]|(? & ? & _)]; [|done]. split; [|done].
  unfold mule_acked. cbn. by rewrite Hb1, Ha.
Qed.

(** Without an upstream bus a flush throws the buffer away: it reports every
    packet as flushed and synchronized although nothing was sent anywhere. *)
Theorem Flush_without_bus s dm :
  upstreamBus dm = None ->
  let '(n, err, dm') := Flush s dm in
  n = length (buffer dm) /\ err = None /\ buffer dm' = [] /\
  syncedTotal dm' = count_synced (length (buffer dm)) (syncedTotal dm).
Proof.
  intros Hb. assert (forall pkts n dm, upstreamBus dm = None ->
    exists dm', flush_loop pkts n dm = ((n + length pkts)%nat, None, dm') /\
      syncedTotal dm' = count_synced (length pkts) (syncedTotal dm)) as HL.
  { clear. induction pkts as [|p pkts IH]; intros n dm Hb; cbn [flush_loop].
    - exists dm. by rewrite Nat.add_0_r.
    - rewrite Hb. destruct (IH (S n) (set_synced (i64 (syncedTotal dm + 1)) dm) Hb) as (dm' & -> & Hs).
      exists dm'. cbn [length]. split; [by rewrite Nat.add_succ_r|].
      rewrite Hs. exact (eq_sym (Nat.iter_succ_r (length pkts) (fun x => i64 (x + 1)) _)). }
  unfold Flush. destruct (buffer dm) as [|p pkts] eqn:Eb; [done|].
  destruct (HL (p :: pkts) 0%nat dm Hb) as (dm' & -> & Hs). done.
Qed.
End Properties.

(** * Concrete runs: an upstream bus that follows a script *)
Module MuleSamples.
(** The outcomes of the coming publications; after them every one succeeds. *)
Definition script := list bool.
#[global] Instance script_bus : Bus script unit := {
  Publish _ _ b := match b with
    | [] => (None, [])
    | ok :: b => (if ok then None else Some "link down", b)
    end;
  Subscribe _ _ b := (None, b);
  Close b := (None, b);
}.
#[global] Instance script_alive : BusAlive script.
Proof. refine {| alive b := b = [] |}. by intros k p b ->. Defined.

Definition env : surroundings := mkSurroundings 1000 1001 0 true true.
Definition pkt (n : Z) : SpooledPacket := mkPacket "p" "sec/t" (dec n) n.
Definition mule (st : BackhaulStatus) (buf : list SpooledPacket) (up : option script)
  : DataMule (Recorded script) :=
  mkMule st "cloud" None "" buf 3 38 0 0 false ((fun b => mkRecorded b []) <$> up).
Definition packets : list (surroundings * string * string) :=
  [(env, "a", "1"); (env, "b", "2"); (env, "upstream/c", "3"); (env, "d", "4")].
End MuleSamples.

Lemma Flush_spec_witness :
  let dm := MuleSamples.mule BackhaulDDILBuffering [MuleSamples.pkt 1; MuleSamples.pkt 2] (Some [true; false]) in
  let '(n, err, dm') := Flush MuleSamples.env dm in
  exists pre post, buffer dm = (pre ++ post)%list /\ n = length pre /\
    mule_acked dm' = (mule_acked dm ++ (sent <$> pre))%list /\
    syncedTotal dm' = count_synced (length pre) (syncedTotal dm) /\
    match err with
    | None => post = [] /\ buffer dm' = [] /\ status dm' = BackhaulOnline
    | Some _ => post <> [] /\ buffer dm' = buffer dm /\ status dm' = status dm
    end.
Proof. by apply (Flush_spec MuleSamples.env _ (mkRecorded [true; false] [])). Defined.

Lemma outage_delivery_witness :
  let dm := MuleSamples.mule BackhaulOnline [] (Some []) in
  let down := ingest_all MuleSamples.packets (SetSimulationMode MuleSamples.env true dm).2 in
  let up := (SetSimulationMode MuleSamples.env false down).2 in
  mule_acked down = mule_acked dm /\
  mule_acked up = (mule_acked dm ++ lastn 3 (forwarded MuleSamples.packets))%list /\
  buffer up = [] /\ status up = BackhaulOnline /\ simulatedDDIL up = false.
Proof.
  apply (outage_delivery MuleSamples.env MuleSamples.env MuleSamples.packets
    (MuleSamples.mule BackhaulOnline [] (Some [])) (mkRecorded [] [])); [done|done|done|cbn; lia].
Defined.

Lemma Flush_duplicates_witness :
  let dm := MuleSamples.mule BackhaulDDILBuffering [MuleSamples.pkt 1; MuleSamples.pkt 2] (Some [true; false]) in
  let dm1 := (Flush MuleSamples.env dm).2 in
  let dm2 := (Flush MuleSamples.env dm1).2 in
  mule_acked dm2 = (mule_acked dm ++ take 1 (sent <$> buffer dm) ++ (sent <$> buffer dm))%list /\
  syncedTotal dm2 = count_synced (1 + length (buffer dm)) (syncedTotal dm).
Proof.
  intros dm dm1 dm2.
  apply (Flush_duplicates MuleSamples.env MuleSamples.env dm (mkRecorded [true; false] []) 1
    (default "" (Flush MuleSamples.env dm).1.2) dm1 (Flush MuleSamples.env dm1).1.1 dm2);
    by vm_compute.
Defined.

Lemma buffering_persists_witness :
  let dm := MuleSamples.mule BackhaulDDILBuffering [MuleSamples.pkt 1] (Some []) in
  let dm' := ingest_all MuleSamples.packets dm in
  status dm' = BackhaulDDILBuffering /\ mule_acked dm' = mule_acked dm /\
  sent <$> buffer dm' = lastn 3 ((sent <$> buffer dm) ++ forwarded MuleSamples.packets).
Proof.
  apply (buffering_persists MuleSamples.packets
    (MuleSamples.mule BackhaulDDILBuffering [MuleSamples.pkt 1] (Some []))); [done|cbn; lia|cbn; lia].
Defined.

Lemma restore_overtakes_witness :
  let dm := MuleSamples.mule BackhaulDDILBuffering [MuleSamples.pkt 1] (Some [false]) in
  let dm1 := (SetSimulationMode MuleSamples.env false dm).2 in
  buffer dm1 = buffer dm /\
  mule_acked (Ingest MuleSamples.env "new" "x" dm1) = (mule_acked dm1 ++ [("upstream/new", "x")])%list /\
  buffer (Ingest MuleSamples.env "new" "x" dm1) = buffer dm.
Proof.
  cbv zeta.
  apply (restore_overtakes MuleSamples.env MuleSamples.env _ (mkRecorded [false] []) (mkRecorded [] [])
    "new" "x"); done.
Defined.

Lemma Flush_without_bus_witness :
  let dm := MuleSamples.mule BackhaulDDILBuffering [MuleSamples.pkt 1; MuleSamples.pkt 2] None in
  let '(n, err, dm') := Flush MuleSamples.env dm in
  n = length (buffer dm) /\ err = None /\ buffer dm' = [] /\
  syncedTotal dm' = count_synced (length (buffer dm)) (syncedTotal dm).
Proof. by apply Flush_without_bus. Defined.
