(* ===== verification/FloatRange.v ===== *)
(** Ranges of normal floats: the exponents a chain of operations can reach, so
    that a result is finite, valid and bounded without computing it. Used for the
    square root of the ground speed and for the attitude angles of
    pkg/mavlink/bridge.go. *)
From Stdlib Require Import SpecFloat.
From S2P Require Import Prelude Float64.

Local Open Scope Z_scope.

(** A zero, or a float with a full mantissa and an exponent within [lo..hi]. *)
Definition mag (s : bool) (lo hi : Z) (x : f64) : Prop :=
  x = S754_zero s \/ exists m e, x = S754_finite s m e /\ full m /\ lo <= e <= hi.

Lemma mag_weaken s lo hi lo' hi' x : lo' <= lo -> hi <= hi' -> mag s lo hi x -> mag s lo' hi' x.
Proof. intros ? ? [->|(m & e & -> & F & ?)]; [by left|]. right. exists m, e. split_and!; by try lia. Qed.

Lemma mag_finite s lo hi x : mag s lo hi x -> is_finite x = true.
Proof. by intros [->|(m & e & -> & _)]. Qed.

Lemma mag_sound s lo hi x : mag s lo hi x -> -1074 <= lo -> hi <= -24 ->
  valid x /\ in_range (2 ^ 29) x = true.
Proof.
  intros [->|(m & e & -> & F & He)] Hlo Hhi; [done|]. split.
  - rewrite <- (Z.opp_involutive e). apply full_valid; [done|lia].
  - cbn [in_range]. rewrite (proj2 (Z.leb_gt _ _)) by lia. apply Z.leb_le.
    destruct F as [_ U]. pose proof (Z.pow_le_mono_r 2 24 (- e)). lia.
Qed.

Lemma of_Z_mag n : 0 < n < 2 ^ 53 -> mag false (-52) 0 (of_Z n).
Proof. intros H. destruct (of_Z_spec n H) as (m & e & -> & F & E & _). right. by exists m, e. Qed.

Lemma signed_of_Z_mag s n k : 0 <= n < 2 ^ k -> 0 <= k <= 53 -> mag s (-52) (k - 53) (signed_of_Z s n).
Proof.
  intros Hn Hk. destruct (decide (n = 0)) as [->|Hne]; [by left|].
  assert (2 ^ k <= 2 ^ 53) by (apply Z.pow_le_mono_r; lia).
  destruct (of_Z_spec n) as (m & e & E & F & Be & V); [lia|].
  rewrite (signed_of_Z_finite s n m e) by (done || lia). right. exists m, e.
  split_and!; [done|done|lia|].
  destruct (decide (e <= k - 53)); [done|]. exfalso. destruct F as [L _].
  assert (2 ^ k * 2 ^ (- e) <= 2 ^ 52).
  { rewrite <- Z.pow_add_r by lia. apply Z.pow_le_mono_r; lia. }
  pose proof (Z.pow_pos_nonneg 2 (- e)). nia.
Qed.

Lemma fmul_mag s1 lo1 hi1 s2 lo2 hi2 x y :
  mag s1 lo1 hi1 x -> mag s2 lo2 hi2 y -> -400 <= lo1 -> hi1 <= 400 -> -400 <= lo2 -> hi2 <= 400 ->
  mag (xorb s1 s2) (lo1 + lo2 + 52) (hi1 + hi2 + 54) (fmul x y).
Proof.
  intros [->|(m1 & e1 & -> & F1 & ?)] [->|(m2 & e2 & -> & F2 & ?)] ? ? ? ?; try by left.
  destruct (fmul_spec s1 m1 e1 s2 m2 e2) as (m & e & -> & F & E & _); [done..|lia|lia|].
  right. exists m, e. split_and!; by try lia.
Qed.

Lemma fdiv_mag s1 lo1 hi1 s2 m2 e2 x :
  mag s1 lo1 hi1 x -> full m2 -> -400 <= lo1 -> hi1 <= 400 -> -400 <= e2 <= 400 ->
  mag (xorb s1 s2) (lo1 - e2 - 53) (hi1 - e2 - 51) (fdiv x (S754_finite s2 m2 e2)).
Proof.
  intros [->|(m1 & e1 & -> & F1 & ?)] F2 ? ? ?; [by left|].
  destruct (fdiv_spec s1 m1 e1 s2 m2 e2) as (m & e & -> & F & E & _); [done..|lia|lia|].
  right. exists m, e. split_and!; by try lia.
Qed.

(** Aligning to a larger exponent moves nothing, to a smaller one multiplies. *)
Lemma shl_align_spec p e e' :
  Zpos (shl_align p e e').1 = Zpos p * 2 ^ Z.max 0 (e - e').
Proof.
  unfold shl_align. destruct (e' - e) as [|k|k] eqn:E; cbn [fst].
  - replace (Z.max 0 (e - e')) with 0 by lia. lia.
  - replace (Z.max 0 (e - e')) with 0 by lia. lia.
  - replace (Z.max 0 (e - e')) with (Zpos k) by lia. clear E.
    induction k as [|k IH] using Pos.peano_ind; [cbn; lia|].
    rewrite Pos.iter_succ, Pos2Z.inj_succ, Z.pow_succ_r by lia. lia.
Qed.

Lemma shl_align_none p e e' : e <= e' -> shl_align p e e' = (p, e).
Proof. intros H. unfold shl_align. by destruct (e' - e) eqn:E; [| |lia]. Qed.

(** A sum of floats of the same sign, whose exponents are not too far apart. *)
Lemma fadd_mag lo hi x y :
  mag false lo hi x -> mag false lo hi y -> -400 <= lo -> hi <= 400 -> hi - lo <= 52 ->
  mag false lo (hi + 2) (fadd x y).
Proof.
  intros Hx Hy Hlo Hhi Hd.
  destruct Hx as [->|(m1 & e1 & -> & F1 & H1)].
  { destruct Hy as [->|(m2 & e2 & -> & F2 & H2)]; [by left|right; exists m2, e2; split_and!; by try lia]. }
  destruct Hy as [->|(m2 & e2 & -> & F2 & H2)]; [right; exists m1, e1; split_and!; by try lia|].
  unfold fadd, SFadd. set (ez := Z.min e1 e2). cbn [cond_Zopp].
  set (a := (shl_align m1 e1 ez).1). set (b := (shl_align m2 e2 ez).1).
  pose proof (shl_align_spec m1 e1 ez) as Ha. pose proof (shl_align_spec m2 e2 ez) as Hb.
  fold a in Ha. fold b in Hb. change (Zpos a + Zpos b) with (Zpos (a + b)).
  cbn [binary_normalize]. unfold binary_round.
  set (g := Z.max e1 e2 - ez). assert (0 <= g <= 52) as Hg by lia.
  assert (2 ^ (52 + g) <= Zpos (a + b) < 2 ^ (54 + g)) as [Blo Bhi].
  { destruct F1 as [L1 U1], F2 as [L2 U2]. rewrite Pos2Z.inj_add, Ha, Hb.
    replace (54 + g) with (53 + g + 1) by lia. rewrite !Z.pow_add_r by lia.
    assert (1 <= 2 ^ g) by (pose proof (Z.pow_pos_nonneg 2 g); lia).
    assert ((Z.max 0 (e1 - ez) = g /\ Z.max 0 (e2 - ez) = 0) \/
      (Z.max 0 (e1 - ez) = 0 /\ Z.max 0 (e2 - ez) = g)) as [[-> ->]|[-> ->]] by (unfold g; lia);
    rewrite Z.pow_0_r, Z.mul_1_r; change (2 ^ 1) with 2; set (G := 2 ^ g) in *; clearbody G;
    split; nia. }
  set (p := (a + b)%positive) in *.
  assert (53 <= Zpos (digits2_pos p)) as D1.
  { replace 53 with (52 + 1) by lia. apply digits_ge; [|lia].
    pose proof (Z.pow_le_mono_r 2 52 (52 + g)). lia. }
  assert (Zpos (digits2_pos p) <= 54 + g) as D2 by (apply digits_le; lia).
  assert (53 + g <= Zpos (digits2_pos p)) as D3.
  { replace (53 + g) with (52 + g + 1) by lia. apply digits_ge; lia. }
  rewrite shl_align_none by (rewrite fexp_eq; lia).
  destruct (round_normal false p ez loc_Exact (Zpos p) 1) as (m & e & -> & F & E & _);
    [lia|lia|apply rep_exact|lia..|].
  right. exists m, e. split_and!; try done; unfold ez, g in *; lia.
Qed.

(** The square root of [N] located between its integer part and the next: the
    position is below or above the middle. *)
Lemma rep_sqrt_location q r :
  0 <= q -> exists N D, 0 < D /\ 0 <= N /\ N / D = q /\
    rep (shr_record_of_loc q
      (if r =? 0 then loc_Exact else loc_Inexact (if r <=? q then Lt else Gt))) N D.
Proof.
  intros Hq. destruct (r =? 0).
  - exists q, 1. unfold rep. cbn [shr_record_of_loc shr_m shr_r shr_s].
    rewrite Z.div_1_r, Z.mod_1_r. by split_and!; try lia.
  - assert (forall k, 0 <= k < 4 -> (4 * q + k) / 4 = q /\ (4 * q + k) mod 4 = k) as Hk.
    { intros k ?. split; [symmetry; apply (Z.div_unique_pos _ _ _ k)|symmetry; apply (Z.mod_unique_pos _ _ q)]; lia. }
    destruct (r <=? q);
      [exists (4 * q + 1), 4; destruct (Hk 1) as [E1 E2]|exists (4 * q + 3), 4; destruct (Hk 3) as [E1 E2]];
      try lia; unfold rep; cbn [shr_record_of_loc shr_m shr_r shr_s]; rewrite E1, E2;
      by split_and!; try lia.
Qed.

(** Square roots halve the exponent. *)
Lemma fsqrt_mag lo hi x :
  mag false lo hi x -> -400 <= lo -> hi <= 400 ->
  mag false ((lo + 54) / 2 - 53) ((hi + 54) / 2 - 52) (fsqrt x).
Proof.
  intros [->|(m & e & -> & F & He)] Hlo Hhi; [by left|].
  pose proof (full_digits m F) as Dm. unfold fsqrt, SFsqrt, SFsqrt_core_binary.
  cbn [Zdigits2]. rewrite Dm, fexp_eq, !Z.div2_div.
  replace (53 + e + 1) with (e + 54) by lia.
  pose proof (Z.div_mod (e + 54) 2 ltac:(lia)) as Hm1. pose proof (Z.mod_pos_bound (e + 54) 2 ltac:(lia)) as Hm2.
  pose proof (Z.div_mod e 2 ltac:(lia)) as Hm3. pose proof (Z.mod_pos_bound e 2 ltac:(lia)) as Hm4.
  set (h := (e + 54) / 2) in *. set (h' := e / 2) in *.
  replace (Z.min (Z.max (h - 53) (-1074)) h') with (h - 53) by lia.
  set (t := e - 2 * (h - 53)). assert (52 <= t <= 53) as Ht by (unfold t; lia).
  assert (match t with Z0 => Zpos m | Zpos _ => Z.shiftl (Zpos m) t | Zneg _ => 0 end = Zpos m * 2 ^ t) as ->.
  { rewrite <- Z.shiftl_mul_pow2 by lia. by destruct t; [lia| |lia]. }
  assert (2 ^ 104 <= Zpos m * 2 ^ t < 2 ^ 106) as [Nlo Nhi].
  { destruct F as [L U]. change (2 ^ 104) with (2 ^ 52 * 2 ^ 52). change (2 ^ 106) with (2 ^ 53 * 2 ^ 53).
    pose proof (Z.pow_le_mono_r 2 52 t). pose proof (Z.pow_le_mono_r 2 t 53). nia. }
  pose proof (Z.sqrtrem_spec (Zpos m * 2 ^ t) ltac:(lia)) as Hs.
  destruct (Z.sqrtrem (Zpos m * 2 ^ t)) as [q r]. destruct Hs as [Hs Hr].
  assert (2 ^ 52 <= q < 2 ^ 53) as [Qlo Qhi].
  { change (2 ^ 104) with (2 ^ 52 * 2 ^ 52) in Nlo. change (2 ^ 106) with (2 ^ 53 * 2 ^ 53) in Nhi. nia. }
  destruct (rep_sqrt_location q r) as (N & D & HD & HN & Hq & Hrep); [lia|].
  destruct q as [|q|q]; [lia| |lia].
  destruct (round_normal false q (h - 53) _ N D HD HN Hrep) as (m2 & e2 & -> & F2 & E2 & _);
    rewrite ?(digits2_pos_unique q 53) by lia; try lia.
  rewrite (digits2_pos_unique q 53) in E2 by lia. right. exists m2, e2.
  pose proof (Z.div_le_mono (lo + 54) (e + 54) 2). pose proof (Z.div_le_mono (e + 54) (hi + 54) 2).
  split_and!; try done; unfold h in *; lia.
Qed.

(** Rounding to an integer. *)
Lemma Round_mag s lo hi x : mag s lo hi x -> mag s (Z.min lo (-52)) (Z.max hi 0) (Round x).
Proof.
  intros [->|(m & e & -> & F & He)]; [by left|]. cbn [Round].
  destruct (0 <=? e) eqn:E; [right; exists m, e; split_and!; by try lia|]. apply Z.leb_gt in E.
  apply (mag_weaken _ (-52) (53 - 53)); [lia|lia|]. apply signed_of_Z_mag; [|lia].
  destruct F as [L U]. pose proof (Z.pow_pos_nonneg 2 (- e - 1)).
  assert (2 ^ (- e) = 2 * 2 ^ (- e - 1)) as Hh by (rewrite <- Z.pow_succ_r by lia; f_equal; lia).
  split; [apply Z.div_pos; lia|]. apply Z.div_lt_upper_bound; [lia|]. nia.
Qed.

(** Decimal rounding of a number of any usual size is finite. *)
Lemma roundTo_mag s lo hi p x :
  mag s lo hi x -> small_divisor p -> -300 <= lo -> hi <= 300 ->
  is_finite (roundTo p x) = true.
Proof.
  intros Hx [Hp Hp2] Hlo Hhi. unfold roundTo.
  destruct (of_Z_spec p) as (mp & ep & Ep & Fp & Bp & _); [lia|].
  assert (mag false ep ep (of_Z p)) as Mp by (right; exists mp, ep; rewrite Ep; split_and!; by try lia).
  pose proof (fmul_mag _ _ _ _ _ _ _ _ Hx Mp) as H1. rewrite xorb_false_r in H1.
  specialize (H1 ltac:(lia) ltac:(lia) ltac:(lia) ltac:(lia)).
  apply Round_mag in H1. rewrite Ep in *.
  eapply mag_finite. apply (fdiv_mag _ _ _ false mp ep _ H1 Fp); lia.
Qed.

(** A short mantissa, as a [float32] has, is normalised exactly. *)
Lemma binary_round_mag s p e :
  Zpos p < 2 ^ 53 -> -400 <= e <= 400 -> mag s (e - 52) (e + 1) (binary_round 53 1024 s p e).
Proof.
  intros Hp He. unfold binary_round. pose proof (digits2_pos_bounds p) as [Lp Up].
  set (d := Zpos (digits2_pos p)) in *. assert (1 <= d) by (unfold d; lia).
  assert (d <= 53) as Hd by (apply digits_le; lia).
  rewrite fexp_eq. replace (Z.max (d + e - 53) (-1074)) with (d + e - 53) by lia.
  pose proof (shl_align_spec p e (d + e - 53)) as Hq.
  replace (Z.max 0 (e - (d + e - 53))) with (53 - d) in Hq by lia.
  assert ((shl_align p e (d + e - 53)).2 = d + e - 53) as Hz.
  { unfold shl_align. destruct (d + e - 53 - e) eqn:E; cbn; lia. }
  destruct (shl_align p e (d + e - 53)) as [q z]. cbn [fst snd] in Hq, Hz. subst z.
  assert (full q) as Hf.
  { unfold full. rewrite Hq. pose proof (Z.pow_pos_nonneg 2 (53 - d)). split.
    - replace (2 ^ 52) with (2 ^ (d - 1) * 2 ^ (53 - d)); [nia|].
      rewrite <- Z.pow_add_r by lia. f_equal. lia.
    - replace (2 ^ 53) with (2 ^ d * 2 ^ (53 - d)); [nia|].
      rewrite <- Z.pow_add_r by lia. f_equal. lia. }
  destruct (round_normal s q (d + e - 53) loc_Exact (Zpos q) 1) as (m & e' & -> & Fm & E & _);
    rewrite ?(full_digits q Hf); [lia|lia|apply rep_exact|lia..|].
  rewrite (full_digits q Hf) in E. right. exists m, e'. split_and!; try done; lia.
Qed.
