(* ===== verification/JsonNumber.v ===== *)
(** The text of numbers and back: the decimal that is written for a float parses
    to that float, and the literals of integers and floats are read as written. *)
From Stdlib Require Import Strings.Ascii Strings.String SpecFloat DecimalString DecimalFacts DecimalPos DecimalZ.
From S2P Require Import Prelude GoString Float64 FloatRange Json.

Local Open Scope Z_scope.

(** * Exact results of rounding *)
Lemma valid_canonical s m e : valid (S754_finite s m e) -> fexp 53 1024 (Zpos (digits2_pos m) + e) = e /\ e <= 971.
Proof.
  unfold valid. cbn. unfold bounded, canonical_mantissa. intros [H1 H2]%andb_prop.
  split; [by apply Z.eqb_eq|]. lia.
Qed.

Lemma digits_shifted m q k : 0 <= k -> Zpos q = Zpos m * 2 ^ k -> Zpos (digits2_pos q) = Zpos (digits2_pos m) + k.
Proof.
  intros Hk Hq. pose proof (digits2_pos_bounds m) as [L H]. apply digits2_pos_unique; [lia|].
  rewrite Hq. replace (Zpos (digits2_pos m) + k - 1) with (Zpos (digits2_pos m) - 1 + k) by lia.
  rewrite !Z.pow_add_r by lia. pose proof (Z.pow_pos_nonneg 2 k). nia.
Qed.

(** Rounding the exact value of a float gives that float. *)
Lemma round_exact s mx ex l N D m e :
  0 < D -> rep (shr_record_of_loc (Zpos mx) l) N D -> valid (S754_finite s m e) -> e <= 960 ->
  ex <= e -> N = Zpos m * 2 ^ (e - ex) * D ->
  binary_round_aux 53 1024 s (Zpos mx) ex l = S754_finite s m e.
Proof.
  intros HD Hrep Hv He Hex HN. destruct (valid_canonical _ _ _ Hv) as [Hc _].
  assert (Zpos mx = Zpos m * 2 ^ (e - ex)) as Hmx.
  { assert (Zpos mx = N / D) as -> by (destruct Hrep as [H _]; destruct l as [|[]]; exact H).
    rewrite HN. apply Z.div_mul. lia. }
  pose proof (digits_shifted m mx (e - ex) ltac:(lia) Hmx) as Hd.
  assert (fexp 53 1024 (Zpos (digits2_pos mx) + ex) = e) as He1.
  { rewrite Hd. replace (Zpos (digits2_pos m) + (e - ex) + ex) with (Zpos (digits2_pos m) + e) by lia. done. }
  assert (0 <= N) as HN0 by (rewrite HN; pose proof (Z.pow_pos_nonneg 2 (e - ex)); nia).
  destruct (binary_round_aux_spec s mx ex l N D HD HN0 Hrep) as (m' & e' & -> & Hcase & Hm' & _ & _ & Hx);
    rewrite ?He1; [lia..|]. rewrite He1 in Hcase, Hx.
  specialize (Hx ltac:(rewrite HN, <- Z.mul_assoc; apply Z.mod_mul; pose proof (Z.pow_pos_nonneg 2 (e - ex)); nia)).
  destruct Hcase as [->|[-> ->]].
  - assert (m' = Zpos m) as -> by (rewrite HN in Hx; pose proof (Z.pow_pos_nonneg 2 (e - ex)); nia).
    done.
  - exfalso. replace (e + 1 - ex) with (1 + (e - ex)) in Hx by lia. rewrite Z.pow_add_r in Hx by lia.
    rewrite HN in Hx. pose proof (Z.pow_pos_nonneg 2 (e - ex)).
    assert (Zpos m = 2 ^ 53) as Hm by nia.
    destruct (valid_finite _ _ _ Hv) as [[_ Hf]|[_ Hf]]; lia.
Qed.

(** [n] is the value of the float [m * 2 ^ e], times [q]. *)
Definition value_is (n q : Z) (m : positive) (e : Z) : Prop :=
  n * 2 ^ Z.max 0 (- e) = q * Zpos m * 2 ^ Z.max 0 e.

Lemma value_scaled n q m e k : k <= e -> k <= 0 -> value_is n q m e -> n * 2 ^ (- k) = Zpos m * 2 ^ (e - k) * q.
Proof.
  unfold value_is. intros He Hk H. destruct (decide (0 <= e)) as [E|E].
  - replace (Z.max 0 (- e)) with 0 in H by lia. replace (Z.max 0 e) with e in H by lia.
    replace (e - k) with (e + - k) by lia. rewrite Z.pow_add_r by lia. nia.
  - replace (Z.max 0 (- e)) with (- e) in H by lia. replace (Z.max 0 e) with 0 in H by lia.
    replace (- k) with (- e + (e - k)) by lia. rewrite Z.pow_add_r by lia. nia.
Qed.

Lemma of_Z_value n m e : valid (S754_finite false m e) -> e <= 960 -> value_is n 1 m e -> of_Z n = S754_finite false m e.
Proof.
  intros Hv He Hn. destruct (valid_canonical _ _ _ Hv) as [Hc _].
  assert (0 < n) as Hpos.
  { unfold value_is in Hn. pose proof (Z.pow_pos_nonneg 2 (Z.max 0 (- e))).
    pose proof (Z.pow_pos_nonneg 2 (Z.max 0 e)). nia. }
  destruct n as [|p|p]; [lia| |lia]. unfold of_Z, binary_normalize, binary_round.
  assert (Zpos (digits2_pos p) = Zpos (digits2_pos m) + e) as Hd.
  { destruct (decide (0 <= e)) as [E|E]; unfold value_is in Hn.
    - apply digits_shifted; [done|]. replace (Z.max 0 (- e)) with 0 in Hn by lia.
      replace (Z.max 0 e) with e in Hn by lia. lia.
    - replace (Z.max 0 (- e)) with (- e) in Hn by lia. replace (Z.max 0 e) with 0 in Hn by lia.
      pose proof (digits_shifted p m (- e) ltac:(lia) ltac:(lia)). lia. }
  rewrite Z.add_0_r, Hd, Hc. pose proof (shl_align_spec p 0 e) as Hq.
  assert ((shl_align p 0 e).2 = Z.min 0 e) as Hz by (unfold shl_align; destruct (e - 0) eqn:E; cbn; lia).
  destruct (shl_align p 0 e) as [q z]. cbn [fst snd] in Hq, Hz. subst z.
  apply (round_exact _ _ _ _ (Zpos q) 1); [lia|apply rep_exact|done|done|lia|].
  rewrite Hq. replace (Z.max 0 (0 - e)) with (- Z.min 0 e) by lia. apply value_scaled; [lia|lia|done].
Qed.

Lemma fdiv_value p q m e : valid (S754_finite false m e) -> e <= 960 -> value_is (Zpos p) (Zpos q) m e ->
  fdiv (S754_finite false p 0) (S754_finite false q 0) = S754_finite false m e.
Proof.
  intros Hv He Hn. destruct (valid_canonical _ _ _ Hv) as [Hc _]. unfold fdiv, SFdiv, SFdiv_core_binary.
  cbn [Zdigits2]. rewrite !Z.add_0_r, Z.sub_diag.
  pose proof (digits2_pos_bounds p) as [Lp Up]. pose proof (digits2_pos_bounds q) as [Lq Uq].
  pose proof (digits2_pos_bounds m) as [Lm Um].
  set (d1 := Zpos (digits2_pos p)) in *. set (d2 := Zpos (digits2_pos q)) in *. set (dm := Zpos (digits2_pos m)) in *.
  assert (1 <= d1 /\ 1 <= d2 /\ 1 <= dm) as (? & ? & ?) by (unfold d1, d2, dm; lia).
  assert (d1 - d2 <= dm + e) as Hd.
  { destruct (decide (d1 - d2 <= dm + e)) as [|Hne]; [done|exfalso].
    pose proof (Z.pow_add_r 2 d2 dm ltac:(lia) ltac:(lia)) as E2.
    destruct (decide (0 <= e)) as [E|E]; unfold value_is in Hn.
    - replace (Z.max 0 (- e)) with 0 in Hn by lia. replace (Z.max 0 e) with e in Hn by lia.
      pose proof (Z.pow_le_mono_r 2 (d2 + dm + e) (d1 - 1) ltac:(lia) ltac:(lia)).
      pose proof (Z.pow_add_r 2 (d2 + dm) e ltac:(lia) ltac:(lia)). pose proof (Z.pow_pos_nonneg 2 e).
      assert (Zpos q * Zpos m < 2 ^ d2 * 2 ^ dm) by (apply Z.mul_lt_mono_nonneg; lia). nia.
    - replace (Z.max 0 (- e)) with (- e) in Hn by lia. replace (Z.max 0 e) with 0 in Hn by lia.
      pose proof (Z.pow_le_mono_r 2 (d2 + dm) (d1 - 1 + - e) ltac:(lia) ltac:(lia)).
      pose proof (Z.pow_add_r 2 (d1 - 1) (- e) ltac:(lia) ltac:(lia)). pose proof (Z.pow_pos_nonneg 2 (- e)).
      assert (Zpos q * Zpos m < 2 ^ d2 * 2 ^ dm) by (apply Z.mul_lt_mono_nonneg; lia). nia. }
  assert (Z.min (fexp 53 1024 (d1 - d2)) 0 <= e) as Hk by (rewrite <- Hc, !fexp_eq; lia).
  set (k := Z.min (fexp 53 1024 (d1 - d2)) 0) in *. assert (k <= 0) by lia.
  pose proof (value_scaled _ _ _ _ k Hk ltac:(lia) Hn) as Hval.
  assert (match 0 - k with 0 => Zpos p | Zpos _ => Z.shiftl (Zpos p) (0 - k) | Zneg _ => 0 end
    = Zpos m * 2 ^ (e - k) * Zpos q) as ->.
  { rewrite <- Hval. destruct (0 - k) as [|j|j] eqn:Ej; [|rewrite Z.shiftl_mul_pow2 by lia|lia].
    - replace k with 0 by lia. cbn. lia.
    - replace (- k) with (Zpos j) by lia. done. }
  assert (Z.div_eucl (Zpos m * 2 ^ (e - k) * Zpos q) (Zpos q) = (Zpos m * 2 ^ (e - k), 0)) as ->.
  { rewrite (surjective_pairing (Z.div_eucl _ _)). f_equal; [by apply Z.div_mul|by apply Z.mod_mul]. }
  pose proof (Z.pow_pos_nonneg 2 (e - k)). destruct (Zpos m * 2 ^ (e - k)) as [|w|w] eqn:Ew; [lia| |lia].
  apply (round_exact _ _ _ _ (Zpos w * Zpos q) (Zpos q)); [lia| |done|done|done|by rewrite Ew].
  pose proof (rep_new_location (Zpos w * Zpos q) (Zpos q) ltac:(lia)) as Hr.
  by rewrite Z.div_mul, Z.mod_mul in Hr.
Qed.

(** * The shortest decimal of a float *)

(** [c * 10 ^ e10] is the value of [m * 2 ^ e]. *)
Definition decimal_is (c e10 : Z) (m : positive) (e : Z) : Prop :=
  value_is (c * 10 ^ Z.max 0 e10) (10 ^ Z.max 0 (- e10)) m e.

Lemma strip_zeros_value fuel c e10 m e :
  decimal_is c e10 m e -> decimal_is (strip_zeros fuel c e10).1 (strip_zeros fuel c e10).2 m e.
Proof.
  revert c e10. induction fuel as [|fuel IH]; intros c e10 H; [done|]. cbn [strip_zeros].
  destruct (c mod 10 =? 0) eqn:E; [|done]. apply IH. apply Z.eqb_eq in E.
  assert (c = 10 * (c / 10)) as Hc by (pose proof (Z_div_mod_eq_full c 10); lia).
  set (c' := c / 10) in *. clearbody c'. subst c. clear E. unfold decimal_is, value_is in *.
  pose proof (Z.pow_pos_nonneg 2 (Z.max 0 (- e))). pose proof (Z.pow_pos_nonneg 2 (Z.max 0 e)).
  destruct (decide (0 <= e10)) as [E|E].
  - replace (Z.max 0 (- e10)) with 0 in H by lia. replace (Z.max 0 e10) with e10 in H by lia.
    replace (Z.max 0 (- (e10 + 1))) with 0 by lia. replace (Z.max 0 (e10 + 1)) with (Z.succ e10) by lia.
    rewrite Z.pow_succ_r by lia. nia.
  - replace (Z.max 0 (- e10)) with (Z.succ (- (e10 + 1))) in H by lia. replace (Z.max 0 e10) with 0 in H by lia.
    replace (Z.max 0 (- (e10 + 1))) with (- (e10 + 1)) by lia. replace (Z.max 0 (e10 + 1)) with 0 by lia.
    rewrite Z.pow_succ_r in H by lia. nia.
Qed.

Lemma decimal_is_float c e10 m e :
  valid (S754_finite false m e) -> e <= 960 -> decimal_is c e10 m e -> of_decimal c e10 = S754_finite false m e.
Proof.
  intros Hv He H. unfold decimal_is in H. unfold of_decimal. destruct (0 <=? e10) eqn:E.
  - replace (Z.max 0 e10) with e10 in H by lia. replace (Z.max 0 (- e10)) with 0 in H by lia.
    by apply of_Z_value.
  - replace (Z.max 0 e10) with 0 in H by lia. replace (Z.max 0 (- e10)) with (- e10) in H by lia.
    rewrite Z.mul_1_r in H. pose proof (Z.pow_pos_nonneg 10 (- e10) ltac:(lia) ltac:(lia)) as Hp.
    destruct c as [|p|p]; unfold value_is in H.
    1,3: exfalso; pose proof (Z.pow_pos_nonneg 2 (Z.max 0 (- e))); pose proof (Z.pow_pos_nonneg 2 (Z.max 0 e)); nia.
    apply fdiv_value; [done|done|]. unfold value_is. by rewrite Z2Pos.id by lia.
Qed.

(** The search succeeds at the latest where the decimal expansion is exact. *)
Lemma candidate_exact m e k n q :
  let '(N, D) := float_ratio m e in
  let '(A, B) := scaled N D (n - k) in
  valid (S754_finite false m e) -> e <= 960 -> 0 < B -> A = q * B -> decimal_is q (k - n) m e ->
  candidate (S754_finite false m e) N D k n = Some q.
Proof.
  destruct (float_ratio m e) as [N D]. unfold candidate. destruct (scaled N D (n - k)) as [A B].
  intros Hv He HB -> Hq. rewrite Z.div_mul, Z.mod_mul by lia. rewrite Z.mul_0_r.
  replace (B <? 0) with false by lia. replace (B =? 0) with false by lia. cbn [orb andb].
  pose proof (strip_zeros_value 800 q (k - n) m e Hq) as Hs.
  destruct (strip_zeros 800 q (k - n)) as [c e10]. cbn in Hs.
  by rewrite bool_decide_true by (by apply decimal_is_float).
Qed.

Lemma candidate_good x N D k n c :
  candidate x N D k n = Some c ->
  of_decimal (strip_zeros 800 c (k - n)).1 (strip_zeros 800 c (k - n)).2 = x.
Proof.
  unfold candidate. destruct (scaled _ _ _) as [A B]. cbv zeta. set (up := (B <? _) || _).
  set (first := if up then A / B + 1 else A / B). set (second := if up then A / B else A / B + 1).
  destruct (strip_zeros 800 first (k - n)) as [c1 e1] eqn:E1.
  destruct (strip_zeros 800 second (k - n)) as [c2 e2] eqn:E2.
  case_bool_decide as H1; [intros [= <-]; by rewrite E1|].
  case_bool_decide as H2; [|by rewrite andb_false_r]. rewrite andb_true_r.
  destruct (negb _); [|done]. intros [= <-]. by rewrite E2.
Qed.

Lemma shortest_from_found fuel x N D k n n0 :
  n <= n0 < n + Z.of_nat fuel -> candidate x N D k n0 <> None ->
  exists n' c, shortest_from fuel x N D k n = (c, k - n') /\ candidate x N D k n' = Some c.
Proof.
  revert n. induction fuel as [|fuel IH]; intros n Hn Hc; [lia|]. cbn [shortest_from].
  destruct (candidate x N D k n) as [c|] eqn:E; [by exists n, c|].
  apply IH; [|done]. assert (n <> n0) by congruence. lia.
Qed.

Lemma find_point_bound fuel N D k : find_point fuel N D k <= k + Z.of_nat fuel.
Proof.
  revert k. induction fuel as [|fuel IH]; intros k; cbn [find_point]; [lia|].
  destruct (below_pow10 N D k); [lia|]. specialize (IH (k + 1)). lia.
Qed.

(** Shifting by enough decimal digits makes a float an integer. *)
Lemma exact_shift m e s :
  Z.max 0 (- e) <= s ->
  let '(N, D) := float_ratio m e in
  exists q, scaled N D s = (N * 10 ^ s, D) /\ 0 < D /\ N * 10 ^ s = q * D /\ decimal_is q (- s) m e.
Proof.
  intros Hs. unfold float_ratio, scaled, decimal_is, value_is. destruct (0 <=? e) eqn:E.
  - exists (Zpos m * 2 ^ e * 10 ^ s). replace (0 <=? s) with true by lia. split_and!; [done|lia|lia|].
    replace (Z.max 0 (- s)) with 0 by lia. replace (Z.max 0 (- - s)) with s by lia.
    replace (Z.max 0 (- e)) with 0 by lia. replace (Z.max 0 e) with e by lia. lia.
  - exists (Zpos m * 5 ^ s * 2 ^ (s + e)). replace (0 <=? s) with true by lia.
    assert (10 ^ s = 5 ^ s * 2 ^ (s + e) * 2 ^ (- e)) as H10.
    { replace 10 with (5 * 2) by lia. rewrite Z.pow_mul_l, <- Z.mul_assoc, <- Z.pow_add_r by lia. do 2 f_equal. lia. }
    split_and!; [done|apply Z.pow_pos_nonneg; lia|rewrite H10; lia|].
    replace (Z.max 0 (- s)) with 0 by lia. replace (Z.max 0 (- - s)) with s by lia.
    replace (Z.max 0 (- e)) with (- e) by lia. replace (Z.max 0 e) with 0 by lia. rewrite H10. lia.
Qed.

Lemma dec_point_bound m e :
  valid (S754_finite false m e) -> e <= 960 ->
  let '(N, D) := float_ratio m e in dec_point N D + Z.max 0 (- e) <= 800.
Proof.
  intros Hv He. assert (Zpos m < 2 ^ 53 /\ -1074 <= e) as [Hm Hl].
  { destruct (valid_canonical _ _ _ Hv) as [Hc _]. rewrite fexp_eq in Hc.
    destruct (valid_finite _ _ _ Hv) as [[? ?]|[? ?]]; lia. }
  assert (0 <= Z.log2 (Zpos m) < 53) as Hlog
    by (split; [apply Z.log2_nonneg|apply Z.log2_lt_pow2; lia]).
  unfold float_ratio. destruct (0 <=? e) eqn:E; unfold dec_point.
  all: match goal with |- find_point ?f ?a ?b ?c + _ <= _ => pose proof (find_point_bound f a b c) as H end.
  - assert (Z.log2 (Zpos m * 2 ^ e) = e + Z.log2 (Zpos m)) as HL by (apply Z.log2_mul_pow2; lia).
    rewrite HL in *. change (Z.log2 1) with 0 in *. Z.to_euclidean_division_equations; lia.
  - rewrite Z.log2_pow2 in * by lia. Z.to_euclidean_division_equations; lia.
Qed.

(** The shortest decimal is read back as the float it was computed from. *)
Lemma shortest_correct m e :
  valid (S754_finite false m e) -> e <= 960 ->
  of_decimal (shortest m e).1 (shortest m e).2 = S754_finite false m e.
Proof.
  intros Hv He. unfold shortest. pose proof (dec_point_bound m e Hv He) as Hk.
  pose proof (candidate_exact m e) as Hc. pose proof (exact_shift m e) as Hs.
  destruct (float_ratio m e) as [N D]. set (k := dec_point N D) in *. set (n0 := Z.max 1 (k + Z.max 0 (- e))).
  destruct (Hs (n0 - k) ltac:(lia)) as (q & Hsc & HD & Hq & Hd).
  specialize (Hc k n0 q). rewrite Hsc in Hc. replace (k - n0) with (- (n0 - k)) in Hc by lia.
  specialize (Hc Hv He HD Hq Hd).
  destruct (shortest_from_found 800 (S754_finite false m e) N D k 1 n0) as (n' & c & -> & Hn'); [lia|by rewrite Hc|].
  apply candidate_good in Hn'. by destruct (strip_zeros 800 c (k - n')).
Qed.

Lemma of_decimal_pos c e10 m e : of_decimal c e10 = S754_finite false m e -> 0 < c.
Proof.
  unfold of_decimal. destruct c as [|p|p]; [destruct (0 <=? e10)|lia|destruct (0 <=? e10) eqn:E]; [done..| |done].
  pose proof (Z.pow_pos_nonneg 10 e10 ltac:(lia) ltac:(lia)). destruct (Zneg p * 10 ^ e10) as [|w|w] eqn:Ew; [lia..|].
  unfold of_Z, binary_normalize, binary_round. destruct (shl_align _ _ _) as [a b].
  unfold binary_round_aux. destruct (shr_fexp _ _ _ _ _) as [[? ?]]. cbn.
  repeat match goal with |- context [match ?t with _ => _ end] => destruct t end; try done.
Qed.
