(* ===== verification/JsonText.v ===== *)
(** The texts that encoding/json writes for scalars, and what the parser reads from
    them: number literals, and strings of any UTF-8 text. *)
From Stdlib Require Import Strings.Ascii Strings.String SpecFloat DecimalString DecimalFacts DecimalPos DecimalZ.
From S2P Require Import Prelude GoString Utf8 Float64 Json JsonNumber.

Local Open Scope Z_scope.

(** * Decimal digits *)
Abbreviation digits := (str_forall is_digit).

Lemma uint_digits d : digits (NilEmpty.string_of_uint d) = true.
Proof. by induction d. Qed.

Lemma uint_value_acc d acc :
  digits_value (NilEmpty.string_of_uint d) (Zpos acc) = Zpos (Pos.of_uint_acc d acc).
Proof.
  revert acc. induction d as [|d IH|d IH|d IH|d IH|d IH|d IH|d IH|d IH|d IH|d IH]; intros acc; [done|..];
    cbn [NilEmpty.string_of_uint digits_value Pos.of_uint_acc]; rewrite <- IH; f_equal;
    match goal with |- context [az ?a] => let v := eval vm_compute in (az a) in change (az a) with v end; lia.
Qed.

Lemma uint_value d : digits_value (NilEmpty.string_of_uint d) 0 = Z.of_N (Pos.of_uint d).
Proof.
  induction d as [|d IH|d IH|d IH|d IH|d IH|d IH|d IH|d IH|d IH|d IH]; [done|by apply IH|..];
    cbn [NilEmpty.string_of_uint digits_value Pos.of_uint];
    match goal with |- context [az ?a] => let v := eval vm_compute in (az a) in change (az a) with v end;
    cbn -[digits_value]; apply uint_value_acc.
Qed.

(** The digits of an integer part: no leading zero. *)
Definition int_part (s : string) : bool :=
  match s with
  | EmptyString => false
  | String a s' => is_digit a && digits s' && (negb (az a =? 48) || is_empty s')
  end.

Lemma dec_pos_form p :
  exists d, dec (Zpos p) = NilEmpty.string_of_uint d /\ Decimal.nzhead d = d /\ d <> Decimal.Nil /\
    Pos.of_uint d = Npos p.
Proof.
  exists (Pos.to_uint p). pose proof (Unsigned.to_uint_nonnil p) as Hn.
  assert (dec (Zpos p) = NilEmpty.string_of_uint (Pos.to_uint p)) as Hd
    by (unfold dec; cbn; by destruct (Pos.to_uint p)).
  assert (Decimal.unorm (Pos.to_uint p) = Pos.to_uint p) as Hu.
  { pose proof (DecimalN.Unsigned.to_of (Pos.to_uint p)) as H. unfold N.of_uint in H.
    by rewrite Unsigned.of_to in H. }
  split; [done|]. split; [|split; [done|apply Unsigned.of_to]].
  pose proof (Unsigned.to_uint_nonzero p) as Hz. unfold Decimal.unorm in Hu.
  destruct (Decimal.nzhead (Pos.to_uint p)) eqn:E; congruence.
Qed.

Lemma dec_pos p : int_part (dec (Zpos p)) = true /\ digits_value (dec (Zpos p)) 0 = Zpos p.
Proof.
  destruct (dec_pos_form p) as (d & -> & Hz & Hn & Hv). split; [|by rewrite uint_value, Hv].
  pose proof (uint_digits d) as Hd.
  destruct d; try done; try (cbn in Hd |- *; rewrite Hd; by rewrite ?andb_true_r, ?orb_true_r).
  exfalso. cbn in Hz. by eapply nzhead_nonzero.
Qed.

Lemma dec_nonneg z : 0 <= z -> int_part (dec z) = true /\ digits_value (dec z) 0 = z.
Proof. destruct z as [|p|p]; [done|intros _; apply dec_pos|lia]. Qed.

Lemma dec_neg p : dec (Zneg p) = String "-" (dec (Zpos p)).
Proof. done. Qed.

Lemma int_part_digits s : int_part s = true -> digits s = true /\ s <> ""%string.
Proof. destruct s as [|a s]; [done|]. cbn. by intros [[-> ->]%andb_prop _]%andb_prop. Qed.

Lemma digits_value_app s t acc :
  digits_value (s +:+ t) acc = digits_value t (digits_value s acc).
Proof. revert acc. induction s as [|a s IH]; intros acc; [done|]. cbn. apply IH. Qed.

Lemma digits_value_zeros n acc : digits_value (zeros n) acc = acc * 10 ^ Z.of_nat n.
Proof.
  revert acc. induction n as [|n IH]; intros acc; [cbn; lia|].
  cbn [zeros digits_value]. rewrite IH. change (az "0") with 48. rewrite Nat2Z.inj_succ, Z.pow_succ_r by lia. lia.
Qed.

Lemma digits_zeros n : digits (zeros n) = true.
Proof. by induction n. Qed.
Lemma length_zeros n : String.length (zeros n) = n.
Proof. induction n as [|n IH]; [done|]. cbn. by rewrite IH. Qed.

Lemma str_take_drop n s : str_take n s +:+ str_drop n s = s.
Proof. revert s. induction n as [|n IH]; intros [|a s]; [done..|]. cbn. by rewrite IH. Qed.
Lemma length_str_drop n s : String.length (str_drop n s) = (String.length s - n)%nat.
Proof. revert s. induction n as [|n IH]; intros [|a s]; cbn; [done..|apply IH]. Qed.
Lemma length_str_take n s : (n <= String.length s)%nat -> String.length (str_take n s) = n.
Proof. revert s. induction n as [|n IH]; intros [|a s]; cbn; [done|done|lia|]. intros ?. rewrite IH; lia. Qed.

(** * Number literals *)

(** What may follow a number: nothing that would extend it. *)
Definition number_stop (s : string) : bool :=
  match s with
  | EmptyString => true
  | String a _ => negb (is_digit a || (az a =? 46) || (az a =? 101) || (az a =? 69))
  end.
Definition digit_stop (s : string) : bool :=
  match s with EmptyString => true | String a _ => negb (is_digit a) end.

Lemma number_digit_stop s : number_stop s = true -> digit_stop s = true.
Proof. destruct s as [|a s]; [done|]. cbn. by destruct (is_digit a). Qed.

Lemma take_digits_app d rest : digits d = true -> digit_stop rest = true -> take_digits (d +:+ rest) = (d, rest).
Proof.
  intros Hd Hr. induction d as [|a d IH].
  - destruct rest as [|a rest]; [done|]. cbn in *. by destruct (is_digit a).
  - cbn in Hd. apply andb_prop in Hd as [Ha Hd]. cbn. by rewrite Ha, (IH Hd).
Qed.

(** The text of an exponent and its value. *)
Inductive exp_text : option Z -> string -> Prop :=
| no_exponent : exp_text None ""
| exponent (neg : bool) d : int_part d = true ->
    exp_text (Some (if neg then - digits_value d 0 else digits_value d 0))
      ("e" +:+ (if neg then "-" else "+") +:+ d).

Ltac all_chars a :=
  let H := fresh in
  destruct a as [[] [] [] [] [] [] [] []]; intros H; vm_compute in H; try discriminate H; clear H.

Lemma parse_exp_text ev t rest : exp_text ev t -> number_stop rest = true -> parse_exp (t +:+ rest) = Some (ev, rest).
Proof.
  intros [|neg d Hd] Hr.
  - destruct rest as [|a rest]; [done|]. cbn [String.append]. unfold parse_exp. cbn in Hr.
    apply negb_true_iff in Hr. rewrite !orb_false_iff in Hr. destruct Hr as [[_ H1] H2]. by rewrite H1, H2.
  - destruct (int_part_digits _ Hd) as [Hdd Hne]. rewrite <- !str_app_assoc.
    assert (take_digits (d +:+ rest) = (d, rest)) as Ht by (apply take_digits_app; [done|by apply number_digit_stop]).
    destruct neg; cbn; rewrite Ht; destruct d; done.
Qed.

Definition sign_text (neg : bool) : string := if neg then "-" else "".
Definition frac_text (f : string) : string := if nonempty f then "." +:+ f else "".

(** The body of a number after its sign. *)
Lemma parse_number_unsigned neg i f ev t rest :
  int_part i = true -> digits f = true -> exp_text ev t -> number_stop rest = true ->
  parse_number (sign_text neg +:+ i +:+ frac_text f +:+ t +:+ rest) = Some (mkNumber neg i f ev, rest).
Proof.
  intros Hi Hf Ht Hr. set (tail := frac_text f +:+ t +:+ rest).
  assert (digit_stop tail = true) as Hstop.
  { unfold tail, frac_text. destruct f as [|a f]; [|done]. cbn [nonempty String.append].
    destruct Ht as [|ng d Hd]; [by apply number_digit_stop|done]. }
  assert ((match tail with
           | String "." s' => let '(d, r) := take_digits s' in if nonempty d then Some (d, r) else None
           | _ => Some (""%string, tail) end) = Some (f, t +:+ rest)) as Hfrac.
  { unfold tail, frac_text. destruct f as [|a f].
    - cbn [nonempty String.append]. destruct Ht as [|ng d Hd]; [|done]. cbn [String.append].
      destruct rest as [|a rest]; [done|]. revert Hr. clear. cbn [number_stop]. by all_chars a.
    - cbn [nonempty]. rewrite <- str_app_assoc. cbn [String.append].
      change (String a (f +:+ t +:+ rest)) with (String a f +:+ t +:+ rest).
      rewrite take_digits_app; [done|done|]. destruct Ht; [by apply number_digit_stop|done]. }
  assert ((match i +:+ tail with String "0" s' => ("0"%string, s') | _ => take_digits (i +:+ tail) end) = (i, tail)) as Hint.
  { destruct i as [|a i]; [done|]. cbn in Hi. apply andb_prop in Hi as [[Ha Hdi]%andb_prop Hz].
    assert (take_digits (String a i +:+ tail) = (String a i, tail)) as Htd
      by (apply take_digits_app; [cbn; by rewrite Ha, Hdi|done]).
    rewrite Htd. apply orb_prop in Hz as [Hz|Hz].
    - revert Hz. cbn [String.append]. generalize (i +:+ tail) as u. clear. intros u. by all_chars a.
    - unfold is_empty in Hz. apply String.eqb_eq in Hz. subst i. cbn [String.append].
      revert Ha. clear. by all_chars a. }
  assert (nonempty i = true) as Hne by (by destruct i).
  assert (parse_exp (t +:+ rest) = Some (ev, rest)) as He by (by apply parse_exp_text).
  unfold parse_number, sign_text. destruct neg.
  - cbn [String.append]. rewrite Hint, Hne. cbn [negb]. rewrite Hfrac, He. done.
  - cbn [String.append].
    assert ((match i +:+ tail with String "-" s' => (true, s') | _ => (false, i +:+ tail) end) = (false, i +:+ tail)) as ->.
    { destruct i as [|a i]; [done|]. cbn in Hi. apply andb_prop in Hi as [[Ha _]%andb_prop _].
      cbn [String.append]. generalize (i +:+ tail) as u. revert Ha. clear. by all_chars a. }
    rewrite Hint, Hne. cbn [negb]. rewrite Hfrac, He. done.
Qed.

(** ** Integers *)
Definition int_number (z : Z) : number := mkNumber (z <? 0) (dec (Z.abs z)) "" None.

Lemma parse_number_int z rest : number_stop rest = true -> parse_number (dec z +:+ rest) = Some (int_number z, rest).
Proof.
  intros Hr. pose proof (parse_number_unsigned (z <? 0) (dec (Z.abs z)) "" None "" rest) as H.
  destruct (dec_nonneg (Z.abs z)) as [Hi _]; [lia|].
  unfold int_number. rewrite <- H; [|done|done|constructor|done]. f_equal. cbn [frac_text nonempty String.append].
  destruct z as [|p|p]; [done|done|]. rewrite dec_neg. cbn [sign_text Z.ltb Z.compare Z.abs]. done.
Qed.

Lemma int_number_value z : digits_value (num_int (int_number z)) 0 = Z.abs z.
Proof. apply dec_nonneg. lia. Qed.

Lemma number_int64_int z : - 2 ^ 63 <= z < 2 ^ 63 -> number_int64 (int_number z) = Some z.
Proof.
  intros Hz. unfold number_int64. rewrite int_number_value. cbn [int_number num_neg].
  destruct (z <? 0) eqn:E; [replace (- Z.abs z) with z by lia|replace (Z.abs z) with z by lia];
    by rewrite bool_decide_true.
Qed.

Lemma number_uint64_int z : 0 <= z < 2 ^ 64 -> number_uint64 (int_number z) = Some z.
Proof.
  intros Hz. unfold number_uint64. rewrite int_number_value. cbn [int_number num_neg is_integer].
  replace (z <? 0) with false by lia. replace (Z.abs z) with z by lia. by replace (z <? 2 ^ 64) with true by lia.
Qed.

(** ** Floats *)

(** Both ways of writing a decimal denote it. *)
Definition denotes (n : number) (c e10 : Z) : Prop :=
  digits_value (num_int n +:+ num_frac n) 0 = c * 10 ^ Z.max 0 e10 /\
    default 0 (num_exp n) - Z.of_nat (String.length (num_frac n)) = 0 /\ 0 <= e10 \/
  digits_value (num_int n +:+ num_frac n) 0 = c /\
    default 0 (num_exp n) - Z.of_nat (String.length (num_frac n)) = e10.

Lemma denotes_decimal n c e10 :
  denotes n c e10 ->
  of_decimal (digits_value (num_int n +:+ num_frac n) 0)
    (default 0 (num_exp n) - Z.of_nat (String.length (num_frac n))) = of_decimal c e10.
Proof.
  intros [(-> & -> & He)|[-> ->]]; [|done]. unfold of_decimal. replace (0 <=? e10) with true by lia.
  change (0 <=? 0) with true. cbv iota. rewrite Z.pow_0_r, Z.mul_1_r. by replace (Z.max 0 e10) with e10 by lia.
Qed.

(** A number written with a fraction or exponent is [w] without its sign. *)
Definition literal (w : string) (neg : bool) (n : number) : Prop :=
  forall rest, number_stop rest = true -> parse_number (sign_text neg +:+ w +:+ rest) = Some (n, rest).

Lemma literal_intro neg i f ev t :
  int_part i = true -> digits f = true -> exp_text ev t ->
  literal (i +:+ frac_text f +:+ t) neg (mkNumber neg i f ev).
Proof. intros Hi Hf Ht rest Hr. rewrite <- !str_app_assoc. by apply parse_number_unsigned. Qed.

Lemma int_part_app s t : int_part s = true -> digits t = true -> negb (String.eqb s "0") = true -> int_part (s +:+ t) = true.
Proof.
  destruct s as [|a s]; [done|]. cbn [int_part String.append]. intros [[Ha Hs]%andb_prop Hz]%andb_prop Ht Hn.
  rewrite Ha, str_forall_app, Hs, Ht. cbn [andb]. apply orb_true_iff. left.
  destruct (az a =? 48) eqn:E; [|done]. exfalso. cbn in Hz. unfold is_empty in Hz. apply String.eqb_eq in Hz. subst s.
  apply Z.eqb_eq in E. assert (a = "0"%char) as -> by (apply az_inj; rewrite E; done). done.
Qed.

Lemma dec_not_zero p : negb (String.eqb (dec (Zpos p)) "0") = true.
Proof.
  destruct (String.eqb_spec (dec (Zpos p)) "0") as [E|]; [|done].
  exfalso. pose proof (proj2 (dec_pos p)) as H. rewrite E in H. discriminate H.
Qed.

Lemma format_f_literal neg p e10 :
  exists n, literal (format_f (Zpos p) e10) neg n /\ num_neg n = neg /\ denotes n (Zpos p) e10.
Proof.
  destruct (dec_pos p) as [Hi Hv]. destruct (int_part_digits _ Hi) as [Hd Hne].
  unfold format_f. set (ds := dec (Zpos p)) in *. destruct (0 <=? e10) eqn:E1.
  - exists (mkNumber neg (ds +:+ zeros (Z.to_nat e10)) "" None). split; [|split; [done|]].
    + pose proof (literal_intro neg (ds +:+ zeros (Z.to_nat e10)) "" None "") as H. rewrite str_app_nil_r in H.
      apply H; [|done|constructor]. apply int_part_app; [done|apply digits_zeros|apply dec_not_zero].
    + left. cbn [num_int num_frac num_exp default]. rewrite str_app_nil_r, digits_value_app, Hv, digits_value_zeros.
      split; [|cbn; lia]. f_equal. f_equal. lia.
  - destruct (0 <? _) eqn:E2.
    + set (k := Z.to_nat (Z.of_nat (String.length ds) + e10)).
      assert (0 < k < String.length ds)%nat as Hk by lia.
      exists (mkNumber neg (str_take k ds) (str_drop k ds) None).
      pose proof (str_take_drop k ds) as Htd.
      assert (digits (str_take k ds) = true /\ digits (str_drop k ds) = true) as [H1 H2].
      { rewrite <- Htd, str_forall_app in Hd. by apply andb_prop in Hd. }
      pose proof (length_str_drop k ds) as Hld.
      split; [|split; [done|right; cbn [num_int num_frac num_exp default]; rewrite Htd; split; [done|]; lia]].
      assert (frac_text (str_drop k ds) = "." +:+ str_drop k ds) as Hft.
      { unfold frac_text. destruct (str_drop k ds); [|done]. change (String.length "") with 0%nat in Hld. lia. }
      pose proof (literal_intro neg (str_take k ds) (str_drop k ds) None "") as H.
      rewrite Hft, str_app_nil_r in H. apply H; [|done|constructor].
      destruct ds as [|a ds]; [done|]. destruct k as [|k]; [lia|].
      revert Hi H1. cbn [str_take int_part str_forall].
      intros [[-> _]%andb_prop Hz]%andb_prop [_ ->]%andb_prop. cbn [andb].
      apply orb_prop in Hz as [->|Hz]; [done|]. apply orb_true_iff. left.
      unfold is_empty in Hz. apply String.eqb_eq in Hz. subst ds. cbn in Hk. lia.
    + set (j := Z.to_nat _). exists (mkNumber neg "0" (zeros j +:+ ds) None).
      split; [|split; [done|]].
      * pose proof (literal_intro neg "0" (zeros j +:+ ds) None "") as H.
        rewrite str_app_nil_r in H.
        assert (frac_text (zeros j +:+ ds) = "." +:+ zeros j +:+ ds) as Hft.
        { unfold frac_text. destruct (zeros j +:+ ds) eqn:Ez; [|done].
          apply (f_equal String.length) in Ez. rewrite length_str_app in Ez. destruct ds; [done|cbn in Ez; lia]. }
        rewrite Hft in H. apply H; [done|by rewrite str_forall_app, digits_zeros|constructor].
      * right. cbn [num_int num_frac num_exp default String.append digits_value]. change (10 * 0 + (az "0" - 48)) with 0.
        rewrite digits_value_app, digits_value_zeros, Z.mul_0_l, Hv, length_str_app, length_zeros. split; [done|].
        assert (String.length ds <> 0)%nat by (destruct ds; [done|cbn; lia]). lia.
Qed.

Lemma format_e_literal neg p e10 :
  exists n, literal (format_e (Zpos p) e10) neg n /\ num_neg n = neg /\ denotes n (Zpos p) e10.
Proof.
  destruct (dec_pos p) as [Hi Hv]. unfold format_e. destruct (dec (Zpos p)) as [|d f] eqn:Ed; [done|].
  set (x := Z.of_nat (String.length (String d f)) - 1 + e10). destruct (dec_nonneg (Z.abs x)) as [Hx Hxv]; [lia|].
  cbn [int_part] in Hi. apply andb_prop in Hi as [[Hd Hf]%andb_prop _].
  pose proof (exponent (x <? 0) (dec (Z.abs x)) Hx) as Hexp. rewrite Hxv in Hexp.
  replace (if x <? 0 then - Z.abs x else Z.abs x) with x in Hexp by (destruct (x <? 0) eqn:E; lia).
  exists (mkNumber neg (String d EmptyString) f (Some x)). split; [|split; [done|]].
  - pose proof (literal_intro neg (String d EmptyString) f (Some x) _ ltac:(cbn; rewrite Hd; apply orb_true_r) Hf Hexp) as H.
    revert H. unfold frac_text. destruct f; done.
  - right. cbn [num_int num_frac num_exp default]. split; [exact Hv|]. unfold x. cbn -[Z.of_nat]. lia.
Qed.

(** The floats whose text is exact both ways: zeros, and finite numbers below 2^1013. *)
Definition portable (x : f64) : bool :=
  match x with
  | S754_zero _ => true
  | S754_finite s m e => valid_binary 53 1024 (S754_finite false m e) && (e <=? 960)
  | _ => false
  end.

(** Every portable float is written, and read back as itself. *)
Lemma marshal_float_parses x :
  portable x = true ->
  exists neg w n, marshal_float x = Ok (sign_text neg +:+ w) /\ literal w neg n /\ number_float n = Some x.
Proof.
  destruct x as [s| | |s m e]; [|done|done|]; intros Hp.
  - exists s, "0"%string, (mkNumber s "0" "" None). split; [by destruct s|]. split; [|by destruct s].
    apply (literal_intro s "0" "" None ""); [done|done|constructor].
  - cbn [portable] in Hp. apply andb_prop in Hp as [Hv He].
    assert (valid (S754_finite false m e)) as Hv' by exact Hv.
    pose proof (shortest_correct m e Hv' ltac:(lia)) as Hs. cbn [marshal_float].
    destruct (shortest m e) as [c e10]. cbn [fst snd] in Hs. pose proof (of_decimal_pos _ _ _ _ Hs) as Hc.
    destruct c as [|p|p]; [lia| |lia].
    assert (forall n, num_neg n = s -> denotes n (Zpos p) e10 -> number_float n = Some (S754_finite s m e)) as Hfloat.
    { intros n Hn Hd%denotes_decimal. unfold number_float. rewrite Hd, Hs, Hn. by destruct s. }
    assert (forall b : bool, exists n, literal (if b then format_e (Zpos p) e10 else format_f (Zpos p) e10) s n /\
      num_neg n = s /\ denotes n (Zpos p) e10) as Hlit
      by (intros []; [apply format_e_literal|apply format_f_literal]).
    cbv zeta. match goal with |- context [if ?b then format_e _ _ else _] => destruct (Hlit b) as (n & Hl & Hn & Hd) end.
    eexists s, _, n. split; [reflexivity|]. split; [done|]. by apply Hfloat.
Qed.

(** * Strings *)

(** The runes that are written as themselves. *)
Definition plain_rune (r : Z) : bool :=
  negb ((r <? 32) || (r =? 34) || (r =? 38) || (r =? 60) || (r =? 62) || (r =? 92) || (r =? 0x2028) || (r =? 0x2029)).

Lemma json_rune_plain r w : plain_rune r = true -> (r, w) <> (RuneError, 1%nat) -> 32 <= r ->
  json_rune r w = if r <? 128 then chr r else encode_rune r.
Proof.
  unfold plain_rune. intros Hp Hr H0. apply negb_true_iff in Hp. rewrite !orb_false_iff in Hp.
  destruct Hp as (((((((H1 & H2) & H3) & H4) & H5) & H6) & H7) & H8).
  unfold json_rune. rewrite H1, H2, H3, H4, H5, H6, H7, H8. cbn [orb].
  destruct (r <? 128).
  - replace (r =? 8) with false by lia. replace (r =? 12) with false by lia. replace (r =? 10) with false by lia.
    replace (r =? 13) with false by lia. by replace (r =? 9) with false by lia.
  - destruct (r =? RuneError) eqn:E; [|done]. destruct (w =? 1)%nat eqn:Ew; [|done].
    exfalso. apply Hr. apply Z.eqb_eq in E. apply Nat.eqb_eq in Ew. by subst.
Qed.

Lemma parse_string_plain fuel a s : 32 <= az a -> az a <> 34 -> az a <> 92 ->
  parse_string (S fuel) (String a s) =
    let '(c, w) := decode_rune (String a s) in
    '(u, r) ← parse_string fuel (str_drop w (String a s)); Some (encode_rune c +:+ u, r).
Proof.
  intros H1 H2 H3. cbn [parse_string]. replace (az a =? 34) with false by lia.
  replace (az a =? 92) with false by lia. by replace (az a <? 32) with false by lia.
Qed.

(** One rune as written, read back. *)
Lemma parse_string_rune fuel x rest :
  rune_ok x ->
  parse_string (S fuel) (json_rune x.1 x.2 +:+ rest) =
    ('(u, r) ← parse_string fuel rest; Some (encode_rune x.1 +:+ u, r)).
Proof.
  intros [->|(e & He & Hw)]; [done|]. destruct x as [r w]. cbn [fst snd] in *.
  destruct (plain_rune r) eqn:Ep.
  - assert (json_rune r w = e) as ->.
    { rewrite json_rune_plain; [|done| |unfold plain_rune in Ep; lia].
      - destruct (encoded_cases _ _ He) as [[-> H]|H]; [by replace (r <? 128) with true by lia|].
        replace (r <? 128) with false by lia. by apply encode_encoded.
      - intros [= -> ->]. apply encode_encoded in He. subst e. vm_compute in Hw. done. }
    pose proof (decode_encoded _ _ rest He) as Hd.
    destruct e as [|a e]; [by apply encoded_nonempty in He|]. cbn [String.append] in Hd |- *.
    assert (32 <= az a /\ az a <> 34 /\ az a <> 92) as (H1 & H2 & H3).
    { unfold plain_rune in Ep. destruct (encoded_cases _ _ He) as [[Hc H]|H].
      - unfold chr in Hc. injection Hc as -> _. rewrite az_za, Z.mod_small by lia. lia.
      - clear -He H. inversion He; subst; unfold in_cont in *; lia. }
    rewrite parse_string_plain, Hd by done. change (String a (e +:+ rest)) with (String a e +:+ rest).
    by rewrite str_drop_app.
  - assert (forall k, parse_string (S fuel) (quote_char "u" +:+ hex_fixed 4 k +:+ rest) =
      '(t, r) ← parse_escape "u" (hex_fixed 4 k +:+ rest); '(u, r) ← parse_string fuel r; Some (t +:+ u, r)) as Hq by done.
    assert (r = 0x2028 \/ r = 0x2029 \/ r < 128) as [->|[->|Hr]] by (unfold plain_rune in Ep; lia); [done..|].
    destruct (encoded_cases _ _ He) as [[_ H]|]; [|lia].
    assert (r ∈ seqZ 0 32 \/ r = 34 \/ r = 38 \/ r = 60 \/ r = 62 \/ r = 92) as Hcase
      by (rewrite elem_of_seqZ; unfold plain_rune in Ep; lia).
    clear -Hcase. destruct Hcase as [Hin|Hcase].
    + let l := eval vm_compute in (seqZ 0 32) in change (seqZ 0 32) with l in Hin. rewrite !elem_of_cons, elem_of_nil in Hin.
      repeat (destruct Hin as [->|Hin]; [done|]). done.
    + by destruct_or?; subst.
Qed.

Lemma parse_string_runes rs fuel rest :
  Forall rune_ok rs -> (length rs < fuel)%nat ->
  parse_string fuel (concat_str (map (fun '(r, w) => json_rune r w) rs) +:+ chr 34 +:+ rest) =
    Some (concat_str (map (fun x => encode_rune x.1) rs), rest).
Proof.
  intros H. revert fuel. induction H as [|[r w] rs Hx _ IH]; intros fuel Hf; (destruct fuel as [|fuel]; [cbn in Hf; lia|]).
  - done.
  - cbn [map concat_str foldr]. rewrite <- str_app_assoc. pose proof (parse_string_rune fuel (r, w)) as Hp.
    cbn [fst snd] in Hp. rewrite Hp by done. fold (concat_str (map (fun '(r, w) => json_rune r w) rs)).
    rewrite IH by (cbn in Hf; lia). done.
Qed.

Lemma json_rune_length r w : (1 <= String.length (json_rune r w))%nat.
Proof.
  unfold json_rune, quote_char, encode_rune.
  repeat match goal with |- context [if ?b then _ else _] => destruct b end; rewrite ?length_str_app; cbn; lia.
Qed.

Lemma json_runes_length rs : (length rs <= String.length (concat_str (map (fun '(r, w) => json_rune r w) rs)))%nat.
Proof.
  induction rs as [|[r w] rs IH]; [done|]. cbn [map concat_str foldr length]. rewrite length_str_app.
  pose proof (json_rune_length r w). unfold concat_str in IH. lia.
Qed.

(** A marshalled string reads as the text with its invalid bytes replaced. *)
Lemma parse_marshalled_string s rest :
  exists body, marshal_string s = String (za 34) body /\
    parse_string (String.length (body +:+ rest)) (body +:+ rest) = Some (to_valid s, rest).
Proof.
  eexists. split; [reflexivity|]. rewrite <- str_app_assoc. apply parse_string_runes; [apply runes_ok|].
  rewrite !length_str_app. pose proof (json_runes_length (runes s)). cbn. lia.
Qed.
