(* ===== verification/JsonValue.v ===== *)
(** What the parser reads from the compact texts that encoding/json writes: objects,
    arrays and dynamic values, at any depth the scanner allows. *)
From Stdlib Require Import Strings.Ascii Strings.String SpecFloat.
From S2P Require Import Prelude GoString Utf8 Float64 Json JsonFacts JsonNumber JsonText.

Local Open Scope Z_scope.
Local Open Scope go_scope.

#[local] Arguments String.length : simpl nomatch.
#[local] Arguments parse_string : simpl never.

(** * Reading

    The text [t], of nesting height [h], is read as [v] wherever it stands: with
    more fuel than characters, at a depth that leaves room for it, and before
    anything that does not extend a number. *)
Definition reads (h : Z) (t : string) (v : jval) : Prop :=
  forall fuel depth rest, (String.length t < fuel)%nat -> depth + h <= maxNestingDepth -> number_stop rest = true ->
  parse_value fuel depth (t +:+ rest) = Some (v, rest).

Lemma reads_mono h h' t v : h <= h' -> reads h t v -> reads h' t v.
Proof. intros Hh H fuel depth rest Hf Hd Hr. apply H; [done|lia|done]. Qed.

Lemma reads_document h t v : h <= maxNestingDepth -> reads h t v -> parse_json t = Some v.
Proof.
  intros Hh H. unfold parse_json. rewrite <- (str_app_nil_r t) at 2. rewrite H; [done|lia|lia|done].
Qed.

Lemma skip_ws_stop a s : is_ws a = false -> skip_ws (String a s) = String a s.
Proof. intros H. cbn. by rewrite H. Qed.

(** ** Scalars *)
Lemma reads_null : reads 0 "null" JNull.
Proof. by intros [|fuel] depth rest Hf Hd Hr; [cbn in Hf; lia|]. Qed.
Lemma reads_bool (b : bool) : reads 0 (if b then "true" else "false") (JBool b).
Proof. by intros [|fuel] depth rest Hf Hd Hr; [cbn in Hf; lia|]; destruct b. Qed.

Lemma reads_string s : reads 0 (marshal_string s) (JStr (to_valid s)).
Proof.
  intros [|fuel] depth rest Hf Hd Hr; [lia|]. destruct (parse_marshalled_string s rest) as (body & -> & Hp).
  cbn [String.append parse_value]. rewrite (skip_ws_stop (za 34)) by done.
  change (az (za 34)) with 34. cbv iota. cbn [Z.eqb Pos.eqb]. by rewrite Hp.
Qed.

(** A text that starts like a number is read by the number parser. *)
Definition number_head (a : ascii) : bool := is_digit a || (az a =? 45).

Lemma reads_number a t n :
  number_head a = true ->
  (forall rest, number_stop rest = true -> parse_number (String a t +:+ rest) = Some (n, rest)) ->
  reads 0 (String a t) (JNum n).
Proof.
  intros Ha Hn [|fuel] depth rest Hf Hd Hr; [lia|]. specialize (Hn rest Hr). cbn [String.append] in *.
  unfold number_head, is_digit in Ha. cbn [parse_value].
  assert (skip_ws (String a (t +:+ rest)) = String a (t +:+ rest)) as ->.
  { cbn [skip_ws]. unfold is_ws. by replace ((az a =? 32) || (az a =? 9) || (az a =? 13) || (az a =? 10)) with false by lia. }
  replace (az a =? 34) with false by lia. replace (az a =? 123) with false by lia.
  replace (az a =? 91) with false by lia. replace (az a =? 116) with false by lia.
  replace (az a =? 102) with false by lia. replace (az a =? 110) with false by lia.
  by rewrite Hn.
Qed.

Lemma int_part_head w : int_part w = true -> exists a t, w = String a t /\ number_head a = true.
Proof.
  destruct w as [|a t]; [done|]. cbn. intros [[Ha _]%andb_prop _]%andb_prop. exists a, t. split; [done|].
  unfold number_head. by rewrite Ha.
Qed.

Lemma reads_int z : reads 0 (dec z) (JNum (int_number z)).
Proof.
  destruct z as [|p|p].
  - by apply (reads_number "0" ""); [|intros; apply (parse_number_int 0)].
  - destruct (int_part_head _ (proj1 (dec_pos p))) as (a & t & E & Ha). rewrite E.
    apply reads_number; [done|]. intros rest Hr. rewrite <- E. by apply parse_number_int.
  - rewrite dec_neg. apply reads_number; [done|]. intros rest Hr. rewrite <- dec_neg. by apply parse_number_int.
Qed.

Lemma reads_float x : portable x = true ->
  exists t n, marshal_float x = Ok t /\ reads 0 t (JNum n) /\ number_float n = Some x.
Proof.
  intros Hx. destruct (marshal_float_parses x Hx) as (neg & w & n & Hm & Hl & Hn).
  exists (sign_text neg +:+ w), n. split; [done|]. split; [|done].
  assert (forall rest, number_stop rest = true ->
    parse_number ((sign_text neg +:+ w) +:+ rest) = Some (n, rest)) as Hp.
  { intros rest Hr. rewrite <- str_app_assoc. by apply Hl. }
  destruct neg; [by apply reads_number|]. cbn [sign_text String.append] in *.
  destruct w as [|a t]; [discriminate (Hp "" eq_refl)|]. apply reads_number; [|done].
  specialize (Hp "" eq_refl). revert Hp. cbn [String.append]. unfold number_head, parse_number.
  generalize (t +:+ ""). clear. intros u.
  destruct (is_digit a) eqn:E; [done|]. destruct (az a =? 45) eqn:E2; [done|].
  revert E E2. by destruct a as [[] [] [] [] [] [] [] []]; intros E E2; vm_compute in E, E2; try discriminate.
Qed.

(** ** Objects *)
Definition member (f : string * string) : string := marshal_string f.1 +:+ ":" +:+ f.2.

Lemma parse_members_reads h fs gs :
  fs <> [] ->
  Forall2 (fun (f : string * string) (g : string * jval) => to_valid f.1 = g.1 /\ reads h f.2 g.2) fs gs ->
  forall fuel depth rest, (String.length (commas (map member fs)) < fuel)%nat -> depth + h <= maxNestingDepth ->
  parse_members fuel depth (commas (map member fs) +:+ "}" +:+ rest) = Some (gs, rest).
Proof.
  intros Hne H. induction H as [|[k t] [k' v] fs gs [Hk Hv] HF IH]; [done|]. cbn [fst snd] in *. subst k'.
  intros [|fuel] depth rest Hf Hd; [lia|].
  set (tail := match fs with [] => "}" +:+ rest | _ => "," +:+ commas (map member fs) +:+ "}" +:+ rest end).
  assert (commas (map member ((k, t) :: fs)) +:+ "}" +:+ rest = marshal_string k +:+ ":" +:+ t +:+ tail) as ->.
  { unfold tail. destruct fs as [|f fs]; cbn [map commas]; unfold member at 1; cbn [fst snd];
      by rewrite <- !str_app_assoc. }
  assert (String.length t + 3 <= fuel)%nat as Hlt.
  { assert (String.length t + 3 <= String.length (member (k, t)))%nat; [|revert Hf;
      destruct fs; cbn [map commas]; rewrite ?length_str_app; lia].
    unfold member. cbn [fst snd]. destruct (parse_marshalled_string k "") as (body & -> & Hb).
    assert (1 <= String.length body)%nat by (destruct body; [done|cbn; lia]).
    rewrite !length_str_app. cbn [String.length]. lia. }
  destruct (parse_marshalled_string k (":" +:+ t +:+ tail)) as (body & -> & Hb).
  cbn [parse_members String.append]. rewrite (skip_ws_stop (za 34)) by done.
  change (az (za 34) =? 34) with true. cbv iota. cbn [String.append] in Hb. rewrite Hb. cbn [mbind option_bind].
  rewrite (skip_ws_stop ":") by done.
  assert (number_stop tail = true) as Hs by (unfold tail; by destruct fs).
  rewrite Hv by (done || lia). cbn [mbind option_bind]. unfold tail. destruct fs as [|f fs].
  - inversion HF; subst. done.
  - change ("," +:+ commas (map member (f :: fs)) +:+ "}" +:+ rest)
      with (String "," (commas (map member (f :: fs)) +:+ "}" +:+ rest)). rewrite (skip_ws_stop ",") by done. cbv iota.
    rewrite IH; [done|done| |done]. revert Hf. cbn [map commas]. rewrite !length_str_app. cbn [String.length]. lia.
Qed.

Lemma reads_object h fs gs :
  0 <= h ->
  Forall2 (fun (f : string * string) (g : string * jval) => to_valid f.1 = g.1 /\ reads h f.2 g.2) fs gs ->
  reads (h + 1) (marshal_object fs) (JObj gs).
Proof.
  intros Hh HF [|fuel] depth rest Hf Hd Hr; [lia|]. unfold marshal_object in *.
  assert (map (fun '(k, v) => marshal_string k +:+ ":" +:+ v) fs = map member fs) as Hm
    by (apply map_ext; by intros []).
  rewrite Hm in *. rewrite <- !str_app_assoc. cbn [String.append parse_value].
  rewrite (skip_ws_stop "{") by done. change (az "{") with 123. cbn [Z.eqb Pos.eqb].
  replace (maxNestingDepth <=? depth) with false by lia.
  destruct fs as [|f fs]; [by inversion HF; subst|].
  assert (exists u, commas (map member (f :: fs)) +:+ "}" +:+ rest = String (za 34) u) as (u & Hu).
  { cbn [map]. destruct (map member fs); cbn [commas]; unfold member, marshal_string;
      rewrite <- !str_app_assoc; by eexists. }
  pose proof (parse_members_reads h (f :: fs) gs ltac:(done) HF fuel (depth + 1) rest) as Hp.
  rewrite Hu in Hp. cbn [String.append] in Hu. rewrite Hu.
  rewrite (skip_ws_stop (za 34)) by done.
  let c := eval vm_compute in (za 34) in change (za 34) with c in *. cbv iota.
  rewrite Hp; [done| |lia]. revert Hf. rewrite !length_str_app. cbn [String.length]. lia.
Qed.

(** ** Arrays *)
Lemma parse_elements_reads h ts vs :
  ts <> [] -> Forall2 (reads h) ts vs ->
  forall fuel depth rest, (String.length (commas ts) + 1 < fuel)%nat -> depth + h <= maxNestingDepth ->
  parse_elements fuel depth (commas ts +:+ "]" +:+ rest) = Some (vs, rest).
Proof.
  intros Hne H. induction H as [|t v ts vs Hv HF IH]; [done|].
  intros [|fuel] depth rest Hf Hd; [lia|].
  set (tail := match ts with [] => "]" +:+ rest | _ => "," +:+ commas ts +:+ "]" +:+ rest end).
  assert (commas (t :: ts) +:+ "]" +:+ rest = t +:+ tail) as ->.
  { unfold tail. destruct ts as [|t' ts]; cbn [commas]; [done|by rewrite <- !str_app_assoc]. }
  assert (number_stop tail = true) as Hs by (unfold tail; by destruct ts).
  assert (String.length t < fuel)%nat as Hlt.
  { revert Hf. destruct ts; cbn [commas]; rewrite ?length_str_app; lia. }
  cbn [parse_elements]. rewrite Hv by done. cbn [mbind option_bind]. unfold tail. destruct ts as [|t' ts].
  - inversion HF; subst. done.
  - change ("," +:+ commas (t' :: ts) +:+ "]" +:+ rest) with (String "," (commas (t' :: ts) +:+ "]" +:+ rest)).
    rewrite (skip_ws_stop ",") by done. cbv iota.
    rewrite IH; [done|done| |done]. revert Hf. cbn [commas]. rewrite !length_str_app. cbn [String.length]. lia.
Qed.

(** A text that is read does not start with a closing bracket. *)
Lemma reads_not_closing h t v rest u : reads h t v -> number_stop rest = true ->
  skip_ws (t +:+ rest) <> String "]" u.
Proof.
  intros H Hr E. specialize (H (S (String.length t)) (maxNestingDepth - h) rest ltac:(lia) ltac:(lia) Hr).
  cbn [parse_value] in H. by rewrite E in H.
Qed.

Lemma skip_ws_idem s : skip_ws (skip_ws s) = skip_ws s.
Proof. induction s as [|a s IH]; [done|]. cbn. destruct (is_ws a) eqn:E; [done|]. cbn. by rewrite E. Qed.

Lemma parse_elements_skip fuel depth s : parse_elements fuel depth (skip_ws s) = parse_elements fuel depth s.
Proof.
  destruct fuel as [|fuel]; [done|]. cbn [parse_elements]. destruct fuel as [|fuel]; [done|].
  cbn [parse_value]. by rewrite skip_ws_idem.
Qed.

Lemma reads_array h ts vs :
  0 <= h -> Forall2 (reads h) ts vs -> reads (h + 1) ("[" +:+ commas ts +:+ "]") (JArr vs).
Proof.
  intros Hh HF [|fuel] depth rest Hf Hd Hr; [lia|]. rewrite <- !str_app_assoc. cbn [String.append parse_value].
  rewrite (skip_ws_stop "[") by done. change (az "[") with 91. cbn [Z.eqb Pos.eqb].
  replace (maxNestingDepth <=? depth) with false by lia.
  destruct HF as [|t v ts vs Hv HF]; [done|].
  pose proof (parse_elements_reads h (t :: ts) (v :: vs) ltac:(done) ltac:(by constructor) fuel (depth + 1) rest) as Hp.
  cbn [String.append] in Hp. set (s := commas (t :: ts) +:+ String "]" rest) in *.
  assert (parse_elements fuel (depth + 1) (skip_ws s) = Some (v :: vs, rest)) as Hp'.
  { rewrite parse_elements_skip, Hp; [done| |lia]. revert Hf. rewrite !length_str_app. cbn [String.length]. lia. }
  assert (forall u, skip_ws s <> String "]" u) as Hw.
  { intros u. unfold s. destruct ts as [|t' ts]; cbn [commas]; rewrite <- ?str_app_assoc;
      by eapply (reads_not_closing h). }
  revert Hp' Hw. clear. generalize (skip_ws s) as w. intros [|a u] Hp Hw; [by rewrite Hp|].
  destruct a as [[] [] [] [] [] [] [] []]; try (by rewrite Hp). by destruct (Hw u).
Qed.

(** ** Dynamic values

    The values whose text is read back exactly: portable numbers, valid UTF-8, and
    maps as association lists with increasing keys. *)
Fixpoint increasing {A} (m : list (string * A)) : bool :=
  match m with
  | [] => true
  | (k, _) :: m => forallb (fun kv => bool_decide (String.compare k kv.1 = Lt)) m && increasing m
  end.

Fixpoint any_wf (a : any) : bool :=
  match a with
  | ANil | ABool _ => true
  | ANum x => portable x
  | AStr s => valid_utf8 s
  | AList l => forallb any_wf l
  | AMap m => increasing m && forallb (fun kv => valid_utf8 kv.1 && any_wf kv.2) m
  end.

Fixpoint any_height (a : any) : Z :=
  match a with
  | AList l => foldr (fun a => Z.max (any_height a)) 0 l + 1
  | AMap m => foldr (fun kv => Z.max (any_height kv.2)) 0 m + 1
  | _ => 0
  end.

Lemma any_rect' (P : any -> Prop) :
  P ANil -> (forall b, P (ABool b)) -> (forall x, P (ANum x)) -> (forall s, P (AStr s)) ->
  (forall l, Forall P l -> P (AList l)) -> (forall m, Forall (fun kv => P kv.2) m -> P (AMap m)) ->
  forall a, P a.
Proof.
  intros Hn Hb Hx Hs Hl Hm. fix IH 1. intros [|b|x|s|l|m]; [done|by apply Hb|by apply Hx|by apply Hs| |].
  - apply Hl. induction l as [|a l IHl]; constructor; [apply IH|apply IHl].
  - apply Hm. induction m as [|[k a] m IHm]; constructor; [apply IH|apply IHm].
Qed.

Lemma height_foldr_nonneg {A} (f : A -> Z) l : 0 <= foldr (fun a => Z.max (f a)) 0 l.
Proof. induction l; cbn; lia. Qed.

(** Sorted keys stay where they are, when writing and when reading. *)
Lemma sort_keys_increasing {A} (m : list (string * A)) : increasing m = true -> sort_keys m = m.
Proof.
  induction m as [|[k v] m IH]; [done|]. cbn [increasing]. intros [Hk Hm]%andb_prop.
  cbn [sort_keys foldr]. change (foldr _ [] m) with (sort_keys m). rewrite IH by done.
  destruct m as [|[k' v'] m]; [done|]. cbn in Hk |- *. apply andb_prop in Hk as [Hk _].
  apply bool_decide_eq_true in Hk. unfold String.leb. by rewrite Hk.
Qed.

Lemma increasing_keys {A B} (m : list (string * A)) (m' : list (string * B)) :
  m.*1 = m'.*1 -> increasing m = increasing m'.
Proof.
  revert m'. induction m as [|[k v] m IH]; intros [|[k' v'] m']; [done..|]. cbn. intros [= <- H].
  rewrite (IH m' H). f_equal. revert m' H. clear. induction m as [|[k1 v1] m IH]; intros [|[k2 v2] m']; [done..|].
  cbn. intros [= <- H]. by rewrite (IH m' H).
Qed.

(** [k] comes after every key of [m]. *)
Definition above {A} (k : string) (m : list (string * A)) : Prop := Forall (fun kv => String.compare kv.1 k = Lt) m.

Lemma assoc_set_above {A} k (x : A) m : above k m -> assoc_set k x m = (m ++ [(k, x)])%list.
Proof.
  induction 1 as [|[k' v] m Hk _ IH]; [done|]. cbn in *. rewrite String.compare_antisym, Hk. cbn.
  by rewrite IH.
Qed.

Lemma decode_increasing m gs acc :
  increasing m = true -> Forall (fun kv => above kv.1 acc) m ->
  Forall2 (fun g (kv : string * any) => g.1 = kv.1 /\ to_any g.2 = Some kv.2) gs m ->
  (fix go l acc := match l with
    | [] => Some acc
    | (k, v) :: l => x ← to_any v; go l (assoc_set k x acc)
    end) gs acc = Some (acc ++ m)%list.
Proof.
  intros Hi Ha H. revert acc Hi Ha. induction H as [|[k v] [k' a] gs m [Hk Hv] HF IH]; intros acc Hi Ha;
    cbn [fst snd] in *; [by rewrite app_nil_r|]. subst k'. cbn [increasing] in Hi. apply andb_prop in Hi as [Hlt Hi].
  inversion Ha as [|? ? Hk Hm]; subst. rewrite Hv. cbn [mbind option_bind]. rewrite assoc_set_above by done.
  rewrite IH; [by rewrite <- app_assoc|done|].
  rewrite forallb_forall in Hlt. rewrite Forall_forall in Hm |- *. intros kv Hkv. apply Forall_app. split; [by apply Hm|].
  constructor; [|constructor]. apply list_elem_of_In in Hkv. specialize (Hlt kv Hkv). by apply bool_decide_eq_true in Hlt.
Qed.

Lemma to_any_list vs l : Forall2 (fun v a => to_any v = Some a) vs l -> to_any (JArr vs) = Some (AList l).
Proof.
  intros H. cbn [to_any].
  enough ((fix go l := match l with [] => Some [] | v :: l => x ← to_any v; xs ← go l; Some (x :: xs) end) vs = Some l)
    as -> by done.
  induction H as [|v a vs l Hv _ IH]; [done|]. by rewrite Hv, IH.
Qed.

Lemma to_any_map gs m :
  increasing m = true -> Forall2 (fun g (kv : string * any) => g.1 = kv.1 /\ to_any g.2 = Some kv.2) gs m ->
  to_any (JObj gs) = Some (AMap m).
Proof.
  intros Hi H. cbn [to_any]. rewrite (decode_increasing m gs []); [done|done| |done].
  apply Forall_forall. constructor.
Qed.

(** Writing a map and a list, value by value. *)
Lemma seq_results_Forall2 {A B} (f : A -> result string B) l ts :
  Forall2 (fun a t => f a = Ok t) l ts -> seq_results (map f l) = Ok ts.
Proof. induction 1 as [|a t l ts Ht _ IH]; [done|]. cbn. by rewrite Ht, IH. Qed.

(** A value that is written and read back, and lists and maps of them. *)
Definition round_trips (a : any) : Prop :=
  exists t v, marshal_any a = Ok t /\ reads (any_height a) t v /\ to_any v = Some a.

Lemma list_round_trips l : Forall round_trips l -> round_trips (AList l).
Proof.
  intros H. unfold round_trips. cbn [marshal_any any_height].
  assert (exists ts vs, Forall2 (fun a t => marshal_any a = Ok t) l ts /\
    Forall2 (reads (foldr (fun a => Z.max (any_height a)) 0 l)) ts vs /\
    Forall2 (fun v a => to_any v = Some a) vs l) as (ts & vs & H1 & H2 & H3).
  { induction H as [|a l (t & v & Ht & Hr & Hv) _ (ts & vs & H1 & H2 & H3)]; [by exists [], []|].
    exists (t :: ts), (v :: vs). split; [by constructor|]. split; [|by constructor]. cbn [foldr].
    constructor; [eapply reads_mono; [|done]; lia|]. eapply Forall2_impl; [done|].
    intros ? ? Hx. eapply reads_mono; [|done]. lia. }
  rewrite (seq_results_Forall2 marshal_any l ts H1). eexists _, (JArr vs). split; [reflexivity|].
  split; [apply reads_array; [apply height_foldr_nonneg|done]|by apply to_any_list].
Qed.

Lemma map_round_trips m :
  increasing m = true -> Forall (fun kv => valid_utf8 kv.1 = true /\ round_trips kv.2) m -> round_trips (AMap m).
Proof.
  intros Hi H. unfold round_trips. cbn [marshal_any any_height].
  assert (exists fs gs, Forall2 (fun (kv : string * any) f => f.1 = kv.1 /\ marshal_any kv.2 = Ok f.2) m fs /\
    Forall2 (fun (f : string * string) (g : string * jval) => to_valid f.1 = g.1 /\
      reads (foldr (fun kv => Z.max (any_height kv.2)) 0 m) f.2 g.2) fs gs /\
    Forall2 (fun g (kv : string * any) => g.1 = kv.1 /\ to_any g.2 = Some kv.2) gs m) as (fs & gs & H1 & H2 & H3).
  { clear Hi. induction H as [|[k a] m [Hk (t & v & Ht & Hr & Hv)] _ (fs & gs & H1 & H2 & H3)]; [by exists [], []|].
    cbn [fst snd] in *. exists ((k, t) :: fs), ((k, v) :: gs). cbn [foldr snd].
    split; [by constructor|]. split; [|by constructor].
    constructor; [split; [by apply to_valid_id|eapply reads_mono; [|done]; cbn; lia]|].
    eapply Forall2_impl; [done|]. intros ? ? [? Hx]. split; [done|]. eapply reads_mono; [|done]. cbn. lia. }
  rewrite sort_keys_increasing.
  2: { rewrite <- Hi. apply increasing_keys. clear. induction m as [|[k v] m IH]; [done|]. cbn. by rewrite IH. }
  assert (seq_fields (map (fun '(k, v) => (k, marshal_any v)) m) = Ok fs) as ->.
  { unfold seq_fields. rewrite map_map. clear -H1. induction H1 as [|[k a] [k' t] m fs [Hk Ht] _ IH]; [done|].
    cbn in *. subst k'. by rewrite Ht, IH. }
  eexists _, (JObj gs). split; [reflexivity|].
  split; [apply reads_object; [apply height_foldr_nonneg|done]|by apply to_any_map].
Qed.

(** Every well-formed value is written, and its text is read back as the value. *)
Theorem any_reads a : any_wf a = true -> round_trips a.
Proof.
  induction a as [|b|x|s|l IH|m IH] using any_rect'; cbn [any_wf]; intros Hw.
  - exists "null"%string, JNull. split; [done|]. split; [apply reads_null|done].
  - eexists _, (JBool b). split; [reflexivity|]. split; [apply reads_bool|done].
  - destruct (reads_float x Hw) as (t & n & Ht & Hr & Hn). exists t, (JNum n). split; [done|]. split; [done|].
    cbn. by rewrite Hn.
  - eexists _, (JStr s). split; [reflexivity|]. split; [|done]. apply to_valid_id in Hw.
    pose proof (reads_string s) as Hr. by rewrite Hw in Hr.
  - apply list_round_trips. rewrite Forall_forall in IH |- *. rewrite forallb_forall in Hw.
    intros a Ha. apply IH; [done|]. by apply Hw, list_elem_of_In.
  - apply andb_prop in Hw as [Hi Hw]. apply map_round_trips; [done|]. rewrite Forall_forall in IH |- *.
    rewrite forallb_forall in Hw. intros kv Hkv. specialize (Hw kv). rewrite <- list_elem_of_In in Hw.
    apply Hw in Hkv as Hkv'. apply andb_prop in Hkv' as [Hk Ha]. split; [done|]. by apply IH.
Qed.
