(* ===== verification/RoundTrip.v ===== *)
(** Envelopes survive the wire: what [json.Marshal] writes for a well-formed
    envelope is decoded by [json.Unmarshal] to the same envelope. *)
From Stdlib Require Import Strings.Ascii Strings.String SpecFloat.
From S2P Require Import Prelude GoString Utf8 Float64 Json JsonFacts JsonNumber JsonText JsonValue Sha256 Topic Schema.

Set Warnings "-register-all".

Local Open Scope string_scope.
Local Open Scope Z_scope.
Local Open Scope go_scope.

(** * Well-formed data

    Texts in UTF-8, portable numbers, integers of their width, and maps that are
    not empty (an empty map is left out and comes back as nil). *)
Definition map_wf (m : option (list (string * any))) : bool :=
  match m with
  | None => true
  | Some m => negb (bool_decide (m = [])) && any_wf (AMap m) && (any_height (AMap m) <=? maxNestingDepth - 2)
  end.
Definition int64_wf (z : Z) : bool := (- 2 ^ 63 <=? z) && (z <? 2 ^ 63).
Definition uint64_wf (z : Z) : bool := (0 <=? z) && (z <? 2 ^ 64).

Definition coordinates_wf (c : Coordinates) : bool :=
  portable (Latitude c) && portable (Longitude c) && portable (AltitudeM c).
Definition velocity_wf (v : Velocity) : bool :=
  portable (VX v) && portable (VY v) && portable (VZ v) && portable (SpeedMps v).
Definition telemetry_wf (t : TelemetryPayload) : bool :=
  forallb valid_utf8 [VehicleID t; VehicleType t; Team t; State t] && portable (BatteryPct t) &&
  coordinates_wf (Coords t) && velocity_wf (Vel t) && portable (HeadingDeg t) && map_wf (MissionPayload t) &&
  uint64_wf (Sequence t).
Definition command_wf (c : CommandPayload) : bool :=
  forallb valid_utf8 [CommandID c; TargetVehicle c; CommandType c; Issuer c] && map_wf (Parameters_ c) &&
  int64_wf (IssuedAtNs c).
Definition header_wf (h : SecurityHeader) : bool :=
  forallb valid_utf8 [Classification h; OriginEnclave h; MessageID h; Digest h] && forallb valid_utf8 (Caveats h) &&
  int64_wf (TimestampNs h).
Definition envelope_wf (e : SecurityEnvelope) : bool :=
  header_wf (Header e) && match Telemetry e with Some t => telemetry_wf t | None => true end &&
  match Command e with Some c => command_wf c | None => true end.

(** * Documents

    What a JSON document says to any reader, whatever its text: a string, a number that
    is read as a given float, an integer literal, a list of strings, a dynamic map, or an
    object with given members, these and no others, in order. *)
Inductive shape :=
| SStr (s : string)
| SFloat (x : f64)
| SInt (z : Z)
| STexts (l : list string)
| SMap (m : list (string * any))
| SObject (fs : list (string * shape)).

Fixpoint shaped (sh : shape) (v : jval) {struct sh} : Prop :=
  match sh, v with
  | SStr s, JStr s' => s' = s
  | SFloat x, JNum n => number_float n = Some x
  | SInt z, JNum n => n = int_number z
  | STexts l, _ => v = JArr (map JStr l)
  | SMap m, _ => to_any v = Some (AMap m)
  | SObject fs, JObj gs =>
    (fix members fs gs := match fs, gs with
      | [], [] => True
      | (k, sh) :: fs, (k', v) :: gs => k' = k /\ shaped sh v /\ members fs gs
      | _, _ => False
      end) fs gs
  | _, _ => False
  end.

Lemma shaped_app fs1 fs2 gs1 gs2 :
  shaped (SObject fs1) (JObj gs1) -> shaped (SObject fs2) (JObj gs2) -> shaped (SObject (fs1 ++ fs2)) (JObj (gs1 ++ gs2)).
Proof.
  revert gs1. induction fs1 as [|[k sh] fs1 IH]; intros [|[k' v] gs1]; try done. cbn -[shaped].
  intros (Hk & Hv & H1) H2. split; [exact Hk|]. split; [exact Hv|]. by apply (IH gs1).
Qed.

Definition optional (k : string) (o : option shape) : list (string * shape) :=
  match o with Some sh => [(k, sh)] | None => [] end.

(** The documents of the system, with the names that the consoles and the routers of
    other enclaves read. *)
Definition coordinates_document (c : Coordinates) : shape :=
  SObject [("lat", SFloat (Latitude c)); ("lon", SFloat (Longitude c)); ("alt_m", SFloat (AltitudeM c))].
Definition velocity_document (v : Velocity) : shape :=
  SObject [("vx", SFloat (VX v)); ("vy", SFloat (VY v)); ("vz", SFloat (VZ v)); ("speed_mps", SFloat (SpeedMps v))].
Definition telemetry_document (t : TelemetryPayload) : shape :=
  SObject ([("vehicle_id", SStr (VehicleID t)); ("vehicle_type", SStr (VehicleType t)); ("team", SStr (Team t));
    ("state", SStr (State t)); ("battery_pct", SFloat (BatteryPct t)); ("coordinates", coordinates_document (Coords t));
    ("velocity", velocity_document (Vel t)); ("heading_deg", SFloat (HeadingDeg t))]
    ++ optional "mission_payload" (SMap <$> MissionPayload t) ++ [("sequence", SInt (Sequence t))])%list.
Definition command_document (c : CommandPayload) : shape :=
  SObject ([("command_id", SStr (CommandID c)); ("target_vehicle", SStr (TargetVehicle c));
    ("command_type", SStr (CommandType c))] ++ optional "parameters" (SMap <$> Parameters_ c)
    ++ [("issued_at_ns", SInt (IssuedAtNs c)); ("issuer", SStr (Issuer c))])%list.
Definition header_document (h : SecurityHeader) : shape :=
  SObject ([("classification", SStr (Classification h)); ("origin_enclave", SStr (OriginEnclave h));
    ("timestamp_ns", SInt (TimestampNs h)); ("message_id", SStr (MessageID h)); ("digest", SStr (Digest h))]
    ++ optional "caveats" (match Caveats h with [] => None | l => Some (STexts l) end))%list.
Definition envelope_document (e : SecurityEnvelope) : shape :=
  SObject ([("header", header_document (Header e))]
    ++ optional "telemetry" (telemetry_document <$> Telemetry e)
    ++ optional "command" (command_document <$> Command e))%list.

(** * Fields *)

(** The field [f] of an object is written, and read as the member [g]. *)
Definition field_reads (h : Z) (f : string * result string string) (g : string * jval) : Prop :=
  f.1 = g.1 /\ valid_utf8 f.1 = true /\ exists t, f.2 = Ok t /\ reads h t g.2.

Lemma marshal_fields_reads h fs gs :
  0 <= h -> Forall2 (field_reads h) fs gs -> exists t, marshal_fields fs = Ok t /\ reads (h + 1) t (JObj gs).
Proof.
  intros Hh H. unfold marshal_fields.
  assert (exists ts, seq_fields fs = Ok ts /\
    Forall2 (fun (f : string * string) (g : string * jval) => to_valid f.1 = g.1 /\ reads h f.2 g.2) ts gs)
    as (ts & -> & Hts).
  { unfold seq_fields. induction H as [|[k r] [k' v] fs gs (Hk & Hu & t & Ht & Hr) _ (ts & IH & IHr)]; [by exists []|].
    cbn in *. subst k' r. cbn. rewrite IH. exists ((k, t) :: ts). split; [done|]. constructor; [|done].
    split; [by apply to_valid_id|done]. }
  eexists. split; [reflexivity|]. by apply reads_object.
Qed.

Section Kinds.
Context (h : Z) (Hh : 0 <= h).

Lemma str_field_reads k s : valid_utf8 k = true -> valid_utf8 s = true -> field_reads h (str_field k s) (k, JStr s).
Proof using Hh.
  intros Hk Hs. apply to_valid_id in Hs. split; [done|]. split; [done|]. eexists. split; [reflexivity|].
  pose proof (reads_string s) as Hr. rewrite Hs in Hr. by eapply reads_mono.
Qed.

Lemma int_field_reads k z : valid_utf8 k = true -> field_reads h (int_field k z) (k, JNum (int_number z)).
Proof using Hh.
  intros Hk. split; [done|]. split; [done|]. eexists. split; [reflexivity|].
  eapply reads_mono; [exact Hh|]. apply reads_int.
Qed.

Lemma float_field_reads k x : valid_utf8 k = true -> portable x = true ->
  exists n, field_reads h (float_field k x) (k, JNum n) /\ number_float n = Some x.
Proof using Hh.
  intros Hk Hx. destruct (reads_float x Hx) as (t & n & Ht & Hr & Hn). exists n. split; [|done].
  split; [done|]. split; [done|]. exists t. split; [done|]. by eapply reads_mono.
Qed.

Lemma nested_field_reads h' k r v :
  valid_utf8 k = true -> h' <= h -> (exists t, r = Ok t /\ reads h' t v) -> field_reads h (k, r) (k, v).
Proof using Hh.
  intros Hk Hle (t & -> & Hr). split; [done|]. split; [done|]. exists t. split; [done|]. by eapply reads_mono.
Qed.
End Kinds.

(** A map of dynamic values is decoded into a nil map as itself. *)
Lemma decode_entries_any l acc m :
  (fix go l acc := match l with
    | [] => Some acc
    | (k, v) :: l => x ← to_any v; go l (assoc_set k x acc)
    end) l acc = Some m -> decode_entries l acc = Some m.
Proof.
  revert acc. induction l as [|[k v] l IH]; intros acc; [done|]. cbn.
  destruct (to_any v); [apply IH|done].
Qed.

Lemma decode_map_any v m : to_any v = Some (AMap m) -> decode_map v None = Some (Some m).
Proof.
  destruct v as [| |n| |l|l]; cbn [to_any]; intros H; try done;
    apply fmap_Some in H as (m' & E & H); try done. injection H as <-.
  apply decode_entries_any in E. cbn [decode_map default]. by rewrite E.
Qed.

Lemma map_field_reads k m :
  valid_utf8 k = true -> map_wf (Some m) = true ->
  exists v, map_field k (Some m) = [(k, marshal_any (AMap m))] /\
    field_reads (maxNestingDepth - 2) (k, marshal_any (AMap m)) (k, v) /\
    to_any v = Some (AMap m) /\ decode_map v None = Some (Some m).
Proof.
  intros Hk Hm. unfold map_wf in Hm. apply andb_prop in Hm as [[Hne Hw]%andb_prop Hh].
  destruct (any_reads (AMap m) Hw) as (t & v & Ht & Hr & Hv). exists v.
  split; [by destruct m|]. split; [|split; [done|by apply decode_map_any]].
  split; [done|]. split; [done|]. exists t. split; [done|]. eapply reads_mono; [|done]. lia.
Qed.

Lemma list_field_reads k l :
  valid_utf8 k = true -> forallb valid_utf8 l = true -> l <> [] ->
  exists r, list_field k l = [(k, r)] /\ field_reads 1 (k, r) (k, JArr (map JStr l)).
Proof.
  intros Hk Hl Hne. eexists. split; [destruct l; [done|reflexivity]|]. split; [done|]. split; [done|].
  eexists. split; [reflexivity|]. apply (reads_array 0); [done|]. clear Hne Hk.
  induction l as [|s l IH]; [constructor|]. cbn in Hl. apply andb_prop in Hl as [Hs Hl].
  cbn [map]. constructor; [|by apply IH]. apply to_valid_id in Hs.
  pose proof (reads_string s) as Hr. by rewrite Hs in Hr.
Qed.

(** Splitting a conjunction of checks. *)
Ltac split_checks :=
  repeat match goal with
  | H : (_ && _)%bool = true |- _ => apply andb_prop in H as [? ?]
  end.
(** The members of an object, float by float. *)
Ltac read_float h k x :=
  let n := fresh "n" in let Hn := fresh "Hn" in let Hr := fresh "Hr" in
  destruct (float_field_reads h ltac:(lia) k x eq_refl ltac:(done)) as (n & Hr & Hn).
Ltac read_fields :=
  repeat match goal with |- Forall2 _ _ _ => constructor end; try assumption;
  try (apply str_field_reads; [lia|done|done]); try (apply int_field_reads; [lia|done]).
(** Running a decoder on the members of an object. *)
Lemma decode_members `{U : Unicode} {A} names (set : string -> jval -> A -> option A) l old :
  decode_struct names set (JObj l) old = decode_fields names set l old.
Proof. done. Qed.

Ltac run_decoder :=
  repeat first
    [ match goal with
      | H : number_float ?n = Some _ |- context [number_float ?n] => rewrite H
      | H : forall old, decode_struct _ _ ?v old = Some _ |- context [decode_struct _ _ ?v _] => rewrite H
      | H : decode_struct _ _ ?v _ = Some _ |- context [decode_struct _ _ ?v _] => rewrite H
      | H : decode_list ?v [] = Some _ |- context [decode_list ?v []] => rewrite H
      | H : _ -> decode_map ?v None = Some _ |- context [decode_map ?v None] => rewrite H by done
      | |- context [number_uint64 (int_number _)] => rewrite number_uint64_int by lia
      | |- context [number_int64 (int_number _)] => rewrite number_int64_int by lia
      end
    | progress cbn -[number_float number_uint64 number_int64 decode_map decode_list int_number decode_struct]
    | rewrite decode_members ].

Section Structs.
Context `{U : Unicode}.

(** * Structs *)
Lemma coordinates_read c : coordinates_wf c = true ->
  exists t v, marshal_coordinates c = Ok t /\ reads 1 t v /\ shaped (coordinates_document c) v /\
    forall old, decode_struct ["lat"; "lon"; "alt_m"] set_coordinates v old = Some c.
Proof.
  intros Hw. unfold coordinates_wf in Hw. split_checks.
  read_float 0 "lat" (Latitude c). read_float 0 "lon" (Longitude c). read_float 0 "alt_m" (AltitudeM c).
  destruct (marshal_fields_reads 0 _ [("lat", JNum n); ("lon", JNum n0); ("alt_m", JNum n1)]
    ltac:(done) ltac:(repeat (constructor; [eassumption|]); constructor)) as (t & Ht & Hrd).
  exists t. eexists. split; [exact Ht|]. split; [exact Hrd|]. split; [by repeat split|].
  intros old. rewrite decode_members. run_decoder. by destruct c.
Qed.

Lemma velocity_read v : velocity_wf v = true ->
  exists t j, marshal_velocity v = Ok t /\ reads 1 t j /\ shaped (velocity_document v) j /\
    forall old, decode_struct ["vx"; "vy"; "vz"; "speed_mps"] set_velocity j old = Some v.
Proof.
  intros Hw. unfold velocity_wf in Hw. split_checks.
  read_float 0 "vx" (VX v). read_float 0 "vy" (VY v). read_float 0 "vz" (VZ v). read_float 0 "speed_mps" (SpeedMps v).
  destruct (marshal_fields_reads 0 _ [("vx", JNum n); ("vy", JNum n0); ("vz", JNum n1); ("speed_mps", JNum n2)]
    ltac:(done) ltac:(repeat (constructor; [eassumption|]); constructor)) as (t & Ht & Hrd).
  exists t. eexists. split; [exact Ht|]. split; [exact Hrd|]. split; [by repeat split|].
  intros old. rewrite decode_members. run_decoder. by destruct v.
Qed.

Definition map_member (k : string) (m : option (list (string * any))) (v : jval) : list (string * jval) :=
  match m with None => [] | Some _ => [(k, v)] end.

(** The optional map of a payload, present or left out. *)
Lemma map_fields_read k m : valid_utf8 k = true -> map_wf m = true ->
  exists v, Forall2 (field_reads (maxNestingDepth - 2)) (map_field k m) (map_member k m v) /\
    shaped (SObject (optional k (SMap <$> m))) (JObj (map_member k m v)) /\ (m <> None -> decode_map v None = Some m).
Proof.
  intros Hk Hm. destruct m as [m|]; [|by exists JNull].
  destruct (map_field_reads k m Hk Hm) as (v & -> & Hf & Ha & Hd). exists v.
  split; [|by repeat split]. constructor; [exact Hf|constructor].
Qed.

Lemma telemetry_read t : telemetry_wf t = true ->
  exists s gs, marshal_telemetry t = Ok s /\ reads (maxNestingDepth - 1) s (JObj gs) /\
    shaped (telemetry_document t) (JObj gs) /\
    decode_struct telemetry_names set_telemetry (JObj gs) zero_telemetry = Some t.
Proof.
  intros Hw. unfold telemetry_wf in Hw. cbn [forallb] in Hw. split_checks.
  set (h := maxNestingDepth - 2). assert (1 <= h) as Hh by done.
  read_float h "battery_pct" (BatteryPct t). read_float h "heading_deg" (HeadingDeg t).
  destruct (coordinates_read (Coords t)) as (sc & vc & Hsc & Hrc & Hshc & Hdc); [done|].
  destruct (velocity_read (Vel t)) as (sv & vv & Hsv & Hrv & Hshv & Hdv); [done|].
  destruct (map_fields_read "mission_payload" (MissionPayload t)) as (vm & Hfm & Hshm & Hdm); [done|done|].
  set (gs := ([("vehicle_id", JStr (VehicleID t)); ("vehicle_type", JStr (VehicleType t)); ("team", JStr (Team t));
      ("state", JStr (State t)); ("battery_pct", JNum n); ("coordinates", vc); ("velocity", vv); ("heading_deg", JNum n0)]
      ++ map_member "mission_payload" (MissionPayload t) vm ++ [("sequence", JNum (int_number (Sequence t)))])%list).
  assert (exists s, marshal_telemetry t = Ok s /\ reads (h + 1) s (JObj gs)) as (s & Hs & Hrs).
  { apply marshal_fields_reads; [done|]. apply Forall2_app; [|apply Forall2_app; [exact Hfm|]]; read_fields;
      (eapply nested_field_reads; [lia|done| |by eexists]; lia). }
  exists s, gs. split; [exact Hs|]. split; [exact Hrs|]. split.
  { apply shaped_app; [by repeat split|]. by apply shaped_app. }
  subst gs. destruct t as [? ? ? ? ? ? ? ? m sq]. cbn in *.
  unfold map_member, uint64_wf in *.
  by destruct m as [m|]; run_decoder.
Qed.

Lemma command_read c : command_wf c = true ->
  exists s gs, marshal_command c = Ok s /\ reads (maxNestingDepth - 1) s (JObj gs) /\
    shaped (command_document c) (JObj gs) /\
    decode_struct command_names set_command (JObj gs) zero_command = Some c.
Proof.
  intros Hw. unfold command_wf in Hw. cbn [forallb] in Hw. split_checks.
  set (h := maxNestingDepth - 2). assert (1 <= h) as Hh by done.
  destruct (map_fields_read "parameters" (Parameters_ c)) as (vm & Hfm & Hshm & Hdm); [done|done|].
  set (gs := ([("command_id", JStr (CommandID c)); ("target_vehicle", JStr (TargetVehicle c));
      ("command_type", JStr (CommandType c))] ++ map_member "parameters" (Parameters_ c) vm
      ++ [("issued_at_ns", JNum (int_number (IssuedAtNs c))); ("issuer", JStr (Issuer c))])%list).
  assert (exists s, marshal_command c = Ok s /\ reads (h + 1) s (JObj gs)) as (s & Hs & Hrs).
  { apply marshal_fields_reads; [done|]. apply Forall2_app; [|apply Forall2_app; [exact Hfm|]]; read_fields. }
  exists s, gs. split; [exact Hs|]. split; [exact Hrs|]. split.
  { apply shaped_app; [by repeat split|]. by apply shaped_app. }
  subst gs. destruct c as [? ? ? m ia ?]. cbn in *.
  unfold map_member, int64_wf in *. by destruct m as [m|]; run_decoder.
Qed.

Lemma decode_strings l : decode_list (JArr (map JStr l)) [] = Some l.
Proof. cbn [decode_list]. induction l as [|s l IH]; [done|]. cbn. by rewrite IH. Qed.

Lemma header_read hd : header_wf hd = true ->
  exists s v, marshal_header hd = Ok s /\ reads 2 s v /\ shaped (header_document hd) v /\
    decode_struct header_names set_header v (mkHeader "" "" 0 "" "" []) = Some hd.
Proof.
  intros Hw. unfold header_wf in Hw. cbn [forallb] in Hw. split_checks.
  set (gs := ([("classification", JStr (Classification hd)); ("origin_enclave", JStr (OriginEnclave hd));
      ("timestamp_ns", JNum (int_number (TimestampNs hd))); ("message_id", JStr (MessageID hd));
      ("digest", JStr (Digest hd))] ++
      match Caveats hd with [] => [] | _ => [("caveats", JArr (map JStr (Caveats hd)))] end)%list).
  assert (exists s, marshal_header hd = Ok s /\ reads (1 + 1) s (JObj gs)) as (s & Hs & Hrs).
  { apply marshal_fields_reads; [done|]. apply Forall2_app; [read_fields|].
    destruct (decide (Caveats hd = [])) as [->|Hne]; [constructor|].
    destruct (list_field_reads "caveats" (Caveats hd)) as (r & -> & Hr'); [done|done|done|].
    destruct (Caveats hd); [done|]. constructor; [exact Hr'|constructor]. }
  exists s, (JObj gs). split; [exact Hs|]. split; [exact Hrs|]. split.
  { apply shaped_app; [by repeat split|]. by destruct (Caveats hd). }
  subst gs. destruct hd as [cl oe ts mi di ca].
  unfold int64_wf in *. cbn in *. pose proof (decode_strings ca) as Hl.
  destruct ca as [|c ca]; [by run_decoder|]. revert Hl. generalize (map JStr (c :: ca)) as vs. intros vs Hl.
  by run_decoder.
Qed.

(** ** Envelopes *)
Definition option_member {A} (k : string) (o : option A) (v : jval) : list (string * jval) :=
  match o with None => [] | Some _ => [(k, v)] end.

Lemma pointer_reads {A} k (enc : A -> result string string) names set (zero : A) (wf : A -> bool) doc (o : option A) :
  valid_utf8 k = true ->
  (forall a, wf a = true -> exists s gs, enc a = Ok s /\ reads (maxNestingDepth - 1) s (JObj gs) /\ shaped (doc a) (JObj gs) /\
    decode_struct names set (JObj gs) zero = Some a) ->
  match o with Some a => wf a | None => true end = true ->
  exists v, Forall2 (field_reads (maxNestingDepth - 1)) (match o with Some a => [(k, enc a)] | None => [] end)
      (option_member k o v) /\ shaped (SObject (optional k (doc <$> o))) (JObj (option_member k o v)) /\
    (o <> None -> decode_pointer names set zero v None = Some o).
Proof.
  intros Hk Henc Hw. destruct o as [a|]; [|by exists JNull]. destruct (Henc a Hw) as (s & gs & Hs & Hr & Hsh & Hd).
  exists (JObj gs). split; [|split; [by repeat split|]; intros _; unfold decode_pointer; cbn [default]; by rewrite Hd].
  constructor; [|constructor]. split; [done|]. split; [done|]. by exists s.
Qed.

Lemma envelope_read e : envelope_wf e = true ->
  exists s v, marshal_envelope e = Ok s /\ reads maxNestingDepth s v /\ shaped (envelope_document e) v /\
    decode_struct ["header"; "telemetry"; "command"] set_envelope v zero_envelope = Some e.
Proof.
  intros Hw. unfold envelope_wf in Hw. split_checks.
  destruct (header_read (Header e)) as (sh & vh & Hsh & Hrh & Hshh & Hdh); [done|].
  destruct (pointer_reads "telemetry" marshal_telemetry telemetry_names set_telemetry zero_telemetry telemetry_wf
    telemetry_document (Telemetry e) eq_refl telemetry_read ltac:(done)) as (vt & Hft & Hsht & Hdt).
  destruct (pointer_reads "command" marshal_command command_names set_command zero_command command_wf
    command_document (Command e) eq_refl command_read ltac:(done)) as (vc & Hfc & Hshc & Hdc).
  set (h := maxNestingDepth - 1) in *. assert (2 <= h) as Hh by done.
  set (gs := ([("header", vh)] ++ option_member "telemetry" (Telemetry e) vt ++ option_member "command" (Command e) vc)%list).
  assert (exists s, marshal_envelope e = Ok s /\ reads (h + 1) s (JObj gs)) as (s & Hs & Hrs).
  { apply marshal_fields_reads; [lia|]. apply Forall2_app; [|apply Forall2_app; [exact Hft|exact Hfc]].
    constructor; [|constructor]. eapply (nested_field_reads h ltac:(lia) 2); [done|lia|by eexists]. }
  exists s, (JObj gs). split; [exact Hs|]. split; [exact Hrs|]. split.
  { apply shaped_app; [by repeat split|]. by apply shaped_app. }
  subst gs. rewrite decode_members.
  destruct e as [hd t c]. cbn [Header Telemetry Command] in *.
  destruct t as [t|], c as [c|]; unfold option_member;
    repeat first [rewrite Hdh | rewrite Hdt by done | rewrite Hdc by done | progress cbn -[decode_struct decode_pointer]]; done.
Qed.

Lemma unmarshal_marshal_wf e :
  envelope_wf e = true -> exists s, marshal_envelope e = Ok s /\ unmarshal_envelope s = Some e.
Proof.
  intros Hw. destruct (envelope_read e Hw) as (s & v & Hs & Hr & _ & Hd). exists s. split; [done|].
  unfold unmarshal_envelope. by rewrite (reads_document _ _ _ (Z.le_refl _) Hr).
Qed.

(** C24. The document on the wire. The text written for a well-formed envelope is a JSON
    document, and to any JSON reader it says the same: the header under [header], the
    payloads, if there are any, under [telemetry] and [command], every field under the
    name of its struct tag with its own value, numbers as the very floats, integers in full,
    the optional fields left out when they are nil or empty, and no other member. *)
Theorem wire_document e :
  envelope_wf e = true ->
  exists text v, marshal_envelope e = Ok text /\ parse_json text = Some v /\ shaped (envelope_document e) v.
Proof.
  intros Hw. destruct (envelope_read e Hw) as (s & v & Hs & Hr & Hsh & _). exists s, v. split; [done|].
  split; [by apply (reads_document _ _ _ (Z.le_refl _) Hr)|done].
Qed.

(** C23. Envelopes survive the wire: a well-formed envelope - texts in UTF-8, finite
    numbers below 2^1013, integers of their width, maps of any nesting the scanner
    allows - is written, and what was written is decoded to the same envelope, field
    by field and bit by bit. *)
Theorem unmarshal_marshal e :
  envelope_wf e = true ->
  exists s, marshal_envelope e = Ok s /\ unmarshal_envelope s = Some e.
Proof.
  apply unmarshal_marshal_wf.
Qed.

(** ** What a digest binds *)

(** The payload that an envelope carries is well-formed. *)
Definition carried_wf (e : SecurityEnvelope) : bool :=
  match Telemetry e, Command e with
  | Some t, _ => telemetry_wf t
  | None, Some c => command_wf c
  | None, None => true
  end.

(** One text carries one payload. *)
Lemma carried_inj e1 e2 text :
  carried_wf e1 = true -> carried_wf e2 = true ->
  carried_text e1 = Some (Ok text) -> carried_text e2 = Some (Ok text) ->
  Telemetry e1 = Telemetry e2 /\ (Telemetry e1 = None -> Command e1 = Command e2).
Proof.
  assert (forall s v w, reads (maxNestingDepth - 1) s v -> reads (maxNestingDepth - 1) s w -> v = w) as Hdet.
  { intros s v w Hv Hw. apply reads_document in Hv, Hw; [congruence|done..]. }
  unfold carried_wf, carried_text.
  destruct (Telemetry e1) as [t1|], (Telemetry e2) as [t2|].
  - intros H1 H2 [= M1] [= M2]. destruct (telemetry_read t1 H1) as (s1 & g1 & E1 & R1 & _ & D1).
    destruct (telemetry_read t2 H2) as (s2 & g2 & E2 & R2 & _ & D2). split; [|done].
    assert (s1 = s2) as -> by congruence. rewrite (Hdet _ _ _ R1 R2), D2 in D1. congruence.
  - destruct (Command e2) as [c2|]; [|done]. intros H1 H2 [= M1] [= M2].
    destruct (telemetry_read t1 H1) as (s1 & g1 & E1 & R1 & S1 & _).
    destruct (command_read c2 H2) as (s2 & g2 & E2 & R2 & S2 & _). exfalso.
    assert (s1 = s2) as -> by congruence. pose proof (Hdet _ _ _ R1 R2) as [= <-].
    destruct g1 as [|[k v] g1]; [done|]. destruct S1 as [-> _], S2 as [[=] _].
  - destruct (Command e1) as [c1|]; [|done]. intros H1 H2 [= M1] [= M2].
    destruct (command_read c1 H1) as (s1 & g1 & E1 & R1 & S1 & _).
    destruct (telemetry_read t2 H2) as (s2 & g2 & E2 & R2 & S2 & _). exfalso.
    assert (s1 = s2) as -> by congruence. pose proof (Hdet _ _ _ R1 R2) as [= <-].
    destruct g1 as [|[k v] g1]; [done|]. destruct S1 as [-> _], S2 as [[=] _].
  - destruct (Command e1) as [c1|], (Command e2) as [c2|]; try done. intros H1 H2 [= M1] [= M2]. split; [done|]. intros _.
    destruct (command_read c1 H1) as (s1 & g1 & E1 & R1 & _ & D1).
    destruct (command_read c2 H2) as (s2 & g2 & E2 & R2 & _ & D2).
    assert (s1 = s2) as -> by congruence. rewrite (Hdet _ _ _ R1 R2), D2 in D1. congruence.
Qed.

(** C3. What an accepted digest binds. Take two envelopes of one digest, up to letter
    case, that validation accepts and hands on, their telemetry rounded. The payloads they
    then carry - the telemetry or, without one, the command - have one JSON text, and if
    well-formed (in the sense of the round trip of envelopes) are equal field by field,
    or two different texts of one SHA-256 hash are at hand. Bound is the rounded payload only: a change that rounding removes is
    accepted, and so is any command beside telemetry. *)
Theorem Validate_digest_binds `{UL : !UnicodeLaws U} e1 e2 e1' e2' :
  Validate (Some e1) = (None, Some e1') -> Validate (Some e2) = (None, Some e2') ->
  str_map lower_ascii (Digest (Header e1)) = str_map lower_ascii (Digest (Header e2)) ->
  exists text1 text2, carried_text e1' = Some (Ok text1) /\ carried_text e2' = Some (Ok text2) /\
    ((text1 = text2 /\ (carried_wf e1' = true -> carried_wf e2' = true ->
        Telemetry e1' = Telemetry e2' /\ (Telemetry e1' = None -> Command e1' = Command e2'))) \/
     (text1 <> text2 /\ sha256 text1 = sha256 text2)).
Proof.
  intros H1 H2 Hd. destruct (digest_binds_text _ _ _ _ H1 H2 Hd) as (t1 & t2 & E1 & E2 & Hs).
  exists t1, t2. split; [done|]. split; [done|]. destruct (decide (t1 = t2)) as [<-|Hne]; [left|by right].
  split; [done|]. intros W1 W2. by apply (carried_inj e1' e2' t1).
Qed.
End Structs.

(** * What the constructors build is well-formed *)
Lemma is_hex_lower_ascii s : str_forall is_hex_lower s = true -> valid_utf8 s = true.
Proof.
  intros H. apply valid_utf8_ascii. revert H. apply str_forall_impl.
  intros a Ha. by apply is_hex_lower_fix.
Qed.

Lemma digits_ascii s : digits s = true -> valid_utf8 s = true.
Proof.
  intros H. apply valid_utf8_ascii. revert H. apply str_forall_impl.
  intros a Ha. unfold is_digit in Ha. unfold is_ascii. lia.
Qed.

Lemma dec_valid z : valid_utf8 (dec z) = true.
Proof.
  assert (forall p, valid_utf8 (dec (Zpos p)) = true) as Hp
    by (intros p; apply digits_ascii; by apply int_part_digits, dec_pos).
  destruct z as [|p|p]; [done|done|]. rewrite dec_neg. by apply (valid_utf8_app "-").
Qed.

Lemma digest_valid payload d : ComputePayloadDigest payload = Ok d -> valid_utf8 d = true.
Proof.
  destruct payload as [[text|e]|]; [|done..]. intros [= <-]. apply is_hex_lower_ascii, EncodeToString_hex, sha256_bytes.
Qed.

Lemma sound_portable x : sound_float x -> portable x = true.
Proof.
  intros [Hv Hr]. destruct x as [s| | |s m e]; try done. unfold valid in Hv. cbn [valid_binary portable] in *.
  apply andb_true_iff. split; [exact Hv|]. cbn [in_range] in Hr. destruct (0 <=? e) eqn:E; [|lia].
  apply Z.leb_le in Hr. assert (2 ^ e <= 2 ^ 29) as He
    by (pose proof (Z.pow_pos_nonneg 2 e ltac:(lia) ltac:(lia)); nia).
  apply Z.leb_le. apply Z.pow_le_mono_r_iff in He; lia.
Qed.

(** The texts of a report. *)
Definition texts_wf (t : TelemetryPayload) : bool := forallb valid_utf8 [VehicleID t; VehicleType t; Team t; State t].

Lemma Normalize_wf t :
  Forall sound_float (telemetry_floats t) -> texts_wf t = true -> map_wf (MissionPayload t) = true ->
  uint64_wf (Sequence t) = true -> telemetry_wf (Normalize t) = true.
Proof.
  unfold telemetry_floats. rewrite !Forall_cons.
  intros (Hb & Hh & Hla & Hlo & Hal & Hx & Hy & Hz & Hs & _) Ht Hm Hq.
  assert (forall d x, d ∈ [1; 2; 6] -> sound_float x -> portable (roundFloat x d) = true) as Hr
    by (intros; by apply sound_portable, roundFloat_sound).
  unfold telemetry_wf, coordinates_wf, velocity_wf. unfold texts_wf in Ht.
  cbn -[forallb valid_utf8 portable roundFloat map_wf uint64_wf] in *.
  rewrite Ht, Hm, Hq, !Hr; try done; rewrite !elem_of_cons; auto.
Qed.

Lemma valid_tier_utf8 c : valid_tier c = true -> valid_utf8 c = true.
Proof.
  rewrite valid_tier_spec, !elem_of_cons, elem_of_nil. by intros [->|[->|[->|[]]]].
Qed.

Section Built.
Context `{U : Unicode}.

Lemma NewTelemetryEnvelope_wf c o t cav now1 now2 env :
  NewTelemetryEnvelope c o t cav now1 now2 = Ok env ->
  Forall sound_float (telemetry_floats t) -> texts_wf t = true -> map_wf (MissionPayload t) = true ->
  uint64_wf (Sequence t) = true -> valid_utf8 o = true -> forallb valid_utf8 cav = true -> int64_wf now2 = true ->
  envelope_wf env = true.
Proof.
  unfold NewTelemetryEnvelope. destruct (valid_tier c) eqn:Ec; [|done]. cbn [negb].
  destruct (ComputePayloadDigest _) as [d|] eqn:Ed; [|done]. intros [= <-] Hf Ht Hm Hq Ho Hcav Hn.
  unfold envelope_wf, header_wf. cbn [Header Telemetry Command Classification OriginEnclave MessageID Digest Caveats TimestampNs].
  rewrite (Normalize_wf t), Hcav, Hn by done. cbn [forallb]. rewrite Ho, (digest_valid _ _ Ed).
  assert (valid_utf8 c = true) as ->.
  { by apply valid_tier_utf8. }
  assert (valid_utf8 (VehicleID (Normalize t)) = true) as Hid 
    by (unfold texts_wf in Ht; cbn [forallb] in Ht; by apply andb_prop in Ht as [? _]).
  pose proof (valid_utf8_app "msg-" (dec now1 +:+ "-" +:+ VehicleID (Normalize t))) as Hmsg.
  match goal with |- context [valid_utf8 (String "m" ?s)] => assert (valid_utf8 (String "m" s) = true) as -> end; [|done].
  apply Hmsg; [done|]. apply valid_utf8_app; [apply dec_valid|]. by apply (valid_utf8_app "-").
Qed.

Lemma NewCommandEnvelope_wf c o cmd cav now1 now2 env :
  NewCommandEnvelope c o cmd cav now1 now2 = Ok env -> IssuedAtNs cmd <> 0 ->
  command_wf cmd = true -> valid_utf8 o = true -> forallb valid_utf8 cav = true -> int64_wf now2 = true ->
  envelope_wf env = true.
Proof.
  unfold NewCommandEnvelope. destruct (valid_tier c) eqn:Ec; [|done]. cbn [negb].
  destruct (ComputePayloadDigest _) as [d|] eqn:Ed; [|done]. intros [= <-] Hi Hc Ho Hcav Hn.
  rewrite (proj2 (Z.eqb_neq _ _)) by done. unfold envelope_wf, header_wf.
  cbn [Header Telemetry Command Classification OriginEnclave MessageID Digest Caveats TimestampNs].
  rewrite Hcav, Hn, Hc. cbn [forallb]. rewrite Ho, (digest_valid _ _ Ed).
  assert (valid_utf8 c = true) as ->.
  { by apply valid_tier_utf8. }
  unfold command_wf in Hc. cbn [forallb] in Hc. by destruct (valid_utf8 (CommandID cmd)).
Qed.
End Built.

(** * A concrete envelope *)
Module RoundTripSamples.
Definition nested : any :=
  AMap [("depths", AList [ANum (lit (-5) 1); ANil; AMap []]); ("note", AStr ("a<b" +:+ chr 10 +:+ chr 195 +:+ chr 169))].
Definition sample : SecurityEnvelope :=
  mkEnvelope (mkHeader Tier2Restricted "edge" (- 2 ^ 63) "m-1" "" ["x"; "y&z"])
    (Some (mkTelemetry "blue-alpha" "drone" "blue" "PATROL" (lit 985 1)
       (mkCoordinates (lit 31625 3) (lit (-8082) 3) (of_Z (10 ^ 21))) (mkVelocity (S754_zero true) (lit 1 7) fzero (of_Z 14))
       (of_Z 90) (Some [("nested", nested)]) (2 ^ 64 - 1)))
    (Some (mkCommand "c" "" "HOVER" None 0 "op")).
End RoundTripSamples.

Lemma unmarshal_marshal_witness :
  exists s, marshal_envelope RoundTripSamples.sample = Ok s /\
    unmarshal_envelope (U:=caseless) s = Some RoundTripSamples.sample.
Proof.
  assert (envelope_wf RoundTripSamples.sample = true) as H by (vm_compute; reflexivity).
  apply (@unmarshal_marshal caseless RoundTripSamples.sample H).
Defined.

(** An empty map is left out by the encoder and comes back as nil. *)
Example empty_map_lost :
  map_wf (Some []) = false /\
  match marshal_command (mkCommand "c" "t" "HOVER" (Some []) 1 "op") with
  | Ok s => match parse_json s with
            | Some v => decode_struct (U:=caseless) command_names set_command v zero_command =
                Some (mkCommand "c" "t" "HOVER" None 1 "op")
            | None => False
            end
  | Err _ => False
  end.
Proof. by vm_compute. Qed.

Lemma wire_document_witness :
  exists text v, marshal_envelope RoundTripSamples.sample = Ok text /\ parse_json text = Some v /\
    shaped (envelope_document RoundTripSamples.sample) v.
Proof.
  assert (envelope_wf RoundTripSamples.sample = true) as H by (vm_compute; reflexivity).
  apply (@wire_document caseless RoundTripSamples.sample H).
Defined.

(** Two envelopes of one report, of different tiers. *)
Lemma Validate_digest_binds_witness :
  (@Validate caseless (Some Samples.env2)).1 = None /\ (@Validate caseless (Some Samples.env3)).1 = None /\
  exists text1 text2, carried_text Samples.env2 = Some (Ok text1) /\ carried_text Samples.env3 = Some (Ok text2) /\
    ((text1 = text2 /\ (carried_wf Samples.env2 = true -> carried_wf Samples.env3 = true ->
        Telemetry Samples.env2 = Telemetry Samples.env3 /\
        (Telemetry Samples.env2 = None -> Command Samples.env2 = Command Samples.env3))) \/
     (text1 <> text2 /\ sha256 text1 = sha256 text2)).
Proof.
  split; [exact Samples.env2_valid|]. split; [exact Samples.env3_valid|].
  assert (@Validate caseless (Some Samples.env2) = (None, Some Samples.env2)) as H2 by (vm_compute; reflexivity).
  assert (@Validate caseless (Some Samples.env3) = (None, Some Samples.env3)) as H3 by (vm_compute; reflexivity).
  assert (str_map lower_ascii (Digest (Header Samples.env2)) = str_map lower_ascii (Digest (Header Samples.env3))) as Hd
    by (vm_compute; reflexivity).
  exact (@Validate_digest_binds caseless caseless_laws _ _ _ _ H2 H3 Hd).
Defined.
