(* ===== verification/FloatValid.v ===== *)
(** Rounding always yields a canonical float: what [binary_round_aux] computes from
    any significand is [valid], so quotients, integers and decimals read from a text
    are floats of Go. *)
From Stdlib Require Import SpecFloat.
From S2P Require Import Prelude GoString Float64 Json FloatRange.

Local Open Scope Z_scope.

(** An exact value for a significand and the location of its remainder. *)
Lemma rep_of_loc mx l : 0 <= mx -> exists N D, 0 < D /\ 0 <= N /\ rep (shr_record_of_loc mx l) N D.
Proof.
  intros Hm. unfold rep. destruct l as [|[]]; cbn [shr_record_of_loc shr_m shr_r shr_s].
  - exists mx, 1. rewrite Z.div_1_r, Z.mod_1_r. by split_and!.
  - exists (2 * mx + 1), 2. rewrite <- (Z.mod_unique_pos (2 * mx + 1) 2 mx 1), <- (Z.div_unique_pos (2 * mx + 1) 2 mx 1) by lia.
    split_and!; done || lia.
  - exists (4 * mx + 1), 4. rewrite <- (Z.mod_unique_pos (4 * mx + 1) 4 mx 1), <- (Z.div_unique_pos (4 * mx + 1) 4 mx 1) by lia.
    split_and!; done || lia.
  - exists (4 * mx + 3), 4. rewrite <- (Z.mod_unique_pos (4 * mx + 3) 4 mx 3), <- (Z.div_unique_pos (4 * mx + 3) 4 mx 3) by lia.
    split_and!; done || lia.
Qed.

Lemma round_nearest_even_near m l : m <= round_nearest_even m l <= m + 1.
Proof. destruct l as [|[]]; cbn; [lia| |lia..]. destruct (Z.even m); lia. Qed.

Lemma Zdigits2_bounds m : 0 <= m -> m < 2 ^ Zdigits2 m /\ (0 < m -> 2 ^ (Zdigits2 m - 1) <= m) /\ 0 <= Zdigits2 m.
Proof. intros Hm. destruct m as [|p|p]; [done| |lia]. cbn [Zdigits2]. pose proof (digits2_pos_bounds p). lia. Qed.

(** A significand of at most 53 bits, and with 53 bits unless the exponent is the
    least, is canonical. *)
Lemma canonical s m e :
  Zpos m < 2 ^ 53 -> 2 ^ 52 <= Zpos m \/ e = -1074 -> -1074 <= e <= 971 -> valid (S754_finite s m e).
Proof.
  intros Hm Hc He. unfold valid. cbn [valid_binary]. unfold bounded, canonical_mantissa. rewrite fexp_eq.
  pose proof (digits_le m 53 Hm ltac:(lia)) as Hd. apply andb_true_iff. split; [|change emax with 1024; lia].
  apply Z.eqb_eq. destruct Hc as [Hlo|Hc]; [|lia]. pose proof (digits_ge m 52 Hlo ltac:(lia)). lia.
Qed.

(** The end of the rounding: overflow gives an infinity. *)
Lemma finish_valid s R e :
  0 <= R <= 2 ^ 53 -> 2 ^ 52 <= R \/ e = -1074 -> -1074 <= e ->
  valid (let '(mrs, e') := shr_fexp 53 1024 R e loc_Exact in
   match shr_m mrs with
   | Z0 => S754_zero s
   | Zpos m => if e' <=? 1024 - 53 then S754_finite s m e' else S754_infinity s
   | _ => S754_nan
   end).
Proof.
  intros HR Hc He. destruct (decide (R = 2 ^ 53)) as [->|HR'].
  - unfold shr_fexp. rewrite fexp_eq. change (Zdigits2 (2 ^ 53)) with 54.
    replace (Z.max (54 + e - 53) (-1074) - e) with 1 by lia. cbn [shr].
    change (SpecFloat.iter_pos shr_1 1 (shr_record_of_loc (2 ^ 53) loc_Exact))
      with {| shr_m := 2 ^ 52; shr_r := false; shr_s := false |}. cbn [shr_m].
    change (2 ^ 52) with (Zpos (2 ^ 52)). destruct (e + 1 <=? 1024 - 53) eqn:E; [|done].
    apply canonical; [done|by left|lia].
  - rewrite shr_fexp_short by lia. cbn [shr_record_of_loc shr_m]. destruct R as [|p|p]; [done| |done].
    destruct (e <=? 1024 - 53) eqn:E; [|done]. apply canonical; lia.
Qed.

Lemma binary_round_aux_valid s mx ex l :
  0 <= mx -> ex <= fexp 53 1024 (Zdigits2 mx + ex) -> valid (binary_round_aux 53 1024 s mx ex l).
Proof.
  intros Hm Hex. unfold binary_round_aux. set (e1 := fexp 53 1024 (Zdigits2 mx + ex)) in *.
  assert (shr_fexp 53 1024 mx ex l = shr (shr_record_of_loc mx l) ex (e1 - ex)) as -> by done.
  destruct (rep_of_loc mx l Hm) as (N & D & HD & HN & Hrep).
  destruct (rep_shr (e1 - ex) (shr_record_of_loc mx l) N D ex) as [(Hq & _) He]; [lia..|done|].
  destruct (shr _ ex (e1 - ex)) as [mrs e']. cbn [fst snd] in *. replace e' with e1 by lia. clear e' He.
  assert (mx = N / D) as Emx by (destruct Hrep as [H _]; destruct l as [|[]]; exact H).
  rewrite Z.mul_comm, <- Z.div_div, <- Emx in Hq by lia.
  pose proof (Z.pow_pos_nonneg 2 (e1 - ex) ltac:(lia) ltac:(lia)) as Hp.
  destruct (Zdigits2_bounds mx Hm) as (Hhi & Hlo & Hd).
  pose proof (round_nearest_even_near (shr_m mrs) (loc_of_shr_record mrs)) as HR.
  assert (-1074 <= e1 /\ Zdigits2 mx + ex - 53 <= e1) as [He1 He2] by (unfold e1; rewrite fexp_eq; lia).
  assert (0 <= shr_m mrs < 2 ^ 53) as Hr.
  { rewrite Hq. split; [by apply Z.div_pos|]. apply Z.div_lt_upper_bound; [done|]. rewrite <- Z.pow_add_r by lia.
    eapply Z.lt_le_trans; [exact Hhi|]. apply Z.pow_le_mono_r; lia. }
  apply finish_valid; [lia| |done]. destruct (decide (e1 = -1074)) as [|Hne]; [by right|left].
  assert (e1 = Zdigits2 mx + ex - 53) as E by (unfold e1 in *; rewrite fexp_eq in *; lia).
  assert (0 < mx) as Hpos.
  { destruct (decide (mx = 0)) as [->|]; [cbn in E; lia|lia]. }
  enough (2 ^ 52 <= shr_m mrs) by lia. rewrite Hq. apply Z.div_le_lower_bound; [done|].
  rewrite <- Z.pow_add_r by lia. eapply Z.le_trans; [|by apply Hlo]. apply Z.pow_le_mono_r; lia.
Qed.

(** * Conversions and quotients *)
Lemma Zdigits2_ge m k : 0 < m -> 2 ^ k <= m -> k + 1 <= Zdigits2 m.
Proof.
  intros Hm Hk. destruct (Z.ltb_spec k 0) as [H|H].
  - destruct (Zdigits2_bounds m) as (H1 & H2 & H3); [lia|]. destruct m as [|p|p]; cbn in *; lia.
  - destruct m as [|p|p]; [lia| |lia]. by apply digits_ge.
Qed.

Lemma Zdigits2_pow2 p k : 0 <= k -> Zdigits2 (Zpos p * 2 ^ k) = Zpos (digits2_pos p) + k.
Proof.
  intros Hk. pose proof (digits2_pos_bounds p) as [Hl Hu]. pose proof (Z.pow_pos_nonneg 2 k).
  destruct (Zpos p * 2 ^ k) as [|q|q] eqn:E; [lia| |lia]. apply digits2_pos_unique; [lia|]. rewrite <- E.
  replace (Zpos (digits2_pos p) + k - 1) with ((Zpos (digits2_pos p) - 1) + k) by lia.
  rewrite !Z.pow_add_r by lia. nia.
Qed.

Lemma binary_round_valid s p e : valid (binary_round 53 1024 s p e).
Proof.
  unfold binary_round. set (e' := fexp 53 1024 _). destruct (Z.leb_spec e e') as [He|He].
  - rewrite shl_align_none by done. apply binary_round_aux_valid; [lia|exact He].
  - pose proof (shl_align_spec p e e') as Hq. replace (Z.max 0 (e - e')) with (e - e') in Hq by lia.
    assert ((shl_align p e e').2 = e') as Hz.
    { unfold shl_align. destruct (e' - e) eqn:E; cbn; lia. }
    destruct (shl_align p e e') as [q z]. cbn [fst snd] in *. subst z.
    apply binary_round_aux_valid; [lia|]. rewrite Hq, Zdigits2_pow2 by lia.
    unfold e'. rewrite !fexp_eq. lia.
Qed.

Lemma of_Z_valid n : valid (of_Z n).
Proof. unfold of_Z, binary_normalize. destruct n; [done|apply binary_round_valid..]. Qed.

Lemma fadd_valid x y : valid x -> valid y -> valid (fadd x y).
Proof.
  intros Hx Hy. destruct x as [[]|[]| |sx mx ex], y as [[]|[]| |sy my ey]; try done.
  unfold fadd, SFadd, binary_normalize. set (m := _ + _). destruct m; [done|apply binary_round_valid..].
Qed.

Lemma SFdiv_finite_valid s1 m1 e1 s2 m2 e2 : valid (fdiv (S754_finite s1 m1 e1) (S754_finite s2 m2 e2)).
Proof.
  unfold fdiv, SFdiv, SFdiv_core_binary. cbn [Zdigits2].
  pose proof (digits2_pos_bounds m1) as [Hl1 Hu1]. pose proof (digits2_pos_bounds m2) as [Hl2 Hu2].
  set (d1 := Zpos (digits2_pos m1)) in *. set (d2 := Zpos (digits2_pos m2)) in *.
  set (e' := Z.min _ _). set (m' := match _ with Z0 => _ | Zpos _ => _ | Zneg _ => _ end).
  assert (m' = Zpos m1 * 2 ^ (e1 - e2 - e')) as Hm'.
  { unfold m'. destruct (e1 - e2 - e') as [|k|k] eqn:E; [lia| |lia]. by rewrite Z.shiftl_mul_pow2 by lia. }
  clearbody m'. subst m'. set (k := e1 - e2 - e') in *. assert (0 <= k) as Hk by lia.
  pose proof (Z.pow_pos_nonneg 2 k ltac:(lia) Hk) as Hp.
  set (n := Zpos m1 * 2 ^ k). assert (0 < n) as Hn by lia.
  pose proof (Z.div_pos n (Zpos m2) ltac:(lia) ltac:(lia)) as Hq0.
  assert (e' <= fexp 53 1024 (Zdigits2 (n / Zpos m2) + e')) as Hex.
  { rewrite fexp_eq. unfold e' at 1. rewrite fexp_eq. destruct (decide (d1 + k - d2 - 1 < 0)) as [Hneg|Hpos].
    - destruct (Zdigits2_bounds (n / Zpos m2) Hq0) as (_ & _ & ?). lia.
    - assert (2 ^ (d1 + k - d2 - 1) <= n / Zpos m2) as Hq.
      { apply Z.div_le_lower_bound; [lia|].
        transitivity (2 ^ d2 * 2 ^ (d1 + k - d2 - 1)).
        - apply Z.mul_le_mono_nonneg_r; [by apply Z.pow_nonneg|lia].
        - rewrite <- Z.pow_add_r by lia. replace (d2 + (d1 + k - d2 - 1)) with ((d1 - 1) + k) by lia.
          rewrite Z.pow_add_r by lia. unfold n. nia. }
      pose proof (Z.pow_pos_nonneg 2 (d1 + k - d2 - 1)).
      pose proof (Zdigits2_ge (n / Zpos m2) (d1 + k - d2 - 1)). lia. }
  revert Hq0 Hex. unfold Z.div. destruct (Z.div_eucl n (Zpos m2)) as [q r]. intros Hq0 Hex.
  by apply binary_round_aux_valid.
Qed.

(** Every number literal that is in range is a float. *)
Lemma of_decimal_valid c e : valid (of_decimal c e).
Proof.
  unfold of_decimal. destruct (0 <=? e); [apply of_Z_valid|]. destruct c; [done| |done]. apply SFdiv_finite_valid.
Qed.

Lemma fneg_valid x : valid x -> valid (fneg x).
Proof. by destruct x. Qed.

Lemma number_float_valid n x : number_float n = Some x -> valid x.
Proof.
  unfold number_float. set (y := of_decimal _ _). assert (valid y) as Hy by apply of_decimal_valid.
  destruct y as [s|s| |s m e]; try done; intros [= <-]; destruct (num_neg n); by try apply fneg_valid.
Qed.
