(* ===== verification/Typed.v ===== *)
(** Forwarding. What decoding yields is well typed, whatever bytes arrived: texts are
    valid UTF-8, numbers are finite canonical floats and integers of their width, maps
    have distinct keys, which the model keeps sorted, and nothing is nested beyond the
    limit of the scanner. So a decoded envelope that is encoded again is read back
    unchanged, up to empty maps. *)
From Stdlib Require Import Strings.Ascii Strings.String SpecFloat.
From S2P Require Import Prelude GoString Utf8 Float64 Json JsonFacts JsonText JsonValue FloatValid Schema Decoded RoundTrip.

Set Warnings "-register-all".

Local Open Scope string_scope.
Local Open Scope Z_scope.
Local Open Scope go_scope.

(** * Postconditions of fallible computations *)
Definition yields {A} (r : option A) (Q : A -> Prop) : Prop := forall a, r = Some a -> Q a.

Lemma yields_ret {A} (Q : A -> Prop) a : Q a -> yields (Some a) Q.
Proof. by intros ? ? [= <-]. Qed.
Lemma yields_none {A} (Q : A -> Prop) : yields None Q.
Proof. by intros ? [=]. Qed.
Lemma yields_bind {A B} (P : A -> Prop) (Q : B -> Prop) r (k : A -> option B) :
  yields r P -> (forall a, P a -> yields (k a) Q) -> yields (x ← r; k x) Q.
Proof. intros Hr Hk b. destruct r as [a|]; [|done]. by apply Hk, Hr. Qed.
Lemma yields_fmap {A B} (P : A -> Prop) (Q : B -> Prop) r (f : A -> B) :
  yields r P -> (forall a, P a -> Q (f a)) -> yields (f <$> r) Q.
Proof. intros Hr Hf b. destruct r as [a|]; [|done]. intros [= <-]. by apply Hf, Hr. Qed.
Lemma yields_weaken {A} (P Q : A -> Prop) r : yields r P -> (forall a, P a -> Q a) -> yields r Q.
Proof. intros Hr HPQ a Ha. by apply HPQ, Hr. Qed.
Lemma yields_True {A} (r : option A) : yields r (fun _ => True).
Proof. done. Qed.

Lemma yields_elim {A} (Q : A -> Prop) r a : yields r Q -> r = Some a -> Q a.
Proof. intros Hr. apply Hr. Qed.

(** From here on the postconditions are handled by their rules only. *)
#[global] Opaque yields.

(** * Texts *)

(** Every rune is encoded as valid UTF-8. *)
Lemma az_za_byte z : 0 <= z < 256 -> az (za z) = z.
Proof. intros H. rewrite az_za. by apply Z.mod_small. Qed.

Lemma chr_app z s : chr z +:+ s = String (za z) s.
Proof. done. Qed.

Lemma encode_rune_valid r : valid_utf8 (encode_rune r) = true.
Proof.
  apply valid_utf8_text. unfold encode_rune. match goal with |- context [if ?b then RuneError else r] => set (c := if b then RuneError else r) end.
  assert (0 <= c <= 0x10FFFF /\ ~ (0xD800 <= c <= 0xDFFF)) as [Hc Hs].
  { unfold c, RuneError. destruct (_ || _) eqn:E; lia. }
  clearbody c. clear r. change (2 ^ 6) with 64. change (2 ^ 12) with 4096. change (2 ^ 18) with 262144.
  assert (forall e, (exists x, encoded x e) -> is_text e) as Ht.
  { intros e [x Hx]. rewrite <- (str_app_nil_r e). apply (text_cons x e EmptyString Hx). constructor. }
  rewrite !chr_app. unfold chr. apply Ht.
  destruct (c <? 0x80) eqn:E1; [|destruct (c <? 0x800) eqn:E2; [|destruct (c <? 0x10000) eqn:E3]]; eexists;
    [apply encoded1|apply encoded2|apply encoded3|apply encoded4]; unfold in_cont; rewrite !az_za_byte;
    Z.to_euclidean_division_equations; lia.
Qed.

(** A parsed text together with what follows it. *)
Abbreviation text_parsed := (fun x : string * string => valid_utf8 x.1 = true).

Lemma parse_escape_valid a s : yields (parse_escape a s) text_parsed.
Proof.
  unfold parse_escape. repeat match goal with
  | |- yields (if ?b then _ else _) _ => destruct b eqn:?
  | |- yields (Some _) _ => apply yields_ret; first [apply encode_rune_valid|reflexivity|idtac]
  | |- yields None _ => apply yields_none
  | |- yields (mbind _ _) _ => eapply yields_bind; [apply yields_True|]; intros [z r] _
  | |- yields (match ?o with Some _ => _ | None => _ end) _ => destruct o as [[]|]
  end.
  cbn [fst]. assert (az a = 34 \/ az a = 92 \/ az a = 47) as [->|[->| ->]] by lia; reflexivity.
Qed.

Lemma parse_string_valid fuel s : yields (parse_string fuel s) text_parsed.
Proof.
  revert s. induction fuel as [|fuel IH]; intros [|a s]; [apply yields_none..|]. cbn [parse_string].
  destruct (az a =? 34); [by apply yields_ret|]. destruct (az a =? 92).
  - destruct s as [|b s]; [apply yields_none|]. eapply yields_bind; [apply parse_escape_valid|]. intros [t r] Ht.
    eapply yields_bind; [apply IH|]. intros [u r'] Hu. apply yields_ret. by apply valid_utf8_app.
  - destruct (az a <? 32); [apply yields_none|]. destruct (decode_rune (String a s)) as [c w].
    eapply yields_bind; [apply IH|]. intros [u r'] Hu. apply yields_ret. apply valid_utf8_app; [apply encode_rune_valid|done].
Qed.

(** * Parsed values *)

(** A value of texts and digits, nested at most [h] deep. *)
Inductive jtyped : Z -> jval -> Prop :=
| jt_null h : jtyped h JNull
| jt_bool h b : jtyped h (JBool b)
| jt_num h n : str_forall is_digit (num_int n) = true -> jtyped h (JNum n)
| jt_str h s : valid_utf8 s = true -> jtyped h (JStr s)
| jt_arr h l : 0 < h -> Forall (jtyped (h - 1)) l -> jtyped h (JArr l)
| jt_obj h l : 0 < h -> Forall (fun kv => valid_utf8 kv.1 = true /\ jtyped (h - 1) kv.2) l -> jtyped h (JObj l).

Lemma take_digits_digits s : str_forall is_digit (take_digits s).1 = true.
Proof.
  induction s as [|a s IH]; [done|]. cbn [take_digits]. destruct (is_digit a) eqn:E; [|done].
  destruct (take_digits s) as [d r]. cbn [fst str_forall] in *. by rewrite E, IH.
Qed.

Lemma parse_number_digits s : yields (parse_number s) (fun x => str_forall is_digit (num_int x.1) = true).
Proof.
  unfold parse_number. match goal with |- yields (let '(neg, s0) := ?x in _) _ => destruct x as [neg s1] end.
  match goal with |- yields (let '(i, s0) := ?x in _) _ => assert (str_forall is_digit x.1 = true) as Hi end.
  { pose proof (take_digits_digits s1). destruct s1 as [|[[] [] [] [] [] [] [] []] s1]; done. }
  match goal with |- yields (let '(i, s0) := ?x in _) _ => destruct x as [i s2] end. cbn [fst] in Hi.
  destruct (negb (nonempty i)); [apply yields_none|].
  match goal with |- yields match ?x with _ => _ end _ => destruct x as [[f s3]|]; [|apply yields_none] end.
  eapply yields_bind; [apply yields_True|]. intros [e r] _. by apply yields_ret.
Qed.

Lemma expect_yields (P : jval -> Prop) lit v s : P v -> yields (expect lit v s) (fun x => P x.1).
Proof. intros Hv. unfold expect. destruct (HasPrefix s lit); [by apply yields_ret|apply yields_none]. Qed.

(** The three parsers, by induction on the fuel. *)
Abbreviation value_at depth := (fun x : jval * string => jtyped (maxNestingDepth - depth) x.1).
Abbreviation member_at h := (fun kv : string * jval => valid_utf8 kv.1 = true /\ jtyped h kv.2).
Abbreviation members_at depth :=
  (fun x : list (string * jval) * string => Forall (member_at (maxNestingDepth - depth)) x.1).
Abbreviation elements_at depth := (fun x : list jval * string => Forall (jtyped (maxNestingDepth - depth)) x.1).

(** Looking at the next character, whichever it is. *)
Ltac next_char s := destruct s as [|[[] [] [] [] [] [] [] []] s]; try apply yields_none.

Definition parses_typed (fuel : nat) : Prop :=
  (forall depth s, yields (parse_value fuel depth s) (value_at depth)) /\
  (forall depth s, yields (parse_members fuel depth s) (members_at depth)) /\
  (forall depth s, yields (parse_elements fuel depth s) (elements_at depth)).

Lemma members_typed fuel : parses_typed fuel -> forall depth s, yields (parse_members (S fuel) depth s) (members_at depth).
Proof.
  intros (HV & HM & _) depth s. cbn [parse_members]. destruct (skip_ws s) as [|q s1]; [apply yields_none|].
  destruct (az q =? 34); [|apply yields_none].
  eapply yields_bind; [apply parse_string_valid|]. intros [k r] Hk. cbn [fst] in Hk.
  destruct (skip_ws r) as [|c r1]; [apply yields_none|].
  enough (forall r1, yields ('(v, r2) ← parse_value fuel depth r1; match skip_ws r2 with
    | String "," r3 => '(l, r4) ← parse_members fuel depth r3; Some ((k, v) :: l, r4)
    | String "}" r3 => Some ([(k, v)], r3)
    | _ => None end) (members_at depth)) as Hgo
    by (destruct c as [[] [] [] [] [] [] [] []]; first [apply yields_none|apply Hgo]).
  intros r2. eapply yields_bind; [apply HV|]. intros [v r3] Hv. cbn [fst] in Hv. destruct (skip_ws r3) as [|c2 r4]; [apply yields_none|].
  assert (forall r, yields ('(l, r4) ← parse_members fuel depth r; Some ((k, v) :: l, r4)) (members_at depth)) as Hmore.
  { intros r'. eapply yields_bind; [apply HM|]. intros [l r5] Hl. apply yields_ret. by constructor. }
  assert (yields (Some ([(k, v)], r4)) (members_at depth)) as Hend by (apply yields_ret; by repeat constructor).
  by destruct c2 as [[] [] [] [] [] [] [] []]; first [apply yields_none|apply Hmore|apply Hend].
Qed.

Lemma elements_typed fuel : parses_typed fuel -> forall depth s, yields (parse_elements (S fuel) depth s) (elements_at depth).
Proof.
  intros (HV & _ & HE) depth s. cbn [parse_elements].
  eapply yields_bind; [apply HV|]. intros [v r] Hv. cbn [fst] in Hv. destruct (skip_ws r) as [|c r1]; [apply yields_none|].
  assert (forall r, yields ('(l, r2) ← parse_elements fuel depth r; Some (v :: l, r2)) (elements_at depth)) as Hmore.
  { intros r'. eapply yields_bind; [apply HE|]. intros [l r2] Hl. apply yields_ret. by constructor. }
  assert (yields (Some ([v], r1)) (elements_at depth)) as Hend by (apply yields_ret; by repeat constructor).
  by destruct c as [[] [] [] [] [] [] [] []]; first [apply yields_none|apply Hmore|apply Hend].
Qed.

Lemma value_typed fuel : parses_typed fuel -> forall depth s, yields (parse_value (S fuel) depth s) (value_at depth).
Proof.
  intros (_ & HM & HE) depth s. cbn [parse_value]. destruct (skip_ws s) as [|a s1]; [apply yields_none|].
  destruct (az a =? 34).
  { eapply yields_bind; [apply parse_string_valid|]. intros [t r] Ht. apply yields_ret. by constructor. }
  destruct (az a =? 123).
  { destruct (Z.leb_spec maxNestingDepth depth) as [|Hd]; [apply yields_none|].
    assert (forall s2, yields ('(l, r) ← parse_members fuel (depth + 1) s2; Some (JObj l, r)) (value_at depth)) as Hmore.
    { intros s2. eapply yields_bind; [apply HM|]. intros [l r] Hl. apply yields_ret. cbn [fst] in *.
      constructor; [lia|]. by replace (maxNestingDepth - depth - 1) with (maxNestingDepth - (depth + 1)) by lia. }
    assert (forall r, yields (Some (JObj [], r)) (value_at depth)) as Hend
      by (intros r; apply yields_ret; constructor; [lia|constructor]).
    destruct (skip_ws s1) as [|c r]; [apply Hmore|].
    by destruct c as [[] [] [] [] [] [] [] []]; first [apply Hmore|apply Hend]. }
  destruct (az a =? 91).
  { destruct (Z.leb_spec maxNestingDepth depth) as [|Hd]; [apply yields_none|].
    assert (forall s2, yields ('(l, r) ← parse_elements fuel (depth + 1) s2; Some (JArr l, r)) (value_at depth)) as Hmore.
    { intros s2. eapply yields_bind; [apply HE|]. intros [l r] Hl. apply yields_ret. cbn [fst] in *.
      constructor; [lia|]. by replace (maxNestingDepth - depth - 1) with (maxNestingDepth - (depth + 1)) by lia. }
    assert (forall r, yields (Some (JArr [], r)) (value_at depth)) as Hend
      by (intros r; apply yields_ret; constructor; [lia|constructor]).
    destruct (skip_ws s1) as [|c r]; [apply Hmore|].
    by destruct c as [[] [] [] [] [] [] [] []]; first [apply Hmore|apply Hend]. }
  repeat (case_match; [apply (expect_yields (jtyped _)); constructor|]).
  eapply yields_bind; [apply parse_number_digits|]. intros [n r] Hn. apply yields_ret. by constructor.
Qed.

Lemma all_parses_typed fuel : parses_typed fuel.
Proof.
  induction fuel as [|fuel IH]; [split_and!; intros; apply yields_none|].
  split_and!; [by apply value_typed|by apply members_typed|by apply elements_typed].
Qed.

Lemma parse_json_typed s : yields (parse_json s) (jtyped maxNestingDepth).
Proof.
  unfold parse_json. eapply yields_bind; [apply all_parses_typed|]. intros [v r] Hv. cbn [fst] in Hv.
  rewrite Z.sub_0_r in Hv. destruct (skip_ws r); [by apply yields_ret|apply yields_none].
Qed.

(** * Decoded data *)
Definition float_typed (x : f64) : Prop := valid x /\ is_finite x = true.

(** A dynamic value nested at most [h] deep; keys are distinct and sorted. *)
Inductive any_typed : Z -> any -> Prop :=
| at_nil h : any_typed h ANil
| at_bool h b : any_typed h (ABool b)
| at_num h x : float_typed x -> any_typed h (ANum x)
| at_str h s : valid_utf8 s = true -> any_typed h (AStr s)
| at_list h l : 0 < h -> Forall (any_typed (h - 1)) l -> any_typed h (AList l)
| at_map h m : 0 < h -> increasing m = true -> Forall (fun kv => valid_utf8 kv.1 = true /\ any_typed (h - 1) kv.2) m ->
    any_typed h (AMap m).

Definition map_typed (h : Z) (m : list (string * any)) : Prop :=
  increasing m = true /\ Forall (fun kv => valid_utf8 kv.1 = true /\ any_typed h kv.2) m.

Lemma number_float_typed n : yields (number_float n) float_typed.
Proof.
  destruct (number_float n) as [x|] eqn:E; [|apply yields_none]. apply yields_ret.
  split; [by eapply number_float_valid|by eapply number_float_finite].
Qed.

(** ** The order of keys *)
Lemma str_compare_lt_trans s t u :
  String.compare s t = Lt -> String.compare t u = Lt -> String.compare s u = Lt.
Proof.
  revert t u. induction s as [|a s IH]; intros [|b t] [|c u]; try done. cbn. unfold Ascii.compare.
  destruct (N.compare_spec (N_of_ascii a) (N_of_ascii b)) as [E1|L1|L1]; [| |done];
    (destruct (N.compare_spec (N_of_ascii b) (N_of_ascii c)) as [E2|L2|L2]; [| |done]);
    (destruct (N.compare_spec (N_of_ascii a) (N_of_ascii c)) as [E3|L3|L3]; try done; try lia).
  by apply IH.
Qed.

Definition below {A} (k : string) (m : list (string * A)) : Prop := Forall (fun kv => String.compare k kv.1 = Lt) m.

Lemma increasing_cons {A} k (x : A) m : increasing ((k, x) :: m) = true <-> below k m /\ increasing m = true.
Proof.
  cbn [increasing]. rewrite andb_true_iff. apply and_iff_compat_r. unfold below.
  rewrite forallb_forall, Forall_forall. by setoid_rewrite bool_decide_eq_true; setoid_rewrite list_elem_of_In.
Qed.

Lemma Forall_assoc_set {A} (P : string * A -> Prop) k x m : P (k, x) -> Forall P m -> Forall P (assoc_set k x m).
Proof.
  intros Hx. induction 1 as [|[k' v] m Hv Hm IH]; [by repeat constructor|]. cbn [assoc_set].
  destruct (String.compare k k'); by repeat constructor.
Qed.

Lemma increasing_assoc_set {A} k (x : A) m : increasing m = true -> increasing (assoc_set k x m) = true.
Proof.
  induction m as [|[k' v] m IH]; [done|]. intros [Hb Hi]%increasing_cons. cbn [assoc_set].
  destruct (String.compare k k') eqn:E.
  - apply String.compare_eq_iff in E as <-. by apply increasing_cons.
  - apply increasing_cons. split; [|by apply increasing_cons]. constructor; [done|].
    eapply Forall_impl; [exact Hb|]. cbn. intros kv Hkv. by eapply str_compare_lt_trans.
  - apply increasing_cons. split; [|by apply IH]. apply Forall_assoc_set; [|done].
    cbn. by rewrite String.compare_antisym, E.
Qed.

Lemma map_typed_set h k x m :
  valid_utf8 k = true -> any_typed h x -> map_typed h m -> map_typed h (assoc_set k x m).
Proof. intros Hk Hx [Hi Hm]. split; [by apply increasing_assoc_set|by apply Forall_assoc_set]. Qed.

(** ** Dynamic values *)
Lemma to_any_typed v : forall h, jtyped h v -> yields (to_any v) (any_typed h).
Proof.
  induction v as [|b|n|s|l IH|l IH] using jval_rect'; intros h Hv; inversion Hv; subst; cbn [to_any].
  - apply yields_ret. constructor.
  - apply yields_ret. constructor.
  - eapply yields_fmap; [apply number_float_typed|]. by constructor.
  - apply yields_ret. by constructor.
  - match goal with |- yields (AList <$> ?go l) _ => set (each := go); assert (yields (each l) (Forall (any_typed (h - 1)))) as Hl end.
    { match goal with H : Forall _ l |- _ => rename H into Ht end. clear Hv. induction IH as [|v l Hv _ IHl]; [by apply yields_ret|].
      inversion_clear Ht as [|? ? Hv' Hl']. cbn. eapply yields_bind; [by apply Hv|]. intros y Hy.
      eapply yields_bind; [by apply IHl|]. intros xs Hxs. apply yields_ret. by constructor. }
    eapply yields_fmap; [exact Hl|]. by constructor.
  - match goal with |- yields (AMap <$> ?go l []) _ => set (each := go);
      assert (forall acc, map_typed (h - 1) acc -> yields (each l acc) (map_typed (h - 1))) as Hl end.
    { match goal with H : Forall _ l |- _ => rename H into Ht end. clear Hv. induction IH as [|[k v] l Hv _ IHl]; intros acc Hacc; [by apply yields_ret|].
      inversion_clear Ht as [|? ? [Hk Hkv] Ht']. cbn. eapply yields_bind; [by apply Hv|]. intros y Hy.
      apply IHl; [done|]. by apply map_typed_set. }
    eapply yields_fmap; [apply Hl; by split|]. intros m [Hi Hm]. by constructor.
Qed.

(** ** Scalars *)
Abbreviation text := (fun s : string => valid_utf8 s = true).

Lemma decode_string_typed h v old : jtyped h v -> text old -> yields (decode_string v old) text.
Proof. intros [] Ho; cbn [decode_string]; try apply yields_none; by apply yields_ret. Qed.

Lemma decode_float_typed h v old : jtyped h v -> float_typed old -> yields (decode_float v old) float_typed.
Proof.
  intros [] Ho; cbn [decode_float]; try apply yields_none; [by apply yields_ret|apply number_float_typed].
Qed.

Lemma digits_value_nonneg s acc : str_forall is_digit s = true -> 0 <= acc -> 0 <= digits_value s acc.
Proof.
  revert acc. induction s as [|a s IH]; intros acc; [done|]. cbn [str_forall digits_value].
  intros [Ha Hs]%andb_prop Hacc. apply IH; [done|]. unfold is_digit in Ha. lia.
Qed.

Lemma decode_int64_typed h v old : jtyped h v -> int64_wf old = true -> yields (decode_int64 v old) (fun z => int64_wf z = true).
Proof.
  intros [] Ho; cbn [decode_int64]; try apply yields_none; [by apply yields_ret|]. unfold number_int64.
  set (z := if num_neg n then _ else _). destruct (is_integer n); [cbn [andb]|apply yields_none].
  case_bool_decide; [|apply yields_none]. apply yields_ret. unfold int64_wf. lia.
Qed.

Lemma decode_uint64_typed h v old :
  jtyped h v -> uint64_wf old = true -> yields (decode_uint64 v old) (fun z => uint64_wf z = true).
Proof.
  intros Hv Ho. destruct v; cbn [decode_uint64]; try apply yields_none; [by apply yields_ret|].
  inversion_clear Hv as [| |? ? Hd| | |]. unfold number_uint64. pose proof (digits_value_nonneg _ 0 Hd ltac:(lia)).
  destruct (_ && _) eqn:E; [|apply yields_none]. apply yields_ret. unfold uint64_wf. lia.
Qed.

(** ** Maps and lists *)
Definition nested_typed (h : Z) (o : option (list (string * any))) : Prop :=
  match o with Some m => any_typed h (AMap m) | None => True end.

Lemma decode_entries_typed h l acc :
  Forall (member_at h) l -> map_typed h acc -> yields (decode_entries l acc) (map_typed h).
Proof.
  intros Hl. revert acc. induction Hl as [|[k v] l [Hk Hv] _ IH]; intros acc Hacc; [by apply yields_ret|].
  cbn [decode_entries]. eapply yields_bind; [by apply to_any_typed|]. intros x Hx. by apply IH, map_typed_set.
Qed.

Lemma decode_map_typed h v old : jtyped h v -> nested_typed h old -> yields (decode_map v old) (nested_typed h).
Proof.
  intros Hv Ho. destruct Hv; cbn [decode_map]; try apply yields_none; [by apply yields_ret|].
  eapply yields_fmap; [apply decode_entries_typed; [done|]|intros m [Hi Hm]; by constructor].
  destruct old as [m|]; [by inversion Ho|by split].
Qed.

Lemma decode_elements_typed h l old :
  Forall (jtyped h) l -> Forall text old -> yields (decode_elements l old) (Forall text).
Proof.
  intros Hl. revert old. induction Hl as [|v l Hv _ IH]; intros old Ho; [by apply yields_ret|]. cbn [decode_elements].
  eapply yields_bind; [eapply decode_string_typed; [done|]; by destruct Ho|]. intros s Hs.
  eapply yields_bind; [apply IH; by destruct Ho|]. intros ss Hss. apply yields_ret. by constructor.
Qed.

Lemma decode_list_typed h v old : jtyped h v -> Forall text old -> yields (decode_list v old) (Forall text).
Proof.
  intros [] Ho; cbn [decode_list]; try apply yields_none; [by apply yields_ret|by eapply decode_elements_typed].
Qed.

(** ** Structs *)
Section Structs.
Context `{U : Unicode} {A : Type} (P : A -> Prop) (names : list string) (set : string -> jval -> A -> option A) (h : Z).
Hypothesis set_typed : forall n v a, jtyped (h - 1) v -> P a -> yields (set n v a) P.

Lemma decode_fields_typed l a : Forall (member_at (h - 1)) l -> P a -> yields (decode_fields names set l a) P.
Proof using set_typed.
  intros Hl. revert a. induction Hl as [|[k v] l [_ Hv] _ IH]; intros a Ha; [by apply yields_ret|]. cbn [decode_fields].
  eapply yields_bind; [|exact IH]. destruct (find_field names k); [by apply set_typed|by apply yields_ret].
Qed.

Lemma decode_struct_typed v a : jtyped h v -> P a -> yields (decode_struct names set v a) P.
Proof using set_typed.
  intros Hv Ha. destruct v; cbn [decode_struct]; try apply yields_none; [by apply yields_ret|].
  inversion_clear Hv. by apply decode_fields_typed.
Qed.

Lemma decode_pointer_typed zero v o :
  jtyped h v -> P zero -> (forall a, o = Some a -> P a) ->
  yields (decode_pointer names set zero v o) (fun o' => forall a, o' = Some a -> P a).
Proof using set_typed.
  intros Hv Hz Ho. assert (P (default zero o)) as Hd by (destruct o; [by apply Ho|done]).
  assert (yields (Some <$> decode_struct names set v (default zero o)) (fun o' => forall a, o' = Some a -> P a)) as Hs.
  { eapply yields_fmap; [by apply decode_struct_typed|]. by intros a Ha ? [= <-]. }
  destruct v; try exact Hs. cbn [decode_pointer]. by apply yields_ret.
Qed.
End Structs.

(** * Envelopes *)
Definition coordinates_typed (c : Coordinates) : Prop := Forall float_typed [Latitude c; Longitude c; AltitudeM c].
Definition velocity_typed (v : Velocity) : Prop := Forall float_typed [VX v; VY v; VZ v; SpeedMps v].
Definition telemetry_typed (t : TelemetryPayload) : Prop :=
  Forall text [VehicleID t; VehicleType t; Team t; State t] /\ Forall float_typed [BatteryPct t; HeadingDeg t] /\
  coordinates_typed (Coords t) /\ velocity_typed (Vel t) /\ nested_typed (maxNestingDepth - 2) (MissionPayload t) /\
  uint64_wf (Sequence t) = true.
Definition command_typed (c : CommandPayload) : Prop :=
  Forall text [CommandID c; TargetVehicle c; CommandType c; Issuer c] /\
  nested_typed (maxNestingDepth - 2) (Parameters_ c) /\ int64_wf (IssuedAtNs c) = true.
Definition header_typed (h : SecurityHeader) : Prop :=
  Forall text [Classification h; OriginEnclave h; MessageID h; Digest h] /\ Forall text (Caveats h) /\
  int64_wf (TimestampNs h) = true.
Definition envelope_typed (e : SecurityEnvelope) : Prop :=
  header_typed (Header e) /\ (forall t, Telemetry e = Some t -> telemetry_typed t) /\
  (forall c, Command e = Some c -> command_typed c).

(** Taking the typed fields of a record apart, and putting them together again. *)
Ltac split_typed := repeat match goal with
  | H : _ /\ _ |- _ => destruct H
  | H : Forall _ (_ :: _) |- _ => apply Forall_cons in H
  end.
Ltac pack_typed := repeat match goal with
  | |- _ /\ _ => split
  | |- Forall _ (_ :: _) => apply Forall_cons_2
  | |- Forall _ [] => apply Forall_nil_2
  end; try assumption.
(** One branch of a setter: the field is decoded, the others are kept. *)
Ltac set_field decoder :=
  eapply yields_bind; [by eapply decoder|]; intros; apply yields_ret; cbn in *; split_typed; pack_typed.

Lemma set_coordinates_typed h n v c : jtyped h v -> coordinates_typed c -> yields (set_coordinates n v c) coordinates_typed.
Proof.
  intros Hv Hc. destruct c as [la lo al]. unfold coordinates_typed in *. cbn in Hc. split_typed.
  unfold set_coordinates. repeat case_match; set_field decode_float_typed.
Qed.

Lemma set_velocity_typed h n v w : jtyped h v -> velocity_typed w -> yields (set_velocity n v w) velocity_typed.
Proof.
  intros Hv Hc. destruct w as [x y z s]. unfold velocity_typed in *. cbn in Hc. split_typed.
  unfold set_velocity. repeat case_match; set_field decode_float_typed.
Qed.

Section Decoding.
Context `{U : Unicode}.

Lemma set_telemetry_typed n v t :
  jtyped (maxNestingDepth - 2) v -> telemetry_typed t -> yields (set_telemetry n v t) telemetry_typed.
Proof.
  intros Hv Ht. destruct t as [id ty te st ba co ve he mi se]. unfold telemetry_typed in *. cbn in Ht. split_typed.
  unfold set_telemetry. repeat case_match;
    first [set_field decode_string_typed|set_field decode_float_typed|set_field decode_map_typed|set_field decode_uint64_typed|idtac].
  - eapply yields_bind; [by eapply (decode_struct_typed coordinates_typed); [intros; by eapply set_coordinates_typed|..]|].
    intros; apply yields_ret; cbn; pack_typed.
  - eapply yields_bind; [by eapply (decode_struct_typed velocity_typed); [intros; by eapply set_velocity_typed|..]|].
    intros; apply yields_ret; cbn; pack_typed.
Qed.

Lemma set_command_typed n v c :
  jtyped (maxNestingDepth - 2) v -> command_typed c -> yields (set_command n v c) command_typed.
Proof.
  intros Hv Hc. destruct c as [id tv ct pa ia iss]. unfold command_typed in *. cbn in Hc. split_typed.
  unfold set_command. repeat case_match;
    first [set_field decode_string_typed|set_field decode_map_typed|set_field decode_int64_typed].
Qed.

Lemma set_header_typed h n v hd : jtyped h v -> header_typed hd -> yields (set_header n v hd) header_typed.
Proof.
  intros Hv Hh. destruct hd as [cl oe ts mi di ca]. unfold header_typed in *. cbn in Hh. split_typed.
  unfold set_header. repeat case_match;
    first [set_field decode_string_typed|set_field decode_list_typed|set_field decode_int64_typed].
Qed.

Lemma zero_telemetry_typed : telemetry_typed zero_telemetry.
Proof. unfold telemetry_typed, coordinates_typed, velocity_typed. cbn. by pack_typed. Qed.
Lemma zero_command_typed : command_typed zero_command.
Proof. unfold command_typed. cbn. by pack_typed. Qed.

Lemma set_envelope_typed n v e :
  jtyped (maxNestingDepth - 1) v -> envelope_typed e -> yields (set_envelope n v e) envelope_typed.
Proof.
  intros Hv (Hh & Ht & Hc). unfold set_envelope. repeat case_match.
  - eapply yields_bind; [by eapply (decode_struct_typed header_typed); [intros; by eapply set_header_typed|..]|].
    intros hd Hhd. by apply yields_ret.
  - eapply yields_bind; [eapply (decode_pointer_typed telemetry_typed)|]; [|exact Hv|apply zero_telemetry_typed|exact Ht|].
    + intros ? ? ?. replace (maxNestingDepth - 1 - 1) with (maxNestingDepth - 2) by lia. apply set_telemetry_typed.
    + intros t Ht'. by apply yields_ret.
  - eapply yields_bind; [eapply (decode_pointer_typed command_typed)|]; [|exact Hv|apply zero_command_typed|exact Hc|].
    + intros ? ? ?. replace (maxNestingDepth - 1 - 1) with (maxNestingDepth - 2) by lia. apply set_command_typed.
    + intros c Hc'. by apply yields_ret.
Qed.

Lemma decoded_typed payload e : unmarshal_envelope payload = Some e -> envelope_typed e.
Proof.
  apply yields_elim. unfold unmarshal_envelope. eapply yields_bind; [apply parse_json_typed|]. intros v Hv.
  apply (decode_struct_typed envelope_typed _ _ maxNestingDepth); [intros; by apply set_envelope_typed|done|].
  split; [|done]. unfold header_typed. cbn. by pack_typed.
Qed.
End Decoding.

(** * Forwarding

    A decoded envelope that is encoded again says the same: only the distinction of an
    empty map from no map is lost. *)
Definition settle_map (o : option (list (string * any))) : option (list (string * any)) :=
  match o with Some [] => None | _ => o end.
Definition settle_telemetry (t : TelemetryPayload) : TelemetryPayload :=
  mkTelemetry (VehicleID t) (VehicleType t) (Team t) (State t) (BatteryPct t) (Coords t) (Vel t) (HeadingDeg t)
    (settle_map (MissionPayload t)) (Sequence t).
Definition settle_command (c : CommandPayload) : CommandPayload :=
  mkCommand (CommandID c) (TargetVehicle c) (CommandType c) (settle_map (Parameters_ c)) (IssuedAtNs c) (Issuer c).
Definition settle (e : SecurityEnvelope) : SecurityEnvelope :=
  mkEnvelope (Header e) (settle_telemetry <$> Telemetry e) (settle_command <$> Command e).

Lemma settle_marshal e : marshal_envelope (settle e) = marshal_envelope e.
Proof.
  assert (forall k o, map_field k (settle_map o) = map_field k o) as Hm by (intros k [[|]|]; done).
  unfold marshal_envelope, settle. cbn [Header Telemetry Command].
  f_equal. f_equal. destruct (Telemetry e) as [t|], (Command e) as [c|]; cbn;
    unfold marshal_telemetry, marshal_command; cbn; by rewrite ?Hm.
Qed.

(** Floats below 2^1013. *)
Definition small (x : f64) : bool := match x with S754_finite _ _ e => e <=? 960 | _ => true end.
Fixpoint any_small (a : any) : bool :=
  match a with
  | ANum x => small x
  | AList l => forallb any_small l
  | AMap m => forallb (fun kv => any_small kv.2) m
  | _ => true
  end.
Definition map_small (o : option (list (string * any))) : bool :=
  match o with Some m => any_small (AMap m) | None => true end.
Definition telemetry_small (t : TelemetryPayload) : bool :=
  forallb small [BatteryPct t; HeadingDeg t; Latitude (Coords t); Longitude (Coords t); AltitudeM (Coords t);
    VX (Vel t); VY (Vel t); VZ (Vel t); SpeedMps (Vel t)] && map_small (MissionPayload t).
Definition envelope_small (e : SecurityEnvelope) : bool :=
  match Telemetry e with Some t => telemetry_small t | None => true end &&
  match Command e with Some c => map_small (Parameters_ c) | None => true end.

Lemma float_portable x : float_typed x -> small x = true -> portable x = true.
Proof. intros [Hv Hf] Hs. destruct x as [| | |s m e]; try done. cbn in *. unfold valid in Hv. cbn in Hv. by rewrite Hv. Qed.

Lemma foldr_max_le {A} (f : A -> Z) l h : 0 <= h -> Forall (fun a => f a <= h) l -> foldr (fun a => Z.max (f a)) 0 l <= h.
Proof. intros Hh. induction 1; cbn; lia. Qed.

Lemma any_typed_wf a : forall h, 0 <= h -> any_typed h a -> any_small a = true -> any_wf a = true /\ any_height a <= h.
Proof.
  induction a as [|b|x|s|l IH|m IH] using any_rect'; intros h Hh Ha Hs; inversion Ha; subst; cbn [any_wf any_height]; try done.
  - split; [by apply float_portable|lia].
  - cbn [any_small] in Hs. assert (Forall (fun a => any_wf a = true /\ any_height a <= h - 1) l) as Hl.
    { rewrite forallb_forall in Hs. rewrite Forall_forall in *. intros a Hin. apply IH; [done|lia|by auto|].
      by apply Hs, list_elem_of_In. }
    split; [apply forallb_forall; intros a Hin; rewrite Forall_forall in Hl; by apply Hl, list_elem_of_In|].
    enough (foldr (fun a => Z.max (any_height a)) 0 l <= h - 1) by lia.
    apply foldr_max_le; [lia|]. eapply Forall_impl; [exact Hl|]. by intros ? [].
  - cbn [any_small] in Hs. match goal with H : Forall _ m |- _ => rename H into Hm end.
    assert (Forall (fun kv => (valid_utf8 kv.1 && any_wf kv.2)%bool = true /\ any_height kv.2 <= h - 1) m) as Hl.
    { rewrite forallb_forall in Hs. rewrite Forall_forall in *. intros kv Hin. destruct (Hm kv Hin) as [-> Hk].
      apply IH; [done|lia|done|]. by apply (Hs kv), list_elem_of_In. }
    split; [apply andb_true_iff; split; [done|]; apply forallb_forall; intros kv Hin; rewrite Forall_forall in Hl;
      by apply Hl, list_elem_of_In|].
    enough (foldr (fun kv => Z.max (any_height kv.2)) 0 m <= h - 1) by lia.
    apply (foldr_max_le (fun kv => any_height kv.2)); [lia|]. eapply Forall_impl; [exact Hl|]. by intros ? [].
Qed.

Lemma settle_map_wf o :
  nested_typed (maxNestingDepth - 2) o -> map_small o = true -> map_wf (settle_map o) = true.
Proof.
  destruct o as [[|kv m]|]; [done| |done]. cbn [settle_map nested_typed map_small]. intros Ht Hs.
  destruct (any_typed_wf (AMap (kv :: m)) (maxNestingDepth - 2)) as [Hw Hh]; [by unfold maxNestingDepth|done|done|].
  unfold map_wf. rewrite Hw. cbn [andb negb bool_decide]. rewrite andb_true_iff. split; [by rewrite bool_decide_eq_false_2|lia].
Qed.

Lemma text_forallb l : Forall text l -> forallb valid_utf8 l = true.
Proof. induction 1 as [|s l Hs _ IH]; [done|]. cbn [forallb]. by rewrite Hs, IH. Qed.
Lemma portable_forallb l : Forall float_typed l -> forallb small l = true -> forallb portable l = true.
Proof.
  induction 1 as [|x l Hx _ IH]; [done|]. cbn [forallb]. intros [Hs Hl]%andb_prop.
  by rewrite float_portable, IH.
Qed.

Lemma settle_telemetry_wf t : telemetry_typed t -> telemetry_small t = true -> telemetry_wf (settle_telemetry t) = true.
Proof.
  intros (Ht & Hf & Hc & Hv & Hm & Hn) [Hs Hms]%andb_prop.
  pose proof (portable_forallb _ (Forall_app_2 _ _ _ Hf (Forall_app_2 _ _ _ Hc Hv)) Hs) as Hp.
  apply text_forallb in Ht. unfold telemetry_wf, coordinates_wf, velocity_wf, settle_telemetry.
  cbn [VehicleID VehicleType Team State BatteryPct Coords Vel HeadingDeg MissionPayload Sequence].
  rewrite Ht, Hn, (settle_map_wf _ Hm Hms). cbn [app forallb] in Hp. rewrite !andb_true_iff in Hp |- *. destruct_and?. repeat first [assumption | split | apply andb_true_iff].
Qed.

Lemma settle_command_wf c : command_typed c -> map_small (Parameters_ c) = true -> command_wf (settle_command c) = true.
Proof.
  intros (Ht & Hm & Hn) Hs. apply text_forallb in Ht. unfold command_wf, settle_command.
  cbn [CommandID TargetVehicle CommandType Parameters_ IssuedAtNs Issuer]. by rewrite Ht, Hn, (settle_map_wf _ Hm Hs).
Qed.

Lemma settle_wf e : envelope_typed e -> envelope_small e = true -> envelope_wf (settle e) = true.
Proof.
  intros ((Hh1 & Hh2 & Hh3) & Ht & Hc) [Hs1 Hs2]%andb_prop. apply text_forallb in Hh1. apply text_forallb in Hh2.
  unfold envelope_wf, header_wf, settle. cbn [Header Telemetry Command]. rewrite Hh1, Hh2, Hh3. cbn [andb].
  apply andb_true_iff. split.
  - destruct (Telemetry e) as [t|]; [|done]. apply settle_telemetry_wf; [by apply Ht|done].
  - destruct (Command e) as [c|]; [|done]. apply settle_command_wf; [by apply Hc|done].
Qed.

(** C25. Forwarding loses nothing: an envelope decoded from any bytes, its numbers below
    2^1013, is encoded again without an error, and the next reader decodes what this
    one did, except that a map that was empty at the top is nil; a third reader decodes
    exactly what the second did. *)
Theorem forwarding_lossless `{U : Unicode} payload e :
  unmarshal_envelope payload = Some e -> envelope_small e = true ->
  exists text, marshal_envelope e = Ok text /\ unmarshal_envelope text = Some (settle e) /\
    marshal_envelope (settle e) = Ok text.
Proof.
  intros He%decoded_typed Hs. destruct (unmarshal_marshal_wf (settle e) (settle_wf e He Hs)) as (s & Hm & Hu).
  exists s. by rewrite <- (settle_marshal e).
Qed.

(** A broken text, keys out of order and repeated, an empty map, a number that is
    rounded. *)
Module TypedSamples.
Definition q : string := chr 34.
Definition key (k v : string) : string := q +:+ k +:+ q +:+ ":" +:+ v.
Definition payload : string :=
  "{" +:+ key "header" ("{" +:+ key "origin_enclave" (q +:+ chr 0xFF +:+ q) +:+ "}") +:+ "," +:+
  key "command" ("{" +:+ key "parameters" "{}" +:+ "," +:+ key "issued_at_ns" "-5" +:+ "}") +:+ "," +:+
  key "telemetry" ("{" +:+ key "sequence" "7" +:+ "," +:+ key "battery_pct" "0.1" +:+ "," +:+
    key "mission_payload" ("{" +:+ key "z" "1" +:+ "," +:+ key "a" "[null]" +:+ "," +:+ key "z" "2e1" +:+ "}") +:+ "}") +:+ "}".
Definition decoded : SecurityEnvelope :=
  Eval vm_compute in default zero_envelope (unmarshal_envelope (U:=caseless) payload).
Lemma payload_decoded : unmarshal_envelope (U:=caseless) payload = Some decoded.
Proof. vm_compute. reflexivity. Qed.
End TypedSamples.

Lemma forwarding_lossless_witness :
  exists text, marshal_envelope TypedSamples.decoded = Ok text /\
    unmarshal_envelope (U:=caseless) text = Some (settle TypedSamples.decoded).
Proof.
  assert (envelope_small TypedSamples.decoded = true) as Hs by (vm_compute; reflexivity).
  destruct (@forwarding_lossless caseless TypedSamples.payload TypedSamples.decoded TypedSamples.payload_decoded Hs)
    as (text & H1 & H2 & _).
  exists text. split; [exact H1|exact H2].
Defined.
