(* ===== verification/Lines.v ===== *)
(** Lines of text: white space around a text of valid UTF-8 is trimmed and nothing
    else; the line break. *)
From Stdlib Require Import Strings.Ascii Strings.String.
From S2P Require Import Prelude GoString Utf8 Json JsonText.

Local Open Scope string_scope.
Local Open Scope Z_scope.

(** * Runes of a concatenation *)
Lemma runes_encoded r e t : encoded r e -> runes (e +:+ t) = (r, String.length e) :: runes t.
Proof.
  intros He. pose proof (decode_encoded _ _ t He) as Hd. pose proof (length_encoded _ _ He).
  destruct e as [|a e]; [by apply encoded_nonempty in He|].
  cbn [String.append] in *. rewrite runes_cons, Hd. f_equal.
  change (String a (e +:+ t)) with (String a e +:+ t). rewrite str_drop_app, length_str_app.
  assert (forall m s, (String.length s <= m)%nat -> runes_fuel m s = runes s) as Hf; [|apply Hf; lia].
  clear. induction m as [m IH] using lt_wf_ind. intros s Hs. unfold runes. destruct s as [|a s]; [by destruct m|].
  destruct m as [|m]; [cbn in Hs; lia|]. cbn [String.length runes_fuel].
  destruct (decode_rune_inv a s) as [->|(r & e & rest & He & E)].
  - cbn [str_drop]. cbn in Hs. f_equal. rewrite (IH m) by lia. reflexivity.
  - rewrite E, (decode_encoded _ _ _ He), str_drop_app. pose proof (length_encoded _ _ He).
    apply (f_equal String.length) in E. rewrite length_str_app in E. cbn in E, Hs.
    f_equal. rewrite (IH m) by lia. destruct (decide (String.length s = m)) as [->|].
    + by rewrite (IH m) by lia.
    + by rewrite (IH (String.length s)) by lia.
Qed.

Lemma runes_app s t : valid_utf8 s = true -> runes (s +:+ t) = (runes s ++ runes t)%list.
Proof.
  intros H%valid_utf8_text. induction H as [|r e s He _ IH]; [done|].
  by rewrite <- str_app_assoc, !(runes_encoded _ _ _ He), IH.
Qed.

Fixpoint width (l : list (Z * nat)) : nat := match l with [] => 0 | (_, w) :: l => w + width l end.

Lemma width_runes s : valid_utf8 s = true -> width (runes s) = String.length s.
Proof.
  intros H%valid_utf8_text. induction H as [|r e s He _ IH]; [done|].
  rewrite (runes_encoded _ _ _ He), length_str_app. cbn. by rewrite IH.
Qed.

(** * Trimming *)
Definition white (a : ascii) : bool := is_ascii a && is_space (az a).
Definition dark (a : ascii) : bool := is_ascii a && negb (is_space (az a)).

Lemma runes_ascii a s : is_ascii a = true -> runes (String a s) = (az a, 1%nat) :: runes s.
Proof.
  intros Ha. unfold is_ascii in Ha. apply (runes_encoded (az a) (String a "")). constructor. lia.
Qed.

Lemma last_kept_app l1 l2 pos kept :
  last_kept (l1 ++ l2)%list pos kept = last_kept l2 (pos + width l1) (last_kept l1 pos kept).
Proof.
  revert pos kept. induction l1 as [|[r w] l1 IH]; intros pos kept; cbn; [by rewrite Nat.add_0_r|].
  rewrite IH. by rewrite Nat.add_assoc.
Qed.

Lemma last_kept_white s pos kept : str_forall white s = true -> last_kept (runes s) pos kept = kept.
Proof.
  revert pos. induction s as [|a s IH]; intros pos; [done|]. cbn [str_forall]. intros [[Ha Hs]%andb_prop H]%andb_prop.
  rewrite runes_ascii by done. cbn [last_kept]. rewrite Hs. by apply IH.
Qed.

Lemma str_take_app s t : str_take (String.length s) (s +:+ t) = s.
Proof. induction s as [|a s IH]; [by destruct t|]. cbn. by rewrite IH. Qed.

(** [TrimSpace] of a text between white space, which itself begins and ends with
    something else. *)
Lemma TrimSpace_between pre a m b post :
  str_forall white pre = true -> str_forall white post = true -> dark a = true -> dark b = true ->
  valid_utf8 (String a m) = true ->
  TrimSpace (pre +:+ (String a m +:+ String b "") +:+ post) = String a m +:+ String b "".
Proof.
  intros Hpre Hpost [Ha Hsa]%andb_prop [Hb Hsb]%andb_prop Hm. apply negb_true_iff in Hsa, Hsb.
  set (s := String a m +:+ String b "").
  assert (forall u, skip_spaces (runes (pre +:+ s +:+ u)) (pre +:+ s +:+ u) = s +:+ u) as Hskip.
  { intros u. induction pre as [|c pre IH]; cbn [String.append].
    - unfold s. cbn [String.append]. rewrite runes_ascii by done. cbn [skip_spaces]. by rewrite Hsa.
    - cbn [str_forall] in Hpre. apply andb_prop in Hpre as [[Hc Hcs]%andb_prop Hpre].
      rewrite runes_ascii by done. cbn [skip_spaces]. rewrite Hcs. cbn [str_drop]. by apply IH. }
  unfold TrimSpace. rewrite Hskip. rewrite runes_app.
  2: { unfold s. apply valid_utf8_app; [done|]. apply valid_utf8_ascii. cbn. by rewrite Hb. }
  rewrite last_kept_app, last_kept_white by done. unfold s at 1. rewrite runes_app by done.
  rewrite last_kept_app, runes_ascii by done. cbn [last_kept]. rewrite Hsb.
  rewrite (width_runes (String a m)) by done. cbn [last_kept runes String.length runes_fuel].
  replace (0 + S (String.length m) + 1)%nat with (String.length s)
    by (unfold s; rewrite length_str_app; cbn; lia).
  by apply str_take_app.
Qed.

(** * The line break *)
Definition newline_char : ascii := za 10.
