(* ===== verification/RestClient.v ===== *)
(** pkg/zenohutil/client.go, the client of zenohd's REST plugin: publications as PUT
    requests, queries as GET requests, and subscriptions as streams of server-sent
    events.

    The HTTP stack and the router behind it are the state of a server and the class
    [HttpServer]: what a request is answered with, and whether net/http accepts a
    URL. The events it streams are arbitrary texts; [relayed_ok] says what makes one an
    event, in the terms of the event-stream standard and of the client's decoder, and
    what a subscriber receives is stated for all such events. Headers and time-outs are not modelled; a time-out is one of the errors of
    [Do]. *)
From Stdlib Require Import Strings.Ascii Strings.String.
From S2P Require Import Prelude GoString Utf8 Json JsonFacts JsonText JsonValue Topic Bus Schema RoundTrip Lines.

Local Open Scope string_scope.
Local Open Scope Z_scope.
Local Open Scope go_scope.

(** * Server-sent events *)

(** A member of the event object with the text of its value, which [json.RawMessage]
    keeps: from the first character that is not white space to the end of the value. *)
Definition raw_value (s : string) : option ((string * jval) * string) :=
  let s := skip_ws s in
  '(v, r) ← parse_value (2 + 2 * String.length s) 1 s;
  Some ((str_take (String.length s - String.length r) s, v), r).

(** The members of an object, after its opening brace. *)
Fixpoint raw_members (fuel : nat) (s : string) : option (list (string * (string * jval))) :=
  match fuel with
  | O => None
  | S fuel =>
    match skip_ws s with
    | String q s1 =>
      if az q =? 34 then
        '(k, r) ← parse_string (String.length s1) s1;
        match skip_ws r with
        | String ":" r1 =>
          '(v, r2) ← raw_value r1;
          match skip_ws r2 with
          | String "," r3 => l ← raw_members fuel r3; Some ((k, v) :: l)
          | String "}" _ => Some [(k, v)]
          | _ => None
          end
        | _ => None
        end
      else if az q =? 125 then Some [] else None
    | EmptyString => None
    end
  end.

Section Events.
Context `{U : Unicode}.

Record zenohSSE := mkSSE { sse_Key : string; sse_Value : string; sse_Time : string }.

Definition set_sse (n : string) (x : string * jval) (e : zenohSSE) : option zenohSSE :=
  let '(mkSSE k v t) := e in
  if String.eqb n "key" then k ← decode_string x.2 k; Some (mkSSE k v t)
  else if String.eqb n "value" then Some (mkSSE k x.1 t)
  else t ← decode_string x.2 t; Some (mkSSE k v t).

Fixpoint set_members (l : list (string * (string * jval))) (e : zenohSSE) : option zenohSSE :=
  match l with
  | [] => Some e
  | (k, x) :: l =>
    e ← (match find_field ["key"; "value"; "time"] k with Some n => set_sse n x e | None => Some e end);
    set_members l e
  end.

(** [json.Unmarshal] into the event: the whole text is checked first. *)
Definition unmarshal_sse (data : string) : option zenohSSE :=
  match parse_json data with
  | Some JNull => Some (mkSSE "" "" "")
  | Some (JObj _) =>
    match skip_ws data with
    | String _ s => l ← raw_members (String.length s) s; set_members l (mkSSE "" "" "")
    | EmptyString => None
    end
  | _ => None
  end.

(** [json.Unmarshal] into a string. *)
Definition unmarshal_string (s : string) : option string := v ← parse_json s; decode_string v "".

(** The key and payload of the data of an event: those of the event object, or else
    the selector and the data as they are. *)
Definition event_message (selector data : string) : string * string :=
  match unmarshal_sse data with
  | Some e =>
    if is_empty (sse_Key e) then (selector, data) else
    (sse_Key e,
     match unmarshal_string (sse_Value e) with
     | Some text => text
     | None => if is_empty (sse_Value e) then data else sse_Value e
     end)
  | None => (selector, data)
  end.

(** One line of the stream: what the handler is called with, if at all. *)
Definition event_line (selector line : string) : option (string * string) :=
  let line := TrimSpace line in
  if HasPrefix line "data:" then
    let '(key, payload) := event_message selector (TrimSpace (TrimPrefix line "data:")) in
    if MatchesSelector selector key then Some (key, payload) else None
  else None.

(** The lines that [ReadString] returns without an error, with their line breaks; an
    unfinished last line is lost with the connection. *)
Definition complete_lines (body : string) : list string :=
  (fun l => l +:+ String newline_char "") <$> removelast (Split body newline_char).

(** What becomes of an attempt to connect: the context is done, the request cannot be
    made, it is not answered, or it is answered - whatever the status - with a
    stream; the context may be found done before the line with the given number. *)
Inductive attempt :=
| ContextDone
| BadRequest (err : string)
| Unreachable (err : string)
| Streamed (body : string) (done_before : option nat).

Fixpoint subscription (selector : string) (l : list attempt) : list (string * string) :=
  match l with
  | [] | ContextDone :: _ => []
  | BadRequest _ :: l | Unreachable _ :: l => subscription selector l
  | Streamed body limit :: l =>
    let lines := complete_lines body in
    match limit with
    | Some n =>
      if (n <=? List.length lines)%nat then omap (event_line selector) (take n lines)
      else (omap (event_line selector) lines ++ subscription selector l)%list
    | None => (omap (event_line selector) lines ++ subscription selector l)%list
    end
  end.
End Events.

(** * Requests *)
Record HttpRequest := mkHttpRequest { Verb : string; URL : string; Content : string }.

(** An answer: its status, the part of its body that could be read and the error that
    ended it early. *)
Record HttpReply := mkHttpReply { StatusCode : Z; Contents : string; ReadError : option string }.

Class HttpServer (S : Type) := {
  NewRequest : string -> string -> option string;
  Do : HttpRequest -> S -> result string HttpReply * S;
}.

Section Client.
Context {S H : Type} `{HttpServer S}.

Record RESTClient := mkREST { baseURL : string; server : S; handlers : list (string * H) }.

Definition NewRESTClient (url : string) (s : S) : RESTClient := mkREST (TrimRight url "/") s [].

Definition resource (c : RESTClient) (key : string) : string := baseURL c +:+ "/" +:+ TrimLeft key "/".

(** A request that net/http accepts is sent, and the server moves on. *)
Definition exchange (verb key content : string) (c : RESTClient) : result string HttpReply * RESTClient :=
  let '(r, s) := Do (mkHttpRequest verb (resource c key) content) (server c) in
  (r, mkREST (baseURL c) s (handlers c)).

Definition RESTClient_Publish (key payload : string) (c : RESTClient) : option string * RESTClient :=
  match NewRequest (S:=S) "PUT" (resource c key) with
  | Some err => (Some ("creating PUT request: " +:+ err), c)
  | None =>
    match exchange "PUT" key payload c with
    | (Err err, c) => (Some ("zenoh REST put failed for " +:+ key +:+ ": " +:+ err), c)
    | (Ok resp, c) =>
      if (StatusCode resp <? 200) || (300 <=? StatusCode resp)
      then (Some ("zenoh REST put returned HTTP " +:+ dec (StatusCode resp) +:+ ": " +:+ Contents resp), c)
      else (None, c)
    end
  end.

(** [Subscribe] starts a goroutine, whose deliveries are [subscription], and returns
    at once. *)
Definition RESTClient_Subscribe (selector : string) (h : H) (c : RESTClient) : option string * RESTClient :=
  (None, mkREST (baseURL c) (server c) (handlers c ++ [(selector, h)])%list).

Definition RESTClient_Close (c : RESTClient) : option string * RESTClient := (None, c).

Definition RESTClient_Query (selector : string) (c : RESTClient) : result string string * RESTClient :=
  match NewRequest (S:=S) "GET" (resource c selector) with
  | Some err => (Err ("creating GET query: " +:+ err), c)
  | None =>
    match exchange "GET" selector "" c with
    | (Err err, c) => (Err ("zenoh REST query failed: " +:+ err), c)
    | (Ok resp, c) =>
      if negb (StatusCode resp =? 200) then (Err ("query returned HTTP " +:+ dec (StatusCode resp)), c)
      else (match ReadError resp with Some err => Err err | None => Ok (Contents resp) end, c)
    end
  end.

#[export] Instance RESTClient_Bus : Bus RESTClient H := {
  Publish := RESTClient_Publish;
  Subscribe := RESTClient_Subscribe;
  Close := RESTClient_Close;
}.

(** ** A router that accepts publications

    What the programs need of the router for their messages to get through: it
    answers every PUT of the fleet with a status of success, and stays so. *)
Class HealthyRouter := {
  healthy : S -> Prop;
  healthy_url url : NewRequest (S:=S) "PUT" url = None;
  healthy_put url content s : healthy s ->
    (exists resp, (Do (mkHttpRequest "PUT" url content) s).1 = Ok resp /\ 200 <= StatusCode resp < 300) /\
    healthy (Do (mkHttpRequest "PUT" url content) s).2;
}.

#[export] Instance RESTClient_BusAlive `{HealthyRouter} : BusAlive RESTClient.
Proof.
  refine {| alive c := healthy (server c) |}. intros k p c Hc. cbn. unfold RESTClient_Publish, exchange.
  rewrite healthy_url. destruct (healthy_put (resource c k) p (server c) Hc) as [(resp & Hr & Hs) Hh].
  destruct (Do _ _) as [r s]. cbn in Hr, Hh. subst r.
  replace ((StatusCode resp <? 200) || (300 <=? StatusCode resp)) with false by lia. done.
Defined.

(** Publishing over REST. Whatever the router does, a publication sends at most
    one request, a PUT of the payload to the resource of the key below the base URL;
    it succeeds exactly when the answer has a status of the two hundreds; the status
    and body of any other answer are in the error; and neither the base URL nor the
    subscriptions change. *)
Theorem RESTClient_Publish_outcome key payload (c : RESTClient) :
  let '(err, c') := RESTClient_Publish key payload c in
  let req := mkHttpRequest "PUT" (baseURL c +:+ "/" +:+ TrimLeft key "/") payload in
  baseURL c' = baseURL c /\ handlers c' = handlers c /\
  match NewRequest (S:=S) "PUT" (URL req) with
  | Some e => err = Some ("creating PUT request: " +:+ e) /\ server c' = server c
  | None => server c' = (Do req (server c)).2 /\
    match (Do req (server c)).1 with
    | Err e => err = Some ("zenoh REST put failed for " +:+ key +:+ ": " +:+ e)
    | Ok resp =>
      (err = None <-> 200 <= StatusCode resp < 300) /\
      (err <> None ->
        err = Some ("zenoh REST put returned HTTP " +:+ dec (StatusCode resp) +:+ ": " +:+ Contents resp))
    end
  end.
Proof.
  unfold RESTClient_Publish, exchange, resource. cbn [URL]. destruct (NewRequest _ _) as [e|]; [done|].
  destruct (Do _ _) as [[resp|e] s]; [|done]. cbn [fst snd].
  destruct ((StatusCode resp <? 200) || (300 <=? StatusCode resp)) eqn:E;
    (split; [done|]); (split; [done|]); (split; [done|]); (split; [|done]).
  - split; [done|]. intros Hs. lia.
  - split; [lia|done].
Qed.
End Client.
Arguments RESTClient : clear implicits.

(** * What a subscription delivers *)
Section Delivery.
Context `{U : Unicode}.

(** Every delivery matches the selector, whatever the router streams. *)
Lemma event_line_matches selector line m :
  event_line selector line = Some m -> MatchesSelector selector m.1 = true.
Proof.
  unfold event_line. destruct (HasPrefix _ _); [|done]. destruct (event_message _ _) as [k p].
  destruct (MatchesSelector selector k) eqn:E; [|done]. by intros [= <-].
Qed.

Lemma omap_matches selector lines :
  Forall (fun m => MatchesSelector selector m.1 = true) (omap (event_line selector) lines).
Proof.
  apply Forall_forall. intros m (line & _ & Hm)%list_elem_of_omap. by apply event_line_matches in Hm.
Qed.

(** Isolation of subscriptions. Whatever the router streams, over however many
    connections, and wherever the context ends it, a handler is only called with keys
    that its selector matches. *)
Theorem subscription_matches selector l :
  Forall (fun m => MatchesSelector selector m.1 = true) (subscription selector l).
Proof.
  induction l as [|[|e|e|body [n|]] l IH]; cbn [subscription]; try done; try apply Forall_nil; try done.
  - destruct (n <=? _)%nat; [apply omap_matches|]. apply Forall_app. split; [apply omap_matches|done].
  - apply Forall_app. split; [apply omap_matches|done].
Qed.

(** ** Events of the router

    The router is not modelled: its events are any that have the form of the
    event-stream standard. An event is some lines of other fields or comments, a data
    line and an empty line. The data is any JSON object in UTF-8 on one line that
    decodes with a key and with a value, whose text is [relayed_raw] and which reads as
    [relayed_value]; the order and the spacing of its members, how its strings are
    escaped and what else is in it are left open. *)
Record relayed := mkRelayed {
  relayed_fields : list string;
  relayed_data : string;
  relayed_key : string;
  relayed_raw : string;
  relayed_value : jval
}.

Record relayed_ok (e : relayed) : Prop := {
  ok_fields : Forall (fun l => free_of newline_char l = true /\
    HasPrefix (TrimSpace (l +:+ String newline_char "")) "data:" = false) (relayed_fields e);
  ok_data : free_of newline_char (relayed_data e) = true;
  ok_object : exists m, relayed_data e = String "{" m +:+ "}" /\ valid_utf8 m = true;
  ok_decodes : exists time, unmarshal_sse (relayed_data e) = Some (mkSSE (relayed_key e) (relayed_raw e) time);
  ok_key : relayed_key e <> "";
  ok_value : parse_json (relayed_raw e) = Some (relayed_value e);
}.

Definition data_line (e : relayed) : string := "data: " +:+ relayed_data e.
Definition lines_text (l : list string) : string := concat_str (map (fun t => t +:+ String newline_char "") l).
Definition sse_frame (e : relayed) : string := lines_text (relayed_fields e ++ [data_line e; ""]).

(** What a value is worth as a payload: the text of a JSON string, nothing for null,
    and of any other value its text as it stands in the event. *)
Definition received (e : relayed) : string :=
  match relayed_value e with JStr text => text | JNull => "" | _ => relayed_raw e end.

(** The message of an event, if it matches. *)
Definition relayed_message (selector : string) (e : relayed) : option (string * string) :=
  if MatchesSelector selector (relayed_key e) then Some (relayed_key e, received e) else None.

Lemma event_message_relayed selector e :
  relayed_ok e -> event_message selector (relayed_data e) = (relayed_key e, received e).
Proof.
  intros [_ _ _ (time & Hd) Hk Hv]. unfold event_message. rewrite Hd. cbn [sse_Key sse_Value].
  rewrite (proj2 (is_empty_spec _) Hk). unfold unmarshal_string, received. rewrite Hv. cbn [mbind option_bind].
  assert (is_empty (relayed_raw e) = false) as -> by (apply is_empty_spec; intros E; by rewrite E in Hv).
  by destruct (relayed_value e).
Qed.

(** The data line, with its line break, gives the message of its event. *)
Lemma event_line_relayed selector e :
  relayed_ok e -> event_line selector (data_line e +:+ String newline_char "") = relayed_message selector e.
Proof.
  intros He. destruct (ok_object e He) as (m & Es & Hv).
  pose proof (event_message_relayed selector e He) as Em.
  unfold event_line, data_line, relayed_message. rewrite Es in Em |- *.
  assert (valid_utf8 (String "{" m) = true) as Hm by by apply (valid_utf8_app "{").
  assert (TrimSpace (("data: " +:+ (String "{" m +:+ "}")) +:+ String newline_char "") = "data: " +:+ (String "{" m +:+ "}")) as T1.
  { etrans; [|apply (TrimSpace_between "" "d" ("ata: " +:+ String "{" m) "}" (String newline_char ""))]; try done;
      by apply (valid_utf8_app "data: "). }
  assert (TrimSpace (" " +:+ (String "{" m +:+ "}")) = String "{" m +:+ "}") as T2.
  { etrans; [|by apply (TrimSpace_between " " "{" m "}" "")]. by rewrite str_app_nil_r. }
  rewrite T1. change ("data: " +:+ (String "{" m +:+ "}")) with ("data:" +:+ (" " +:+ (String "{" m +:+ "}"))).
  rewrite HasPrefix_app, TrimPrefix_app, T2. by rewrite Em.
Qed.

(** ** Streams of events *)
Lemma complete_lines_app l s :
  free_of newline_char l = true ->
  complete_lines (l +:+ String newline_char s) = (l +:+ String newline_char "") :: complete_lines s.
Proof.
  intros Hl. unfold complete_lines. rewrite Split_app by done.
  assert (Split s newline_char <> []) as Hne by apply Split_nonempty. by destruct (Split s newline_char).
Qed.

Lemma complete_lines_partial s : free_of newline_char s = true -> complete_lines s = [].
Proof. intros Hs. unfold complete_lines. by rewrite Split_free_one. Qed.

Lemma complete_lines_text l rest :
  Forall (fun t => free_of newline_char t = true) l ->
  complete_lines (lines_text l +:+ rest) = (map (fun t => t +:+ String newline_char "") l ++ complete_lines rest)%list.
Proof.
  induction 1 as [|t l Ht _ IH]; [done|]. cbn [map app].
  change (lines_text (t :: l)) with ((t +:+ String newline_char "") +:+ lines_text l).
  rewrite <- !str_app_assoc. cbn [String.append]. rewrite complete_lines_app by done. by rewrite IH.
Qed.

Lemma complete_lines_frame selector e rest :
  relayed_ok e ->
  omap (event_line selector) (complete_lines (sse_frame e +:+ rest)) =
    (omap (relayed_message selector) [e] ++ omap (event_line selector) (complete_lines rest))%list.
Proof.
  intros He. pose proof (ok_data e He) as Hd. pose proof (ok_fields e He) as Hf.
  unfold sse_frame. rewrite complete_lines_text.
  - rewrite map_app, !omap_app. f_equal.
    assert (omap (event_line selector) (map (fun t => t +:+ String newline_char "") (relayed_fields e)) = []) as ->.
    { induction Hf as [|t l [_ Ht] _ IH]; [done|]. cbn [map omap list_omap]. unfold event_line at 1. by rewrite Ht, IH. }
    cbn [map omap list_omap app]. rewrite event_line_relayed by done. by destruct (relayed_message selector e).
  - apply Forall_app. split; [by eapply Forall_impl; [exact Hf|intros t [Ht _]]|].
    repeat constructor. unfold data_line. by rewrite free_of_app, Hd.
Qed.

Lemma complete_lines_frames selector es rest :
  Forall relayed_ok es ->
  omap (event_line selector) (complete_lines (concat_str (map sse_frame es) +:+ rest)) =
    (omap (relayed_message selector) es ++ omap (event_line selector) (complete_lines rest))%list.
Proof.
  induction 1 as [|e es He _ IH]; [done|].
  change (concat_str (map sse_frame (e :: es))) with (sse_frame e +:+ concat_str (map sse_frame es)).
  rewrite <- str_app_assoc, complete_lines_frame by done. rewrite IH.
  cbn [omap list_omap]. by destruct (relayed_message selector e).
Qed.

(** The text of an envelope is a JSON value that is neither a string nor null, and
    decodes to the envelope. *)
Lemma envelope_document_text env : envelope_wf env = true ->
  exists text v, marshal_envelope env = Ok text /\ parse_json text = Some v /\
    (forall e, relayed_value e = v -> received e = relayed_raw e) /\ unmarshal_envelope text = Some env.
Proof.
  intros Hw. destruct (envelope_read env Hw) as (text & v & Ht & Hr & Hs & Hd).
  apply reads_document in Hr; [|done]. exists text, v. split; [done|]. split; [done|]. split.
  - intros e He. unfold received. rewrite He. by destruct v.
  - unfold unmarshal_envelope. by rewrite Hr.
Qed.

(** C26. What a subscriber receives. Let a router stream events and end the connection
    before the context is done: each event is an event-stream frame with one data line,
    a JSON object in UTF-8, unpadded on its line, that decodes with a key that is not
    empty and with a value. Then the handler is called once for each event whose key the
    selector matches, in order, with that key and with the value: a JSON string arrives
    unquoted, null arrives empty, any other value arrives as its text stands in the
    event. A last line without its line break is lost with the connection, and reading
    continues with the next one. In particular the JSON text of a well-formed envelope
    arrives byte for byte, and decodes to that envelope, if it is the value of the event
    either as it is or as a JSON string. *)
Theorem subscription_delivers selector es partial l :
  Forall relayed_ok es -> free_of newline_char partial = true ->
  subscription selector (Streamed (concat_str (map sse_frame es) +:+ partial) None :: l) =
    (omap (fun e => if MatchesSelector selector (relayed_key e) then Some (relayed_key e, received e) else None) es ++
     subscription selector l)%list /\
  (forall e env, e ∈ es -> envelope_wf env = true ->
    exists text, marshal_envelope env = Ok text /\
      (relayed_raw e = text \/ relayed_value e = JStr text ->
       received e = text /\ unmarshal_envelope (received e) = Some env)).
Proof.
  intros Hes Hp. split.
  - cbn [subscription]. rewrite complete_lines_frames by done.
    rewrite complete_lines_partial by done. by rewrite app_nil_r.
  - intros e env He Hw. rewrite Forall_forall in Hes. pose proof (ok_value e (Hes e He)) as Hv.
    destruct (envelope_document_text env Hw) as (text & v & Ht & Hj & Hns & Hu).
    exists text. split; [done|]. intros Hr. assert (received e = text) as ->; [|done].
    destruct Hr as [Hr|Hr]; [|by unfold received; rewrite Hr]. rewrite Hr, Hj in Hv. injection Hv as Hv.
    by rewrite (Hns e (eq_sym Hv)).
Qed.
End Delivery.

(** * Concrete streams *)
Module RestSamples.
#[local] Existing Instance caseless.
(** JSON written with single quotes. *)
Definition json (s : string) : string := str_map (fun a => if az a =? 39 then za 34 else a) s.
Definition nl : string := String newline_char "".
Definition key1 : string := "sec/tier1/drone/blue/alpha/telemetry".
Definition key2 : string := "sec/tier2/drone/blue/alpha/telemetry".

(** The message of the tests, with its value quoted, and as an object among fields the
    client does not know; a line that is no event; and an event without a key. *)
Example streamed_messages :
  subscription "sec/tier1/**" [Unreachable "refused"; Streamed (json
      "data: {'key':'sec/tier1/drone/blue/alpha/telemetry','value':'{\'status\':\'OK\'}','time':'2026'}" +:+ nl +:+ nl +:+
      ": comment" +:+ nl +:+ "data:" +:+ json "{'encoding':'json','value': {'a' : [1]} ,'KEY':'sec/tier1/x'}" +:+ nl +:+
      json "data: {'key':'sec/tier2/x','value':1}" +:+ nl +:+ "data: plain text " +:+ nl +:+ "data: cut") None; ContextDone] =
    [(key1, json "{'status':'OK'}"); ("sec/tier1/x", json "{'a' : [1]}"); ("sec/tier1/**", "plain text")].
Proof. by vm_compute. Qed.

(** A value that is [null] becomes an empty payload. *)
Example null_value : event_message "a" (json "{'key':'k','value':null}") = ("k", "").
Proof. by vm_compute. Qed.

(** The context done before the second line. *)
Example context_ends :
  subscription "**" [Streamed ("data: 1" +:+ nl +:+ "data: 2" +:+ nl) (Some 1%nat); Streamed ("data: 3" +:+ nl) None] = [("**", "1")].
Proof. by vm_compute. Qed.

(** An event with the members in another order, spaces and a comment before it, its
    value an object; one whose value is a string, and one whose value is null. *)
Definition status : string := json "{'status': 'OK'}".
Definition embedded : relayed :=
  mkRelayed ["event: PUT"; ": seen"] (json "{ 'time':'2026', 'value' : {'status': 'OK'}, 'key':'sec/tier1/drone/blue/alpha/telemetry'}")
    key1 status (JObj [("status", JStr "OK")]).
Definition quoted : relayed :=
  mkRelayed [] (json "{'key':'sec/tier2/drone/blue/alpha/telemetry','value':'ready: 50%'}") key2 (json "'ready: 50%'") (JStr "ready: 50%").
Definition nothing : relayed :=
  mkRelayed [] (json "{'key':'sec/tier2/drone/blue/alpha/telemetry','value':null}") key2 "null" JNull.
(** The sample envelope of the round trip, its JSON quoted as a string. *)
Definition sample_text : string :=
  match marshal_envelope RoundTripSamples.sample with Ok text => text | Err _ => "" end.
Definition relayed_sample : relayed :=
  mkRelayed ["event: PUT"] (json "{'key':'sec/tier1/drone/blue/alpha/telemetry','value':" +:+ marshal_string sample_text +:+ "}")
    key1 (marshal_string sample_text) (JStr sample_text).

#[local] Ltac solve_relayed m :=
  split; [repeat constructor|by vm_compute|exists m; split; by vm_compute|eexists; vm_compute; reflexivity|done|by vm_compute].
Definition inside (e : relayed) : string := str_take (String.length (relayed_data e) - 2) (str_drop 1 (relayed_data e)).

Lemma sample_ok : Forall relayed_ok [embedded; quoted; nothing; relayed_sample].
Proof.
  constructor; [solve_relayed (inside embedded)|]. constructor; [solve_relayed (inside quoted)|].
  constructor; [solve_relayed (inside nothing)|]. constructor; [solve_relayed (inside relayed_sample)|constructor].
Qed.

(** A router that counts the requests and answers 204. *)
#[local] Instance counter : HttpServer nat := {|
  NewRequest _ _ := None;
  Do _ n := (Ok (mkHttpReply 204 "" None), S n);
|}.
#[local] Instance counter_healthy : HealthyRouter (S:=nat).
Proof. refine {| healthy n := True |}; [done|]. intros url content n _. split; [|done]. by eexists. Defined.
Definition rest : RESTClient nat nat := NewRESTClient "http://zenoh:8000/" 0%nat.
Example published : (RESTClient_Publish "/a/b" "x" rest).1 = None /\ server (RESTClient_Publish "/a/b" "x" rest).2 = 1%nat.
Proof. done. Qed.
Example rest_alive : alive rest.
Proof. done. Qed.
Example published_to : resource rest "/a/b" = "http://zenoh:8000/a/b".
Proof. done. Qed.
End RestSamples.

Lemma subscription_delivers_witness :
  subscription (U:=caseless) "sec/*/drone/blue/alpha/telemetry"
    [Streamed (concat_str (map sse_frame [RestSamples.embedded; RestSamples.quoted; RestSamples.nothing; RestSamples.relayed_sample])
      +:+ "data: cut") None] =
  [(RestSamples.key1, RestSamples.status); (RestSamples.key2, "ready: 50%"); (RestSamples.key2, "");
   (RestSamples.key1, RestSamples.sample_text)] /\
  unmarshal_envelope (U:=caseless) RestSamples.sample_text = Some RoundTripSamples.sample.
Proof.
  destruct (@subscription_delivers caseless "sec/*/drone/blue/alpha/telemetry"
    [RestSamples.embedded; RestSamples.quoted; RestSamples.nothing; RestSamples.relayed_sample] "data: cut" []
    RestSamples.sample_ok eq_refl) as [H H'].
  split; [rewrite H; vm_compute; reflexivity|].
  assert (RestSamples.relayed_sample ∈ [RestSamples.embedded; RestSamples.quoted; RestSamples.nothing; RestSamples.relayed_sample])
    as Hin by (do 3 right; left).
  assert (envelope_wf RoundTripSamples.sample = true) as Hw by (vm_compute; reflexivity).
  destruct (H' RestSamples.relayed_sample RoundTripSamples.sample Hin Hw) as (text & Ht & Hr).
  assert (text = RestSamples.sample_text) as -> by (unfold RestSamples.sample_text; by rewrite Ht).
  destruct (Hr (or_intror eq_refl)) as [_ Hu]. exact Hu.
Defined.
