(* ===== verification/Trig.v ===== *)
(** The trigonometry of Go's math package that the simulation uses: Sin, Cos and
    Atan2 as the toolchain computes them (the Cephes polynomials, Cody-Waite
    reduction below 2^29 and Payne-Hanek reduction above), with each operation
    rounded once. *)
From Stdlib Require Import SpecFloat.
From S2P Require Import Prelude Float64.

Local Open Scope Z_scope.

(** [math.Float64frombits]. *)
Definition Float64frombits (b : Z) : f64 :=
  let s := Z.testbit b 63 in
  let ex := Z.shiftr b 52 mod 2 ^ 11 in
  let fr := b mod 2 ^ 52 in
  if ex =? 2047 then (if fr =? 0 then S754_infinity s else S754_nan)
  else match (if ex =? 0 then fr else fr + 2 ^ 52) with
       | Zpos m => binary_round 53 1024 s m (if ex =? 0 then -1074 else ex - 1075)
       | _ => S754_zero s
       end.

Definition half_pi : f64 := Float64frombits 0x3FF921FB54442D18.
Definition quarter_pi : f64 := Float64frombits 0x3FE921FB54442D18.
Definition two_pi : f64 := Float64frombits 0x401921FB54442D18.
Definition four_over_pi : f64 := Float64frombits 0x3FF45F306DC9C883.

(** A polynomial in Horner's form, leading coefficient first. *)
Definition horner (z : f64) (cs : list f64) : f64 :=
  match cs with
  | [] => fzero
  | c :: cs => fold_left (fun acc c => fadd (fmul acc z) c) cs c
  end.

Definition sin_coeffs : list f64 := Float64frombits <$>
  [0x3de5d8fd1fd19ccd; 0xbe5ae5e5a9291f5d; 0x3ec71de3567d48a1; 0xbf2a01a019bfdf03;
   0x3f8111111110f7d0; 0xbfc5555555555548].
Definition cos_coeffs : list f64 := Float64frombits <$>
  [0xbda8fa49a0861a9b; 0x3e21ee9d7b4e3f05; 0xbe927e4f7eac4bc6; 0x3efa01a019c844f5;
   0xbf56c16c16c14f91; 0x3fa555555555554b].

Definition sin_poly (z : f64) : f64 :=
  let zz := fmul z z in fadd z (fmul (fmul z zz) (horner zz sin_coeffs)).
Definition cos_poly (z : f64) : f64 :=
  let zz := fmul z z in
  fadd (fsub (of_Z 1) (fmul (lit 5 1) zz)) (fmul (fmul zz zz) (horner zz cos_coeffs)).

(** ** Argument reduction *)

(** The integer part of a positive float. *)
Definition trunc (x : f64) : Z :=
  match x with
  | S754_finite _ m e => if 0 <=? e then Zpos m * 2 ^ e else Zpos m / 2 ^ (- e)
  | _ => 0
  end.

(** The octant and the rest, below 2^29. *)
Definition cody_waite (x : f64) : Z * f64 :=
  let j := trunc (fmul x four_over_pi) in
  let y := of_Z j in
  let '(j, y) := if Z.odd j then (j + 1, fadd y (of_Z 1)) else (j, y) in
  (j mod 8,
   fsub (fsub (fsub x (fmul y (Float64frombits 0x3fe921fb40000000)))
              (fmul y (Float64frombits 0x3e64442d00000000)))
        (fmul y (Float64frombits 0x3ce8469898cc5170))).

(** 4/pi to 1216 binary places, by Machin's formula: the digits that [trigReduce]
    multiplies by. *)
Fixpoint atan_inverse (fuel : nat) (power n2 k : Z) : Z :=
  match fuel with
  | O => 0
  | S fuel => power / k - atan_inverse fuel (power / n2) n2 (k + 2)
  end.
Definition pi_scaled (bits : Z) : Z :=
  4 * (4 * atan_inverse 400 (2 ^ bits / 5) 25 1 - atan_inverse 400 (2 ^ bits / 239) 57121 1).
Definition digits_of_4_over_pi : Z := Eval vm_compute in 2 ^ (1216 + 1400) * 4 / pi_scaled 1400.
Definition mPi4 (i : Z) : Z := Z.shiftr digits_of_4_over_pi (64 * (19 - i)) mod 2 ^ 64.

Definition window (digit bitshift : Z) : Z :=
  Z.lor (wrapU 64 (Z.shiftl (mPi4 digit) bitshift)) (Z.shiftr (mPi4 (digit + 1)) (64 - bitshift)).

(** Payne-Hanek reduction of [m * 2^e]. *)
Definition trigReduce (m e : Z) : Z * f64 :=
  let digit := (e + 61) / 64 in
  let bitshift := (e + 61) mod 64 in
  let z0 := window digit bitshift in
  let z1 := window (digit + 1) bitshift in
  let z2 := window (digit + 2) bitshift in
  let z2hi := z2 * m / 2 ^ 64 in
  let z1hi := z1 * m / 2 ^ 64 in
  let z1lo := wrapU 64 (z1 * m) in
  let lo := wrapU 64 (z1lo + z2hi) in
  let carry := (z1lo + z2hi) / 2 ^ 64 in
  let hi := wrapU 64 (z0 * m + z1hi + carry) in
  let j := Z.shiftr hi 61 in
  let hi := Z.lor (wrapU 64 (Z.shiftl hi 3)) (Z.shiftr lo 61) in
  let lz := if hi =? 0 then 64 else 63 - Z.log2 hi in
  let frac := Z.lor (wrapU 64 (Z.shiftl hi (lz + 1))) (Z.shiftr lo (64 - (lz + 1))) in
  let z := Float64frombits (Z.lor (Z.shiftr frac 12) (Z.shiftl (1023 - (lz + 1)) 52)) in
  let '(j, z) := if Z.odd j then ((j + 1) mod 8, fsub z (of_Z 1)) else (j, z) in
  (j, fmul z quarter_pi).

Definition reduceThreshold : f64 := of_Z (2 ^ 29).

Definition reduce (x : f64) : Z * f64 :=
  if fge x reduceThreshold then
    match x with S754_finite _ m e => trigReduce (Zpos m) e | _ => (0, x) end
  else cody_waite x.

(** * The functions *)
Definition Sin (x : f64) : f64 :=
  match x with
  | S754_zero _ | S754_nan => x
  | S754_infinity _ => S754_nan
  | S754_finite s _ _ =>
    let '(j, z) := reduce (fabs x) in
    let '(j, s) := if 3 <? j then (j - 4, negb s) else (j, s) in
    let y := if (j =? 1) || (j =? 2) then cos_poly z else sin_poly z in
    if s then fneg y else y
  end.

Definition Cos (x : f64) : f64 :=
  match x with
  | S754_nan | S754_infinity _ => S754_nan
  | _ =>
    let '(j, z) := reduce (fabs x) in
    let '(j, s) := if 3 <? j then (j - 4, true) else (j, false) in
    let s := if 1 <? j then negb s else s in
    let y := if (j =? 1) || (j =? 2) then sin_poly z else cos_poly z in
    if s then fneg y else y
  end.

Definition xatan (x : f64) : f64 :=
  let z := fmul x x in
  let p := horner z (Float64frombits <$>
    [0xbfec007fa1f72594; 0xc03028545b6b807a; 0xc052c08c36880273; 0xc05eb8bf2d05ba25; 0xc0503669fd28ec8e]) in
  let q := horner z (of_Z 1 :: (Float64frombits <$>
    [0x4038dbc45b14603c; 0x4064a0dd43b8fa25; 0x407b0e18d2e2be3b; 0x407e563f13b049ea; 0x4068519efbbd62ec])) in
  let z := fdiv (fmul z p) q in
  fadd (fmul x z) x.

Definition satan (x : f64) : f64 :=
  if fle x (lit 66 2) then xatan x
  else if fgt x (Float64frombits 0x4003504f333f9de6) then
    fadd (fsub half_pi (xatan (fdiv (of_Z 1) x))) (Float64frombits 0x3c91a62633145c07)
  else
    fadd (fadd quarter_pi (xatan (fdiv (fsub x (of_Z 1)) (fadd x (of_Z 1)))))
      (Float64frombits 0x3c81a62633145c07).

Definition Atan (x : f64) : f64 :=
  match x with
  | S754_zero _ => x
  | _ => if fgt x fzero then satan x else fneg (satan (fneg x))
  end.

Definition sign_bit (x : f64) : bool :=
  match x with S754_zero s | S754_infinity s | S754_finite s _ _ => s | S754_nan => false end.
Definition Copysign (x y : f64) : f64 := if sign_bit y then fneg (fabs x) else fabs x.

Definition Atan2 (y x : f64) : f64 :=
  match y, x with
  | S754_nan, _ | _, S754_nan => S754_nan
  | S754_zero _, _ => if fge x fzero && negb (sign_bit x) then Copysign fzero y else Copysign Pi y
  | _, S754_zero _ => Copysign half_pi y
  | S754_infinity _, S754_infinity sx =>
    if sx then Copysign (Float64frombits 0x4002D97C7F3321D2) y else Copysign quarter_pi y
  | _, S754_infinity sx => if sx then Copysign Pi y else Copysign fzero y
  | S754_infinity _, _ => Copysign half_pi y
  | _, _ =>
    let q := Atan (fdiv y x) in
    if flt x fzero then (if fle q fzero then fadd q Pi else fsub q Pi) else q
  end.

(** Known values. *)
Example digits_known : (mPi4 0, mPi4 1, mPi4 2) = (1, 0x45f306dc9c882a53, 0xf84eafa3ea69bb81).
Proof. by vm_compute. Qed.
