(* ===== verification/Bridge.v ===== *)
(** pkg/mavlink/bridge.go: the vehicle state aggregated from MAVLink frames, and
    the telemetry envelopes built from it; with the unit conversions of
    messages.go. *)
From Stdlib Require Import Strings.Ascii Strings.String SpecFloat.
From S2P Require Import Prelude Crc Messages GoString Float64 Json Topic Schema FloatRange.

Local Open Scope string_scope.
Local Open Scope Z_scope.
Local Open Scope go_scope.

(** * Unit conversions (messages.go) *)

(** [float64(f)] for a [float32] given by its bits: exact. *)
Definition f64_of_f32 (bits : float32) : f64 :=
  let s := Z.testbit bits 31 in
  let ex := bits / 2 ^ 23 mod 2 ^ 8 in
  let fr := bits mod 2 ^ 23 in
  if ex =? 255 then (if fr =? 0 then S754_infinity s else S754_nan)
  else match (if ex =? 0 then fr else fr + 2 ^ 23) with
       | Zpos m => binary_round 53 1024 s m (if ex =? 0 then -149 else ex - 150)
       | _ => S754_zero s
       end.

Definition LatDegrees (g : GlobalPositionInt) : f64 := fdiv (of_Z (Lat g)) (of_Z (10 ^ 7)).
Definition LonDegrees (g : GlobalPositionInt) : f64 := fdiv (of_Z (Lon g)) (of_Z (10 ^ 7)).
Definition AltMeters (g : GlobalPositionInt) : f64 := fdiv (of_Z (RelativeAlt g)) (of_Z 1000).
Definition GroundSpeedMps (g : GlobalPositionInt) : f64 :=
  let vx := fdiv (of_Z (Vx g)) (of_Z 100) in
  let vy := fdiv (of_Z (Vy g)) (of_Z 100) in
  fsqrt (fadd (fmul vx vx) (fmul vy vy)).
Definition GpiHeadingDeg (g : GlobalPositionInt) : f64 := fdiv (of_Z (Hdg g)) (of_Z 100).

(** [float64(a) * 180.0 / math.Pi], rounded to one decimal. *)
Definition angle_deg (a : float32) : f64 := fdiv (fmul (f64_of_f32 a) (of_Z 180)) Pi.


(** [roundFloat] of this package: by [math.Pow]. *)
Definition roundFloat (val : f64) (precision : Z) : f64 :=
  let ratio := Pow_10 precision in fdiv (Round (fmul val ratio)) ratio.

Example angle_of_one : roundFloat (angle_deg 0x3F800000) 1 = lit 573 1.
Proof. by vm_compute. Qed.

(** * State *)
Record VehicleState := mkVehicle {
  v_unitID : string; v_team : string; v_vehicleType : string; v_tier : string; v_systemID : byte;
  v_armed : bool; v_status : string;
  v_lat : f64; v_lon : f64; v_alt : f64;
  v_vx : f64; v_vy : f64; v_vz : f64; v_speed : f64; v_heading : f64; v_battery : f64;
  v_roll : f64; v_pitch : f64; v_yaw : f64;
  v_lastUpdate : Z; v_sequence : Z;
}.

Definition default_to (d s : string) : string := if is_empty s then d else s.

Definition NewVehicleState (unitID team vehicleType tier : string) (systemID : byte) : VehicleState :=
  mkVehicle unitID (default_to "blue" team) (default_to "drone" vehicleType)
    (default_to Tier2Restricted tier) systemID false "STANDBY"
    fzero fzero fzero fzero fzero fzero fzero fzero (of_Z 100) fzero fzero fzero 0 0.

Definition set_update (now : Z) (v : VehicleState) : VehicleState :=
  mkVehicle (v_unitID v) (v_team v) (v_vehicleType v) (v_tier v) (v_systemID v) (v_armed v) (v_status v)
    (v_lat v) (v_lon v) (v_alt v) (v_vx v) (v_vy v) (v_vz v) (v_speed v) (v_heading v) (v_battery v)
    (v_roll v) (v_pitch v) (v_yaw v) now (v_sequence v).
Definition set_armed (armed : bool) (status : string) (v : VehicleState) : VehicleState :=
  mkVehicle (v_unitID v) (v_team v) (v_vehicleType v) (v_tier v) (v_systemID v) armed status
    (v_lat v) (v_lon v) (v_alt v) (v_vx v) (v_vy v) (v_vz v) (v_speed v) (v_heading v) (v_battery v)
    (v_roll v) (v_pitch v) (v_yaw v) (v_lastUpdate v) (v_sequence v).
Definition set_position (lat lon alt vx vy vz speed heading : f64) (v : VehicleState) : VehicleState :=
  mkVehicle (v_unitID v) (v_team v) (v_vehicleType v) (v_tier v) (v_systemID v) (v_armed v) (v_status v)
    lat lon alt vx vy vz speed heading (v_battery v)
    (v_roll v) (v_pitch v) (v_yaw v) (v_lastUpdate v) (v_sequence v).
Definition set_battery (battery : f64) (v : VehicleState) : VehicleState :=
  mkVehicle (v_unitID v) (v_team v) (v_vehicleType v) (v_tier v) (v_systemID v) (v_armed v) (v_status v)
    (v_lat v) (v_lon v) (v_alt v) (v_vx v) (v_vy v) (v_vz v) (v_speed v) (v_heading v) battery
    (v_roll v) (v_pitch v) (v_yaw v) (v_lastUpdate v) (v_sequence v).
Definition set_attitude (roll pitch yaw : f64) (v : VehicleState) : VehicleState :=
  mkVehicle (v_unitID v) (v_team v) (v_vehicleType v) (v_tier v) (v_systemID v) (v_armed v) (v_status v)
    (v_lat v) (v_lon v) (v_alt v) (v_vx v) (v_vy v) (v_vz v) (v_speed v) (v_heading v) (v_battery v)
    roll pitch yaw (v_lastUpdate v) (v_sequence v).
Definition set_sequence (n : Z) (v : VehicleState) : VehicleState :=
  mkVehicle (v_unitID v) (v_team v) (v_vehicleType v) (v_tier v) (v_systemID v) (v_armed v) (v_status v)
    (v_lat v) (v_lon v) (v_alt v) (v_vx v) (v_vy v) (v_vz v) (v_speed v) (v_heading v) (v_battery v)
    (v_roll v) (v_pitch v) (v_yaw v) (v_lastUpdate v) n.

(** * Ingestion

    The error of a payload that does not decode, with the message it belongs to. *)
Inductive IngestError := DecodingHeartbeat (e : DecodeError) | DecodingGlobalPositionInt (e : DecodeError)
  | DecodingSysStatus (e : DecodeError) | DecodingAttitude (e : DecodeError).

Definition airborne (alt : f64) : bool := fgt alt (of_Z 1).

Definition ingest_heartbeat (hb : Heartbeat) (v : VehicleState) : VehicleState :=
  let armed := IsArmed hb in
  set_armed armed
    (if armed then (if airborne (v_alt v) then "IN_FLIGHT" else "ARMED") else "STANDBY") v.

Definition ingest_position (pos : GlobalPositionInt) (v : VehicleState) : VehicleState :=
  let v := set_position (roundFloat (LatDegrees pos) 6) (roundFloat (LonDegrees pos) 6)
    (roundFloat (AltMeters pos) 2)
    (roundFloat (fdiv (of_Z (Vx pos)) (of_Z 100)) 2) (roundFloat (fdiv (of_Z (Vy pos)) (of_Z 100)) 2)
    (roundFloat (fdiv (of_Z (Vz pos)) (of_Z 100)) 2)
    (roundFloat (GroundSpeedMps pos) 2) (roundFloat (GpiHeadingDeg pos) 1) v in
  if v_armed v && airborne (v_alt v) then set_armed (v_armed v) "IN_FLIGHT" v else v.

Definition ingest_sys_status (sys : SysStatus) (v : VehicleState) : VehicleState :=
  if (0 <=? BatteryRemaining sys) && (BatteryRemaining sys <=? 100)
  then set_battery (of_Z (BatteryRemaining sys)) v else v.

Definition ingest_attitude (att : Attitude) (v : VehicleState) : VehicleState :=
  set_attitude (roundFloat (angle_deg (Roll att)) 1) (roundFloat (angle_deg (Pitch att)) 1)
    (roundFloat (angle_deg (Yaw att)) 1) v.

Definition IngestFrame (now : Z) (frame : Frame) (v : VehicleState) : option IngestError * VehicleState :=
  let v := set_update now v in
  let id := Messages.MessageID frame in
  if id =? MsgIDHeartbeat then
    match DecodeHeartbeat (Messages.Payload frame) with
    | Err e => (Some (DecodingHeartbeat e), v)
    | Ok hb => (None, ingest_heartbeat hb v)
    end
  else if id =? MsgIDGlobalPositionInt then
    match DecodeGlobalPositionInt (Messages.Payload frame) with
    | Err e => (Some (DecodingGlobalPositionInt e), v)
    | Ok pos => (None, ingest_position pos v)
    end
  else if id =? MsgIDSysStatus then
    match DecodeSysStatus (Messages.Payload frame) with
    | Err e => (Some (DecodingSysStatus e), v)
    | Ok sys => (None, ingest_sys_status sys v)
    end
  else if id =? MsgIDAttitude then
    match DecodeAttitude (Messages.Payload frame) with
    | Err e => (Some (DecodingAttitude e), v)
    | Ok att => (None, ingest_attitude att v)
    end
  else (None, v).

(** * Envelopes *)
Section Build.
Context `{U : Unicode}.

Definition vehicle_payload (v : VehicleState) : TelemetryPayload :=
  mkTelemetry (v_unitID v) (v_vehicleType v) (v_team v) (v_status v) (v_battery v)
    (mkCoordinates (v_lat v) (v_lon v) (v_alt v))
    (mkVelocity (v_vx v) (v_vy v) (v_vz v) (v_speed v)) (v_heading v)
    (Some [("mavlink_source", ABool true); ("pitch_deg", ANum (v_pitch v));
           ("roll_deg", ANum (v_roll v)); ("yaw_deg", ANum (v_yaw v))])
    (v_sequence v).

Definition BuildSecurityEnvelope (now1 now2 : Z) (v : VehicleState)
  : result string SecurityEnvelope * VehicleState :=
  let v := set_sequence (u64 (v_sequence v + 1)) v in
  (NewTelemetryEnvelope (v_tier v) ("mavlink-" +:+ v_unitID v) (vehicle_payload v) [] now1 now2, v).

Definition GetStateSnapshot (v : VehicleState) : f64 * f64 * f64 * f64 * f64 * f64 * bool * string :=
  (v_lat v, v_lon v, v_alt v, v_speed v, v_heading v, v_battery v, v_armed v, v_status v).
End Build.

(** The frames of a session, each with the time it was ingested at. *)
Definition ingest_all (frames : list (Z * Frame)) (v : VehicleState) : VehicleState :=
  fold_left (fun v '(now, f) => (IngestFrame now f v).2) frames v.

(** * Conversions stay in range *)
Lemma roundFloat_schema d x : d ∈ [1; 2; 6] -> roundFloat x d = Schema.roundFloat x d.
Proof.
  intros H. unfold roundFloat, Schema.roundFloat.
  assert (Pow_10 d = Pow10 d) as ->; [|done].
  rewrite !elem_of_cons, elem_of_nil in H. destruct H as [->|[->|[->|[]]]]; by vm_compute.
Qed.

Lemma rounded_sound d x : d ∈ [1; 2; 6] -> sound_float x -> sound_float (roundFloat x d).
Proof. intros Hd Hx. rewrite roundFloat_schema by done. by apply roundFloat_sound. Qed.

Lemma scaled_sound z p B :
  Z.abs z <= B * p -> 0 < p <= 2 ^ 24 -> 0 < B <= 2 ^ 26 ->
  valid (fdiv (of_Z z) (of_Z p)) /\ in_range B (fdiv (of_Z z) (of_Z p)) = true.
Proof. intros Hz Hp HB. rewrite of_Z_signed. apply fdiv_int_sound; lia. Qed.

Lemma scaled_sound_float z p B :
  Z.abs z <= B * p -> 0 < p <= 2 ^ 24 -> 0 < B <= 2 ^ 26 -> sound_float (fdiv (of_Z z) (of_Z p)).
Proof.
  intros Hz Hp HB. destruct (scaled_sound z p B Hz Hp HB) as [Hv Hr]. split; [done|].
  apply (in_range_mono B); [lia|done].
Qed.

Lemma scaled_within z B :
  Z.abs z <= B * 10 ^ 7 -> B ∈ [90; 100; 180] ->
  within (- B) B (roundFloat (fdiv (of_Z z) (of_Z (10 ^ 7))) 6).
Proof.
  intros Hz HB.
  assert (0 < B <= 2 ^ 26 /\ of_Z (- B) = fneg (of_Z B)) as [HB1 HB2].
  { rewrite !elem_of_cons, elem_of_nil in HB. by destruct HB as [->|[->|[->|[]]]]. }
  destruct (scaled_sound z (10 ^ 7) B) as [Hv Hr]; [done|lia|done|].
  rewrite roundFloat_schema by (rewrite !elem_of_cons; auto).
  apply roundFloat_within; [rewrite !elem_of_cons; auto|done|done|].
  rewrite in_range_fle in Hr by (done || lia). by apply andb_prop in Hr.
Qed.

(** The ground speed of two 16-bit components. *)
Lemma component_mag z : in_s 16 z -> exists s, mag s (-59) (-42) (fdiv (of_Z z) (of_Z 100)).
Proof.
  intros [Hl Hu]. exists (z <? 0). rewrite of_Z_signed.
  change (of_Z 100) with (S754_finite false 7036874417766400 (-46)).
  pose proof (signed_of_Z_mag (z <? 0) (Z.abs z) 16 ltac:(lia) ltac:(lia)) as H.
  apply (fdiv_mag _ _ _ false 7036874417766400 (-46)) in H; [|done|lia..].
  by rewrite xorb_false_r in H.
Qed.

Lemma square_mag z : in_s 16 z ->
  mag false (-66) (-30) (fmul (fdiv (of_Z z) (of_Z 100)) (fdiv (of_Z z) (of_Z 100))).
Proof.
  intros H. destruct (component_mag z H) as [s Hs].
  pose proof (fmul_mag _ _ _ _ _ _ _ _ Hs Hs) as Hm. rewrite xorb_nilpotent in Hm. apply Hm; lia.
Qed.

Lemma GroundSpeedMps_sound g : in_s 16 (Vx g) -> in_s 16 (Vy g) -> sound_float (GroundSpeedMps g).
Proof.
  intros Hx Hy. unfold GroundSpeedMps.
  pose proof (fadd_mag _ _ _ _ (square_mag _ Hx) (square_mag _ Hy)) as H.
  specialize (H ltac:(lia) ltac:(lia) ltac:(lia)).
  apply fsqrt_mag in H; [|lia..]. by apply (mag_sound _ _ _ _ H).
Qed.

(** An attitude angle is finite exactly when the [float32] it comes from is. *)
Lemma f64_of_f32_mag a :
  is_finite (f64_of_f32 a) = true -> exists s, mag s (-201) 105 (f64_of_f32 a).
Proof.
  unfold f64_of_f32. pose proof (Z.mod_pos_bound (a / 2 ^ 23) (2 ^ 8) ltac:(lia)).
  pose proof (Z.mod_pos_bound a (2 ^ 23) ltac:(lia)). set (fr := a mod 2 ^ 23) in *.
  set (ex := a / 2 ^ 23 mod 2 ^ 8) in *.
  destruct (ex =? 255) eqn:E; [by destruct (fr =? 0)|]. intros _. exists (Z.testbit a 31).
  destruct (if ex =? 0 then fr else fr + 2 ^ 23) as [|m|m] eqn:Em; [by left| |by left].
  assert (Zpos m < 2 ^ 24) by (destruct (ex =? 0); lia).
  set (e := if ex =? 0 then -149 else ex - 150).
  assert (-149 <= e <= 104) as He by (unfold e; destruct (ex =? 0) eqn:?; lia).
  eapply mag_weaken; [| |apply binary_round_mag; lia]; lia.
Qed.

Lemma angle_is_finite a : is_finite (roundFloat (angle_deg a) 1) = is_finite (f64_of_f32 a).
Proof.
  destruct (is_finite (f64_of_f32 a)) eqn:E.
  - destruct (f64_of_f32_mag a E) as [s H]. rewrite roundFloat_schema, roundFloat_roundTo
      by (rewrite !elem_of_cons; auto). unfold angle_deg.
    assert (mag false (-45) (-45) (of_Z 180)) as M180.
    { right. exists 6333186975989760%positive, (-45). split_and!; by try lia. }
    pose proof (fmul_mag _ _ _ _ _ _ _ _ H M180) as H1. rewrite xorb_false_r in H1.
    specialize (H1 ltac:(lia) ltac:(lia) ltac:(lia) ltac:(lia)).
    apply (fdiv_mag _ _ _ false 7074237752028440 (-51)) in H1; [|done|lia..].
    rewrite xorb_false_r in H1. apply (roundTo_mag _ _ _ _ _ H1); [done|lia..].
  - unfold angle_deg. by destruct (f64_of_f32 a) as [|[]| |].
Qed.

(** * Invariants of a session *)
Definition statuses : list string := ["STANDBY"; "ARMED"; "IN_FLIGHT"].

Definition status_ok (v : VehicleState) : Prop :=
  v_status v ∈ statuses /\ (v_armed v = true <-> v_status v <> "STANDBY").

(** The floats of the state are those of a telemetry payload that normalises. *)
Definition airworthy (v : VehicleState) : Prop :=
  Forall sound_float (telemetry_floats (vehicle_payload v)) /\ within 0 100 (v_battery v).

Definition attitude_finite (v : VehicleState) : bool :=
  is_finite (v_roll v) && is_finite (v_pitch v) && is_finite (v_yaw v).

Definition position_ok (v : VehicleState) : Prop :=
  within (-90) 90 (v_lat v) /\ within (-180) 180 (v_lon v).

(** A frame that a working autopilot sends: coordinates on the globe, angles
    that are numbers. *)
Definition plausible (f : Frame) : bool :=
  (if Messages.MessageID f =? MsgIDGlobalPositionInt then
     match DecodeGlobalPositionInt (Messages.Payload f) with
     | Ok g => (Z.abs (Lat g) <=? 90 * 10 ^ 7) && (Z.abs (Lon g) <=? 180 * 10 ^ 7)
     | Err _ => true
     end else true) &&
  (if Messages.MessageID f =? MsgIDAttitude then
     match DecodeAttitude (Messages.Payload f) with
     | Ok a => is_finite (f64_of_f32 (Roll a)) && is_finite (f64_of_f32 (Pitch a)) &&
               is_finite (f64_of_f32 (Yaw a))
     | Err _ => true
     end else true).

Lemma DecodeGlobalPositionInt_wf p g : DecodeGlobalPositionInt p = Ok g -> gpi_wf g.
Proof.
  unfold DecodeGlobalPositionInt. destruct (Nat.ltb_spec (length p) 28); [done|]. intros [= <-].
  unfold gpi_wf. cbn -[Uint32 Uint16 i32 i16 in_u in_s]. split_and!; try (apply Uint32_range; lia); try (apply Uint16_range; lia);
    by apply wrapS_range.
Qed.

(** What one frame does: nothing but the time, or one of four updates. *)
Inductive ingests (f : Frame) (v v' : VehicleState) : Prop :=
| Ignored (_ : v' = v)
| GotHeartbeat hb (_ : v' = ingest_heartbeat hb v)
| GotPosition g (_ : Messages.MessageID f = MsgIDGlobalPositionInt)
    (_ : DecodeGlobalPositionInt (Messages.Payload f) = Ok g) (_ : v' = ingest_position g v)
| GotSysStatus sys (_ : v' = ingest_sys_status sys v)
| GotAttitude a (_ : Messages.MessageID f = MsgIDAttitude)
    (_ : DecodeAttitude (Messages.Payload f) = Ok a) (_ : v' = ingest_attitude a v).

Lemma IngestFrame_ingests now f v : ingests f (set_update now v) (IngestFrame now f v).2.
Proof.
  unfold IngestFrame. destruct (Messages.MessageID f =? MsgIDHeartbeat) eqn:E1.
  { destruct (DecodeHeartbeat _); [by eapply GotHeartbeat|by apply Ignored]. }
  destruct (Messages.MessageID f =? MsgIDGlobalPositionInt) eqn:E2.
  { destruct (DecodeGlobalPositionInt _) eqn:D; [|by apply Ignored].
    eapply GotPosition; [lia|exact D|done]. }
  destruct (Messages.MessageID f =? MsgIDSysStatus) eqn:E3.
  { destruct (DecodeSysStatus _); [by eapply GotSysStatus|by apply Ignored]. }
  destruct (Messages.MessageID f =? MsgIDAttitude) eqn:E4; [|by apply Ignored].
  destruct (DecodeAttitude _) eqn:D; [|by apply Ignored]. eapply GotAttitude; [lia|exact D|done].
Qed.

(** A property of the state that every ingested frame keeps holds at the end. *)
Lemma ingest_all_invariant (P : VehicleState -> Prop) (ok : Frame -> bool) frames v :
  (forall now f v, ok f = true -> P v -> P (IngestFrame now f v).2) ->
  forallb ok (map snd frames) = true -> P v -> P (ingest_all frames v).
Proof.
  intros Hstep. revert v. induction frames as [|[now f] frames IH]; intros v H Hv; [done|].
  cbn in H. apply andb_prop in H as [H1 H2]. apply IH; [done|]. by apply Hstep.
Qed.

Lemma status_ok_step now f v : status_ok v -> status_ok (IngestFrame now f v).2.
Proof.
  intros H. destruct (IngestFrame_ingests now f v) as [->|hb ->|g _ _ ->|sys ->|a _ _ ->]; try done.
  - unfold ingest_heartbeat, status_ok, statuses, set_armed. cbn.
    destruct (IsArmed hb); [destruct (airborne _)|]; cbn; (split; [rewrite !elem_of_cons; auto|by split]).
  - unfold ingest_position, status_ok, statuses in *. cbn. destruct (v_armed v) eqn:E; cbn; [|by rewrite E].
    destruct (airborne _); cbn; rewrite ?E; [|done]. split; [rewrite !elem_of_cons; auto|by split].
  - unfold ingest_sys_status. by destruct (_ && _).
Qed.

Lemma battery_percent n : 0 <= n <= 100 -> sound_float (of_Z n) /\ within 0 100 (of_Z n).
Proof.
  intros Hn. assert (0 <= n) as Hn0 by lia.
  destruct (signed_of_Z_sound false n 100) as [Hv Hr]; [lia..|].
  assert (of_Z n = signed_of_Z false n) as E by (rewrite of_Z_signed; f_equal; lia).
  rewrite <- E in *. repeat split; [done|by apply (in_range_mono 100)| |].
  - assert (of_Z n = fzero \/ exists m e, of_Z n = S754_finite false m e) as [->|(m & e & ->)]; try done.
    destruct (decide (n = 0)) as [->|]; [by left|]. right.
    destruct (of_Z_spec n) as (m & e & -> & _); [lia|by exists m, e].
  - rewrite in_range_fle in Hr by done. by apply andb_prop in Hr as [_ ?].
Qed.

Lemma airworthy_step now f v : airworthy v -> airworthy (IngestFrame now f v).2.
Proof.
  intros H. destruct (IngestFrame_ingests now f v) as [->|hb ->|g _ D ->|sys ->|a _ _ ->]; try done.
  - apply DecodeGlobalPositionInt_wf in D as (_ & [] & [] & _ & [] & Hx & Hy & [] & []).
    pose proof Hx as []. pose proof Hy as [].
    destruct H as [H Hb]. unfold telemetry_floats in H. rewrite !Forall_cons in H.
    assert (forall v', airworthy v' -> forall b s, airworthy (set_armed b s v')) as Harm by done.
    unfold ingest_position. cbv zeta. set (w := set_position _ _ _ _ _ _ _ _ _).
    assert (airworthy w); [|by destruct (_ && _); [apply Harm|]]. split; [|done].
    unfold telemetry_floats. cbn -[roundFloat fdiv of_Z GroundSpeedMps].
    repeat apply Forall_cons_2; try apply rounded_sound; try (rewrite !elem_of_cons; auto; fail);
      try (apply H); try (by apply GroundSpeedMps_sound); try apply Forall_nil_2.
    + apply (scaled_sound_float _ _ 656); lia.
    + apply (scaled_sound_float _ _ 215); lia.
    + apply (scaled_sound_float _ _ 215); lia.
    + apply (scaled_sound_float _ _ 2147484); lia.
    + apply (scaled_sound_float _ _ 328); lia.
    + apply (scaled_sound_float _ _ 328); lia.
    + apply (scaled_sound_float _ _ 328); lia.
  - unfold ingest_sys_status. destruct (_ && _) eqn:E; [|done].
    destruct (battery_percent (BatteryRemaining sys)) as [Hs Hw]; [lia|].
    destruct H as [H _]. inversion H; subst. split; [by apply Forall_cons_2|done].
Qed.

Lemma attitude_step now f v :
  plausible f = true -> attitude_finite v = true -> attitude_finite (IngestFrame now f v).2 = true.
Proof.
  intros Hp H. apply andb_prop in Hp as [_ Hp].
  destruct (IngestFrame_ingests now f v) as [->|hb ->|g _ _ ->|sys ->|a Hid D ->]; try done.
  - unfold ingest_position. cbv zeta. by destruct (_ && _).
  - unfold ingest_sys_status. by destruct (_ && _).
  - rewrite Hid, D in Hp. unfold ingest_attitude, attitude_finite. cbn -[roundFloat angle_deg].
    by rewrite !angle_is_finite.
Qed.

Lemma position_step now f v : plausible f = true -> position_ok v -> position_ok (IngestFrame now f v).2.
Proof.
  intros Hp H. apply andb_prop in Hp as [Hp _].
  destruct (IngestFrame_ingests now f v) as [->|hb ->|g Hid D ->|sys ->|a _ _ ->]; try done.
  - rewrite Hid, D in Hp. apply andb_prop in Hp as [Hla Hlo]. apply Z.leb_le in Hla, Hlo.
    assert (forall w, position_ok w -> forall b s, position_ok (set_armed b s w)) as Harm by done.
    unfold ingest_position. cbv zeta. set (w := set_position _ _ _ _ _ _ _ _ _).
    assert (position_ok w); [|by destruct (_ && _); [apply Harm|]].
    split; [apply (scaled_within (Lat g) 90)|apply (scaled_within (Lon g) 180)];
      rewrite ?elem_of_cons; auto.
  - unfold ingest_sys_status. by destruct (_ && _).
Qed.

(** The identity of a vehicle never changes. *)
Definition identity (v : VehicleState) := (v_unitID v, v_team v, v_vehicleType v, v_tier v, v_systemID v).

Lemma identity_step now f v : identity (IngestFrame now f v).2 = identity v.
Proof.
  destruct (IngestFrame_ingests now f v) as [->|hb ->|g _ _ ->|sys ->|a _ _ ->]; try done.
  - unfold ingest_position. cbv zeta. by destruct (_ && _).
  - unfold ingest_sys_status. by destruct (_ && _).
Qed.

Lemma sequence_step now f v : v_sequence (IngestFrame now f v).2 = v_sequence v.
Proof.
  destruct (IngestFrame_ingests now f v) as [->|hb ->|g _ _ ->|sys ->|a _ _ ->]; try done.
  - unfold ingest_position. cbv zeta. by destruct (_ && _).
  - unfold ingest_sys_status. by destruct (_ && _).
Qed.

Lemma ingest_all_always (P : VehicleState -> Prop) frames v :
  (forall now f v, P v -> P (IngestFrame now f v).2) -> P v -> P (ingest_all frames v).
Proof.
  intros Hstep. apply (ingest_all_invariant P (fun _ => true)); [auto|].
  by induction frames as [|[] frames IH].
Qed.

Lemma NewVehicleState_initial unitID team vt tier sys :
  let v := NewVehicleState unitID team vt tier sys in
  status_ok v /\ airworthy v /\ attitude_finite v = true /\ position_ok v.
Proof.
  split_and!; [| |done|by repeat split].
  - split; [by unfold statuses; rewrite !elem_of_cons; auto|done].
  - split; [repeat constructor; by vm_compute|by split].
Qed.

(** Whatever frames arrive, the reported status is one of the three states and
    says STANDBY exactly when the autopilot is not armed. *)
Theorem vehicle_status_invariant unitID team vt tier sys frames :
  let v := ingest_all frames (NewVehicleState unitID team vt tier sys) in
  v_status v ∈ ["STANDBY"; "ARMED"; "IN_FLIGHT"] /\ (v_armed v = true <-> v_status v <> "STANDBY").
Proof.
  apply (ingest_all_always status_ok); [apply status_ok_step|].
  apply (NewVehicleState_initial unitID team vt tier sys).
Qed.

(** A frame whose payload does not decode changes nothing but the time of the
    last update, and the error names the message that was being decoded. *)
Theorem IngestFrame_error now f v e :
  (IngestFrame now f v).1 = Some e ->
  (IngestFrame now f v).2 = set_update now v /\
  Messages.MessageID f = match e with
    | DecodingHeartbeat _ => MsgIDHeartbeat | DecodingGlobalPositionInt _ => MsgIDGlobalPositionInt
    | DecodingSysStatus _ => MsgIDSysStatus | DecodingAttitude _ => MsgIDAttitude end.
Proof.
  unfold IngestFrame.
  destruct (Z.eqb_spec (Messages.MessageID f) MsgIDHeartbeat).
  { destruct (DecodeHeartbeat _); cbn; by intros [= <-]. }
  destruct (Z.eqb_spec (Messages.MessageID f) MsgIDGlobalPositionInt).
  { destruct (DecodeGlobalPositionInt _); cbn; by intros [= <-]. }
  destruct (Z.eqb_spec (Messages.MessageID f) MsgIDSysStatus).
  { destruct (DecodeSysStatus _); cbn; by intros [= <-]. }
  destruct (Z.eqb_spec (Messages.MessageID f) MsgIDAttitude); [|done].
  destruct (DecodeAttitude _); cbn; by intros [= <-].
Qed.

Section Envelopes.
Context `{U : Unicode} `{UL : !UnicodeLaws U}.

Lemma attitude_marshals v :
  payload_map_ok (MissionPayload (vehicle_payload v)) = attitude_finite v.
Proof.
  unfold payload_map_ok, map_field, attitude_finite, vehicle_payload. cbn [MissionPayload].
  cbn [forallb snd]. rewrite andb_true_r. cbn -[marshal_float].
  assert (forall x, is_ok (marshal_float x) = is_finite x) as H.
  { intros [s|s| |s m e]; [done..|]. cbn. by destruct (shortest m e). }
  pose proof (H (v_roll v)) as H1. pose proof (H (v_pitch v)) as H2. pose proof (H (v_yaw v)) as H3.
  destruct (marshal_float (v_roll v)), (marshal_float (v_pitch v)), (marshal_float (v_yaw v));
    cbn in *; by rewrite <- H1, <- H2, <- H3.
Qed.

(** The state a bridge is in between calls: everything the envelope's validation
    checks. *)
Record flyable (v : VehicleState) : Prop := {
  fly_floats : airworthy v;
  fly_attitude : attitude_finite v = true;
  fly_position : position_ok v;
  fly_unit : v_unitID v <> "";
  fly_type : v_vehicleType v <> "";
  fly_team : v_team v <> "";
  fly_tier : valid_tier (v_tier v) = true;
}.

Lemma NewVehicleState_flyable unitID team vt tier sys :
  valid_tier (default_to Tier2Restricted tier) = true -> unitID <> "" ->
  flyable (NewVehicleState unitID team vt tier sys).
Proof.
  intros Ht Hid. destruct (NewVehicleState_initial unitID team vt tier sys) as (_ & Ha & Hf & Hpos).
  constructor; [exact Ha|exact Hf|exact Hpos|exact Hid| | |exact Ht]; [by destruct vt|by destruct team].
Qed.

Lemma IngestFrame_flyable now f v : plausible f = true -> flyable v -> flyable (IngestFrame now f v).2.
Proof.
  intros Hp []. pose proof (identity_step now f v) as Hi. unfold identity in Hi.
  injection Hi as E1 E2 E3 E4 _. constructor; rewrite ?E1, ?E2, ?E3, ?E4; try done.
  - by apply airworthy_step.
  - by apply attitude_step.
  - by apply position_step.
Qed.

(** What the bridge publishes from such a state, the guard accepts. *)
Lemma flyable_builds now1 now2 v : flyable v -> now2 <> 0 ->
  let v' := set_sequence (u64 (v_sequence v + 1)) v in
  flyable v' /\ exists env, BuildSecurityEnvelope now1 now2 v = (Ok env, v') /\
    Telemetry env = Some (Normalize (vehicle_payload v')) /\ Validate (Some env) = (None, Some env).
Proof.
  intros Hv Hn v'. assert (flyable v') as Hv' by (destruct Hv; by constructor). split; [done|].
  destruct Hv as [[Hfl Hb] Hf [Hla Hlo] H1 H2 H3 H4].
  destruct (new_telemetry_envelope_ok (v_tier v) ("mavlink-" +:+ v_unitID v) (vehicle_payload v') [] now1 now2)
    as (env & Henv & Htel & _ & _ & Hval); try done.
  - by rewrite attitude_marshals.
  - exists env. split; [|done]. unfold BuildSecurityEnvelope. cbn [v_tier v_unitID set_sequence].
    fold v'. by rewrite Henv.
Qed.

(** From a new vehicle, whatever plausible frames arrive, the envelope that
    BuildSecurityEnvelope returns passes validation unchanged, carries the
    normalised state and the next sequence number: what the bridge publishes, the
    guard accepts. *)
Theorem BuildSecurityEnvelope_validates unitID team vt tier sys frames now1 now2 :
  valid_tier (default_to Tier2Restricted tier) = true -> unitID <> "" -> now2 <> 0 ->
  forallb plausible (map snd frames) = true ->
  let v := ingest_all frames (NewVehicleState unitID team vt tier sys) in
  exists env v', BuildSecurityEnvelope now1 now2 v = (Ok env, v') /\
    v_sequence v' = u64 (v_sequence v + 1) /\
    Telemetry env = Some (Normalize (vehicle_payload v')) /\
    Validate (Some env) = (None, Some env).
Proof.
  intros Ht Hid Hn Hp v. assert (flyable v) as Hv.
  { apply (ingest_all_invariant flyable plausible); [intros ???; apply IngestFrame_flyable|done|].
    by apply NewVehicleState_flyable. }
  destruct (flyable_builds now1 now2 v Hv Hn) as (_ & env & Henv & Htel & Hval).
  eexists env, _. by split_and!.
Qed.

Lemma Build_needs_attitude now1 now2 v :
  attitude_finite v = false -> is_ok (BuildSecurityEnvelope now1 now2 v).1 = false.
Proof.
  intros H. unfold BuildSecurityEnvelope, NewTelemetryEnvelope. cbn [fst].
  destruct (valid_tier _); [cbn [negb]|done].
  set (t := Normalize _). assert (is_ok (marshal_telemetry t) = false) as Hm.
  { rewrite marshal_telemetry_ok. change (MissionPayload t) with (MissionPayload (vehicle_payload v)).
    by rewrite attitude_marshals, H, andb_false_r. }
  by destruct (marshal_telemetry t).
Qed.

Lemma airworthy_ingested frames v : airworthy v -> airworthy (ingest_all frames v).
Proof. apply (ingest_all_always airworthy). intros. by apply airworthy_step. Qed.

(** A bridge publishes exactly when its attitude is finite, and then its state. *)
Lemma Build_outcome now1 now2 v : airworthy v -> valid_tier (v_tier v) = true ->
  let v' := set_sequence (u64 (v_sequence v + 1)) v in
  exists r, BuildSecurityEnvelope now1 now2 v = (r, v') /\
    if attitude_finite v then exists env, r = Ok env /\ Telemetry env = Some (Normalize (vehicle_payload v'))
    else is_ok r = false.
Proof.
  intros [Hfl _] Ht v'. eexists. split; [reflexivity|]. destruct (attitude_finite v) eqn:Ea.
  - pose proof (Normalize_marshals (vehicle_payload v') Hfl) as Hm. rewrite attitude_marshals in Hm. specialize (Hm Ea).
    fold v'. unfold NewTelemetryEnvelope. cbn [v_tier v' set_sequence]. rewrite Ht. cbn [negb]. fold v'.
    destruct (marshal_telemetry (Normalize (vehicle_payload v'))) as [text|]; [|done]. by eexists.
  - by apply (Build_needs_attitude now1 now2).
Qed.

(** One attitude frame with an angle that is not a number silences the vehicle:
    until another attitude frame arrives, whatever else does, no envelope can be
    built. *)
Theorem attitude_silences now f a frames v now1 now2 :
  Messages.MessageID f = MsgIDAttitude -> DecodeAttitude (Messages.Payload f) = Ok a ->
  is_finite (f64_of_f32 (Roll a)) = false ->
  forallb (fun g => negb (Messages.MessageID g =? MsgIDAttitude)) (map snd frames) = true ->
  is_ok (BuildSecurityEnvelope now1 now2 (ingest_all ((now, f) :: frames) v)).1 = false.
Proof.
  intros Hid D Hr Hfr. apply Build_needs_attitude. cbn [ingest_all fold_left].
  apply (ingest_all_invariant (fun v => attitude_finite v = false)
    (fun g => negb (Messages.MessageID g =? MsgIDAttitude))); [|done|].
  - intros n g w Hg H. destruct (IngestFrame_ingests n g w) as [->|hb ->|p _ _ ->|sys ->|b Hb _ ->]; try done.
    + unfold ingest_position. cbv zeta. by destruct (_ && _).
    + unfold ingest_sys_status. by destruct (_ && _).
    + by rewrite Hb in Hg.
  - unfold IngestFrame. rewrite Hid. cbn -[DecodeAttitude ingest_attitude]. rewrite D. cbn [snd].
    unfold attitude_finite, ingest_attitude. cbn -[roundFloat angle_deg]. by rewrite angle_is_finite, Hr.
Qed.
End Envelopes.

(** * Concrete runs *)
Module BridgeSamples.
Definition frame (id : Z) (payload : list byte) : Frame :=
  mkFrame MagicV2 (zb (Z.of_nat (length payload))) (zb 0) (zb 0) (zb 0) (zb 1) (zb 1) id payload 0.

Definition armed_heartbeat : Frame :=
  frame MsgIDHeartbeat (EncodeHeartbeat (mkHeartbeat 0 (zb 2) (zb 3) (zb 0x80) (zb 4) (zb 3))).
Definition airborne_fix : Frame :=
  frame MsgIDGlobalPositionInt
    (EncodeGlobalPositionInt (mkGlobalPositionInt 1000 301234567 (-977654321) 250000 120500 350 (-1220) 15 27050)).
Definition landed_fix : Frame :=
  frame MsgIDGlobalPositionInt
    (EncodeGlobalPositionInt (mkGlobalPositionInt 1000 301234567 (-977654321) 250000 120 0 0 0 27050)).
Definition battery_64 : Frame :=
  frame MsgIDSysStatus (EncodeSysStatus (mkSysStatus 1 1 1 500 12000 (-1) 64 0 0 0 0 0 0)).
Definition level : Frame :=
  frame MsgIDAttitude (EncodeAttitude (mkAttitude 0 0x3F800000 0 0xBF800000 0 0 0)).
Definition roll_nan : Frame :=
  frame MsgIDAttitude (EncodeAttitude (mkAttitude 0 0x7FC00000 0 0 0 0 0)).
Definition cut_heartbeat : Frame := frame MsgIDHeartbeat [zb 0].

Definition flight : list (Z * Frame) :=
  [(1, armed_heartbeat); (2, airborne_fix); (3, battery_64); (4, level)].
Definition vehicle : VehicleState := NewVehicleState "bravo" "" "" "" (zb 1).

(** The flight, and the landing that a position alone does not report. *)
Example flight_snapshot :
  GetStateSnapshot (ingest_all flight vehicle) =
  (lit 30123457 6, lit (-97765432) 6, lit 1205 1, lit 1269 2, lit 2705 1, of_Z 64, true, "IN_FLIGHT").
Proof. by vm_compute. Qed.

Example landed_still_in_flight :
  v_status (ingest_all [(5, landed_fix)] (ingest_all flight vehicle)) = "IN_FLIGHT" /\
  v_status (ingest_all [(5, landed_fix); (6, armed_heartbeat)] (ingest_all flight vehicle)) = "ARMED".
Proof. by vm_compute. Qed.
End BridgeSamples.

Lemma IngestFrame_error_witness :
  (IngestFrame 9 BridgeSamples.cut_heartbeat BridgeSamples.vehicle).2
    = set_update 9 BridgeSamples.vehicle.
Proof.
  apply (IngestFrame_error 9 BridgeSamples.cut_heartbeat BridgeSamples.vehicle
    (DecodingHeartbeat HeartbeatTooShort)). by vm_compute.
Defined.

Lemma BuildSecurityEnvelope_validates_witness :
  exists env v', @BuildSecurityEnvelope caseless 10 20 (ingest_all BridgeSamples.flight BridgeSamples.vehicle)
    = (Ok env, v') /\ @Validate caseless (Some env) = (None, Some env).
Proof.
  destruct (@BuildSecurityEnvelope_validates caseless caseless_laws "bravo" "" "" "" (zb 1) BridgeSamples.flight 10 20)
    as (env & v' & H & _ & _ & Hv); [by vm_compute|done|done|by vm_compute|].
  exists env, v'. split; [exact H|exact Hv].
Defined.

Lemma attitude_silences_witness :
  is_ok (@BuildSecurityEnvelope caseless 10 20
    (ingest_all ((9, BridgeSamples.roll_nan) :: [(10, BridgeSamples.airborne_fix)]) BridgeSamples.vehicle)).1 = false.
Proof.
  by apply (@attitude_silences caseless 9 BridgeSamples.roll_nan
    (mkAttitude 0 0x7FC00000 0 0 0 0 0) [(10, BridgeSamples.airborne_fix)]); vm_compute.
Defined.
