(* ===== verification/Display.v ===== *)
(** The verbs of package fmt that the programs print numbers and columns with: [%f]
    with a precision, a width, and the flags for signs and leading zeros; [%s] and [%d]
    in a column. A number is printed exactly: the decimal nearest to it, ties to even. *)
From Stdlib Require Import Strings.Ascii Strings.String SpecFloat.
From S2P Require Import Prelude GoString Float64 Utf8 Json JsonText Lines.

Local Open Scope string_scope.
Local Open Scope Z_scope.

(** * Rounding to a number of decimals *)

(** [N / D] to the nearest integer, ties to even. *)
Definition div_even (N D : Z) : Z :=
  let q := N / D in
  let r := N mod D in
  if (D <? 2 * r) || ((D =? 2 * r) && Z.odd q) then q + 1 else q.

Lemma div_even_spec N D : 0 < D ->
  2 * Z.abs (div_even N D * D - N) <= D /\ (2 * Z.abs (div_even N D * D - N) = D -> Z.even (div_even N D) = true).
Proof.
  intros HD. unfold div_even. pose proof (Z.div_mod N D ltac:(lia)) as Hd. pose proof (Z.mod_pos_bound N D HD) as Hm.
  set (q := N / D) in *. set (r := N mod D) in *.
  destruct (Z.ltb_spec D (2 * r)); cbn [orb]; [split; nia|].
  destruct (Z.eqb_spec D (2 * r)); cbn [andb]; [|split; nia].
  destruct (Z.odd q) eqn:Eo; (split; [nia|intros _]).
  - by rewrite Z.even_add, <- Z.negb_odd, Eo.
  - by rewrite <- Z.negb_odd, Eo.
Qed.

(** The fraction that a finite number is, without its sign. *)
Definition magnitude (x : f64) : option (bool * Z * Z) :=
  match x with
  | S754_zero s => Some (s, 0, 1)
  | S754_finite s m e => let '(N, D) := float_ratio m e in Some (s, N, D)
  | _ => None
  end.

(** The decimal digits of [n], at least [w] of them. *)
Definition pad_digits (w : nat) (n : Z) : string := zeros (w - String.length (dec n)) +:+ dec n.

(** [strconv.AppendFloat(b, x, 'f', prec, _)] of a number without its sign. *)
Definition fixed_digits (prec : nat) (N D : Z) : string :=
  let q := div_even (N * 10 ^ Z.of_nat prec) D in
  dec (q / 10 ^ Z.of_nat prec) +:+ match prec with O => "" | _ => "." +:+ pad_digits prec (q mod 10 ^ Z.of_nat prec) end.

(** * Padding *)
Record fmt_flags := mkFlags { f_plus : bool; f_zero : bool; f_minus : bool; f_wid : nat }.
Definition no_flags : fmt_flags := mkFlags false false false 0.

Fixpoint repeat_char (a : ascii) (n : nat) : string :=
  match n with O => "" | S n => String a (repeat_char a n) end.

(** [f.pad]: columns are counted in runes. *)
Definition padding (f : fmt_flags) (width : nat) : string :=
  repeat_char (if f_zero f && negb (f_minus f) then "0" else " ")%char (f_wid f - width).
Definition fmt_pad (f : fmt_flags) (s : string) : string :=
  let w := length (runes s) in
  if f_minus f then s +:+ padding f w else padding f w +:+ s.

(** [fmtFloat] with the verb [f]. *)
Definition fmt_float (f : fmt_flags) (prec : nat) (x : f64) : string :=
  match x, magnitude x with
  | S754_infinity s, _ => fmt_pad (mkFlags (f_plus f) false (f_minus f) (f_wid f)) (if s then "-Inf" else "+Inf")
  | _, Some (s, N, D) =>
    let digits := fixed_digits prec N D in
    let sign := if s then "-" else "+" in
    if f_plus f || s then
      if f_zero f && negb (f_minus f) && (S (String.length digits) <? f_wid f)%nat
      then sign +:+ repeat_char "0" (f_wid f - S (String.length digits)) +:+ digits
      else fmt_pad f (sign +:+ digits)
    else fmt_pad f digits
  | _, None => fmt_pad (mkFlags (f_plus f) false (f_minus f) (f_wid f)) (if f_plus f then "+NaN" else "NaN")
  end.

(** The verbs in use. *)
Definition fmt_0f (prec : nat) : f64 -> string := fmt_float (mkFlags false true false 0) prec.
Definition fmt_plus06_2f : f64 -> string := fmt_float (mkFlags true true false 6) 2.
Definition fmt_09_6f : f64 -> string := fmt_float (mkFlags false true false 9) 6.
Definition fmt_010_6f : f64 -> string := fmt_float (mkFlags false true false 10) 6.
Definition fmt_left (w : nat) (s : string) : string := fmt_pad (mkFlags false false true w) s.

Example printed :
  (map fmt_plus06_2f [of_Z 0; S754_zero true; lit (-15) 1; lit 31415926 7; lit 25 3; of_Z 180; S754_nan; S754_infinity true],
   map fmt_09_6f [lit 316300 4; lit (-80500) 4; of_Z 0], fmt_010_6f (lit (-80500) 4), fmt_0f 1 (lit 25 2), fmt_left 8 "ARMED") =
  (["+00.00"; "-00.00"; "-01.50"; "+03.14"; "+00.03"; "+180.00"; "  +NaN"; "  -Inf"],
   ["31.630000"; "-8.050000"; "00.000000"], "-08.050000", "0.2", "ARMED   ").
Proof. by vm_compute. Qed.

(** * What a printed number says *)
Lemma digits_value_zeros_app n s : digits_value (zeros n +:+ s) 0 = digits_value s 0.
Proof. by rewrite digits_value_app, digits_value_zeros. Qed.

Lemma dec_digits z : 0 <= z -> digits (dec z) = true /\ digits_value (dec z) 0 = z.
Proof. intros Hz. destruct (dec_nonneg z Hz) as [Hi Hv]. split; [by apply int_part_digits in Hi as [? _]|done]. Qed.

Lemma digits_app s t : digits s = true -> digits t = true -> digits (s +:+ t) = true.
Proof. intros Hs Ht. induction s as [|a s IH]; [done|]. cbn in *. apply andb_prop in Hs as [-> Hs]. by apply IH. Qed.

(** Reading [t] after [s] shifts [s] by as many digits. *)
Lemma digits_value_acc t acc : digits_value t acc = acc * 10 ^ Z.of_nat (String.length t) + digits_value t 0.
Proof.
  revert acc. induction t as [|a t IH]; intros acc; cbn [digits_value String.length]; [lia|].
  rewrite IH, (IH (10 * 0 + _)). rewrite Nat2Z.inj_succ, Z.pow_succ_r by lia. lia.
Qed.

Lemma digits_bound s : digits s = true -> 0 <= digits_value s 0 < 10 ^ Z.of_nat (String.length s).
Proof.
  induction s as [|a s IH]; cbn [String.length digits str_forall digits_value]; [lia|]. intros [Ha Hs]%andb_prop.
  specialize (IH Hs). rewrite digits_value_acc, Nat2Z.inj_succ, Z.pow_succ_r by lia. unfold is_digit in Ha. nia.
Qed.

(** The number of digits of a decimal is the least that fits. *)
Lemma dec_length_le z k : 0 <= z < 10 ^ Z.of_nat k -> (0 < k)%nat -> (String.length (dec z) <= k)%nat.
Proof.
  intros Hz Hk. destruct z as [|p|p]; [cbn; lia| |lia]. destruct (dec_pos p) as [Hi Hv].
  destruct (dec (Zpos p)) as [|a s] eqn:E; [cbn; lia|]. apply int_part_digits in Hi as Hd. destruct Hd as [Hd _].
  cbn [digits_value] in Hv. rewrite digits_value_acc in Hv.
  cbn [int_part] in Hi. cbn [digits str_forall] in Hd. apply andb_prop in Hd as [Ha Hs]. pose proof (digits_bound s Hs) as Hb.
  cbn [String.length]. destruct (Nat.leb_spec (S (String.length s)) k) as [|Hlt]; [done|].
  assert (1 <= az a - 48 \/ s = "") as [Hone| ->].
  { apply andb_prop in Hi as [_ Hz0]. unfold is_digit in Ha. destruct (Ascii.eqb_spec a "0") as [->|Hne].
    - right. by destruct s.
    - left. enough (az a <> 48) by lia. intros E48. apply Hne. rewrite <- (za_az a), E48. done. }
  - pose proof (Z.pow_le_mono_r 10 (Z.of_nat k) (Z.of_nat (String.length s)) ltac:(lia) ltac:(lia)). nia.
  - cbn [String.length] in *. lia.
Qed.

(** The text shows the decimal [q / 10 ^ prec] with its sign: blanks, a sign, digits, a
    point, [prec] digits, blanks. *)
Definition shows (s : bool) (prec : nat) (q : Z) (text : string) : Prop :=
  exists before sign i f after,
    text = before +:+ sign +:+ i +:+ "." +:+ f +:+ after /\
    str_forall (Ascii.eqb " ") before = true /\ str_forall (Ascii.eqb " ") after = true /\
    (sign = "-" /\ s = true \/ (sign = "" \/ sign = "+") /\ s = false) /\
    i <> "" /\ digits i = true /\ digits f = true /\ String.length f = prec /\ digits_value (i +:+ f) 0 = q.

Lemma pad_digits_spec w n : 0 <= n < 10 ^ Z.of_nat w -> (0 < w)%nat ->
  digits (pad_digits w n) = true /\ String.length (pad_digits w n) = w /\ digits_value (pad_digits w n) 0 = n.
Proof.
  intros Hn Hw. unfold pad_digits. destruct (dec_digits n) as [Hd Hv]; [lia|].
  pose proof (dec_length_le n w Hn Hw). rewrite digits_value_zeros_app, length_str_app, length_zeros.
  split; [apply digits_app; [apply digits_zeros|done]|]. split; [lia|done].
Qed.

(** The digits of [q / 10 ^ prec]. *)
Lemma fixed_digits_spec prec N D : (0 < prec)%nat -> 0 <= N -> 0 < D ->
  exists i f, fixed_digits prec N D = i +:+ "." +:+ f /\ i <> "" /\ digits i = true /\ digits f = true /\
    String.length f = prec /\ digits_value (i +:+ f) 0 = div_even (N * 10 ^ Z.of_nat prec) D.
Proof.
  intros Hp HN HD. unfold fixed_digits. set (q := div_even _ _).
  assert (0 <= q) as Hq.
  { unfold q, div_even. pose proof (Z.pow_pos_nonneg 10 (Z.of_nat prec) ltac:(lia) ltac:(lia)).
    pose proof (Z.div_pos (N * 10 ^ Z.of_nat prec) D ltac:(nia) HD). by destruct (_ || _); lia. }
  pose proof (Z.pow_pos_nonneg 10 (Z.of_nat prec) ltac:(lia) ltac:(lia)) as Hpow.
  pose proof (Z.div_pos q _ Hq Hpow) as Hi. pose proof (Z.mod_pos_bound q _ Hpow) as Hr.
  destruct (dec_nonneg _ Hi) as [Hint Hv]. apply int_part_digits in Hint as [Hd Hne].
  destruct (pad_digits_spec prec _ Hr Hp) as (Hfd & Hfl & Hfv). destruct prec as [|prec]; [lia|].
  eexists _, _. split; [done|]. split; [done|]. split; [done|]. split; [done|]. split; [done|].
  rewrite digits_value_app, Hv, digits_value_acc, Hfl, Hfv. rewrite Z.mul_comm. symmetry. apply Z.div_mod. lia.
Qed.

Lemma repeat_zeros n : repeat_char "0" n = zeros n.
Proof. induction n as [|n IH]; [done|]. cbn. by rewrite IH. Qed.
Lemma repeat_blank n : str_forall (Ascii.eqb " ") (repeat_char " " n) = true.
Proof. by induction n. Qed.
Lemma length_runes_ascii s : str_forall is_ascii s = true -> length (runes s) = String.length s.
Proof.
  induction s as [|a s IH]; [done|]. cbn [str_forall]. intros [Ha Hs]%andb_prop.
  rewrite runes_ascii by done. cbn. by rewrite IH.
Qed.
Lemma decimal_ascii s : digits s = true -> str_forall is_ascii s = true.
Proof. apply str_forall_impl. intros a. unfold is_digit, is_ascii. lia. Qed.

(** What a number shows, with the blanks left out. *)
Lemma shows_intro s before sign i f after :
  str_forall (Ascii.eqb " ") before = true -> str_forall (Ascii.eqb " ") after = true ->
  (sign = "-" /\ s = true \/ (sign = "" \/ sign = "+") /\ s = false) ->
  i <> "" -> digits i = true -> digits f = true ->
  shows s (String.length f) (digits_value (i +:+ f) 0) (before +:+ sign +:+ i +:+ "." +:+ f +:+ after).
Proof. intros. by exists before, sign, i, f, after. Qed.

(** Padding does not change what is shown: zeros go in front of a text without a sign. *)
Lemma fmt_pad_shows f s sign i fr :
  (sign = "-" /\ s = true \/ (sign = "" \/ sign = "+") /\ s = false) ->
  (f_zero f && negb (f_minus f) = true -> sign = "" \/ padding f (length (runes (sign +:+ i +:+ "." +:+ fr))) = "") ->
  i <> "" -> digits i = true -> digits fr = true ->
  shows s (String.length fr) (digits_value (i +:+ fr) 0) (fmt_pad f (sign +:+ i +:+ "." +:+ fr)).
Proof.
  intros Hs Hz Hi Hdi Hdf. unfold fmt_pad. set (text := sign +:+ _) in *.
  assert (forall t, text +:+ t = "" +:+ sign +:+ i +:+ "." +:+ fr +:+ t) as Ht
    by (intros t; unfold text; by rewrite !str_app_assoc).
  pose proof (shows_intro s "" sign i fr "" eq_refl eq_refl Hs Hi Hdi Hdf) as Hplain.
  rewrite <- Ht, str_app_nil_r in Hplain. unfold padding in *. set (n := (_ - _)%nat) in *. clearbody n.
  destruct (f_zero f && negb (f_minus f)) eqn:Ez.
  - apply andb_prop in Ez as [_ Em]. destruct (f_minus f); [done|]. destruct (Hz eq_refl) as [-> | ->]; [|done].
    rewrite repeat_zeros. replace (zeros n +:+ text) with ("" +:+ "" +:+ (zeros n +:+ i) +:+ "." +:+ fr +:+ "")
      by (unfold text; cbn [String.append]; by rewrite str_app_nil_r, str_app_assoc).
    rewrite <- (digits_value_zeros_app n (i +:+ fr)), str_app_assoc.
    apply shows_intro; try done; [by destruct n|apply digits_app; [apply digits_zeros|done]].
  - destruct (f_minus f).
    + rewrite Ht. apply shows_intro; try done. apply repeat_blank.
    + replace (repeat_char " " n +:+ text) with (repeat_char " " n +:+ sign +:+ i +:+ "." +:+ fr +:+ "")
        by (unfold text; rewrite str_app_nil_r; done).
      apply shows_intro; try done. apply repeat_blank.
Qed.

(** A finite number is shown as the decimal nearest to it, ties to even. *)
Lemma fmt_float_shows f prec x s N D : magnitude x = Some (s, N, D) -> (0 < prec)%nat ->
  shows s prec (div_even (N * 10 ^ Z.of_nat prec) D) (fmt_float f prec x).
Proof.
  intros Hm Hp. assert (0 <= N /\ 0 < D) as [HN HD].
  { destruct x as [| | |s' m e]; cbn in Hm; try done; [by simplify_eq|]. unfold float_ratio in Hm.
    destruct (0 <=? e) eqn:E; simplify_eq; pose proof (Z.pow_nonneg 2 e); pose proof (Z.pow_pos_nonneg 2 (- e)); lia. }
  destruct (fixed_digits_spec prec N D Hp HN HD) as (i & fr & Hf & Hi & Hdi & Hdf & <- & <-).
  set (prec := String.length fr) in *. set (sign := if s then "-" else "+").
  assert (sign = "-" /\ s = true \/ (sign = "" \/ sign = "+") /\ s = false) as Hs by (unfold sign; destruct s; tauto).
  assert (fmt_float f prec x = if f_plus f || s then
      if f_zero f && negb (f_minus f) && (S (String.length (i +:+ "." +:+ fr)) <? f_wid f)%nat
      then sign +:+ repeat_char "0" (f_wid f - S (String.length (i +:+ "." +:+ fr))) +:+ i +:+ "." +:+ fr
      else fmt_pad f (sign +:+ i +:+ "." +:+ fr)
    else fmt_pad f (i +:+ "." +:+ fr)) as -> by (rewrite <- Hf; destruct x; try done; unfold fmt_float; by rewrite Hm).
  destruct (f_plus f || s) eqn:Eps.
  - destruct (f_zero f && negb (f_minus f)) eqn:Ez; cbn [andb].
    + destruct (Nat.ltb_spec (S (String.length (i +:+ "." +:+ fr))) (f_wid f)) as [_|Hw].
      * rewrite repeat_zeros. set (n := (_ - _)%nat).
        replace (sign +:+ zeros n +:+ i +:+ "." +:+ fr) with ("" +:+ sign +:+ (zeros n +:+ i) +:+ "." +:+ fr +:+ "")
          by (rewrite str_app_nil_r, !str_app_assoc; done).
        rewrite <- (digits_value_zeros_app n (i +:+ fr)), str_app_assoc.
        apply shows_intro; try done; [by destruct (zeros n)|apply digits_app; [apply digits_zeros|done]].
      * apply fmt_pad_shows; try done. intros _. right. unfold padding. rewrite length_runes_ascii.
        -- replace (String.length (sign +:+ _)) with (S (String.length (i +:+ "." +:+ fr))) by (unfold sign; by destruct s).
           by replace (f_wid f - _)%nat with O by lia.
        -- rewrite !str_forall_app, (decimal_ascii i), (decimal_ascii fr) by done. unfold sign. by destruct s.
    + apply fmt_pad_shows; try done. by rewrite Ez.
  - apply (fmt_pad_shows f s "" i fr); try done; [|by left]. destruct s; [by destruct (f_plus f)|]. right. tauto.
Qed.

(** * Readings

    A sensor reports an integer [n]; the program divides it by a scale [r * 10 ^ k] and
    prints [k] decimals. The text is within half a unit of its last digit of the
    reading itself: rounding the quotient to a float does not get in the way. *)
Definition shows_reading (n r : Z) (k : nat) (text : string) : Prop :=
  exists q, shows (n <? 0) k q text /\ 2 * Z.abs (q * r - Z.abs n) <= r.

Lemma reading_shown f n r k :
  Z.abs n <= 2 ^ 50 -> 0 < r -> r * 10 ^ Z.of_nat k <= 2 ^ 24 -> (0 < k)%nat ->
  shows_reading n r k (fmt_float f k (fdiv (of_Z n) (of_Z (r * 10 ^ Z.of_nat k)))).
Proof.
  intros Hn Hr Hp Hk. pose proof (Z.pow_pos_nonneg 10 (Z.of_nat k) ltac:(lia) ltac:(lia)) as H10.
  set (T := 10 ^ Z.of_nat k) in *. set (p := r * T) in *. assert (0 < p) as Hp0 by (unfold p; nia).
  destruct (decide (n = 0)) as [->|Hne].
  { exists 0. destruct (of_Z_spec p) as (m2 & e2 & -> & _); [lia|]. split; [|lia].
    by apply (fmt_float_shows f k (S754_zero false) false 0 1). }
  rewrite of_Z_signed, fdiv_signed_wide by lia.
  destruct (fdiv_integers_wide (Z.abs n) p) as (m & a & -> & [Hm1 Hm2] & Ha & Hnear & _); [lia..|].
  pose proof (Z.pow_pos_nonneg 2 a ltac:(lia) ltac:(lia)) as H2. set (A := 2 ^ a) in *.
  assert (magnitude (S754_finite (n <? 0) m (- a)) = Some (n <? 0, Zpos m, A)) as Hmag.
  { unfold magnitude, float_ratio. rewrite (proj2 (Z.leb_gt 0 (- a))) by lia. by rewrite Z.opp_involutive. }
  eexists. split; [exact (fmt_float_shows f k _ _ _ _ Hmag Hk)|]. fold T.
  destruct (div_even_spec (Zpos m * T) A H2) as [Hq _]. set (q := div_even _ A) in *. clearbody q.
  assert (p < A) as HpA by nia.
  assert (2 * Z.abs (q * r - Z.abs n) * A < (r + 1) * A) as H; [|nia].
  assert (2 * Z.abs (q * A * r - Zpos m * p) <= A * r) by (unfold p; nia). nia.
Qed.
