(* ===== verification/BenchCheck.v ===== *)
(** cmd/bench-check/main.go: the desk sniffer - the source it opens, its metrics, the
    ingestion loop over the stream decoder, the screen it refreshes and the summary it
    prints. *)
From Stdlib Require Import Strings.Ascii Strings.String SpecFloat.
From coqutil Require Import Datatypes.RecordSetters.
From S2P Require Import Prelude Crc Messages Stream GoString Float64 GoTime Display Serial Bridge.
Import DoubleBraceUpdate.

Local Open Scope string_scope.
Local Open Scope Z_scope.
Local Open Scope go_scope.

(** * Single precision

    The attitude is converted to degrees in [float32]; the constants are the
    nearest [float32] numbers. *)
Definition f32 := spec_float.

Definition f32_of_bits (bits : float32) : f32 :=
  let s := Z.testbit bits 31 in
  let ex := bits / 2 ^ 23 mod 2 ^ 8 in
  let fr := bits mod 2 ^ 23 in
  if ex =? 255 then (if fr =? 0 then S754_infinity s else S754_nan)
  else match (if ex =? 0 then fr else fr + 2 ^ 23) with
       | Zpos m => S754_finite s m (if ex =? 0 then -149 else ex - 150)
       | _ => S754_zero s
       end.

Definition to_degrees32 (a : float32) : f32 :=
  SFdiv 24 128 (SFmul 24 128 (f32_of_bits a) (f32_of_bits 0x43340000)) (f32_of_bits 0x40490FDB).

Example right_angle : to_degrees32 0x3FC90FDB = f32_of_bits 0x42B40000.
Proof. by vm_compute. Qed.

(** * Metrics *)
Record BenchMetrics := mkMetrics {
  packetsTotal : Z; crcErrors : Z;
  autopilot : string; armed : bool; systemStatus : string;
  rollDeg : f32; pitchDeg : f32; yawDeg : f32;
  lat : f64; lon : f64; altM : f64; speedMps : f64;
  batteryV : f64; batteryPct : Z; lastPacket : option Z }.

Definition zero_metrics : BenchMetrics :=
  mkMetrics 0 0 "" false "" fzero fzero fzero fzero fzero fzero fzero fzero 0 None.

(** [%02X] of a byte. *)
Definition hex_upper (b : byte) : string :=
  let digit d := za (if d <? 10 then 48 + d else 55 + d) in
  String (digit (bz b / 16)) (String (digit (bz b mod 16)) EmptyString).

Definition observe_heartbeat (hb : Heartbeat) (m : BenchMetrics) : BenchMetrics :=
  m{{armed := IsArmed hb;
     autopilot := "Type=" +:+ dec (bz (Type_ hb)) +:+ " Autopilot=" +:+ dec (bz (Autopilot hb));
     systemStatus := "Status=" +:+ dec (bz (SystemStatus hb)) +:+ " Mode=0x" +:+ hex_upper (BaseMode hb)}}.
Definition observe_attitude (att : Attitude) (m : BenchMetrics) : BenchMetrics :=
  m{{rollDeg := to_degrees32 (Roll att); pitchDeg := to_degrees32 (Pitch att); yawDeg := to_degrees32 (Yaw att)}}.
Definition observe_position (pos : GlobalPositionInt) (m : BenchMetrics) : BenchMetrics :=
  m{{lat := LatDegrees pos; lon := LonDegrees pos; altM := AltMeters pos; speedMps := GroundSpeedMps pos}}.
Definition observe_sys (sys : SysStatus) (m : BenchMetrics) : BenchMetrics :=
  m{{batteryV := fdiv (of_Z (VoltageBattery sys)) (of_Z 1000); batteryPct := BatteryRemaining sys}}.

(** A payload that does not decode leaves the metrics as they are. *)
Definition observing {A} (r : result DecodeError A) (f : A -> BenchMetrics -> BenchMetrics) (m : BenchMetrics)
  : BenchMetrics := match r with Ok a => f a m | Err _ => m end.

Definition observe (now : Z) (frame : Frame) (m : BenchMetrics) : BenchMetrics :=
  let m := m{{packetsTotal := u64 (packetsTotal m + 1); lastPacket := Some now}} in
  let id := Messages.MessageID frame in
  let p := Messages.Payload frame in
  if id =? MsgIDHeartbeat then observing (DecodeHeartbeat p) observe_heartbeat m
  else if id =? MsgIDAttitude then observing (DecodeAttitude p) observe_attitude m
  else if id =? MsgIDGlobalPositionInt then observing (DecodeGlobalPositionInt p) observe_position m
  else if id =? MsgIDSysStatus then observing (DecodeSysStatus p) observe_sys m
  else m.

(** * The ingestion loop

    What the loop is told at each turn: whether the context is done when the turn
    starts and when a read fails, and the time. *)
Record turn := mkTurn { done_at_start : bool; done_on_error : bool; now : Z }.

Definition bench_turn (t : turn) (m : BenchMetrics) (r : Reader) : bool * BenchMetrics * Reader :=
  if done_at_start t then (false, m, r) else
  match NextFrame r with
  | None => (true, m, r)
  | Some (Err e, r) =>
    if done_on_error t || bool_decide (e = EOF) then (false, m, r)
    else (true, m{{crcErrors := u64 (crcErrors m + 1)}}, r)
  | Some (Ok frame, r) => (true, observe (now t) frame m, r)
  end.

(** The metrics when the loop ends, or [None] when it is still running after the
    given turns, with the number of turns taken. *)
Fixpoint bench_loop (ts : list turn) (m : BenchMetrics) (r : Reader) : option BenchMetrics :=
  match ts with
  | [] => None
  | t :: ts => let '(continue, m, r) := bench_turn t m r in if continue then bench_loop ts m r else Some m
  end.

Definition bench_summary (m : BenchMetrics) : string :=
  "  Total Packets: " +:+ dec (packetsTotal m) +:+ " | CRC Drops: " +:+ dec (crcErrors m) +:+ chr 10.

(** * The source

    The outcomes of opening the port, of resolving the address and of binding the
    socket are inputs. An error is what [log.Fatalf] prints. *)
Record BenchFlags := mkBenchFlags { bf_serial : string; bf_baud : Z; bf_udp : string; bf_quiet : bool }.
Definition default_bench_flags : BenchFlags := mkBenchFlags "" 115200 "" false.

Section Source.
Context {file A : Type}.

Inductive bench_source := SerialSource (port : SerialPort file) | UDPSource (addr : A).

Definition bench_open (p : platform) (d : device file) (resolve : string -> result string A) (bind : A -> option string)
  (f : BenchFlags) : result string (string * bench_source) :=
  let udpAddr := if is_empty (bf_serial f) && is_empty (bf_udp f) then ":14550" else bf_udp f in
  if negb (is_empty (bf_serial f)) then
    let sourceLabel := "SERIAL " +:+ bf_serial f +:+ " @ " +:+ dec (bf_baud f) +:+ " baud" in
    match OpenSerialPort p d (bf_serial f) (bf_baud f) with
    | Err e => Err ("[BENCH-CHECK] Failed to open serial port: " +:+ e)
    | Ok sp => Ok (sourceLabel, SerialSource sp)
    end
  else
    let sourceLabel := "UDP " +:+ udpAddr in
    match resolve udpAddr with
    | Err e => Err ("[BENCH-CHECK] Resolving UDP address " +:+ udpAddr +:+ ": " +:+ e)
    | Ok lAddr =>
      match bind lAddr with
      | Some e => Err ("[BENCH-CHECK] Binding UDP socket " +:+ udpAddr +:+ ": " +:+ e)
      | None => Ok (sourceLabel, UDPSource lAddr)
      end
    end.
End Source.

(** * The screen *)
Definition clear_screen : string := chr 27 +:+ "[H" +:+ chr 27 +:+ "[2J".
Definition degree : string := chr 0xC2 +:+ chr 0xB0.

(** How long ago the last packet came, in seconds. *)
Definition packet_age (now : Z) (m : BenchMetrics) : string :=
  match lastPacket m with
  | None => "NONE"
  | Some t => fmt_0f 1 (Seconds (now - t)) +:+ "s ago"
  end.

Definition hud_lines (sourceLabel : string) (now : Z) (m : BenchMetrics) : list string :=
  [repeat_char "=" 80;
   " BLUE POLAR BEAR // DESK HITL AVIONICS SNIFFER & BENCHMARK";
   " Connection: " +:+ sourceLabel +:+ " | Packets Ingested: " +:+ dec (packetsTotal m)
     +:+ " | CRC Drops: " +:+ dec (crcErrors m);
   repeat_char "-" 80;
   " Autopilot:  " +:+ fmt_left 24 (autopilot m) +:+ " | Armed: " +:+ fmt_left 8 (if armed m then "ARMED" else "DISARMED")
     +:+ " | Last Packet: " +:+ packet_age now m;
   " Attitude:   Roll: " +:+ fmt_plus06_2f (rollDeg m) +:+ degree +:+ "   Pitch: " +:+ fmt_plus06_2f (pitchDeg m)
     +:+ degree +:+ "   Yaw: " +:+ fmt_plus06_2f (yawDeg m) +:+ degree;
   " Position:   Lat: " +:+ fmt_09_6f (lat m) +:+ "  Lon: " +:+ fmt_010_6f (lon m)
     +:+ "  Alt: " +:+ fmt_0f 1 (altM m) +:+ "m  Speed: " +:+ fmt_0f 1 (speedMps m) +:+ "m/s";
   " Battery:    " +:+ fmt_0f 2 (batteryV m) +:+ "V (" +:+ dec (batteryPct m) +:+ "%)";
   repeat_char "=" 80;
   " Press Ctrl+C to halt."].

Definition hud (sourceLabel : string) (now : Z) (m : BenchMetrics) : string :=
  clear_screen +:+ concat_str ((fun l => l +:+ chr 10) <$> hud_lines sourceLabel now m).

(** The refresh loop: what each turn finds, with the metrics as the reader has left
    them by then, and what is printed in the end. *)
Inductive refresh := Tick (now : Z) (m : BenchMetrics) | Halted (m : BenchMetrics).

Fixpoint refresh_loop (sourceLabel : string) (l : list refresh) : string :=
  match l with
  | [] => ""
  | Halted m :: _ => chr 10 +:+ "[BENCH-CHECK] Terminating session. Summary:" +:+ chr 10 +:+ bench_summary m
  | Tick now m :: l => hud sourceLabel now m +:+ refresh_loop sourceLabel l
  end.

Definition bench_output (f : BenchFlags) (sourceLabel : string) (l : list refresh) : string :=
  if bf_quiet f then "" else refresh_loop sourceLabel l.

(** * Facts *)
Lemma observe_counters now f m :
  packetsTotal (observe now f m) = u64 (packetsTotal m + 1) /\ crcErrors (observe now f m) = crcErrors m.
Proof.
  unfold observe, observing. set (m' := _{{packetsTotal := _; lastPacket := _}}).
  repeat match goal with |- context [if ?b then _ else _] => destruct b end;
    repeat match goal with |- context [match ?d with Ok _ => _ | Err _ => _ end] => destruct d end; done.
Qed.

Definition observe_all (frames : list (Z * Frame)) (m : BenchMetrics) : BenchMetrics :=
  fold_left (fun m '(now, f) => observe now f m) frames m.

Lemma observe_all_counters frames m :
  u64 (packetsTotal (observe_all frames m)) = u64 (packetsTotal m + Z.of_nat (length frames)) /\
  crcErrors (observe_all frames m) = crcErrors m.
Proof.
  revert m. induction frames as [|[now f] frames IH]; intros m; cbn [observe_all fold_left length].
  - by rewrite Z.add_0_r.
  - fold (observe_all frames (observe now f m)). destruct (IH (observe now f m)) as [-> ->].
    destruct (observe_counters now f m) as [-> ->]. split; [|done]. unfold wrapU.
    rewrite Z.add_mod_idemp_l by lia. f_equal. lia.
Qed.

(** What the sniffer counts. Over any fragmentation of any bytes, corrupted ones
    included, the loop ends with the stream; the metrics are those of the frames
    that the decoder finds, observed in order; the total counts them, and the
    counter shown as CRC drops has not moved. *)
Theorem bench_counts ts m r :
  clean r -> (length (stream r) < length ts)%nat ->
  Forall (fun t => done_at_start t = false) ts ->
  let frames := (frames_of (length ts) (stream r)).1 in
  exists m', bench_loop ts m r = Some m' /\
    m' = observe_all (zip (now <$> ts) frames) m /\
    u64 (packetsTotal m') = u64 (packetsTotal m + Z.of_nat (length frames)) /\
    crcErrors m' = crcErrors m.
Proof.
  intros Hcl Hlen Hrun frames.
  enough (exists m', bench_loop ts m r = Some m' /\ m' = observe_all (zip (now <$> ts) frames) m /\
    (length frames <= length ts)%nat) as (m' & Hb & -> & Hf).
  { exists (observe_all (zip (now <$> ts) frames) m). split; [done|]. split; [done|].
    destruct (observe_all_counters (zip (now <$> ts) frames) m) as [-> ->].
    by rewrite length_zip_with, length_fmap, Nat.min_r. }
  subst frames. revert m r Hcl Hlen. induction Hrun as [|t ts Ht _ IH]; intros m r Hcl Hlen; cbn [length] in *; [lia|].
  cbn [bench_loop frames_of]. unfold bench_turn. rewrite Ht.
  destruct (NextFrame_refines _ Hcl) as (r1 & Hc1 & -> & Hs1).
  destruct (next_frame (stream r)) as [[f|] l] eqn:En; cbn in Hs1; cbn [frame_result fst].
  - apply next_frame_shorter in En. destruct (IH (observe (now t) f m) r1) as (m' & -> & Hm & Hf);
      [done|rewrite Hs1; lia|]. rewrite Hs1 in Hm, Hf.
    destruct (frames_of (length ts) l) as [fs l']. exists m'. cbn in *. split; [done|]. split; [done|lia].
  - rewrite bool_decide_true, orb_true_r by done. exists m. cbn. split; [done|]. split; [done|lia].
Qed.

Lemma observe_all_range frames m : in_u 64 (packetsTotal m) -> in_u 64 (packetsTotal (observe_all frames m)).
Proof.
  revert m. induction frames as [|[now f] frames IH]; intros m Hm; [done|]. cbn [observe_all fold_left].
  fold (observe_all frames (observe now f m)). apply IH. destruct (observe_counters now f m) as [-> _].
  by apply wrapU_range.
Qed.

(** * What the screen shows

    The last message of a kind that decodes, and what the metrics take from it. *)
Definition decoded_as {A} (id : Z) (decode : list byte -> result DecodeError A) (f : Frame) : option A :=
  if Messages.MessageID f =? id then match decode (Messages.Payload f) with Ok a => Some a | Err _ => None end else None.
Definition latest {A} (id : Z) (decode : list byte -> result DecodeError A) (frames : list (Z * Frame)) : option A :=
  fold_left (fun a '(_, f) => match decoded_as id decode f with Some a' => Some a' | None => a end) frames None.

Section Latest.
Context {A R : Type} (id : Z) (decode : list byte -> result DecodeError A) (reading : A -> R) (shown : BenchMetrics -> R).
Hypothesis Hshown : forall now f m, shown (observe now f m) =
  match decoded_as id decode f with Some a => reading a | None => shown m end.

Lemma shown_latest frames m : shown (observe_all frames m) =
  match latest id decode frames with Some a => reading a | None => shown m end.
Proof.
  unfold latest. change (shown m) with (match None with Some a => reading a | None => shown m end) at 1.
  enough (forall a m', shown m' = match a with Some a => reading a | None => shown m end ->
    shown (observe_all frames m') = match fold_left (fun a '(_, f) =>
      match decoded_as id decode f with Some a' => Some a' | None => a end) frames a with
      Some a => reading a | None => shown m end) as H by by apply (H None).
  induction frames as [|[now f] frames IH]; intros a m' Hm; [done|]. cbn [observe_all fold_left].
  fold (observe_all frames (observe now f m')). apply IH. rewrite Hshown. by destruct (decoded_as id decode f).
Qed.
End Latest.

Ltac shown_kind := intros; unfold decoded_as, observe, observing; cbv zeta;
  repeat match goal with |- context [Messages.MessageID ?f =? ?X] =>
    destruct (Z.eqb_spec (Messages.MessageID f) X) as [E|_]; [rewrite ?E; clear E|] end;
  cbn [MsgIDHeartbeat MsgIDAttitude MsgIDGlobalPositionInt MsgIDSysStatus Z.eqb Pos.eqb];
  repeat match goal with |- context [match ?d with Ok _ => _ | Err _ => _ end] => destruct d end; reflexivity.

Lemma shown_position frames m :
  (lat (observe_all frames m), lon (observe_all frames m), altM (observe_all frames m), speedMps (observe_all frames m)) =
  match latest MsgIDGlobalPositionInt DecodeGlobalPositionInt frames with
  | Some pos => (LatDegrees pos, LonDegrees pos, AltMeters pos, GroundSpeedMps pos)
  | None => (lat m, lon m, altM m, speedMps m)
  end.
Proof. apply (shown_latest _ _ (fun pos => (_, _, _, _)) (fun m => (lat m, lon m, altM m, speedMps m))). shown_kind. Qed.

Lemma shown_battery frames m :
  (batteryV (observe_all frames m), batteryPct (observe_all frames m)) =
  match latest MsgIDSysStatus DecodeSysStatus frames with
  | Some sys => (fdiv (of_Z (VoltageBattery sys)) (of_Z 1000), BatteryRemaining sys)
  | None => (batteryV m, batteryPct m)
  end.
Proof. apply (shown_latest _ _ (fun sys => (_, _)) (fun m => (batteryV m, batteryPct m))). shown_kind. Qed.

Lemma shown_arming frames m :
  armed (observe_all frames m) =
  match latest MsgIDHeartbeat DecodeHeartbeat frames with Some hb => IsArmed hb | None => armed m end.
Proof. apply (shown_latest _ _ IsArmed armed). shown_kind. Qed.

(** What is decoded is within the range of its type. *)
Lemma latest_decoded {A} id (decode : list byte -> result DecodeError A) frames a :
  latest id decode frames = Some a -> exists p, decode p = Ok a.
Proof.
  unfold latest. enough (forall b, (forall b', b = Some b' -> exists p, decode p = Ok b') ->
    fold_left (fun a '(_, f) => match decoded_as id decode f with Some a' => Some a' | None => a end) frames b = Some a ->
    exists p, decode p = Ok a) as H by by apply (H None).
  induction frames as [|[now f] frames IH]; intros b Hb; cbn [fold_left]; [apply Hb|]. apply IH.
  unfold decoded_as. destruct (_ =? id); [|done]. destruct (decode (Messages.Payload f)) eqn:E; [|done].
  intros b' [= <-]. by exists (Messages.Payload f).
Qed.

(** C20. What the operator reads off the sniffer's screen. Over any fragmentation of any
    bytes, corrupted ones included, the ingestion loop ends with the stream, and the
    screen then says, of the frames that the decoder finds: how many they were, modulo
    2^64, and no CRC drop whatever was corrupted; the last position that decoded, with
    latitude and longitude within half a millionth of a degree of the integers the
    autopilot sent and the altitude within half a decimetre; the last battery report,
    within half a hundredth of a volt of the millivolts sent, with the percentage as it
    came; and the arming state of the last heartbeat. Neither the division in floating
    point nor the formatting moves a digit further. *)
Theorem screen_is_accurate sourceLabel at_time ts r :
  clean r -> (length (stream r) < length ts)%nat -> Forall (fun t => done_at_start t = false) ts ->
  let received := (frames_of (length ts) (stream r)).1 in
  let frames := zip (now <$> ts) received in
  exists m, bench_loop ts zero_metrics r = Some m /\
  hud_lines sourceLabel at_time m !! 2%nat = Some (" Connection: " +:+ sourceLabel +:+ " | Packets Ingested: "
    +:+ dec (u64 (Z.of_nat (length received))) +:+ " | CRC Drops: 0") /\
  (forall pos, latest MsgIDGlobalPositionInt DecodeGlobalPositionInt frames = Some pos ->
     exists la lo al sp, hud_lines sourceLabel at_time m !! 6%nat =
         Some (" Position:   Lat: " +:+ la +:+ "  Lon: " +:+ lo +:+ "  Alt: " +:+ al +:+ "m  Speed: " +:+ sp +:+ "m/s") /\
       shows_reading (Lat pos) 10 6 la /\ shows_reading (Lon pos) 10 6 lo /\ shows_reading (RelativeAlt pos) 100 1 al) /\
  (forall sys, latest MsgIDSysStatus DecodeSysStatus frames = Some sys ->
     exists volts, hud_lines sourceLabel at_time m !! 7%nat =
         Some (" Battery:    " +:+ volts +:+ "V (" +:+ dec (BatteryRemaining sys) +:+ "%)") /\
       shows_reading (VoltageBattery sys) 10 2 volts) /\
  (forall hb, latest MsgIDHeartbeat DecodeHeartbeat frames = Some hb ->
     exists who age, hud_lines sourceLabel at_time m !! 4%nat =
         Some (" Autopilot:  " +:+ who +:+ " | Armed: " +:+ (if IsArmed hb then "ARMED   " else "DISARMED")
           +:+ " | Last Packet: " +:+ age)).
Proof.
  intros Hcl Hlen Hrun received frames.
  destruct (bench_counts ts zero_metrics r Hcl Hlen Hrun) as (m & Hb & Hm & Ht & Hc). fold received in Hm, Ht.
  fold frames in Hm. exists m. split; [done|]. split; [|rewrite Hm; split_and!].
  - assert (packetsTotal m = u64 (Z.of_nat (length received))) as Hp.
    { change (packetsTotal zero_metrics) with 0 in Ht. rewrite Z.add_0_l in Ht. rewrite <- Ht, Hm. symmetry.
      apply wrapU_small, observe_all_range. unfold in_u. cbn. lia. }
    unfold hud_lines. cbn [lookup list_lookup]. by rewrite Hp, Hc.
  - intros pos Hp. pose proof (shown_position frames zero_metrics) as H. rewrite Hp in H. injection H as Hla Hlo Hal Hsp.
    destruct (latest_decoded _ _ _ _ Hp) as [p (_ & H1 & H2 & _ & H3 & _)%DecodeGlobalPositionInt_wf].
    exists (fmt_09_6f (lat (observe_all frames zero_metrics))), (fmt_010_6f (lon (observe_all frames zero_metrics))), (fmt_0f 1 (altM (observe_all frames zero_metrics))), (fmt_0f 1 (speedMps (observe_all frames zero_metrics))).
    split; [reflexivity|]. rewrite Hla, Hlo, Hal. unfold in_s in *.
    split_and!; apply (reading_shown _ _ 10 6) || apply (reading_shown _ _ 100 1); lia.
  - intros sys Hs. pose proof (shown_battery frames zero_metrics) as H. rewrite Hs in H. injection H as Hv Hp.
    destruct (latest_decoded _ _ _ _ Hs) as [p [_ (_ & _ & _ & _ & H1 & _)]%EncodeSysStatus_Decode].
    exists (fmt_0f 2 (batteryV (observe_all frames zero_metrics))). split; [rewrite <- Hp; reflexivity|]. rewrite Hv. unfold in_u in *.
    apply (reading_shown _ _ 10 2); lia.
  - intros hb Hh. pose proof (shown_arming frames zero_metrics) as H. rewrite Hh in H.
    exists (fmt_left 24 (autopilot (observe_all frames zero_metrics))), (packet_age at_time (observe_all frames zero_metrics)). rewrite <- H. unfold hud_lines. by destruct (armed (observe_all frames zero_metrics)).
Qed.

(** * A corrupted stream *)
Module BenchSamples.
Definition beat : list byte := packet (zb 1) (zb 1) (zb 0) MsgIDHeartbeat (Messages.Payload BridgeSamples.armed_heartbeat).
(** The same packet with its last byte changed, then the packet. *)
Definition corrupted : list byte := (take 20 beat ++ [zb (bz (byte_at beat 20) + 1)] ++ beat)%list.
Definition reader : Reader := NewStreamDecoder [(take 9 corrupted, None); (drop 9 corrupted, Some EOF)].
Definition turns : list turn := repeat (mkTurn false false 7) 50.
End BenchSamples.

Example corrupted_not_counted :
  bench_summary <$> bench_loop BenchSamples.turns zero_metrics BenchSamples.reader =
    Some ("  Total Packets: 1 | CRC Drops: 0" +:+ chr 10).
Proof. by vm_compute. Qed.

Lemma bench_counts_witness :
  exists m', bench_loop BenchSamples.turns zero_metrics BenchSamples.reader = Some m' /\
    crcErrors m' = 0 /\ u64 (packetsTotal m') = 1.
Proof.
  assert (clean BenchSamples.reader) as Hc by (split; [cbn; lia|vm_compute; by repeat split]).
  assert (length (stream BenchSamples.reader) < length BenchSamples.turns)%nat as Hl by (vm_compute; lia).
  assert (Forall (fun t => done_at_start t = false) BenchSamples.turns) as Hf by (by repeat constructor).
  destruct (bench_counts BenchSamples.turns zero_metrics BenchSamples.reader Hc Hl Hf) as (m' & Hb & _ & Hp & He).
  exists m'. split; [exact Hb|]. split; [exact He|]. rewrite Hp. vm_compute. reflexivity.
Defined.

(** * A session *)
Example session :
  let m := observe_all BridgeSamples.flight zero_metrics in
  hud_lines "UDP :14550" (10 ^ 9 + 4) m =
  [repeat_char "=" 80;
   " BLUE POLAR BEAR // DESK HITL AVIONICS SNIFFER & BENCHMARK";
   " Connection: UDP :14550 | Packets Ingested: 4 | CRC Drops: 0";
   repeat_char "-" 80;
   " Autopilot:  Type=2 Autopilot=3       | Armed: ARMED    | Last Packet: 1.0s ago";
   " Attitude:   Roll: +57.30" +:+ degree +:+ "   Pitch: +00.00" +:+ degree +:+ "   Yaw: -57.30" +:+ degree;
   " Position:   Lat: 30.123457  Lon: -97.765432  Alt: 120.5m  Speed: 12.7m/s";
   " Battery:    12.00V (64%)";
   repeat_char "=" 80;
   " Press Ctrl+C to halt."].
Proof. by vm_compute. Qed.

Example nothing_received :
  hud_lines "UDP :14550" 5 zero_metrics !! 4%nat =
    Some (" Autopilot:                           | Armed: DISARMED | Last Packet: NONE") /\
  bench_output default_bench_flags "UDP :14550" [Halted zero_metrics] =
    chr 10 +:+ "[BENCH-CHECK] Terminating session. Summary:" +:+ chr 10 +:+ "  Total Packets: 0 | CRC Drops: 0" +:+ chr 10.
Proof. by vm_compute. Qed.

(** Without flags the sniffer listens on the port of the simulators. *)
Example default_source (p : platform) (d : device unit) :
  bench_open (A := string) p d Ok (fun _ => None) default_bench_flags = Ok ("UDP :14550", UDPSource ":14550") /\
  bench_open (A := string) p d Ok (fun _ => Some "in use") default_bench_flags =
    Err "[BENCH-CHECK] Binding UDP socket :14550: in use".
Proof. done. Qed.

(** A corrupted heartbeat, then the packets of the flight, cut into two reads. *)
Definition flight_bytes : list byte := Eval vm_compute in
  (BenchSamples.corrupted ++ concat ((fun '(_, f) =>
    packet (zb 1) (zb 1) (zb 0) (Messages.MessageID f) (Messages.Payload f)) <$> BridgeSamples.flight))%list.
Definition flight_reader : Reader := NewStreamDecoder [(take 33 flight_bytes, None); (drop 33 flight_bytes, Some EOF)].
Definition flight_turns : list turn := repeat (mkTurn false false 7) 300.

Lemma screen_is_accurate_witness :
  exists m la lo al sp volts,
    bench_loop flight_turns zero_metrics flight_reader = Some m /\
    hud_lines "UDP :14550" 5 m !! 2%nat = Some " Connection: UDP :14550 | Packets Ingested: 5 | CRC Drops: 0" /\
    hud_lines "UDP :14550" 5 m !! 6%nat =
      Some (" Position:   Lat: " +:+ la +:+ "  Lon: " +:+ lo +:+ "  Alt: " +:+ al +:+ "m  Speed: " +:+ sp +:+ "m/s") /\
    shows_reading 301234567 10 6 la /\ shows_reading (-977654321) 10 6 lo /\ shows_reading 120500 100 1 al /\
    hud_lines "UDP :14550" 5 m !! 7%nat = Some (" Battery:    " +:+ volts +:+ "V (64%)") /\
    shows_reading 12000 10 2 volts /\
    exists who age, hud_lines "UDP :14550" 5 m !! 4%nat =
      Some (" Autopilot:  " +:+ who +:+ " | Armed: ARMED    | Last Packet: " +:+ age).
Proof.
  assert (clean flight_reader) as Hc by (split; [cbn; lia|vm_compute; by repeat split]).
  assert (length (stream flight_reader) < length flight_turns)%nat as Hl by (vm_compute; lia).
  assert (Forall (fun t => done_at_start t = false) flight_turns) as Hf by (by repeat constructor).
  destruct (screen_is_accurate "UDP :14550" 5 flight_turns flight_reader Hc Hl Hf) as (m & Hb & H2 & Hpos & Hsys & Hhb).
  destruct (Hpos (mkGlobalPositionInt 1000 301234567 (-977654321) 250000 120500 350 (-1220) 15 27050))
    as (la & lo & al & sp & H6 & Hla & Hlo & Hal); [vm_compute; reflexivity|].
  destruct (Hsys (mkSysStatus 1 1 1 500 12000 (-1) 64 0 0 0 0 0 0)) as (volts & H7 & Hv); [vm_compute; reflexivity|].
  destruct (Hhb (mkHeartbeat 0 (zb 2) (zb 3) (zb 0x80) (zb 4) (zb 3))) as (who & age & H4); [vm_compute; reflexivity|].
  exists m, la, lo, al, sp, volts. split; [exact Hb|].
  split; [rewrite H2; vm_compute; reflexivity|]. split; [exact H6|]. split; [exact Hla|]. split; [exact Hlo|]. split; [exact Hal|].
  split; [exact H7|]. split; [exact Hv|]. exists who, age. exact H4.
Defined.
