(* ===== verification/Clients.v ===== *)
(** pkg/mavlink/udp.go and stream_client.go: the two clients of an autopilot, the
    interface they share, and what a session of calls does. *)
From Stdlib Require Import Strings.String.
From S2P Require Import Prelude Crc Messages Stream GoString Float64 Json Topic Schema Bridge.

Local Open Scope Z_scope.
Local Open Scope go_scope.

(** * Commands *)
Inductive ClientError :=
| NoRemote
| EncodingFrame (e : DecodeError)
| WritingUDP (text : string)
| StreamClosed
| WritingStream (text : string).

(** The arguments of [SendCommandLong]. *)
Record call := mkCall {
  c_cmd : Z; c_p1 : float32; c_p2 : float32; c_p3 : float32; c_p4 : float32;
  c_p5 : float32; c_p6 : float32; c_p7 : float32 }.

Definition command_long (a : call) : CommandLong :=
  mkCommandLong (c_p1 a) (c_p2 a) (c_p3 a) (c_p4 a) (c_p5 a) (c_p6 a) (c_p7 a) (c_cmd a) (zb 1) (zb 1) (zb 0).

Definition command_packet (seq : byte) (a : call) : result DecodeError (list byte) :=
  EncodeFrame (zb 255) (zb 190) seq MsgIDCommandLong (EncodeCommandLong (command_long a)).

(** [seq++] on a byte. *)
Definition next_seq (b : byte) : byte := zb (bz b + 1).

(** The bits of [float32] 0 and 1. *)
Definition return_to_launch : call := mkCall MavCmdNavReturnToLaunch 0 0 0 0 0 0 0.
Definition set_armed (arm : bool) : call :=
  mkCall MavCmdComponentArmDisarm (if arm then 0x3F800000 else 0) 0 0 0 0 0 0.

(** ** The interface

    [w] is the outcome of writing the packet. The result is the error, the packets
    handed to the transport and the new state of the client. *)
Class AutopilotClient (C : Type) := {
  link_seq : C -> byte;
  ready : C -> bool;
  SendCommandLong : option string -> call -> C -> option ClientError * list (list byte) * C;
}.

Definition ReturnToLaunch `{AutopilotClient C} (w : option string) : C -> option ClientError * list (list byte) * C :=
  SendCommandLong w return_to_launch.
Definition SetArmed `{AutopilotClient C} (w : option string) (arm : bool) : C -> option ClientError * list (list byte) * C :=
  SendCommandLong w (set_armed arm).

(** A packet that carries a call to the autopilot under a sequence number. *)
Definition carries (seq : byte) (a : call) (pkt : list byte) : Prop :=
  exists f, DecodeFrame pkt = Ok f /\ SystemID f = zb 255 /\ ComponentID f = zb 190 /\
    Messages.Sequence f = seq /\ Messages.MessageID f = MsgIDCommandLong /\
    Messages.Payload f = EncodeCommandLong (command_long a).

Class AutopilotLaws (C : Type) `{AutopilotClient C} := {
  send_seq w a c : link_seq (SendCommandLong w a c).2 = next_seq (link_seq c);
  send_ready w a c : ready c = true ->
    exists pkt, (SendCommandLong w a c).1.2 = [pkt] /\ carries (next_seq (link_seq c)) a pkt /\
      ((SendCommandLong w a c).1.1 = None <-> w = None);
  send_stays w a c : ready (SendCommandLong w a c).2 = ready c;
  send_unready w a c : ready c = false ->
    exists e, (SendCommandLong w a c).1 = (Some e, []);
}.

(** ** Sessions

    [Start] launches two goroutines, the reader and the publisher. Each runs until it
    finds the context done; one that is past its check still handles what it has, and
    when a tick is due as well, the choice is open. *)
Record session (C : Type) := mkSession { client : C; reading : bool; publishing : bool }.
Arguments mkSession {C}. Arguments client {C}. Arguments reading {C}. Arguments publishing {C}.

Definition Start {C} (c : C) : session C := mkSession c true true.
Definition with_client {C} (c : C) (s : session C) : session C := mkSession c (reading s) (publishing s).
Definition reader_ends {C} (s : session C) : session C := mkSession (client s) false (publishing s).
Definition publisher_ends {C} (s : session C) : session C := mkSession (client s) (reading s) false.

(** * The UDP client *)
Section UDP.
Context `{U : Unicode} {A : Type}.

Record UDPClient := mkUDP {
  u_closed : bool;
  u_remoteAddr : option A;
  u_vehicleState : VehicleState;
  u_callback : bool;
  u_seq : byte;
}.

(** Resolving and binding the address are inputs. *)
Definition NewUDPClient (resolve : string -> result string A) (bind : A -> option string)
  (listenAddr : string) (vState : VehicleState) (cb : bool) : result string UDPClient :=
  match resolve listenAddr with
  | Err e => Err ("resolving udp listen addr " +:+ listenAddr +:+ ": " +:+ e)%string
  | Ok addr =>
    match bind addr with
    | Some e => Err ("listening on udp " +:+ listenAddr +:+ ": " +:+ e)%string
    | None => Ok (mkUDP false None vState cb (zb 0))
    end
  end.

Definition u_set_vehicle (v : VehicleState) (c : UDPClient) : UDPClient :=
  mkUDP (u_closed c) (u_remoteAddr c) v (u_callback c) (u_seq c).
Definition u_set_remote (a : A) (c : UDPClient) : UDPClient :=
  mkUDP (u_closed c) (Some a) (u_vehicleState c) (u_callback c) (u_seq c).
Definition u_set_seq (b : byte) (c : UDPClient) : UDPClient :=
  mkUDP (u_closed c) (u_remoteAddr c) (u_vehicleState c) (u_callback c) b.
Definition u_close (c : UDPClient) : UDPClient :=
  mkUDP true (u_remoteAddr c) (u_vehicleState c) (u_callback c) (u_seq c).

(** A datagram is read into a buffer of 2048 bytes; the rest of it is lost. *)
Definition datagramSize : nat := 2048.
#[global] Arguments datagramSize : simpl never.

Definition u_receive (now : Z) (data : list byte) (from : A) (c : UDPClient) : UDPClient :=
  let c := u_set_remote from c in
  match DecodeFrame (take datagramSize data) with
  | Err _ => c
  | Ok frame => u_set_vehicle (IngestFrame now frame (u_vehicleState c)).2 c
  end.

(** One tick of the publisher: the envelope handed to the callback, if any. *)
Definition u_publish (now1 now2 : Z) (c : UDPClient) : option SecurityEnvelope * UDPClient :=
  if u_callback c then
    let '(r, v) := BuildSecurityEnvelope now1 now2 (u_vehicleState c) in
    (match r with Ok env => Some env | Err _ => None end, u_set_vehicle v c)
  else (None, c).

(** The critical section of [SendCommandLong], and what follows it. *)
Definition u_ticket (c : UDPClient) : option A * byte * UDPClient :=
  let seq := next_seq (u_seq c) in (u_remoteAddr c, seq, u_set_seq seq c).

Definition u_transmit (w : option string) (rAddr : option A) (seq : byte) (a : call)
  : option ClientError * list (A * list byte) :=
  match rAddr with
  | None => (Some NoRemote, [])
  | Some addr =>
    match command_packet seq a with
    | Err e => (Some (EncodingFrame e), [])
    | Ok packet => (WritingUDP <$> w, [(addr, packet)])
    end
  end.

Definition u_SendCommandLong (w : option string) (a : call) (c : UDPClient)
  : option ClientError * list (A * list byte) * UDPClient :=
  let '(rAddr, seq, c) := u_ticket c in (u_transmit w rAddr seq a, c).

#[export] Instance UDP_autopilot : AutopilotClient UDPClient := {|
  link_seq := u_seq;
  ready c := is_Some_b (u_remoteAddr c);
  SendCommandLong w a c := let '(err, sent, c) := u_SendCommandLong w a c in (err, map snd sent, c);
|}.

(** *** Sessions

    The critical sections of a client run in some order: datagrams received, ticks of
    the publisher, commands, the close, and the ends of the two goroutines. A read that
    fails or times out changes nothing. *)
Inductive udp_event :=
| Datagram (now : Z) (data : list byte) (from : A)
| ReadError
| ReaderDone
| Tick (now1 now2 : Z)
| PublisherDone
| SendCommand (w : option string) (a : call)
| CloseUDP.

Inductive udp_output :=
| Published (env : SecurityEnvelope)
| Transmitted (addr : A) (pkt : list byte)
| Failed (e : ClientError).

Definition udp_step (e : udp_event) (s : session UDPClient) : list udp_output * session UDPClient :=
  let c := client s in
  match e with
  | Datagram now data from => ([], if reading s then with_client (u_receive now data from c) s else s)
  | ReadError => ([], s)
  | ReaderDone => ([], if u_closed c then reader_ends s else s)
  | Tick now1 now2 =>
    if publishing s then
      let '(o, c) := u_publish now1 now2 c in (match o with Some env => [Published env] | None => [] end, with_client c s)
    else ([], s)
  | PublisherDone => ([], if u_closed c then publisher_ends s else s)
  | SendCommand w a =>
    let '(err, sent, c) := u_SendCommandLong w a c in
    (((fun p => Transmitted p.1 p.2) <$> sent) ++ match err with Some e => [Failed e] | None => [] end, with_client c s)
  | CloseUDP => ([], with_client (u_close c) s)
  end.

Definition udp_run (es : list udp_event) (s : session UDPClient) : session UDPClient :=
  fold_left (fun s e => (udp_step e s).2) es s.
End UDP.
Arguments UDPClient : clear implicits.
Arguments udp_event : clear implicits.
Arguments udp_output : clear implicits.

(** * The stream client *)
Section StreamClients.
Context `{U : Unicode}.

Record StreamClient := mkStream {
  s_closed : bool;
  s_open : bool;
  s_decoder : Reader;
  s_vehicleState : VehicleState;
  s_callback : bool;
  s_seq : byte;
}.

(** [opened] says that the transport is not nil. *)
Definition NewStreamClient (opened : bool) (rwc : source) (vState : VehicleState) (cb : bool) : StreamClient :=
  mkStream false opened (NewStreamDecoder rwc) vState cb (zb 0).

Definition s_set_decoder (r : Reader) (c : StreamClient) : StreamClient :=
  mkStream (s_closed c) (s_open c) r (s_vehicleState c) (s_callback c) (s_seq c).
Definition s_set_vehicle (v : VehicleState) (c : StreamClient) : StreamClient :=
  mkStream (s_closed c) (s_open c) (s_decoder c) v (s_callback c) (s_seq c).
Definition s_set_seq (b : byte) (c : StreamClient) : StreamClient :=
  mkStream (s_closed c) (s_open c) (s_decoder c) (s_vehicleState c) (s_callback c) b.
Definition s_close (c : StreamClient) : StreamClient :=
  mkStream true (s_open c) (s_decoder c) (s_vehicleState c) (s_callback c) (s_seq c).

(** One turn of the read loop: whether it goes on, and the client. The frame
    decoder always returns ([Stream.NextFrame_terminates]). *)
Definition s_read (now : Z) (c : StreamClient) : bool * StreamClient :=
  match NextFrame (s_decoder c) with
  | None => (true, c)
  | Some (Err e, r) => (negb (s_closed c) && negb (bool_decide (e = EOF)), s_set_decoder r c)
  | Some (Ok frame, r) => (true, s_set_vehicle (IngestFrame now frame (s_vehicleState c)).2 (s_set_decoder r c))
  end.
Definition s_turn (now : Z) (c : StreamClient) : bool * StreamClient :=
  if s_closed c then (false, c) else s_read now c.

(** The loop, given the clock at each turn; [None] when it is still running. *)
Fixpoint s_readLoop (nows : list Z) (c : StreamClient) : option StreamClient :=
  match nows with
  | [] => None
  | now :: nows => let '(continue, c) := s_turn now c in if continue then s_readLoop nows c else Some c
  end.

Definition s_publish (now1 now2 : Z) (c : StreamClient) : option SecurityEnvelope * StreamClient :=
  if s_callback c then
    let '(r, v) := BuildSecurityEnvelope now1 now2 (s_vehicleState c) in
    (match r with Ok env => Some env | Err _ => None end, s_set_vehicle v c)
  else (None, c).

Definition s_SendCommandLong (w : option string) (a : call) (c : StreamClient)
  : option ClientError * list (list byte) * StreamClient :=
  let seq := next_seq (s_seq c) in
  let c := s_set_seq seq c in
  (match command_packet seq a with
   | Err e => (Some (EncodingFrame e), [])
   | Ok packet => if s_open c then (WritingStream <$> w, [packet]) else (Some StreamClosed, [])
   end, c).

(** *** Sessions

    As for the UDP client; the reader also ends with the stream. *)
Inductive stream_event :=
| FrameRead (now : Z)
| StreamReaderDone
| StreamTick (now1 now2 : Z)
| StreamPublisherDone
| StreamCommand (w : option string) (a : call)
| CloseStream.

Inductive stream_output :=
| StreamPublished (env : SecurityEnvelope)
| Written (pkt : list byte)
| Refused (e : ClientError).

Definition stream_step (e : stream_event) (s : session StreamClient) : list stream_output * session StreamClient :=
  let c := client s in
  match e with
  | FrameRead now =>
    ([], if reading s then let '(continue, c) := s_read now c in mkSession c continue (publishing s) else s)
  | StreamReaderDone => ([], if s_closed c then reader_ends s else s)
  | StreamTick now1 now2 =>
    if publishing s then
      let '(o, c) := s_publish now1 now2 c in
      (match o with Some env => [StreamPublished env] | None => [] end, with_client c s)
    else ([], s)
  | StreamPublisherDone => ([], if s_closed c then publisher_ends s else s)
  | StreamCommand w a =>
    let '(err, sent, c) := s_SendCommandLong w a c in
    ((Written <$> sent) ++ match err with Some e => [Refused e] | None => [] end, with_client c s)
  | CloseStream => ([], with_client (s_close c) s)
  end.

Definition stream_run (es : list stream_event) (s : session StreamClient) : session StreamClient :=
  fold_left (fun s e => (stream_step e s).2) es s.

#[export] Instance Stream_autopilot : AutopilotClient StreamClient := {|
  link_seq := s_seq;
  ready := s_open;
  SendCommandLong := s_SendCommandLong;
|}.
End StreamClients.

(** The period of the publisher in nanoseconds. *)
Definition publish_interval (interval : Z) : Z := if interval <=? 0 then 10 ^ 9 else interval.

(** * The packets of commands *)
Lemma length_EncodeCommandLong m : length (EncodeCommandLong m) = 33%nat.
Proof. unfold EncodeCommandLong. by rewrite !length_app, !length_le_encode. Qed.

Lemma command_packet_carries seq a : exists pkt, command_packet seq a = Ok pkt /\ carries seq a pkt.
Proof.
  assert (length (EncodeCommandLong (command_long a)) <= 255)%nat as Hl by (rewrite length_EncodeCommandLong; lia).
  unfold command_packet. rewrite EncodeFrame_packet, (proj2 (Nat.ltb_ge _ _)) by done.
  eexists. split; [done|]. exists (frame_for (zb 255) (zb 190) seq MsgIDCommandLong (EncodeCommandLong (command_long a))).
  split; [|done]. rewrite <- (app_nil_r (packet _ _ _ _ _)). by apply DecodeFrame_packet.
Qed.

Lemma next_seq_after b n : next_seq (zb (bz b + n)) = zb (bz b + n + 1).
Proof.
  apply bz_inj. unfold next_seq. rewrite !bz_zb. apply Z.add_mod_idemp_l. lia.
Qed.

#[export] Instance UDP_laws {A} : AutopilotLaws (UDPClient A).
Proof.
  assert (forall w a (c : UDPClient A),
    (SendCommandLong w a c).2 = u_set_seq (next_seq (u_seq c)) c) as Hc.
  { intros. cbn. unfold u_SendCommandLong, u_ticket. by destruct (u_transmit _ _ _ _). }
  split; [intros; by rewrite Hc| |intros; by rewrite Hc|]; clear Hc.
  - intros w a c Hr. cbn -[command_packet] in *. destruct (u_remoteAddr c) as [addr|] eqn:E; [|done].
    destruct (command_packet_carries (next_seq (u_seq c)) a) as (pkt & Hp & Hc). exists pkt.
    unfold u_SendCommandLong, u_ticket, u_transmit. rewrite ?E, Hp. split_and!; [done..|]. by destruct w.
  - intros w a c Hr. cbn -[command_packet] in *. unfold u_SendCommandLong, u_ticket, u_transmit.
    destruct (u_remoteAddr c); [done|]. by exists NoRemote.
Qed.

#[export] Instance Stream_laws : AutopilotLaws StreamClient.
Proof.
  split; [reflexivity| |reflexivity|]; intros w a c Hr; cbn -[command_packet] in *; unfold s_SendCommandLong;
    destruct (command_packet_carries (next_seq (s_seq c)) a) as (pkt & -> & Hc); rewrite Hr.
  - exists pkt. split_and!; [done..|]. by destruct w.
  - by exists StreamClosed.
Qed.

(** ** A session over the interface *)
Section Sessions.
Context `{AutopilotLaws C}.

Fixpoint send_all (calls : list (option string * call)) (c : C) : list (list byte) * C :=
  match calls with
  | [] => ([], c)
  | (w, a) :: calls =>
    let '(_, sent, c) := SendCommandLong w a c in
    let '(rest, c) := send_all calls c in (sent ++ rest, c)
  end.

(** Every client of the interface numbers its commands: from a ready client,
    any sequence of calls, failing writes included, hands the transport one packet
    per call, in order, the i-th carrying its call under sequence number
    s + 1 + i modulo 256. *)
Theorem session_sequence calls c :
  ready c = true ->
  length (send_all calls c).1 = length calls /\
  forall i wa pkt, calls !! i = Some wa -> (send_all calls c).1 !! i = Some pkt ->
    carries (zb (bz (link_seq c) + Z.of_nat i + 1)) wa.2 pkt.
Proof.
  revert c. induction calls as [|[w a] calls IH]; intros c Hr; [done|]. cbn [send_all].
  destruct (send_ready w a c Hr) as (pkt & Hs & Hc & _).
  pose proof (send_seq w a c) as Hq. pose proof (send_stays w a c) as Hst.
  destruct (SendCommandLong w a c) as [[err sent] c'] eqn:E. cbn in Hs, Hq, Hst. subst sent.
  destruct (IH c') as [Hl Hi]; [by rewrite Hst|].
  destruct (send_all calls c') as [rest c'']. cbn in *. split; [by rewrite Hl|].
  intros [|i] wa p; cbn.
  - intros [= <-] [= <-]. by rewrite Z.add_0_r.
  - intros H1 H2. specialize (Hi i wa p H1 H2). rewrite Hq in Hi. unfold next_seq in Hi.
    replace (zb (bz (link_seq c) + Z.of_nat (S i) + 1)) with (zb (bz (zb (bz (link_seq c) + 1)) + Z.of_nat i + 1));
      [done|]. apply bz_inj. rewrite !bz_zb, <- (Z.add_assoc (_ mod _)), Z.add_mod_idemp_l by lia. f_equal. lia.
Qed.
End Sessions.

(** * UDP sessions *)
Section UDPSessions.
Context `{U : Unicode} `{UL : !UnicodeLaws U} {A : Type}.
Implicit Types (c : UDPClient A) (s : session (UDPClient A)) (es : list (udp_event A)).

Definition running s : Prop := u_closed (client s) = false /\ reading s = true /\ publishing s = true.

Definition is_close (e : udp_event A) : bool := match e with CloseUDP => true | _ => false end.
Definition is_command (e : udp_event A) : bool := match e with SendCommand _ _ => true | _ => false end.
Definition is_tick (e : udp_event A) : bool := match e with Tick _ _ => true | _ => false end.

Fixpoint last_sender (acc : option A) (es : list (udp_event A)) : option A :=
  match es with
  | [] => acc
  | Datagram _ _ from :: es => last_sender (Some from) es
  | _ :: es => last_sender acc es
  end.

Definition count (p : udp_event A -> bool) (es : list (udp_event A)) : Z := Z.of_nat (length (List.filter p es)).

Lemma count_cons p e es : count p (e :: es) = (if p e then 1 else 0) + count p es.
Proof. unfold count. cbn. destruct (p e); cbn [length]; lia. Qed.

Lemma udp_run_cons e es s : udp_run (e :: es) s = udp_run es (udp_step e s).2.
Proof. done. Qed.

(** What each event leaves unchanged. *)
Lemma u_SendCommandLong_client w a c : (u_SendCommandLong w a c).2 = u_set_seq (next_seq (u_seq c)) c.
Proof. unfold u_SendCommandLong, u_ticket. by destruct (u_transmit _ _ _ _). Qed.

Lemma udp_step_command w a s :
  (udp_step (SendCommand w a) s).2 = with_client (u_set_seq (next_seq (u_seq (client s))) (client s)) s.
Proof.
  cbn [udp_step]. rewrite <- (u_SendCommandLong_client w a (client s)). by destruct (u_SendCommandLong w a (client s)) as [[]].
Qed.

Lemma udp_step_tick n1 n2 s : running s ->
  (udp_step (Tick n1 n2) s).2 = with_client
    (if u_callback (client s) then u_set_vehicle (BuildSecurityEnvelope n1 n2 (u_vehicleState (client s))).2 (client s)
     else client s) s.
Proof.
  intros (_ & _ & Hp). cbn [udp_step]. rewrite Hp. unfold u_publish. destruct (u_callback (client s)); [|done].
  by destruct (BuildSecurityEnvelope _ _ _).
Qed.

Lemma udp_step_datagram now data from s : running s ->
  (udp_step (Datagram now data from) s).2 = with_client (u_receive now data from (client s)) s.
Proof. intros (_ & Hr & _). cbn [udp_step]. by rewrite Hr. Qed.

(** The goroutines of an open client do not end. *)
Lemma udp_step_done e s : running s -> e = ReadError \/ e = ReaderDone \/ e = PublisherDone -> (udp_step e s).2 = s.
Proof. intros (Hc & _) [->|[->| ->]]; cbn [udp_step]; by rewrite ?Hc. Qed.

Lemma u_receive_fields now data from c :
  let c' := u_receive now data from c in
  u_closed c' = u_closed c /\ u_seq c' = u_seq c /\ u_callback c' = u_callback c /\
  u_remoteAddr c' = Some from.
Proof. unfold u_receive. by destruct (DecodeFrame _). Qed.

(** The link of a session: where commands go and how they are numbered. *)
Lemma udp_run_link es s :
  forallb (fun e => negb (is_close e)) es = true -> running s ->
  let s' := udp_run es s in
  running s' /\ u_callback (client s') = u_callback (client s) /\
  u_remoteAddr (client s') = last_sender (u_remoteAddr (client s)) es /\
  u_seq (client s') = zb (bz (u_seq (client s)) + count is_command es).
Proof.
  revert s. induction es as [|e es IH]; intros s He Hs.
  { unfold count. cbn -[zb]. by rewrite Z.add_0_r, zb_bz. }
  cbn in He. apply andb_prop in He as [He1 He2]. cbv zeta. rewrite udp_run_cons. pose proof Hs as (Hc & Hr & Hp).
  rewrite count_cons. destruct e as [now data from| | |n1 n2| |w a|]; [| | | | | |done]; cbn [is_command last_sender];
    try (rewrite udp_step_done by auto; by destruct (IH s)).
  - rewrite udp_step_datagram by done. destruct (u_receive_fields now data from (client s)) as (H1 & H2 & H3 & H4).
    destruct (IH (with_client (u_receive now data from (client s)) s)) as (E1 & E2 & E3 & E4); [done|by split_and!; cbn; rewrite ?H1|].
    split; [done|]. rewrite E2, E3, E4. cbn [client with_client]. by rewrite H2, H3, H4.
  - rewrite udp_step_tick by done. set (c' := if u_callback (client s) then _ else _).
    assert (u_closed c' = u_closed (client s) /\ u_callback c' = u_callback (client s) /\
      u_remoteAddr c' = u_remoteAddr (client s) /\ u_seq c' = u_seq (client s)) as (H1 & H2 & H3 & H4)
      by (unfold c'; by destruct (u_callback (client s)) eqn:Ecb; cbn; rewrite ?Ecb).
    destruct (IH (with_client c' s)) as (E1 & E2 & E3 & E4); [done|by split_and!; cbn; rewrite ?H1|].
    split; [done|]. rewrite E2, E3, E4. cbn [client with_client]. by rewrite H2, H3, H4.
  - rewrite udp_step_command.
    destruct (IH (with_client (u_set_seq (next_seq (u_seq (client s))) (client s)) s)) as (E1 & E2 & E3 & E4); [done..|].
    split; [done|]. rewrite E2, E3, E4. split_and!; [done..|]. cbn [client with_client u_seq u_set_seq]. unfold next_seq.
    apply bz_inj. rewrite !bz_zb, Z.add_mod_idemp_l by lia. f_equal. lia.
Qed.

(** C33. Where a command goes. After any session of an open client, a command is one
    packet to the sender of the last datagram received, whatever that datagram
    contained, under the sequence number that counts every earlier attempt, failed
    ones included; before the first datagram it is refused. *)
Theorem udp_command es s w a :
  forallb (fun e => negb (is_close e)) es = true -> running s ->
  match last_sender (u_remoteAddr (client s)) es with
  | None => (udp_step (SendCommand w a) (udp_run es s)).1 = [Failed NoRemote]
  | Some addr => exists pkt,
      (udp_step (SendCommand w a) (udp_run es s)).1 =
        Transmitted addr pkt :: match w with Some e => [Failed (WritingUDP e)] | None => [] end /\
      carries (zb (bz (u_seq (client s)) + count is_command es + 1)) a pkt
  end.
Proof.
  intros He Hs. destruct (udp_run_link es s He Hs) as (_ & _ & Hr & Hq). cbn [udp_step].
  unfold u_SendCommandLong, u_ticket, u_transmit. rewrite Hr, Hq, next_seq_after.
  destruct (last_sender _ es) as [addr|]; [|done].
  destruct (command_packet_carries (zb (bz (u_seq (client s)) + count is_command es + 1)) a) as (pkt & -> & Hcar).
  exists pkt. split; [by destruct w|done].
Qed.

(** ** Telemetry *)

(** A datagram that holds no frame, or the frame of a working autopilot. *)
Definition plausible_event (e : udp_event A) : bool :=
  match e with
  | Datagram _ data _ =>
    match DecodeFrame (take datagramSize data) with Ok f => plausible f | Err _ => true end
  | CloseUDP => false
  | _ => true
  end.

Lemma udp_run_vehicle es s :
  forallb plausible_event es = true -> running s -> u_callback (client s) = true ->
  flyable (u_vehicleState (client s)) ->
  let s' := udp_run es s in
  running s' /\ u_callback (client s') = true /\ flyable (u_vehicleState (client s')) /\
  u64 (v_sequence (u_vehicleState (client s'))) = u64 (v_sequence (u_vehicleState (client s)) + count is_tick es).
Proof.
  revert s. induction es as [|e es IH]; intros s He Hs Hcb Hv.
  { unfold count. cbn -[wrapU]. by rewrite Z.add_0_r. }
  cbn in He. apply andb_prop in He as [He1 He2]. cbv zeta. rewrite udp_run_cons. pose proof Hs as (Hc & Hr & Hp).
  rewrite count_cons. destruct e as [now data from| | |n1 n2| |w a|]; [| | | | | |done]; cbn [is_tick];
    try (rewrite udp_step_done by auto; by destruct (IH s)).
  - rewrite udp_step_datagram by done. destruct (u_receive_fields now data from (client s)) as (H1 & _ & H3 & _).
    destruct (IH (with_client (u_receive now data from (client s)) s)) as (E1 & E2 & E3 & E4);
      [done|by split_and!; cbn; rewrite ?H1|cbn; by rewrite H3| |].
    { cbn [client with_client]. unfold u_receive. cbn [plausible_event] in He1. destruct (DecodeFrame _); [|done].
      by apply IngestFrame_flyable. }
    split_and!; [done..|]. rewrite E4. cbn [client with_client]. unfold u_receive. destruct (DecodeFrame _); [|done].
    cbn [u_vehicleState u_set_vehicle u_set_remote]. by rewrite sequence_step.
  - rewrite udp_step_tick, Hcb by done. cbn [plausible_event] in He1.
    destruct (flyable_builds n1 1 (u_vehicleState (client s)) Hv) as (Hv' & _); [done|].
    destruct (IH (with_client (u_set_vehicle (BuildSecurityEnvelope n1 n2 (u_vehicleState (client s))).2 (client s)) s))
      as (E1 & E2 & E3 & E4); [done..|]. split_and!; [done..|]. rewrite E4. cbn [client with_client u_vehicleState u_set_vehicle].
    unfold BuildSecurityEnvelope, wrapU. cbn [snd v_sequence set_sequence].
    rewrite Z.add_mod_idemp_l by lia. f_equal. lia.
  - rewrite udp_step_command. by destruct (IH (with_client (u_set_seq (next_seq (u_seq (client s))) (client s)) s)).
Qed.

(** What the client publishes. Whatever order datagrams, commands and ticks come
    in, as long as the frames received are plausible, every tick publishes one
    envelope that passes validation unchanged, and the envelopes are numbered 1, 2,
    3 and so on. *)
Theorem udp_telemetry es n1 n2 unitID team vt tier sys (remote : option A) :
  forallb plausible_event es = true -> n2 <> 0 ->
  valid_tier (default_to Tier2Restricted tier) = true -> unitID <> ""%string ->
  let s := udp_run es (Start (mkUDP false remote (NewVehicleState unitID team vt tier sys) true (zb 0))) in
  exists env t, (udp_step (Tick n1 n2) s).1 = [Published env] /\
    Validate (Some env) = (None, Some env) /\
    Telemetry env = Some t /\ Schema.Sequence t = u64 (count is_tick es + 1).
Proof.
  intros He Hn Ht Hid s.
  destruct (udp_run_vehicle es (Start (mkUDP false remote (NewVehicleState unitID team vt tier sys) true (zb 0))))
    as ((Hc & _ & Hp) & Hcb & Hv & Hs); [done..|by apply NewVehicleState_flyable|]. fold s in Hc, Hp, Hcb, Hv, Hs.
  destruct (flyable_builds n1 n2 _ Hv Hn) as (_ & env & Henv & Htel & Hval).
  exists env. eexists. cbn [udp_step]. rewrite Hp. unfold u_publish. rewrite Hcb, Henv.
  split_and!; [done|done|exact Htel|]. cbn -[wrapU] in *. unfold wrapU in *.
  rewrite <- Z.add_mod_idemp_l, Hs, Z.add_mod_idemp_l by lia. f_equal.
Qed.

Lemma ended_stays es s : reading s = false -> publishing s = false ->
  reading (udp_run es s) = false /\ publishing (udp_run es s) = false /\
  u_vehicleState (client (udp_run es s)) = u_vehicleState (client s).
Proof.
  revert s. induction es as [|e es IH]; intros s H1 H2; [done|]. rewrite udp_run_cons.
  assert (reading (udp_step e s).2 = false /\ publishing (udp_step e s).2 = false /\
    u_vehicleState (client (udp_step e s).2) = u_vehicleState (client s)) as (E1 & E2 & <-); [|by apply IH].
  destruct e; rewrite ?udp_step_command; cbn [udp_step]; rewrite ?H1, ?H2; cbn [snd]; try done; by destruct (u_closed _).
Qed.

(** Closing ends a session: once both goroutines have found the context done, only
    commands are answered, whatever else happens. *)
Theorem closed_session_ends es s :
  let s' := udp_run es (udp_run [CloseUDP; ReaderDone; PublisherDone] s) in
  reading s' = false /\ publishing s' = false /\ u_vehicleState (client s') = u_vehicleState (client s) /\
  forall e, is_command e = false -> udp_step e s' = ([], (udp_step e s').2).
Proof.
  intros s'. enough (reading s' = false /\ publishing s' = false /\ u_vehicleState (client s') = u_vehicleState (client s)) as (H1 & H2 & H3).
  { split_and!; [done..|]. intros [] He; cbn [udp_step]; by rewrite ?H1, ?H2. }
  destruct (ended_stays es (udp_run [CloseUDP; ReaderDone; PublisherDone] s)) as (H1 & H2 & H3); [done..|].
  split_and!; [exact H1|exact H2|exact H3].
Qed.
End UDPSessions.

(** * The read loop of the stream client *)
Lemma s_readLoop_spec nows c :
  s_closed c = false -> clean (s_decoder c) -> (length (stream (s_decoder c)) < length nows)%nat ->
  exists c', s_readLoop nows c = Some c' /\
    s_vehicleState c' = ingest_all (zip nows (frames_of (length nows) (stream (s_decoder c))).1) (s_vehicleState c).
Proof.
  revert c. induction nows as [|now nows IH]; intros c Hc Hcl Hlen; cbn [length] in *; [lia|].
  cbn [s_readLoop frames_of]. unfold s_turn, s_read. rewrite Hc.
  destruct (NextFrame_refines _ Hcl) as (r1 & Hc1 & -> & Hs1).
  destruct (next_frame (stream (s_decoder c))) as [[f|] l] eqn:En; cbn in Hs1; cbn [frame_result fst].
  - pose proof En as Hlt. apply next_frame_shorter in Hlt.
    destruct (IH (s_set_vehicle (IngestFrame now f (s_vehicleState c)).2 (s_set_decoder r1 c)))
      as (c' & -> & Hv); [done|done|cbn; rewrite Hs1; lia|].
    exists c'. split; [done|]. rewrite Hv. cbn [s_decoder s_vehicleState s_set_vehicle s_set_decoder].
    rewrite Hs1. by destruct (frames_of (length nows) l).
  - rewrite bool_decide_true by done. cbn [negb andb]. by eexists.
Qed.

Lemma length_wire ts tail : (length ts <= length (wire ts tail))%nat.
Proof.
  unfold wire. rewrite length_app.
  induction ts as [|t ts IH]; [cbn; lia|]. rewrite fmap_cons. cbn [length concat]. rewrite !length_app. pose proof (length_packet (t_sys t) (t_comp t) (t_seq t) (t_id t) (t_payload t)) as Hp. fold (t_packet t) in Hp. lia.
Qed.

Lemma stream_client_loop nows s ts tail v cb :
  clean_src s -> concat s.*1 = wire ts tail ->
  Forall t_wf ts -> Forall (.≠ MagicV2) tail ->
  (length (wire ts tail) < length nows)%nat ->
  exists c, s_readLoop nows (NewStreamClient true s v cb) = Some c /\
    s_vehicleState c = ingest_all (zip nows (t_frame <$> ts)) v.
Proof.
  intros Hcl Hw Hts Htail Hlen.
  destruct (s_readLoop_spec nows (NewStreamClient true s v cb)) as (c & Hr & Hv);
    [done|by split; cbn; [lia|]|by unfold stream; cbn; rewrite Hw|].
  exists c. split; [done|]. rewrite Hv. unfold stream. cbn [s_decoder NewStreamClient NewStreamDecoder unread rd app].
  rewrite Hw, frames_of_wire; [done..|].
  pose proof (length_wire ts tail). lia.
Qed.

(** The stream client over any fragmentation. When the transport delivers MAVLink
    packets with noise between them, in fragments of any size, the read loop stops
    at the end of the stream with exactly the frames sent ingested, in order. *)
Theorem stream_client_ingests nows s ts tail v cb :
  clean_src s -> concat s.*1 = wire ts tail ->
  Forall t_wf ts -> Forall (.≠ MagicV2) tail ->
  (length (wire ts tail) < length nows)%nat ->
  exists c, s_readLoop nows (NewStreamClient true s v cb) = Some c /\
    s_vehicleState c = ingest_all (zip nows (t_frame <$> ts)) v.
Proof. apply stream_client_loop. Qed.

(** * A lost link

    After the end of the stream only the publisher and the commands are left. *)
Section LostLink.
Context `{U : Unicode} `{UL : !UnicodeLaws U}.
Implicit Types (c : StreamClient) (s : session StreamClient).

Definition stream_closes (e : stream_event) : bool := match e with CloseStream => true | _ => false end.
Definition stream_ticks (es : list stream_event) : Z :=
  Z.of_nat (length (List.filter (fun e => match e with StreamTick _ _ => true | _ => false end) es)).

Lemma stream_run_app es1 es2 s : stream_run (es1 ++ es2) s = stream_run es2 (stream_run es1 s).
Proof. apply fold_left_app. Qed.

Lemma reads_ended nows s : reading s = false -> stream_run (map FrameRead nows) s = s.
Proof.
  intros Hr. induction nows as [|now nows IH]; [done|]. cbn [map stream_run fold_left stream_step]. rewrite Hr. exact IH.
Qed.

(** Turns of the reader alone are the read loop. *)
Lemma reads_are_the_loop nows c c' p :
  s_closed c = false -> s_readLoop nows c = Some c' ->
  stream_run (map FrameRead nows) (mkSession c true p) = mkSession c' false p /\
  s_closed c' = false /\ s_callback c' = s_callback c.
Proof.
  revert c. induction nows as [|now nows IH]; intros c Hc; [done|]. cbn [s_readLoop map].
  cbn [stream_run fold_left stream_step reading client]. unfold s_turn. rewrite Hc.
  assert (s_closed (s_read now c).2 = false /\ s_callback (s_read now c).2 = s_callback c) as [H1 H2].
  { unfold s_read. destruct (NextFrame (s_decoder c)) as [[[f|e] r]|]; done. }
  destruct (s_read now c) as [[] c1]; cbn [snd] in H1, H2.
  - intros Hl. destruct (IH c1 H1 Hl) as (E1 & E2 & E3). split; [exact E1|]. split; [done|congruence].
  - intros [= <-]. split; [|done]. by apply reads_ended.
Qed.

Lemma built_at n1 n2 v env v' : BuildSecurityEnvelope n1 n2 v = (Ok env, v') -> TimestampNs (Header env) = n2.
Proof.
  unfold BuildSecurityEnvelope, NewTelemetryEnvelope. destruct (valid_tier _); [|done]. cbn [negb].
  destruct (ComputePayloadDigest _); [|done]. by intros [= <- _].
Qed.

(** What is left of a session whose reader has ended. *)
Lemma lost_link_run es s :
  forallb (fun e => negb (stream_closes e)) es = true ->
  reading s = false -> publishing s = true -> s_closed (client s) = false -> s_callback (client s) = true ->
  let s' := stream_run es s in
  reading s' = false /\ publishing s' = true /\ s_callback (client s') = true /\
  exists n, s_vehicleState (client s') = set_sequence n (s_vehicleState (client s)) /\
    u64 n = u64 (v_sequence (s_vehicleState (client s)) + stream_ticks es).
Proof.
  revert s. induction es as [|e es IH]; intros s He Hr Hp Hc Hcb.
  { split_and!; [done..|]. exists (v_sequence (s_vehicleState (client s))).
    split; [cbn; by destruct (s_vehicleState (client s))|]. by rewrite Z.add_0_r. }
  cbn [forallb] in He. apply andb_prop in He as [He1 He2].
  cbn [stream_run fold_left]. fold (stream_run es (stream_step e s).2).
  destruct e as [now| |n1 n2| |w a|]; [| | | | |done]; cbn [stream_step]; rewrite ?Hr, ?Hc, ?Hp; try by apply IH.
  - unfold s_publish. rewrite Hcb. unfold BuildSecurityEnvelope.
    set (v1 := set_sequence _ _). destruct (IH (with_client (s_set_vehicle v1 (client s)) s)) as (E1 & E2 & E3 & n & E4 & E5); [done..|].
    split_and!; [done..|]. exists n. split; [exact E4|]. rewrite E5. cbn -[wrapU]. unfold stream_ticks, wrapU. cbn [List.filter length].
    rewrite Z.add_mod_idemp_l by lia. f_equal. lia.
  - assert ((s_SendCommandLong w a (client s)).2 = s_set_seq (next_seq (s_seq (client s))) (client s)) as Hs by done.
    destruct (s_SendCommandLong w a (client s)) as [[err sent] c1]. cbn [snd] in Hs |- *. subst c1.
    by apply (IH (with_client (s_set_seq (next_seq (s_seq (client s))) (client s)) s)).
Qed.

(** C32. A lost autopilot goes on reporting - while its last angles are finite. Take a
    client with a named unit, a valid tier and a callback, and a stream of well-formed
    packets with noise between them, in any fragments, that is read to its end. The
    reader is gone but the publisher is not: after any further ticks, commands and
    reads short of closing, a tick publishes exactly when the last angles received are
    finite, and then one envelope, under the time of the tick and the next sequence
    number, with exactly the state of the last frames received, rounded as every payload - the
    coordinates 0,0 if there was no position. With an angle that is not finite no tick publishes. The
    envelope passes validation if the last position is on the globe and the time of the
    tick is not zero; packets whose positions are on the globe and whose angles are
    finite always lead there. *)
Theorem lost_link_reports_on src ts tail nows es n1 n2 unitID team vt tier sys :
  clean_src src -> concat src.*1 = wire ts tail -> Forall t_wf ts -> Forall (.≠ MagicV2) tail ->
  (length (wire ts tail) < length nows)%nat ->
  forallb (fun e => negb (stream_closes e)) es = true ->
  valid_tier (default_to Tier2Restricted tier) = true -> unitID <> ""%string ->
  let last := ingest_all (zip nows (t_frame <$> ts)) (NewVehicleState unitID team vt tier sys) in
  let s := stream_run (map FrameRead nows ++ es) (Start (NewStreamClient true src (NewVehicleState unitID team vt tier sys) true)) in
  reading s = false /\
  (attitude_finite last = true -> exists env, (stream_step (StreamTick n1 n2) s).1 = [StreamPublished env] /\
     TimestampNs (Header env) = n2 /\
     Telemetry env = Some (Normalize (vehicle_payload (set_sequence (u64 (stream_ticks es + 1)) last))) /\
     (position_ok last -> n2 <> 0 -> Validate (Some env) = (None, Some env))) /\
  (attitude_finite last = false -> (stream_step (StreamTick n1 n2) s).1 = []) /\
  (forallb plausible (t_frame <$> ts) = true -> attitude_finite last = true /\ position_ok last).
Proof.
  intros Hcl Hw Hts Htail Hlen Hes Ht Hid last s.
  destruct (stream_client_loop nows src ts tail (NewVehicleState unitID team vt tier sys) true Hcl Hw Hts Htail Hlen) as (c & Hl & Hv).
  destruct (reads_are_the_loop nows
    (NewStreamClient true src (NewVehicleState unitID team vt tier sys) true) c true eq_refl Hl) as (Hrun & Hc & Hcb).
  unfold s. rewrite stream_run_app. unfold Start. rewrite Hrun.
  destruct (lost_link_run es (mkSession c false true) Hes eq_refl eq_refl Hc Hcb) as (E1 & E2 & E3 & n & E4 & E5).
  set (s1 := stream_run es _) in *. clearbody s1. split; [exact E1|]. cbn [client] in E4, E5. rewrite Hv in E4, E5. fold last in E4, E5.
  pose proof (NewVehicleState_flyable unitID team vt tier sys Ht Hid) as Hnew.
  assert (identity last = identity (NewVehicleState unitID team vt tier sys)) as Hident.
  { unfold last. apply (ingest_all_always (fun v => identity v = identity (NewVehicleState unitID team vt tier sys))); [|done].
    intros now f v Hi. by rewrite identity_step. }
  assert (airworthy last) as Hair by (apply airworthy_ingested, Hnew).
  assert (v_sequence last = 0) as Hseq.
  { unfold last. apply (ingest_all_always (fun v => v_sequence v = 0)); [|done]. intros now f v Hz. by rewrite sequence_step. }
  assert (u64 (n + 1) = u64 (stream_ticks es + 1)) as Hn.
  { rewrite Hseq, Z.add_0_l in E5. unfold wrapU in *. by rewrite <- Z.add_mod_idemp_l, E5, Z.add_mod_idemp_l by lia. }
  assert (valid_tier (v_tier (set_sequence n last)) = true) as Htier
    by (cbn; unfold identity in Hident; injection Hident as _ _ _ -> _; exact Ht).
  destruct (Build_outcome n1 n2 (set_sequence n last) Hair Htier) as (r & Hb & Hr).
  change (attitude_finite (set_sequence n last)) with (attitude_finite last) in Hr.
  cbn [stream_step]. rewrite E2. unfold s_publish. rewrite E3, E4, Hb. split; [|split].
  - intros Ha. rewrite Ha in Hr. destruct Hr as (env & -> & Htel). exists env. split; [done|].
    split; [by eapply built_at|]. cbn [v_sequence set_sequence] in Htel. rewrite Hn in Htel. split; [exact Htel|].
    intros Hpos Hn2. assert (flyable (set_sequence n last)) as Hfly.
    { destruct Hnew. unfold identity in Hident. injection Hident as I1 I2 I3 I4 _.
      by constructor; cbn; rewrite ?I1, ?I2, ?I3, ?I4. }
    destruct (flyable_builds n1 n2 _ Hfly Hn2) as (_ & env' & Hb' & _ & Hval). rewrite Hb in Hb'. by injection Hb' as <-.
  - intros Ha. rewrite Ha in Hr. by destruct r.
  - intros Hpl. assert (flyable last) as [_ ? ? _ _ _ _]; [|done].
    apply (ingest_all_invariant flyable plausible); [intros ???; by apply IngestFrame_flyable| |exact Hnew].
    rewrite snd_zip by (rewrite length_fmap; pose proof (length_wire ts tail); lia). exact Hpl.
Qed.
End LostLink.

(** * Concrete sessions *)
Module ClientSamples.
Local Open Scope string_scope.
Definition sent (id : Z) (payload : list byte) : transmission :=
  mkTransmission [] (zb 1) (zb 1) (zb 0) id payload.
Definition beat : transmission := sent MsgIDHeartbeat (Messages.Payload BridgeSamples.armed_heartbeat).
Definition fix_ : transmission := sent MsgIDGlobalPositionInt (Messages.Payload BridgeSamples.airborne_fix).

Definition client : UDPClient string := mkUDP false None BridgeSamples.vehicle true (zb 0).
Definition session : list (udp_event string) :=
  [SendCommand None return_to_launch; Datagram 1 (t_packet beat) "autopilot"; Tick 10 11;
   Datagram 2 (t_packet fix_) "autopilot"; ReadError; Tick 20 21; Datagram 3 [zb 0x68; zb 0x69] "stranger"].

(** The transport delivers byte by byte. *)
Definition trickle (l : list byte) : source := (fun b => ([b], None)) <$> l.
Definition transfer : list byte := wire [beat; fix_] [zb 0].
Definition clocks : list Z := repeat 5 80.
End ClientSamples.

(** Before any datagram a command is refused but numbered; afterwards it goes to
    whoever spoke last. *)
Example stranger_gets_the_command :
  map (fun o => match o with Transmitted addr pkt => (addr, bz (byte_at pkt 4)) | _ => ("", 0) end)
    (udp_step (U:=caseless) (SendCommand None return_to_launch)
      (udp_run (U:=caseless) ClientSamples.session (Start ClientSamples.client))).1 = [("stranger"%string, 2)].
Proof. by vm_compute. Qed.

Lemma session_sequence_witness :
  (length (send_all [(None, set_armed true); (Some "timeout"%string, return_to_launch)]
    (NewStreamClient true [] BridgeSamples.vehicle false)).1 = 2)%nat.
Proof.
  apply (session_sequence [(None, set_armed true); (Some "timeout"%string, return_to_launch)]
    (NewStreamClient true [] BridgeSamples.vehicle false)). reflexivity.
Defined.

Lemma udp_command_witness :
  exists pkt, (udp_step (U:=caseless) (SendCommand None return_to_launch)
    (udp_run (U:=caseless) ClientSamples.session (Start ClientSamples.client))).1 = [Transmitted "stranger"%string pkt].
Proof.
  destruct (@udp_command caseless string ClientSamples.session (Start ClientSamples.client) None return_to_launch
    eq_refl (conj eq_refl (conj eq_refl eq_refl))) as (pkt & Hs & _).
  exists pkt. exact Hs.
Defined.

Lemma udp_telemetry_witness :
  exists env t, (udp_step (U:=caseless) (Tick 30 31)
    (udp_run (U:=caseless) ClientSamples.session
      (Start (mkUDP false None (NewVehicleState "bravo" "" "" "" (zb 1)) true (zb 0))))).1 = [Published env] /\
    Telemetry env = Some t /\ Schema.Sequence t = 3.
Proof.
  assert (forallb (plausible_event (A:=string)) ClientSamples.session = true) as Hp by (vm_compute; reflexivity).
  assert (valid_tier (default_to Tier2Restricted "") = true) as Ht by (vm_compute; reflexivity).
  destruct (@udp_telemetry caseless caseless_laws string ClientSamples.session 30 31 "bravo" "" "" "" (zb 1) None
    Hp ltac:(lia) Ht ltac:(done)) as (env & t & Ho & _ & Htel & Hs).
  exists env, t. split; [exact Ho|]. split; [exact Htel|exact Hs].
Defined.

Lemma stream_client_ingests_witness :
  exists c, s_readLoop ClientSamples.clocks
      (NewStreamClient true (ClientSamples.trickle ClientSamples.transfer) BridgeSamples.vehicle false) = Some c /\
    s_vehicleState c = ingest_all (zip ClientSamples.clocks [t_frame ClientSamples.beat; t_frame ClientSamples.fix_])
      BridgeSamples.vehicle.
Proof.
  apply (stream_client_ingests ClientSamples.clocks (ClientSamples.trickle ClientSamples.transfer)
    [ClientSamples.beat; ClientSamples.fix_] [zb 0]).
  - vm_compute. by repeat split.
  - by vm_compute.
  - repeat constructor; by vm_compute.
  - by repeat constructor.
  - vm_compute. lia.
Defined.

(** An hour after the last packet. *)
Lemma lost_link_reports_on_witness :
  let later := [StreamTick 100 101; StreamCommand (Some "closed"%string) return_to_launch; FrameRead 7; StreamTick 200 201] in
  let last := ingest_all (zip ClientSamples.clocks [t_frame ClientSamples.beat; t_frame ClientSamples.fix_])
    (NewVehicleState "bravo" "" "" "" (zb 1)) in
  let s := stream_run (U:=caseless) (map FrameRead ClientSamples.clocks ++ later)
    (Start (NewStreamClient true (ClientSamples.trickle ClientSamples.transfer) (NewVehicleState "bravo" "" "" "" (zb 1)) true)) in
  reading s = false /\
  exists env, (stream_step (U:=caseless) (StreamTick 3600 3601) s).1 = [StreamPublished env] /\
    TimestampNs (Header env) = 3601 /\ Telemetry env = Some (Normalize (vehicle_payload (set_sequence 3 last))) /\
    @Validate caseless (Some env) = (None, Some env).
Proof.
  assert (clean_src (ClientSamples.trickle ClientSamples.transfer)) as Hcl by (vm_compute; by repeat split).
  assert (concat (ClientSamples.trickle ClientSamples.transfer).*1 = wire [ClientSamples.beat; ClientSamples.fix_] [zb 0])
    as Hw by (vm_compute; reflexivity).
  assert (Forall t_wf [ClientSamples.beat; ClientSamples.fix_]) as Hts by (repeat constructor; by vm_compute).
  assert (Forall (.≠ MagicV2) [zb 0]) as Htail by (by repeat constructor).
  assert (length (wire [ClientSamples.beat; ClientSamples.fix_] [zb 0]) < length ClientSamples.clocks)%nat as Hlen by (vm_compute; lia).
  assert (forallb plausible (t_frame <$> [ClientSamples.beat; ClientSamples.fix_]) = true) as Hpl by (vm_compute; reflexivity).
  assert (valid_tier (default_to Tier2Restricted "") = true) as Ht by (vm_compute; reflexivity).
  destruct (@lost_link_reports_on caseless caseless_laws _ _ _ _
    [StreamTick 100 101; StreamCommand (Some "closed"%string) return_to_launch; FrameRead 7; StreamTick 200 201]
    3600 3601 "bravo" "" "" "" (zb 1) Hcl Hw Hts Htail Hlen eq_refl Ht ltac:(done)) as (Hr & Hpub & _ & Hok).
  destruct (Hok Hpl) as [Ha Hpos]. destruct (Hpub Ha) as (env & Ho & Hn & Htel & Hval).
  split; [exact Hr|]. exists env. split; [exact Ho|]. split; [exact Hn|]. split; [exact Htel|].
  apply Hval; [exact Hpos|lia].
Defined.
