(* ===== verification/VehicleSim.v ===== *)
(** cmd/edge-agent/main.go, first part: the simulated vehicle - its dynamics, its
    state machine and its command handler. *)
From Stdlib Require Import Strings.Ascii Strings.String SpecFloat.
From coqutil Require Import Datatypes.RecordSetters.
From S2P Require Import Prelude GoString Float64 Trig Json Topic Schema.
Import DoubleBraceUpdate.

Local Open Scope string_scope.
Local Open Scope Z_scope.

Definition roundFloat (val : f64) (decimals : Z) : f64 :=
  let pow := Pow10 decimals in fdiv (Round (fmul val pow)) pow.

(** * State *)
Record VehicleSim := mkSim {
  id : string;
  vehicleType : string;
  team : string;
  state : string;
  batteryPct : f64;
  centerLat : f64;
  centerLon : f64;
  baseLat : f64;
  baseLon : f64;
  currentLat : f64;
  currentLon : f64;
  currentAlt : f64;
  cruiseAlt : f64;
  speedMps : f64;
  cruiseSpeed : f64;
  headingDeg : f64;
  flightAngle : f64;
  orbitRadius : f64;
  sequence : Z;
  originNode : string;
  ewActive : bool;
}.

Definition positive_or (x d : f64) : f64 := if fle x fzero then d else x.

Definition NewVehicleSim (id vType team : string) (lat lon alt radius speed : f64) : VehicleSim :=
  let alt := positive_or alt (of_Z 120) in
  let radius := positive_or radius (lit 8 3) in
  let speed := positive_or speed (lit 145 1) in
  mkSim id vType team "AIRBORNE" (lit 985 1) lat lon lat lon
    (roundFloat (fadd lat (fmul radius (Sin fzero))) 6) (roundFloat (fadd lon (fmul radius (Cos fzero))) 6)
    alt alt speed speed (of_Z 90) fzero radius 0 ("edge-node-" +:+ team +:+ "-" +:+ id) false.

Definition SetBase (lat lon : f64) (v : VehicleSim) : VehicleSim := v{{baseLat := lat; baseLon := lon}}.

(** * Dynamics *)
Definition metresPerDegree : f64 := of_Z 111139.

(** A bearing in radians as a heading in degrees. *)
Definition heading_of (rad : f64) : f64 :=
  roundFloat (Mod (fadd (fdiv (fmul rad (of_Z 180)) Pi) (of_Z 360)) (of_Z 360)) 1.

(** Battery drain at [rate] percent per second, with the floor of 5%. *)
Definition drained (rate dt battery : f64) : f64 :=
  roundFloat (Max (of_Z 5) (fsub battery (fmul rate dt))) 1.

Definition hypotenuse (x y : f64) : f64 := fsqrt (fadd (fmul x x) (fmul y y)).

Definition telemetry (state : string) (coords : Coordinates) (vel : Velocity) (heading : f64)
  (payload : option (list (string * any))) (v : VehicleSim) : TelemetryPayload :=
  mkTelemetry (id v) (vehicleType v) (team v) state (batteryPct v) coords vel heading payload (sequence v).

Definition at_rest : Velocity := mkVelocity fzero fzero fzero fzero.

Definition recon_payload (v : VehicleSim) : option (list (string * any)) :=
  Some [("ew_emitter_active", ABool (ewActive v)); ("payload_mode", AStr "TACTICAL_RECON");
        ("sensor_temp_c", ANum (lit 385 1)); ("target_tracking", ABool true)].

(** One advance of [stepDeg] degrees along a bearing, stopping at the target when
    it is within reach. *)
Definition advance (bearing stepDeg distDeg targetLat targetLon : f64) (v : VehicleSim) : VehicleSim :=
  if fge stepDeg distDeg then v{{currentLat := targetLat; currentLon := targetLon}}
  else v{{currentLat := roundFloat (fadd (currentLat v) (fmul stepDeg (Cos bearing))) 6;
          currentLon := roundFloat (fadd (currentLon v) (fmul stepDeg (Sin bearing))) 6}}.

(** ** Patrol *)

(** The angle from the centre of the orbit, and the closest point on the orbit. *)
Definition angleFromCenter (v : VehicleSim) : f64 :=
  Atan2 (fsub (currentLat v) (centerLat v)) (fsub (currentLon v) (centerLon v)).
Definition targetLat (v : VehicleSim) : f64 :=
  roundFloat (fadd (centerLat v) (fmul (orbitRadius v) (Sin (angleFromCenter v)))) 6.
Definition targetLon (v : VehicleSim) : f64 :=
  roundFloat (fadd (centerLon v) (fmul (orbitRadius v) (Cos (angleFromCenter v)))) 6.
Definition distToTargetDeg (v : VehicleSim) : f64 :=
  hypotenuse (fsub (targetLat v) (currentLat v)) (fsub (targetLon v) (currentLon v)).

Definition displaced (dt : f64) (v : VehicleSim) : bool :=
  fgt (fmul (distToTargetDeg v) metresPerDegree) (Max (of_Z 8) (fmul (speedMps v) dt)).

(** Gliding to the entry point of the orbit, climbing and accelerating. *)
Definition climb (dt : f64) (v : VehicleSim) : f64 * VehicleSim :=
  let targetAlt := positive_or (cruiseAlt v) (of_Z 100) in
  let climbRate := of_Z 10 in
  if flt (currentAlt v) targetAlt then
    (climbRate, v{{currentAlt := roundFloat (Min targetAlt (fadd (currentAlt v) (fmul climbRate dt))) 1}})
  else (fzero, v).

Definition accelerate (dt : f64) (v : VehicleSim) : VehicleSim :=
  let targetSpeed := positive_or (cruiseSpeed v) (lit 145 1) in
  if flt (speedMps v) targetSpeed then
    v{{speedMps := roundFloat (Min targetSpeed (fadd (speedMps v) (fmul (of_Z 4) dt))) 2}}
  else v.

Definition glide (dt : f64) (v0 : VehicleSim) : TelemetryPayload * VehicleSim :=
  let bearing := Atan2 (fsub (targetLon v0) (currentLon v0)) (fsub (targetLat v0) (currentLat v0)) in
  let v := v0{{headingDeg := heading_of bearing}} in
  let '(vz, v) := climb dt v in
  let v := accelerate dt v in
  let stepDeg := fdiv (fmul (speedMps v) dt) metresPerDegree in
  let v := advance bearing stepDeg (distToTargetDeg v0) (targetLat v0) (targetLon v0) v in
  let v := if fge stepDeg (distToTargetDeg v0) then v{{flightAngle := angleFromCenter v0}} else v in
  let v := v{{batteryPct := drained (lit 4 2) dt (batteryPct v)}} in
  (telemetry (if flt (currentAlt v) (of_Z 20) then "TAKEOFF" else "TRANSIT")
     (mkCoordinates (currentLat v) (currentLon v) (roundFloat (currentAlt v) 1))
     (mkVelocity (roundFloat (fmul (speedMps v) (Sin bearing)) 2)
                 (roundFloat (fmul (speedMps v) (Cos bearing)) 2) (roundFloat vz 2) (roundFloat (speedMps v) 2))
     (headingDeg v) (recon_payload v) v, v).

(** Circling. *)
Definition angularSpeed (v : VehicleSim) : f64 :=
  let orbitRadiusM := fmul (orbitRadius v) metresPerDegree in
  if fgt orbitRadiusM fzero && fgt (speedMps v) fzero then fdiv (speedMps v) orbitRadiusM else lit 8 2.

Definition wrap_angle (a : f64) : f64 :=
  let a := if fgt a two_pi then Mod a two_pi else a in
  if flt a fzero then fadd a two_pi else a.

Definition circle (dt : f64) (v : VehicleSim) : TelemetryPayload * VehicleSim :=
  let v := v{{flightAngle := wrap_angle (fadd (angleFromCenter v) (fmul (angularSpeed v) dt))}} in
  let v := v{{currentLat := roundFloat (fadd (centerLat v) (fmul (orbitRadius v) (Sin (flightAngle v)))) 6;
              currentLon := roundFloat (fadd (centerLon v) (fmul (orbitRadius v) (Cos (flightAngle v)))) 6}} in
  let tangent := Atan2 (fneg (Sin (flightAngle v))) (Cos (flightAngle v)) in
  let v := v{{headingDeg := heading_of tangent; batteryPct := drained (lit 4 2) dt (batteryPct v)}} in
  let alt := roundFloat (fadd (currentAlt v) (fmul (of_Z 5) (Sin (fmul (flightAngle v) (of_Z 2))))) 2 in
  (telemetry (state v) (mkCoordinates (currentLat v) (currentLon v) alt)
     (mkVelocity (roundFloat (fmul (speedMps v) (Sin tangent)) 2)
                 (roundFloat (fmul (speedMps v) (Cos tangent)) 2) fzero (roundFloat (speedMps v) 2))
     (headingDeg v) (recon_payload v) v, v).

Definition patrol (dt : f64) (v : VehicleSim) : TelemetryPayload * VehicleSim :=
  if displaced dt v then glide dt v else circle dt v.

(** ** The other states *)
Definition hover (dt : f64) (v : VehicleSim) : TelemetryPayload * VehicleSim :=
  let v := v{{batteryPct := drained (lit 2 2) dt (batteryPct v)}} in
  (telemetry "HOVER" (mkCoordinates (currentLat v) (currentLon v) (roundFloat (currentAlt v) 1))
     at_rest (headingDeg v) None v, v).

(** The distance to the base: the differences, in degrees and in metres. *)
Definition base_dLat (v : VehicleSim) : f64 := fsub (baseLat v) (currentLat v).
Definition base_dLon (v : VehicleSim) : f64 := fsub (baseLon v) (currentLon v).
Definition base_deg (v : VehicleSim) : f64 := hypotenuse (base_dLat v) (base_dLon v).
Definition base_metres (v : VehicleSim) : f64 := fmul (base_deg v) metresPerDegree.

Definition homing (dt : f64) (v0 : VehicleSim) : TelemetryPayload * VehicleSim :=
  let distM := base_metres v0 in
  let bearing := Atan2 (base_dLon v0) (base_dLat v0) in
  let v := v0{{headingDeg := heading_of bearing}} in
  let stepDeg := fdiv (fmul (speedMps v) dt) metresPerDegree in
  let v := advance bearing stepDeg (base_deg v0) (baseLat v0) (baseLon v0) v in
  let v := if flt distM (of_Z 200) && fgt (currentAlt v) (of_Z 15)
           then v{{currentAlt := Max (of_Z 15) (fsub (currentAlt v) (fmul (of_Z 6) dt))}} else v in
  (telemetry "RTB" (mkCoordinates (currentLat v) (currentLon v) (roundFloat (currentAlt v) 1))
     (mkVelocity (roundFloat (fmul (speedMps v) (Sin bearing)) 2)
                 (roundFloat (fmul (speedMps v) (Cos bearing)) 2) (of_Z (-1)) (roundFloat (speedMps v) 1))
     (headingDeg v) None v, v).

Definition touchdown (dt : f64) (v : VehicleSim) : TelemetryPayload * VehicleSim :=
  let v := v{{speedMps := fzero; currentAlt := Max fzero (fsub (currentAlt v) (fmul (of_Z 10) dt))}} in
  let v := if fle (currentAlt v) (of_Z 5)
           then v{{state := "LANDED"; currentAlt := fzero; currentLat := baseLat v; currentLon := baseLon v}}
           else v in
  (telemetry (state v) (mkCoordinates (baseLat v) (baseLon v) (roundFloat (currentAlt v) 1))
     (mkVelocity fzero fzero (of_Z (-2)) fzero) (headingDeg v) None v, v).

Definition return_to_base (dt : f64) (v : VehicleSim) : TelemetryPayload * VehicleSim :=
  let v' := v{{batteryPct := drained (lit 3 2) dt (batteryPct v)}} in
  if fgt (base_metres v) (of_Z 10) then homing dt v' else touchdown dt v'.

Definition landed (v : VehicleSim) : TelemetryPayload * VehicleSim :=
  let v := v{{currentAlt := fzero; speedMps := fzero}} in
  (telemetry "LANDED" (mkCoordinates (currentLat v) (currentLon v) fzero) at_rest (headingDeg v) None v, v).

Definition unknown_state (v : VehicleSim) : TelemetryPayload * VehicleSim :=
  (mkTelemetry (id v) (vehicleType v) (team v) (state v)
     (fdiv (Round (fmul (batteryPct v) (of_Z 10))) (of_Z 10))
     (mkCoordinates (currentLat v) (currentLon v) fzero) at_rest fzero None (sequence v), v).

Definition Step (dt : f64) (v : VehicleSim) : TelemetryPayload * VehicleSim :=
  let v := v{{sequence := u64 (sequence v + 1)}} in
  if String.eqb (state v) "AIRBORNE" || String.eqb (state v) "PATROL" then patrol dt v
  else if String.eqb (state v) "HOVER" then hover dt v
  else if String.eqb (state v) "RTB" then return_to_base dt v
  else if String.eqb (state v) "LANDED" then landed v
  else unknown_state v.

(** * Commands *)
Section Commands.
Context `{U : Unicode}.

Definition callsign (s : string) : string := TrimPrefix (TrimPrefix (ToLower s) "blue-") "red-".

(** The check of the target: an empty target addresses everyone. *)
Definition addressed (target : string) (v : VehicleSim) : bool :=
  is_empty target || EqualFold target (id v) || String.eqb (callsign target) (callsign (id v)).

Definition execute (commandType : string) (v : VehicleSim) : VehicleSim :=
  if String.eqb commandType "RETURN_TO_BASE" then v{{state := "RTB"; speedMps := lit 145 1}}
  else if String.eqb commandType "HOVER" then v{{state := "HOVER"; speedMps := fzero}}
  else if String.eqb commandType "PATROL" then
    let v := v{{state := "PATROL"; cruiseSpeed := positive_or (cruiseSpeed v) (lit 145 1)}} in
    if fle (currentAlt v) (of_Z 5) || fle (speedMps v) fzero then v{{speedMps := fzero}}
    else v{{speedMps := cruiseSpeed v}}
  else if String.eqb commandType "ARM" then
    if String.eqb (state v) "LANDED"
    then v{{state := "AIRBORNE"; currentAlt := of_Z 100; speedMps := lit 145 1}} else v
  else if String.eqb commandType "DISARM" then
    v{{state := "LANDED"; currentAlt := fzero; speedMps := fzero}}
  else if String.eqb commandType "TOGGLE_EW" then v{{ewActive := negb (ewActive v)}}
  else v.

Definition HandleCommand (cmd : CommandPayload) (v : VehicleSim) : VehicleSim :=
  if addressed (TargetVehicle cmd) v then execute (CommandType cmd) v else v.
End Commands.

(** * Sessions of a vehicle *)
Inductive sim_event :=
| Stepped (dt : f64)
| Commanded (cmd : CommandPayload)
| Rebased (lat lon : f64).

Section Sessions.
Context `{U : Unicode}.

Definition sim_step (e : sim_event) (v : VehicleSim) : VehicleSim :=
  match e with
  | Stepped dt => (Step dt v).2
  | Commanded cmd => HandleCommand cmd v
  | Rebased lat lon => SetBase lat lon v
  end.
Definition sim_run (es : list sim_event) (v : VehicleSim) : VehicleSim := fold_left (fun v e => sim_step e v) es v.

Lemma sim_run_invariant (P : VehicleSim -> Prop) (ok : sim_event -> bool) es v :
  (forall e v, ok e = true -> P v -> P (sim_step e v)) -> forallb ok es = true -> P v -> P (sim_run es v).
Proof.
  intros Hstep. revert v. induction es as [|e es IH]; intros v H Hv; [done|].
  cbn in H. apply andb_prop in H as [H1 H2]. apply IH; [done|]. by apply Hstep.
Qed.
End Sessions.

Definition states : list string := ["AIRBORNE"; "PATROL"; "HOVER"; "RTB"; "LANDED"].
Definition reported_states : list string := (states ++ ["TAKEOFF"; "TRANSIT"])%list.

(** What no step and no command changes. *)
Definition sim_identity (v : VehicleSim) :=
  (id v, vehicleType v, team v, originNode v, centerLat v, centerLon v, cruiseAlt v, orbitRadius v).

Record sim_ok (v : VehicleSim) : Prop := {
  ok_state : state v ∈ states;
  ok_landed : state v = "LANDED" -> currentAlt v = fzero /\ speedMps v = fzero;
}.

(** The step of each state. *)
Lemma Step_cases dt v :
  let v1 := v{{sequence := u64 (sequence v + 1)}} in
  state v ∈ states ->
  (state v = "AIRBORNE" \/ state v = "PATROL") /\ Step dt v = patrol dt v1 \/
  state v = "HOVER" /\ Step dt v = hover dt v1 \/
  state v = "RTB" /\ Step dt v = return_to_base dt v1 \/
  state v = "LANDED" /\ Step dt v = landed v1.
Proof.
  intros v1 H. unfold Step. change (state v{{sequence := u64 (sequence v + 1)}}) with (state v). fold v1.
  unfold states in H. rewrite !elem_of_cons, elem_of_nil in H.
  destruct H as [E|[E|[E|[E|[E|[]]]]]]; rewrite E; cbn; auto 10.
Qed.

(** What moving and climbing leave alone. *)
Definition steady (v : VehicleSim) :=
  (sim_identity v, sequence v, (baseLat v, baseLon v), ewActive v, state v, batteryPct v).

Lemma advance_steady b s d la lo v : steady (advance b s d la lo v) = steady v.
Proof. unfold advance. by destruct (fge s d). Qed.
Lemma climb_steady dt v : steady (climb dt v).2 = steady v.
Proof. unfold climb. by destruct (flt _ _). Qed.
Lemma accelerate_steady dt v : steady (accelerate dt v) = steady v.
Proof. unfold accelerate. by destruct (flt _ _). Qed.

Lemma glide_steady dt v :
  let r := glide dt v in
  steady r.2 = steady v{{batteryPct := drained (lit 4 2) dt (batteryPct v)}} /\
  BatteryPct r.1 = batteryPct r.2 /\ State r.1 ∈ ["TAKEOFF"; "TRANSIT"] /\
  VehicleID r.1 = id v /\ VehicleType r.1 = vehicleType v /\ Team r.1 = team v /\ Sequence r.1 = sequence v.
Proof.
  unfold glide. set (b := Atan2 _ _). set (v1 := v{{headingDeg := heading_of b}}).
  pose proof (climb_steady dt v1) as H1. destruct (climb dt v1) as [vz v2]. cbn [snd] in H1.
  pose proof (accelerate_steady dt v2) as H2. set (v3 := accelerate dt v2) in *.
  set (s := fdiv (fmul (speedMps v3) dt) metresPerDegree).
  pose proof (advance_steady b s (distToTargetDeg v) (targetLat v) (targetLon v) v3) as H3.
  set (v4 := advance _ _ _ _ _ v3) in *. clearbody v4.
  set (v5 := if fge s (distToTargetDeg v) then v4{{flightAngle := angleFromCenter v}} else v4).
  assert (forall c : bool, steady (if c then v4{{flightAngle := angleFromCenter v}} else v4) = steady v4) as H4
    by by intros [].
  assert (steady v5 = steady v) as H5.
  { unfold v5. rewrite H4, H3, H2, H1. reflexivity. }
  clearbody v5. clear -H5. destruct v5, v. unfold steady, sim_identity in *. cbn -[drained lit] in *. simplify_eq.
  split_and!; try done. destruct (flt _ _); rewrite !elem_of_cons; auto.
Qed.

Lemma circle_steady dt v :
  let r := circle dt v in
  steady r.2 = steady v{{batteryPct := drained (lit 4 2) dt (batteryPct v)}} /\
  BatteryPct r.1 = batteryPct r.2 /\ State r.1 = state v /\
  VehicleID r.1 = id v /\ VehicleType r.1 = vehicleType v /\ Team r.1 = team v /\ Sequence r.1 = sequence v /\
  speedMps r.2 = speedMps v /\ SpeedMps (Vel r.1) = roundFloat (speedMps v) 2.
Proof. done. Qed.

Lemma homing_steady dt v :
  let r := homing dt v in
  steady r.2 = steady v /\ BatteryPct r.1 = batteryPct r.2 /\ State r.1 = "RTB" /\
  VehicleID r.1 = id v /\ VehicleType r.1 = vehicleType v /\ Team r.1 = team v /\ Sequence r.1 = sequence v.
Proof.
  unfold homing. set (b := Atan2 _ _). set (v1 := v{{headingDeg := heading_of b}}).
  set (s := fdiv (fmul (speedMps v1) dt) metresPerDegree).
  pose proof (advance_steady b s (base_deg v) (baseLat v) (baseLon v) v1) as H2.
  set (v2 := advance _ _ _ _ _ v1) in *. clearbody v2.
  match goal with |- context [if ?c then ?w else v2] => set (v3 := if c then w else v2) end.
  assert (steady v3 = steady v) as H3.
  { transitivity (steady v2); [unfold v3; by destruct (_ && _)|]. by rewrite H2. }
  clearbody v3. clear -H3. destruct v3, v. unfold steady, sim_identity in *. cbn -[drained lit] in *. by simplify_eq.
Qed.

(** The drain of each state. *)
Definition drain_rate (state : string) : option f64 :=
  if String.eqb state "AIRBORNE" || String.eqb state "PATROL" then Some (lit 4 2)
  else if String.eqb state "HOVER" then Some (lit 2 2)
  else if String.eqb state "RTB" then Some (lit 3 2) else None.
Definition drain (dt : f64) (v : VehicleSim) : f64 :=
  match drain_rate (state v) with Some r => drained r dt (batteryPct v) | None => batteryPct v end.

(** The state machine of a step: what it keeps, where it leads, what it reports. *)
Record stepped (dt : f64) (v : VehicleSim) (t : TelemetryPayload) (v' : VehicleSim) : Prop := {
  st_identity : sim_identity v' = sim_identity v;
  st_sequence : sequence v' = u64 (sequence v + 1);
  st_ew : ewActive v' = ewActive v;
  st_base : baseLat v' = baseLat v /\ baseLon v' = baseLon v;
  st_battery : batteryPct v' = drain dt v /\ BatteryPct t = drain dt v;
  st_state : state v' = state v /\ State t ∈ reported_states \/
    state v = "RTB" /\ state v' = "LANDED" /\ State t = "LANDED";
  st_landed : state v' = "LANDED" -> currentAlt v' = fzero /\ speedMps v' = fzero;
  st_reported : VehicleID t = id v /\ VehicleType t = vehicleType v /\ Team t = team v /\
    Sequence t = sequence v';
}.

Lemma touchdown_stepped dt v :
  state v = "RTB" ->
  let r := touchdown dt v in
  sim_identity r.2 = sim_identity v /\ sequence r.2 = sequence v /\ ewActive r.2 = ewActive v /\
  baseLat r.2 = baseLat v /\ baseLon r.2 = baseLon v /\ batteryPct r.2 = batteryPct v /\
  BatteryPct r.1 = batteryPct v /\ State r.1 = state r.2 /\
  (state r.2 = "RTB" \/
   state r.2 = "LANDED" /\ currentAlt r.2 = fzero /\ speedMps r.2 = fzero /\
   currentLat r.2 = baseLat v /\ currentLon r.2 = baseLon v) /\
  VehicleID r.1 = id v /\ VehicleType r.1 = vehicleType v /\ Team r.1 = team v /\ Sequence r.1 = sequence v.
Proof.
  intros Hs. unfold touchdown. set (alt := Max fzero _). clearbody alt.
  change (currentAlt v{{speedMps := fzero; currentAlt := alt}}) with alt.
  destruct (fle alt (of_Z 5)); destruct v; cbn in *; subst; auto 20.
Qed.

Lemma stepped_flying dt v t v' :
  state v ∈ states -> state v <> "LANDED" ->
  steady v' = steady v{{sequence := u64 (sequence v + 1); batteryPct := drain dt v}} ->
  BatteryPct t = batteryPct v' -> State t ∈ reported_states ->
  VehicleID t = id v /\ VehicleType t = vehicleType v /\ Team t = team v /\ Sequence t = u64 (sequence v + 1) ->
  stepped dt v t v'.
Proof.
  intros Hst Hn Hs Hb Hr (H1 & H2 & H3 & H4). destruct v', v. unfold steady, sim_identity in Hs.
  cbn -[drain wrapU] in *. simplify_eq. constructor; cbn -[drain wrapU]; auto. by split.
Qed.

Lemma state_reported v : state v ∈ states -> state v ∈ reported_states.
Proof. intros H. unfold reported_states. apply elem_of_app. by left. Qed.

Lemma drain_rate_of dt v r : drain_rate (state v) = Some r -> drain dt v = drained r dt (batteryPct v).
Proof. intros H. unfold drain. by rewrite H. Qed.

Lemma Step_stepped dt v : sim_ok v -> stepped dt v (Step dt v).1 (Step dt v).2.
Proof.
  intros [Hst Hl]. set (v1 := v{{sequence := u64 (sequence v + 1)}}).
  destruct (Step_cases dt v Hst) as [[Hs ->]|[[Hs ->]|[[Hs ->]|[Hs ->]]]]; fold v1.
  - assert (drain_rate (state v) = Some (lit 4 2)) as Hd%(drain_rate_of dt) by (by destruct Hs as [-> | ->]).
    assert (state v <> "LANDED") as Hn by (by destruct Hs as [-> | ->]).
    unfold patrol. destruct (displaced dt v1).
    + destruct (glide_steady dt v1) as (E1 & E2 & E3 & E4). apply stepped_flying; try done.
      * by rewrite E1, Hd.
      * unfold reported_states. apply elem_of_app. by right.
    + apply stepped_flying; try done; [by rewrite Hd|]. by apply state_reported.
  - assert (drain_rate (state v) = Some (lit 2 2)) as Hd%(drain_rate_of dt) by (by rewrite Hs).
    apply stepped_flying; try done; [by rewrite Hs|by rewrite Hd|].
    change ("HOVER" ∈ reported_states). rewrite <- Hs. by apply state_reported.
  - assert (drain_rate (state v) = Some (lit 3 2)) as Hd%(drain_rate_of dt) by (by rewrite Hs).
    unfold return_to_base. set (v2 := v1{{batteryPct := drained (lit 3 2) dt (batteryPct v1)}}).
    destruct (fgt (base_metres v1) (of_Z 10)).
    + destruct (homing_steady dt v2) as (E1 & E2 & E3 & E4). apply stepped_flying; try done; [by rewrite Hs| |].
      * by rewrite E1, Hd.
      * rewrite E3, <- Hs. by apply state_reported.
    + destruct (touchdown_stepped dt v2 Hs) as (E1 & E2 & E3 & E4 & E5 & E6 & E7 & E8 & E9 & E10 & E11 & E12 & E13).
      constructor; rewrite ?E1, ?E2, ?E3, ?E4, ?E5, ?E6, ?E7, ?E8, ?Hd; try done.
      * destruct E9 as [E9|(E9 & _)]; rewrite E9; [left|by right].
        split; [done|]. rewrite <- Hs. by apply state_reported.
      * intros E. destruct E9 as [E9|(_ & ? & ? & _)]; [by rewrite E9 in E|done].
  - assert (drain dt v = batteryPct v) as Hd by (unfold drain; by rewrite Hs).
    constructor; try done. left. split; [done|].
    change ("LANDED" ∈ reported_states). rewrite <- Hs. by apply state_reported.
Qed.

Lemma Step_ok dt v : sim_ok v -> sim_ok (Step dt v).2.
Proof.
  intros H. pose proof (Step_stepped dt v H) as []. destruct H as [Hst Hl].
  constructor; [|done]. destruct st_state0 as [[-> _]|(_ & -> & _)]; [done|].
  unfold states. rewrite !elem_of_cons. auto 10.
Qed.

Section Facts.
Context `{U : Unicode} `{UL : !UnicodeLaws U}.
Implicit Types (es : list sim_event).

(** ** Commands *)
Lemma execute_keeps ct v :
  let v' := execute ct v in
  sim_identity v' = sim_identity v /\ sequence v' = sequence v /\ batteryPct v' = batteryPct v /\
  currentLat v' = currentLat v /\ currentLon v' = currentLon v /\
  baseLat v' = baseLat v /\ baseLon v' = baseLon v.
Proof.
  unfold execute. repeat (destruct (String.eqb _ _); [try done|]); try done.
  by destruct (_ || _).
Qed.

Lemma execute_ok ct v : sim_ok v -> sim_ok (execute ct v).
Proof.
  intros H. pose proof H as [Hs Hl]. unfold execute.
  assert (forall w s, state w = s -> s ∈ states -> (s = "LANDED" -> currentAlt w = fzero /\ speedMps w = fzero) ->
    sim_ok w) as Hok by (intros w s <-; by constructor).
  unfold states in Hok at 1. repeat setoid_rewrite elem_of_cons in Hok.
  destruct (String.eqb ct "RETURN_TO_BASE"); [by apply (Hok _ "RTB"); auto|].
  destruct (String.eqb ct "HOVER"); [by apply (Hok _ "HOVER"); auto|].
  destruct (String.eqb ct "PATROL"); [destruct (_ || _); by apply (Hok _ "PATROL"); auto|].
  destruct (String.eqb ct "ARM"); [destruct (String.eqb _ _); [by apply (Hok _ "AIRBORNE"); auto 10|done]|].
  destruct (String.eqb ct "DISARM"); [by apply (Hok _ "LANDED"); auto 10|].
  destruct (String.eqb ct "TOGGLE_EW"); done.
Qed.

Lemma sim_step_ok e v : sim_ok v -> sim_ok (sim_step e v).
Proof.
  intros H. destruct e as [dt|cmd|lat lon]; cbn [sim_step].
  - by apply Step_ok.
  - unfold HandleCommand. destruct (addressed _ _); [by apply execute_ok|done].
  - destruct H as [H1 H2]. by constructor.
Qed.

Lemma NewVehicleSim_ok i vt tm lat lon alt radius speed : sim_ok (NewVehicleSim i vt tm lat lon alt radius speed).
Proof. constructor; [|done]. unfold states. rewrite !elem_of_cons. auto. Qed.

Definition is_step (e : sim_event) : bool := match e with Stepped _ => true | _ => false end.
Definition steps (es : list sim_event) : Z := Z.of_nat (length (List.filter is_step es)).

Lemma sim_step_keeps e v : sim_ok v ->
  sim_identity (sim_step e v) = sim_identity v /\
  u64 (sequence (sim_step e v)) = u64 (sequence v + if is_step e then 1 else 0).
Proof.
  intros H. destruct e as [dt|cmd|lat lon]; cbn [sim_step is_step].
  - pose proof (Step_stepped dt v H) as []. rewrite st_sequence0. split; [done|]. unfold wrapU. by rewrite Z.mod_mod.
  - unfold HandleCommand. rewrite Z.add_0_r. destruct (addressed _ _); [|done].
    destruct (execute_keeps (CommandType cmd) v) as (-> & -> & _). done.
  - by rewrite Z.add_0_r.
Qed.

Lemma sim_run_keeps es v : sim_ok v ->
  sim_ok (sim_run es v) /\ sim_identity (sim_run es v) = sim_identity v /\
  u64 (sequence (sim_run es v)) = u64 (sequence v + steps es).
Proof.
  revert v. induction es as [|e es IH]; intros v H.
  { split_and!; [done..|]. unfold steps. cbn -[wrapU]. by rewrite Z.add_0_r. }
  destruct (sim_step_keeps e v H) as [H1 H2].
  destruct (IH (sim_step e v) (sim_step_ok e v H)) as (E1 & E2 & E3).
  change (sim_run (e :: es) v) with (sim_run es (sim_step e v)).
  split_and!; [done|by rewrite E2|]. rewrite E3. unfold wrapU in *.
  rewrite <- Z.add_mod_idemp_l, H2, Z.add_mod_idemp_l by lia. f_equal.
  unfold steps. cbn [List.filter]. destruct (is_step e); cbn [length]; lia.
Qed.

(** C31. The flight invariant. Whatever steps (of any length), commands and base
    changes happen, a vehicle stays in one of its five states, on the ground it has
    no altitude and no speed and a step keeps it there, its identity never changes,
    and every report carries that identity, a known state and the number of steps
    taken. *)
Theorem flight_invariant i vt tm lat lon alt radius speed es dt :
  let v := sim_run es (NewVehicleSim i vt tm lat lon alt radius speed) in
  let '(t, v') := Step dt v in
  state v ∈ states /\
  (state v = "LANDED" -> currentAlt v = fzero /\ speedMps v = fzero /\ state v' = "LANDED") /\
  State t ∈ reported_states /\
  VehicleID t = i /\ VehicleType t = vt /\ Team t = tm /\ Sequence t = u64 (steps es + 1).
Proof.
  intros v. destruct (sim_run_keeps es _ (NewVehicleSim_ok i vt tm lat lon alt radius speed)) as (Hok & Hid & Hseq).
  fold v in Hok, Hid, Hseq. pose proof (Step_stepped dt v Hok) as [].
  destruct (Step dt v) as [t v']. cbn [fst snd] in *. destruct Hok as [Hs Hl].
  injection Hid as E1 E2 E3 _ _ _ _ _. destruct st_reported0 as (-> & -> & -> & ->).
  split_and!; try done.
  - intros E. destruct (Hl E). split_and!; [done..|].
    destruct st_state0 as [[-> _]|(E' & _)]; [done|by rewrite E in E'].
  - destruct st_state0 as [[_ H]|(_ & _ & ->)]; [done|].
    unfold reported_states, states. apply elem_of_app. left. rewrite !elem_of_cons. auto 10.
  - rewrite st_sequence0. unfold wrapU in *. rewrite <- Z.add_mod_idemp_l, Hseq, Z.add_mod_idemp_l by lia. done.
Qed.

(** ** The battery *)
Definition one_second (e : sim_event) : bool :=
  match e with Stepped dt => bool_decide (dt = of_Z 1) | _ => true end.

Lemma drain_one_second s : match drain_rate s with Some r => drained r (of_Z 1) (lit 985 1) | None => lit 985 1 end = lit 985 1.
Proof.
  unfold drain_rate. destruct (_ || _); [by vm_compute|].
  destruct (String.eqb s "HOVER"); [by vm_compute|]. destruct (String.eqb s "RTB"); by vm_compute.
Qed.

(** At the default rate of one report per second the battery never drains: each
    drain is below the rounding of the level to one decimal, so after any session
    of one-second steps the vehicle still reports 98.5%. *)
Theorem battery_never_drains i vt tm lat lon alt radius speed es :
  forallb one_second es = true ->
  let v := sim_run es (NewVehicleSim i vt tm lat lon alt radius speed) in
  BatteryPct (Step (of_Z 1) v).1 = lit 985 1.
Proof.
  intros Hes v. assert (sim_ok v /\ batteryPct v = lit 985 1) as [Hok Hb].
  { apply (sim_run_invariant (fun v => sim_ok v /\ batteryPct v = lit 985 1) one_second); [|done|].
    - intros e w He [Hw Hbw]. split; [by apply sim_step_ok|]. destruct e as [dt|cmd|la lo]; cbn [sim_step].
      + apply bool_decide_eq_true in He as ->. pose proof (Step_stepped (of_Z 1) w Hw) as [].
        destruct st_battery0 as [-> _]. unfold drain. rewrite Hbw. apply drain_one_second.
      + unfold HandleCommand. destruct (addressed _ _); [|done].
        destruct (execute_keeps (CommandType cmd) w) as (_ & _ & -> & _). done.
      + done.
    - split; [apply NewVehicleSim_ok|done]. }
  pose proof (Step_stepped (of_Z 1) v Hok) as []. destruct st_battery0 as [_ ->].
  unfold drain. rewrite Hb. apply drain_one_second.
Qed.
End Facts.

Section Targets.
Context `{U : Unicode} `{UL : !UnicodeLaws U}.

Lemma EqualFold_callsign s t :
  str_forall is_ascii s = true -> str_forall is_ascii t = true -> EqualFold s t = true -> callsign s = callsign t.
Proof.
  intros Hs Ht H. apply EqualFold_ascii in H; [|done..]. unfold callsign. by rewrite !ToLower_ascii, H.
Qed.

Lemma callsign_red s : str_forall is_ascii s = true -> callsign ("red-" +:+ s) = ToLower s.
Proof.
  intros Hs. unfold callsign. rewrite ToLower_ascii, ToLower_ascii by done. cbn [str_map append].
  change (String (lower_ascii "r") (String (lower_ascii "e") (String (lower_ascii "d")
    (String (lower_ascii "-") (str_map lower_ascii s))))) with ("red-" +:+ str_map lower_ascii s).
  by apply (TrimPrefix_app "red-").
Qed.

Lemma callsign_blue s : str_forall is_ascii s = true ->
  callsign ("blue-" +:+ s) = TrimPrefix (ToLower s) "red-".
Proof.
  intros Hs. unfold callsign. rewrite !ToLower_ascii by done.
  change (str_map lower_ascii ("blue-" +:+ s)) with ("blue-" +:+ str_map lower_ascii s).
  by rewrite (TrimPrefix_app "blue-").
Qed.

Lemma callsign_blue_red s : str_forall is_ascii s = true -> callsign ("blue-" +:+ ("red-" +:+ s)) = ToLower s.
Proof.
  intros Hs. rewrite callsign_blue by done. rewrite (ToLower_ascii s), ToLower_ascii by done.
  change (str_map lower_ascii ("red-" +:+ s)) with ("red-" +:+ str_map lower_ascii s).
  by rewrite (TrimPrefix_app "red-").
Qed.

(** C34. Whom a command moves. For ASCII names a vehicle executes a command exactly
    when the target is empty or has the same callsign: the name in lower case, less a
    leading blue- if there is one and then less a leading red- if there is one. So,
    when x does not itself begin with red- (in any case), the drone blue-x obeys
    commands for red-x; and whatever x is, the vehicle red-x obeys commands for
    blue-red-x. *)
Theorem HandleCommand_target cmd v :
  str_forall is_ascii (TargetVehicle cmd) = true -> str_forall is_ascii (id v) = true ->
  HandleCommand cmd v =
    (if is_empty (TargetVehicle cmd) || String.eqb (callsign (TargetVehicle cmd)) (callsign (id v))
     then execute (CommandType cmd) v else v) /\
  (forall x, id v = "blue-" +:+ x -> TargetVehicle cmd = "red-" +:+ x ->
    HasPrefix (ToLower x) "red-" = false -> HandleCommand cmd v = execute (CommandType cmd) v) /\
  (forall x, id v = "red-" +:+ x -> TargetVehicle cmd = "blue-red-" +:+ x ->
    HandleCommand cmd v = execute (CommandType cmd) v).
Proof.
  intros Ht Hv. assert (HandleCommand cmd v =
    (if is_empty (TargetVehicle cmd) || String.eqb (callsign (TargetVehicle cmd)) (callsign (id v))
     then execute (CommandType cmd) v else v)) as E.
  { unfold HandleCommand, addressed. destruct (is_empty _); [done|]. cbn [orb].
    destruct (EqualFold _ _) eqn:Ef; [|done]. apply EqualFold_callsign in Ef; [|done..].
    by rewrite Ef, String.eqb_refl. }
  split; [done|]. split; intros x Hid Htg; [intros Hp|]; rewrite E, Hid, Htg; rewrite Hid in Hv;
    assert (str_forall is_ascii x = true) as Hx by exact Hv.
  - rewrite callsign_red, callsign_blue by done. unfold TrimPrefix. rewrite Hp.
    by rewrite String.eqb_refl, orb_true_r.
  - change ("blue-red-" +:+ x) with ("blue-" +:+ ("red-" +:+ x)).
    by rewrite callsign_blue_red, callsign_red, String.eqb_refl, orb_true_r by done.
Qed.
End Targets.

(** ** Resuming a patrol *)
Definition fly (dts : list f64) (v : VehicleSim) : VehicleSim := fold_left (fun v dt => (Step dt v).2) dts v.

(** The vehicle is on its orbit at each of the steps. *)
Fixpoint circling (dts : list f64) (v : VehicleSim) : bool :=
  match dts with
  | [] => true
  | dt :: dts => negb (displaced dt v) && circling dts (Step dt v).2
  end.

Lemma displaced_sequence n dt v : displaced dt v{{sequence := n}} = displaced dt v.
Proof.
  destruct v. cbv [displaced distToTargetDeg targetLat targetLon angleFromCenter apply_update constant
    centerLat centerLon currentLat currentLon orbitRadius speedMps]. reflexivity.
Qed.

Lemma Step_circling dt v :
  state v = "PATROL" -> displaced dt v = false ->
  Step dt v = circle dt v{{sequence := u64 (sequence v + 1)}}.
Proof.
  intros Hs Hd. unfold Step. change (state v{{sequence := u64 (sequence v + 1)}}) with (state v).
  rewrite Hs. cbn [String.eqb orb]. unfold patrol.
  by rewrite displaced_sequence, Hd.
Qed.

(** A patrol resumed from a hover circles while reporting that it stands still:
    hovering leaves the speed at zero, resuming keeps it there, and as long as the
    vehicle is on its orbit each step turns it at the fallback rate of 0.08 radians
    per second, whatever its cruise speed, and reports a speed of zero. *)
Theorem resumed_patrol_reports_no_speed dts dt v :
  let v0 := execute "PATROL" (execute "HOVER" v) in
  circling (dts ++ [dt]) v0 = true ->
  let vn := fly dts v0 in
  SpeedMps (Vel (Step dt vn).1) = fzero /\
  flightAngle (Step dt vn).2 = wrap_angle (fadd (angleFromCenter vn) (fmul (lit 8 2) dt)).
Proof.
  intros v0. assert (state v0 = "PATROL" /\ speedMps v0 = fzero) as H0.
  { unfold v0, execute. cbn. by destruct (fle _ _). }
  clearbody v0. revert v0 H0. induction dts as [|d dts IH]; intros v0 [Hs Hv] Hc; cbn [app circling] in Hc;
    apply andb_prop in Hc as [Hd Hc]; apply negb_true_iff in Hd.
  - cbn [fly fold_left]. rewrite Step_circling by done.
    destruct (circle_steady dt v0{{sequence := u64 (sequence v0 + 1)}}) as (_ & _ & _ & _ & _ & _ & _ & _ & E).
    split; [rewrite E; change (speedMps v0{{sequence := u64 (sequence v0 + 1)}}) with (speedMps v0); by rewrite Hv|].
    change (flightAngle (circle dt v0{{sequence := u64 (sequence v0 + 1)}}).2)
      with (wrap_angle (fadd (angleFromCenter v0) (fmul (angularSpeed v0) dt))).
    unfold angularSpeed. by rewrite Hv, andb_false_r.
  - change (fly (d :: dts) v0) with (fly dts (Step d v0).2). apply IH; [|done].
    rewrite Step_circling by done. by split.
Qed.

(** * Concrete flights *)
Module SimSamples.
Definition alpha : VehicleSim :=
  SetBase (lit 316120 4) (lit (-80850) 4)
    (NewVehicleSim "blue-alpha" "drone" "blue" (lit 316200 4) (lit (-80800) 4) (of_Z 100) (lit 6 3) (of_Z 13)).
Definition intruder : VehicleSim :=
  NewVehicleSim "red-Seven" "drone" "red" (lit 316200 4) (lit (-80800) 4) (of_Z 100) (lit 6 3) (of_Z 13).
Definition order (target type : string) : CommandPayload := mkCommand "cmd-1" target type None 1 "operator".
Definition morning : list sim_event :=
  [Stepped (of_Z 1); Commanded (order "" "HOVER"); Stepped (of_Z 1); Commanded (order "red-ALPHA" "RETURN_TO_BASE");
   Stepped (of_Z 1); Commanded (order "bravo" "DISARM"); Stepped (of_Z 1)].
End SimSamples.

(** The order that names another vehicle is ignored, the one for red-ALPHA is not. *)
Example morning_report :
  (let t := (Step (of_Z 1) (sim_run (U:=caseless) SimSamples.morning SimSamples.alpha)).1 in
   (State t, Sequence t, BatteryPct t)) = ("RTB", 5, lit 985 1).
Proof. by vm_compute. Qed.

Lemma battery_never_drains_witness :
  BatteryPct (Step (of_Z 1) (sim_run (U:=caseless) SimSamples.morning
    (NewVehicleSim "alpha" "drone" "blue" (lit 316200 4) (lit (-80800) 4) (of_Z 100) (lit 6 3) (of_Z 13)))).1 = lit 985 1.
Proof. apply (battery_never_drains (U:=caseless)). by vm_compute. Defined.

Lemma HandleCommand_target_witness :
  HandleCommand (U:=caseless) (SimSamples.order "red-alpha" "DISARM") SimSamples.alpha =
    execute "DISARM" SimSamples.alpha /\
  HandleCommand (U:=caseless) (SimSamples.order "blue-red-Seven" "DISARM") SimSamples.intruder =
    execute "DISARM" SimSamples.intruder.
Proof.
  assert (str_forall is_ascii (id SimSamples.alpha) = true) as Hid by reflexivity.
  assert (str_forall is_ascii (id SimSamples.intruder) = true) as Hir by reflexivity.
  destruct (@HandleCommand_target caseless (SimSamples.order "red-alpha" "DISARM") SimSamples.alpha eq_refl Hid)
    as (_ & H & _).
  destruct (@HandleCommand_target caseless (SimSamples.order "blue-red-Seven" "DISARM") SimSamples.intruder eq_refl Hir)
    as (_ & _ & H').
  split; [exact (H "alpha" eq_refl eq_refl eq_refl)|exact (H' "Seven" eq_refl eq_refl)].
Defined.

Lemma resumed_patrol_reports_no_speed_witness :
  SpeedMps (Vel (Step (of_Z 1) (fly [of_Z 1; of_Z 1] (execute "PATROL" (execute "HOVER" SimSamples.alpha)))).1) = fzero.
Proof.
  assert (circling ([of_Z 1; of_Z 1] ++ [of_Z 1])%list (execute "PATROL" (execute "HOVER" SimSamples.alpha)) = true) as H
    by (vm_compute; reflexivity).
  exact (proj1 (resumed_patrol_reports_no_speed [of_Z 1; of_Z 1] (of_Z 1) SimSamples.alpha H)).
Defined.
