(* ===== verification/EdgeAgent.v ===== *)
(** cmd/edge-agent/main.go, second part: the loop of a simulated drone, the MAVLink
    instance that relays commands to an autopilot, and the swarm. *)
From Stdlib Require Import Strings.Ascii Strings.String SpecFloat.
From coqutil Require Import Datatypes.RecordSetters.
From S2P Require Import Prelude GoTime Crc Messages Stream GoString Float64 Trig Json JsonFacts Topic Serial Bus Schema.
From S2P Require Import Decoded Guard Bridge Clients VehicleSim.
Import DoubleBraceUpdate.

Local Open Scope string_scope.
Local Open Scope Z_scope.
Local Open Scope go_scope.

(** * Commands from the bus *)
Section Handlers.
Context `{U : Unicode} `{JE : JsonErrors}.

(** The command in a message, for the subscriber of a topic. *)
Definition received_command (cmdTopic key payload : string) : option CommandPayload :=
  if negb (MatchesSelector cmdTopic key) then None else
  match ParseJSONEnvelope payload with
  | Err _ => None
  | Ok env => Command env
  end.

Definition sim_cmdTopic (v : VehicleSim) : string := BuildKey "tier2" (vehicleType v) (team v) (id v) "command".
Definition sim_telemTopic (v : VehicleSim) : string := BuildKey "tier2" (vehicleType v) (team v) (id v) "telemetry".

Definition command_handler (key payload : string) (v : VehicleSim) : VehicleSim :=
  match received_command (sim_cmdTopic v) key payload with
  | Some cmd => HandleCommand cmd v
  | None => v
  end.

(** * The loop of a drone *)

(** [time.Duration(x)] of a float: truncation, and the overflow value of the
    conversion instruction for what does not fit. *)
Definition to_int64 (x : f64) : Z :=
  match x with
  | S754_zero _ => 0
  | S754_finite s m e =>
    let t := if s then - trunc (S754_finite false m e) else trunc (S754_finite false m e) in
    if (- 2 ^ 63 <=? t) && (t <? 2 ^ 63) then t else - 2 ^ 63
  | _ => - 2 ^ 63
  end.

(** [time.NewTicker] panics unless the interval is positive: [None]. *)
Definition tick_interval (rateHz : f64) : option Z :=
  let d := to_int64 (fdiv (of_Z (10 ^ 9)) rateHz) in if 0 <? d then Some d else None.

Record Drone := mkDrone { sim : VehicleSim; count : Z }.

Definition tick_tier (emitTier3Periodic : bool) (count : Z) : string :=
  if emitTier3Periodic && (count mod 15 =? 0) then Tier3Critical else Tier2Restricted.

Definition tick_key (tier : string) (v : VehicleSim) : string :=
  if String.eqb tier Tier3Critical then BuildKey "tier3" (vehicleType v) (team v) (id v) "telemetry"
  else sim_telemTopic v.

(** The envelope of a tick and its text, when they can be built. *)
Definition tick_message (tier : string) (now1 now2 : Z) (telem : TelemetryPayload) (v : VehicleSim)
  : result string (SecurityEnvelope * string) :=
  let? env := NewTelemetryEnvelope tier (originNode v) telem [] now1 now2 in
  let? data := marshal_envelope env in Ok (env, data).

Definition drone_tick `{Bus B H} (emitTier3Periodic : bool) (dt : f64) (now1 now2 : Z) (d : Drone) (b : B)
  : Drone * B :=
  let count := count d + 1 in
  let '(telem, v) := Step dt (sim d) in
  let d := mkDrone v count in
  let tier := tick_tier emitTier3Periodic count in
  match tick_message tier now1 now2 telem v with
  | Err _ => (d, b)
  | Ok (env, data) => (d, (Publish (tick_key tier v) data b).2)
  end.

(** * The MAVLink instance *)

(** The call that a command of the operator becomes; the bits are those of the
    [float32] values 4 and 3. *)
Definition autopilot_call (commandType : string) : option call :=
  if String.eqb commandType "RETURN_TO_BASE" then Some return_to_launch
  else if String.eqb commandType "ARM" then Some (set_armed true)
  else if String.eqb commandType "DISARM" then Some (set_armed false)
  else if String.eqb commandType "HOVER" then Some (mkCall MavCmdDoSetMode 0x40800000 0x40400000 0 0 0 0 0)
  else None.

Definition relay `{AutopilotClient C} (w : option string) (cmdTopic key payload : string) (c : C)
  : list (list byte) * C :=
  match received_command cmdTopic key payload with
  | None => ([], c)
  | Some cmd =>
    match autopilot_call (CommandType cmd) with
    | Some a => let '(_, sent, c) := SendCommandLong w a c in (sent, c)
    | None => ([], c)
    end
  end.

(** The callback of the client publishes envelopes on the telemetry topic. *)
Definition telem_callback `{Bus B H} (telemTopic : string) (env : SecurityEnvelope) (b : B) : B :=
  match marshal_envelope env with
  | Err _ => b
  | Ok data => (Publish telemTopic data b).2
  end.
End Handlers.

(** One of two transports behind the interface. *)
#[export] Instance sum_autopilot {C D} `{AutopilotClient C} `{AutopilotClient D} : AutopilotClient (C + D) := {|
  link_seq c := match c with inl c => link_seq c | inr d => link_seq d end;
  ready c := match c with inl c => ready c | inr d => ready d end;
  SendCommandLong w a c :=
    match c with
    | inl c => let '(r, c) := SendCommandLong w a c in (r, inl c)
    | inr d => let '(r, d) := SendCommandLong w a d in (r, inr d)
    end;
|}.

#[export] Instance sum_laws {C D} `{AutopilotLaws C} `{AutopilotLaws D} : AutopilotLaws (C + D).
Proof.
  split.
  - intros w a [c|d]; cbn; [rewrite <- (send_seq w a c)|rewrite <- (send_seq w a d)];
      by destruct (SendCommandLong _ _ _).
  - intros w a [c|d] Hr; cbn in *;
      [destruct (send_ready w a c Hr) as (pkt & Hs)|destruct (send_ready w a d Hr) as (pkt & Hs)];
      exists pkt; by destruct (SendCommandLong _ _ _).
  - intros w a [c|d]; cbn; [rewrite <- (send_stays w a c)|rewrite <- (send_stays w a d)];
      by destruct (SendCommandLong _ _ _).
  - intros w a [c|d] Hr; cbn in *;
      [destruct (send_unready w a c Hr) as (e & He)|destruct (send_unready w a d Hr) as (e & He)];
      exists e; destruct (SendCommandLong _ _ _); by cbn in He; subst.
Qed.

(** Opening the transport that the flags ask for; a failure ends the instance. *)
Definition mavlink_connect {file A} (p : platform) (d : device file) (bytes : file -> source)
  (resolve : string -> result string A) (bind : A -> option string)
  (unitID team vType udpAddr serialPort : string) (baud : Z)
  : result string (SerialPort file * StreamClient + UDPClient A) :=
  let vState := NewVehicleState unitID team vType Tier2Restricted (zb 1) in
  if negb (is_empty serialPort) then
    let? sp := OpenSerialPort p d serialPort baud in
    Ok (inl (sp, NewStreamClient true (bytes (port_file sp)) vState true))
  else
    let? c := NewUDPClient resolve bind udpAddr vState true in Ok (inr c).

(** * The swarm *)
Definition affine (base step : f64) (i : Z) : f64 := fadd base (fmul (of_Z i) step).

Definition blueCallsigns : list string := ["alpha"; "bravo"; "charlie"; "delta"; "echo"; "foxtrot"; "golf"].

Definition blue_drone (i : nat) : VehicleSim :=
  let n := Z.of_nat i in
  let callsign := match blueCallsigns !! i with
                  | Some c => "blue-" +:+ c
                  | None => "blue-" +:+ dec (n + 1)
                  end in
  SetBase (affine (lit 316120 4) (lit 2 3) n) (fsub (lit (-80850) 4) (fmul (of_Z n) (lit 2 3)))
    (NewVehicleSim callsign "drone" "blue"
       (affine (lit 316200 4) (lit 6 3) n) (fsub (lit (-80800) 4) (fmul (of_Z n) (lit 5 3)))
       (affine (of_Z 100) (of_Z 15) n) (affine (lit 6 3) (lit 2 3) n) (affine (of_Z 13) (lit 12 1) n)).

Definition red_drone (i : nat) : VehicleSim :=
  let n := Z.of_nat i in
  SetBase (affine (lit 316450 4) (lit 2 3) n) (affine (lit (-79300) 4) (lit 2 3) n)
    (NewVehicleSim ("red-" +:+ dec (n + 1)) "drone" "red"
       (affine (lit 316450 4) (lit 6 3) n) (affine (lit (-79450) 4) (lit 5 3) n)
       (affine (of_Z 110) (of_Z 15) n) (affine (lit 7 3) (lit 2 3) n) (affine (of_Z 14) (lit 15 1) n)).

Definition swarm (blueCount redCount : nat) : list VehicleSim :=
  (map blue_drone (seq 0 blueCount) ++ map red_drone (seq 0 redCount))%list.

Definition single_drone (i vt tm : string) : VehicleSim :=
  NewVehicleSim i vt tm (lit 316300 4) (lit (-80500) 4) (of_Z 120) (lit 8 3) (lit 145 1).

(** * Facts *)
Section Facts.
Local Open Scope list_scope.
Context `{U : Unicode} `{UL : !UnicodeLaws U} `{JE : JsonErrors}.

Lemma tick_key_parses emit n v :
  Forall (fun p => key_part p = true) [vehicleType v; team v; id v] ->
  exists i, ParseKey (tick_key (tick_tier emit n) v) = Ok i /\
    KeyToTier !! TierKey i = Some (tick_tier emit n) /\
    UnitID i = ToLower (id v) /\ TopicTeam i = ToLower (team v) /\ StreamType i = "telemetry".
Proof.
  intros H. rewrite !Forall_cons in H. destruct H as (H1 & H2 & H3 & _).
  unfold tick_key, tick_tier, sim_telemTopic.
  destruct (emit && (n mod 15 =? 0)); cbn [String.eqb];
    (eexists; split; [apply parse_built_key; [by repeat constructor|done]|by split_and!]).
Qed.

Lemma tick_message_ok tier now1 now2 t v :
  valid_tier tier = true -> originNode v <> "" -> now2 <> 0 ->
  VehicleID t <> "" -> VehicleType t <> "" -> Team t <> "" ->
  physical t -> payload_map_ok (MissionPayload t) = true ->
  exists env data, tick_message tier now1 now2 t v = Ok (env, data) /\
    NewTelemetryEnvelope tier (originNode v) t [] now1 now2 = Ok env /\
    marshal_envelope env = Ok data /\ Telemetry env = Some (Normalize t) /\
    Classification (Header env) = tier /\ Validate (Some env) = (None, Some env).
Proof.
  intros Ht Ho Hn H1 H2 H3 Hp Hm.
  destruct (new_telemetry_envelope_ok tier (originNode v) t [] now1 now2) as (env & He & Htel & Hcmd & Hc & Hv); try done.
  assert (is_ok (marshal_envelope env) = true) as Hok.
  { apply marshal_envelope_ok. split; [|by rewrite Hcmd]. intros t'. rewrite Htel. intros [= <-].
    apply Normalize_marshals; [by destruct Hp|done]. }
  destruct (marshal_envelope env) as [data|] eqn:E; [|done].
  exists env, data. unfold tick_message. by rewrite He, E.
Qed.

(** What a drone publishes at each tick. On a working bus, when the report of the
    step is physical, the tick publishes exactly one message: an envelope that
    passes validation unchanged, carries the normalised report of that step, is
    classified TIER-3 exactly at every fifteenth tick of an emitting drone and
    TIER-2 otherwise, under a key that names the same tier, team and vehicle. *)
Theorem drone_tick_publishes `{BL : BusLog B} `{BA : !BusAlive B} emit dt now1 now2 d b :
  let '(t, v) := Step dt (sim d) in
  Forall (fun p => key_part p = true) [vehicleType v; team v; id v] ->
  originNode v <> "" -> now2 <> 0 -> VehicleID t <> "" -> VehicleType t <> "" -> Team t <> "" ->
  physical t -> payload_map_ok (MissionPayload t) = true -> alive b ->
  exists env data key i,
    (drone_tick emit dt now1 now2 d b).1 = mkDrone v (count d + 1) /\
    acked (drone_tick emit dt now1 now2 d b).2 = acked b ++ [(key, data)] /\
    marshal_envelope env = Ok data /\ Validate (Some env) = (None, Some env) /\
    Telemetry env = Some (Normalize t) /\
    Classification (Header env) =
      (if emit && ((count d + 1) mod 15 =? 0) then Tier3Critical else Tier2Restricted) /\
    ParseKey key = Ok i /\ KeyToTier !! TierKey i = Some (Classification (Header env)) /\
    UnitID i = ToLower (id v) /\ TopicTeam i = ToLower (team v) /\ StreamType i = "telemetry".
Proof.
  destruct (Step dt (sim d)) as [t v] eqn:Es. intros Hk Ho Hn H1 H2 H3 Hp Hm Hal.
  set (tier := tick_tier emit (count d + 1)).
  assert (valid_tier tier = true) as Ht by (unfold tier, tick_tier; by destruct (_ && _)).
  destruct (tick_message_ok tier now1 now2 t v Ht Ho Hn H1 H2 H3 Hp Hm) as (env & data & Hmsg & _ & Hd & Htel & Hc & Hv).
  destruct (tick_key_parses emit (count d + 1) v Hk) as (i & Hi & Hti & Hu). fold tier in Hi, Hti.
  destruct (alive_publish (tick_key tier v) data b Hal) as [Hpub _].
  exists env, data, (tick_key tier v), i. unfold drone_tick. rewrite Es. fold tier. rewrite Hmsg.
  destruct (Publish (tick_key tier v) data b) as [err b'] eqn:Eb. cbn in Hpub. subst err. cbn [snd fst].
  split; [done|]. split; [by rewrite (acked_ok _ _ _ _ Eb)|].
  split; [done|]. split; [done|]. split; [done|]. split; [by rewrite Hc|]. by rewrite Hc.
Qed.

(** A drone executes commands that nobody validated: whatever parses with a
    command in it and arrives under the drone's topic is handed to the vehicle,
    also when the digest, the tier or the issuer would fail validation. *)
Theorem unvalidated_command_executes v key payload env cmd :
  MatchesSelector (sim_cmdTopic v) key = true ->
  unmarshal_envelope payload = Some env -> Command env = Some cmd ->
  command_handler key payload v = HandleCommand cmd v.
Proof.
  intros Hm Hu Hc. unfold command_handler, received_command, ParseJSONEnvelope. by rewrite Hm, Hu, Hc.
Qed.

(** The relay to an autopilot. Over any client of the interface that is ready, a
    received command becomes exactly one packet when its type is one of the four
    that have a MAVLink counterpart, carrying that call under the next sequence
    number, and nothing otherwise; the target named in the command plays no part. *)
Theorem relay_commands `{AutopilotLaws C} w topic key payload cmd (c : C) :
  received_command topic key payload = Some cmd -> ready c = true ->
  match autopilot_call (CommandType cmd) with
  | Some a => exists pkt, (relay w topic key payload c).1 = [pkt] /\ carries (next_seq (link_seq c)) a pkt /\
      link_seq (relay w topic key payload c).2 = next_seq (link_seq c)
  | None => relay w topic key payload c = ([], c)
  end.
Proof.
  intros Hr Hc. unfold relay. rewrite Hr. destruct (autopilot_call _) as [a|]; [|done].
  destruct (send_ready w a c Hc) as (pkt & Hs & Hcar & _). pose proof (send_seq w a c) as Hq.
  exists pkt. destruct (SendCommandLong w a c) as [[err sent] c']. cbn in *. by subst sent.
Qed.
End Facts.

(** ** The default rate *)
Example default_rate : tick_interval (of_Z 1) = Some (10 ^ 9) /\ Seconds (10 ^ 9) = of_Z 1.
Proof. by vm_compute. Qed.

(** ** The swarm *)
Definition swarm_ids (l : list VehicleSim) : list (string * string) := map (fun v => (team v, id v)) l.

Example swarm_names : swarm_ids (swarm 2 1) = [("blue", "blue-alpha"); ("blue", "blue-bravo"); ("red", "red-1")].
Proof. done. Qed.

(** * Concrete agents *)
Module EdgeSamples.
#[local] Existing Instance caseless.
#[local] Existing Instance caseless_laws.
#[local] Instance no_text : JsonErrors := fun _ => "syntax error".
Definition bus_type := Recorded (MemoryBus nat).
Definition bus0 : bus_type := mkRecorded NewMemoryBus [].
Definition bravo : VehicleSim := single_drone "bravo" "drone" "blue".
Definition report : TelemetryPayload * VehicleSim := Eval vm_compute in Step (of_Z 1) bravo.
Lemma report_step : Step (of_Z 1) bravo = report.
Proof. by vm_compute. Qed.

(** An envelope whose digest is wrong, with an order to disarm. *)
Definition forged : SecurityEnvelope :=
  mkEnvelope (mkHeader Tier2Restricted "nobody" 1 "m" "00" []) None (Some (mkCommand "c" "bravo" "DISARM" None 1 "nobody")).
Definition forged_text : string := match marshal_envelope forged with Ok s => s | Err _ => "" end.
Definition topic : string := "sec/tier2/drone/blue/bravo/command".
Definition forged_decoded : SecurityEnvelope :=
  Eval vm_compute in match unmarshal_envelope forged_text with Some e => e | None => forged end.
End EdgeSamples.

Lemma drone_tick_publishes_witness :
  exists env data key,
    acked (drone_tick (U:=caseless) true (of_Z 1) 7 8 (mkDrone EdgeSamples.bravo 14) EdgeSamples.bus0).2 = [(key, data)] /\
    marshal_envelope env = Ok data /\ Classification (Header env) = Tier3Critical.
Proof.
  pose proof (@drone_tick_publishes caseless caseless_laws EdgeSamples.bus_type nat _ _ _
    true (of_Z 1) 7 8 (mkDrone EdgeSamples.bravo 14) EdgeSamples.bus0) as H.
  cbn [EdgeAgent.sim] in H. rewrite EdgeSamples.report_step in H. unfold EdgeSamples.report in H.
  match type of H with _ -> _ -> _ -> _ -> _ -> _ -> physical ?t -> ?m = true -> _ =>
    assert (physical t) as Hp by
      (unfold physical, sound_float, valid, within; split_and!; [by repeat constructor|by vm_compute..]);
    assert (m = true) as Hm by (vm_compute; reflexivity)
  end.
  destruct (H ltac:(by repeat constructor) ltac:(discriminate) ltac:(discriminate) ltac:(discriminate)
    ltac:(discriminate) ltac:(discriminate) Hp Hm eq_refl) as (env & data & key & i & _ & Ha & Hd & _ & _ & Hc & _).
  exists env, data, key. split; [exact Ha|]. split; [exact Hd|exact Hc].
Defined.

Lemma unvalidated_command_executes_witness :
  is_digest_mismatch (@Validate caseless (Some EdgeSamples.forged_decoded)).1 = true /\
  state (command_handler (U:=caseless) (JE:=EdgeSamples.no_text) EdgeSamples.topic EdgeSamples.forged_text
    EdgeSamples.bravo) = "LANDED".
Proof.
  split; [by vm_compute|].
  assert (MatchesSelector (sim_cmdTopic (U:=caseless) EdgeSamples.bravo) EdgeSamples.topic = true) as H1 by (vm_compute; reflexivity).
  assert (unmarshal_envelope (U:=caseless) EdgeSamples.forged_text = Some EdgeSamples.forged_decoded) as H2
    by (vm_compute; reflexivity).
  assert (Command EdgeSamples.forged_decoded = Some (mkCommand "c" "bravo" "DISARM" None 1 "nobody")) as H3 by reflexivity.
  rewrite (@unvalidated_command_executes caseless EdgeSamples.no_text EdgeSamples.bravo EdgeSamples.topic
    EdgeSamples.forged_text EdgeSamples.forged_decoded _ H1 H2 H3). reflexivity.
Defined.

Lemma relay_commands_witness :
  exists pkt, (relay (U:=caseless) (JE:=EdgeSamples.no_text) None EdgeSamples.topic EdgeSamples.topic
    EdgeSamples.forged_text (NewStreamClient true [] BridgeSamples.vehicle true)).1 = [pkt] /\
    carries (zb 1) (set_armed false) pkt.
Proof.
  assert (received_command (U:=caseless) (JE:=EdgeSamples.no_text) EdgeSamples.topic EdgeSamples.topic
    EdgeSamples.forged_text = Some (mkCommand "c" "bravo" "DISARM" None 1 "nobody")) as H by (vm_compute; reflexivity).
  assert (ready (NewStreamClient true [] BridgeSamples.vehicle true) = true) as Hr by reflexivity.
  destruct (@relay_commands caseless EdgeSamples.no_text StreamClient _ _ None EdgeSamples.topic EdgeSamples.topic
    EdgeSamples.forged_text _ (NewStreamClient true [] BridgeSamples.vehicle true) H Hr) as (pkt & Hp & Hc & _).
  exists pkt. split; [exact Hp|exact Hc].
Defined.
