(* ===== verification/Http.v ===== *)
(** net/http as the handlers use it: a request is its method and body, a response
    its status code and body (headers are not modelled); [http.Error],
    [json.Encoder] and [json.Decoder] on them. *)
From Stdlib Require Import Strings.Ascii Strings.String.
From S2P Require Import Prelude GoString Json Schema.

Local Open Scope string_scope.
Local Open Scope Z_scope.
Local Open Scope go_scope.

Record Request := mkRequest { Method : string; Body : string }.
Record Response := mkResponse { Code : Z; ResponseBody : string }.

Definition StatusOK : Z := 200.
Definition StatusBadRequest : Z := 400.
Definition StatusForbidden : Z := 403.
Definition StatusMethodNotAllowed : Z := 405.
Definition StatusInternalServerError : Z := 500.
Definition StatusServiceUnavailable : Z := 503.

Definition newline : string := chr 10.

(** [http.Error]. *)
Definition http_error (text : string) (code : Z) : Response := mkResponse code (text +:+ newline).

(** [json.NewEncoder(w).Encode(v)] with the error ignored: a value that cannot be
    marshalled leaves the body empty. *)
Definition http_json (r : result string string) : Response :=
  mkResponse StatusOK (match r with Ok s => s +:+ newline | Err _ => "" end).

(** [json.NewDecoder(r.Body).Decode(&v)] reads the first value of the body; what
    follows it is not looked at. *)
Definition first_value (s : string) : option jval :=
  fst <$> parse_value (2 + 2 * String.length s) 0 s.

Definition decode_bool (v : jval) (old : bool) : option bool :=
  match v with JBool b => Some b | JNull => Some old | _ => None end.

Definition decode_body `{U : Unicode} {A} (names : list string) (set : string -> jval -> A -> option A)
  (zero : A) (body : string) : option A :=
  v ← first_value body; decode_struct names set v zero.

(** What a document accepted as a whole decodes to, the decoder returns as well. *)
Lemma first_value_document s v : parse_json s = Some v -> first_value s = Some v.
Proof.
  unfold parse_json, first_value.
  destruct (parse_value _ _ _) as [[w r]|]; cbn; [|done]. by destruct (skip_ws r).
Qed.
