(* ===== verification/Server.v ===== *)
(** net/http as the main functions use it: the request multiplexer with its cleaning of
    paths and its redirections. A path is taken as it is written in the request line,
    without percent escapes. *)
From Stdlib Require Import Strings.Ascii Strings.String.
From S2P Require Import Prelude GoString Http.

Local Open Scope string_scope.

Definition slash : ascii := "/"%char.

(** * Paths *)

(** One component of a rooted path: empty ones and [.] vanish, [..] removes the one
    before it. The stack is kept in reverse. *)
Definition push_component (stack : list string) (p : string) : list string :=
  if is_empty p || String.eqb p "." then stack
  else if String.eqb p ".." then tail stack else p :: stack.

Definition components (path : string) : list string := rev (foldl push_component [] (Split path slash)).

(** [cleanPath]: the shortest rooted path; a slash at the end is kept. *)
Definition cleanPath (path : string) : string :=
  let cs := components path in
  let closing := default "" (last (Split path slash)) in
  join "/" ("" :: cs ++ if is_empty closing || bool_decide (cs = []) then [""] else [])%list.

Definition proper_component (p : string) : bool :=
  negb (is_empty p) && negb (String.eqb p ".") && negb (String.eqb p "..") && free_of slash p.

Lemma push_components_proper l stack :
  Forall (fun p => proper_component p = true) stack -> Forall (fun p => free_of slash p = true) l ->
  Forall (fun p => proper_component p = true) (foldl push_component stack l).
Proof.
  intros Hs Hl. revert stack Hs. induction Hl as [|p l Hp _ IH]; intros stack Hs; [done|]. cbn [foldl]. apply IH.
  unfold push_component. destruct (is_empty p || String.eqb p ".") eqn:E; [done|].
  destruct (String.eqb p "..") eqn:E2; [by destruct Hs|]. constructor; [|done].
  apply orb_false_iff in E as [E0 E1]. unfold proper_component. by rewrite E0, E1, E2, Hp.
Qed.

Lemma push_proper l stack :
  Forall (fun p => proper_component p = true) l -> foldl push_component stack l = (rev l ++ stack)%list.
Proof.
  intros H. revert stack. induction H as [|p l Hp _ IH]; intros stack; [done|]. cbn [foldl rev].
  rewrite <- app_assoc. cbn [app]. rewrite <- IH. f_equal. unfold push_component, proper_component in *.
  apply andb_prop in Hp as [[[H1 H2]%andb_prop H3]%andb_prop _]. apply negb_true_iff in H1, H2, H3.
  by rewrite H1, H2, H3.
Qed.

Lemma components_proper path : Forall (fun p => proper_component p = true) (components path).
Proof. apply Forall_rev. apply push_components_proper; [done|apply Split_free]. Qed.

(** Cleaning twice is cleaning once: a redirected request is not redirected again. *)
Lemma cleanPath_idem path : cleanPath (cleanPath path) = cleanPath path.
Proof.
  pose proof (components_proper path) as Hp. unfold cleanPath at 2. set (cs := components path) in *.
  match goal with |- context [(cs ++ ?x)%list] => set (t := x) end.
  assert (t = [] \/ t = [""]) as Ht by (unfold t; destruct (_ || _); auto).
  assert (cs = [] -> t = [""]) as Hempty by (intros E; unfold t; rewrite bool_decide_true by done; by rewrite orb_true_r).
  assert (Split (join "/" ("" :: cs ++ t)%list) slash = ("" :: cs ++ t)%list) as Hsplit.
  { apply Split_join; [done|]. constructor; [done|]. apply Forall_app. split; [|by destruct Ht as [-> | ->]; repeat constructor].
    eapply Forall_impl; [exact Hp|]. intros p. unfold proper_component. by intros [_ ?]%andb_prop. }
  unfold cleanPath at 1. unfold components. rewrite Hsplit. cbn [foldl push_component is_empty String.eqb orb].
  rewrite foldl_app, (push_proper cs) by done. change (push_component [] "") with (@nil string). rewrite app_nil_r.
  assert (foldl push_component (rev cs) t = rev cs) as -> by (destruct Ht as [-> | ->]; done).
  rewrite rev_involutive. unfold cleanPath. fold cs. fold t. do 3 f_equal. rewrite last_cons, last_app.
  destruct Ht as [Et|Et]; rewrite Et in *; cbn [last].
  - assert (cs <> []) as Hne by (intros E; by specialize (Hempty E)). rewrite (bool_decide_false _ Hne), orb_false_r.
    destruct (last cs) as [p|] eqn:El; [|by apply last_None in El].
    apply last_Some_elem_of in El. rewrite Forall_forall in Hp. specialize (Hp p El). unfold proper_component in Hp.
    cbn -[is_empty]. by destruct (is_empty p).
  - by cbn.
Qed.

Example cleaned_paths :
  map cleanPath ["/health"; "health"; ""; "/a/../health"; "//dlq/"; "/../.."; "/./a/./b/"] =
  ["/health"; "/health"; "/"; "/health"; "/dlq/"; "/"; "/a/b/"].
Proof. by vm_compute. Qed.

(** * The multiplexer

    The patterns of the program are paths that match exactly and, perhaps, [/], which
    matches what no other does. *)
Record ServeMux (A : Type) := mkMux { routes : list (string * A); catch_all : option A }.
Arguments mkMux {A}. Arguments routes {A}. Arguments catch_all {A}.

Inductive served (A : Type) := Handled (a : A) | MovedPermanently (path : string) | PageNotFound.
Arguments Handled {A}. Arguments MovedPermanently {A}. Arguments PageNotFound {A}.

Definition mux_match {A} (m : ServeMux A) (path : string) : served A :=
  match List.find (fun r => String.eqb r.1 path) (routes m), catch_all m with
  | Some (_, h), _ => Handled h
  | None, Some h => Handled h
  | None, None => PageNotFound
  end.

(** A path that is not clean is redirected, except for CONNECT. *)
Definition mux_dispatch {A} (m : ServeMux A) (method path : string) : served A :=
  if String.eqb method "CONNECT" then mux_match m path
  else if String.eqb (cleanPath path) path then mux_match m path
  else MovedPermanently (cleanPath path).

Lemma redirected_once {A} (m : ServeMux A) method path path' :
  mux_dispatch m method path = MovedPermanently path' -> mux_dispatch m method path' = mux_match m path'.
Proof.
  unfold mux_dispatch, mux_match. destruct (String.eqb method "CONNECT"); [by repeat case_match|].
  destruct (String.eqb (cleanPath path) path); [by repeat case_match|]. intros [= <-].
  by rewrite cleanPath_idem, String.eqb_refl.
Qed.
