(* ===== verification/Hub.v ===== *)
(** cmd/c2-gateway/main.go: the hub that fans broadcast messages out to the
    connected dashboards, as a transition system of its channels and its loop. *)
From Stdlib Require Import Strings.String.
From stdpp Require Import sets gmap sorting.
From S2P Require Import Prelude.

Local Open Scope nat_scope.

(** A websocket connection is an identity. *)
Definition conn := nat.

(** [clients] and the buffered channel are the fields of the code; [blocked] are
    the goroutines waiting in [h.broadcast <- m]; [stopped] says that [run] has
    returned. The rest is history: every message whose send began, the messages
    [run] took from the channel, and what was written to each connection since it
    was registered. *)
Record Hub := mkHub {
  clients : gset conn;
  broadcast : list string;
  blocked : list string;
  stopped : bool;
  sent_all : list string;
  taken : list string;
  written : gmap conn (list string);
}.

Definition broadcastCap : nat := 256.
#[local] Arguments broadcastCap : simpl never.

Definition newHub : Hub := mkHub ∅ [] [] false [] [] ∅.

(** One event: a goroutine reaches its send, a blocked send completes, or one turn
    of the [select] loop. [ok] says which writes succeed. *)
Inductive hub_event :=
| Send (m : string)
| Enqueue (i : nat)
| Register (c : conn)
| Unregister (c : conn)
| Deliver (ok : conn -> bool)
| Done.

(** The write loop over the clients: those whose write fails are closed and
    deleted. *)
Definition write_all (m : string) (ok : conn -> bool) (h : Hub) : gset conn * gmap conn (list string) :=
  (filter (fun c => ok c = true) (clients h),
   map_imap (fun c l => Some (if (bool_decide (c ∈ clients h) && ok c)%bool then l ++ [m] else l)) (written h)).

(** [h.broadcast <- m], up to the point where it may block. *)
Definition hub_send (m : string) (h : Hub) : Hub :=
  mkHub (clients h) (broadcast h) (blocked h ++ [m]) (stopped h) (sent_all h ++ [m]) (taken h) (written h).

Definition hub_step (e : hub_event) (h : Hub) : option Hub :=
  match e with
  | Send m => Some (hub_send m h)
  | Enqueue i =>
    m ← blocked h !! i;
    if length (broadcast h) <? broadcastCap then
      Some (mkHub (clients h) (broadcast h ++ [m]) (delete i (blocked h)) (stopped h) (sent_all h)
        (taken h) (written h))
    else None
  | Register c =>
    if stopped h || is_Some_b (written h !! c) then None else
    Some (mkHub ({[c]} ∪ clients h) (broadcast h) (blocked h) false (sent_all h) (taken h)
      (<[c := []]> (written h)))
  | Unregister c =>
    if stopped h then None else
    Some (mkHub (clients h ∖ {[c]}) (broadcast h) (blocked h) false (sent_all h) (taken h) (written h))
  | Deliver ok =>
    if stopped h then None else
    match broadcast h with
    | [] => None
    | m :: rest =>
      let '(cs, w) := write_all m ok h in
      Some (mkHub cs rest (blocked h) false (sent_all h) (taken h ++ [m]) w)
    end
  | Done =>
    if stopped h then None else
    Some (mkHub ∅ (broadcast h) (blocked h) true (sent_all h) (taken h) (written h))
  end.

Fixpoint hub_run (es : list hub_event) (h : Hub) : option Hub :=
  match es with
  | [] => Some h
  | e :: es => h ← hub_step e h; hub_run es h
  end.

(** The invariant: channel bound, conservation, every client is known, and every
    client has been written a suffix of the messages taken, every other
    connection a contiguous part of them. *)
Record hub_ok (h : Hub) : Prop := {
  hub_bound : length (broadcast h) <= broadcastCap;
  hub_conserves : taken h ++ broadcast h ++ blocked h ≡ₚ sent_all h;
  hub_known : forall c, c ∈ clients h -> is_Some (written h !! c);
  hub_client : forall c l, c ∈ clients h -> written h !! c = Some l -> exists before, taken h = before ++ l;
  hub_part : forall c l, written h !! c = Some l ->
    exists before after, taken h = before ++ l ++ after;
}.

Lemma newHub_ok : hub_ok newHub.
Proof. constructor; cbn; try done; try (intros; set_solver); lia. Qed.

Lemma enqueue_conserves (i : nat) (m : string) (t b l s : list string) :
  l !! i = Some m -> t ++ b ++ l ≡ₚ s -> t ++ (b ++ [m]) ++ delete i l ≡ₚ s.
Proof.
  intros Hi <-. pose proof (delete_Permutation l i m Hi) as E.
  transitivity (t ++ b ++ m :: delete i l); [|by rewrite <- E].
  rewrite <- !app_assoc. cbn. done.
Qed.

Lemma lookup_written m ok h c l :
  (write_all m ok h).2 !! c = Some l ->
  exists l0, written h !! c = Some l0 /\
    ((c ∈ fst (write_all m ok h) /\ l = l0 ++ [m]) \/ (~ (c ∈ fst (write_all m ok h)) /\ l = l0)).
Proof.
  unfold write_all. cbn. rewrite map_lookup_imap. destruct (written h !! c) as [l0|]; [|done].
  cbn. intros [= <-]. exists l0. split; [done|]. rewrite elem_of_filter.
  destruct (bool_decide_reflect (c ∈ clients h)), (ok c); cbn; [left|right..];
    (split; [by auto|done]) || (split; [by intros []|done]).
Qed.

Lemma hub_step_ok e h h' : hub_ok h -> hub_step e h = Some h' -> hub_ok h'.
Proof.
  intros [Hb Hc Hk Hcl Hp] Hs. destruct e; cbn -[Nat.ltb] in Hs.
  - simplify_eq. constructor; cbn; try done. rewrite <- Hc, !app_assoc. done.
  - destruct (blocked h !! i) as [m|] eqn:E; [|done]. cbn -[Nat.ltb] in Hs.
    destruct (length (broadcast h) <? broadcastCap) eqn:El; [|done]. apply Nat.ltb_lt in El. simplify_eq.
    constructor; cbn; try done; [rewrite length_app; cbn; lia|by apply enqueue_conserves].
  - destruct (stopped h); [done|]. destruct (written h !! c) as [l|] eqn:E; [done|]. cbn in Hs. simplify_eq.
    constructor; cbn; try done.
    + intros c'. rewrite elem_of_union, elem_of_singleton. intros [->|H]; [by rewrite lookup_insert_eq|].
      apply Hk in H as [l Hl]. rewrite lookup_insert_ne; [by exists l|]. intros ->. by rewrite E in Hl.
    + intros c' l Hc' [[<- <-]|[Hne Hl]]%lookup_insert_Some; [exists (taken h); by rewrite app_nil_r|].
      apply elem_of_union in Hc' as [->%elem_of_singleton|Hc']; [done|by apply (Hcl c')].
    + intros c' l [[<- <-]|[Hne Hl]]%lookup_insert_Some; [|by apply (Hp c')].
      exists (taken h), []. by rewrite app_nil_r.
  - destruct (stopped h); simplify_eq. constructor; cbn; try done; intros c' *;
      rewrite elem_of_difference; intros [? _]; eauto.
  - destruct (stopped h); [done|]. destruct (broadcast h) as [|m rest] eqn:Eb; [done|].
    pose proof (lookup_written m ok h) as Hw. unfold write_all in *. cbn in Hw. simplify_eq.
    constructor; cbn.
    + cbn in Hb. lia.
    + by rewrite <- Hc, <- !app_assoc.
    + intros c [_ H]%elem_of_filter. destruct (Hk c H) as [l Hl]. rewrite map_lookup_imap, Hl. by eexists.
    + intros c l Hin (l0 & Hl0 & [[_ ->]|[Hnot _]])%Hw; [|done].
      apply elem_of_filter in Hin as [_ Hin]. destruct (Hcl c l0 Hin Hl0) as [before ->].
      exists before. by rewrite app_assoc.
    + intros c l (l0 & Hl0 & [[Hin ->]|[_ ->]])%Hw.
      * apply elem_of_filter in Hin as [_ Hin]. destruct (Hcl c l0 Hin Hl0) as [before ->].
        exists before, []. by rewrite app_nil_r, app_assoc.
      * destruct (Hp c l0 Hl0) as (before & after & ->). exists before, (after ++ [m]).
        by rewrite <- !app_assoc.
  - destruct (stopped h); simplify_eq. constructor; cbn; try done; set_solver.
Qed.

Lemma hub_run_ok es h h' : hub_ok h -> hub_run es h = Some h' -> hub_ok h'.
Proof.
  revert h. induction es as [|e es IH]; intros h Hok Hr; cbn in Hr; [by simplify_eq|].
  destruct (hub_step e h) as [h1|] eqn:E; [|done]. cbn in Hr. eapply IH; [|done]. by eapply hub_step_ok.
Qed.

(** * Properties *)

(** ** What one dashboard is sent

    The messages that an event sends, and what every step keeps: messages queue up behind
    those taken or waiting, and only writing changes what a connection received. *)
Definition sends (es : list hub_event) : list string :=
  omap (fun e => match e with Send m => Some m | _ => None end) es.

Lemma hub_run_app es1 es2 h : hub_run (es1 ++ es2) h = (h' ← hub_run es1 h; hub_run es2 h').
Proof.
  revert h. induction es1 as [|e es1 IH]; intros h; [done|]. cbn. destruct (hub_step e h); [apply IH|done].
Qed.

Lemma hub_run_snoc es e h : hub_run (es ++ [e]) h = (h' ← hub_run es h; hub_step e h').
Proof. rewrite hub_run_app. destruct (hub_run es h) as [h'|]; [|done]. cbn. by destruct (hub_step e h'). Qed.

Lemma hub_step_history e h h' : hub_step e h = Some h' ->
  sent_all h' = sent_all h ++ sends [e] /\ taken h `prefix_of` taken h' /\
  taken h ++ broadcast h `prefix_of` taken h' ++ broadcast h'.
Proof.
  intros Hs. destruct e; cbn -[Nat.ltb] in Hs |- *; rewrite ?app_nil_r.
  - by simplify_eq.
  - destruct (blocked h !! i) as [m|]; [|done]. cbn -[Nat.ltb] in Hs. destruct (_ <? _); simplify_eq. cbn.
    split_and!; [done..|]. exists [m]. by rewrite app_assoc.
  - destruct (_ || _); by simplify_eq.
  - destruct (stopped h); by simplify_eq.
  - destruct (stopped h), (broadcast h) as [|m rest] eqn:Eb; simplify_eq. cbn. split_and!; [done|by exists [m]|].
    by rewrite <- app_assoc.
  - destruct (stopped h); by simplify_eq.
Qed.

Lemma hub_run_history es h h' : hub_run es h = Some h' ->
  sent_all h' = sent_all h ++ sends es /\ taken h `prefix_of` taken h' /\
  taken h ++ broadcast h `prefix_of` taken h' ++ broadcast h'.
Proof.
  revert h. induction es as [|e es IH]; intros h; cbn [hub_run]; [intros [= <-]; by rewrite app_nil_r|].
  destruct (hub_step e h) as [h1|] eqn:E; [|done]. cbn. intros Hr.
  destruct (hub_step_history _ _ _ E) as (S1 & T1 & B1). destruct (IH _ Hr) as (S2 & T2 & B2).
  split_and!; [|by etrans|by etrans]. rewrite S2, S1, <- app_assoc. f_equal. unfold sends. cbn. by destruct e.
Qed.

(** Once a connection is known, only a delivery to a client changes what it received. *)
Lemma hub_step_written e h h' c l : hub_step e h = Some h' -> written h !! c = Some l ->
  (c ∉ clients h -> (c ∉ clients h') /\ written h' !! c = Some l) /\
  (c ∈ clients h -> c ∈ clients h' ->
     exists l', written h' !! c = Some (l ++ l') /\ taken h' = taken h ++ l') /\
  (c ∈ clients h -> c ∉ clients h' -> written h' !! c = Some l).
Proof.
  intros Hs Hl. destruct e; cbn -[Nat.ltb] in Hs.
  - simplify_eq. cbn. split_and!; [done| |done]. intros. exists []. by rewrite !app_nil_r.
  - destruct (blocked h !! i) as [m|]; [|done]. cbn -[Nat.ltb] in Hs. destruct (_ <? _); simplify_eq. cbn.
    split_and!; [done| |done]. intros. exists []. by rewrite !app_nil_r.
  - destruct (stopped h); [done|]. cbn in Hs. destruct (written h !! c0) as [l0|] eqn:E0; [done|]. cbn in Hs. simplify_eq. cbn.
    assert (c <> c0) as Hne by congruence. rewrite lookup_insert_ne by done.
    split_and!; [set_solver| |set_solver]. intros. exists []. by rewrite !app_nil_r.
  - destruct (stopped h); simplify_eq. cbn. split_and!; [set_solver| |set_solver]. intros. exists []. by rewrite !app_nil_r.
  - destruct (stopped h); [done|]. destruct (broadcast h) as [|m rest]; [done|].
    unfold write_all in Hs. simplify_eq. cbn. rewrite map_lookup_imap, Hl. cbn. rewrite elem_of_filter.
    destruct (decide (c ∈ clients h)) as [Hc|Hc]; [rewrite bool_decide_true by done|rewrite bool_decide_false by done].
    + split_and!; [done|intros _ [-> _]; by exists [m]|]. intros _ Hn. destruct (ok c); [by destruct Hn|done].
    + split_and!; [|done..]. intros _. split; [by intros [_ ?]|done].
  - destruct (stopped h); simplify_eq. cbn. split_and!; [set_solver|set_solver|done].
Qed.

(** What a dashboard received since it was registered, as a client and after it left. *)
Lemma dashboard_received c es h0 h l0 :
  hub_run es h0 = Some h -> c ∈ clients h0 -> written h0 !! c = Some l0 ->
  exists l, written h !! c = Some (l0 ++ l) /\
    ((c ∈ clients h /\ taken h = taken h0 ++ l) \/
     ((c ∉ clients h) /\ (exists es1 e es2 h1 h2, es = es1 ++ e :: es2 /\ hub_run es1 h0 = Some h1 /\
        hub_step e h1 = Some h2 /\ c ∈ clients h1 /\ (c ∉ clients h2) /\ taken h1 = taken h0 ++ l))).
Proof.
  intros Hr Hc0 Hl0. revert h Hr. induction es as [|e es IH] using rev_ind; intros h Hr.
  { injection Hr as <-. exists []. rewrite app_nil_r. split; [done|]. left. by rewrite app_nil_r. }
  rewrite hub_run_snoc in Hr. destruct (hub_run es h0) as [h'|] eqn:E; [|done]. cbn in Hr.
  destruct (IH h' eq_refl) as (l & Hl & H). destruct (hub_step_written _ _ _ c _ Hr Hl) as (Hout & Hin & Hleft).
  destruct H as [[Hc Ht]|[Hc (es1 & e1 & es2 & h1 & h2 & -> & Hrest)]].
  - destruct (decide (c ∈ clients h)) as [Hc'|Hc'].
    + destruct (Hin Hc Hc') as (l' & Hw & Htk). exists (l ++ l'). rewrite app_assoc. split; [done|]. left.
      split; [done|]. by rewrite Htk, Ht, app_assoc.
    + exists l. split; [by apply Hleft|]. right. split; [done|]. by exists es, e, [], h', h.
  - destruct (Hout Hc) as [Hc' Hw]. exists l. split; [done|]. right. split; [done|].
    exists es1, e1, (es2 ++ [e]), h1, h2. split; [by rewrite <- app_assoc|done].
Qed.

(** C29. What a dashboard sees. Take any run of a new hub in which [c] is registered,
    whatever the interleaving of senders, connections, disconnections and failing writes
    before and after. At most 256 messages wait in the channel; every message sent in the
    whole run is taken from it, waiting in it or blocked before it, exactly once; messages
    are taken in the order they entered. A dashboard still connected has been written
    exactly the messages taken since its registration, in order; one that has been removed
    - it left, a write to it failed or the hub stopped - exactly those taken from its
    registration until then. *)
Theorem hub_delivery es1 c es2 h1 h2 h :
  hub_run es1 newHub = Some h1 -> hub_step (Register c) h1 = Some h2 -> hub_run es2 h2 = Some h ->
  length (broadcast h) <= 256 /\
  taken h ++ broadcast h ++ blocked h ≡ₚ sends (es1 ++ es2) /\
  taken h1 ++ broadcast h1 `prefix_of` taken h ++ broadcast h /\
  exists l, written h !! c = Some l /\
    ((c ∈ clients h /\ taken h = taken h1 ++ l) \/
     ((c ∉ clients h) /\ (exists es3 e es4 h3 h4, es2 = es3 ++ e :: es4 /\ hub_run es3 h2 = Some h3 /\
        hub_step e h3 = Some h4 /\ c ∈ clients h3 /\ (c ∉ clients h4) /\ taken h3 = taken h1 ++ l))).
Proof.
  intros H1 H2 H3. pose proof (hub_run_ok _ _ _ newHub_ok H1) as Hok1. pose proof (hub_step_ok _ _ _ Hok1 H2) as Hok2.
  destruct (hub_run_ok _ _ _ Hok2 H3) as [Hb Hc _ _ _].
  destruct (hub_run_history _ _ _ H1) as (S1 & _ & _). destruct (hub_step_history _ _ _ H2) as (S2 & _ & B2).
  destruct (hub_run_history _ _ _ H3) as (S3 & _ & B3).
  assert (c ∈ clients h2 /\ written h2 !! c = Some [] /\ taken h2 = taken h1) as (Hc2 & Hw2 & Ht2).
  { cbn in H2. destruct (_ || _); [done|]. simplify_eq. cbn. rewrite lookup_insert_eq. set_solver. }
  split; [done|]. split.
  { rewrite Hc, S3, S2, S1. unfold sends. by rewrite omap_app, app_nil_r. }
  split; [by etrans|]. destruct (dashboard_received c es2 h2 h [] H3 Hc2 Hw2) as (l & Hl & H). rewrite Ht2 in H.
  exists l. split; [exact Hl|exact H].
Qed.

(** The events of the hub's own progress. *)
Definition is_progress (e : hub_event) : bool :=
  match e with Enqueue _ | Deliver _ => true | _ => false end.

Lemma hub_progress h :
  stopped h = false -> broadcast h ++ blocked h <> [] -> length (broadcast h) <= broadcastCap ->
  exists e h', is_progress e = true /\ hub_step e h = Some h' /\ stopped h' = false /\
    length (broadcast h') <= broadcastCap /\
    2 * length (blocked h') + length (broadcast h') < 2 * length (blocked h) + length (broadcast h).
Proof.
  intros Hs Hne Hb. destruct (broadcast h) as [|m rest] eqn:Eb.
  - destruct (blocked h) as [|m l] eqn:El; [done|]. exists (Enqueue 0). cbn -[Nat.ltb].
    rewrite El. cbn -[Nat.ltb]. rewrite Eb. change (0 <? broadcastCap) with true.
    eexists. split; [done|]. split; [done|]. cbn. split_and!; [done|unfold broadcastCap; lia|lia].
  - exists (Deliver (fun _ => true)). cbn. rewrite Hs, Eb. eexists. split; [done|]. split; [done|].
    cbn in *. split_and!; [done|lia|lia].
Qed.

Lemma hub_drains_from n h :
  2 * length (blocked h) + length (broadcast h) <= n -> stopped h = false ->
  length (broadcast h) <= broadcastCap ->
  exists es h', forallb is_progress es = true /\ hub_run es h = Some h' /\
    broadcast h' = [] /\ blocked h' = [].
Proof.
  revert h. induction n as [|n IH]; intros h Hn Hs Hb.
  - exists [], h. split; [done|]. split; [done|]. destruct (broadcast h), (blocked h); cbn in *; (lia || done).
  - destruct (decide (broadcast h ++ blocked h = [])) as [[Hb0 Hl0]%app_eq_nil|Hne].
    { by exists [], h. }
    destruct (hub_progress h Hs Hne Hb) as (e & h1 & Hp & Hstep & Hs1 & Hb1 & Hlt).
    destruct (IH h1) as (es & h' & Hes & Hrun & Hend); [lia|done|done|].
    exists (e :: es), h'. cbn. by rewrite Hp, Hstep.
Qed.

(** No deadlock: from every reachable state of a running hub, its own steps
    alone (sends completing, messages being delivered) reach a state where every
    message ever sent has been taken by the loop. *)
Theorem hub_drains es h :
  hub_run es newHub = Some h -> stopped h = false ->
  exists es' h', forallb is_progress es' = true /\ hub_run es' h = Some h' /\ taken h' ≡ₚ sent_all h'.
Proof.
  intros Hr Hs. pose proof (hub_run_ok _ _ _ newHub_ok Hr) as Hok.
  destruct (hub_drains_from _ h (le_n _) Hs (hub_bound _ Hok)) as (es' & h' & Hp & Hrun & Hb & Hl).
  exists es', h'. split; [done|]. split; [done|].
  pose proof (hub_conserves _ (hub_run_ok _ _ _ Hok Hrun)) as Hc.
  by rewrite Hb, Hl, app_nil_r in Hc.
Qed.

(** * A concrete run: two dashboards, one of which fails on the second message. *)
Module HubSamples.
Definition events : list hub_event :=
  [Register 1; Send "a"; Enqueue 0; Register 2; Deliver (fun _ => true); Send "b"; Send "c";
   Enqueue 1; Deliver (fun c => Nat.eqb c 2)].
End HubSamples.

Example hub_sample :
  (fun h => (elements (clients h), written h !! 1, written h !! 2, blocked h)) <$>
    hub_run HubSamples.events newHub = Some ([2], Some ["a"], Some ["a"; "c"], ["b"])%string.
Proof. by vm_compute. Qed.

(** The dashboard that stays, and the one whose second write fails. *)
Lemma hub_delivery_witness :
  exists h, hub_run HubSamples.events newHub = Some h /\ length (broadcast h) <= 256 /\
    2 ∈ clients h /\ written h !! 2 = Some (taken h) /\ taken h = ["a"; "c"]%string.
Proof.
  destruct (hub_run (take 3 HubSamples.events) newHub) as [h1|] eqn:E1; [|by vm_compute in E1].
  destruct (hub_step (Register 2) h1) as [h2|] eqn:E2; [|by vm_compute in E1; injection E1 as <-; vm_compute in E2].
  destruct (hub_run (drop 4 HubSamples.events) h2) as [h|] eqn:E3;
    [|by vm_compute in E1; injection E1 as <-; vm_compute in E2; injection E2 as <-; vm_compute in E3].
  destruct (hub_delivery _ 2 _ _ _ _ E1 E2 E3) as (Hb & _ & _ & l & Hl & H).
  vm_compute in E1. injection E1 as <-. vm_compute in E2. injection E2 as <-. vm_compute in E3. injection E3 as <-.
  eexists. split; [vm_compute; reflexivity|]. split; [exact Hb|].
  destruct H as [[Hc Ht]|[Hn _]]; [|exfalso; apply Hn; apply elem_of_elements; vm_compute; left].
  split; [exact Hc|]. split; [|reflexivity]. refine (eq_trans Hl _). cbn in Ht. by rewrite <- Ht.
Defined.

Lemma hub_drains_witness :
  exists h es' h', hub_run HubSamples.events newHub = Some h /\ hub_run es' h = Some h' /\
    taken h' ≡ₚ sent_all h'.
Proof.
  pose (h := default newHub (hub_run HubSamples.events newHub)).
  assert (hub_run HubSamples.events newHub = Some h) as E by (vm_compute; reflexivity).
  destruct (hub_drains HubSamples.events h E) as (es' & h' & _ & Hr & Ht); [vm_compute; reflexivity|].
  exists h, es', h'. split; [exact E|]. split; [exact Hr|exact Ht].
Defined.
