(* ===== verification/Gateway.v ===== *)
(** cmd/c2-gateway/main.go: the C2 gateway over any bus - the fleet built from
    telemetry, the command and injection endpoints, and the endpoints of the data
    mule and of the dead letter queue. The hub of the dashboards is Hub. *)
From Stdlib Require Import Strings.Ascii Strings.String.
From S2P Require Import Prelude GoString Float64 Json GoTime Sha256 Topic Bus Schema Decoded Guard DataMule Hub Http.

Local Open Scope string_scope.
Local Open Scope Z_scope.
Local Open Scope go_scope.

(** * State *)
Record VehicleState := mkVehicleState {
  vs_Telemetry : TelemetryPayload; vs_Header : SecurityHeader; vs_LastSeen : Z;
  vs_TrackPoints : list Coordinates;
}.

Definition maxTrackPoints : nat := 50.

(** ** The types of request bodies *)
Record SimulateRequest := mkSimulate { DDILActive : bool }.
Definition set_simulate (n : string) (v : jval) (r : SimulateRequest) : option SimulateRequest :=
  b ← decode_bool v (DDILActive r); Some (mkSimulate b).

Record CommandRequest := mkCommandRequest {
  req_TargetVehicle : string; req_CommandType : string; req_Parameters : option (list (string * any)) }.
Definition set_command_request (n : string) (v : jval) (r : CommandRequest) : option CommandRequest :=
  let '(mkCommandRequest t c p) := r in
  if String.eqb n "target_vehicle" then x ← decode_string v t; Some (mkCommandRequest x c p)
  else if String.eqb n "command_type" then x ← decode_string v c; Some (mkCommandRequest t x p)
  else x ← decode_map v p; Some (mkCommandRequest t c x).

Record InjectRequest := mkInject { inj_Tier : string; inj_Tamper : bool; inj_TargetVehicle : string }.
Definition set_inject (n : string) (v : jval) (r : InjectRequest) : option InjectRequest :=
  let '(mkInject t m w) := r in
  if String.eqb n "tier" then x ← decode_string v t; Some (mkInject x m w)
  else if String.eqb n "tamper" then x ← decode_bool v m; Some (mkInject t x w)
  else x ← decode_string v w; Some (mkInject t m x).

Definition decode_simulate `{U : Unicode} := decode_body ["ddil_active"] set_simulate (mkSimulate false).
Definition decode_command `{U : Unicode} :=
  decode_body ["target_vehicle"; "command_type"; "parameters"] set_command_request (mkCommandRequest "" "" None).
Definition decode_inject `{U : Unicode} :=
  decode_body ["tier"; "tamper"; "target_vehicle"] set_inject (mkInject "" false "").

(** The texts of encoding/json's errors for the three bodies are parameters. *)
Class BodyErrors := {
  simulate_error : string -> string;
  command_error : string -> string;
  inject_error : string -> string;
}.

(** ** Encoders *)
Definition marshal_list (l : list (result string string)) : result string string :=
  let? xs := seq_results l in Ok ("[" +:+ commas xs +:+ "]").

Definition marshal_vehicle_state (v : VehicleState) : result string string :=
  marshal_fields [("telemetry", marshal_telemetry (vs_Telemetry v)); ("header", marshal_header (vs_Header v));
    ("last_seen", marshal_time 0 (vs_LastSeen v));
    ("track_points", marshal_list (map marshal_coordinates (vs_TrackPoints v)))].

Definition marshal_fleet (fleet : gmap string VehicleState) : result string string :=
  marshal_fields (sort_keys (map (fun '(k, v) => (k, marshal_vehicle_state v)) (map_to_list fleet))).

Definition marshal_metrics (tz : Z) (m : BackhaulMetrics) : result string string :=
  marshal_fields [str_field "status" (status_text (Status m)); str_field "cloud_target" (CloudTarget m);
    int_field "latency_ms" (LatencyMs m); int_field "spooled_packets" (Z.of_nat (SpooledPackets m));
    int_field "spooled_bytes" (SpooledBytes m); int_field "synced_total" (SyncedTotal m);
    ("last_sync_time", marshal_time tz (LastSyncTime m));
    ("simulated_mode", Ok (if SimulatedMode m then "true" else "false"))].

Definition marshal_ws_message (tz : Z) (m : BackhaulMetrics) : result string string :=
  marshal_fields [str_field "type" "backhaul_status"; ("metrics", marshal_metrics tz m)].

Section Gateway.
Context `{U : Unicode} `{JE : JsonErrors} `{BE : BodyErrors} {B H : Type} `{BI : Bus B H}.

(** The bus is shared by the gateway and its data mule: [gw_bus] is the one
    store, and the mule's reference to it is a flag (see [mule_call]). *)
Record Gateway := mkGateway {
  gw_bus : B;
  hub : Hub;
  fleet : gmap string VehicleState;
  cdsProxyURL : string;
  mule : option (DataMule B);
}.

(** [created] is the outcome of the default [NewDataMule], whose error is
    dropped. *)
Definition NewGateway (b : B) (cdsProxyURL : string) (muleOptional : option (DataMule B))
  (created : result string (DataMule B)) : Gateway :=
  mkGateway b newHub ∅ cdsProxyURL
    (match muleOptional, created with
     | Some dm, _ => Some dm
     | None, Ok dm => Some dm
     | None, Err _ => None
     end).

Definition set_mule (b : B) (dm : option (DataMule B)) (g : Gateway) : Gateway :=
  mkGateway b (hub g) (fleet g) (cdsProxyURL g) dm.
Definition set_gw_bus (b : B) (g : Gateway) : Gateway :=
  mkGateway b (hub g) (fleet g) (cdsProxyURL g) (mule g).
Definition set_fleet (f : gmap string VehicleState) (g : Gateway) : Gateway :=
  mkGateway (gw_bus g) (hub g) f (cdsProxyURL g) (mule g).
Definition set_hub (h : Hub) (g : Gateway) : Gateway :=
  mkGateway (gw_bus g) h (fleet g) (cdsProxyURL g) (mule g).

(** A method of the data mule, run on the shared bus. *)
Definition mule_call {A} (f : DataMule B -> A * DataMule B) (dm : DataMule B) (b : B) : A * DataMule B * B :=
  let dm := match upstreamBus dm with Some _ => set_bus b dm | None => dm end in
  let '(a, dm) := f dm in (a, dm, default b (upstreamBus dm)).

(** * Telemetry *)
Definition cloud_bound (key : string) : bool := HasPrefix key "upstream/" || HasPrefix key "cloud/".

Definition mule_ingest (s : surroundings) (key payload : string) (g : Gateway) : Gateway :=
  match mule g with
  | Some dm =>
    let '(_, dm, b) := mule_call (fun dm => (tt, Ingest s key payload dm)) dm (gw_bus g) in
    set_mule b (Some dm) g
  | None => g
  end.

(** The breadcrumb trail keeps the last fifty points. *)
Definition append_point (c : Coordinates) (l : list Coordinates) : list Coordinates :=
  let l := (l ++ [c])%list in
  if (maxTrackPoints <? length l)%nat then tail l else l.

Definition update_fleet (now : Z) (h : SecurityHeader) (t : TelemetryPayload)
  (f : gmap string VehicleState) : gmap string VehicleState :=
  let track := match f !! VehicleID t with Some st => vs_TrackPoints st | None => [] end in
  <[VehicleID t := mkVehicleState t h now (append_point (Coords t) track)]> f.

Definition handleTelemetry (s : surroundings) (now : Z) (key payload : string) (g : Gateway) : Gateway :=
  if cloud_bound key then g else
  match ParseJSONEnvelope payload with
  | Err _ => g
  | Ok env =>
    match Telemetry env with
    | None => g
    | Some t =>
      let g := mule_ingest s key payload g in
      let g := set_fleet (update_fleet now (Header env) t (fleet g)) g in
      set_hub (hub_send payload (hub g)) g
    end
  end.

(** * Read-only endpoints *)
Definition handleFleet (g : Gateway) : Response := http_json (marshal_fleet (fleet g)).

Definition mule_missing : Response := http_error "data mule not configured" StatusServiceUnavailable.

Definition handleBackhaul (tz : Z) (g : Gateway) : Response :=
  match mule g with
  | None => mule_missing
  | Some dm => http_json (marshal_metrics tz (Metrics dm))
  end.

(** * Simulation of an outage *)
Definition method_not_allowed : Response := http_error "Method not allowed" StatusMethodNotAllowed.
Definition invalid_json (text : string) : Response := http_error ("invalid json: " +:+ text) StatusBadRequest.

Definition handleBackhaulSimulate (s : surroundings) (r : Request) (g : Gateway) : Response * Gateway :=
  if negb (String.eqb (Method r) "POST") then (method_not_allowed, g) else
  match mule g with
  | None => (mule_missing, g)
  | Some dm =>
    match decode_simulate (Body r) with
    | None => (invalid_json (simulate_error (Body r)), g)
    | Some req =>
      let '(metrics, dm, b) := mule_call (SetSimulationMode s (DDILActive req)) dm (gw_bus g) in
      (http_json (marshal_metrics (tz s) metrics), set_mule b (Some dm) g)
    end
  end.

(** * Commands *)

(** The readings of the clock of one request, in order. *)
Record clock := mkClock { t0 : Z; t1 : Z; t2 : Z; t3 : Z }.

Definition blue_callsigns : list string := ["alpha"; "bravo"; "charlie"; "delta"; "echo"].
Definition named_blue (target : string) : bool :=
  HasPrefix target "blue-" || existsb (String.eqb target) blue_callsigns.

(** The friendly-fleet check. *)
Definition authorized (fleet : gmap string VehicleState) (target : string) : bool :=
  match fleet !! target with
  | Some st => String.eqb (Team (vs_Telemetry st)) "blue"
  | None => named_blue target && negb (HasPrefix target "red-")
  end.

Definition unauthorized_target (target : string) : Response :=
  http_error ("unauthorized target vehicle: " +:+ target +:+ " (C2 dispatch restricted to friendly blue fleet)")
    StatusForbidden.

Definition command_payload (c : clock) (req : CommandRequest) : CommandPayload :=
  mkCommand ("cmd-" +:+ dec (t0 c)) (req_TargetVehicle req) (req_CommandType req) (req_Parameters req)
    (t1 c) "Tactical-COP-Operator".

Definition command_key (target : string) : string := BuildKey "tier2" "drone" "blue" target "command".

(** Publication of an envelope and the response to it. *)
Definition publish_response (what topic bytes : string) (ok : Response) (g : Gateway) : Response * Gateway :=
  let '(err, b) := Publish topic bytes (gw_bus g) in
  (match err with
   | Some e => http_error (what +:+ e) StatusInternalServerError
   | None => ok
   end, set_gw_bus b g).

Definition dispatch_command (c : clock) (req : CommandRequest) (g : Gateway) : Response * Gateway :=
  let cmdPayload := command_payload c req in
  match NewCommandEnvelope Tier2Restricted "tactical-c2-gateway" cmdPayload ["OPERATOR_COMMAND"] (t2 c) (t3 c) with
  | Err e => (http_error ("generating command envelope: " +:+ e) StatusInternalServerError, g)
  | Ok cmdEnv =>
    match marshal_envelope cmdEnv with
    | Err e => (http_error ("marshalling command: " +:+ e) StatusInternalServerError, g)
    | Ok cmdBytes =>
      let topic := command_key (req_TargetVehicle req) in
      publish_response "publishing command to Zenoh: " topic cmdBytes
        (http_json (marshal_any (AMap [("command_id", AStr (CommandID cmdPayload));
           ("status", AStr "DISPATCHED"); ("topic", AStr topic)]))) g
    end
  end.

Definition handleCommand (c : clock) (r : Request) (g : Gateway) : Response * Gateway :=
  if negb (String.eqb (Method r) "POST") then (method_not_allowed, g) else
  match decode_command (Body r) with
  | None => (invalid_json (command_error (Body r)), g)
  | Some req =>
    if is_empty (req_TargetVehicle req) || is_empty (req_CommandType req) then
      (http_error "target_vehicle and command_type required" StatusBadRequest, g)
    else if authorized (fleet g) (req_TargetVehicle req) then dispatch_command c req g
    else (unauthorized_target (req_TargetVehicle req), g)
  end.

(** * Injection of test telemetry *)
Definition synth_tier (tier : string) : string :=
  if String.eqb tier Tier3Critical || String.eqb tier Tier2Restricted || String.eqb tier Tier1Public
  then tier else Tier3Critical.

Definition inject_vehicle (target : string) : string := if is_empty target then "sim-probe-1" else target.

Definition inject_telemetry (vehicleID : string) (sequence : Z) : TelemetryPayload :=
  mkTelemetry vehicleID "drone" "blue" "INJECTED_TEST" (of_Z 95)
    (mkCoordinates (lit 316250 4) (lit (-80820) 4) (of_Z 135)) (mkVelocity fzero fzero fzero (of_Z 14))
    (of_Z 90) None sequence.

Definition zero_digest : string := "0000000000000000000000000000000000000000000000000000000000000000".
Definition tamper (env : SecurityEnvelope) : SecurityEnvelope := with_digest zero_digest env.

Definition tier_token (tier : string) : string :=
  if String.eqb tier Tier3Critical then "tier3" else if String.eqb tier Tier2Restricted then "tier2" else "tier1".

Definition inject_key (req : InjectRequest) : string :=
  BuildKey (tier_token (synth_tier (inj_Tier req))) "drone" "blue" (inject_vehicle (inj_TargetVehicle req)) "telemetry".

Definition inject (c : clock) (req : InjectRequest) (g : Gateway) : Response * Gateway :=
  let vehicleID := inject_vehicle (inj_TargetVehicle req) in
  let synthTier := synth_tier (inj_Tier req) in
  match NewTelemetryEnvelope synthTier "synthetic-cop-injector"
          (inject_telemetry vehicleID (u64 (t0 c))) ["TEST_INJECTION"] (t1 c) (t2 c) with
  | Err e => (http_error ("building envelope: " +:+ e) StatusInternalServerError, g)
  | Ok env =>
    let env := if inj_Tamper req then tamper env else env in
    match marshal_envelope env with
    | Err e => (http_error ("marshalling envelope: " +:+ e) StatusInternalServerError, g)
    | Ok data =>
      publish_response "publishing to Zenoh: " (inject_key req) data
        (http_json (marshal_any (AMap [("status", AStr "INJECTED"); ("tamper", ABool (inj_Tamper req));
           ("tier", AStr synthTier); ("topic", AStr (inject_key req)); ("vehicle", AStr vehicleID)]))) g
    end
  end.

Definition handleInject (c : clock) (r : Request) (g : Gateway) : Response * Gateway :=
  if negb (String.eqb (Method r) "POST") then (method_not_allowed, g) else
  match decode_inject (Body r) with
  | None => (invalid_json (inject_error (Body r)), g)
  | Some req => inject c req g
  end.

(** * The dead letter queue of the guard, by proxy

    [new_request] and [get] are the outcomes of building the request and of
    performing it: the status and body of the guard's answer. *)
Definition handleDLQ (new_request : string -> option string) (get : string -> result string (Z * string))
  (r : Request) (g : Gateway) : Response :=
  if negb (String.eqb (Method r) "GET") then method_not_allowed else
  if is_empty (cdsProxyURL g) then http_json (Ok "[]") else
  let targetURL := TrimRight (cdsProxyURL g) slash +:+ "/dlq" in
  match new_request targetURL with
  | Some e => http_error ("creating proxy request: " +:+ e) StatusInternalServerError
  | None =>
    match get targetURL with
    | Err e => http_error ("CDS Guard unavailable: " +:+ e) StatusServiceUnavailable
    | Ok (code, body) => mkResponse code body
    end
  end.

(** * The periodic report of the link to the dashboards *)
Definition report_backhaul (tz : Z) (g : Gateway) : Gateway :=
  match mule g with
  | None => g
  | Some dm =>
    match marshal_ws_message tz (Metrics dm) with
    | Ok msg => set_hub (hub_send msg (hub g)) g
    | Err _ => g
    end
  end.
End Gateway.
Arguments Gateway : clear implicits.

(** * Facts about requests *)
Section Facts.
Local Open Scope list_scope.
Context `{U : Unicode} `{UL : !UnicodeLaws U} `{JE : JsonErrors} `{BE : BodyErrors}
  {B H : Type} `{BI : Bus B H}.
Implicit Types (g : Gateway B) (c : clock).

Lemma set_command_request_ok n v r r' :
  payload_map_ok (req_Parameters r) = true -> set_command_request n v r = Some r' ->
  payload_map_ok (req_Parameters r') = true.
Proof.
  destruct r as [t cm p]. cbn. intros Hp E. unfold set_command_request in E.
  split_ifs E; unbind E; injection E as <-; cbn; try done. by eapply decode_map_ok.
Qed.

Lemma decode_command_ok body req :
  decode_command body = Some req -> payload_map_ok (req_Parameters req) = true.
Proof.
  unfold decode_command, decode_body. intros E. unbind E.
  by refine (decode_struct_inv (fun r => payload_map_ok (req_Parameters r) = true) _ _
    set_command_request_ok x (mkCommandRequest "" "" None) req _ E).
Qed.

(** The envelope of an authorized command is built, validates and is published on
    the key of its target. *)
Lemma dispatch_command_spec c req g :
  payload_map_ok (req_Parameters req) = true -> req_TargetVehicle req <> "" -> req_CommandType req <> "" ->
  t1 c <> 0 -> t3 c <> 0 ->
  exists env bytes, Validate (Some env) = (None, Some env) /\ marshal_envelope env = Ok bytes /\
    Classification (Header env) = Tier2Restricted /\ Command env = Some (command_payload c req) /\
    Telemetry env = None /\
    let '(err, b) := Publish (command_key (req_TargetVehicle req)) bytes (gw_bus g) in
    Code (dispatch_command c req g).1 = match err with None => StatusOK | Some _ => StatusInternalServerError end /\
    (dispatch_command c req g).2 = set_gw_bus b g.
Proof.
  intros Hp Ht Hty H1 H3.
  destruct (new_command_envelope_ok Tier2Restricted "tactical-c2-gateway" (command_payload c req)
    ["OPERATOR_COMMAND"] (t2 c) (t3 c)) as (env & Henv & Hcl & Htel & Hcmd & Hval); try done.
  assert (is_ok (marshal_envelope env) = true) as Hok.
  { apply marshal_envelope_ok. split; [by rewrite Htel|]. rewrite Hcmd. intros ? [= <-].
    by apply command_ok_spec. }
  unfold dispatch_command. rewrite Henv. destruct (marshal_envelope env) as [bytes|] eqn:Eb; [|done].
  exists env, bytes. split_and!; [done|done|done|done|done|]. unfold publish_response.
  by destruct (Publish _ _ _) as [[e|] b].
Qed.

(** ** What [handleCommand] does on every branch *)
Definition refused (code : Z) (r : Response * Gateway B) (g : Gateway B) : Prop :=
  Code r.1 = code /\ r.2 = g.

(** C28. Every branch of the command endpoint. Another method, a body that does not
    decode, a missing field and an unauthorized target are refused with their
    status and change nothing. Otherwise a TIER-2 envelope around exactly the
    requested command, which passes validation, is offered to the bus once, on the
    command key of the target; the answer is 200 exactly when the bus took it, and
    nothing of the gateway but its bus changes. *)
Theorem handleCommand_branches c r g :
  t1 c <> 0 -> t3 c <> 0 ->
  if negb (String.eqb (Method r) "POST") then refused StatusMethodNotAllowed (handleCommand c r g) g else
  match decode_command (Body r) with
  | None => refused StatusBadRequest (handleCommand c r g) g
  | Some req =>
    if is_empty (req_TargetVehicle req) || is_empty (req_CommandType req)
    then refused StatusBadRequest (handleCommand c r g) g
    else if negb (authorized (fleet g) (req_TargetVehicle req))
    then refused StatusForbidden (handleCommand c r g) g
    else exists env bytes, Validate (Some env) = (None, Some env) /\ marshal_envelope env = Ok bytes /\
      Classification (Header env) = Tier2Restricted /\ Command env = Some (command_payload c req) /\
      let '(err, b) := Publish (command_key (req_TargetVehicle req)) bytes (gw_bus g) in
      Code (handleCommand c r g).1 = match err with None => StatusOK | Some _ => StatusInternalServerError end /\
      (handleCommand c r g).2 = set_gw_bus b g
  end.
Proof.
  intros H1 H3. unfold handleCommand. destruct (negb (String.eqb (Method r) "POST")); [done|].
  destruct (decode_command (Body r)) as [req|] eqn:E; [|done].
  destruct (is_empty (req_TargetVehicle req)) eqn:Et; [done|].
  destruct (is_empty (req_CommandType req)) eqn:Ec; [done|]. cbn [orb].
  destruct (authorized (fleet g) (req_TargetVehicle req)); [cbn [negb]|done].
  destruct (dispatch_command_spec c req g) as (env & bytes & Hv & Hb & Hcl & Hcmd & _ & Hpub);
    [by eapply decode_command_ok|by apply is_empty_spec|by apply is_empty_spec|done|done|].
  by exists env, bytes.
Qed.

(** ** Telemetry *)

(** What the gateway reads from a message: nothing from cloud-bound keys, from
    texts that are not an envelope and from envelopes without telemetry. *)
Definition telemetry_of (key payload : string) : option (SecurityHeader * TelemetryPayload) :=
  if cloud_bound key then None else
  match ParseJSONEnvelope payload with
  | Ok env => t ← Telemetry env; Some (Header env, t)
  | Err _ => None
  end.

Lemma handleTelemetry_of s now key payload g :
  handleTelemetry s now key payload g =
  match telemetry_of key payload with
  | None => g
  | Some (h, t) =>
    let g := mule_ingest s key payload g in
    set_hub (hub_send payload (hub g)) (set_fleet (update_fleet now h t (fleet g)) g)
  end.
Proof.
  unfold handleTelemetry, telemetry_of. destruct (cloud_bound key); [done|].
  destruct (ParseJSONEnvelope payload) as [env|]; [|done]. by destruct (Telemetry env).
Qed.

Lemma mule_ingest_fleet s key payload g :
  fleet (mule_ingest s key payload g) = fleet g /\ hub (mule_ingest s key payload g) = hub g.
Proof. unfold mule_ingest. destruct (mule g); [|done]. by destruct (mule_call _ _ _) as [[? ?] ?]. Qed.

Lemma append_point_lastn p l : append_point p (lastn 50 l) = lastn 50 (l ++ [p]).
Proof.
  unfold append_point, maxTrackPoints. rewrite lastn_snoc, length_app, length_lastn. cbn [length].
  destruct (Nat.ltb_spec 50 (50 `min` length l + 1)) as [Hlt|Hge].
  - pose proof (tail_lastn 50 l ltac:(lia)) as Ht. assert (length (lastn 50 l) = 50%nat) as Hl
      by (rewrite length_lastn; lia).
    destruct (lastn 50 l) as [|x l']; [done|]. cbn in *. by rewrite Ht.
  - by rewrite !lastn_all by lia.
Qed.

(** The messages of a run, each with its surroundings and time. *)
Definition message := (surroundings * Z * string * string)%type.

Definition telemetry_run (ms : list message) (g : Gateway B) : Gateway B :=
  fold_left (fun g '(s, now, key, payload) => handleTelemetry s now key payload g) ms g.

(** The reports read from a run about one vehicle, oldest first. *)
Definition report (m : message) : option (Z * SecurityHeader * TelemetryPayload) :=
  let '(_, now, key, payload) := m in
  '(h, t) ← telemetry_of key payload; Some (now, h, t).
Definition reports_on (v : string) (ms : list message) : list (Z * SecurityHeader * TelemetryPayload) :=
  filter (fun r => VehicleID r.2 = v) (omap report ms).

Definition track (rs : list (Z * SecurityHeader * TelemetryPayload)) : list Coordinates :=
  lastn 50 (map (fun r => Coords r.2) rs).
Definition entry_of (rs : list (Z * SecurityHeader * TelemetryPayload)) : option VehicleState :=
  '(now, h, t) ← last rs; Some (mkVehicleState t h now (track rs)).

Lemma track_snoc rs r : track (rs ++ [r]) = append_point (Coords r.2) (track rs).
Proof. unfold track. by rewrite map_app, append_point_lastn. Qed.

Lemma entry_of_track rs st : entry_of rs = Some st -> vs_TrackPoints st = track rs.
Proof. unfold entry_of. destruct (last rs) as [[[now h] t]|]; [|done]. by intros [= <-]. Qed.

Lemma entry_of_none rs : entry_of rs = None -> rs = [].
Proof.
  unfold entry_of. destruct (last rs) as [[[? ?] ?]|] eqn:E; [done|]. by apply last_None in E.
Qed.

Lemma update_fleet_entry now h t f rs v :
  (forall v, f !! v = entry_of (filter (fun r => VehicleID r.2 = v) rs)) ->
  update_fleet now h t f !! v = entry_of (filter (fun r => VehicleID r.2 = v) (rs ++ [(now, h, t)])).
Proof.
  intros Hf. unfold update_fleet. rewrite filter_app, filter_cons, filter_nil. cbn [snd].
  destruct (decide (VehicleID t = v)) as [<-|Hne].
  - rewrite lookup_insert_eq. set (rv := filter _ rs). unfold entry_of at 1. rewrite last_snoc.
    cbn. do 2 f_equal. rewrite track_snoc. cbn [snd]. f_equal. rewrite Hf. fold rv.
    destruct (entry_of rv) as [st|] eqn:E; [by apply entry_of_track|].
    by rewrite (entry_of_none _ E).
  - by rewrite lookup_insert_ne, Hf, app_nil_r.
Qed.

Lemma omap_report_cons m ms :
  omap report (m :: ms) = match report m with Some r => r :: omap report ms | None => omap report ms end.
Proof. done. Qed.

Lemma telemetry_run_fleet ms rs g :
  (forall v, fleet g !! v = entry_of (filter (fun r => VehicleID r.2 = v) rs)) ->
  (forall v, fleet (telemetry_run ms g) !! v =
    entry_of (filter (fun r => VehicleID r.2 = v) (rs ++ omap report ms))).
Proof.
  revert rs g. induction ms as [|[[[s now] key] payload] ms IH]; intros rs g Hg v.
  - cbn. by rewrite app_nil_r.
  - cbn [telemetry_run fold_left]. rewrite handleTelemetry_of.
    rewrite omap_report_cons.
    cbn [report]. destruct (telemetry_of key payload) as [[h t]|]; [|by apply IH]. cbn [mbind option_bind].
    rewrite (cons_middle (now, h, t)), (app_assoc rs). apply (IH _ (set_hub _ _)).
    intros v'. cbn [fleet set_hub set_fleet].
    rewrite (proj1 (mule_ingest_fleet s key payload g)). by apply update_fleet_entry.
Qed.

(** The fleet is a faithful summary of the telemetry. After any sequence of
    messages, the entry of a vehicle is its latest report, with the coordinates of
    its last fifty reports in order as its track; a vehicle without a report has no
    entry. *)
Theorem fleet_tracks ms b cds m created v :
  fleet (telemetry_run ms (NewGateway b cds m created)) !! v =
  match last (reports_on v ms) with
  | None => None
  | Some (now, h, t) =>
    Some (mkVehicleState t h now (lastn 50 (map (fun r => Coords r.2) (reports_on v ms))))
  end.
Proof.
  rewrite (telemetry_run_fleet ms []) by (intros; apply lookup_empty).
  cbn [app]. unfold entry_of. fold (reports_on v ms). by destruct (last _) as [[[? ?] ?]|].
Qed.

(** ** Who may be commanded *)

(** Authorization is decided by the last report, whoever wrote it: after any
    telemetry that parses, validated or not, its vehicle may be commanded exactly
    when the report claims the blue team. *)
Theorem telemetry_decides_authorization s now key payload env t g :
  cloud_bound key = false -> ParseJSONEnvelope payload = Ok env -> Telemetry env = Some t ->
  authorized (fleet (handleTelemetry s now key payload g)) (VehicleID t) = String.eqb (Team t) "blue".
Proof.
  intros Hk Hp Ht. rewrite handleTelemetry_of. unfold telemetry_of. rewrite Hk, Hp, Ht. cbn.
  unfold authorized, update_fleet. by rewrite lookup_insert_eq.
Qed.

(** What the mule sends back onto the shared bus, the gateway ignores. *)
Theorem mule_packets_ignored s now key payload g :
  handleTelemetry s now (formatUpstreamTopic key) payload g = g.
Proof. unfold handleTelemetry, cloud_bound. by rewrite formatUpstreamTopic_prefix. Qed.

(** ** Injection *)
Lemma inject_physical v n : physical (inject_telemetry v n).
Proof. split; [repeat constructor; by vm_compute|]. split; [|split]; by split. Qed.

Lemma synth_tier_valid tier : valid_tier (synth_tier tier) = true.
Proof.
  unfold synth_tier. destruct (String.eqb_spec tier Tier3Critical) as [->|]; [done|].
  destruct (String.eqb_spec tier Tier2Restricted) as [->|]; [done|].
  by destruct (String.eqb_spec tier Tier1Public) as [->|].
Qed.

(** The topic carries the tier of the envelope. *)
Lemma tier_token_key tier : TierToKey !! synth_tier tier = Some (tier_token (synth_tier tier)).
Proof.
  unfold synth_tier. destruct (String.eqb_spec tier Tier3Critical) as [->|]; [done|].
  destruct (String.eqb_spec tier Tier2Restricted) as [->|]; [done|].
  by destruct (String.eqb_spec tier Tier1Public) as [->|].
Qed.

Lemma inject_payload_marshals v n : telemetry_ok (Normalize (inject_telemetry v n)).
Proof. unfold telemetry_ok. apply Normalize_marshals; [apply inject_physical|done]. Qed.

Lemma inject_spec c req g :
  t2 c <> 0 ->
  exists env bytes, marshal_envelope env = Ok bytes /\
    Classification (Header env) = synth_tier (inj_Tier req) /\
    (if inj_Tamper req then
       is_digest_mismatch (Validate (Some env)).1 = true \/
       exists text, payload_text env = Some (Ok text) /\ EncodeToString (sha256 text) = zero_digest
     else Validate (Some env) = (None, Some env)) /\
    let '(err, b) := Publish (inject_key req) bytes (gw_bus g) in
    Code (inject c req g).1 = match err with None => StatusOK | Some _ => StatusInternalServerError end /\
    (inject c req g).2 = set_gw_bus b g.
Proof.
  intros H2. set (v := inject_vehicle (inj_TargetVehicle req)).
  assert (v <> "") as Hv.
  { unfold v, inject_vehicle. destruct (is_empty _) eqn:E; [done|by apply is_empty_spec]. }
  destruct (new_telemetry_envelope_ok (synth_tier (inj_Tier req)) "synthetic-cop-injector"
    (inject_telemetry v (u64 (t0 c))) ["TEST_INJECTION"] (t1 c) (t2 c))
    as (env & Henv & Htel & Hcmd & Hcl & Hval); try done; [apply synth_tier_valid|apply inject_physical|].
  unfold inject. fold v. rewrite Henv.
  set (env' := if inj_Tamper req then tamper env else env).
  assert (Telemetry env' = Telemetry env /\ Command env' = None /\
    Classification (Header env') = synth_tier (inj_Tier req)) as (Ht' & Hc' & Hcl')
    by (by unfold env'; destruct (inj_Tamper req)).
  assert (is_ok (marshal_envelope env') = true) as Hok.
  { apply marshal_envelope_ok. split; [|by rewrite Hc']. rewrite Ht', Htel. intros t [= <-].
    exact (inject_payload_marshals v (u64 (t0 c))). }
  destruct (marshal_envelope env') as [bytes|] eqn:Eb; [|done].
  exists env', bytes. split_and!; [done|done| |].
  - unfold env'. destruct (inj_Tamper req); [|done].
    destruct (Validate_with_digest zero_digest env) as (text & Etext & Ev); [by rewrite Hval|done|].
    unfold tamper. rewrite Ev. destruct (EqualFold _ _) eqn:Ef; [right|by left].
    exists text. split; [done|]. apply EqualFold_hex in Ef; [done|]. apply EncodeToString_hex, sha256_bytes.
  - unfold publish_response. by destruct (Publish _ _ _) as [[e|] b].
Qed.

(** Every branch of the injection endpoint. A decodable request publishes one
    envelope, of the requested tier or of TIER-3 when the request names no tier, on
    the telemetry key of the same tier; untampered it passes validation, and
    tampered it fails with a digest mismatch unless its true digest is the zero
    digest itself. *)
Theorem handleInject_branches c r g :
  t2 c <> 0 ->
  if negb (String.eqb (Method r) "POST") then refused StatusMethodNotAllowed (handleInject c r g) g else
  match decode_inject (Body r) with
  | None => refused StatusBadRequest (handleInject c r g) g
  | Some req =>
    TierToKey !! synth_tier (inj_Tier req) = Some (tier_token (synth_tier (inj_Tier req))) /\
    exists env bytes, marshal_envelope env = Ok bytes /\
      Classification (Header env) = synth_tier (inj_Tier req) /\
      (if inj_Tamper req then
         is_digest_mismatch (Validate (Some env)).1 = true \/
         exists text, payload_text env = Some (Ok text) /\ EncodeToString (sha256 text) = zero_digest
       else Validate (Some env) = (None, Some env)) /\
      let '(err, b) := Publish (inject_key req) bytes (gw_bus g) in
      Code (handleInject c r g).1 = match err with None => StatusOK | Some _ => StatusInternalServerError end /\
      (handleInject c r g).2 = set_gw_bus b g
  end.
Proof.
  intros H2. unfold handleInject. destruct (negb (String.eqb (Method r) "POST")); [done|].
  destruct (decode_inject (Body r)) as [req|]; [|done]. split; [apply tier_token_key|by apply inject_spec].
Qed.

(** ** The endpoints of the data mule *)
Section Outage.
Context `{BL : !BusLog B} `{BA : !BusAlive B}.

(** The telemetry among the messages, as it goes upstream. *)
Definition forwards (m : message) : option (string * string) :=
  let '(_, _, key, payload) := m in
  match telemetry_of key payload with Some _ => Some (formatUpstreamTopic key, payload) | None => None end.

(** The mule of [g] refers to the bus of [g]. *)
Definition mule_linked (dm : DataMule B) (g : Gateway B) : Prop :=
  mule g = Some dm /\ upstreamBus dm = Some (gw_bus g).

Lemma set_bus_same b (dm : DataMule B) : upstreamBus dm = Some b -> set_bus b dm = dm.
Proof. destruct dm. cbn. by intros ->. Qed.

Lemma mule_call_linked {A} (f : DataMule B -> A * DataMule B) dm b :
  upstreamBus dm = Some b ->
  mule_call f dm b = (f dm, default b (upstreamBus (f dm).2)).
Proof.
  intros Hb. unfold mule_call. rewrite Hb, (set_bus_same _ _ Hb). by destruct (f dm).
Qed.

Lemma telemetry_run_offline ms g dm h :
  mule_linked dm g -> simulatedDDIL dm = true -> (0 < maxBuffer dm)%nat ->
  sent <$> buffer dm = lastn (maxBuffer dm) h ->
  exists dm', mule_linked dm' (telemetry_run ms g) /\ gw_bus (telemetry_run ms g) = gw_bus g /\
    maxBuffer dm' = maxBuffer dm /\
    sent <$> buffer dm' = lastn (maxBuffer dm) (h ++ omap forwards ms).
Proof.
  revert g dm h. induction ms as [|m ms IH]; intros g dm h [Hm Hb] Hsim Hmax Hbuf.
  { exists dm. split_and!; try done. by rewrite app_nil_r. }
  assert (omap forwards (m :: ms) =
    match forwards m with Some f => f :: omap forwards ms | None => omap forwards ms end) as -> by done.
  destruct m as [[[s now] key] payload]. cbn [telemetry_run fold_left forwards]. rewrite handleTelemetry_of.
  destruct (telemetry_of key payload) as [[hd t]|]; [|by apply (IH g dm h)]. cbn zeta.
  destruct (Ingest_offline s key payload dm h (or_intror Hsim) Hmax Hbuf) as (E1 & E2 & E3 & E4 & E5).
  set (g1 := set_hub _ _).
  assert (gw_bus g1 = gw_bus g /\ mule g1 = Some (Ingest s key payload dm)) as [Eb Em].
  { unfold g1, mule_ingest. rewrite Hm, (mule_call_linked _ _ _ Hb). cbn. by rewrite E4, Hb. }
  rewrite (cons_middle (formatUpstreamTopic key, payload) h), (app_assoc h).
  destruct (IH g1 (Ingest s key payload dm) (h ++ [(formatUpstreamTopic key, payload)]))
    as (dm' & Hl & Hbus & Hmax' & Hbuf').
  - split; [done|]. by rewrite E4, Hb, Eb.
  - by rewrite E2.
  - by rewrite E3.
  - by rewrite E3.
  - exists dm'. rewrite E3 in Hmax', Hbuf'. rewrite Eb in Hbus. by split_and!.
Qed.

(** C30. An outage seen from the gateway. An operator takes the link down, telemetry
    arrives, the operator restores the link: while it is down the shared bus sees
    nothing from the mule, and restoring it publishes, on a working bus, every
    telemetry message of the outage below upstream/, in order, once (the most
    recent ones when they exceed the buffer). *)
Theorem gateway_outage s1 s2 r1 r2 g dm ms :
  Method r1 = "POST" -> decode_simulate (Body r1) = Some (mkSimulate true) ->
  Method r2 = "POST" -> decode_simulate (Body r2) = Some (mkSimulate false) ->
  mule g = Some dm -> is_Some (upstreamBus dm) -> buffer dm = [] -> (0 < maxBuffer dm)%nat ->
  alive (gw_bus g) ->
  let g1 := (handleBackhaulSimulate s1 r1 g).2 in
  let g2 := telemetry_run ms g1 in
  let g3 := (handleBackhaulSimulate s2 r2 g2).2 in
  acked (gw_bus g2) = acked (gw_bus g) /\
  acked (gw_bus g3) = acked (gw_bus g) ++ lastn (maxBuffer dm) (omap forwards ms) /\
  exists dm3, mule g3 = Some dm3 /\ buffer dm3 = [] /\ status dm3 = BackhaulOnline.
Proof.
  intros M1 D1 M2 D2 Hm [b0 Hb0] Hbuf Hmax Hal g1 g2 g3.
  assert (mule_linked (SetSimulationMode s1 true (set_bus (gw_bus g) dm)).2 g1 /\ gw_bus g1 = gw_bus g) as [Hl Hb1].
  { unfold g1, handleBackhaulSimulate. rewrite M1, Hm, D1. unfold mule_call. by rewrite Hb0. }
  destruct (telemetry_run_offline ms g1 _ [] Hl eq_refl) as (dm2 & [Hm2 Hb2] & Hbus & _ & Hbuf2);
    [done|by cbn; rewrite Hbuf|]. fold g2 in Hm2, Hb2, Hbus.
  rewrite Hb1 in Hbus. split; [by rewrite Hbus|]. rewrite Hbus in Hb2.
  destruct (restore_flushes s2 dm2 _ Hb2 Hal) as ((b' & Eb' & _ & Hack) & Hbuf' & Hst & _).
  rewrite Hbuf2 in Hack. unfold g3, handleBackhaulSimulate. rewrite M2, Hm2, D2, Hbus.
  cbn [negb String.eqb]. rewrite (mule_call_linked _ _ _ Hb2). cbn [DDILActive].
  destruct (SetSimulationMode s2 false dm2) as [metrics dm3] eqn:E. cbn [snd] in *. cbn.
  rewrite Eb'. split; [exact Hack|]. by exists dm3.
Qed.
End Outage.
End Facts.

(** * Concrete runs *)
Module GatewaySamples.
#[local] Existing Instance caseless.
#[local] Existing Instance caseless_laws.
#[local] Instance no_text : JsonErrors := fun _ => "syntax error".
#[local] Instance no_body_text : BodyErrors :=
  {| simulate_error _ := "EOF"; command_error _ := "EOF"; inject_error _ := "EOF" |}.

(** JSON written with single quotes. *)
Definition json (s : string) : string := str_map (fun a => if az a =? 39 then za 34 else a) s.
Definition text (e : SecurityEnvelope) : string :=
  match marshal_envelope e with Ok s => s | Err _ => "" end.

Definition at_noon : clock := mkClock 100 101 102 103.
Definition env : surroundings := mkSurroundings 1000 1001 0 true true.
Definition post (body : string) : Request := mkRequest "POST" (json body).

Definition bus_type := Recorded (MemoryBus nat).
Definition bus0 : bus_type := mkRecorded NewMemoryBus [].
Definition mule0 : DataMule bus_type :=
  mkMule BackhaulOnline "relay" None "" [] 50%nat 38 0 0 false (Some bus0).
Definition gw0 : Gateway bus_type := NewGateway bus0 "http://cds:8081/" (Some mule0) (Err "unused").

(** Telemetry of red-1 that claims the blue team, with a digest of zeros. *)
Definition spoof : SecurityEnvelope :=
  mkEnvelope (mkHeader Tier2Restricted "spoofer" 1 "m" zero_digest []) (Some (inject_telemetry "red-1" 1)) None.
Definition key2 : string := "sec/tier2/drone/blue/bravo/telemetry".
Definition messages : list message :=
  [(env, 7, key2, text Samples.env2); (env, 8, "upstream/" +:+ key2, text Samples.env2);
   (env, 9, key2, text spoof)].

Definition rtb : Request := post "{'target_vehicle':'blue-alpha','command_type':'RETURN_TO_BASE'}".
Definition rtb_red : Request := post "{'target_vehicle':'red-1','command_type':'RETURN_TO_BASE'}".
Definition down : Request := post "{'ddil_active':true}".
Definition up : Request := post "{'ddil_active':false} trailing".
Definition probe : Request := post "{'tamper':true,'tier':'TIER-2: RESTRICTED'}".

(** The codes of the branches, and the keys that reach the bus. *)
Example command_codes :
  map (fun r => Code (handleCommand at_noon r gw0).1)
    [mkRequest "GET" ""; post "{"; post "{'target_vehicle':'alpha'}"; rtb_red; rtb] = [405; 400; 400; 403; 200].
Proof. by vm_compute. Qed.

Example command_response :
  (handleCommand at_noon rtb gw0).1 = mkResponse 200 (json
    "{'command_id':'cmd-100','status':'DISPATCHED','topic':'sec/tier2/drone/blue/blue-alpha/command'}" +:+ newline).
Proof. by vm_compute. Qed.

Example spoofed_red_is_commanded :
  let g := telemetry_run messages gw0 in
  (Code (handleCommand at_noon rtb_red g).1,
   map fst (acked (gw_bus (handleCommand at_noon rtb_red g).2)))
  = (200, ["upstream/" +:+ key2; "upstream/" +:+ key2; "sec/tier2/drone/blue/red-1/command"]).
Proof. by vm_compute. Qed.
End GatewaySamples.

Lemma handleCommand_branches_witness :
  exists env bytes,
    @Validate caseless (Some env) = (None, Some env) /\ marshal_envelope env = Ok bytes.
Proof.
  pose proof (@handleCommand_branches caseless caseless_laws GatewaySamples.no_body_text
    GatewaySamples.bus_type nat _ GatewaySamples.at_noon GatewaySamples.rtb GatewaySamples.gw0
    ltac:(done) ltac:(done)) as H.
  assert (decode_command (U:=caseless) (Body GatewaySamples.rtb) =
    Some (mkCommandRequest "blue-alpha" "RETURN_TO_BASE" None)) as E by (vm_compute; reflexivity).
  rewrite E in H. cbn [negb String.eqb Method GatewaySamples.rtb GatewaySamples.post] in H.
  destruct H as (env & bytes & Hv & Hb & _). exists env, bytes. split; [exact Hv|exact Hb].
Defined.

(** A spoofed report that fails validation makes red-1 commandable. *)
Lemma telemetry_decides_authorization_witness :
  is_digest_mismatch (@Validate caseless (Some GatewaySamples.spoof)).1 = true /\
  authorized (fleet (handleTelemetry (U:=caseless) (JE:=GatewaySamples.no_text) GatewaySamples.env 9
    GatewaySamples.key2 (GatewaySamples.text GatewaySamples.spoof) GatewaySamples.gw0)) "red-1" = true.
Proof.
  split; [by vm_compute|].
  apply (@telemetry_decides_authorization caseless GatewaySamples.no_text GatewaySamples.bus_type nat _
    GatewaySamples.env 9 GatewaySamples.key2 (GatewaySamples.text GatewaySamples.spoof)
    (mkEnvelope (Header GatewaySamples.spoof) (Some (inject_telemetry "red-1" 1)) None)
    (inject_telemetry "red-1" 1) GatewaySamples.gw0); by vm_compute.
Defined.

Lemma handleInject_branches_witness :
  exists env bytes, marshal_envelope env = Ok bytes /\ Classification (Header env) = Tier2Restricted.
Proof.
  pose proof (@handleInject_branches caseless caseless_laws GatewaySamples.no_body_text
    GatewaySamples.bus_type nat _ GatewaySamples.at_noon GatewaySamples.probe GatewaySamples.gw0
    ltac:(done)) as H.
  assert (decode_inject (U:=caseless) (Body GatewaySamples.probe) =
    Some (mkInject Tier2Restricted true "")) as E by (vm_compute; reflexivity).
  rewrite E in H. cbn [negb String.eqb Method GatewaySamples.probe GatewaySamples.post] in H.
  destruct H as (_ & env & bytes & Hb & Hc & _). exists env, bytes. split; [exact Hb|exact Hc].
Defined.

Lemma gateway_outage_witness :
  let g1 := (handleBackhaulSimulate (U:=caseless) (BE:=GatewaySamples.no_body_text)
    GatewaySamples.env GatewaySamples.down GatewaySamples.gw0).2 in
  let g2 := telemetry_run (U:=caseless) (JE:=GatewaySamples.no_text) GatewaySamples.messages g1 in
  acked (gw_bus g2) = acked (gw_bus GatewaySamples.gw0).
Proof.
  intros g1 g2.
  assert (decode_simulate (U:=caseless) (Body GatewaySamples.down) = Some (mkSimulate true)) as E1
    by (vm_compute; reflexivity).
  assert (decode_simulate (U:=caseless) (Body GatewaySamples.up) = Some (mkSimulate false)) as E2
    by (vm_compute; reflexivity).
  assert (0 < maxBuffer GatewaySamples.mule0)%nat as Hmax by (cbn; lia).
  assert (alive (gw_bus GatewaySamples.gw0)) as Hal by reflexivity.
  destruct (@gateway_outage caseless GatewaySamples.no_text GatewaySamples.no_body_text
    GatewaySamples.bus_type nat _ _ _ GatewaySamples.env GatewaySamples.env
    GatewaySamples.down GatewaySamples.up GatewaySamples.gw0 GatewaySamples.mule0
    GatewaySamples.messages eq_refl E1 eq_refl E2 eq_refl (mk_is_Some _ _ eq_refl) eq_refl Hmax Hal)
    as [Hg _].
  exact Hg.
Defined.
