(* ===== verification/GuardMain.v ===== *)
(** cmd/cds-guard/main.go, the main function: what has to succeed before the guard
    runs, the packets it is handed while it runs, its inspection server, and what is
    closed at the end. *)
From Stdlib Require Import Strings.Ascii Strings.String.
From S2P Require Import Prelude GoString Json Topic Bus Schema Policy Dlq Guard Http Server Gateway.

Local Open Scope string_scope.
Local Open Scope Z_scope.
Local Open Scope go_scope.

(** * Start *)
Record GuardFlags := mkGuardFlags {
  gf_router : string; gf_http_port : Z; gf_audit_file : string; gf_coarsen_decimals : Z; gf_mock : bool;
}.
Definition default_guard_flags : GuardFlags := mkGuardFlags "http://127.0.0.1:8000" 8081 "logs/cds-audit.jsonl" 2 false.

(** The outcomes of the file operations, and the audit file as it is found. *)
Record disk_state := mkDisk { mkdir_error : option string; open_error : option string; found_lines : list string }.

Section Main.
Context `{U : Unicode} `{JE : JsonErrors} {B H : Type} `{BI : Bus B H}.

(** [connect] is the bus of the flags: in memory, or the client of the router; [h] is
    the handler that is subscribed. An error is what [log.Fatalf] prints. *)
Definition guard_start (connect : bool -> string -> B) (h : H) (d : disk_state) (f : GuardFlags)
  : result string (CDSGuard B) :=
  match mkdir_error d with
  | Some e => Err ("creating audit log directory: " +:+ e)
  | None =>
    match NewDeadLetterQueue 500 (gf_audit_file f) (found_lines d) (open_error d) with
    | Err e => Err ("initializing DLQ: " +:+ e)
    | Ok q =>
      let g := NewCDSGuard (connect (gf_mock f) (gf_router f)) q (gf_coarsen_decimals f) in
      match Subscribe ingressSelector h (bus g) with
      | (Some e, _) => Err ("subscribing to ingress: " +:+ e)
      | (None, b) => Ok (mkGuard b (engine g) (dlq g) (stats g))
      end
    end
  end.

(** * The inspection server *)
Definition marshal_stats (s : CDSStats) : result string string :=
  marshal_fields [int_field "ingress_total" (IngressTotal s); int_field "passed" (Passed s);
    int_field "redacted" (Redacted s); int_field "quarantined" (Quarantined s)].

(** A [map[string]any] is written in the order of its keys. *)
Definition guard_health (g : CDSGuard B) : Response :=
  http_json (marshal_fields (sort_keys [str_field "status" "HEALTHY"; ("stats", marshal_stats (stats g))])).

Definition guard_dlq (g : CDSGuard B) : Response :=
  http_json (marshal_list (map marshal_record (GetRecords 50 (dlq g)))).

Definition guard_mux : ServeMux (CDSGuard B -> Response) :=
  mkMux [("/health", guard_health); ("/dlq", guard_dlq)] None.

Definition guard_serve (method path : string) (g : CDSGuard B) : served Response :=
  match mux_dispatch guard_mux method path with
  | Handled h => Handled (h g)
  | MovedPermanently p => MovedPermanently p
  | PageNotFound => PageNotFound
  end.

(** * Running

    The handler is called for every message that arrives; a panic in it ends the
    process. *)
Record arrival := mkArrival { ar_ambient : ambient; ar_key : string; ar_payload : string }.

Fixpoint guard_run (l : list arrival) (g : CDSGuard B) : outcome * CDSGuard B :=
  match l with
  | [] => (Returned, g)
  | m :: l =>
    match ingress_handler (ar_ambient m) (ar_key m) (ar_payload m) g with
    | (Returned, g) => guard_run l g
    | (Panicked, g) => (Panicked, g)
    end
  end.

(** The deferred calls: the bus is closed, then the audit file. *)
Definition guard_stop (g : CDSGuard B) : CDSGuard B :=
  mkGuard (Close (bus g)).2 (engine g) (CloseDlq (dlq g)) (stats g).
End Main.

(** * What the inspection server shows *)
Section Inspection.
Local Open Scope list_scope.
Context `{U : Unicode} `{JE : JsonErrors} {B H : Type} `{BI : Bus B H}.
Implicit Types g : CDSGuard B.

(** The packets of a run that the policy looks at, and those it quarantines. *)
Definition inspected (l : list arrival) : list arrival := filter (fun m => negb (ingress_filtered (ar_key m))) l.
Definition rejected (pe : PolicyEngine) (l : list arrival) : list arrival :=
  filter (fun m => quarantines pe (ar_payload m)) (inspected l).
Definition verdicts (action : EnforcementAction) (l : list arrival) : list arrival :=
  filter (fun m => decodes_to action (ar_payload m)) (inspected l).

Definition packet_of (r : DLQRecord) : string * string := (SourceTopic r, RawPayload r).
Definition arrived (m : arrival) : string * string := (ar_key m, ar_payload m).
Definition tally (l : list arrival) : Z := u64 (Z.of_nat (length l)).

(** What the guard keeps after the packets [l]. *)
Record kept_books (pe : PolicyEngine) (l : list arrival) g : Prop := {
  kept_engine : engine g = pe;
  kept_capacity : maxCapacity (dlq g) = 500%nat;
  kept_records : map packet_of (records (dlq g)) = lastn 500 (map arrived (rejected pe l));
  kept_stats : stats g = mkStats (tally (inspected l)) (tally (verdicts ActionPass l))
    (tally (verdicts ActionRedactPass l)) (tally (rejected pe l));
}.

Lemma filter_snoc (P : arrival -> bool) l m :
  filter (fun m => P m) (l ++ [m]) = filter (fun m => P m) l ++ if P m then [m] else [].
Proof. rewrite filter_app, filter_cons, filter_nil. by destruct (P m). Qed.

Lemma tally_more l m : tally (l ++ [m]) = u64 (tally l + 1).
Proof. unfold tally, u64. rewrite length_app. cbn [length]. by rewrite Nat2Z.inj_add, Z.add_mod_idemp_l. Qed.

Lemma tally_snoc (P : arrival -> bool) l m :
  tally (filter (fun m => P m) (l ++ [m])) = bump (P m) (tally (filter (fun m => P m) l)).
Proof. rewrite filter_snoc. unfold bump. destruct (P m); [apply tally_more|by rewrite app_nil_r]. Qed.

Lemma ingress_keeps_books pe l m g :
  kept_books pe l g -> kept_books pe (l ++ [m]) (ingress_handler (ar_ambient m) (ar_key m) (ar_payload m) g).2.
Proof.
  intros [He Hc Hr Hs]. unfold ingress_handler.
  assert (inspected (l ++ [m]) = inspected l ++ if negb (ingress_filtered (ar_key m)) then [m] else []) as Hi
    by apply (filter_snoc (fun m => negb (ingress_filtered (ar_key m)))).
  destruct (ingress_filtered (ar_key m)); cbn [negb] in Hi.
  - rewrite app_nil_r in Hi. split; try done; unfold rejected, verdicts in *; by rewrite Hi.
  - destruct (ProcessPacket_counts (ar_ambient m) (ar_key m) (ar_payload m) g) as (H1 & H2 & H3 & H4).
    rewrite Hs, He in *. cbn [IngressTotal Passed Redacted Quarantined] in H1.
    assert (rejected pe (l ++ [m]) = rejected pe l ++ if quarantines pe (ar_payload m) then [m] else []) as Hrej
      by (unfold rejected; rewrite Hi; apply (filter_snoc (fun m => quarantines pe (ar_payload m)))).
    split; [done|by rewrite H3| |].
    + rewrite Hrej. destruct (quarantines pe (ar_payload m)); [|by rewrite H4, app_nil_r].
      destruct H4 as (rec & -> & Ht & Hp). rewrite (map_app arrived). cbn [map].
      replace (arrived m) with (packet_of rec) by (unfold packet_of, arrived; by rewrite Ht, Hp).
      rewrite <- Hc. apply (evict_lastn packet_of); rewrite Hc; [lia|done].
    + rewrite H1. unfold rejected, verdicts. rewrite Hi, !tally_snoc, tally_more. done.
Qed.

Lemma run_keeps_books pe l k g g' :
  kept_books pe l g -> guard_run k g = (Returned, g') -> kept_books pe (l ++ k) g'.
Proof.
  revert l g. induction k as [|m k IH]; intros l g Hg; cbn [guard_run]; [intros [= <-]; by rewrite app_nil_r|].
  pose proof (ingress_keeps_books pe l m g Hg) as Hm.
  destruct (ingress_handler _ _ _ g) as [[] g1]; [|done]. intros Hk.
  replace (l ++ m :: k) with ((l ++ [m]) ++ k) by by rewrite <- app_assoc. by apply (IH _ g1).
Qed.

Lemma started_books connect (h : H) d f g :
  guard_start connect h d f = Ok g -> kept_books (NewPolicyEngine (gf_coarsen_decimals f)) [] g.
Proof.
  unfold guard_start, NewDeadLetterQueue. destruct (mkdir_error d); [done|].
  destruct (is_empty _); [|destruct (open_error d); [done|]];
    (destruct (Subscribe _ _ _) as [[e|] b]; [done|]; intros [= <-]; by split).
Qed.

(** The dead letters that are shown. *)
Lemma GetRecords_view {A} (f : DLQRecord -> A) limit q h :
  0 < limit <= Z.of_nat (maxCapacity q) -> map f (records q) = lastn (maxCapacity q) h ->
  map f (GetRecords limit q) = lastn (Z.to_nat limit) h.
Proof.
  intros Hl Hr. rewrite GetRecords_recent. replace (limit <=? 0) with false by lia.
  unfold lastn at 1. rewrite <- skipn_map, <- (length_map f), Hr. change (lastn ?n ?x) with (drop (length x - n) x).
  rewrite drop_drop, length_drop. f_equal. lia.
Qed.

(** C17. The inspection server tells the truth. Once the guard has started, after any
    packets that did not kill it, /dlq answers with the JSON array of the last fifty
    packets that the policy rejects among those the subscription lets through, each with
    its topic and its bytes, oldest first; /health answers with the numbers of packets
    inspected, passed, redacted and rejected since the start, modulo 2^64. Any other path
    that is clean is not found. *)
Theorem inspection_is_accurate connect (h : H) d f g0 l g :
  guard_start connect h d f = Ok g0 -> guard_run l g0 = (Returned, g) ->
  let pe := NewPolicyEngine (gf_coarsen_decimals f) in
  (exists recs, guard_serve "GET" "/dlq" g = Handled (http_json (marshal_list (map marshal_record recs))) /\
     map packet_of recs = lastn 50 (map arrived (rejected pe l))) /\
  guard_serve "GET" "/health" g = Handled (http_json (marshal_fields [
    ("stats", marshal_stats (mkStats (tally (inspected l)) (tally (verdicts ActionPass l))
      (tally (verdicts ActionRedactPass l)) (tally (rejected pe l)))); str_field "status" "HEALTHY"])) /\
  (forall path, cleanPath path = path -> path <> "/dlq" -> path <> "/health" -> guard_serve "GET" path g = PageNotFound).
Proof.
  intros Hs%started_books Hr pe. apply (run_keeps_books pe [] l) in Hr; [|done]. destruct Hr as [He Hc Hd Hst].
  split; [|split].
  - exists (GetRecords 50 (dlq g)). split; [done|]. apply (GetRecords_view packet_of 50); rewrite Hc; [lia|done].
  - unfold guard_serve. cbn [mux_dispatch]. change (mux_dispatch guard_mux "GET" "/health") with (Handled (@guard_health B)).
    unfold guard_health. by rewrite Hst.
  - intros path Hp H1 H2. unfold guard_serve, mux_dispatch, mux_match. rewrite Hp, String.eqb_refl.
    change (String.eqb "GET" "CONNECT") with false. cbn [routes guard_mux List.find fst catch_all].
    destruct (String.eqb_spec "/health" path) as [E|]; [by destruct H2|]. by destruct (String.eqb_spec "/dlq" path) as [E|]; [destruct H1|].
Qed.

(** The guard starts exactly when the three steps succeed; each failure is reported
    with the step that failed. *)
Theorem guard_start_outcome connect (h : H) d f :
  gf_audit_file f <> "" ->
  guard_start connect h d f =
    match mkdir_error d, open_error d, Subscribe ingressSelector h (connect (gf_mock f) (gf_router f)) with
    | Some e, _, _ => Err ("creating audit log directory: " +:+ e)
    | None, Some e, _ => Err ("initializing DLQ: opening audit log file " +:+ quote (gf_audit_file f) +:+ ": " +:+ e)
    | None, None, (Some e, _) => Err ("subscribing to ingress: " +:+ e)
    | None, None, (None, b) =>
      Ok (NewCDSGuard b (mkDlq [] 500 (gf_audit_file f) (Some (mkAudit (found_lines d) true))) (gf_coarsen_decimals f))
    end.
Proof.
  intros Hne. unfold guard_start, NewDeadLetterQueue. destruct (mkdir_error d); [done|].
  rewrite (proj2 (is_empty_spec _) Hne). by destruct (open_error d).
Qed.
End Inspection.

(** * A concrete run: a broken packet, one to redact, and a command that is ignored. *)
Module GuardMainSamples.
#[local] Existing Instance caseless.
#[local] Existing Instance caseless_laws.
#[local] Existing Instance GuardSamples.no_text.
Local Open Scope list_scope.

Definition connect (mock : bool) (url : string) : Recorded (MemoryBus nat) := mkRecorded NewMemoryBus [].
Definition flags : GuardFlags := mkGuardFlags "" 8081 "audit.jsonl" 2 true.
Definition disk : disk_state := mkDisk None None [].
Definition arrivals : list arrival :=
  [mkArrival GuardSamples.now "sec/tier2/x" "{"; mkArrival GuardSamples.now GuardSamples.key2 (GuardSamples.text Samples.env2);
   mkArrival GuardSamples.now "sec/tier2/drone/blue/bravo/command" "{"].
Definition started : CDSGuard (Recorded (MemoryBus nat)) := Eval vm_compute in
  match guard_start connect 7%nat disk flags with Ok g => g | Err _ => NewCDSGuard (connect true "") (mkDlq [] 0 "" None) 0 end.
Definition ran : CDSGuard (Recorded (MemoryBus nat)) := Eval vm_compute in (guard_run arrivals started).2.
Lemma guard_start_ok : guard_start connect 7%nat disk flags = Ok started.
Proof. vm_compute. reflexivity. Qed.
Lemma run_ok : guard_run arrivals started = (Returned, ran).
Proof. vm_compute. reflexivity. Qed.

Example health_text : guard_serve "GET" "/health" ran =
  Handled (mkResponse 200 ("{" +:+ quote "stats" +:+ ":{" +:+ quote "ingress_total" +:+ ":2," +:+ quote "passed" +:+ ":0," +:+
    quote "redacted" +:+ ":1," +:+ quote "quarantined" +:+ ":1}," +:+ quote "status" +:+ ":" +:+ quote "HEALTHY" +:+ "}" +:+ newline)).
Proof. by vm_compute. Qed.
Example unclean_path : guard_serve "GET" "//dlq" ran = MovedPermanently "/dlq".
Proof. by vm_compute. Qed.
End GuardMainSamples.

Lemma inspection_is_accurate_witness :
  (exists recs, guard_serve "GET" "/dlq" GuardMainSamples.ran = Handled (http_json (marshal_list (map marshal_record recs))) /\
     map packet_of recs = [("sec/tier2/x", "{")]%list) /\
  guard_serve "GET" "/other" GuardMainSamples.ran = PageNotFound.
Proof.
  destruct (@inspection_is_accurate caseless GuardSamples.no_text _ nat _ GuardMainSamples.connect 7%nat
    GuardMainSamples.disk GuardMainSamples.flags GuardMainSamples.started GuardMainSamples.arrivals GuardMainSamples.ran
    GuardMainSamples.guard_start_ok GuardMainSamples.run_ok) as ((recs & H1 & H2) & _ & H3).
  split; [|apply H3; [vm_compute; reflexivity|discriminate|discriminate]].
  exists recs. split; [exact H1|]. rewrite H2. vm_compute. reflexivity.
Defined.

Lemma guard_start_outcome_witness :
  guard_start (U:=caseless) GuardMainSamples.connect 7%nat (mkDisk None (Some "denied") []) GuardMainSamples.flags =
    Err ("initializing DLQ: opening audit log file " +:+ quote (U:=caseless) "audit.jsonl" +:+ ": denied").
Proof.
  rewrite (@guard_start_outcome caseless _ nat _ GuardMainSamples.connect 7%nat
    (mkDisk None (Some "denied") []) GuardMainSamples.flags ltac:(discriminate)). reflexivity.
Defined.
