(* ===== verification/System.v ===== *)
(** The programs together: what the operator's commands do to the vehicles, and what
    becomes of a vehicle's reports at the gateway and at the guard. *)
From Stdlib Require Import Strings.Ascii Strings.String SpecFloat.
From S2P Require Import Prelude GoString Utf8 Float64 Json JsonFacts JsonValue Topic Bus Schema RoundTrip Policy.
From S2P Require Import GoTime Dlq Guard DataMule VehicleSim EdgeAgent Http Hub Gateway.

Local Open Scope string_scope.
Local Open Scope Z_scope.
Local Open Scope go_scope.

(** * Command topics *)

(** A component of a key without separators and wild cards. *)
Definition plain_part (s : string) : bool := key_part s && free_of "*" s.

Lemma free_star_lower s : free_of "*" (str_map lower_ascii s) = free_of "*" s.
Proof.
  assert (forall a, eqb (Ascii.eqb (lower_ascii a) "*") (Ascii.eqb a "*") = true) as H
    by (apply forall_ascii; by vm_compute).
  unfold free_of. rewrite str_forall_map. induction s as [|a s IH]; [done|]. cbn.
  by rewrite (eqb_prop _ _ (H a)), IH.
Qed.

(** Without wild cards a selector matches exactly itself. *)
Lemma match_parts_plain sel key :
  Forall (fun p => free_of "*" p = true) sel -> match_parts sel key = bool_decide (sel = key).
Proof.
  intros H. revert key. induction H as [|s sel Hs _ IH]; intros [|k key]; [done|done| |]; cbn [match_parts];
    (assert (s <> "*" /\ s <> "**") as [H1 H2] by (split; by intros ->)).
  - rewrite (proj2 (String.eqb_neq _ _) H2). by destruct sel.
  - rewrite (proj2 (String.eqb_neq _ _) H2), (proj2 (String.eqb_neq _ _) H1). cbn [orb].
    destruct (String.eqb_spec s k) as [->|Hne]; [|symmetry; apply bool_decide_eq_false; congruence].
    rewrite IH. apply bool_decide_ext. split; congruence.
Qed.

Section Topics.
Context `{U : Unicode}.

Lemma plain_part_parts s : plain_part s = true -> key_part s = true /\ str_forall is_ascii s = true /\
  free_of "*" (ToLower s) = true /\ free_of slash (ToLower s) = true.
Proof.
  intros [Hk Hs]%andb_prop. destruct (key_part_lower s Hk) as [El Ef]. pose proof Hk as [Ha _]%andb_prop.
  split; [done|]. split; [done|]. split; [by rewrite El, free_star_lower|done].
Qed.

(** Keys of commands agree exactly when their components do, up to case. *)
Lemma command_selector_matches v te u v' te' u' :
  Forall (fun p => plain_part p = true) [v; te; u; v'; te'; u'] ->
  MatchesSelector (BuildKey "tier2" v te u "command") (BuildKey "tier2" v' te' u' "command") =
    bool_decide ((ToLower v, ToLower te, ToLower u) = (ToLower v', ToLower te', ToLower u')).
Proof.
  rewrite !Forall_cons. intros (H1 & H2 & H3 & H4 & H5 & H6 & _).
  apply plain_part_parts in H1 as (_ & _ & S1 & F1), H2 as (_ & _ & S2 & F2), H3 as (_ & _ & S3 & F3),
    H4 as (_ & _ & S4 & F4), H5 as (_ & _ & S5 & F5), H6 as (_ & _ & S6 & F6).
  rewrite MatchesSelector_parts, !BuildKey_join. change slash with "/"%char in *.
  rewrite !Split_join by (done || (repeat constructor; done)).
  rewrite match_parts_plain by (repeat constructor; done).
  apply bool_decide_ext. split; [by intros [= -> -> ->]|by intros [= -> -> ->]].
Qed.
End Topics.

(** * Commands of the operator *)

(** An empty map of parameters is left out by the encoder. *)
Definition omit_empty (m : option (list (string * any))) : option (list (string * any)) :=
  match m with Some [] => None | _ => m end.
Definition canonical_command (c : CommandPayload) : CommandPayload :=
  mkCommand (CommandID c) (TargetVehicle c) (CommandType c) (omit_empty (Parameters_ c)) (IssuedAtNs c) (Issuer c).
Definition canonical_envelope (e : SecurityEnvelope) : SecurityEnvelope :=
  mkEnvelope (Header e) (Telemetry e) (canonical_command <$> Command e).

Lemma marshal_canonical_command c : marshal_command (canonical_command c) = marshal_command c.
Proof. unfold marshal_command, canonical_command. cbn. by destruct (Parameters_ c) as [[]|]. Qed.
Lemma marshal_canonical_envelope e : marshal_envelope (canonical_envelope e) = marshal_envelope e.
Proof.
  destruct e as [h t [c|]]; [|done]. unfold marshal_envelope, canonical_envelope. cbn [Header Telemetry Command fmap option_fmap option_map].
  by rewrite marshal_canonical_command.
Qed.

(** The vehicles whose command topic is that of a target. *)
Definition commands_vehicle `{U : Unicode} (target : string) (v : VehicleSim) : bool :=
  bool_decide ((ToLower (vehicleType v), ToLower (team v), ToLower (id v)) = ("drone", "blue", ToLower target)).

Section Commands.
Local Open Scope list_scope.
Context `{U : Unicode} `{UL : !UnicodeLaws U} `{JE : JsonErrors} `{BE : BodyErrors}.
Context {B H : Type} `{BI : Bus B H} `{BL : !BusLog B} `{BA : !BusAlive B}.
Implicit Types (g : Gateway B).

(** What a vehicle does with the text of an envelope on its own topic. *)
Lemma command_handler_own key s env cmd v :
  MatchesSelector (sim_cmdTopic v) key = true -> unmarshal_envelope s = Some env -> Command env = Some cmd ->
  command_handler key s v = HandleCommand cmd v.
Proof.
  intros Hm Hu Hc. unfold command_handler, received_command, ParseJSONEnvelope. by rewrite Hm, Hu, Hc.
Qed.
Lemma command_handler_other key s v :
  MatchesSelector (sim_cmdTopic v) key = false -> command_handler key s v = v.
Proof. intros Hm. unfold command_handler, received_command. by rewrite Hm. Qed.

Lemma HandleCommand_named cmd v : ToLower (TargetVehicle cmd) = ToLower (id v) -> HandleCommand cmd v = execute (CommandType cmd) v.
Proof.
  intros E. unfold HandleCommand, addressed, callsign. by rewrite E, String.eqb_refl, orb_true_r.
Qed.

Lemma topic_of_target target v :
  plain_part target = true -> Forall (fun p => plain_part p = true) [vehicleType v; team v; id v] ->
  MatchesSelector (sim_cmdTopic v) (command_key target) = commands_vehicle target v.
Proof.
  intros Ht Hv. unfold sim_cmdTopic, command_key, commands_vehicle. rewrite !Forall_cons in Hv.
  destruct Hv as (H1 & H2 & H3 & _). rewrite command_selector_matches by (repeat constructor; done). done.
Qed.

(** C21. From the operator to the vehicle. A well-formed request for an authorized
    target is answered with 200 and puts one message on the bus; of all vehicles
    exactly those whose type, team and identifier are drone, blue and the target, up
    to case, execute the requested command on that message, and no other vehicle
    moves. *)
Theorem operator_command_executes c r req g :
  Method r = "POST" -> decode_command (Body r) = Some req -> authorized (fleet g) (req_TargetVehicle req) = true ->
  plain_part (req_TargetVehicle req) = true -> req_TargetVehicle req <> "" -> req_CommandType req <> "" ->
  valid_utf8 (req_CommandType req) = true -> map_wf (omit_empty (req_Parameters req)) = true ->
  t1 c <> 0 -> t3 c <> 0 -> int64_wf (t1 c) && int64_wf (t3 c) = true -> alive (gw_bus g) ->
  exists bytes, Code (handleCommand c r g).1 = StatusOK /\
    acked (gw_bus (handleCommand c r g).2) = acked (gw_bus g) ++ [(command_key (req_TargetVehicle req), bytes)] /\
    forall v, Forall (fun p => plain_part p = true) [vehicleType v; team v; id v] ->
      command_handler (command_key (req_TargetVehicle req)) bytes v =
        if commands_vehicle (req_TargetVehicle req) v then execute (req_CommandType req) v else v.
Proof.
  intros Hm Hr Hauth Hplain Htv Hct Hut Hmap H1 H3 Hints Hal. apply andb_prop in Hints as [I1 I3].
  destruct (new_command_envelope_ok Tier2Restricted "tactical-c2-gateway" (command_payload c req)
    ["OPERATOR_COMMAND"] (t2 c) (t3 c)) as (env & Henv & _ & Htel & Hcmd & _); try done;
    [by eapply decode_command_ok|].
  assert (valid_utf8 (req_TargetVehicle req) = true) as Hvt
    by (apply valid_utf8_ascii; by apply plain_part_parts in Hplain as (_ & ? & _)).
  assert (command_wf (canonical_command (command_payload c req)) = true) as Hwf.
  { pose proof (valid_utf8_app "cmd-" (dec (t0 c)) eq_refl (dec_valid _)) as Hid. unfold command_wf.
    cbn [CommandID TargetVehicle CommandType Issuer Parameters_ IssuedAtNs canonical_command command_payload forallb].
    by rewrite Hvt, Hut, Hmap, I1, Hid. }
  assert (envelope_wf (canonical_envelope env) = true) as Hew.
  { assert (NewCommandEnvelope Tier2Restricted "tactical-c2-gateway" (canonical_command (command_payload c req))
      ["OPERATOR_COMMAND"] (t2 c) (t3 c) = Ok (canonical_envelope env)) as Hc.
    { unfold NewCommandEnvelope in *. rewrite marshal_canonical_command. cbn [IssuedAtNs canonical_command].
      destruct (negb _); [done|]. destruct (ComputePayloadDigest _); [|done].
      rewrite (proj2 (Z.eqb_neq _ _)) in Henv |- * by done. by injection Henv as <-. }
    eapply NewCommandEnvelope_wf; [exact Hc|done..]. }
  destruct (unmarshal_marshal_wf _ Hew) as (bytes & Hb & Hu). rewrite marshal_canonical_envelope in Hb.
  exists bytes. unfold handleCommand. rewrite Hm, Hr. cbn [negb String.eqb Ascii.eqb Bool.eqb].
  rewrite (proj2 (is_empty_spec _) Htv), (proj2 (is_empty_spec _) Hct), Hauth. cbn [orb].
  unfold dispatch_command, publish_response. rewrite Henv, Hb.
  destruct (alive_publish (command_key (req_TargetVehicle req)) bytes (gw_bus g) Hal) as [Hpub _].
  destruct (Publish _ _ _) as [err b] eqn:Eb. cbn in Hpub. subst err. cbn [fst snd gw_bus set_gw_bus].
  split; [done|]. split; [by apply acked_ok in Eb|]. intros v Hv.
  pose proof (topic_of_target _ _ Hplain Hv) as Ht. destruct (commands_vehicle _ v) eqn:Ec.
  - rewrite (command_handler_own _ _ _ (canonical_command (command_payload c req)) _ Ht Hu) by (cbn; by rewrite Hcmd).
    apply bool_decide_eq_true in Ec. rewrite HandleCommand_named; [done|]. cbn. congruence.
  - by apply command_handler_other.
Qed.

(** Commands need no authority. Under any header - a wrong digest, an unknown
    tier, no origin - and from any issuer, the text of a command on a vehicle's topic
    is executed exactly as if the operator had sent it. *)
Theorem forged_command_executes h cmd v key :
  header_wf h = true -> command_wf cmd = true -> MatchesSelector (sim_cmdTopic v) key = true ->
  exists bytes, marshal_envelope (mkEnvelope h None (Some cmd)) = Ok bytes /\
    command_handler key bytes v = HandleCommand cmd v.
Proof.
  intros Hh Hc Hm. destruct (unmarshal_marshal_wf (mkEnvelope h None (Some cmd))) as (bytes & Hb & Hu).
  { unfold envelope_wf. cbn [Header Telemetry Command]. by rewrite Hh, Hc. }
  exists bytes. split; [done|]. by eapply command_handler_own.
Qed.
End Commands.

(** * Reports of a vehicle *)
Section Reports.
Local Open Scope list_scope.
Context `{U : Unicode} `{UL : !UnicodeLaws U} `{JE : JsonErrors} `{BE : BodyErrors}.

(** What a tick needs to be reported: a drone with names in ASCII and a report within
    the physical bounds, whose numbers and texts survive the wire. *)
Record reportable (t : TelemetryPayload) (v : VehicleSim) (now : Z) : Prop := {
  rep_parts : Forall (fun p => plain_part p = true) [vehicleType v; team v; id v];
  rep_origin : originNode v <> "" /\ valid_utf8 (originNode v) = true;
  rep_clock : now <> 0 /\ int64_wf now = true;
  rep_names : VehicleID t <> "" /\ VehicleType t <> "" /\ Team t <> "";
  rep_texts : texts_wf t = true;
  rep_physical : physical t;
  rep_payload : map_wf (MissionPayload t) = true;
  rep_sequence : uint64_wf (Sequence t) = true;
}.

Lemma map_wf_ok m : map_wf m = true -> payload_map_ok m = true.
Proof.
  destruct m as [m|]; [|done]. unfold map_wf, payload_map_ok. intros [[_ Hw]%andb_prop _]%andb_prop.
  destruct (any_reads (AMap m) Hw) as (s & v & Hs & _). destruct m as [|kv m]; [done|].
  cbn [map_field forallb snd]. by rewrite Hs.
Qed.

(** The text of a tick decodes to the envelope it was made from. *)
Lemma tick_message_decodes tier now1 now2 t v :
  valid_tier tier = true -> reportable t v now2 ->
  exists env data, tick_message tier now1 now2 t v = Ok (env, data) /\ unmarshal_envelope data = Some env /\
    Telemetry env = Some (Normalize t) /\ Classification (Header env) = tier /\
    Validate (Some env) = (None, Some env) /\ header_wf (Header env) = true.
Proof.
  intros Ht [_ [Ho Hov] [Hn Hni] (H1 & H2 & H3) Htx Hp Hm Hs].
  destruct (tick_message_ok tier now1 now2 t v) as (env & data & Hmsg & Henv & Hd & Htel & Hc & Hv); try done.
  { by apply map_wf_ok. }
  assert (envelope_wf env = true) as Hw by (eapply NewTelemetryEnvelope_wf; [exact Henv|apply Hp|done..]).
  destruct (unmarshal_marshal_wf env Hw) as (s & Hs' & Hu). exists env, data. split; [done|].
  assert (s = data) as <- by congruence. split_and!; try done.
  unfold envelope_wf in Hw. by apply andb_prop in Hw as [[? _]%andb_prop _].
Qed.

Lemma telemetry_key_not_cloud tier v : cloud_bound (tick_key tier v) = false.
Proof. unfold tick_key. by destruct (String.eqb tier Tier3Critical). Qed.

(** From a vehicle to the fleet. When a tick is reportable, the message it puts on
    a working bus makes every gateway that receives it record exactly the normalised
    report of that step, bit by bit, under the vehicle's identifier, extend its track
    by the reported position, and offer the same bytes to the dashboards. *)
Theorem tick_reaches_the_fleet {B H} `{BI : Bus B H} `{BL : !BusLog B} `{BA : !BusAlive B}
    {B2 H2} `{BI2 : Bus B2 H2} emit dt now1 now2 d b s now (g : Gateway B2) :
  let '(t, v) := Step dt (sim d) in
  reportable t v now2 -> alive b ->
  exists key data h, acked (drone_tick emit dt now1 now2 d b).2 = acked b ++ [(key, data)] /\
    let g' := handleTelemetry s now key data g in
    fleet g' = update_fleet now h (Normalize t) (fleet g) /\
    (forall v', v' <> VehicleID t -> fleet g' !! v' = fleet g !! v') /\
    hub g' = hub_send data (hub g).
Proof.
  destruct (Step dt (sim d)) as [t v] eqn:Es. intros Hr Hal. set (tier := tick_tier emit (count d + 1)).
  assert (valid_tier tier = true) as Ht by (unfold tier, tick_tier; by destruct (_ && _)).
  destruct (tick_message_decodes tier now1 now2 t v Ht Hr) as (env & data & Hmsg & Hu & Htel & _ & _ & _).
  destruct (alive_publish (tick_key tier v) data b Hal) as [Hpub _].
  exists (tick_key tier v), data, (Header env). unfold drone_tick. rewrite Es. fold tier. rewrite Hmsg.
  destruct (Publish (tick_key tier v) data b) as [err b'] eqn:Eb. cbn in Hpub. subst err. cbn [snd].
  split; [by apply acked_ok in Eb|]. rewrite handleTelemetry_of. unfold telemetry_of, ParseJSONEnvelope.
  rewrite telemetry_key_not_cloud, Hu, Htel. cbn [mbind option_bind]. cbv zeta. cbn [fleet hub set_hub set_fleet].
  destruct (mule_ingest_fleet s (tick_key tier v) data g) as [-> ->]. split; [done|]. split; [|done].
  intros v' Hne. unfold update_fleet. by rewrite lookup_insert_ne.
Qed.

(** ** At the guard *)
Lemma ToLower_literal s : str_forall is_lower s = true -> ToLower s = s.
Proof. apply ToLower_lower. Qed.

Lemma Split_command r : exists p l, Split (r +:+ "/command") slash = p :: l ++ ["command"].
Proof.
  induction r as [|a r (p & l & IH)]; [by exists "", []|].
  cbn [String.append Split]. rewrite IH. destruct (Ascii.eqb a slash); [by exists "", (p :: l)|by eexists _, l].
Qed.

Lemma tick_key_guard tier v :
  valid_tier tier = true -> tier <> Tier1Public -> Forall (fun p => plain_part p = true) [vehicleType v; team v; id v] ->
  ingress_filtered (tick_key tier v) = false /\
  forall u, egress_key (tick_key tier v) u = BuildKey "tier1" (vehicleType v) (team v) (id v) "telemetry".
Proof.
  intros Ht Hne Hv. assert (Forall (fun p => key_part p = true) [vehicleType v; team v; id v]) as Hk.
  { eapply Forall_impl; [exact Hv|]. intros p Hp. by apply plain_part_parts in Hp as [? _]. }
  rewrite !Forall_cons in Hk. destruct Hk as (K1 & K2 & K3 & _).
  assert (exists tok, tok ∈ ["tier2"; "tier3"] /\
    tick_key tier v = BuildKey tok (vehicleType v) (team v) (id v) "telemetry") as (tok & Htok & ->).
  { unfold tick_key, sim_telemTopic. destruct (String.eqb tier Tier3Critical); eexists; (split; [|reflexivity]);
      rewrite !elem_of_cons; auto. }
  rewrite !elem_of_cons, elem_of_nil in Htok. split.
  - unfold ingress_filtered. apply orb_false_iff. split; [by destruct Htok as [->|[->|[]]]|].
    apply not_true_iff_false. intros (r & Hr)%HasSuffix_spec. rewrite BuildKey_join in Hr.
    pose proof (f_equal (fun s => Split s slash) Hr) as Hsp. cbv beta in Hsp.
    change (join "/" ?l) with (join (String slash "") l) in Hsp.
    rewrite Split_join in Hsp; [|done|].
    2: { destruct (key_part_lower _ K1), (key_part_lower _ K2), (key_part_lower _ K3).
         destruct Htok as [->|[->|[]]]; repeat constructor; done. }
    destruct (Split_command r) as (p & l & Hl).
    rewrite Hl, app_comm_cons in Hsp. apply (f_equal last) in Hsp. rewrite last_snoc in Hsp. cbn in Hsp.
    by rewrite (ToLower_literal "telemetry") in Hsp.
  - intros u. unfold egress_key.
    rewrite (parse_built_key tok) by (try done; repeat constructor; try done; by destruct Htok as [->|[->|[]]]).
    cbn [TopicVehicleType TopicTeam UnitID StreamType]. unfold BuildKey.
    pose proof (key_part_lower _ K1) as [E1 _]. pose proof (key_part_lower _ K2) as [E2 _]. pose proof (key_part_lower _ K3) as [E3 _].
    assert (forall p, key_part p = true -> ToLower (ToLower p) = ToLower p) as Hid
      by (intros p [Ha _]%andb_prop; by apply ToLower_idem).
    by rewrite !Hid.
Qed.

Lemma Evaluate_valid env :
  Validate (Some env) = (None, Some env) -> Classification (Header env) <> Tier1Public ->
  Evaluate (Some env) =
    if String.eqb (Classification (Header env)) Tier2Restricted then (ActionRedactPass, "", None, Some env)
    else if String.eqb (Classification (Header env)) Tier3Critical then
      (ActionQuarantine, ReasonTier3EgressProhibited, Some "TIER-3: CRITICAL payload cannot egress tactical boundary", Some env)
    else (ActionQuarantine, ReasonUnauthorizedTier,
      Some ("unrecognized classification tier: " +:+ Classification (Header env)), Some env).
Proof.
  unfold Validate, Evaluate. destruct (Validate_envelope env) as [err env']. intros [= -> ->] Hne.
  by rewrite (proj2 (String.eqb_neq _ _) Hne).
Qed.

Lemma low_altitude_Normalize t : physical t -> low_altitude t -> low_altitude (Normalize t).
Proof.
  intros [Hf _] Ha. unfold telemetry_floats in Hf. rewrite !Forall_cons in Hf. destruct Hf as (_ & _ & _ & _ & [Hv _] & _).
  unfold low_altitude, Normalize, Coordinates_Normalize. cbn [Coords AltitudeM].
  rewrite roundFloat_roundTo by (rewrite !elem_of_cons; auto).
  by apply (roundTo_in_range (10 ^ 2) _ (10 ^ 7)).
Qed.

(** The redacted envelope of a valid TIER-2 envelope is itself sent and received
    intact. *)
Lemma redacted_decodes d env t :
  d ∈ [1; 2; 3; 4; 5; 6] -> Validate (Some env) = (None, Some env) -> Classification (Header env) = Tier2Restricted ->
  Telemetry env = Some (Normalize t) -> physical t -> low_altitude t -> texts_wf t = true ->
  uint64_wf (Sequence t) = true -> map_wf (MissionPayload t) = true -> header_wf (Header env) = true ->
  exists out text, RedactAndSanitize (NewPolicyEngine d) (Some env) = Ok out /\ marshal_envelope out = Ok text /\
    unmarshal_envelope text = Some out /\ Classification (Header out) = Tier1Public /\ Command out = None /\
    Telemetry out = Some (sanitize_telemetry d (Normalize t)) /\ Validate (Some out) = (None, Some out).
Proof.
  intros Hd Hv Hc Ht Hp Ha Htx Hs Hm Hh. destruct (sanitize_normalized d t Hd Hp Ha) as [Hfix Hphys].
  assert (verdict env = ActionRedactPass) as Hver
    by (unfold verdict; rewrite Evaluate_valid by (done || by rewrite Hc); by rewrite Hc).
  pose proof Hp as [Hf _].
  assert (Normalize (Normalize t) = Normalize t) as Hn by by apply Normalize_idem.
  set (t' := sanitize_telemetry d (Normalize t)) in *.
  assert (telemetry_wf t' = true) as Hw.
  { rewrite <- Hfix. apply Normalize_wf; [apply Hphys|exact Htx| |exact Hs].
    unfold t', sanitize_telemetry. cbn [MissionPayload Normalize]. by destruct (MissionPayload t). }
  assert (payload_map_ok (MissionPayload (Normalize t)) = true) as Hmo by (cbn; by apply map_wf_ok).
  destruct (redact_valid d env _ Hd Hver Ht (physical_Normalize_physical _ Hp) (low_altitude_Normalize _ Hp Ha) Hmo) as (out & Hout & Hcl & Hcmd & Htel & Hval & _).
  rewrite Hv in Hout. cbn [snd] in Hout. rewrite Hn in Htel. fold t' in Htel. exists out.
  assert (header_wf (Header out) = true) as Hho.
  { unfold RedactAndSanitize in Hout. rewrite Ht in Hout. destruct (ComputePayloadDigest _) as [dg|] eqn:Edg; [|done].
    injection Hout as <-. unfold header_wf in *. cbn [Header Classification OriginEnclave MessageID Digest Caveats TimestampNs].
    cbn [forallb] in Hh |- *. rewrite !andb_true_iff in Hh |- *. destruct Hh as [[(_ & H2 & H3 & _ & _) H5] H6].
    split; [|done]. split; [|by rewrite forallb_app, H5].
    split; [done|]. split; [by apply valid_utf8_app|]. split; [by apply valid_utf8_app|].
    split; [by eapply digest_valid|done]. }
  destruct (unmarshal_marshal_wf out) as (text & Htext & Hu).
  { unfold envelope_wf. by rewrite Hho, Htel, Hcmd, Hw. }
  by exists text.
Qed.

(** C22. A vehicle's reports at the guard. Every reportable tick arrives decodable at
    the guard and is never lost to validation: a TIER-3 report is quarantined with
    its bytes and leaves nothing, and of a TIER-2 report exactly one packet leaves, on
    the TIER-1 key of the vehicle, which decodes to a valid TIER-1 envelope with the
    sanitized report and nothing else. *)
Theorem tick_at_the_guard {B H} `{BI : Bus B H} `{BL : !BusLog B} `{BA : !BusAlive B}
    {B2 H2} `{BI2 : Bus B2 H2} `{BL2 : !BusLog B2} `{BA2 : !BusAlive B2}
    emit dt now1 now2 d b a decimals (g : CDSGuard B2) :
  let '(t, v) := Step dt (sim d) in
  reportable t v now2 -> low_altitude t -> decimals ∈ [1; 2; 3; 4; 5; 6] ->
  engine g = NewPolicyEngine decimals -> alive b -> alive (bus g) ->
  exists key data, acked (drone_tick emit dt now1 now2 d b).2 = acked b ++ [(key, data)] /\
    let '(o, g') := ingress_handler a key data g in
    o = Returned /\
    if emit && ((count d + 1) mod 15 =? 0) then
      acked (bus g') = acked (bus g) /\
      exists rec, records (dlq g') = evict (dlq g) ++ [rec] /\ RawPayload rec = data /\
        RejectionReason rec = ReasonTier3EgressProhibited
    else
      dlq g' = dlq g /\
      exists out text, acked (bus g') = acked (bus g) ++ [(BuildKey "tier1" (vehicleType v) (team v) (id v) "telemetry", text)] /\
        unmarshal_envelope text = Some out /\ Classification (Header out) = Tier1Public /\ Command out = None /\
        Telemetry out = Some (sanitize_telemetry decimals (Normalize t)) /\ Validate (Some out) = (None, Some out).
Proof.
  destruct (Step dt (sim d)) as [t v] eqn:Es. intros Hr Hlow Hd He Hal Hal2.
  set (tier := tick_tier emit (count d + 1)).
  assert (valid_tier tier = true /\ tier <> Tier1Public) as [Ht Hne] by (unfold tier, tick_tier; by destruct (_ && _)).
  destruct (tick_message_decodes tier now1 now2 t v Ht Hr) as (env & data & Hmsg & Hu & Htel & Hc & Hv & Hh).
  destruct (alive_publish (tick_key tier v) data b Hal) as [Hpub _].
  exists (tick_key tier v), data. unfold drone_tick. rewrite Es. fold tier. rewrite Hmsg.
  destruct (Publish (tick_key tier v) data b) as [err b'] eqn:Eb. cbn in Hpub. subst err. cbn [snd].
  split; [by apply acked_ok in Eb|].
  destruct (tick_key_guard tier v Ht Hne (rep_parts _ _ _ Hr)) as [Hfil Hek].
  unfold ingress_handler, ProcessPacket, ParseJSONEnvelope. rewrite Hfil, Hu, Evaluate_valid by (done || by rewrite Hc).
  rewrite Hc. subst tier. unfold tick_tier in *. destruct (emit && _); cbn [String.eqb Ascii.eqb Bool.eqb Tier3Critical Tier2Restricted].
  - change (String.eqb Tier3Critical Tier2Restricted) with false. change (String.eqb Tier3Critical Tier3Critical) with true.
    cbn. split; [done|]. split; [done|]. by eexists.
  - change (String.eqb Tier2Restricted Tier2Restricted) with true. cbv iota. cbn [default from_option].
    pose proof Hr as [_ _ _ _ Htx Hp Hm Hs].
    destruct (redacted_decodes decimals env t) as (out & text & Hro & Htext & Huo & Hco & Hcmo & Hto & Hvo); try done.
    unfold redact_packet. cbn [engine set_stats]. change (Datatypes.id env) with env. rewrite He, Hro, Htext, Htel, Hek. split; [done|].
    unfold guard_publish. cbn [dlq bus set_stats]. split; [done|]. exists out, text.
    match goal with |- context [Publish ?k ?p ?x] => destruct (alive_publish k p x Hal2) as [Hp2 _];
      destruct (Publish k p x) as [e2 b2] eqn:E2 end.
    cbn in Hp2. subst e2. cbn [snd]. split; [by apply acked_ok in E2|done].
Qed.
End Reports.

(** * Concrete runs *)
Module SystemSamples.
#[local] Existing Instance caseless.
Definition blue_alpha : VehicleSim := NewVehicleSim "blue-alpha" "drone" "blue" (of_Z 31) (of_Z (-8)) (of_Z 100) (lit 6 3) (of_Z 13).

(** A target named by its call sign alone is authorized and dispatched, but no vehicle
    of the swarm listens on its topic, although each would have accepted the order. *)
Example call_sign_reaches_nobody :
  authorized (∅ : gmap string VehicleState) "alpha" = true /\
  forallb (fun v => negb (commands_vehicle "alpha" v)) (swarm 2 1) = true /\
  state (HandleCommand (mkCommand "c" "alpha" "HOVER" None 1 "operator") blue_alpha) = "HOVER".
Proof. by vm_compute. Qed.
End SystemSamples.

Lemma operator_command_executes_witness :
  exists bytes, Code (handleCommand (U:=caseless) (BE:=GatewaySamples.no_body_text) GatewaySamples.at_noon GatewaySamples.rtb GatewaySamples.gw0).1 = 200 /\
    state (command_handler (U:=caseless) (JE:=GatewaySamples.no_text) (command_key (U:=caseless) "blue-alpha") bytes
      SystemSamples.blue_alpha) = "RTB".
Proof.
  assert (decode_command (U:=caseless) (Body GatewaySamples.rtb) =
    Some (mkCommandRequest "blue-alpha" "RETURN_TO_BASE" None)) as E by (vm_compute; reflexivity).
  assert (authorized (fleet GatewaySamples.gw0) "blue-alpha" = true) as Ha by (vm_compute; reflexivity).
  destruct (@operator_command_executes caseless caseless_laws GatewaySamples.no_text GatewaySamples.no_body_text
    GatewaySamples.bus_type nat _ _ _ GatewaySamples.at_noon GatewaySamples.rtb _ GatewaySamples.gw0 eq_refl E Ha eq_refl
    ltac:(discriminate) ltac:(discriminate) eq_refl eq_refl ltac:(discriminate) ltac:(discriminate) eq_refl eq_refl)
    as (bytes & Hc & _ & Hv).
  exists bytes. split; [exact Hc|].
  assert (Forall (fun p => plain_part p = true) [vehicleType SystemSamples.blue_alpha; team SystemSamples.blue_alpha;
    id SystemSamples.blue_alpha]) as Hp by (repeat constructor).
  cbn [req_TargetVehicle req_CommandType] in Hv. rewrite (Hv SystemSamples.blue_alpha Hp).
  assert (commands_vehicle (U:=caseless) "blue-alpha" SystemSamples.blue_alpha = true) as -> by (vm_compute; reflexivity).
  vm_compute. reflexivity.
Defined.

Lemma forged_command_executes_witness :
  is_digest_mismatch (@Validate caseless (Some EdgeSamples.forged)).1 = true /\
  exists bytes, state (command_handler (U:=caseless) (JE:=EdgeSamples.no_text) EdgeSamples.topic bytes EdgeSamples.bravo) = "LANDED".
Proof.
  split; [vm_compute; reflexivity|].
  assert (MatchesSelector (sim_cmdTopic (U:=caseless) EdgeSamples.bravo) EdgeSamples.topic = true) as H1 by (vm_compute; reflexivity).
  destruct (@forged_command_executes caseless EdgeSamples.no_text
    (mkHeader Tier2Restricted "nobody" 1 "m" "00" []) (mkCommand "c" "bravo" "DISARM" None 1 "nobody")
    EdgeSamples.bravo EdgeSamples.topic eq_refl eq_refl H1) as (bytes & _ & Hc).
  exists bytes. rewrite Hc. vm_compute. reflexivity.
Defined.

(** A step of bravo is reportable. *)
Module TickSamples.
#[local] Existing Instance caseless.
Definition telem : TelemetryPayload := Eval vm_compute in EdgeSamples.report.1.
Definition flown : VehicleSim := Eval vm_compute in EdgeSamples.report.2.

Lemma bravo_reportable : reportable telem flown 8.
Proof.
  constructor; [by repeat constructor|done|done|done|done| |by vm_compute|done].
  unfold physical, sound_float, valid, within. split_and!; [by repeat constructor|by vm_compute..].
Qed.
Lemma bravo_low : low_altitude telem.
Proof. by vm_compute. Qed.
Lemma bravo_step : Step (of_Z 1) EdgeSamples.bravo = (telem, flown).
Proof. by vm_compute. Qed.
Definition guard0 : CDSGuard EdgeSamples.bus_type := NewCDSGuard EdgeSamples.bus0 (mkDlq [] 500 "" None) 2.
End TickSamples.

Lemma tick_reaches_the_fleet_witness :
  exists key data, acked (drone_tick (U:=caseless) true (of_Z 1) 7 8 (mkDrone EdgeSamples.bravo 14) EdgeSamples.bus0).2 = [(key, data)] /\
    hub (handleTelemetry (U:=caseless) (JE:=GatewaySamples.no_text) GatewaySamples.env 9 key data GatewaySamples.gw0) =
      hub_send data (hub GatewaySamples.gw0).
Proof.
  pose proof (@tick_reaches_the_fleet caseless caseless_laws GatewaySamples.no_text EdgeSamples.bus_type nat _ _ _
    GatewaySamples.bus_type nat _ true (of_Z 1) 7 8 (mkDrone EdgeSamples.bravo 14) EdgeSamples.bus0 GatewaySamples.env 9
    GatewaySamples.gw0) as H.
  cbn [EdgeAgent.sim] in H. rewrite TickSamples.bravo_step in H.
  destruct (H TickSamples.bravo_reportable eq_refl) as (key & data & h & Ha & _ & _ & Hh).
  exists key, data. split; [exact Ha|exact Hh].
Defined.

Lemma tick_at_the_guard_witness :
  exists key data, acked (drone_tick (U:=caseless) true (of_Z 1) 7 8 (mkDrone EdgeSamples.bravo 14) EdgeSamples.bus0).2 = [(key, data)] /\
    acked (bus (ingress_handler (U:=caseless) (JE:=GatewaySamples.no_text) GuardSamples.now key data TickSamples.guard0).2) = [].
Proof.
  pose proof (@tick_at_the_guard caseless caseless_laws GatewaySamples.no_text EdgeSamples.bus_type nat _ _ _
    EdgeSamples.bus_type nat _ _ _ true (of_Z 1) 7 8 (mkDrone EdgeSamples.bravo 14) EdgeSamples.bus0 GuardSamples.now 2
    TickSamples.guard0) as H.
  cbn [EdgeAgent.sim] in H. rewrite TickSamples.bravo_step in H.
  assert (2 ∈ [1; 2; 3; 4; 5; 6]) as Hd by (rewrite !elem_of_cons; auto).
  destruct (H TickSamples.bravo_reportable TickSamples.bravo_low Hd eq_refl eq_refl eq_refl) as (key & data & Ha & Hg).
  exists key, data. split; [exact Ha|].
  destruct (ingress_handler _ _ _ _) as [o g']. destruct Hg as [_ [Hg _]]. exact Hg.
Defined.
