(* ===== verification/Network.v ===== *)
(** The deployment: drones, the gateway with its data mule, the guard and an intruder
    on one bus, as a transition system whose steps are the handlers of the programs,
    in any interleaving. A message that was acknowledged may be delivered to any
    subscriber whose selector matches its key, at any later time, any number of times
    and in any order, or never. *)
From Stdlib Require Import Strings.Ascii Strings.String.
From S2P Require Import Prelude GoString Float64 Json Topic Bus Schema Policy Dlq Guard DataMule VehicleSim EdgeAgent Http Hub Gateway System.

Local Open Scope string_scope.
Local Open Scope Z_scope.

(** * What a handler adds to the log of the bus *)
Section Log.
Local Open Scope list_scope.
Context {B H : Type} `{BI : Bus B H} `{BL : !BusLog B}.

Definition adds (P : string * string -> Prop) (b b' : B) : Prop :=
  exists l, acked b' = acked b ++ l /\ Forall P l.

Lemma adds_refl P b : adds P b b.
Proof. exists []. by rewrite app_nil_r. Qed.

#[global] Instance adds_preorder P : PreOrder (adds P).
Proof.
  split; [intros b; apply adds_refl|]. intros b1 b2 b3 (l1 & E1 & F1) (l2 & E2 & F2).
  exists (l1 ++ l2). rewrite E2, E1, app_assoc. split; [done|]. by apply Forall_app.
Qed.

Lemma adds_impl (P Q : string * string -> Prop) b b' : (forall m, P m -> Q m) -> adds P b b' -> adds Q b b'.
Proof. intros HPQ (l & E & F). exists l. split; [done|]. by eapply Forall_impl. Qed.

Lemma adds_publish (P : string * string -> Prop) k p b : P (k, p) -> adds P b (Publish k p b).2.
Proof.
  intros HP. destruct (Publish k p b) as [[e|] b'] eqn:E; cbn [snd].
  - exists []. rewrite app_nil_r. split; [by eapply acked_err|done].
  - exists [(k, p)]. split; [by apply acked_ok|]. by repeat constructor.
Qed.

(** ** The data mule only speaks below upstream/ *)
Definition upstream (m : string * string) : Prop := HasPrefix m.1 "upstream/" = true.

Lemma upstream_publish topic p b : adds upstream b (Publish (formatUpstreamTopic topic) p b).2.
Proof.
  apply adds_publish. unfold upstream, formatUpstreamTopic. cbn [fst].
  destruct (HasPrefix topic "upstream/") eqn:E; [done|apply HasPrefix_app].
Qed.

(** The bus behind the mule, if it has one. *)
Definition mule_adds (dm dm' : DataMule B) : Prop :=
  match upstreamBus dm with
  | Some b => exists b', upstreamBus dm' = Some b' /\ adds upstream b b'
  | None => upstreamBus dm' = None
  end.

Lemma mule_adds_bus dm dm' : upstreamBus dm' = upstreamBus dm -> mule_adds dm dm'.
Proof. unfold mule_adds. intros E. destruct (upstreamBus dm) as [b|]; [exists b; split; [done|apply adds_refl]|done]. Qed.

Lemma Ingest_adds s topic payload dm : mule_adds dm (Ingest s topic payload dm).
Proof.
  unfold Ingest. destruct (upstreamBus dm) as [b|] eqn:Eb; [|by apply mule_adds_bus].
  destruct (is_online _ && _); [|by apply mule_adds_bus].
  pose proof (upstream_publish topic payload b) as Ha.
  destruct (Publish _ _ b) as [err b']. unfold mule_adds. rewrite Eb. exists b'. split; [by destruct err|done].
Qed.

Lemma flush_loop_adds pkts n dm : mule_adds dm (flush_loop pkts n dm).2.
Proof.
  revert n dm. induction pkts as [|p pkts IH]; intros n dm; cbn [flush_loop]; [by apply mule_adds_bus|].
  unfold mule_adds. destruct (upstreamBus dm) as [b|] eqn:Eb.
  - pose proof (upstream_publish (Topic p) (Payload p) b) as Ha. destruct (Publish _ _ b) as [[e|] b'].
    + by exists b'.
    + pose proof (IH (S n) (set_synced (i64 (syncedTotal (set_bus b' dm) + 1)) (set_bus b' dm))) as Hl.
      unfold mule_adds in Hl. cbn [upstreamBus set_synced set_bus] in Hl. destruct Hl as (b2 & Hb2 & Ha2).
      exists b2. split; [done|]. by transitivity b'.
  - specialize (IH (S n) (set_synced (i64 (syncedTotal dm + 1)) dm)). unfold mule_adds in IH.
    cbn [upstreamBus set_synced] in IH. by rewrite Eb in IH.
Qed.

Lemma Flush_adds s dm : mule_adds dm (Flush s dm).2.
Proof.
  unfold Flush. destruct (buffer dm) as [|p l]; [by apply mule_adds_bus|].
  pose proof (flush_loop_adds (p :: l) 0 dm) as Ha. destruct (flush_loop _ _ _) as [[n [e|]] dm']; done.
Qed.

Lemma SetSimulationMode_adds s ddil dm : mule_adds dm (SetSimulationMode s ddil dm).2.
Proof.
  unfold SetSimulationMode. cbn [snd]. destruct ddil; [by apply mule_adds_bus|].
  apply (Flush_adds s (set_simulation false BackhaulOnline 42 dm)).
Qed.

Lemma mule_call_adds {A} (f : DataMule B -> A * DataMule B) dm b :
  (forall dm, mule_adds dm (f dm).2) -> adds upstream b (mule_call f dm b).2.
Proof.
  intros Hf. unfold mule_call. destruct (upstreamBus dm) as [b0|] eqn:E.
  - specialize (Hf (set_bus b dm)). destruct (f (set_bus b dm)) as [a dm']. cbn [snd] in *.
    unfold mule_adds in Hf. cbn [upstreamBus set_bus] in Hf. destruct Hf as (b' & -> & Ha). done.
  - specialize (Hf dm). destruct (f dm) as [a dm']. cbn [snd] in *. unfold mule_adds in Hf. rewrite E in Hf.
    rewrite Hf. apply adds_refl.
Qed.
End Log.

(** * The deployment *)
Section Network.
Local Open Scope list_scope.
Context `{U : Unicode} `{UL : !UnicodeLaws U} `{JE : JsonErrors} `{BE : BodyErrors}.
Context {B H : Type} `{BI : Bus B H} `{BL : !BusLog B}.

(** The bus is one store; the gateway and the guard are run on its current state. A
    guard that has panicked is down. *)
Record World := mkWorld {
  net : B; fleet_drones : list Drone; gateway : Gateway B; guard : CDSGuard B; guard_up : bool;
}.

Definition set_net (b : B) (w : World) : World := mkWorld b (fleet_drones w) (gateway w) (guard w) (guard_up w).
Definition set_drone (i : nat) (d : Drone) (w : World) : World :=
  mkWorld (net w) (<[i := d]> (fleet_drones w)) (gateway w) (guard w) (guard_up w).

(** A call of the gateway, and of the guard, on the shared bus. *)
Definition on_gateway (f : Gateway B -> Gateway B) (w : World) : World :=
  let g := f (set_gw_bus (net w) (gateway w)) in mkWorld (gw_bus g) (fleet_drones w) g (guard w) (guard_up w).
Definition on_guard (f : CDSGuard B -> outcome * CDSGuard B) (w : World) : World :=
  let g := guard w in
  let '(o, g) := f (mkGuard (net w) (engine g) (dlq g) (stats g)) in
  mkWorld (bus g) (fleet_drones w) (gateway w) g (match o with Returned => true | Panicked => false end).

Inductive event :=
| Tick (i : nat) (emit : bool) (dt : f64) (now1 now2 : Z)
| Obey (i : nat) (key payload : string)
| Report (s : surroundings) (now : Z) (key payload : string)
| Inspect (a : ambient) (key payload : string)
| Operate (c : clock) (r : Request)
| InjectTest (c : clock) (r : Request)
| Simulate (s : surroundings) (r : Request)
| Intrude (key payload : string).

(** One step; [telemetrySelector] is the gateway's flag. *)
Inductive net_step (telemetrySelector : string) : event -> World -> World -> Prop :=
| step_tick w i d emit dt now1 now2 :
    fleet_drones w !! i = Some d ->
    net_step telemetrySelector (Tick i emit dt now1 now2) w
      (let '(d', b) := drone_tick emit dt now1 now2 d (net w) in set_drone i d' (set_net b w))
| step_obey w i d key payload :
    fleet_drones w !! i = Some d -> (key, payload) ∈ acked (net w) ->
    MatchesSelector (sim_cmdTopic (sim d)) key = true ->
    net_step telemetrySelector (Obey i key payload) w
      (set_drone i (mkDrone (command_handler key payload (sim d)) (count d)) w)
| step_report w s now key payload :
    (key, payload) ∈ acked (net w) -> MatchesSelector telemetrySelector key = true ->
    net_step telemetrySelector (Report s now key payload) w (on_gateway (handleTelemetry s now key payload) w)
| step_inspect w a key payload :
    guard_up w = true -> (key, payload) ∈ acked (net w) -> MatchesSelector ingressSelector key = true ->
    net_step telemetrySelector (Inspect a key payload) w (on_guard (ingress_handler a key payload) w)
| step_operate w c r :
    net_step telemetrySelector (Operate c r) w (on_gateway (fun g => (handleCommand c r g).2) w)
| step_inject w c r :
    net_step telemetrySelector (InjectTest c r) w (on_gateway (fun g => (handleInject c r g).2) w)
| step_simulate w s r :
    net_step telemetrySelector (Simulate s r) w (on_gateway (fun g => (handleBackhaulSimulate s r g).2) w)
| step_intrude w key payload :
    net_step telemetrySelector (Intrude key payload) w (set_net (Publish key payload (net w)).2 w).

(** Runs, with their history. *)
Inductive net_run (sel : string) (w0 : World) : list event -> World -> Prop :=
| run_start : net_run sel w0 [] w0
| run_snoc es e w w' : net_run sel w0 es w -> net_step sel e w w' -> net_run sel w0 (es ++ [e]) w'.

(** ** What each step puts on the bus *)

(** The order of a request: its target, type and parameters, from the operator. *)
Definition order_of (req : CommandRequest) (cmd : CommandPayload) : Prop :=
  TargetVehicle cmd = req_TargetVehicle req /\ CommandType cmd = req_CommandType req /\
  Parameters_ cmd = req_Parameters req /\ Issuer cmd = "Tactical-COP-Operator".

(** [m] is a message that the event can create in the state [w]. *)
Inductive created : event -> World -> string * string -> Prop :=
| em_report w i d emit dt now1 now2 t v env data :
    fleet_drones w !! i = Some d -> Step dt (sim d) = (t, v) ->
    tick_message (tick_tier emit (count d + 1)) now1 now2 t v = Ok (env, data) ->
    created (Tick i emit dt now1 now2) w (tick_key (tick_tier emit (count d + 1)) v, data)
| em_order w c r req env cmd data :
    Method r = "POST" -> decode_command (Body r) = Some req ->
    authorized (fleet (gateway w)) (req_TargetVehicle req) = true ->
    Command env = Some cmd -> order_of req cmd -> marshal_envelope env = Ok data ->
    created (Operate c r) w (command_key (req_TargetVehicle req), data)
| em_test w c r req data :
    decode_inject (Body r) = Some req -> created (InjectTest c r) w (inject_key req, data)
| em_redacted w a key payload env k p :
    (key, payload) ∈ acked (net w) -> unmarshal_envelope payload = Some env -> accepted env ->
    Classification (Header env) = Tier2Restricted ->
    permitted (engine (guard w)) key payload env k p -> HasPrefix k "sec/tier1/" = true ->
    created (Inspect a key payload) w (k, p)
| em_forwarded w s now key payload m :
    upstream m -> created (Report s now key payload) w m
| em_flushed w s r m :
    upstream m -> created (Simulate s r) w m
| em_forged w key payload :
    created (Intrude key payload) w (key, payload).

(** What the event can put on the bus: a message it creates, or, by a guard that lets
    a packet pass, one that is there already. *)
Inductive emitted (e : event) (w : World) (m : string * string) : Prop :=
| em_created : created e w m -> emitted e w m
| em_passed : m ∈ acked (net w) -> emitted e w m.

Lemma drone_tick_adds emit dt now1 now2 i d w :
  fleet_drones w !! i = Some d ->
  adds (emitted (Tick i emit dt now1 now2) w) (net w) (drone_tick emit dt now1 now2 d (net w)).2.
Proof.
  intros Hd. unfold drone_tick. destruct (Step dt (sim d)) as [t v] eqn:Es.
  destruct (tick_message _ _ _ _ _) as [[env data]|] eqn:Em; [|apply adds_refl].
  apply adds_publish, em_created. by eapply em_report.
Qed.

Lemma handleTelemetry_adds s now key payload (g : Gateway B) :
  adds upstream (gw_bus g) (gw_bus (handleTelemetry s now key payload g)).
Proof.
  rewrite handleTelemetry_of. destruct (telemetry_of key payload) as [[h t]|]; [|apply adds_refl].
  cbn [gw_bus set_hub set_fleet]. unfold mule_ingest. destruct (mule g) as [dm|]; [|apply adds_refl].
  pose proof (mule_call_adds (fun dm => (tt, Ingest s key payload dm)) dm (gw_bus g)
    (fun dm => Ingest_adds s key payload dm)) as Ha.
  by destruct (mule_call _ _ _) as [[a dm'] b].
Qed.

Lemma handleBackhaulSimulate_adds s r (g : Gateway B) :
  adds upstream (gw_bus g) (gw_bus (handleBackhaulSimulate s r g).2).
Proof.
  unfold handleBackhaulSimulate. destruct (negb _); [apply adds_refl|].
  destruct (mule g) as [dm|]; [|apply adds_refl]. destruct (decode_simulate (Body r)) as [req|]; [|apply adds_refl].
  pose proof (mule_call_adds (SetSimulationMode s (DDILActive req)) dm (gw_bus g)
    (fun dm => SetSimulationMode_adds s (DDILActive req) dm)) as Ha.
  by destruct (mule_call _ _ _) as [[m dm'] b].
Qed.

Lemma handleCommand_adds c r w :
  adds (emitted (Operate c r) w) (net w) (net (on_gateway (fun g => (handleCommand c r g).2) w)).
Proof.
  unfold on_gateway. set (g := set_gw_bus (net w) (gateway w)). cbn [net].
  assert (gw_bus g = net w /\ fleet g = fleet (gateway w)) as [Eb Ef] by done. rewrite <- Eb.
  unfold handleCommand. destruct (String.eqb_spec (Method r) "POST") as [Hm|]; [cbn [negb]|apply adds_refl].
  destruct (decode_command (Body r)) as [req|] eqn:Er; [|apply adds_refl].
  destruct (_ || _); [apply adds_refl|].
  destruct (authorized (fleet g) (req_TargetVehicle req)) eqn:Ea; [|apply adds_refl].
  unfold dispatch_command. destruct (NewCommandEnvelope _ _ _ _ _ _) as [env|] eqn:Ee; [|apply adds_refl].
  destruct (marshal_envelope env) as [data|] eqn:Ed; [|apply adds_refl]. unfold publish_response.
  assert (emitted (Operate c r) w (command_key (req_TargetVehicle req), data)) as Hem.
  { unfold NewCommandEnvelope in Ee. destruct (negb _); [done|]. destruct (ComputePayloadDigest _); [|done].
    set (cmd := if IssuedAtNs _ =? 0 then _ else _) in Ee. injection Ee as Ee.
    assert (Command env = Some cmd) as Hcmd by (by subst env).
    assert (order_of req cmd) as Ho by (unfold cmd; by destruct (_ =? 0)).
    exact (em_created _ _ _ (em_order w c r req env cmd data Hm Er Ea Hcmd Ho Ed)). }
  pose proof (adds_publish _ _ _ (gw_bus g) Hem) as Ha. by destruct (Publish _ _ _) as [e b].
Qed.

Lemma handleInject_adds c r w :
  adds (emitted (InjectTest c r) w) (net w) (net (on_gateway (fun g => (handleInject c r g).2) w)).
Proof.
  unfold on_gateway. set (g := set_gw_bus (net w) (gateway w)). cbn [net].
  assert (gw_bus g = net w) as <- by done. unfold handleInject. destruct (negb _); [apply adds_refl|].
  destruct (decode_inject (Body r)) as [req|] eqn:Er; [|apply adds_refl]. unfold inject.
  destruct (NewTelemetryEnvelope _ _ _ _ _ _) as [env|]; [|apply adds_refl].
  destruct (marshal_envelope _) as [data|]; [|apply adds_refl]. unfold publish_response.
  pose proof (adds_publish _ _ data (gw_bus g) (em_created _ _ _ (em_test w c r req data Er))) as Ha.
  by destruct (Publish _ _ _) as [e b].
Qed.

(** A redaction leaves under a TIER-1 key. *)
Lemma egress_key_tier1 sourceKey vehicleID : HasPrefix (egress_key sourceKey vehicleID) "sec/tier1/" = true.
Proof. unfold egress_key, BuildKey. by destruct (ParseKey sourceKey). Qed.

Lemma ProcessPacket_adds a key payload w (g : CDSGuard B) :
  engine g = engine (guard w) -> (key, payload) ∈ acked (net w) ->
  adds (emitted (Inspect a key payload) w) (bus g) (bus (ProcessPacket a key payload g).2).
Proof.
  intros He Hin. unfold ProcessPacket, ParseJSONEnvelope.
  destruct (unmarshal_envelope payload) as [env|] eqn:Eu; [|apply adds_refl].
  destruct (Evaluate_shape env) as (reason & err & ->). cbn [from_option Datatypes.id].
  pose proof (Evaluate_verdict_raw env) as (HP & HR & _). destruct (verdict env); [| |apply adds_refl].
  - unfold pass_packet. destruct (Telemetry (validated env)); [|apply adds_refl].
    apply adds_publish. by apply em_passed.
  - destruct (proj1 HR eq_refl) as [Hacc Hc]. unfold redact_packet. cbn [engine set_stats].
    destruct (RedactAndSanitize (engine g) (Some (validated env))) as [out|] eqn:Ero; [|apply adds_refl].
    destruct (marshal_envelope out) as [text|] eqn:Et; [|apply adds_refl].
    destruct (Telemetry (validated env)) as [t|] eqn:Ev; [|apply adds_refl].
    apply adds_publish, em_created. rewrite He in Ero. eapply em_redacted; try done; [by eapply permitted_redacted|apply egress_key_tier1].
Qed.

Lemma ingress_adds a key payload w :
  (key, payload) ∈ acked (net w) ->
  adds (emitted (Inspect a key payload) w) (net w) (net (on_guard (ingress_handler a key payload) w)).
Proof.
  intros Hin. unfold on_guard. set (g := mkGuard _ _ _ _). unfold ingress_handler.
  destruct (ingress_filtered key); [apply adds_refl|].
  pose proof (ProcessPacket_adds a key payload w g eq_refl Hin) as Ha.
  by destruct (ProcessPacket a key payload g) as [o g'].
Qed.

Lemma net_step_adds sel e w w' : net_step sel e w w' -> adds (emitted e w) (net w) (net w').
Proof.
  destruct 1 as [w i d emit dt now1 now2 Hd|w i d key payload Hd Hin Hm|w s now key payload Hin Hm
    |w a key payload Hup Hin Hm|w c r|w c r|w s r|w key payload].
  - pose proof (drone_tick_adds emit dt now1 now2 i d w Hd) as Ha.
    by destruct (drone_tick emit dt now1 now2 d (net w)) as [d' b].
  - apply adds_refl.
  - eapply adds_impl; [|apply (handleTelemetry_adds s now key payload)]. intros m Hm'. by apply em_created, em_forwarded.
  - by apply ingress_adds.
  - apply handleCommand_adds.
  - apply handleInject_adds.
  - eapply adds_impl; [|apply (handleBackhaulSimulate_adds s r)]. intros m Hm'. by apply em_created, em_flushed.
  - apply adds_publish, em_created, em_forged.
Qed.

(** ** Where the messages come from *)
Definition plain_drone (d : Drone) : Prop :=
  sim_ok (sim d) /\ Forall (fun p => plain_part p = true) [vehicleType (sim d); team (sim d); id (sim d)].

Definition deployed (w : World) : Prop :=
  acked (net w) = [] /\ fleet (gateway w) = ∅ /\
  Forall plain_drone (fleet_drones w).

(** An event of the run that created the message. *)
Definition created_in (sel : string) (w0 : World) (es : list event) (m : string * string) : Prop :=
  exists es1 e es2 w1, es = es1 ++ e :: es2 /\ net_run sel w0 es1 w1 /\ created e w1 m.

Lemma created_in_snoc sel w0 es e m : created_in sel w0 es m -> created_in sel w0 (es ++ [e]) m.
Proof.
  intros (es1 & e1 & es2 & w1 & -> & Hr & Hc). exists es1, e1, (es2 ++ [e]), w1. by rewrite <- app_assoc.
Qed.

Lemma net_run_grows sel e w w' m : net_step sel e w w' -> m ∈ acked (net w) -> m ∈ acked (net w').
Proof. intros Hs Hm. destruct (net_step_adds _ _ _ _ Hs) as (l & -> & _). apply elem_of_app. by left. Qed.

Lemma wire_created sel w0 es w m :
  deployed w0 -> net_run sel w0 es w -> m ∈ acked (net w) -> created_in sel w0 es m.
Proof.
  intros (H0 & _ & _). induction 1 as [|es e w w' Hr IH Hs]; intros Hm; [by rewrite H0, elem_of_nil in Hm|].
  destruct (net_step_adds _ _ _ _ Hs) as (l & E & Hl). rewrite E in Hm. apply elem_of_app in Hm as [Hm|Hm].
  - by apply created_in_snoc, IH.
  - rewrite Forall_forall in Hl. destruct (Hl m Hm) as [Hc|Hc].
    + by exists es, e, [], w.
    + by apply created_in_snoc, IH.
Qed.

(** ** The drones keep their identity *)
Lemma drone_tick_sim {B' H'} `{Bus B' H'} emit dt now1 now2 d (b : B') :
  (drone_tick emit dt now1 now2 d b).1 = mkDrone (Step dt (sim d)).2 (count d + 1).
Proof.
  unfold drone_tick. destruct (Step dt (sim d)) as [t v]. by destruct (tick_message _ _ _ _ _) as [[env data]|].
Qed.

Lemma command_handler_step key payload v :
  command_handler key payload v = v \/ exists cmd, command_handler key payload v = sim_step (Commanded cmd) v.
Proof.
  unfold command_handler. destruct (received_command _ _ _) as [cmd|]; [right; by exists cmd|by left].
Qed.

(** What an event does to the drone [i]. *)
Lemma net_step_drone sel e w w' i d :
  net_step sel e w w' -> fleet_drones w !! i = Some d ->
  exists d', fleet_drones w' !! i = Some d' /\
    (sim d' = sim d \/ exists se, sim d' = sim_step se (sim d)).
Proof.
  destruct 1 as [w j d0 emit dt now1 now2 Hd|w j d0 key payload Hd Hin Hm|w s now key payload Hin Hm
    |w a key payload Hup Hin Hm|w c r|w c r|w s r|w key payload]; intros Hi;
    try (exists d; split; [exact Hi|by left]).
  - pose proof (drone_tick_sim emit dt now1 now2 d0 (net w)) as Et.
    destruct (drone_tick emit dt now1 now2 d0 (net w)) as [d' b]. cbn [fst] in Et. subst d'.
    destruct (decide (i = j)) as [->|Hne]; cbn [set_drone set_net fleet_drones].
    + rewrite list_lookup_insert_eq by (by eapply lookup_lt_Some). eexists. split; [done|]. right.
      assert (d0 = d) as -> by congruence. by exists (Stepped dt).
    + rewrite list_lookup_insert_ne by done. exists d. split; [done|by left].
  - destruct (decide (i = j)) as [->|Hne]; cbn [set_drone fleet_drones].
    + rewrite list_lookup_insert_eq by (by eapply lookup_lt_Some). eexists. split; [done|].
      assert (d0 = d) as -> by congruence. cbn [sim].
      destruct (command_handler_step key payload (sim d)) as [->|[cmd ->]]; [by left|right; by exists (Commanded cmd)].
    + rewrite list_lookup_insert_ne by done. exists d. split; [done|by left].
  - exists d. split; [|by left]. unfold on_guard. by destruct (ingress_handler _ _ _ _) as [o g].
Qed.

Lemma sim_identity_plain d d' :
  sim_ok (sim d') -> sim_identity (sim d') = sim_identity (sim d) -> plain_drone d -> plain_drone d'.
Proof. intros Hok [= E1 E2 E3 _ _ _ _ _] [_ Hp]. split; [done|]. by rewrite E1, E2, E3. Qed.

Lemma net_step_size sel e w w' : net_step sel e w w' -> length (fleet_drones w') = length (fleet_drones w).
Proof.
  destruct 1 as [w i d emit dt now1 now2 Hd|w i d key payload Hd Hin Hm|w s now key payload Hin Hm
    |w a key payload Hup Hin Hm|w c r|w c r|w s r|w key payload]; try done.
  - destruct (drone_tick _ _ _ _ _ _) as [d' b]. cbn. by rewrite length_insert.
  - cbn. by rewrite length_insert.
  - unfold on_guard. by destruct (ingress_handler _ _ _ _) as [o g].
Qed.

Lemma net_run_drone sel w0 es w i d :
  deployed w0 -> net_run sel w0 es w -> fleet_drones w !! i = Some d ->
  exists d0, fleet_drones w0 !! i = Some d0 /\ plain_drone d /\ sim_identity (sim d) = sim_identity (sim d0).
Proof.
  intros (_ & _ & Hall). rewrite Forall_lookup in Hall. intros Hr. revert d.
  induction Hr as [|es e w w' Hr IH Hs]; intros d Hd; [exists d; split; [done|split; [exact (Hall _ _ Hd)|done]]|].
  destruct (fleet_drones w !! i) as [d1|] eqn:E1.
  - destruct (IH d1 eq_refl) as (d0 & H0 & [Hok Hp] & Hid).
    destruct (net_step_drone _ _ _ _ i d1 Hs E1) as (d' & Hd' & Hsim).
    assert (d' = d) as -> by congruence. exists d0. split; [done|].
    assert (sim_ok (sim d) /\ sim_identity (sim d) = sim_identity (sim d1)) as [Hok' Hid'].
    { destruct Hsim as [->|[se ->]]; [done|]. split; [by apply sim_step_ok|by apply (sim_step_keeps se)]. }
    split; [by eapply sim_identity_plain|by rewrite Hid'].
  - apply lookup_ge_None in E1. apply lookup_lt_Some in Hd. rewrite (net_step_size _ _ _ _ Hs) in Hd. lia.
Qed.

(** ** Command topics on the wire *)
Lemma topic_is_key v key :
  Forall (fun p => plain_part p = true) [vehicleType v; team v; id v] ->
  MatchesSelector (sim_cmdTopic v) key = true -> key = sim_cmdTopic v.
Proof.
  rewrite !Forall_cons. intros (H1 & H2 & H3 & _).
  apply plain_part_parts in H1 as (_ & _ & S1 & F1), H2 as (_ & _ & S2 & F2), H3 as (_ & _ & S3 & F3).
  rewrite MatchesSelector_parts. unfold sim_cmdTopic at 1. rewrite BuildKey_join. change slash with "/"%char in *.
  rewrite Split_join by (done || (repeat constructor; done)).
  rewrite match_parts_plain by (repeat constructor; done). intros Hm%bool_decide_eq_true.
  rewrite <- (join_Split key "/"), <- Hm. done.
Qed.

(** The end of a key tells its stream. *)
Lemma telemetry_is_no_command r1 r2 : r1 +:+ "/telemetry" <> r2 +:+ "/command".
Proof. intros E%(f_equal str_rev). by rewrite !str_rev_app_distr in E. Qed.

Lemma BuildKey_end t v te u s : str_forall is_lower s = true -> exists r, BuildKey t v te u s = r +:+ "/" +:+ s.
Proof.
  intros Hs. exists ("sec/" +:+ ToLower t +:+ "/" +:+ ToLower v +:+ "/" +:+ ToLower te +:+ "/" +:+ ToLower u).
  unfold BuildKey. rewrite (ToLower_literal s) by done. by rewrite <- !str_app_assoc.
Qed.

Lemma tick_key_end tier v : exists r, tick_key tier v = r +:+ "/telemetry".
Proof. unfold tick_key, sim_telemTopic. destruct (String.eqb tier Tier3Critical); by apply BuildKey_end. Qed.
Lemma inject_key_end req : exists r, inject_key req = r +:+ "/telemetry".
Proof. by apply BuildKey_end. Qed.
Lemma cmdTopic_end v : exists r, sim_cmdTopic v = r +:+ "/command".
Proof. by apply BuildKey_end. Qed.

Lemma cmdTopic_tier2 v : HasPrefix (sim_cmdTopic v) "sec/tier2/" = true.
Proof. done. Qed.

(** A command topic determines the vehicle. *)
Lemma command_key_topic target v :
  Forall (fun p => plain_part p = true) [vehicleType v; team v; id v] ->
  command_key target = sim_cmdTopic v -> commands_vehicle target v = true.
Proof.
  rewrite !Forall_cons. intros (H1 & H2 & H3 & _).
  apply plain_part_parts in H1 as (_ & _ & _ & F1), H2 as (_ & _ & _ & F2), H3 as (_ & _ & _ & F3).
  unfold command_key, sim_cmdTopic, BuildKey. rewrite !(ToLower_literal "tier2"), !(ToLower_literal "command"),
    (ToLower_literal "drone"), (ToLower_literal "blue") by done. intros E.
  do 3 apply str_app_inj_l in E. change slash with "/"%char in *.
  assert (forall x y : string, x +:+ "/" +:+ y = x +:+ String "/" y) as Hs by done. rewrite !Hs in E.
  apply (f_equal (fun s => Split s "/")) in E. rewrite !(Split_app "drone"), !(Split_app "blue"), (Split_app (ToLower (vehicleType v))), (Split_app (ToLower (team v))) in E by done.
  injection E as E1 E2 E3.
  pose proof (f_equal (join (String "/" "")) E3) as E4. rewrite !join_Split in E4.
  apply (f_equal str_rev) in E4. rewrite !str_rev_app_distr in E4. apply str_app_inj_l, (f_equal str_rev) in E4.
  rewrite !str_rev_involutive in E4. unfold commands_vehicle. apply bool_decide_eq_true. by rewrite E4, <- E1, <- E2.
Qed.

(** Only orders are created on command topics, unless an intruder writes there. *)
Lemma created_on_topic e w m v :
  created e w m -> m.1 = sim_cmdTopic v ->
  Forall (fun p => plain_part p = true) [vehicleType v; team v; id v] ->
  (exists key payload, e = Intrude key payload) \/
  exists c r req env cmd, e = Operate c r /\ Method r = "POST" /\ decode_command (Body r) = Some req /\
    authorized (fleet (gateway w)) (req_TargetVehicle req) = true /\ commands_vehicle (req_TargetVehicle req) v = true /\
    Command env = Some cmd /\ order_of req cmd /\ marshal_envelope env = Ok m.2.
Proof.
  intros Hc Hk Hv. destruct (cmdTopic_end v) as [r Hr].
  destruct Hc as [w i d emit dt now1 now2 t v' env data Hd Hs Ht|w c rq req env cmd data Hm Hq Ha Hcmd Ho Hd
    |w c rq req data Hq|w a key payload env k p Hin Hu Hacc Hc Hp Hk1|w s now key payload [k p] Hu
    |w s rq [k p] Hu|w key payload]; cbn [fst snd] in *.
  - destruct (tick_key_end (tick_tier emit (count d + 1)) v') as [r' Hr'].
    rewrite Hk, Hr in Hr'. by destruct (telemetry_is_no_command r' r).
  - right. exists c, rq, req, env, cmd. split_and!; try done. by apply command_key_topic.
  - destruct (inject_key_end req) as [r' Hr']. rewrite Hk, Hr in Hr'. by destruct (telemetry_is_no_command r' r).
  - by rewrite Hk in Hk1.
  - unfold upstream in Hu. cbn [fst] in Hu. by rewrite Hk in Hu.
  - unfold upstream in Hu. cbn [fst] in Hu. by rewrite Hk in Hu.
  - left. by exists key, payload.
Qed.

(** ** Runs without an intruder *)
Definition honest (es : list event) : Prop :=
  Forall (fun e => match e with Intrude _ _ => False | _ => True end) es.

Lemma order_on_topic sel w0 es w i d key payload :
  deployed w0 -> net_run sel w0 es w -> honest es -> fleet_drones w !! i = Some d ->
  (key, payload) ∈ acked (net w) -> MatchesSelector (sim_cmdTopic (sim d)) key = true ->
  exists es1 c r es2 w1 req env cmd, es = es1 ++ Operate c r :: es2 /\ net_run sel w0 es1 w1 /\
    Method r = "POST" /\ decode_command (Body r) = Some req /\
    authorized (fleet (gateway w1)) (req_TargetVehicle req) = true /\
    commands_vehicle (req_TargetVehicle req) (sim d) = true /\
    Command env = Some cmd /\ order_of req cmd /\ marshal_envelope env = Ok payload.
Proof.
  intros Hw0 Hr Hh Hd Hin Hm. destruct (net_run_drone _ _ _ _ _ _ Hw0 Hr Hd) as (d0 & _ & [_ Hpl] & _).
  apply topic_is_key in Hm; [|done].
  destruct (wire_created _ _ _ _ _ Hw0 Hr Hin) as (es1 & e & es2 & w1 & -> & Hr1 & Hc).
  destruct (created_on_topic e w1 _ (sim d) Hc Hm Hpl) as [(k & p & ->)|(c & r & req & env & cmd & -> & Hrest)].
  - unfold honest in Hh. rewrite Forall_app, Forall_cons in Hh. by destruct Hh as (_ & [] & _).
  - by exists es1, c, r, es2, w1, req, env, cmd.
Qed.

(** C11. Orders have authority. In a deployment without an intruder, whatever the
    interleaving of reports, inspections, outages, injected tests and operators'
    requests, every message that a drone's command subscription accepts is the text of
    an order that an operator posted earlier, for a target that the fleet picture of
    that moment authorized and that names this very drone. *)
Theorem orders_have_authority sel w0 es w i d key payload :
  deployed w0 -> net_run sel w0 es w -> honest es -> fleet_drones w !! i = Some d ->
  (key, payload) ∈ acked (net w) -> MatchesSelector (sim_cmdTopic (sim d)) key = true ->
  exists es1 c r es2 w1 req env cmd, es = es1 ++ Operate c r :: es2 /\ net_run sel w0 es1 w1 /\
    Method r = "POST" /\ decode_command (Body r) = Some req /\
    authorized (fleet (gateway w1)) (req_TargetVehicle req) = true /\
    commands_vehicle (req_TargetVehicle req) (sim d) = true /\
    Command env = Some cmd /\ order_of req cmd /\ marshal_envelope env = Ok payload.
Proof. apply order_on_topic. Qed.

(** The steps of the drone [i] in a history. *)
Definition ticks (i : nat) (es : list event) : list f64 :=
  omap (fun e => match e with Tick j _ dt _ _ => if decide (i = j) then Some dt else None | _ => None end) es.

Lemma ticks_snoc i es e : ticks i (es ++ [e]) = ticks i es ++ ticks i [e].
Proof. apply omap_app. Qed.

(** C13. Other vehicles are out of reach. In a deployment without an intruder, a vehicle
    that is not a blue drone flies exactly as if it had no command subscription: after
    any run its state is that of its own steps alone. *)
Theorem others_only_fly sel w0 es w i d0 :
  deployed w0 -> net_run sel w0 es w -> honest es -> fleet_drones w0 !! i = Some d0 ->
  (ToLower (vehicleType (sim d0)), ToLower (team (sim d0))) <> ("drone", "blue") ->
  exists d, fleet_drones w !! i = Some d /\ sim d = fly (ticks i es) (sim d0).
Proof.
  intros Hw0 Hr Hh H0 Hne. revert Hh. induction Hr as [|es e w w' Hr IH Hs]; intros Hh; [by exists d0|].
  unfold honest in Hh. apply Forall_app in Hh as [Hh _]. destruct (IH Hh) as (d & Hd & Hsim).
  rewrite ticks_snoc. unfold fly. rewrite fold_left_app. fold (fly (ticks i es) (sim d0)). rewrite <- Hsim.
  destruct Hs as [w j d1 emit dt now1 now2 Hd1|w j d1 key payload Hd1 Hin Hm|w s now key payload Hin Hm
    |w a key payload Hup Hin Hm|w c r|w c r|w s r|w key payload]; try (by exists d).
  - pose proof (drone_tick_sim emit dt now1 now2 d1 (net w)) as Et.
    destruct (drone_tick emit dt now1 now2 d1 (net w)) as [d' b]. cbn [fst] in Et. subst d'.
    unfold ticks. cbn [omap list_omap]. destruct (decide (i = j)) as [->|Hij]; cbn [set_drone set_net fleet_drones].
    + rewrite list_lookup_insert_eq by (by eapply lookup_lt_Some). eexists. split; [done|]. by assert (d1 = d) as -> by congruence.
    + rewrite list_lookup_insert_ne by done. by exists d.
  - cbn [set_drone fleet_drones]. destruct (decide (i = j)) as [->|Hij].
    + exfalso. assert (d1 = d) as -> by congruence.
      destruct (order_on_topic _ _ _ _ _ _ _ _ Hw0 Hr Hh Hd Hin Hm)
        as (_ & _ & _ & _ & _ & req & _ & _ & _ & _ & _ & _ & _ & Hc & _).
      destruct (net_run_drone _ _ _ _ _ _ Hw0 Hr Hd) as (d2 & H2 & _ & Hid). assert (d2 = d0) as -> by congruence.
      injection Hid as _ Ev Et _ _ _ _ _. apply bool_decide_eq_true in Hc. injection Hc as C1 C2 _.
      apply Hne. by rewrite <- Ev, <- Et, C1, C2.
    + rewrite list_lookup_insert_ne by done. by exists d.
  - exists d. split; [|done]. unfold on_guard. by destruct (ingress_handler _ _ _ _) as [o g].
Qed.

(** ** The releasable zone *)
Lemma ProcessPacket_engine a key payload (g : CDSGuard B) : engine (ProcessPacket a key payload g).2 = engine g.
Proof.
  unfold ProcessPacket, ParseJSONEnvelope. destruct (unmarshal_envelope payload) as [env|]; [|done].
  destruct (Evaluate_shape env) as (reason & err & ->). destruct (verdict env); [| |done].
  - unfold pass_packet. by destruct (Telemetry _).
  - unfold redact_packet. repeat case_match; done.
Qed.

Lemma net_run_engine sel w0 es w : net_run sel w0 es w -> engine (guard w) = engine (guard w0).
Proof.
  induction 1 as [|es e w w' Hr IH Hs]; [done|]. rewrite <- IH. clear IH Hr.
  destruct Hs as [w j d1 emit dt now1 now2 Hd1| | |w a key payload Hup Hin Hm| | | |]; try done.
  - by destruct (drone_tick _ _ _ _ _ _) as [d' b].
  - unfold on_guard, ingress_handler. destruct (ingress_filtered key); [done|].
    pose proof (ProcessPacket_engine a key payload (mkGuard (net w) (engine (guard w)) (dlq (guard w)) (stats (guard w)))) as He.
    by destruct (ProcessPacket _ _ _ _) as [o g].
Qed.

Lemma RedactAndSanitize_shape pe env out :
  RedactAndSanitize pe (Some env) = Ok out -> Classification (Header out) = Tier1Public /\ Command out = None /\
  exists t, Telemetry env = Some t /\ Telemetry out = Some (sanitize_telemetry (GPSCoarsenDecimals pe) t).
Proof.
  unfold RedactAndSanitize. destruct (Telemetry env) as [t|]; [|done].
  destruct (ComputePayloadDigest _); [|done]. intros [= <-]. split; [done|]. split; [done|]. by exists t.
Qed.

(** C12. What reaches the releasable zone. After any run - with intruders, tests and any
    interleaving - every message below sec/tier1/ was written there by an intruder or
    an operator's test, or it is the guard's redaction of a message on the wire: of an
    accepted TIER-2 envelope, classified TIER-1, with the sanitized telemetry and no
    command. No vehicle, no gateway and no data mule ever writes there. *)
Theorem tier1_zone sel w0 es w key payload :
  deployed w0 -> net_run sel w0 es w -> (key, payload) ∈ acked (net w) -> HasPrefix key "sec/tier1/" = true ->
  exists es1 e es2 w1, es = es1 ++ e :: es2 /\ net_run sel w0 es1 w1 /\
    match e with
    | Intrude k p => k = key /\ p = payload
    | InjectTest _ r => exists req, decode_inject (Body r) = Some req /\ inject_key req = key
    | Inspect _ k p =>
      exists env t out, (k, p) ∈ acked (net w1) /\ unmarshal_envelope p = Some env /\ accepted env /\
        Classification (Header env) = Tier2Restricted /\ Telemetry (validated env) = Some t /\
        RedactAndSanitize (engine (guard w0)) (Some (validated env)) = Ok out /\ marshal_envelope out = Ok payload /\
        key = egress_key k (VehicleID t) /\ Classification (Header out) = Tier1Public /\ Command out = None /\
        Telemetry out = Some (sanitize_telemetry (GPSCoarsenDecimals (engine (guard w0))) t)
    | _ => False
    end.
Proof.
  intros Hw0 Hr Hin Hk. destruct (wire_created _ _ _ _ _ Hw0 Hr Hin) as (es1 & e & es2 & w1 & -> & Hr1 & Hc).
  exists es1, e, es2, w1. split; [done|]. split; [done|]. rewrite <- (net_run_engine _ _ _ _ Hr1). remember (key, payload) as m eqn:Em.
  destruct Hc as [w2 i d emit dt now1 now2 t v' env data Hd Hs Ht|w2 c rq req env cmd data Hm Hq Ha Hcmd Ho Hd
    |w2 c rq req data Hq|w2 a k0 p0 env k p Hin1 Hu Hacc Hcl Hp Hk1|w2 s now k0 p0 m Hu
    |w2 s rq m Hu|w2 k0 p0]; try injection Em as <- <-.
  - revert Hk. unfold tick_key, tick_tier. by destruct (_ && _).
  - done.
  - by exists req.
  - destruct Hp as [_ Hc1|out text t _ _ Ht Hro Hm]; [by rewrite Hc1 in Hcl|].
    destruct (RedactAndSanitize_shape _ _ _ Hro) as (H1 & H2 & t' & Ht' & H3). exists env, t, out.
    assert (t' = t) as -> by congruence. by split_and!.
  - subst m. unfold upstream in Hu. cbn [fst] in Hu. destruct (HasPrefix_spec key "sec/tier1/") as [Hx _].
    destruct (Hx Hk) as [r ->]. done.
  - subst m. unfold upstream in Hu. cbn [fst] in Hu. destruct (HasPrefix_spec key "sec/tier1/") as [Hx _].
    destruct (Hx Hk) as [r ->]. done.
  - done.
Qed.

(** ** The fleet picture *)
Lemma mule_call_wire s key payload (g : Gateway B) : fleet (mule_ingest s key payload g) = fleet g.
Proof. apply mule_ingest_fleet. Qed.

Lemma append_point_length c l : (length l <= maxTrackPoints)%nat -> (length (append_point c l) <= maxTrackPoints)%nat.
Proof.
  intros Hl. unfold append_point. destruct (_ <? _)%nat eqn:E.
  - pose proof (length_app l [c]) as Hl'. destruct (l ++ [c]); cbn in *; lia.
  - by apply Nat.ltb_ge in E.
Qed.

(** An entry of the fleet: read from a message of the wire, with at most fifty points. *)
Definition from_wire (sel : string) (w : World) (v : string) (st : VehicleState) : Prop :=
  VehicleID (vs_Telemetry st) = v /\ (length (vs_TrackPoints st) <= maxTrackPoints)%nat /\
  exists key payload, (key, payload) ∈ acked (net w) /\ MatchesSelector sel key = true /\
    telemetry_of key payload = Some (vs_Header st, vs_Telemetry st).

Lemma from_wire_step sel e w w' v st : net_step sel e w w' -> from_wire sel w v st -> from_wire sel w' v st.
Proof.
  intros Hs (H1 & H2 & k & p & Hin & Hrest). split; [done|]. split; [done|]. exists k, p.
  split; [by eapply net_run_grows|done].
Qed.

Lemma handleCommand_fleet c r (g : Gateway B) : fleet (handleCommand c r g).2 = fleet g.
Proof.
  unfold handleCommand. repeat case_match; try done. unfold dispatch_command, publish_response.
  repeat case_match; done.
Qed.
Lemma handleInject_fleet c r (g : Gateway B) : fleet (handleInject c r g).2 = fleet g.
Proof.
  unfold handleInject. repeat case_match; try done. unfold inject, publish_response. repeat case_match; done.
Qed.
Lemma handleBackhaulSimulate_fleet s r (g : Gateway B) : fleet (handleBackhaulSimulate s r g).2 = fleet g.
Proof. unfold handleBackhaulSimulate. repeat case_match; done. Qed.

(** C14. The fleet picture is what was said on the wire. After any run, every entry of
    the gateway's fleet is filed under its own vehicle, has a track of at most fifty
    points, and carries the header and telemetry of a message that is on the bus under
    a key of the gateway's subscription, which some event of the run put there. *)
Theorem fleet_from_wire sel w0 es w v st :
  deployed w0 -> net_run sel w0 es w -> fleet (gateway w) !! v = Some st ->
  VehicleID (vs_Telemetry st) = v /\ (length (vs_TrackPoints st) <= 50)%nat /\
  exists key payload, (key, payload) ∈ acked (net w) /\ MatchesSelector sel key = true /\
    telemetry_of key payload = Some (vs_Header st, vs_Telemetry st) /\ created_in sel w0 es (key, payload).
Proof.
  intros Hw0 Hr Hst. assert (from_wire sel w v st) as (H1 & H2 & k & p & Hin & Hm & Ht).
  2: { split; [done|]. split; [done|]. exists k, p. split_and!; try done. by eapply wire_created. }
  destruct Hw0 as (_ & Hf0 & _). revert v st Hst. induction Hr as [|es e w w' Hr IH Hs]; intros v st Hst.
  { rewrite Hf0 in Hst. by rewrite lookup_empty in Hst. }
  assert (forall v st, fleet (gateway w) !! v = Some st -> from_wire sel w' v st) as Hold
    by (intros; eapply from_wire_step; [done|by apply IH]). pose proof Hs as Hs'.
  destruct Hs as [w j d1 emit dt now1 now2 Hd1|w j d1 key payload Hd1 Hin Hm|w s now key payload Hin Hm
    |w a key payload Hup Hin Hm|w c r|w c r|w s r|w key payload]; try (by apply Hold).
  - apply Hold. by destruct (drone_tick _ _ _ _ _ _) as [d' b].
  - unfold on_gateway in Hst. cbn [gateway] in Hst. rewrite handleTelemetry_of in Hst.
    destruct (telemetry_of key payload) as [[h t]|] eqn:Et; [|by apply Hold].
    cbn [fleet set_hub set_fleet] in Hst. rewrite mule_call_wire in Hst. unfold update_fleet in Hst.
    apply lookup_insert_Some in Hst as [[<- <-]|[_ Hst]]; [|by apply Hold].
    split; [done|]. split.
    + cbn [vs_TrackPoints]. apply append_point_length. cbn [fleet set_gw_bus].
      destruct (fleet (gateway w) !! VehicleID t) as [st|] eqn:E; [by apply Hold in E as (_ & ? & _)|cbn; lia].
    + exists key, payload. split; [by eapply net_run_grows|done].
  - apply Hold. unfold on_guard in Hst. by destruct (ingress_handler _ _ _ _) as [o g].
  - apply Hold. unfold on_gateway in Hst. cbn [gateway] in Hst. by rewrite handleCommand_fleet in Hst.
  - apply Hold. unfold on_gateway in Hst. cbn [gateway] in Hst. by rewrite handleInject_fleet in Hst.
  - apply Hold. unfold on_gateway in Hst. cbn [gateway] in Hst. by rewrite handleBackhaulSimulate_fleet in Hst.
Qed.
End Network.

(** * Concrete runs *)
Module NetworkSamples.
#[local] Existing Instance caseless.
#[local] Existing Instance caseless_laws.
#[local] Existing Instance GatewaySamples.no_text.
#[local] Existing Instance GatewaySamples.no_body_text.
Local Open Scope list_scope.
Abbreviation world := (World (B := Recorded (MemoryBus nat))).

Definition bus0 : Recorded (MemoryBus nat) := mkRecorded NewMemoryBus [].
Definition w0 : world :=
  mkWorld bus0 (map (fun v => mkDrone v 0) (swarm 1 1)) (NewGateway bus0 "" None (Err "unused"))
    (NewCDSGuard bus0 (mkDlq [] 500 "" None) 2) true.
Definition sel : string := "sec/tier2/**".

Lemma rebased_plain lat lon v n :
  sim_ok v -> forallb plain_part [vehicleType v; team v; id v] = true -> plain_drone (mkDrone (SetBase lat lon v) n).
Proof.
  intros Hok Hp. split; [by apply (sim_step_ok (Rebased lat lon))|]. cbn [forallb] in Hp.
  rewrite !andb_true_iff in Hp. destruct Hp as (H1 & H2 & H3 & _). by repeat apply Forall_cons_2.
Qed.

Lemma w0_deployed : deployed w0.
Proof.
  split; [done|]. split; [done|].
  apply Forall_cons_2; [apply rebased_plain; [apply NewVehicleSim_ok|by vm_compute]|].
  apply Forall_cons_2; [apply rebased_plain; [apply NewVehicleSim_ok|by vm_compute]|by apply Forall_nil].
Qed.

(** The operator sends blue-alpha home. *)
Definition order : event := Operate GatewaySamples.at_noon GatewaySamples.rtb.
Definition w1 : world := Eval vm_compute in on_gateway (fun g => (handleCommand GatewaySamples.at_noon GatewaySamples.rtb g).2) w0.
Lemma w1_runs : net_run sel w0 [order] w1.
Proof.
  assert (w1 = on_gateway (fun g => (handleCommand GatewaySamples.at_noon GatewaySamples.rtb g).2) w0) as -> by (vm_compute; reflexivity).
  apply (run_snoc sel w0 [] order w0); [constructor|]. apply step_operate.
Qed.
Definition message : string * string := Eval vm_compute in default ("", "") (head (record (net w1))).

(** The guard inspects a TIER-2 packet. *)
Definition packet : event := Intrude GuardSamples.key2 (GuardSamples.text Samples.env2).
Definition inspection : event := Inspect GuardSamples.now GuardSamples.key2 (GuardSamples.text Samples.env2).
Definition w2 : world := set_net (Publish GuardSamples.key2 (GuardSamples.text Samples.env2) (net w0)).2 w0.
Definition w3 : world := on_guard (ingress_handler GuardSamples.now GuardSamples.key2 (GuardSamples.text Samples.env2)) w2.
Lemma w2_wire : acked (net w2) = [(GuardSamples.key2, GuardSamples.text Samples.env2)].
Proof. vm_compute. reflexivity. Qed.
Lemma w3_runs : net_run sel w0 [packet; inspection] w3.
Proof.
  apply (run_snoc sel w0 [packet] inspection w2).
  - apply (run_snoc sel w0 [] packet w0); [constructor|]. apply step_intrude.
  - refine (step_inspect sel w2 GuardSamples.now GuardSamples.key2 (GuardSamples.text Samples.env2) eq_refl _ _); [|by vm_compute]. rewrite w2_wire. by apply list_elem_of_singleton.
Qed.
Definition redaction : string * string := Eval vm_compute in default ("", "") (last (record (net w3))).
Example redaction_key : redaction.1 = "sec/tier1/drone/blue/bravo/telemetry".
Proof. done. Qed.

(** The gateway hears a packet. *)
Definition hearing : event := Report GatewaySamples.env 9 GuardSamples.key2 (GuardSamples.text Samples.env2).
Definition w4 : world := on_gateway (handleTelemetry GatewaySamples.env 9 GuardSamples.key2 (GuardSamples.text Samples.env2)) w2.
Lemma w4_runs : net_run sel w0 [packet; hearing] w4.
Proof.
  apply (run_snoc sel w0 [packet] hearing w2).
  - apply (run_snoc sel w0 [] packet w0); [constructor|]. apply step_intrude.
  - refine (step_report sel w2 GatewaySamples.env 9 GuardSamples.key2 (GuardSamples.text Samples.env2) _ _); [|by vm_compute]. rewrite w2_wire. by apply list_elem_of_singleton.
Qed.
End NetworkSamples.

Lemma orders_have_authority_witness :
  exists c r req, NetworkSamples.order = Operate c r /\ decode_command (U:=caseless) (Body r) = Some req /\
    commands_vehicle (U:=caseless) (req_TargetVehicle req) (blue_drone 0) = true.
Proof.
  assert (NetworkSamples.message ∈ acked (net NetworkSamples.w1)) as Hin by (vm_compute; left).
  assert (honest [NetworkSamples.order]) as Hh by (repeat constructor).
  destruct (@orders_have_authority caseless caseless_laws GatewaySamples.no_text GatewaySamples.no_body_text _ nat _ _
    NetworkSamples.sel NetworkSamples.w0 _ NetworkSamples.w1 0%nat (mkDrone (blue_drone 0) 0)
    NetworkSamples.message.1 NetworkSamples.message.2 NetworkSamples.w0_deployed NetworkSamples.w1_runs Hh eq_refl Hin)
    as (es1 & c & r & es2 & w & req & env & cmd & E & _ & _ & Hd & _ & Hc & _); [vm_compute; reflexivity|].
  exists c, r, req. split; [|split; [exact Hd|exact Hc]].
  destruct es1 as [|e es1]; [|by destruct es1]. unfold NetworkSamples.order in *. by injection E as <- <- _.
Defined.

Lemma others_only_fly_witness :
  exists d, fleet_drones NetworkSamples.w1 !! 1%nat = Some d /\ sim d = fly [] (red_drone 0).
Proof.
  assert (honest [NetworkSamples.order]) as Hh by (repeat constructor).
  apply (@others_only_fly caseless caseless_laws GatewaySamples.no_text GatewaySamples.no_body_text _ nat _ _
    NetworkSamples.sel NetworkSamples.w0 _ NetworkSamples.w1 1%nat (mkDrone (red_drone 0) 0)
    NetworkSamples.w0_deployed NetworkSamples.w1_runs Hh eq_refl). discriminate.
Defined.

Lemma tier1_zone_witness :
  exists env out, unmarshal_envelope (U:=caseless) (GuardSamples.text Samples.env2) = Some env /\
    marshal_envelope out = Ok NetworkSamples.redaction.2 /\ Classification (Header out) = Tier1Public.
Proof.
  assert (NetworkSamples.redaction ∈ acked (net NetworkSamples.w3)) as Hin by (vm_compute; right; left).
  destruct (@tier1_zone caseless caseless_laws GatewaySamples.no_text GatewaySamples.no_body_text _ nat _ _
    NetworkSamples.sel NetworkSamples.w0 _ NetworkSamples.w3 NetworkSamples.redaction.1 NetworkSamples.redaction.2
    NetworkSamples.w0_deployed NetworkSamples.w3_runs Hin eq_refl) as (es1 & e & es2 & w & E & _ & He).
  destruct es1 as [|e1 [|e2 es1]]; [injection E as <- _|injection E as _ <- _|by destruct es1].
  - destruct He as [He _]. vm_compute in He. discriminate.
  - destruct He as (env & t & out & _ & Hu & _ & _ & _ & _ & Hm & _ & Hc & _). exists env, out. split; [exact Hu|]. split; [exact Hm|exact Hc].
Defined.

Lemma fleet_from_wire_witness :
  exists st, fleet (gateway NetworkSamples.w4) !! "bravo" = Some st /\ VehicleID (vs_Telemetry st) = "bravo" /\
    (length (vs_TrackPoints st) <= 50)%nat.
Proof.
  destruct (fleet (gateway NetworkSamples.w4) !! "bravo") as [st|] eqn:E; [|vm_compute in E; discriminate].
  destruct (@fleet_from_wire caseless caseless_laws GatewaySamples.no_text GatewaySamples.no_body_text _ nat _ _
    NetworkSamples.sel NetworkSamples.w0 _ NetworkSamples.w4 "bravo" st NetworkSamples.w0_deployed NetworkSamples.w4_runs E)
    as (H1 & H2 & _).
  exists st. split; [reflexivity|]. split; [exact H1|exact H2].
Defined.
