(* ===== verification/GatewayMain.v ===== *)
(** cmd/c2-gateway/main.go, the main function: how the gateway is put together from its
    flags, the routes of its server with the websocket of the dashboards, and what is
    closed at the end. *)
From Stdlib Require Import Strings.Ascii Strings.String.
From S2P Require Import Prelude GoString Float64 Json GoTime Topic Bus Schema Guard DataMule VehicleSim EdgeAgent Http Server Hub Gateway System Network.

Local Open Scope string_scope.
Local Open Scope Z_scope.
Local Open Scope go_scope.

(** * Start *)
Record GatewayFlags := mkGatewayFlags {
  wf_router : string; wf_port : Z; wf_web_dir : string; wf_cds_url : string; wf_mock : bool;
  wf_spool_file : string; wf_cloud_target : string; wf_telemetry_selector : string;
}.
Definition default_gateway_flags : GatewayFlags :=
  mkGatewayFlags "http://127.0.0.1:8000" 8080 "web" "http://127.0.0.1:8081" false
    "logs/data-mule-spool.jsonl" "relay.platformstaq.com" "sec/tier2/**".

(** What opening a spool file reads from its surroundings: the directory and the
    cleaned path, the clock, the file as it is found, and the errors. *)
Record spool_site := mkSite {
  site_dir : string; site_path : string; site_now : Z; site_lines : list string;
  site_mkdir : option string; site_open : option string;
}.

(** The outcomes of one request: clocks, the link and the disk, the time zone, the
    request to the guard, the upgrade of the connection, and the static files. *)
Record service := mkService {
  sv_clock : clock; sv_around : surroundings; sv_tz : Z;
  sv_new_request : string -> option string; sv_get : string -> result string (Z * string);
  sv_upgrade : result string conn; sv_static : string -> Response;
}.

Inductive route := RFleet | RCommand | RInject | RDlq | RBackhaul | RSimulate | RDashboard | RHealth | RStatic.

Definition gateway_mux : ServeMux route :=
  mkMux [("/api/v1/fleet", RFleet); ("/api/v1/command", RCommand); ("/api/v1/inject", RInject); ("/api/v1/dlq", RDlq);
    ("/api/v1/backhaul", RBackhaul); ("/api/v1/backhaul/simulate", RSimulate); ("/ws/telemetry", RDashboard);
    ("/health", RHealth)] (Some RStatic).

Definition gateway_health : Response :=
  http_json (marshal_fields (sort_keys [str_field "status" "ONLINE"; str_field "service" "c2-gateway"])).

(** An answer: a response, or a connection taken over by the websocket library, which
    answers a failed upgrade itself. *)
Inductive answer := Responded (r : Response) | Upgraded (c : conn) | NotUpgraded.

Section Main.
Context `{U : Unicode} `{JE : JsonErrors} `{BE : BodyErrors} {B H : Type} `{BI : Bus B H}.

Definition open_mule (site : spool_site) (path target : string) (b : B) : result string (DataMule B) :=
  NewDataMule path (site_dir site) (site_path site) 5000 target (Some b) (site_now site) (site_lines site)
    (site_mkdir site) (site_open site).

(** A spool file that cannot be opened is only reported; [NewGateway] then tries the
    default one, [site2], and drops its error. *)
Definition gateway_start (connect : bool -> string -> B) (h : H) (site site2 : spool_site) (f : GatewayFlags)
  : result string (Gateway B) :=
  let b := connect (wf_mock f) (wf_router f) in
  let dm := match open_mule site (wf_spool_file f) (wf_cloud_target f) b with Ok dm => Some dm | Err _ => None end in
  let g := NewGateway b (wf_cds_url f) dm
             (open_mule site2 "logs/data-mule-spool.jsonl" "relay.platformstaq.com" b) in
  match Subscribe (wf_telemetry_selector f) h (gw_bus g) with
  | (Some e, _) => Err ("subscribing to telemetry stream: " +:+ e)
  | (None, b) => Ok (set_gw_bus b g)
  end.

(** * The dashboards

    [h.register <- conn] waits for the hub, for ever when the hub has stopped; the
    reader of a connection asks for its removal at the first read that fails. *)
Definition handleWS (up : result string conn) (g : Gateway B) : option (answer * Gateway B) :=
  match up with
  | Err _ => Some (NotUpgraded, g)
  | Ok c => h ← hub_step (Register c) (hub g); Some (Upgraded c, set_hub h g)
  end.

Fixpoint ws_reader (c : conn) (reads : list (result string string)) (g : Gateway B) : option (Gateway B) :=
  match reads with
  | [] => Some g
  | Ok _ :: reads => ws_reader c reads g
  | Err _ :: _ => h ← hub_step (Unregister c) (hub g); Some (set_hub h g)
  end.

(** * Requests *)
Definition run_route (sv : service) (path : string) (r : Request) (rt : route) (g : Gateway B)
  : option (answer * Gateway B) :=
  let respond (x : Response * Gateway B) := Some (Responded x.1, x.2) in
  match rt with
  | RFleet => respond (handleFleet g, g)
  | RCommand => respond (handleCommand (sv_clock sv) r g)
  | RInject => respond (handleInject (sv_clock sv) r g)
  | RDlq => respond (handleDLQ (sv_new_request sv) (sv_get sv) r g, g)
  | RBackhaul => respond (handleBackhaul (sv_tz sv) g, g)
  | RSimulate => respond (handleBackhaulSimulate (sv_around sv) r g)
  | RDashboard => handleWS (sv_upgrade sv) g
  | RHealth => respond (gateway_health, g)
  | RStatic => respond (sv_static sv path, g)
  end.

(** The request is answered, with the state after it; [None] when it never is. *)
Definition gateway_serve (sv : service) (path : string) (r : Request) (g : Gateway B)
  : option (served answer * Gateway B) :=
  match mux_dispatch gateway_mux (Method r) path with
  | Handled rt => '(a, g) ← run_route sv path r rt g; Some (Handled a, g)
  | MovedPermanently p => Some (MovedPermanently p, g)
  | PageNotFound => Some (PageNotFound, g)
  end.

(** * Stop

    After the server, the mule is closed; the deferred calls end the hub and close the
    bus. *)
Definition gateway_stop (g : Gateway B) : Gateway B :=
  let dm := CloseMule <$> mule g in
  let h := default (hub g) (hub_step Done (hub g)) in
  mkGateway (Close (gw_bus g)).2 h (fleet g) (cdsProxyURL g) dm.
End Main.

(** * Properties *)
Section Properties.
Local Open Scope list_scope.
Context `{U : Unicode} `{JE : JsonErrors} `{BE : BodyErrors} {B H : Type} `{BI : Bus B H}.
Implicit Types g : Gateway B.

(** Which path leads to which handler. *)
Definition path_of (rt : route) : option string :=
  match rt with
  | RFleet => Some "/api/v1/fleet" | RCommand => Some "/api/v1/command" | RInject => Some "/api/v1/inject"
  | RDlq => Some "/api/v1/dlq" | RBackhaul => Some "/api/v1/backhaul" | RSimulate => Some "/api/v1/backhaul/simulate"
  | RDashboard => Some "/ws/telemetry" | RHealth => Some "/health" | RStatic => None
  end.

Lemma dispatched_path m path rt :
  mux_dispatch gateway_mux m path = Handled rt -> match path_of rt with Some p => path = p | None => True end.
Proof.
  unfold mux_dispatch. assert (forall x, mux_match gateway_mux path = Handled x ->
    match path_of x with Some p => path = p | None => True end) as Hm.
  { intros x. unfold mux_match. cbn [routes catch_all gateway_mux List.find fst].
    repeat match goal with
    | |- context [if String.eqb ?p path then _ else _] => destruct (String.eqb_spec p path) as [<-|]
    end; by intros [= <-]. }
  destruct (String.eqb m "CONNECT"); [apply Hm|]. destruct (String.eqb _ path); [apply Hm|done].
Qed.

Definition mutating : list string := ["/api/v1/command"; "/api/v1/inject"; "/api/v1/backhaul/simulate"].

Lemma not_post_command c r g : Method r <> "POST" -> (handleCommand c r g).2 = g.
Proof. intros Hm. unfold handleCommand. by rewrite (proj2 (String.eqb_neq _ _) Hm). Qed.
Lemma not_post_inject c r g : Method r <> "POST" -> (handleInject c r g).2 = g.
Proof. intros Hm. unfold handleInject. by rewrite (proj2 (String.eqb_neq _ _) Hm). Qed.
Lemma not_post_simulate s r g : Method r <> "POST" -> (handleBackhaulSimulate s r g).2 = g.
Proof. intros Hm. unfold handleBackhaulSimulate. by rewrite (proj2 (String.eqb_neq _ _) Hm). Qed.

(** C18. What a request can change. No request changes the picture of the fleet. The rest
    of the gateway - its bus, its data mule, its hub - is left exactly as it was, except
    by a POST to the three paths that command, inject and simulate, and by a dashboard
    that connects, which only the hub notices. *)
Theorem requests_read_only sv path r g a g' :
  gateway_serve sv path r g = Some (a, g') ->
  fleet g' = fleet g /\
  (g' = g \/ (Method r = "POST" /\ path ∈ mutating) \/
   (path = "/ws/telemetry" /\ exists c h, sv_upgrade sv = Ok c /\ hub_step (Register c) (hub g) = Some h /\ g' = set_hub h g)).
Proof.
  unfold gateway_serve. destruct (mux_dispatch gateway_mux (Method r) path) as [rt|p|] eqn:E;
    [|intros [= <- <-]; by split; [|left]..].
  apply dispatched_path in E. unfold mutating. rewrite !elem_of_cons.
  destruct (decide (Method r = "POST")) as [Hp|Hp]; destruct rt; cbn [path_of] in E; cbn [run_route mbind option_bind];
    try (intros [= <- <-]; cbn [fst snd];
         rewrite ?handleCommand_fleet, ?handleInject_fleet, ?handleBackhaulSimulate_fleet; by auto 10).
  - unfold handleWS. destruct (sv_upgrade sv) as [c|]; [|intros [= <- <-]; by auto].
    destruct (hub_step (Register c) (hub g)) as [h|] eqn:Eh; [|done]. intros [= <- <-]. split; [done|].
    right. right. split; [done|]. by exists c, h.
  - intros [= <- <-]. cbn [snd]. rewrite not_post_command by done. by auto.
  - intros [= <- <-]. cbn [snd]. rewrite not_post_inject by done. by auto.
  - intros [= <- <-]. cbn [snd]. rewrite not_post_simulate by done. by auto.
  - unfold handleWS. destruct (sv_upgrade sv) as [c|]; [|intros [= <- <-]; by auto].
    destruct (hub_step (Register c) (hub g)) as [h|] eqn:Eh; [|done]. intros [= <- <-]. split; [done|].
    right. right. split; [done|]. by exists c, h.
Qed.

(** ** What goes to the cloud *)
Context `{BL : !BusLog B} `{BA : !BusAlive B}.

(** The link works and no outage is simulated. *)
Definition forwarding g : Prop :=
  alive (gw_bus g) /\ exists dm, mule g = Some dm /\ is_Some (upstreamBus dm) /\ status dm = BackhaulOnline /\ simulatedDDIL dm = false.

Lemma handleTelemetry_forwards s now key payload g :
  forwarding g ->
  let g' := handleTelemetry s now key payload g in
  forwarding g' /\ acked (gw_bus g') = acked (gw_bus g) ++
    match forwards (s, now, key, payload) with Some m => [m] | None => [] end.
Proof.
  intros (Hal & dm & Hm & [b0 Hb0] & Hst & Hsim). cbv zeta. rewrite handleTelemetry_of. unfold forwards.
  destruct (telemetry_of key payload) as [[hd t]|].
  2: { rewrite app_nil_r. split; [|done]. split; [done|]. exists dm. by split_and!. }
  unfold mule_ingest. rewrite Hm. unfold mule_call. rewrite Hb0. unfold Ingest. cbn [upstreamBus set_bus status simulatedDDIL].
  rewrite Hst, Hsim. cbn [is_online negb andb].
  destruct (alive_publish (formatUpstreamTopic key) payload (gw_bus g) Hal) as [Hpub Hal'].
  destruct (Publish _ _ _) as [err b] eqn:Eb. cbn [fst snd] in *. subst err.
  cbn [upstreamBus set_lastSync set_synced set_bus default gw_bus set_hub set_fleet set_mule].
  split; [|by apply acked_ok in Eb]. split; [done|]. eexists. split; [reflexivity|]. by split_and!.
Qed.

Lemma telemetry_run_forwards ms g :
  forwarding g -> forwarding (telemetry_run ms g) /\
    acked (gw_bus (telemetry_run ms g)) = acked (gw_bus g) ++ omap forwards ms.
Proof.
  revert g. induction ms as [|[[[s now] key] payload] ms IH]; intros g Hg; [by rewrite app_nil_r|].
  cbn [telemetry_run fold_left]. destruct (handleTelemetry_forwards s now key payload g Hg) as [Hg' Ha].
  destruct (IH _ Hg') as [Hr Hack]. split; [exact Hr|]. unfold telemetry_run in Hack. rewrite Hack, Ha, <- app_assoc.
  f_equal. cbn [omap list_omap]. by destruct (forwards _).
Qed.

(** A gateway that was started, its spool file opened, on a bus that works. *)
Lemma started_forwarding connect (h : H) site site2 f g :
  gateway_start connect h site site2 f = Ok g -> site_mkdir site = None -> site_open site = None -> alive (gw_bus g) ->
  forwarding g.
Proof.
  unfold gateway_start, open_mule, NewDataMule. intros Hs Hd Ho Hal. rewrite Hd, Ho in Hs.
  destruct (Subscribe _ _ _) as [[e|] b]; [done|]. injection Hs as <-. split; [done|].
  destruct (is_empty (wf_spool_file f)); (eexists; split; [reflexivity|]; by split_and!).
Qed.

Lemma tier2_selected v :
  Forall (fun p => plain_part p = true) [vehicleType v; team v; id v] ->
  MatchesSelector (wf_telemetry_selector default_gateway_flags) (sim_telemTopic v) = true.
Proof.
  rewrite !Forall_cons. intros (H1 & H2 & H3 & _). unfold sim_telemTopic.
  apply plain_part_parts in H1 as (_ & _ & _ & F1), H2 as (_ & _ & _ & F2), H3 as (_ & _ & _ & F3).
  rewrite MatchesSelector_parts, BuildKey_join. change slash with "/"%char in *.
  rewrite Split_join by (done || (repeat constructor; done)). reflexivity.
Qed.

(** C15. TIER-2 reports leave by the backhaul as they are. A gateway that was started with
    its default selector, on a working bus and with an open spool file, whatever
    telemetry it has handled since, is subscribed to the TIER-2 report of every drone;
    when it handles one it publishes the very bytes of the report below upstream/, and
    what leaves still decodes to a TIER-2 envelope with the position of the vehicle at
    full precision. Nothing on this way is validated, redacted or quarantined. *)
Theorem tier2_leaves_by_the_backhaul {B2 H2} `{BI2 : Bus B2 H2} `{BL2 : !BusLog B2} `{BA2 : !BusAlive B2}
    `{UL : !UnicodeLaws U} connect (h : H) site site2 f g0 ms emit dt now1 now2 d (b : B2) s now :
  gateway_start connect h site site2 f = Ok g0 -> site_mkdir site = None -> site_open site = None -> alive (gw_bus g0) ->
  let '(t, v) := Step dt (sim d) in
  reportable t v now2 -> tick_tier emit (count d + 1) = Tier2Restricted -> alive b ->
  let g := telemetry_run ms g0 in
  exists key data env, acked (drone_tick emit dt now1 now2 d b).2 = acked b ++ [(key, data)] /\
    MatchesSelector (wf_telemetry_selector default_gateway_flags) key = true /\
    acked (gw_bus (handleTelemetry s now key data g)) = acked (gw_bus g) ++ [("upstream/" +:+ key, data)] /\
    unmarshal_envelope data = Some env /\ Classification (Header env) = Tier2Restricted /\
    Telemetry env = Some (Normalize t).
Proof.
  intros Hs Hd Ho Hal. destruct (Step dt (sim d)) as [t v] eqn:Es. intros Hr Htier Hb g.
  destruct (telemetry_run_forwards ms g0 (started_forwarding _ _ _ _ _ _ Hs Hd Ho Hal)) as [Hg _]. fold g in Hg.
  destruct (tick_message_decodes Tier2Restricted now1 now2 t v eq_refl Hr) as (env & data & Hmsg & Hu & Htel & Hc & _).
  destruct (alive_publish (tick_key Tier2Restricted v) data b Hb) as [Hpub _].
  exists (tick_key Tier2Restricted v), data, env. unfold drone_tick. rewrite Es, Htier, Hmsg.
  destruct (Publish _ _ b) as [err b'] eqn:Eb. cbn [fst snd] in *. subst err. split; [by apply acked_ok in Eb|].
  split; [by apply tier2_selected, (rep_parts _ _ _ Hr)|]. split; [|done].
  destruct (handleTelemetry_forwards s now (tick_key Tier2Restricted v) data g Hg) as [_ ->]. f_equal.
  unfold forwards, telemetry_of, ParseJSONEnvelope. by rewrite telemetry_key_not_cloud, Hu, Htel.
Qed.

(** ** What a restart loses *)
Lemma Ingest_keeps_spool s topic payload (dm : DataMule B) :
  is_Some (spoolFile dm) -> is_Some (spoolFile (Ingest s topic payload dm)).
Proof.
  intros [sp Hsp]. assert (forall dm' : DataMule B, spoolFile dm' = Some sp -> is_Some (spoolFile (spool_packet s topic payload dm'))) as Hp.
  { intros dm' E. unfold spool_packet. cbn [spoolFile set_spool set_buffer]. rewrite E. by eexists. }
  unfold Ingest. destruct (upstreamBus dm); [|by apply Hp]. destruct (_ && _); [|by apply Hp].
  destruct (Publish _ _ _) as [[e|] b']; [by apply Hp|]. by exists sp.
Qed.

Lemma ingest_all_keeps_spool l (dm : DataMule B) : is_Some (spoolFile dm) -> is_Some (spoolFile (ingest_all l dm)).
Proof.
  revert dm. induction l as [|[[s topic] payload] l IH]; intros dm Hd; [done|].
  cbn [ingest_all]. by apply IH, Ingest_keeps_spool.
Qed.

(** A flush that sends something empties the file, whatever its lines. *)
Lemma restore_truncates s (dm : DataMule B) b :
  upstreamBus dm = Some b -> alive b -> buffer dm <> [] -> is_Some (spoolFile dm) -> reopen s = true ->
  spoolFile (SetSimulationMode s false dm).2 = Some (mkSpool [] true).
Proof.
  intros Hb Hal Hbuf [sp Hsp] Hre. unfold SetSimulationMode, Flush. cbn [snd buffer set_simulation].
  destruct (buffer dm) as [|p pkts] eqn:Ebuf; [done|].
  destruct (flush_loop_spec (p :: pkts) 0 (set_simulation false BackhaulOnline 42 dm) b Hb)
    as (pre & post & dm' & err & E & _ & _ & _ & _ & _ & _ & _ & _ & Hspool & _ & b' & _ & Hal').
  rewrite E. destruct (Hal' Hal) as [-> _]. cbn [snd spoolFile set_spool set_status set_lastSync set_buffer].
  rewrite Hspool. cbn [spoolFile set_simulation]. rewrite Hsp. cbn [spool_truncate]. by rewrite Hre.
Qed.

(** C16. A restart abandons the backlog. A gateway that starts over a spool file full of
    packets that an earlier run could not send reports an empty buffer, and flushing
    sends none of them; the next outage that is flushed sends the packets of that outage
    only and then empties the file, so that the packets spooled before the restart are
    never sent and are gone. *)
Theorem restart_abandons_backlog connect (h : H) site site2 f g :
  gateway_start connect h site site2 f = Ok g -> wf_spool_file f <> "" -> site_mkdir site = None -> site_open site = None ->
  exists dm, mule g = Some dm /\ spoolFile dm = Some (mkSpool (site_lines site) true) /\
    SpooledPackets (Metrics dm) = 0%nat /\
    (forall s, (Flush s dm).1 = (0%nat, None) /\ mule_acked (Flush s dm).2 = mule_acked dm) /\
    (forall s1 s2 l b, l <> [] -> reopen s2 = true -> upstreamBus dm = Some b -> alive b ->
       let up := (SetSimulationMode s2 false (ingest_all l (SetSimulationMode s1 true dm).2)).2 in
       mule_acked up = mule_acked dm ++ lastn 5000 (forwarded l) /\ spoolFile up = Some (mkSpool [] true)).
Proof.
  unfold gateway_start, open_mule, NewDataMule. intros Hs Hf Hd Ho. rewrite Hd, Ho, (proj2 (is_empty_spec _) Hf) in Hs.
  destruct (Subscribe _ _ _) as [[e|] b0]; [done|]. injection Hs as <-. eexists. split; [reflexivity|].
  set (dm := mkMule _ _ _ _ _ _ _ _ _ _ _). split; [done|]. split; [done|]. split; [done|].
  intros s1 s2 l b Hl Hre Hb Hal.
  destruct (outage_delivery s1 s2 l dm b Hb Hal eq_refl ltac:(cbn; lia)) as (_ & Hack & _). split; [exact Hack|].
  destruct (ingest_all_offline l (SetSimulationMode s1 true dm).2 []) as (_ & _ & E3 & E4 & E5); [by left|cbn; lia|done|].
  apply (restore_truncates s2 _ b); [by rewrite E4|done| |apply ingest_all_keeps_spool; by eexists|done].
  intros E. rewrite E in E5. apply (f_equal length) in E5. rewrite length_lastn in E5. cbn [app] in E5.
  unfold forwarded in E5. rewrite length_fmap in E5. destruct l; [done|]. cbn in E5. lia.
Qed.
End Properties.

(** * Concrete runs *)
Module GatewayMainSamples.
#[local] Existing Instance caseless.
#[local] Existing Instance caseless_laws.
#[local] Existing Instance GatewaySamples.no_text.
#[local] Existing Instance GatewaySamples.no_body_text.
Local Open Scope list_scope.

Definition connect (mock : bool) (url : string) : GatewaySamples.bus_type := GatewaySamples.bus0.
Definition site (found : list string) : spool_site := mkSite "logs" "logs/data-mule-spool.jsonl" 0 found None None.
Definition started (found : list string) : Gateway GatewaySamples.bus_type := Eval vm_compute in
  match gateway_start connect 3%nat (site found) (site []) default_gateway_flags with
  | Ok g => g | Err _ => GatewaySamples.gw0 end.
Lemma start_ok found : gateway_start connect 3%nat (site found) (site []) default_gateway_flags = Ok (started found).
Proof. vm_compute. reflexivity. Qed.

Definition sv (up : result string conn) : service :=
  mkService GatewaySamples.at_noon GatewaySamples.env 0 (fun _ => None) (fun _ => Err "down") up (fun _ => mkResponse 200 "index").

Definition summary (x : option (served answer * Gateway GatewaySamples.bus_type)) : option (served Z) :=
  match x with
  | Some (Handled (Responded r), _) => Some (Handled (Code r))
  | Some (Handled (Upgraded _), _) => Some (Handled 101)
  | Some (Handled NotUpgraded, _) => Some (Handled 400)
  | Some (MovedPermanently p, _) => Some (MovedPermanently p)
  | Some (PageNotFound, _) => Some PageNotFound
  | None => None
  end.

Example routes_taken :
  map (fun '(m, p) => summary (gateway_serve (sv (Ok 1%nat)) p (mkRequest m "") (started [])))
    [("GET", "/api/v1/fleet"); ("GET", "/api/v1/command"); ("POST", "/api/v1/command"); ("GET", "/api/v1/dlq");
     ("GET", "/ws/telemetry"); ("GET", "/health"); ("GET", "/api/v1/backhaul/"); ("GET", "//health"); ("GET", "/app.js")] =
  map Some [Handled 200; Handled 405; Handled 400; Handled 503; Handled 101; Handled 200; Handled 200;
    MovedPermanently "/health"; Handled 200].
Proof. by vm_compute. Qed.

(** A dashboard that connects to a hub that has stopped waits for ever. *)
Example stopped_hub : gateway_serve (sv (Ok 1%nat)) "/ws/telemetry" (mkRequest "GET" "") (gateway_stop (H:=nat) (started [])) = None.
Proof. by vm_compute. Qed.

Definition before : Gateway GatewaySamples.bus_type := started [].
Definition connected : Gateway GatewaySamples.bus_type := Eval vm_compute in
  match gateway_serve (sv (Ok 1%nat)) "/ws/telemetry" (mkRequest "GET" "") before with Some (_, g) => g | None => before end.
Lemma connects : gateway_serve (sv (Ok 1%nat)) "/ws/telemetry" (mkRequest "GET" "") before = Some (Handled (Upgraded 1%nat), connected).
Proof. vm_compute. reflexivity. Qed.
End GatewayMainSamples.

Lemma requests_read_only_witness :
  fleet GatewayMainSamples.connected = fleet GatewayMainSamples.before.
Proof.
  exact (proj1 (@requests_read_only caseless GatewaySamples.no_body_text _ nat _
    (GatewayMainSamples.sv (Ok 1%nat)) "/ws/telemetry" (mkRequest "GET" "") GatewayMainSamples.before
    (Handled (Upgraded 1%nat)) GatewayMainSamples.connected GatewayMainSamples.connects)).
Defined.

Lemma restart_abandons_backlog_witness :
  exists dm, mule (GatewayMainSamples.started ["p1"; "p2"]) = Some dm /\
    spoolFile dm = Some (mkSpool ["p1"; "p2"] true) /\ (Flush GatewaySamples.env dm).1 = (0%nat, None).
Proof.
  destruct (@restart_abandons_backlog caseless _ nat _ _ _ GatewayMainSamples.connect 3%nat
    (GatewayMainSamples.site ["p1"; "p2"]) (GatewayMainSamples.site []) default_gateway_flags
    (GatewayMainSamples.started ["p1"; "p2"]) (GatewayMainSamples.start_ok ["p1"; "p2"]) ltac:(discriminate) eq_refl eq_refl)
    as (dm & H1 & H2 & _ & H4 & _).
  exists dm. split; [exact H1|]. split; [exact H2|]. exact (proj1 (H4 GatewaySamples.env)).
Defined.

Lemma tier2_leaves_by_the_backhaul_witness :
  let g := telemetry_run (U:=caseless) (JE:=GatewaySamples.no_text) GatewaySamples.messages GatewayMainSamples.before in
  exists key data, acked (drone_tick (U:=caseless) true (of_Z 1) 7 8 (mkDrone EdgeSamples.bravo 0) EdgeSamples.bus0).2 = [(key, data)] /\
    acked (gw_bus (handleTelemetry (U:=caseless) (JE:=GatewaySamples.no_text) GatewaySamples.env 9 key data g)) =
      (acked (gw_bus g) ++ [("upstream/" +:+ key, data)])%list.
Proof.
  intros g.
  pose proof (@tier2_leaves_by_the_backhaul caseless GatewaySamples.no_text GatewaySamples.bus_type nat _ _ _
    EdgeSamples.bus_type nat _ _ _ caseless_laws GatewayMainSamples.connect 3%nat
    (GatewayMainSamples.site []) (GatewayMainSamples.site []) default_gateway_flags
    GatewayMainSamples.before GatewaySamples.messages true (of_Z 1) 7 8 (mkDrone EdgeSamples.bravo 0) EdgeSamples.bus0
    GatewaySamples.env 9 (GatewayMainSamples.start_ok []) eq_refl eq_refl eq_refl) as H.
  cbn [EdgeAgent.sim] in H. rewrite TickSamples.bravo_step in H.
  destruct (H TickSamples.bravo_reportable eq_refl eq_refl) as (key & data & env & H1 & _ & H2 & _).
  exists key, data. split; [exact H1|exact H2].
Defined.
