(* ===== verification/AgentMain.v ===== *)
(** cmd/edge-agent/main.go, the main function: the instances that the flags launch, how
    each of them starts, and the loop of a drone until it is cancelled. *)
From Stdlib Require Import Strings.Ascii Strings.String SpecFloat.
From S2P Require Import Prelude GoTime Crc Messages Stream GoString Float64 Json JsonText Topic Serial Bus Schema Guard Bridge Clients VehicleSim EdgeAgent System Network.

Local Open Scope string_scope.
Local Open Scope Z_scope.
Local Open Scope go_scope.

(** * Flags *)
Record AgentFlags := mkAgentFlags {
  af_swarm : bool; af_mavlink : bool; af_mavlink_addr : string; af_mavlink_serial : string; af_mavlink_baud : Z;
  af_blue_count : Z; af_red_count : Z; af_id : string; af_type : string; af_team : string; af_router : string;
  af_rate : f64; af_emit_tier3 : bool; af_mock : bool;
}.
Definition default_agent_flags : AgentFlags :=
  mkAgentFlags false false ":14550" "" 115200 5 5 "bravo" "drone" "blue" "http://127.0.0.1:8000" (of_Z 1) false false.

(** What one goroutine runs. *)
Inductive instance :=
| Simulated (v : VehicleSim) (rateHz : f64) (emitTier3 : bool)
| MavlinkBridge (unitID team vType udpAddr serialPort : string) (baud : Z).

(** The loops [for i := 0; i < count; i++] run no time for a negative count. *)
Definition launch (f : AgentFlags) : list instance :=
  if af_mavlink f then
    [MavlinkBridge (af_id f) (af_team f) (af_type f) (af_mavlink_addr f) (af_mavlink_serial f) (af_mavlink_baud f)]
  else if af_swarm f then
    (map (fun i => Simulated (blue_drone i) (af_rate f) (af_emit_tier3 f && (i =? 0)%nat)) (seq 0 (Z.to_nat (af_blue_count f))) ++
     map (fun i => Simulated (red_drone i) (af_rate f) false) (seq 0 (Z.to_nat (af_red_count f))))%list
  else [Simulated (single_drone (af_id f) (af_type f) (af_team f)) (af_rate f) (af_emit_tier3 f)].

Section Main.
Context `{U : Unicode} `{JE : JsonErrors} {B H : Type} `{BI : Bus B H}.

(** * A simulated drone *)

(** The subscription comes first, its failure is only logged; then the ticker is made,
    which panics, and with it the whole agent, unless the interval is positive. *)
Definition start_drone (h : H) (v : VehicleSim) (rateHz : f64) (b : B) : option (Drone * Z) * B :=
  let b := (Subscribe (sim_cmdTopic v) h b).2 in
  (interval ← tick_interval rateHz; Some (mkDrone v 0, interval), b).

(** What happens to a running drone: a tick, a message for its subscription, or the
    cancellation, after which only the subscription is left. *)
Inductive drone_event := Ticked (now1 now2 : Z) | Ordered (key payload : string) | Cancelled.

Definition drone_turn (emitTier3 : bool) (interval : Z) (e : drone_event) (x : Drone * bool * B) : Drone * bool * B :=
  let '(d, running, b) := x in
  match e with
  | Ticked now1 now2 =>
    if running then let '(d, b) := drone_tick emitTier3 (Seconds interval) now1 now2 d b in (d, true, b) else x
  | Ordered key payload => (mkDrone (command_handler key payload (sim d)) (count d), running, b)
  | Cancelled => (d, false, b)
  end.

Definition drone_run (emitTier3 : bool) (interval : Z) (es : list drone_event) (x : Drone * bool * B) : Drone * bool * B :=
  fold_left (fun x e => drone_turn emitTier3 interval e x) es x.

(** * The MAVLink instance

    It ends at once when its port or socket cannot be opened; otherwise the client is
    started and the commands of the vehicle are relayed. *)
Definition start_mavlink {file A} (p : platform) (dev : device file) (bytes : file -> source)
  (resolve : string -> result string A) (bind : A -> option string) (h : H)
  (unitID team vType udpAddr serialPort : string) (baud : Z) (b : B)
  : result string (SerialPort file * StreamClient + UDPClient A) * B :=
  match mavlink_connect p dev bytes resolve bind unitID team vType udpAddr serialPort baud with
  | Err e => (Err e, b)
  | Ok c => (Ok c, (Subscribe (BuildKey "tier2" vType team unitID "command") h b).2)
  end.

(** * All instances

    The drones that run, on the shared bus; [None] when a ticker panics. MAVLink
    instances are started by [start_mavlink]. *)
Fixpoint start_all (h : H) (l : list instance) (b : B) : option (list (Drone * Z * bool) * B) :=
  match l with
  | [] => Some ([], b)
  | Simulated v rate emit :: l =>
    match start_drone h v rate b with
    | (Some (d, interval), b) => '(ds, b) ← start_all h l b; Some ((d, interval, emit) :: ds, b)
    | (None, _) => None
    end
  | MavlinkBridge _ _ _ _ _ _ :: l => start_all h l b
  end.
End Main.

(** * The names of the swarm *)

(** Text in lower case without separators and wild cards. *)
Definition name_char (a : ascii) : bool := is_lower a && negb (Ascii.eqb a slash) && negb (Ascii.eqb a "*").

Lemma name_plain s : str_forall name_char s = true -> plain_part s = true /\ str_forall is_lower s = true.
Proof.
  intros Hs. unfold plain_part, key_part, free_of. rewrite !andb_true_iff.
  split_and!; revert Hs; apply str_forall_impl; unfold name_char, is_lower; intros a; rewrite !andb_true_iff; tauto.
Qed.

Lemma digit_name_char a : is_digit a = true -> name_char a = true.
Proof.
  revert a. assert (forall a, implb (is_digit a) (name_char a) = true) as H by (apply forall_ascii; by vm_compute).
  intros a Ha. specialize (H a). by rewrite Ha in H.
Qed.

Lemma dec_name z : 0 <= z -> str_forall name_char (dec z) = true.
Proof.
  intros Hz. destruct (dec_nonneg z Hz) as [[Hd _]%int_part_digits _]. revert Hd. apply str_forall_impl, digit_name_char.
Qed.

Lemma dec_inj m n : 0 <= m -> 0 <= n -> dec m = dec n -> m = n.
Proof. intros Hm Hn E. rewrite <- (proj2 (dec_nonneg m Hm)), <- (proj2 (dec_nonneg n Hn)). by rewrite E. Qed.

(** The call sign of the i-th blue drone. *)
Definition blue_name (i : nat) : string := match blueCallsigns !! i with Some c => c | None => dec (Z.of_nat i + 1) end.

Lemma blue_id i : id (blue_drone i) = "blue-" +:+ blue_name i.
Proof. unfold blue_drone, blue_name. cbn [id SetBase NewVehicleSim]. by destruct (blueCallsigns !! i). Qed.
Lemma red_id i : id (red_drone i) = "red-" +:+ dec (Z.of_nat i + 1).
Proof. done. Qed.

Lemma blue_name_chars i : str_forall name_char (blue_name i) = true.
Proof.
  unfold blue_name. destruct (blueCallsigns !! i) as [c|] eqn:E; [|apply dec_name; lia].
  assert (Forall (fun c => str_forall name_char c = true) blueCallsigns) as Hc by (repeat constructor).
  by apply (Forall_lookup_1 _ _ _ _ Hc E).
Qed.

(** A number is not a call sign: it starts with a digit. *)
Lemma call_sign_not_number c z : c ∈ blueCallsigns -> 0 <= z -> c <> dec z.
Proof.
  intros Hc Hz ->. assert (forallb (fun c => match c with String a _ => negb (is_digit a) | EmptyString => false end) blueCallsigns = true)
    as Ha by by vm_compute. rewrite forallb_forall in Ha. specialize (Ha _ (proj1 (list_elem_of_In _ _) Hc)).
  destruct (dec_nonneg z Hz) as [[Hd Hne]%int_part_digits _]. destruct (dec z) as [|a s]; [done|].
  cbn in Hd. apply andb_prop in Hd as [Hd _]. by rewrite Hd in Ha.
Qed.

Lemma blue_name_inj i j : blue_name i = blue_name j -> i = j.
Proof.
  unfold blue_name. destruct (blueCallsigns !! i) as [c|] eqn:Ei, (blueCallsigns !! j) as [c'|] eqn:Ej.
  - intros ->. assert (bool_decide (NoDup blueCallsigns) = true) as Hn%bool_decide_eq_true by by vm_compute.
    by eapply NoDup_lookup.
  - intros E. apply list_elem_of_lookup_2 in Ei. by apply call_sign_not_number in E; [|done|lia].
  - intros E. apply list_elem_of_lookup_2 in Ej. symmetry in E. by apply call_sign_not_number in E; [|done|lia].
  - intros E%dec_inj; lia.
Qed.

(** ** The launched vehicles *)
Definition launched_sim (x : instance) : option VehicleSim :=
  match x with Simulated v _ _ => Some v | MavlinkBridge _ _ _ _ _ _ => None end.

(** What sets a vehicle of the swarm apart. *)
Record swarm_member (x : instance) (v : VehicleSim) : Prop := {
  sm_sim : launched_sim x = Some v;
  sm_ok : sim_ok v;
  sm_names : Forall (fun p => str_forall name_char p = true) [vehicleType v; team v; id v];
}.

Lemma str_forall_both (P : ascii -> bool) s t : str_forall P s = true -> str_forall P t = true -> str_forall P (s +:+ t) = true.
Proof. intros H1 H2. by rewrite str_forall_app, H1, H2. Qed.

Lemma rebased_ok lat lon v : sim_ok v -> sim_ok (SetBase lat lon v).
Proof. intros [H1 H2]. by constructor. Qed.

Lemma blue_member i r e : swarm_member (Simulated (blue_drone i) r e) (blue_drone i).
Proof.
  split; [done|apply rebased_ok, NewVehicleSim_ok|]. rewrite blue_id. repeat apply Forall_cons_2; try done.
  apply str_forall_both; [done|apply blue_name_chars].
Qed.
Lemma red_member i r e : swarm_member (Simulated (red_drone i) r e) (red_drone i).
Proof.
  split; [done|apply rebased_ok, NewVehicleSim_ok|]. rewrite red_id. repeat apply Forall_cons_2; try done.
  apply str_forall_both; [done|apply dec_name; lia].
Qed.

Section Swarm.
Context `{U : Unicode} `{JE : JsonErrors}.

(** The topic of a member determines its team and identifier. *)
Lemma topic_names x y v w :
  swarm_member x v -> swarm_member y w -> sim_cmdTopic v = sim_cmdTopic w -> team v = team w /\ id v = id w.
Proof.
  intros [_ _ Hv] [_ _ Hw]. rewrite !Forall_cons in Hv, Hw. destruct Hv as (V1 & V2 & V3 & _), Hw as (W1 & W2 & W3 & _).
  intros E. assert (MatchesSelector (sim_cmdTopic v) (sim_cmdTopic w) = true) as Hm
    by (unfold MatchesSelector; by rewrite E, String.eqb_refl, orb_true_r).
  apply name_plain in V1 as [P1 L1], V2 as [P2 L2], V3 as [P3 L3], W1 as [Q1 M1], W2 as [Q2 M2], W3 as [Q3 M3].
  unfold sim_cmdTopic in Hm. rewrite command_selector_matches in Hm by (repeat constructor; done).
  apply bool_decide_eq_true in Hm. rewrite !ToLower_lower in Hm by done. by injection Hm as _ -> ->.
Qed.

(** Only a message on its own topic moves a member. *)
Lemma moved_by_topic x v key payload :
  swarm_member x v -> command_handler key payload v <> v -> key = sim_cmdTopic v.
Proof.
  intros [_ _ Hv] Hne. destruct (MatchesSelector (sim_cmdTopic v) key) eqn:Em.
  2: { destruct Hne. unfold command_handler, received_command. by rewrite Em. }
  rewrite !Forall_cons in Hv. destruct Hv as (V1 & V2 & V3 & _).
  apply name_plain in V1 as [P1 _], V2 as [P2 _], V3 as [P3 _].
  rewrite MatchesSelector_parts, match_parts_plain in Em.
  - apply bool_decide_eq_true in Em. rewrite <- (join_Split key slash), <- Em. apply join_Split.
  - unfold sim_cmdTopic. rewrite BuildKey_join.
    apply plain_part_parts in P1 as (_ & _ & S1 & F1), P2 as (_ & _ & S2 & F2), P3 as (_ & _ & S3 & F3).
    change slash with "/"%char in *. rewrite Split_join by (done || (repeat constructor; done)). by repeat constructor.
Qed.

(** ** The flags of a swarm *)
Lemma launch_swarm f : af_mavlink f = false -> af_swarm f = true ->
  launch f = (map (fun i => Simulated (blue_drone i) (af_rate f) (af_emit_tier3 f && (i =? 0)%nat)) (seq 0 (Z.to_nat (af_blue_count f))) ++
     map (fun i => Simulated (red_drone i) (af_rate f) false) (seq 0 (Z.to_nat (af_red_count f))))%list.
Proof. intros Hm Hs. unfold launch. by rewrite Hm, Hs. Qed.

Lemma launched_lookup f i x :
  af_mavlink f = false -> af_swarm f = true -> launch f !! i = Some x ->
  (x = Simulated (blue_drone i) (af_rate f) (af_emit_tier3 f && (i =? 0)%nat) /\ (i < Z.to_nat (af_blue_count f))%nat) \/
  (exists j, x = Simulated (red_drone j) (af_rate f) false /\ i = (Z.to_nat (af_blue_count f) + j)%nat).
Proof.
  intros Hm Hs. rewrite launch_swarm by done. intros [H|[Hl H]]%lookup_app_Some.
  - left. rewrite list_lookup_fmap in H. apply fmap_Some in H as (k & [-> Hk]%lookup_seq & ->). by split.
  - right. rewrite length_map, length_seq in Hl, H. rewrite list_lookup_fmap in H.
    apply fmap_Some in H as (k & [-> Hk]%lookup_seq & ->). eexists. split; [done|lia].
Qed.

Lemma launched_member f i x :
  af_mavlink f = false -> af_swarm f = true -> launch f !! i = Some x -> exists v, swarm_member x v.
Proof.
  intros Hm Hs Hx. destruct (launched_lookup f i x Hm Hs Hx) as [[-> _]|(j & -> & _)]; eexists; [apply blue_member|apply red_member].
Qed.

(** C19. An order reaches one vehicle. Whatever the sizes of the two fleets, the swarm that
    the flags launch has one instance per vehicle, each an operational simulation with a
    name of its own; of all of them at most one - the one whose topic it is - changes on
    any message, whatever its key and content; and only the first blue drone may emit
    TIER-3 packets. *)
Theorem swarm_launch f :
  af_mavlink f = false -> af_swarm f = true ->
  length (launch f) = (Z.to_nat (af_blue_count f) + Z.to_nat (af_red_count f))%nat /\
  (forall i x, launch f !! i = Some x -> exists v, swarm_member x v) /\
  (forall i j x y v w key payload, launch f !! i = Some x -> launch f !! j = Some y ->
     launched_sim x = Some v -> launched_sim y = Some w ->
     command_handler key payload v <> v -> command_handler key payload w <> w -> i = j) /\
  (forall i v r, launch f !! i = Some (Simulated v r true) -> i = 0%nat /\ team v = "blue").
Proof.
  intros Hm Hs. split_and!.
  - rewrite launch_swarm by done. by rewrite length_app, !length_map, !length_seq.
  - intros i x. by apply launched_member.
  - intros i j x y v w key payload Hx Hy Hv Hw Mv Mw.
    destruct (launched_member f i x Hm Hs Hx) as [v' Sv], (launched_member f j y Hm Hs Hy) as [w' Sw].
    assert (v' = v /\ w' = w) as [-> ->] by (destruct Sv as [E1 _ _], Sw as [E2 _ _]; split; congruence).
    pose proof (moved_by_topic x v key payload Sv Mv) as Kv. pose proof (moved_by_topic y w key payload Sw Mw) as Kw.
    destruct (topic_names x y v w Sv Sw) as [Et Ei]; [congruence|].
    destruct (launched_lookup f i x Hm Hs Hx) as [[-> _]|(k & -> & ->)], (launched_lookup f j y Hm Hs Hy) as [[-> _]|(l & -> & ->)];
      cbn [launched_sim] in Hv, Hw; injection Hv as <-; injection Hw as <-; try done.
    + rewrite !blue_id in Ei. apply str_app_inj_l in Ei. by apply blue_name_inj.
    + rewrite !red_id in Ei. apply str_app_inj_l, dec_inj in Ei; lia.
  - intros i v r Hi. destruct (launched_lookup f i _ Hm Hs Hi) as [[[= -> -> He] _]|(j & [= -> -> E] & _)].
    symmetry in He. apply andb_prop in He as [_ He]. apply Nat.eqb_eq in He. by split.
Qed.
End Swarm.

(** * Starting and running *)
Section Running.
Context `{U : Unicode} `{JE : JsonErrors} {B H : Type} `{BI : Bus B H}.

Lemma start_all_panics_iff (h : H) l b :
  start_all h l b = None <-> Exists (fun x => match x with Simulated _ r _ => tick_interval r = None | _ => False end) l.
Proof.
  revert b. induction l as [|[v r e|u t vt a s n] l IH]; intros b; cbn [start_all]; [by rewrite Exists_nil| |].
  - rewrite Exists_cons. unfold start_drone. set (b1 := (Subscribe _ h b).2). destruct (tick_interval r) as [iv|]; cbn [mbind option_bind].
    + specialize (IH b1). destruct (start_all h l b1) as [[ds b2]|]; cbn [mbind option_bind]; split; try done.
      * intros [?|He]; [done|]. by apply IH in He.
      * intros _. right. by apply IH.
    + split; [by left|done].
  - rewrite Exists_cons, IH. split; [by right|by intros [[]|?]].
Qed.

(** One rate for all: the agent dies at the start exactly when a drone is launched and
    the rate has no positive interval in nanoseconds - zero, negative, above 10^9 or so
    small that the interval overflows. *)
Theorem agent_start_panics (h : H) f b :
  af_mavlink f = false ->
  start_all h (launch f) b = None <-> launch f <> [] /\ tick_interval (af_rate f) = None.
Proof.
  intros Hm. assert (Forall (fun x => match x with Simulated _ r _ => r = af_rate f | _ => False end) (launch f)) as Hr.
  { unfold launch. rewrite Hm. destruct (af_swarm f); [|by constructor].
    apply Forall_app. split; apply Forall_forall; intros x (i & -> & _)%list_elem_of_fmap; done. }
  rewrite start_all_panics_iff. destruct (launch f) as [|x l]; [rewrite Exists_nil; by split; [|intros [? _]]|].
  split.
  - intros He. split; [done|]. apply Exists_exists in He as (y & Hy & He). rewrite Forall_forall in Hr. specialize (Hr y Hy).
    destruct y; [by subst|done].
  - intros [_ Ht]. apply Exists_cons_hd. apply Forall_inv in Hr. destruct x; [by subst|done].
Qed.

Example rates_refused :
  map (fun r => bool_decide (tick_interval r = None))
    [fzero; of_Z (-1); of_Z (2 * 10 ^ 9); lit 1 30; S754_nan; of_Z 1; of_Z 50; lit 1 1] =
  [true; true; true; true; true; false; false; false].
Proof. by vm_compute. Qed.

Fixpoint ticks_of (es : list drone_event) : Z :=
  match es with [] => 0 | Ticked _ _ :: es => 1 + ticks_of es | _ :: es => ticks_of es end.

(** While it runs, a drone counts its ticks, which decides the tier of each report; once
    cancelled it publishes nothing and flies no further, though orders still reach it. *)
Theorem drone_run_counts emit iv es d b :
  Forall (fun e => e <> Cancelled) es ->
  let '(d', running, _) := drone_run emit iv es (d, true, b) in running = true /\ count d' = count d + ticks_of es.
Proof.
  intros He. revert d b. induction He as [|e es He _ IH]; intros d b; [cbn; split; [done|lia]|].
  change (drone_run emit iv (e :: es) (d, true, b)) with (drone_run emit iv es (drone_turn emit iv e (d, true, b))).
  destruct e as [n1 n2|k p|]; [| |done]; cbn [drone_turn ticks_of].
  - assert (count (drone_tick emit (Seconds iv) n1 n2 d b).1 = count d + 1) as Hc.
    { unfold drone_tick. destruct (Step _ _) as [t v]. by destruct (tick_message _ _ _ _ _) as [[]|]. }
    destruct (drone_tick _ _ _ _ _ _) as [d1 b1]. cbn [fst] in Hc. specialize (IH d1 b1).
    destruct (drone_run emit iv es (d1, true, b1)) as [[d' r] b']. destruct IH as [-> ->]. split; [done|lia].
  - specialize (IH (mkDrone (command_handler k p (sim d)) (count d)) b). by destruct (drone_run _ _ _ _) as [[d' r] b'].
Qed.

Theorem cancelled_is_silent emit iv es d b :
  let '(d', running, b') := drone_run emit iv es (d, false, b) in
  running = false /\ b' = b /\ count d' = count d /\ sim d' = fold_left (fun v e =>
    match e with Ordered k p => command_handler k p v | _ => v end) es (sim d).
Proof.
  revert d. induction es as [|e es IH]; intros d; [done|].
  change (drone_run emit iv (e :: es) (d, false, b)) with (drone_run emit iv es (drone_turn emit iv e (d, false, b))).
  destruct e as [n1 n2|k p|]; cbn [drone_turn fold_left]; apply IH.
Qed.
End Running.

(** * Concrete fleets *)
Module AgentMainSamples.
#[local] Existing Instance caseless.
#[local] Existing Instance caseless_laws.
#[local] Existing Instance EdgeSamples.no_text.

Definition swarm_flags (blue red : Z) : AgentFlags :=
  mkAgentFlags true false ":14550" "" 115200 blue red "" "" "" "" (of_Z 1) true true.

Example names :
  map (fun x => id <$> launched_sim x) (launch (swarm_flags 9 2)) =
  map Some ["blue-alpha"; "blue-bravo"; "blue-charlie"; "blue-delta"; "blue-echo"; "blue-foxtrot"; "blue-golf"; "blue-8"; "blue-9";
    "red-1"; "red-2"].
Proof. by vm_compute. Qed.
Example no_fleet : launch (swarm_flags (-3) 0) = [].
Proof. done. Qed.
End AgentMainSamples.

Lemma swarm_launch_witness :
  length (launch (AgentMainSamples.swarm_flags 5 5)) = 10%nat /\
  forall i v r, launch (AgentMainSamples.swarm_flags 5 5) !! i = Some (Simulated v r true) -> i = 0%nat.
Proof.
  destruct (@swarm_launch caseless EdgeSamples.no_text (AgentMainSamples.swarm_flags 5 5) eq_refl eq_refl) as (H1 & _ & _ & H4).
  split; [rewrite H1; reflexivity|]. intros i v r Hi. exact (proj1 (H4 i v r Hi)).
Defined.

Lemma agent_start_panics_witness :
  start_all (U:=caseless) 0%nat (launch (mkAgentFlags true false "" "" 0 1 0 "" "" "" "" fzero false true)) (NewMemoryBus (H:=nat)) = None.
Proof.
  apply (@agent_start_panics caseless (MemoryBus nat) nat _ 0%nat (mkAgentFlags true false "" "" 0 1 0 "" "" "" "" fzero false true)
    NewMemoryBus eq_refl). split; [discriminate|vm_compute; reflexivity].
Defined.
